(* ===== verification/_CoqProject ===== *)
-Q . S2P
Prelude.v
Bitmap.v
Interfaces.v
Pmm.v
Crc32.v
Memory.v
CString.v
Common.v
Arena.v
Memmap.v
Vmm.v
PageTables.v
VmmProofs.v
VmmTheorems.v
KernelMemory.v
Isolation.v
AddressSpace.v
VmmDestroy.v
Slab.v
SlabLists.v
SlabProofs.v
SlabTheorems.v
KmallocTheorems.v
Descriptors.v
Devices.v
Printf.v
Process.v
Scheduler.v
ProcessHeap.v
Syscall.v
ProcessSpace.v
ProcessEnd.v
BsfsTypes.v
BsfsFile.v
BsfsRead.v
Ata.v
BsfsTools.v
BsfsPopulate.v
BsfsImage.v
BsfsTheorems.v
BsfsPath.v
Elf.v
ElfTheorems.v
Stage2.v
Stage2Load.v
KernelBoot.v
KernelPaging.v
Video.v
KernelSetup.v
Lapic.v
KernelLaunch.v
KernelSegments.v
Ppm.v
