(* ===== verification/Prelude.v ===== *)
(** * Pristine: a verification development

    Pristine is a small x86-64 operating system.  Stage 1 (assembly) loads stage 2;
    stage 2 ([src/boot/stage2], 32-bit C) reads the file system of the boot disk,
    verifies and loads the kernel, builds page tables and jumps to it; the kernel
    ([src/kernel], 64-bit C) sets up its memory, its own page tables, interrupts and
    the scheduler, loads a program from the disk and runs it.  The tools under
    [src/tools/bsfs] create, fill and extract images of the file system (BSFS).  This
    library models that code as Rocq functions and proves what makes it correct.

    ** How code is modelled

    - An integer of width [w] is a [Z]; [u8] ... [u64], [s32] and [s64] below are the
      conversions, written where the C code converts or can wrap.
    - A function that can fail is in [outcome]: [Ok], [Panic] (a call of [KPANIC] or
      [PANIC], which halts), [Fault] (an access outside an object, which C leaves
      undefined) or [OutOfFuel] (a bounded loop that is not finished).  Stateful code
      is in the state monad [M] over [outcome], whose [mbind] is written [x ← m; k].
      Loops are [for_range], [iter_for] or a [Fixpoint] on a count; a loop without a bound takes fuel, and its theorem says that enough
      fuel gives a result.
    - Memory is a function from addresses to bytes ([Memory]); pointers are addresses.
    - Hardware and other code that is not C in the repository is a parameter with laws:
      the classes [PageAllocator], [KernelMemory], [PortIO], [PicDevice], [Uart],
      [AtaDisk], [DeviceMemory], [LapicTimer], and the disk operations of the reader.
      Each has an instance: the page allocator and the page tables of the kernel for the
      first two, concrete devices for the others.
    - [PRISTINE_DEBUG] is the boolean [debug]; theorems hold for both builds.

    ** The files

    Generic: [Prelude] (integers, outcomes, the monad, tactics, list lemmas), [Memory]
    (bytes and words), [Common] ([include/common/common.h]), [Interfaces] (what a page
    allocator promises).

    Memory management, from the bottom:
    - [Bitmap] ([kernel/bitmap.c]) and [Pmm] ([kernel/kernel/pmm.c]): the search by
      64-bit words finds the lowest clear bit; an allocation takes the lowest free page
      and panics exactly when there is none; freeing undoes it.
    - [Memmap] ([kernel/common/memmap.c]): the bits the firmware's memory map sets.
    - [Vmm] ([kernel/kernel/vmm.c]), against the processor's page walk of [PageTables]:
      each mapping function changes the translation of exactly one page and keeps the
      tables a tree of allocated pages ([VmmProofs], [VmmTheorems]).
    - [KernelMemory]: the interface of a client that maps pages and uses pointers into
      them, implemented by [Pmm] and [Vmm]; [Isolation]: the same interface with pages
      that no client touches; [AddressSpace]: page maps as functions; [VmmDestroy]: what
      [vmm_destroy] gives back.
    - [Slab] ([slab.c], [kmalloc.c]), its linked lists ([SlabLists]), invariant
      ([SlabProofs]), operations ([SlabTheorems]), the refinement of an abstract
      heap of blocks and that no page outlives its blocks ([KmallocTheorems]).
    - [Arena] ([kernel/common/arena.c]): blocks are in bounds and disjoint, for sizes
      below half the address range.

    Processes: [Process] ([process.c], [syscall_sbrk]); [ProcessSpace]: the address
    space [process_create] builds and that it leaves the kernel's alone; [ProcessEnd]:
    the pages [process_destroy] gives back, and the balance of a process's whole life;
    [ProcessHeap]: growing and shrinking the heap; [Syscall]: the entry and its dispatch
    over all of these; [Scheduler] ([scheduler.c], [reaper.c], exit and yield): the round
    robin, its invariant over every state reachable from the start, with the reaper
    interrupted anywhere, and its fairness; [Elf] and [ElfTheorems]
    ([elf.c]): what a loaded executable finds in its memory.

    The file system: [BsfsTypes] (structures on disk and their layout), [BsfsFile] (the reader in the
    kernel and in stage 2), [BsfsRead] (a read returns the file's bytes), [BsfsPath] (a
    path is resolved as a lookup of its components, [bsfs_fopen]), [BsfsTools]
    and [BsfsPopulate] (the tools), [BsfsImage] and [BsfsTheorems] (a file written by
    the tools is read back by the kernel and by bsfs-extract), [Crc32] (the checksum is
    the remainder of the message by the CRC-32 polynomial over GF(2), in every copy and
    over any split of the data).  [Ata] is the
    disk driver, proved against the ATA protocol to be the disk of the reader.

    Devices and tables: [Descriptors] (GDT, TSS and IDT entries), [Devices] (interrupt
    controller, timer, serial port, interrupt dispatch), [Lapic] (the local controller
    and the calibration of its timer), [Video] (frame buffer), [Printf], [CString].

    Start-up: [Stage2] (page tables of stage 2), [Stage2Load] (opening, checksum
    and load of the kernel), [KernelBoot] (boot information, which pages are free), [KernelPaging] (the
    address space [kmain] switches to), [KernelSetup] (segments, system call registers
    and page attributes), [KernelLaunch] (the file system, the processes of the kernel and
    the first program, from its path on the disk to a process that is ready to run: the
    composition of the reader, the loader, the page tables and the process functions),
    [KernelSegments] (the selectors of those processes name the segments of the table and
    are the ones [syscall] and [sysret] load).

    Tools: [Ppm] ([tools/ppmtobin/ppmtoimg.c]), beside the BSFS tools above.

    ** Bounds and fuel

    Fuel occurs in the polling loops of the disk and of the serial port (enough: more
    than the number of status reads for which the device may stay busy), in the scans of
    strings and paths (their length), in the checksum and copy loops (the number of
    blocks of the file plus one), in the digit and format loops (the digits of a 64-bit
    number, the length of the format) and in the extraction of directories (their
    depth).  The theorems take any larger fuel.  Page addresses are below 2^44, the limit
    that the 32-bit page index of the allocator sets.  The numbers of free pages that
    theorems ask for count, per page that is mapped, the page and up to three tables.

    ** Not modelled

    Assembly (stage 1, mode switches, interrupt stubs): the models start at the C
    functions the stubs call, and the frames the stubs build are their input; of the
    system call stub, the bounds check and the call are modelled.  The sequence of all
    phases of [kmain] and of the set-up of stage 2 as one definition: each phase above is a
    definition, with the memory the earlier ones leave as its input; what [printf] calls
    print on the way.  Declarations, messages and halts ([idle.c], [panic.c], [global.c]),
    the wrappers of system calls and the test program of the user side.  Third-party
    code: the printf of stage 2 ([src/lib]) and the allocator of the user C library
    ([malloc.c]).  Concurrency is
    not present: the kernel runs on one processor and interrupt handlers run to
    completion; their interleavings with processes are the steps of [Scheduler]. *)
From Stdlib Require Import ZArith Lia.
From stdpp Require Import base tactics list numbers gmap.

Open Scope Z_scope.

(** ** Machine integers

    A C integer of width [w] is a [Z]; every assignment to an unsigned type of
    that width goes through the wrap-around below. *)
Definition u8 (x : Z) : Z := x mod 2 ^ 8.
Definition u16 (x : Z) : Z := x mod 2 ^ 16.
Definition u32 (x : Z) : Z := x mod 2 ^ 32.
Definition u64 (x : Z) : Z := x mod 2 ^ 64.

(** Conversions to the signed types (two's complement). *)
Definition s32 (x : Z) : Z := (x + 2 ^ 31) mod 2 ^ 32 - 2 ^ 31.
Definition s64 (x : Z) : Z := (x + 2 ^ 63) mod 2 ^ 64 - 2 ^ 63.

Definition UINT8_MAX : Z := 2 ^ 8 - 1.
Definition UINT32_MAX : Z := 2 ^ 32 - 1.
Definition UINT64_MAX : Z := 2 ^ 64 - 1.

#[global] Arguments u8 : simpl never.
#[global] Arguments u16 : simpl never.
#[global] Arguments u32 : simpl never.
#[global] Arguments u64 : simpl never.
#[global] Arguments s32 : simpl never.
#[global] Arguments s64 : simpl never.

Lemma u8_id x : 0 <= x < 2 ^ 8 -> u8 x = x.
Proof. apply Z.mod_small. Qed.
Lemma u16_id x : 0 <= x < 2 ^ 16 -> u16 x = x.
Proof. apply Z.mod_small. Qed.
Lemma u32_id x : 0 <= x < 2 ^ 32 -> u32 x = x.
Proof. apply Z.mod_small. Qed.
Lemma u64_id x : 0 <= x < 2 ^ 64 -> u64 x = x.
Proof. apply Z.mod_small. Qed.
Lemma u8_range x : 0 <= u8 x < 2 ^ 8.
Proof. by apply Z.mod_pos_bound. Qed.
Lemma u16_range x : 0 <= u16 x < 2 ^ 16.
Proof. by apply Z.mod_pos_bound. Qed.
Lemma u32_range x : 0 <= u32 x < 2 ^ 32.
Proof. by apply Z.mod_pos_bound. Qed.
Lemma u64_range x : 0 <= u64 x < 2 ^ 64.
Proof. by apply Z.mod_pos_bound. Qed.

(** The rewrite base [width] removes wrap-arounds whose argument is in range. *)
Create Rewrite HintDb width.
#[export] Hint Rewrite u8_id u16_id u32_id u64_id using lia : width.
Ltac unwrap := autorewrite with width.

(** Linear arithmetic with division and remainder by constants. *)
Ltac dlia := Z.to_euclidean_division_equations; lia.

(** ** Outcomes of C code

    [Panic] is a call of [KPANIC], [PANIC] or [BSFS_PANIC]; [Fault] is an access
    outside the accessed object (undefined in C); [OutOfFuel] marks a loop whose
    fuel ran out in the model. *)
Inductive outcome (A : Type) : Type :=
| Ok (a : A)
| Panic
| Fault
| OutOfFuel.
Arguments Ok {A} a.
Arguments Panic {A}.
Arguments Fault {A}.
Arguments OutOfFuel {A}.

#[export] Instance outcome_ret : MRet outcome := fun A a => Ok a.
#[export] Instance outcome_bind : MBind outcome := fun A B f m =>
  match m with
  | Ok a => f a
  | Panic => Panic
  | Fault => Fault
  | OutOfFuel => OutOfFuel
  end.

Definition is_Ok {A} (o : outcome A) : Prop := exists a, o = Ok a.

(** An array access: outside the array is a fault. *)
Definition rd {A} (l : list A) (i : Z) : outcome A :=
  if i <? 0 then Fault else
  match l !! Z.to_nat i with Some a => Ok a | None => Fault end.

Definition wr {A} (l : list A) (i : Z) (a : A) : outcome (list A) :=
  if (0 <=? i) && (i <? Z.of_nat (length l)) then Ok (<[Z.to_nat i := a]> l) else Fault.

Section rd_wr.
Context {A : Type}.
Implicit Types (l : list A) (a : A) (i j : Z).

Lemma rd_Ok l i a : rd l i = Ok a <-> 0 <= i /\ l !! Z.to_nat i = Some a.
Proof.
  unfold rd. destruct (Z.ltb_spec i 0); [naive_solver lia|].
  destruct (l !! Z.to_nat i); naive_solver lia.
Qed.

Lemma rd_in_range l i : 0 <= i < Z.of_nat (length l) -> exists a, rd l i = Ok a.
Proof.
  intros [??]. destruct (lookup_lt_is_Some_2 l (Z.to_nat i)) as [a Ha]; [lia|].
  exists a. by apply rd_Ok.
Qed.

Lemma wr_Ok l i a l' :
  wr l i a = Ok l' <-> 0 <= i < Z.of_nat (length l) /\ l' = <[Z.to_nat i := a]> l.
Proof.
  unfold wr. destruct (Z.leb_spec 0 i), (Z.ltb_spec i (Z.of_nat (length l)));
    naive_solver lia.
Qed.

Lemma wr_in_range l i a :
  0 <= i < Z.of_nat (length l) -> wr l i a = Ok (<[Z.to_nat i := a]> l).
Proof. intros. by apply wr_Ok. Qed.
End rd_wr.

(** ** The state-and-outcome monad

    Stateful C functions are state-passing functions whose result is an
    [outcome]; [x ← e; k] is stdpp's bind notation. *)
Definition M (S A : Type) : Type := S -> outcome (A * S).

#[export] Instance M_ret S : MRet (M S) := fun A a s => Ok (a, s).
#[export] Instance M_bind S : MBind (M S) := fun A B f m s =>
  match m s with
  | Ok (a, s') => f a s'
  | Panic => Panic
  | Fault => Fault
  | OutOfFuel => OutOfFuel
  end.

Section monad_ops.
Context {S : Type}.
Definition get : M S S := fun s => Ok (s, s).
Definition put (s : S) : M S unit := fun _ => Ok (tt, s).
Definition modify (f : S -> S) : M S unit := fun s => Ok (tt, f s).
Definition panic {A} : M S A := fun _ => Panic.
Definition fault {A} : M S A := fun _ => Fault.
Definition lift {A} (o : outcome A) : M S A := fun s => a ← o; Ok (a, s).
End monad_ops.

(** Unfolds the monad (and nothing else) and reduces. *)
Ltac munfold :=
  cbv [mbind M_bind mret M_ret outcome_bind outcome_ret get put modify lift panic fault].

Lemma bind_Ok {S A B} (m : M S A) (f : A -> M S B) s r :
  (m ≫= f) s = Ok r <-> exists a s1, m s = Ok (a, s1) /\ f a s1 = Ok r.
Proof.
  unfold mbind, M_bind. destruct (m s) as [[a s1]| | |]; naive_solver.
Qed.

Lemma bind_run {S A B} (m : M S A) (f : A -> M S B) s a s1 :
  m s = Ok (a, s1) -> (m ≫= f) s = f a s1.
Proof. intros H. unfold mbind, M_bind. by rewrite H. Qed.

Lemma obind_Ok {A B} (m : outcome A) (f : A -> outcome B) r :
  (m ≫= f) = Ok r <-> exists a, m = Ok a /\ f a = Ok r.
Proof. destruct m; naive_solver. Qed.

Lemma lift_Ok {S A} (o : outcome A) (s : S) r :
  lift o s = Ok r <-> exists a, o = Ok a /\ r = (a, s).
Proof. unfold lift. destruct o; naive_solver. Qed.

(** The C loop [for (i = lo; i < hi; i += step)] whose counter does not wrap:
    [iter_for n lo step body] runs [body] at [lo, lo+step, ...], [n] times. *)
Fixpoint iter_for {S} (n : nat) (i step : Z) (body : Z -> M S unit) : M S unit :=
  match n with
  | O => mret tt
  | Datatypes.S n' => body i ≫= fun _ => iter_for n' (i + step) step body
  end.

Definition for_count (lo hi step : Z) : nat := Z.to_nat ((hi - lo + step - 1) / step).

Definition for_range {S} (lo hi step : Z) (body : Z -> M S unit) : M S unit :=
  iter_for (for_count lo hi step) lo step body.

(** An invariant carried through a counted loop. *)
Lemma iter_for_inv {S} (I : Z -> S -> Prop) step body n : forall i s,
  I i s ->
  (forall k s, (exists j : nat, (j < n)%nat /\ k = i + Z.of_nat j * step) -> I k s ->
     exists s', body k s = Ok (tt, s') /\ I (k + step) s') ->
  exists s', iter_for n i step body s = Ok (tt, s') /\ I (i + Z.of_nat n * step) s'.
Proof.
  induction n as [|n IH]; intros i s HI Hstep; cbn [iter_for].
  - exists s. replace (i + Z.of_nat 0 * step) with i by lia. done.
  - destruct (Hstep i s) as (s1 & Hrun & HI1); [exists 0%nat; lia|done|].
    destruct (IH (i + step) s1 HI1) as (s2 & Hrun2 & HI2).
    { intros k s' (j & Hj & ->). apply Hstep. exists (Datatypes.S j). lia. }
    exists s2. rewrite (bind_run _ _ _ _ _ Hrun). split; [done|].
    by replace (i + Z.of_nat (Datatypes.S n) * step)
      with (i + step + Z.of_nat n * step) by lia.
Qed.

(** ** Bytes and little-endian words *)
Definition is_byte (b : Z) : Prop := 0 <= b < 256.
#[export] Instance is_byte_dec b : Decision (is_byte b).
Proof. unfold is_byte. apply _. Defined.
Abbreviation bytes_ok := (Forall is_byte).

Fixpoint le_word (bs : list Z) : Z :=
  match bs with
  | [] => 0
  | b :: bs => b + 256 * le_word bs
  end.

Fixpoint le_bytes (n : nat) (w : Z) : list Z :=
  match n with
  | O => []
  | S n => w mod 256 :: le_bytes n (w / 256)
  end.

Lemma length_le_bytes n w : length (le_bytes n w) = n.
Proof. revert w; induction n; intros; cbn; [done|]. by rewrite IHn. Qed.

Lemma le_bytes_ok n w : bytes_ok (le_bytes n w).
Proof.
  revert w; induction n; intros; cbn; constructor; [|done].
  unfold is_byte. by apply Z.mod_pos_bound.
Qed.

Lemma le_word_bytes n w : le_word (le_bytes n w) = w mod 2 ^ (8 * Z.of_nat n).
Proof.
  revert w; induction n as [|n IH]; intros w; cbn [le_bytes le_word].
  - by rewrite Z.mod_1_r.
  - rewrite IH. replace (8 * Z.of_nat (S n)) with (8 + 8 * Z.of_nat n) by lia.
    rewrite Z.pow_add_r by lia. change (2 ^ 8) with 256.
    rewrite Z.rem_mul_r by lia. done.
Qed.

Lemma le_word_range bs : bytes_ok bs -> 0 <= le_word bs < 2 ^ (8 * Z.of_nat (length bs)).
Proof.
  induction 1 as [|b bs Hb _ IH]; cbn [le_word length]; [lia|].
  replace (8 * Z.of_nat (S (length bs))) with (8 + 8 * Z.of_nat (length bs)) by lia.
  rewrite Z.pow_add_r by lia. change (2 ^ 8) with 256. unfold is_byte in Hb. lia.
Qed.

Lemma le_bytes_word bs : bytes_ok bs -> le_bytes (length bs) (le_word bs) = bs.
Proof.
  induction 1 as [|b bs Hb _ IH]; cbn [le_word length le_bytes]; [done|].
  unfold is_byte in Hb. f_equal.
  - rewrite (Z.mul_comm 256), Z.mod_add by lia. by apply Z.mod_small.
  - rewrite (Z.mul_comm 256), Z.div_add by lia.
    by rewrite Z.div_small, Z.add_0_l by lia.
Qed.

(** Bit [i] of the word is bit [i mod 8] of byte [i / 8]. *)
Lemma testbit_le_word bs i :
  bytes_ok bs -> 0 <= i ->
  Z.testbit (le_word bs) i =
    match bs !! Z.to_nat (i / 8) with
    | Some b => Z.testbit b (i mod 8)
    | None => false
    end.
Proof.
  intros Hok. revert i. induction Hok as [|b bs Hb Hok IH]; intros i Hi; cbn [le_word].
  { by rewrite Z.bits_0. }
  unfold is_byte in Hb. destruct (decide (i < 8)) as [Hlt|Hge].
  - rewrite Z.div_small, Z.mod_small by lia. cbn.
    rewrite <- (Z.mod_pow2_bits_low _ 8) by lia. f_equal.
    change (2 ^ 8) with 256. rewrite (Z.mul_comm 256), Z.mod_add by lia.
    apply Z.mod_small; lia.
  - replace i with (i - 8 + 8) at 1 by lia.
    rewrite <- Z.div_pow2_bits by lia. change (2 ^ 8) with 256.
    rewrite (Z.mul_comm 256), Z.div_add, Z.div_small, Z.add_0_l by lia.
    rewrite IH by lia.
    replace (i / 8) with ((i - 8) / 8 + 1) by
      (replace i with (i - 8 + 1 * 8) at 2 by lia; rewrite Z.div_add by lia; lia).
    replace (i mod 8) with ((i - 8) mod 8) by
      (replace i with (i - 8 + 1 * 8) at 2 by lia; by rewrite Z.mod_add by lia).
    pose proof (Z.div_pos (i - 8) 8 ltac:(lia) ltac:(lia)).
    by replace (Z.to_nat ((i - 8) / 8 + 1)) with (S (Z.to_nat ((i - 8) / 8))) by lia.
Qed.
