(* ===== verification/Bitmap.v ===== *)
(** * Bitmaps

    [kernel/bitmap.c] (and its copy [bsfs_bitmap_*] of [tools/bsfs/bsfs.c]): a
    bitmap is an array of bytes; bit [i] is bit [i mod 8] of byte [i / 8].  The
    search scans 64-bit words and finishes with a masked partial word.

    The theorems: each operation changes exactly its bit, and the word-at-a-time
    search equals the bit-at-a-time reference [first_clear]. *)
From S2P Require Import Prelude.
From Stdlib Require Import ZArith Lia.
From stdpp Require Import base tactics list numbers.

Open Scope Z_scope.

(** ** Operations *)

Definition bitmap_clear_all (bitmap : list Z) (size : Z) : outcome (list Z) :=
  if (0 <=? size) && (size <=? Z.of_nat (length bitmap))
  then Ok (replicate (Z.to_nat size) 0 ++ drop (Z.to_nat size) bitmap)
  else Fault.

Definition bitmap_set (bitmap : list Z) (index : Z) : outcome (list Z) :=
  let slot := u32 index / 8 in
  b ← rd bitmap slot;
  wr bitmap slot (u8 (Z.lor b (Z.shiftl 1 (u32 index mod 8)))).

Definition bitmap_clear (bitmap : list Z) (index : Z) : outcome (list Z) :=
  let slot := u32 index / 8 in
  b ← rd bitmap slot;
  wr bitmap slot (u8 (Z.land b (Z.lnot (Z.shiftl 1 (u32 index mod 8))))).

Definition bitmap_test (bitmap : list Z) (index : Z) : outcome Z :=
  let slot := u32 index / 8 in
  b ← rd bitmap slot;
  Ok (Z.land b (Z.shiftl 1 (u32 index mod 8))).

(** [((const uint64_t* )bitmap)[i]] on a little-endian machine. *)
Definition bitmap_word (bitmap : list Z) (i : Z) : outcome Z :=
  if (0 <=? i) && (8 * (i + 1) <=? Z.of_nat (length bitmap))
  then Ok (le_word (take 8 (drop (Z.to_nat (8 * i)) bitmap)))
  else Fault.

(** [__builtin_ctzll] on a nonzero argument. *)
Fixpoint pos_ctz (p : positive) : Z :=
  match p with
  | xO q => 1 + pos_ctz q
  | _ => 0
  end.

Definition ctzll (w : Z) : Z :=
  match w with
  | Zpos p => pos_ctz p
  | _ => 0
  end.

(** The scan over the full words [i, i+1, ...]: the first word that is not all
    ones answers. *)
Fixpoint bitmap_find_words (bitmap : list Z) (n : nat) (i : Z) : outcome (option Z) :=
  match n with
  | O => Ok None
  | S n' =>
      word ← bitmap_word bitmap i;
      if negb (word =? UINT64_MAX)
      then Ok (Some (u32 (i * 64 + ctzll (u64 (Z.lnot word)))))
      else bitmap_find_words bitmap n' (i + 1)
  end.

Definition bitmap_find (bitmap : list Z) (bit_count : Z) : outcome Z :=
  let word_count := bit_count / 64 in
  hit ← bitmap_find_words bitmap (Z.to_nat word_count) 0;
  match hit with
  | Some r => Ok r
  | None =>
      let remaining := bit_count mod 64 in
      if negb (remaining =? 0) then
        word ← bitmap_word bitmap word_count;
        let mask := Z.shiftl 1 remaining - 1 in
        let word := Z.lor word (u64 (Z.lnot mask)) in
        if negb (word =? UINT64_MAX)
        then Ok (u32 (word_count * 64 + ctzll (u64 (Z.lnot word))))
        else Ok UINT32_MAX
      else Ok UINT32_MAX
  end.

(** ** Reference *)

(** Bit [i] of a bitmap; bits outside the array read as clear. *)
Definition bit (bitmap : list Z) (i : Z) : bool :=
  match bitmap !! Z.to_nat (i / 8) with
  | Some b => Z.testbit b (i mod 8)
  | None => false
  end.

(** The first clear bit among [i, i+1, ..., i+n-1]. *)
Fixpoint first_clear (bitmap : list Z) (n : nat) (i : Z) : option Z :=
  match n with
  | O => None
  | S n' => if bit bitmap i then first_clear bitmap n' (i + 1) else Some i
  end.

Definition in_bitmap (bitmap : list Z) (i : Z) : Prop :=
  0 <= i < 8 * Z.of_nat (length bitmap) /\ i < 2 ^ 32.

(** ** Bits of an updated bitmap *)

Lemma bit_insert bm slot v j :
  0 <= slot < Z.of_nat (length bm) -> 0 <= j ->
  bit (<[Z.to_nat slot := v]> bm) j =
    if decide (j / 8 = slot) then Z.testbit v (j mod 8) else bit bm j.
Proof.
  intros Hs Hj. unfold bit.
  pose proof (Z.div_pos j 8 Hj ltac:(lia)).
  destruct (decide (j / 8 = slot)) as [->|Hne].
  - by rewrite list_lookup_insert_eq by lia.
  - by rewrite list_lookup_insert_ne by lia.
Qed.

Lemma in_bitmap_slot bm i :
  in_bitmap bm i -> u32 i = i /\ 0 <= i / 8 < Z.of_nat (length bm).
Proof.
  intros [[Hi Hlen] Hmax]. split; [by unwrap|].
  pose proof (Z.div_pos i 8). pose proof (Z.div_lt_upper_bound i 8 (Z.of_nat (length bm))).
  lia.
Qed.

Lemma div_mod_8_inj i j : i / 8 = j / 8 -> i mod 8 = j mod 8 -> i = j.
Proof. intros. pose proof (Z.div_mod i 8). pose proof (Z.div_mod j 8). lia. Qed.

Lemma bit_rd bm i b : in_bitmap bm i -> rd bm (i / 8) = Ok b -> bit bm i = Z.testbit b (i mod 8).
Proof. intros _ [_ Hb]%rd_Ok. unfold bit. by rewrite Hb. Qed.

Lemma byte_rd bm i b : bytes_ok bm -> rd bm i = Ok b -> is_byte b.
Proof. intros Hok [_ Hb]%rd_Ok. by eapply (Forall_lookup_1 is_byte). Qed.

(** The byte [v] written to the slot of bit [i] makes bit [i] equal to [x] and keeps
    the others. *)
Definition flips (bm bm' : list Z) (i : Z) (x : bool) : Prop :=
  length bm' = length bm /\ bytes_ok bm' /\
  forall j, 0 <= j -> bit bm' j = if decide (j = i) then x else bit bm j.

Lemma flips_insert bm i b v (x : bool) :
  in_bitmap bm i -> bytes_ok bm -> rd bm (i / 8) = Ok b ->
  (forall k, 0 <= k < 8 ->
     Z.testbit (u8 v) k = if decide (k = i mod 8) then x else Z.testbit b k) ->
  flips bm (<[Z.to_nat (i / 8) := u8 v]> bm) i x.
Proof.
  intros Hin Hok Hb Hv. destruct (in_bitmap_slot _ _ Hin) as [_ Hslot].
  split_and!.
  - apply length_insert.
  - apply Forall_insert; [done|]. apply u8_range.
  - intros j Hj. rewrite bit_insert by done.
    pose proof (Z.mod_pos_bound j 8 ltac:(lia)).
    destruct (decide (j / 8 = i / 8)) as [Heq|Hne].
    + rewrite Hv by lia. destruct (decide (j mod 8 = i mod 8)) as [Hm|Hm].
      * rewrite decide_True by (by apply div_mod_8_inj). done.
      * rewrite decide_False by congruence.
        unfold bit. apply rd_Ok in Hb as [_ Hb]. by rewrite Heq, Hb.
    + by rewrite decide_False by congruence.
Qed.

Lemma testbit_u8 x k : 0 <= k < 8 -> Z.testbit (u8 x) k = Z.testbit x k.
Proof. intros. unfold u8. by rewrite Z.mod_pow2_bits_low by lia. Qed.

Lemma testbit_shiftl1 n k : 0 <= n -> 0 <= k -> Z.testbit (Z.shiftl 1 n) k = bool_decide (k = n).
Proof.
  intros. rewrite Z.shiftl_1_l, Z.pow2_bits_eqb by done.
  destruct (Z.eqb_spec n k); symmetry; [by apply bool_decide_eq_true|].
  apply bool_decide_eq_false; congruence.
Qed.

(** Two byte arrays with the same bits are equal. *)
Lemma bits_ext a b :
  bytes_ok a -> bytes_ok b -> length a = length b ->
  (forall j, 0 <= j -> bit a j = bit b j) -> a = b.
Proof.
  intros Ha Hb Hl Hbits. apply list_eq_same_length with (length a); [done..|].
  intros i x y Hi Hx Hy.
  pose proof (Forall_lookup_1 _ _ _ _ Ha Hx) as Hxb.
  pose proof (Forall_lookup_1 _ _ _ _ Hb Hy) as Hyb. unfold is_byte in *.
  apply Z.bits_inj'. intros k Hk. destruct (Z.lt_ge_cases k 8).
  - specialize (Hbits (k + Z.of_nat i * 8) ltac:(lia)). unfold bit in Hbits.
    rewrite Z.div_add, Z.mod_add, Z.div_small, Z.mod_small in Hbits by lia.
    rewrite Z.add_0_l, Nat2Z.id, Hx, Hy in Hbits. done.
  - assert (forall z, 0 <= z < 256 -> Z.testbit z k = false) as Hhi.
    { intros z Hz. destruct (decide (z = 0)) as [->|]; [apply Z.bits_0|].
      apply Z.bits_above_log2; [lia|]. apply Z.log2_lt_pow2; [lia|].
      change 256 with (2 ^ 8) in Hz. eapply Z.lt_le_trans; [apply Hz|].
      apply Z.pow_le_mono_r; lia. }
    by rewrite !Hhi.
Qed.

Lemma bitmap_set_flips bm i :
  in_bitmap bm i -> bytes_ok bm ->
  exists bm', bitmap_set bm i = Ok bm' /\ flips bm bm' i true.
Proof.
  intros Hin Hok. destruct (in_bitmap_slot _ _ Hin) as [Hu Hslot].
  destruct (rd_in_range bm (i / 8) Hslot) as [b Hb].
  unfold bitmap_set. rewrite Hu, Hb. cbn. rewrite wr_in_range by done.
  eexists; split; [done|]. eapply flips_insert; [done..|].
  intros k Hk. rewrite testbit_u8, Z.lor_spec by done.
  pose proof (Z.mod_pos_bound i 8 ltac:(lia)).
  rewrite testbit_shiftl1 by lia. case_decide; case_bool_decide; try done.
  - by rewrite orb_true_r.
  - by rewrite orb_false_r.
Qed.

Lemma bitmap_clear_flips bm i :
  in_bitmap bm i -> bytes_ok bm ->
  exists bm', bitmap_clear bm i = Ok bm' /\ flips bm bm' i false.
Proof.
  intros Hin Hok. destruct (in_bitmap_slot _ _ Hin) as [Hu Hslot].
  destruct (rd_in_range bm (i / 8) Hslot) as [b Hb].
  unfold bitmap_clear. rewrite Hu, Hb. cbn. rewrite wr_in_range by done.
  eexists; split; [done|]. eapply flips_insert; [done..|].
  intros k Hk. rewrite testbit_u8, Z.land_spec, Z.lnot_spec by lia.
  pose proof (Z.mod_pos_bound i 8 ltac:(lia)).
  rewrite testbit_shiftl1 by lia. case_decide; case_bool_decide; try done.
  - by rewrite andb_false_r.
  - by rewrite andb_true_r.
Qed.

Lemma land_shiftl1_zero b n :
  0 <= n -> (Z.land b (Z.shiftl 1 n) =? 0) = negb (Z.testbit b n).
Proof.
  intros Hn. destruct (Z.testbit b n) eqn:E; cbn.
  - apply Z.eqb_neq. intros Hz. assert (Z.testbit (Z.land b (Z.shiftl 1 n)) n = true) as Ht.
    { rewrite Z.land_spec, testbit_shiftl1, E, bool_decide_true by lia. done. }
    by rewrite Hz, Z.bits_0 in Ht.
  - apply Z.eqb_eq, Z.bits_inj'. intros k Hk.
    rewrite Z.land_spec, testbit_shiftl1, Z.bits_0 by lia.
    case_bool_decide; [subst; by rewrite E|by rewrite andb_false_r].
Qed.

(** [bitmap_test] is nonzero exactly on set bits. *)
Lemma bitmap_test_bit bm i :
  in_bitmap bm i ->
  exists v, bitmap_test bm i = Ok v /\ (v =? 0) = negb (bit bm i).
Proof.
  intros Hin. destruct (in_bitmap_slot _ _ Hin) as [Hu Hslot].
  destruct (rd_in_range bm (i / 8) Hslot) as [b Hb].
  unfold bitmap_test. rewrite Hu, Hb. cbn. eexists; split; [done|].
  pose proof (Z.mod_pos_bound i 8 ltac:(lia)).
  rewrite land_shiftl1_zero by lia. by erewrite bit_rd.
Qed.

(** ** The word-at-a-time search *)

Lemma pos_ctz_nonneg p : 0 <= pos_ctz p.
Proof. induction p; cbn; lia. Qed.

Lemma pos_ctz_spec p :
  Z.testbit (Zpos p) (pos_ctz p) = true /\
  forall j, 0 <= j < pos_ctz p -> Z.testbit (Zpos p) j = false.
Proof.
  induction p as [p _|p [IH1 IH2]|]; cbn [pos_ctz]; try (split; [done|lia]).
  pose proof (pos_ctz_nonneg p). split.
  - rewrite Pos2Z.inj_xO, Z.add_comm, Z.add_1_r, Z.double_bits_succ. done.
  - intros j Hj. rewrite Pos2Z.inj_xO. destruct (decide (j = 0)) as [->|].
    + by rewrite Z.testbit_even_0.
    + replace j with (Z.succ (j - 1)) by lia. rewrite Z.double_bits_succ.
      apply IH2. lia.
Qed.

Lemma u64_lnot w : 0 <= w < 2 ^ 64 -> u64 (Z.lnot w) = UINT64_MAX - w.
Proof.
  intros. unfold u64, Z.lnot, UINT64_MAX.
  rewrite <- (Z.mod_add _ 1) by done. rewrite Z.mod_small; lia.
Qed.

Lemma testbit_u64_lnot w k : 0 <= k < 64 -> Z.testbit (u64 (Z.lnot w)) k = negb (Z.testbit w k).
Proof. intros. unfold u64. rewrite Z.mod_pow2_bits_low by lia. by rewrite Z.lnot_spec by lia. Qed.

Lemma word_hit w :
  0 <= w < 2 ^ 64 -> w <> UINT64_MAX ->
  let c := ctzll (u64 (Z.lnot w)) in
  0 <= c < 64 /\ Z.testbit w c = false /\ forall j, 0 <= j < c -> Z.testbit w j = true.
Proof.
  intros Hw Hne. pose proof (u64_lnot w Hw) as Hl.
  assert (0 < u64 (Z.lnot w)) by (unfold UINT64_MAX in *; lia).
  pose proof (testbit_u64_lnot w) as Ht. pose proof (u64_range (Z.lnot w)) as Hr.
  destruct (u64 (Z.lnot w)) as [|p|] eqn:E; try lia. cbn [ctzll].
  pose proof (pos_ctz_nonneg p). destruct (pos_ctz_spec p) as [H1 H2].
  assert (pos_ctz p < 64).
  { destruct (Z.lt_ge_cases (pos_ctz p) 64) as [|Hge]; [done|].
    rewrite Z.bits_above_log2 in H1; [done|lia|].
    apply Z.log2_lt_pow2; [lia|]. eapply Z.lt_le_trans; [apply Hr|].
    apply Z.pow_le_mono_r; lia. }
  split_and!; [lia..| |].
  - rewrite Ht in H1 by lia. by destruct (Z.testbit w (pos_ctz p)).
  - intros j Hj. specialize (H2 j Hj). rewrite Ht in H2 by lia.
    by destruct (Z.testbit w j).
Qed.

Lemma word_full j : 0 <= j < 64 -> Z.testbit UINT64_MAX j = true.
Proof. intros. change UINT64_MAX with (Z.ones 64). apply Z.ones_spec_low. lia. Qed.

Lemma bitmap_word_bits bm i :
  bytes_ok bm -> 0 <= i -> 8 * (i + 1) <= Z.of_nat (length bm) ->
  exists w, bitmap_word bm i = Ok w /\ 0 <= w < 2 ^ 64 /\
            forall k, 0 <= k < 64 -> Z.testbit w k = bit bm (i * 64 + k).
Proof.
  intros Hok Hi Hlen. unfold bitmap_word.
  rewrite (proj2 (Z.leb_le 0 i)), (proj2 (Z.leb_le _ _)) by lia. cbn [andb].
  set (bs := take 8 (drop (Z.to_nat (8 * i)) bm)).
  assert (bytes_ok bs) as Hbs by (by apply Forall_take, Forall_drop).
  assert (length bs = 8%nat) as Hl.
  { unfold bs. rewrite length_take, length_drop. lia. }
  eexists; split; [done|]. split.
  - pose proof (le_word_range bs Hbs) as Hr. by rewrite Hl in Hr.
  - intros k Hk. rewrite testbit_le_word by (done || lia). unfold bit, bs.
    pose proof (Z.div_pos k 8). pose proof (Z.div_lt_upper_bound k 8 8).
    rewrite lookup_take_lt, lookup_drop by lia.
    replace (i * 64 + k) with (k + i * 8 * 8) by lia.
    rewrite Z.div_add, Z.mod_add by lia.
    by replace (Z.to_nat (8 * i) + Z.to_nat (k / 8))%nat
      with (Z.to_nat (k / 8 + i * 8)) by lia.
Qed.

(** ** The reference search *)

Lemma first_clear_hit bm n i r :
  i <= r < i + Z.of_nat n -> bit bm r = false ->
  (forall j, i <= j < r -> bit bm j = true) ->
  first_clear bm n i = Some r.
Proof.
  revert i; induction n as [|n IH]; intros i Hr Hb Hall; [lia|]. cbn.
  destruct (decide (i = r)) as [->|Hne]; [by rewrite Hb|].
  rewrite Hall by lia. apply IH; [lia|done|]. intros; apply Hall; lia.
Qed.

Lemma first_clear_miss bm n i :
  (forall j, i <= j < i + Z.of_nat n -> bit bm j = true) -> first_clear bm n i = None.
Proof.
  revert i; induction n as [|n IH]; intros i Hall; [done|]. cbn.
  rewrite Hall by lia. apply IH. intros; apply Hall; lia.
Qed.

Lemma first_clear_Some bm n i r :
  first_clear bm n i = Some r ->
  i <= r < i + Z.of_nat n /\ bit bm r = false /\ forall j, i <= j < r -> bit bm j = true.
Proof.
  revert i; induction n as [|n IH]; intros i; cbn; [done|].
  destruct (bit bm i) eqn:E.
  - intros (? & ? & Hall)%IH. split_and!; [lia..|done|]. intros j Hj.
    destruct (decide (j = i)) as [->|]; [done|]. apply Hall; lia.
  - intros [= <-]. split_and!; [lia..|done|lia].
Qed.

Lemma first_clear_None bm n i :
  first_clear bm n i = None -> forall j, i <= j < i + Z.of_nat n -> bit bm j = true.
Proof.
  revert i; induction n as [|n IH]; intros i; cbn; [lia|].
  destruct (bit bm i) eqn:E; [|done]. intros Hn j Hj.
  destruct (decide (j = i)) as [->|]; [done|]. eapply IH; [done|lia].
Qed.

(** What the scan over [n] full words from word [i] answers. *)
Lemma bitmap_find_words_spec bm n : forall i,
  bytes_ok bm -> 0 <= i -> 8 * (i + Z.of_nat n) <= Z.of_nat (length bm) ->
  (i + Z.of_nat n) * 64 < 2 ^ 32 ->
  bitmap_find_words bm n i = Ok (first_clear bm (n * 64) (i * 64)).
Proof.
  induction n as [|n IH]; intros i Hok Hi Hlen Hmax; [done|]. cbn [bitmap_find_words].
  destruct (bitmap_word_bits bm i) as (w & -> & Hw & Hbits); [done|lia..|].
  cbn [mbind outcome_bind].
  destruct (Z.eqb_spec w UINT64_MAX) as [->|Hne]; cbn [negb].
  - rewrite IH by (done || lia). f_equal.
    destruct (first_clear bm (n * 64) ((i + 1) * 64)) as [r|] eqn:E; symmetry.
    + apply first_clear_Some in E as (Hr & Hb & Hall).
      apply first_clear_hit; [lia|done|]. intros j Hj.
      destruct (Z.lt_ge_cases j ((i + 1) * 64)); [|apply Hall; lia].
      replace j with (i * 64 + (j - i * 64)) by lia. rewrite <- Hbits by lia.
      apply word_full; lia.
    + pose proof (first_clear_None _ _ _ E) as Hall. apply first_clear_miss. intros j Hj.
      destruct (Z.lt_ge_cases j ((i + 1) * 64)); [|apply Hall; lia].
      replace j with (i * 64 + (j - i * 64)) by lia. rewrite <- Hbits by lia.
      apply word_full; lia.
  - destruct (word_hit w Hw Hne) as (Hc & Hclear & Hset).
    rewrite u32_id by lia. f_equal. symmetry. apply first_clear_hit; [lia| |].
    + by rewrite <- Hbits by lia.
    + intros j Hj. replace j with (i * 64 + (j - i * 64)) by lia.
      rewrite <- Hbits by lia. apply Hset; lia.
Qed.

(** The partial last word: the bits from [r] on are forced to one. *)
Lemma masked_word w r :
  0 <= w < 2 ^ 64 -> 0 <= r < 64 ->
  let w' := Z.lor w (u64 (Z.lnot (Z.shiftl 1 r - 1))) in
  0 <= w' < 2 ^ 64 /\
  forall k, 0 <= k < 64 -> Z.testbit w' k = Z.testbit w k || (r <=? k).
Proof.
  intros Hw Hr w'. pose proof (u64_range (Z.lnot (Z.shiftl 1 r - 1))) as Hu. split.
  - unfold w'. split; [apply Z.lor_nonneg; lia|].
    assert (forall x, 0 <= x < 2 ^ 64 -> Z.log2 x < 64) as Hlog.
    { intros x Hx. destruct (decide (x = 0)) as [->|]; [done|]. apply Z.log2_lt_pow2; lia. }
    apply Z.log2_lt_cancel. rewrite Z.log2_lor, Z.log2_pow2 by lia.
    pose proof (Hlog _ Hw). pose proof (Hlog _ Hu). lia.
  - intros k Hk. unfold w'. rewrite Z.lor_spec, testbit_u64_lnot by done.
    rewrite Z.shiftl_1_l. change (2 ^ r - 1) with (Z.pred (2 ^ r)).
    rewrite <- Z.ones_equiv, Z.testbit_ones_nonneg by lia.
    by rewrite Z.leb_antisym.
Qed.

(** The whole search, on an array that holds every word it reads. *)
Lemma bitmap_find_first_clear bm n :
  bytes_ok bm -> 0 <= n < 2 ^ 32 -> 8 * ((n + 63) / 64) <= Z.of_nat (length bm) ->
  bitmap_find bm n = Ok (default UINT32_MAX (first_clear bm (Z.to_nat n) 0)).
Proof.
  intros Hok Hn Hlen. unfold bitmap_find.
  pose proof (Z.div_mod n 64 ltac:(lia)) as Hdm.
  pose proof (Z.mod_pos_bound n 64 ltac:(lia)) as Hm.
  assert (n / 64 <= (n + 63) / 64) by (apply Z.div_le_mono; lia).
  pose proof (Z.div_pos n 64 ltac:(lia) ltac:(lia)).
  rewrite bitmap_find_words_spec by (done || lia). cbn [mbind outcome_bind].
  destruct (first_clear bm (Z.to_nat (n / 64) * 64) (0 * 64)) as [r|] eqn:E.
  { apply first_clear_Some in E as (Hr & Hb & Hall).
    rewrite (first_clear_hit bm (Z.to_nat n) 0 r); [done|lia|done|].
    intros; apply Hall; lia. }
  pose proof (first_clear_None _ _ _ E) as Hall.
  destruct (Z.eqb_spec (n mod 64) 0) as [Hz|Hnz]; cbn [negb].
  { rewrite first_clear_miss; [done|]. intros; apply Hall; lia. }
  destruct (bitmap_word_bits bm (n / 64)) as (w & -> & Hw & Hbits); [done|lia| |].
  { replace (n + 63) with (n mod 64 + 63 + (n / 64) * 64) in Hlen by lia.
    rewrite Z.div_add in Hlen by lia.
    assert (1 <= (n mod 64 + 63) / 64) by (apply Z.div_le_lower_bound; lia). lia. }
  cbn [mbind outcome_bind].
  destruct (masked_word w (n mod 64) Hw Hm) as [Hr' Hw'].
  set (w' := Z.lor w _) in *.
  assert (forall k, 0 <= k < n mod 64 -> bit bm (n / 64 * 64 + k) = Z.testbit w' k) as Hlow.
  { intros k Hk. rewrite <- Hbits, Hw' by lia.
    by rewrite (proj2 (Z.leb_gt _ _)), orb_false_r by lia. }
  destruct (Z.eqb_spec w' UINT64_MAX) as [Hf|Hne]; cbn [negb].
  - rewrite first_clear_miss; [done|]. intros j Hj.
    destruct (Z.lt_ge_cases j (n / 64 * 64)); [apply Hall; lia|].
    replace j with (n / 64 * 64 + (j - n / 64 * 64)) by lia. rewrite Hlow by lia.
    rewrite Hf. apply word_full; lia.
  - destruct (word_hit w' Hr' Hne) as (Hc & Hclear & Hset).
    set (c := ctzll _) in *. pose proof Hclear as Hlt. rewrite Hw' in Hlt by lia.
    apply orb_false_iff in Hlt as [_ Hlt%Z.leb_gt]. rewrite u32_id by lia.
    rewrite (first_clear_hit bm (Z.to_nat n) 0 (n / 64 * 64 + c)); [done|lia| |].
    + by rewrite Hlow by lia.
    + intros j Hj. destruct (Z.lt_ge_cases j (n / 64 * 64)); [apply Hall; lia|].
      replace j with (n / 64 * 64 + (j - n / 64 * 64)) by lia.
      rewrite Hlow by lia. apply Hset; lia.
Qed.

(** ** Properties *)

(** C35: [bitmap_find] (the word-at-a-time scan with its masked last word) returns
    exactly the lowest clear bit below [bit_count], and [UINT32_MAX] when every
    bit below [bit_count] is set, for every bitmap that holds the words it reads. *)
Theorem bitmap_find_correct (bm : list Z) (n : Z)
  (Hbytes : bytes_ok bm) (Hn : 0 <= n < 2 ^ 32)
  (Hlen : 8 * ((n + 63) / 64) <= Z.of_nat (length bm)) :
  exists r, bitmap_find bm n = Ok r /\
    ((r = UINT32_MAX /\ forall j, 0 <= j < n -> bit bm j = true) \/
     (0 <= r < n /\ bit bm r = false /\ forall j, 0 <= j < r -> bit bm j = true)).
Proof.
  rewrite bitmap_find_first_clear by done. eexists; split; [done|].
  destruct (first_clear bm (Z.to_nat n) 0) as [r|] eqn:E; cbn.
  - right. apply first_clear_Some in E as (? & ? & Hall). split_and!; [lia..|done|].
    intros; apply Hall; lia.
  - left. split; [done|]. intros j Hj. eapply first_clear_None; [done|lia].
Qed.

Lemma bitmap_find_correct_witness :
  exists r, bitmap_find (replicate 8 255 ++ [255; 255; 251; 0; 0; 0; 0; 0]) 90 = Ok r /\
    ((r = UINT32_MAX /\ forall j, 0 <= j < 90 ->
        bit (replicate 8 255 ++ [255; 255; 251; 0; 0; 0; 0; 0]) j = true) \/
     (0 <= r < 90 /\ bit (replicate 8 255 ++ [255; 255; 251; 0; 0; 0; 0; 0]) r = false /\
      forall j, 0 <= j < r ->
        bit (replicate 8 255 ++ [255; 255; 251; 0; 0; 0; 0; 0]) j = true)).
Proof.
  apply (bitmap_find_correct (replicate 8 255 ++ [255; 255; 251; 0; 0; 0; 0; 0]) 90).
  - apply (bool_decide_unpack _). vm_compute. exact I.
  - lia.
  - vm_compute. discriminate.
Defined.

(** Setting a bit and then clearing it changes no other bit, never grows the
    array, and [bitmap_test] reads back the last write. *)
Theorem bitmap_set_clear_test (bm : list Z) (i : Z)
  (Hbytes : bytes_ok bm) (Hin : in_bitmap bm i) :
  exists bm1 bm2 v1 v2,
    bitmap_set bm i = Ok bm1 /\ bitmap_clear bm1 i = Ok bm2 /\
    bitmap_test bm1 i = Ok v1 /\ v1 <> 0 /\ bitmap_test bm2 i = Ok v2 /\ v2 = 0 /\
    length bm2 = length bm /\
    forall j, 0 <= j -> j <> i -> bit bm1 j = bit bm j /\ bit bm2 j = bit bm j.
Proof.
  destruct (bitmap_set_flips bm i) as (bm1 & H1 & Hl1 & Hok1 & Hb1); [done..|].
  assert (in_bitmap bm1 i) as Hin1 by (unfold in_bitmap in *; by rewrite Hl1).
  destruct (bitmap_clear_flips bm1 i) as (bm2 & H2 & Hl2 & Hok2 & Hb2); [done..|].
  assert (in_bitmap bm2 i) as Hin2 by (unfold in_bitmap in *; by rewrite Hl2).
  destruct (bitmap_test_bit bm1 i Hin1) as (v1 & Ht1 & Hv1).
  destruct (bitmap_test_bit bm2 i Hin2) as (v2 & Ht2 & Hv2).
  destruct Hin as [Hi _].
  rewrite Hb1, decide_True in Hv1 by lia. rewrite Hb2, decide_True in Hv2 by lia.
  apply Z.eqb_neq in Hv1. apply Z.eqb_eq in Hv2.
  exists bm1, bm2, v1, v2. split_and!; [done..|congruence|]. intros j Hj Hne.
  rewrite Hb2, Hb1, !decide_False by done. done.
Qed.

Lemma bitmap_set_clear_test_witness :
  exists bm1 bm2 v1 v2,
    bitmap_set [0; 129] 10 = Ok bm1 /\ bitmap_clear bm1 10 = Ok bm2 /\
    bitmap_test bm1 10 = Ok v1 /\ v1 <> 0 /\ bitmap_test bm2 10 = Ok v2 /\ v2 = 0 /\
    length bm2 = length [0; 129] /\
    forall j, 0 <= j -> j <> 10 -> bit bm1 j = bit [0; 129] j /\ bit bm2 j = bit [0; 129] j.
Proof.
  apply (bitmap_set_clear_test [0; 129] 10).
  - apply (bool_decide_unpack _). vm_compute. exact I.
  - unfold in_bitmap. cbn. lia.
Defined.
