(* ===== verification/Interfaces.v ===== *)
(** * Interfaces between components

    What the physical page allocator promises to its clients (the page-table
    code, the slab allocator, the process loader), as a type class: the clients'
    theorems are proved against these laws only, and [Pmm] discharges them. *)
From S2P Require Import Prelude.
From Stdlib Require Import ZArith Lia.
From stdpp Require Import base tactics list numbers.

Open Scope Z_scope.

Definition PAGE_SIZE : Z := 4096.

(** A physical page address: page aligned and below 2^44 (a 32-bit page index). *)
Definition is_page (p : Z) : Prop := 0 <= p < 2 ^ 44 /\ p mod PAGE_SIZE = 0.

(** [pa_alloc]/[pa_free] on an allocator state, with the abstract state
    [pa_is_free]: which pages are free.  Allocation takes a free page out of the
    free set and fails (a panic) only when the set is empty; freeing puts a
    managed page back. *)
Class PageAllocator (S : Type) := {
  pa_alloc : M S Z;
  pa_free : Z -> M S unit;
  pa_wf : S -> Prop;
  pa_managed : S -> Z -> Prop;
  pa_is_free : S -> Z -> Prop;
  pa_managed_page : forall s p, pa_wf s -> pa_managed s p -> is_page p;
  pa_free_managed : forall s p, pa_wf s -> pa_is_free s p -> pa_managed s p;
  pa_alloc_spec : forall s, pa_wf s ->
    (exists p s', pa_alloc s = Ok (p, s') /\ pa_wf s' /\ pa_is_free s p /\
       (forall q, pa_is_free s' q <-> pa_is_free s q /\ q <> p) /\
       (forall q, pa_managed s' q <-> pa_managed s q)) \/
    (pa_alloc s = Panic /\ forall p, ~ pa_is_free s p);
  pa_free_spec : forall s p, pa_wf s -> pa_managed s p -> ~ pa_is_free s p ->
    exists s', pa_free p s = Ok (tt, s') /\ pa_wf s' /\
      (forall q, pa_is_free s' q <-> pa_is_free s q \/ q = p) /\
      (forall q, pa_managed s' q <-> pa_managed s q)
}.

Section allocator_facts.
Context {S : Type} `{PageAllocator S}.

Lemma pa_alloc_Ok s p s' :
  pa_wf s -> pa_alloc s = Ok (p, s') ->
  pa_wf s' /\ pa_is_free s p /\ is_page p /\
  (forall q, pa_is_free s' q <-> pa_is_free s q /\ q <> p) /\
  (forall q, pa_managed s' q <-> pa_managed s q).
Proof.
  intros Hwf Hrun. destruct (pa_alloc_spec s Hwf) as [(p0 & s0 & Hr & ? & ? & ? & ?)|[Hr _]];
    rewrite Hr in Hrun; simplify_eq.
  assert (is_page p) by (eapply (pa_managed_page s); [done|]; by apply pa_free_managed).
  eauto.
Qed.
End allocator_facts.
