(* ===== verification/Pmm.v ===== *)
(** * Physical memory manager

    [kernel/kernel/pmm.c]: the two globals [__pmm_bitmap] and [__pmm_bitmap_size]
    are the state; bit [i] of the bitmap is page [i].  [PRISTINE_DEBUG] is the
    section variable [debug].

    The theorems: an allocation returns the lowest free page and takes exactly it
    out of the free set, it panics exactly when no page is free, freeing undoes
    it, and the free-page count follows; [Pmm] implements [PageAllocator]. *)
From S2P Require Import Prelude Bitmap Interfaces.
From Stdlib Require Import ZArith Lia.
From stdpp Require Import base tactics list numbers.

Open Scope Z_scope.

Record pmm_state := PmmState {
  pmm_bitmap : list Z;
  pmm_bitmap_size : Z;
}.

(** ** Operations *)

Definition pmm_init (bitmap : list Z) (size : Z) : M pmm_state unit :=
  put (PmmState bitmap (u32 size)).

Definition pmm_set_bitmap_size (bitmap_size : Z) : M pmm_state unit :=
  modify (fun st => PmmState (pmm_bitmap st) (u32 bitmap_size)).

Section pmm.
Context (debug : bool).

Definition pmm_alloc : M pmm_state Z :=
  st ← get;
  idx ← lift (bitmap_find (pmm_bitmap st) (u32 (pmm_bitmap_size st * 8)));
  if idx =? UINT32_MAX then panic else
  t ← lift (if debug then bitmap_test (pmm_bitmap st) idx else Ok 0);
  if negb (t =? 0) then panic else
  bm ← lift (bitmap_set (pmm_bitmap st) idx);
  _ ← put (PmmState bm (pmm_bitmap_size st));
  mret (u64 (idx * PAGE_SIZE)).

Definition pmm_free (page : Z) : M pmm_state unit :=
  if debug && negb (Z.land page (PAGE_SIZE - 1) =? 0) then panic else
  let idx := u32 (page / PAGE_SIZE) in
  st ← get;
  t ← lift (if debug then bitmap_test (pmm_bitmap st) idx else Ok 1);
  if t =? 0 then panic else
  bm ← lift (bitmap_clear (pmm_bitmap st) idx);
  put (PmmState bm (pmm_bitmap_size st)).
End pmm.

(** The counting loop of [pmm_get_free_page_count] over [i, ..., i+n-1]. *)
Fixpoint pmm_count_loop (bm : list Z) (n : nat) (i count : Z) : outcome Z :=
  match n with
  | O => Ok count
  | S n' =>
      t ← bitmap_test bm i;
      pmm_count_loop bm n' (i + 1) (if t =? 0 then count + 1 else count)
  end.

Definition pmm_get_free_page_count : M pmm_state Z :=
  st ← get;
  lift (pmm_count_loop (pmm_bitmap st) (Z.to_nat (u32 (pmm_bitmap_size st * 8))) 0 0).

(** ** Invariant and abstraction *)

(** Number of pages under management. *)
Definition pmm_pages (st : pmm_state) : Z := pmm_bitmap_size st * 8.

(** The bitmap array holds every word the search reads, and the page count fits
    the 32-bit index. *)
Definition pmm_wf (st : pmm_state) : Prop :=
  bytes_ok (pmm_bitmap st) /\ 0 <= pmm_bitmap_size st /\ pmm_pages st < 2 ^ 32 /\
  8 * ((pmm_pages st + 63) / 64) <= Z.of_nat (length (pmm_bitmap st)).

Definition pmm_managed (st : pmm_state) (p : Z) : Prop :=
  exists i, 0 <= i < pmm_pages st /\ p = i * PAGE_SIZE.

Definition pmm_is_free (st : pmm_state) (p : Z) : Prop :=
  exists i, 0 <= i < pmm_pages st /\ p = i * PAGE_SIZE /\ bit (pmm_bitmap st) i = false.

(** Free pages of the abstract state, counted. *)
Fixpoint count_free (bm : list Z) (n : nat) (i : Z) : Z :=
  match n with
  | O => 0
  | S n' => (if bit bm i then 0 else 1) + count_free bm n' (i + 1)
  end.

Definition free_pages (st : pmm_state) : Z :=
  count_free (pmm_bitmap st) (Z.to_nat (pmm_pages st)) 0.

(** ** Lemmas *)

Lemma pmm_wf_in_bitmap st i : pmm_wf st -> 0 <= i < pmm_pages st -> in_bitmap (pmm_bitmap st) i.
Proof.
  intros (_ & _ & Hmax & Hlen) Hi. split; [|lia]. split; [lia|].
  assert (pmm_pages st <= 64 * ((pmm_pages st + 63) / 64)); [|lia].
  pose proof (Z.div_mod (pmm_pages st + 63) 64). pose proof (Z.mod_pos_bound (pmm_pages st + 63) 64).
  lia.
Qed.

Lemma pmm_wf_flips st bm i x :
  pmm_wf st -> flips (pmm_bitmap st) bm i x -> pmm_wf (PmmState bm (pmm_bitmap_size st)).
Proof.
  intros (? & ? & ? & ?) (Hl & ? & _). unfold pmm_wf, pmm_pages in *. cbn.
  by rewrite Hl.
Qed.

Lemma u32_pages st : pmm_wf st -> u32 (pmm_bitmap_size st * 8) = pmm_pages st.
Proof. intros (_ & ? & ? & _). apply u32_id. unfold pmm_pages in *. lia. Qed.

Lemma page_index i : 0 <= i < 2 ^ 32 -> u32 (i * PAGE_SIZE / PAGE_SIZE) = i.
Proof. intros. unfold PAGE_SIZE. rewrite Z.div_mul by lia. by unwrap. Qed.

Lemma u64_page i : 0 <= i < 2 ^ 32 -> u64 (i * PAGE_SIZE) = i * PAGE_SIZE.
Proof. intros. unfold PAGE_SIZE. unwrap. done. Qed.

(** The run of an allocation, from the search result. *)
Lemma pmm_alloc_hit debug st i :
  pmm_wf st -> first_clear (pmm_bitmap st) (Z.to_nat (pmm_pages st)) 0 = Some i ->
  exists bm, pmm_alloc debug st = Ok (i * PAGE_SIZE, PmmState bm (pmm_bitmap_size st)) /\
             flips (pmm_bitmap st) bm i true.
Proof.
  intros Hwf E. pose proof Hwf as (Hok & Hsz & Hmax & Hlen).
  pose proof (first_clear_Some _ _ _ _ E) as (Hi & Hb & _).
  pose proof (pmm_wf_in_bitmap st i Hwf ltac:(lia)) as Hin.
  destruct (bitmap_set_flips _ i Hin Hok) as (bm & Hset & Hfl).
  destruct (bitmap_test_bit _ i Hin) as (v & Ht & Hv). rewrite Hb in Hv. apply Z.eqb_eq in Hv.
  exists bm. split; [|done]. unfold pmm_alloc. munfold.
  rewrite u32_pages, bitmap_find_first_clear, E by (done || lia). cbn [from_option id].
  rewrite (proj2 (Z.eqb_neq i UINT32_MAX)) by (unfold UINT32_MAX; lia).
  assert ((if debug then bitmap_test (pmm_bitmap st) i else Ok 0) = Ok 0) as ->
    by (destruct debug; congruence).
  cbn [negb Z.eqb]. rewrite Hset. by rewrite u64_page by lia.
Qed.

Lemma pmm_alloc_miss debug st :
  pmm_wf st -> first_clear (pmm_bitmap st) (Z.to_nat (pmm_pages st)) 0 = None ->
  pmm_alloc debug st = Panic.
Proof.
  intros Hwf E. pose proof Hwf as (Hok & Hsz & Hmax & Hlen).
  unfold pmm_alloc. munfold.
  rewrite u32_pages, bitmap_find_first_clear, E by (done || (unfold pmm_pages in *; lia)).
  done.
Qed.

Lemma pmm_free_run debug st i :
  pmm_wf st -> 0 <= i < pmm_pages st -> bit (pmm_bitmap st) i = true ->
  exists bm, pmm_free debug (i * PAGE_SIZE) st = Ok (tt, PmmState bm (pmm_bitmap_size st)) /\
             flips (pmm_bitmap st) bm i false.
Proof.
  intros Hwf Hi Hb. pose proof Hwf as (Hok & Hsz & Hmax & Hlen).
  pose proof (pmm_wf_in_bitmap st i Hwf Hi) as Hin.
  destruct (bitmap_clear_flips _ i Hin Hok) as (bm & Hclr & Hfl).
  destruct (bitmap_test_bit _ i Hin) as (v & Ht & Hv). rewrite Hb in Hv.
  exists bm. split; [|done]. unfold pmm_free.
  assert (Z.land (i * PAGE_SIZE) (PAGE_SIZE - 1) = 0) as ->.
  { change (PAGE_SIZE - 1) with (Z.ones 12). rewrite Z.land_ones by lia.
    unfold PAGE_SIZE. by rewrite Z.mod_mul by lia. }
  cbn [Z.eqb negb]. rewrite andb_false_r. munfold. rewrite page_index by lia.
  assert (exists t, (if debug then bitmap_test (pmm_bitmap st) i else Ok 1) = Ok t /\ (t =? 0) = false)
    as (t & -> & Htz) by (destruct debug; [exists v|exists 1]; done).
  rewrite Htz. by rewrite Hclr.
Qed.

Lemma pmm_is_free_flips st bm i (x : bool) q :
  0 <= i < pmm_pages st -> flips (pmm_bitmap st) bm i x ->
  pmm_is_free (PmmState bm (pmm_bitmap_size st)) q <->
    (pmm_is_free st q /\ q <> i * PAGE_SIZE) \/ (x = false /\ q = i * PAGE_SIZE).
Proof.
  intros Hi (_ & _ & Hb). unfold pmm_is_free, pmm_pages in *. cbn. split.
  - intros (j & Hj & -> & Hbit). rewrite Hb in Hbit by lia. destruct (decide (j = i)) as [->|Hne].
    + right. done.
    + left. split; [by exists j|]. unfold PAGE_SIZE. lia.
  - intros [[(j & Hj & -> & Hbit) Hne]|[-> ->]].
    + exists j. split_and!; [lia..|done|]. rewrite Hb, decide_False by (lia || congruence). done.
    + exists i. split_and!; [lia..|done|]. by rewrite Hb, decide_True by lia.
Qed.

#[export] Instance pmm_page_allocator (debug : bool) : PageAllocator pmm_state.
Proof.
  refine (Build_PageAllocator pmm_state (pmm_alloc debug) (pmm_free debug)
            pmm_wf pmm_managed pmm_is_free _ _ _ _).
  - intros st p (_ & Hsz & Hmax & _) (i & Hi & ->). unfold is_page, PAGE_SIZE.
    split; [lia|]. by rewrite Z.mod_mul by lia.
  - intros st p _ (i & ? & ? & _). by exists i.
  - intros st Hwf. destruct (first_clear (pmm_bitmap st) (Z.to_nat (pmm_pages st)) 0) as [i|] eqn:E.
    + left. destruct (pmm_alloc_hit debug st i Hwf E) as (bm & Hrun & Hfl).
      apply first_clear_Some in E as (Hi & Hb & _).
      eexists _, _. split; [done|]. split; [by eapply pmm_wf_flips|].
      split; [exists i; split_and!; [lia..|done|done]|]. split.
      * intros q. rewrite (pmm_is_free_flips st bm i true) by (done || lia). naive_solver.
      * done.
    + right. split; [by apply pmm_alloc_miss|]. intros p (i & Hi & -> & Hb).
      rewrite (first_clear_None _ _ _ E) in Hb by lia. done.
  - intros st p Hwf (i & Hi & ->) Hnf.
    assert (bit (pmm_bitmap st) i = true) as Hb.
    { destruct (bit (pmm_bitmap st) i) eqn:Hb; [done|]. destruct Hnf. by exists i. }
    destruct (pmm_free_run debug st i Hwf Hi Hb) as (bm & Hrun & Hfl).
    eexists; split; [done|]. split; [by eapply pmm_wf_flips|]. split; [|done].
    intros q. rewrite (pmm_is_free_flips st bm i false) by (done || lia).
    split; [naive_solver|]. intros [Hf| ->]; [|by right].
    left. split; [done|]. intros ->. by apply Hnf.
Defined.

(** ** Counting *)

Lemma pmm_count_loop_spec bm n : forall i c,
  (forall j, i <= j < i + Z.of_nat n -> in_bitmap bm j) ->
  pmm_count_loop bm n i c = Ok (c + count_free bm n i).
Proof.
  induction n as [|n IH]; intros i c Hin; cbn [pmm_count_loop count_free].
  { f_equal; lia. }
  destruct (bitmap_test_bit bm i (Hin i ltac:(lia))) as (v & -> & Hv). munfold. rewrite Hv.
  rewrite IH by (intros; apply Hin; lia). f_equal. destruct (bit bm i); cbn [negb]; lia.
Qed.

Lemma count_free_ext bm bm' n : forall i,
  (forall j, i <= j < i + Z.of_nat n -> bit bm' j = bit bm j) ->
  count_free bm' n i = count_free bm n i.
Proof.
  induction n as [|n IH]; intros i Hext; cbn; [done|].
  rewrite Hext, IH by (intros; try apply Hext; lia). done.
Qed.

Lemma count_free_flip bm bm' k n : forall i,
  i <= k < i + Z.of_nat n -> bit bm k = false -> bit bm' k = true ->
  (forall j, i <= j < i + Z.of_nat n -> j <> k -> bit bm' j = bit bm j) ->
  count_free bm' n i = count_free bm n i - 1.
Proof.
  induction n as [|n IH]; intros i Hk H0 H1 Hext; [lia|]. cbn.
  destruct (decide (i = k)) as [->|Hne].
  - rewrite H0, H1, (count_free_ext bm bm') by (intros; apply Hext; lia). lia.
  - rewrite (Hext i), IH by (lia || done || (intros; apply Hext; lia)). lia.
Qed.

(** ** Properties *)

(** C20: an allocation returns the lowest free page, sets exactly that page's bit
    and keeps the allocator invariant; it panics if and only if no page below the
    managed top is free. *)
Theorem pmm_alloc_correct (debug : bool) (st : pmm_state) (Hwf : pmm_wf st) :
  (exists i st', pmm_alloc debug st = Ok (i * PAGE_SIZE, st') /\
     0 <= i < pmm_pages st /\ bit (pmm_bitmap st) i = false /\
     (forall j, 0 <= j < i -> bit (pmm_bitmap st) j = true) /\
     pmm_wf st' /\ flips (pmm_bitmap st) (pmm_bitmap st') i true) \/
  (pmm_alloc debug st = Panic /\ forall p, ~ pmm_is_free st p).
Proof.
  destruct (first_clear (pmm_bitmap st) (Z.to_nat (pmm_pages st)) 0) as [i|] eqn:E.
  - left. destruct (pmm_alloc_hit debug st i Hwf E) as (bm & Hrun & Hfl).
    apply first_clear_Some in E as (Hi & Hb & Hall).
    exists i, (PmmState bm (pmm_bitmap_size st)). do 4 (split; [done || lia|]).
    split; [by eapply pmm_wf_flips|done].
  - right. split; [by apply pmm_alloc_miss|]. intros p (i & Hi & -> & Hb).
    rewrite (first_clear_None _ _ _ E) in Hb by lia. done.
Qed.

Lemma pmm_alloc_correct_witness :
  let st := PmmState [255; 7; 0; 0; 0; 0; 0; 0] 4 in
  (exists i st', pmm_alloc true st = Ok (i * PAGE_SIZE, st') /\
     0 <= i < pmm_pages st /\ bit (pmm_bitmap st) i = false /\
     (forall j, 0 <= j < i -> bit (pmm_bitmap st) j = true) /\
     pmm_wf st' /\ flips (pmm_bitmap st) (pmm_bitmap st') i true) \/
  (pmm_alloc true st = Panic /\ forall p, ~ pmm_is_free st p).
Proof.
  intros st. apply (pmm_alloc_correct true st).
  split; [apply (bool_decide_unpack _); vm_compute; exact I|].
  vm_compute. split_and!; congruence.
Defined.

(** Freeing the page an allocation returned restores the allocator state
    exactly, bitmap bytes included, in both the debug and the release build. *)
Theorem pmm_alloc_free_roundtrip (debug : bool) (st st' : pmm_state) (p : Z)
  (Hwf : pmm_wf st) (Halloc : pmm_alloc debug st = Ok (p, st')) :
  pmm_free debug p st' = Ok (tt, st).
Proof.
  destruct (first_clear (pmm_bitmap st) (Z.to_nat (pmm_pages st)) 0) as [i|] eqn:E.
  2: { rewrite pmm_alloc_miss in Halloc by done. done. }
  destruct (pmm_alloc_hit debug st i Hwf E) as (bm & Hrun & Hfl).
  rewrite Hrun in Halloc. simplify_eq. apply first_clear_Some in E as (Hi & Hb & _).
  pose proof Hfl as (Hl & Hok & Hbits).
  destruct (pmm_free_run debug (PmmState bm (pmm_bitmap_size st)) i) as (bm2 & -> & Hfl2).
  - by eapply pmm_wf_flips.
  - unfold pmm_pages in *; cbn; lia.
  - cbn. by rewrite Hbits, decide_True by lia.
  - destruct Hfl2 as (Hl2 & Hok2 & Hbits2). cbn in *. f_equal. f_equal.
    destruct st as [bm0 sz]. cbn in *. f_equal. destruct Hwf as [Hok0 _].
    apply bits_ext; [done..|congruence|]. intros j Hj.
    rewrite Hbits2, Hbits by done. destruct (decide (j = i)) as [->|]; done.
Qed.

Lemma pmm_alloc_free_roundtrip_witness :
  let st := PmmState [255; 7; 0; 0; 0; 0; 0; 0] 4 in
  pmm_free true (11 * PAGE_SIZE) (PmmState [255; 15; 0; 0; 0; 0; 0; 0] 4) = Ok (tt, st).
Proof.
  intros st. apply (pmm_alloc_free_roundtrip true st).
  - split; [apply (bool_decide_unpack _); vm_compute; exact I|].
    vm_compute. split_and!; congruence.
  - vm_compute. reflexivity.
Defined.

(** [pmm_get_free_page_count] returns the number of free pages, and every
    successful allocation lowers that number by exactly one. *)
Theorem pmm_free_page_count_correct (debug : bool) (st st' : pmm_state) (p : Z)
  (Hwf : pmm_wf st) (Halloc : pmm_alloc debug st = Ok (p, st')) :
  pmm_get_free_page_count st = Ok (free_pages st, st) /\
  pmm_get_free_page_count st' = Ok (free_pages st - 1, st').
Proof.
  destruct (first_clear (pmm_bitmap st) (Z.to_nat (pmm_pages st)) 0) as [i|] eqn:E.
  2: { rewrite pmm_alloc_miss in Halloc by done. done. }
  destruct (pmm_alloc_hit debug st i Hwf E) as (bm & Hrun & Hfl).
  rewrite Hrun in Halloc. simplify_eq. apply first_clear_Some in E as (Hi & Hb & _).
  assert (pmm_wf (PmmState bm (pmm_bitmap_size st))) as Hwf' by (by eapply pmm_wf_flips).
  assert (forall s, pmm_wf s -> pmm_get_free_page_count s = Ok (free_pages s, s)) as Hcount.
  { intros s Hs. unfold pmm_get_free_page_count. munfold. rewrite u32_pages by done.
    rewrite pmm_count_loop_spec; [done|]. intros j Hj. apply pmm_wf_in_bitmap; [done|lia]. }
  rewrite !Hcount by done. split; [done|]. f_equal. f_equal.
  destruct Hfl as (_ & _ & Hbits). unfold free_pages, pmm_pages. cbn.
  apply count_free_flip with i; [unfold pmm_pages in *; lia|done| |].
  - by rewrite Hbits, decide_True by lia.
  - intros j Hj Hne. by rewrite Hbits, decide_False by lia.
Qed.

Lemma pmm_free_page_count_correct_witness :
  let st := PmmState [255; 7; 0; 0; 0; 0; 0; 0] 4 in
  let st' := PmmState [255; 15; 0; 0; 0; 0; 0; 0] 4 in
  pmm_get_free_page_count st = Ok (free_pages st, st) /\
  pmm_get_free_page_count st' = Ok (free_pages st - 1, st').
Proof.
  intros st st'. apply (pmm_free_page_count_correct true st st' (11 * PAGE_SIZE)).
  - split; [apply (bool_decide_unpack _); vm_compute; exact I|].
    vm_compute. split_and!; congruence.
  - vm_compute. reflexivity.
Defined.
