(* ===== verification/Crc32.v ===== *)
(** * CRC-32

    [kernel/common/crc32.c], its stage 2 copy [boot/stage2/stage2_crc32.c] and
    the copy in [tools/bsfs/bsfs-populate.c].  A buffer and its length are the
    list of the bytes the loop reads; each of the six C loops is a recursion of
    its own.  The polynomial is a parameter of the bit step because the populate
    tool's one-shot [crc32] uses another constant.

    The theorems: the checksum is the remainder, over GF(2), of the message by the
    generator polynomial of CRC-32; every copy and the incremental interface over
    any split of the data give that same number; and the checksum detects every
    single-byte change. *)
From S2P Require Import Prelude.
From Stdlib Require Import ZArith Lia.
From stdpp Require Import base tactics list numbers.

Open Scope Z_scope.

Definition CRC_POLY : Z := 0xEDB88320.
Definition POPULATE_CRC_POLY : Z := 0xEBD88320.
Definition CRC_INIT : Z := 0xFFFFFFFF.

(** [crc = (crc >> 1) ^ (poly & -(crc & 1))] *)
Definition crc_bit (poly crc : Z) : Z :=
  Z.lxor (Z.shiftr crc 1) (Z.land poly (u32 (- Z.land crc 1))).

(** *** [kernel/common/crc32.c] *)

(** The loop of [crc32]. *)
Fixpoint crc32_loop (crc : Z) (data : list Z) : Z :=
  match data with
  | [] => crc
  | b :: data' => crc32_loop (Nat.iter 8 (crc_bit CRC_POLY) (Z.lxor crc b)) data'
  end.

Definition crc32 (data : list Z) : Z := u32 (Z.lnot (crc32_loop CRC_INIT data)).

(** [crc32_update] has a loop of its own. *)
Fixpoint crc32_update (crc : Z) (data : list Z) : Z :=
  match data with
  | [] => crc
  | b :: data' => crc32_update (Nat.iter 8 (crc_bit CRC_POLY) (Z.lxor crc b)) data'
  end.

Definition crc32_finalize (crc : Z) : Z := u32 (Z.lnot crc).

(** *** [boot/stage2/stage2_crc32.c] *)

Fixpoint stage2_crc32_loop (crc : Z) (data : list Z) : Z :=
  match data with
  | [] => crc
  | b :: data' => stage2_crc32_loop (Nat.iter 8 (crc_bit CRC_POLY) (Z.lxor crc b)) data'
  end.

Definition stage2_crc32 (data : list Z) : Z := u32 (Z.lnot (stage2_crc32_loop CRC_INIT data)).

Fixpoint stage2_crc32_update (crc : Z) (data : list Z) : Z :=
  match data with
  | [] => crc
  | b :: data' => stage2_crc32_update (Nat.iter 8 (crc_bit CRC_POLY) (Z.lxor crc b)) data'
  end.

(** *** [tools/bsfs/bsfs-populate.c]

    The incremental function and the one-shot function differ in their
    constant. *)
Fixpoint populate_crc32_update (crc : Z) (data : list Z) : Z :=
  match data with
  | [] => crc
  | b :: data' => populate_crc32_update (Nat.iter 8 (crc_bit CRC_POLY) (Z.lxor crc b)) data'
  end.

Definition populate_crc32_finalize (crc : Z) : Z := u32 (Z.lnot crc).

Fixpoint populate_crc32_loop (crc : Z) (data : list Z) : Z :=
  match data with
  | [] => crc
  | b :: data' => populate_crc32_loop (Nat.iter 8 (crc_bit POPULATE_CRC_POLY) (Z.lxor crc b)) data'
  end.

Definition populate_crc32 (data : list Z) : Z := u32 (Z.lnot (populate_crc32_loop CRC_INIT data)).

(** ** Specification

    The cyclic redundancy check as a remainder: a number stands for the
    polynomial over GF(2) whose coefficients are its bits, so that [Z.lxor] is
    addition and doubling is multiplication by x. *)

(** x^32 + x^26 + x^23 + x^22 + x^16 + x^12 + x^11 + x^10 + x^8 + x^7 + x^5 + x^4
    + x^2 + x + 1 *)
Definition GENERATOR : Z := 0x104C11DB7.

(** The polynomial whose coefficients, highest first, are [bits]. *)
Definition poly_of (bits : list bool) : Z :=
  fold_left (fun acc b => 2 * acc + Z.b2z b) bits 0.

(** The product of [poly_of q] and [p], by Horner's rule. *)
Definition poly_mul (q : list bool) (p : Z) : Z :=
  fold_left (fun acc (b : bool) => Z.lxor (2 * acc) (if b then p else 0)) q 0.

(** The [n] low bits of a number, lowest first. *)
Definition low_bits (n : nat) (x : Z) : list bool :=
  map (fun i => Z.testbit x (Z.of_nat i)) (seq 0 n).

(** A message as a bit string: each byte is sent lowest bit first. *)
Definition message_bits (data : list Z) : list bool := concat (map (low_bits 8) data).

(** A 32-bit register read in the opposite bit order. *)
Definition reflect32 (x : Z) : Z := poly_of (low_bits 32 x).

(** [r] is the remainder of the message, shifted up by 32 and with its first 32
    bits complemented, by the generator: the degree of [r] is below 32 and the
    difference is a multiple of the generator. *)
Definition crc_remainder (bits : list bool) (r : Z) : Prop :=
  0 <= r < 2 ^ 32 /\
  exists q, poly_mul q GENERATOR =
    Z.lxor (Z.lxor (poly_of bits * 2 ^ 32) (0xFFFFFFFF * 2 ^ Z.of_nat (length bits))) r.

(** ** Lemmas *)

(** The loops above as one fold, for the lemmas. *)
Definition crc_byte (poly crc b : Z) : Z := Nat.iter 8 (crc_bit poly) (Z.lxor crc b).

Definition crc_loop (poly crc : Z) (data : list Z) : Z := fold_left (crc_byte poly) data crc.

Lemma crc32_loop_fold data crc : crc32_loop crc data = crc_loop CRC_POLY crc data.
Proof. revert crc. induction data as [|b d IH]; intros crc; [reflexivity|]. apply IH. Qed.

Lemma crc32_update_fold data crc : crc32_update crc data = crc_loop CRC_POLY crc data.
Proof. revert crc. induction data as [|b d IH]; intros crc; [reflexivity|]. apply IH. Qed.

Lemma stage2_crc32_loop_fold data crc : stage2_crc32_loop crc data = crc_loop CRC_POLY crc data.
Proof. revert crc. induction data as [|b d IH]; intros crc; [reflexivity|]. apply IH. Qed.

Lemma stage2_crc32_update_fold data crc : stage2_crc32_update crc data = crc_loop CRC_POLY crc data.
Proof. revert crc. induction data as [|b d IH]; intros crc; [reflexivity|]. apply IH. Qed.

Lemma populate_crc32_update_fold data crc : populate_crc32_update crc data = crc_loop CRC_POLY crc data.
Proof. revert crc. induction data as [|b d IH]; intros crc; [reflexivity|]. apply IH. Qed.

Definition is_u32 (x : Z) : Prop := 0 <= x < 2 ^ 32.

Lemma is_u32_bits x k : is_u32 x -> 32 <= k -> Z.testbit x k = false.
Proof.
  intros Hx Hk. destruct (decide (x = 0)) as [->|]; [apply Z.bits_0|]. unfold is_u32 in Hx.
  apply Z.bits_above_log2; [lia|]. apply Z.log2_lt_pow2; [lia|].
  eapply Z.lt_le_trans; [apply Hx|]. apply Z.pow_le_mono_r; lia.
Qed.

Lemma is_u32_intro x : 0 <= x -> (forall k, 32 <= k -> Z.testbit x k = false) -> is_u32 x.
Proof.
  intros Hx Hb. split; [done|]. destruct (Z.lt_ge_cases x (2 ^ 32)) as [|Hge]; [done|].
  assert (32 <= Z.log2 x) by (apply Z.log2_le_pow2; lia).
  specialize (Hb _ H). rewrite Z.bit_log2 in Hb by lia. done.
Qed.

Lemma is_u32_lxor a b : is_u32 a -> is_u32 b -> is_u32 (Z.lxor a b).
Proof.
  intros Ha Hb. apply is_u32_intro.
  - apply Z.lxor_nonneg. unfold is_u32 in *. lia.
  - intros k Hk. by rewrite Z.lxor_spec, !is_u32_bits.
Qed.

Lemma crc_bit_alt poly c :
  is_u32 poly -> crc_bit poly c = Z.lxor (Z.shiftr c 1) (if Z.odd c then poly else 0).
Proof.
  intros Hp. unfold crc_bit. f_equal.
  change (Z.land c 1) with (Z.land c (Z.ones 1)). rewrite Z.land_ones by lia.
  change (2 ^ 1) with 2. rewrite Zmod_odd. destruct (Z.odd c).
  - change (u32 (- (1))) with (Z.ones 32). rewrite Z.land_ones by lia.
    apply Z.mod_small. apply Hp.
  - change (u32 (- 0)) with 0. apply Z.land_0_r.
Qed.

Lemma crc_bit_u32 poly c : is_u32 poly -> is_u32 c -> is_u32 (crc_bit poly c).
Proof.
  intros Hp Hc. rewrite crc_bit_alt by done. apply is_u32_lxor.
  - apply is_u32_intro; [apply Z.shiftr_nonneg; unfold is_u32 in Hc; lia|].
    intros k Hk. rewrite Z.shiftr_spec by lia. apply is_u32_bits; [done|lia].
  - destruct (Z.odd c); [done|]. unfold is_u32; lia.
Qed.

(** A bit step is injective: the polynomial's top bit tells the parity. *)
Lemma crc_bit_inj poly a b :
  is_u32 poly -> Z.testbit poly 31 = true -> is_u32 a -> is_u32 b ->
  crc_bit poly a = crc_bit poly b -> a = b.
Proof.
  intros Hp Htop Ha Hb Heq.
  assert (forall c, is_u32 c -> Z.testbit (crc_bit poly c) 31 = Z.odd c) as Hodd.
  { intros c Hc. rewrite crc_bit_alt, Z.lxor_spec, Z.shiftr_spec by (done || lia).
    rewrite is_u32_bits by (done || lia). destruct (Z.odd c); [by rewrite Htop|done]. }
  assert (Z.odd a = Z.odd b) as Hpar by (rewrite <- !Hodd by done; by rewrite Heq).
  rewrite !crc_bit_alt, Hpar in Heq by done.
  assert (Z.shiftr a 1 = Z.shiftr b 1) as Hsh.
  { set (m := if Z.odd b then poly else 0) in Heq.
    rewrite <- (Z.lxor_0_r (Z.shiftr a 1)), <- (Z.lxor_nilpotent m), <- Z.lxor_assoc.
    by rewrite Heq, Z.lxor_assoc, Z.lxor_nilpotent, Z.lxor_0_r. }
  rewrite <- !Z.div2_spec in Hsh. rewrite (Z.div2_odd a), (Z.div2_odd b), Hsh, Hpar. done.
Qed.

Lemma crc_loop_cons poly c x d : crc_loop poly c (x :: d) = crc_loop poly (crc_byte poly c x) d.
Proof. done. Qed.

Section crc_inj.
Context (poly : Z) (Hpoly : is_u32 poly) (Htop : Z.testbit poly 31 = true).

Lemma iter_crc_bit_u32 n c : is_u32 c -> is_u32 (Nat.iter n (crc_bit poly) c).
Proof. intros Hc. induction n; cbn; [done|]. by apply crc_bit_u32. Qed.

Lemma iter_crc_bit_inj n a b :
  is_u32 a -> is_u32 b -> Nat.iter n (crc_bit poly) a = Nat.iter n (crc_bit poly) b -> a = b.
Proof.
  intros Ha Hb. induction n as [|n IH]; cbn; [done|]. intros Heq. apply IH.
  apply (crc_bit_inj poly); [done..| | |done]; by apply iter_crc_bit_u32.
Qed.

Lemma byte_u32 b : is_byte b -> is_u32 b.
Proof. unfold is_byte, is_u32. lia. Qed.

Lemma crc_byte_u32 c b : is_u32 c -> is_byte b -> is_u32 (crc_byte poly c b).
Proof. intros. unfold crc_byte. by apply iter_crc_bit_u32, is_u32_lxor, byte_u32. Qed.

Lemma crc_byte_inj_state a b x :
  is_u32 a -> is_u32 b -> is_byte x -> crc_byte poly a x = crc_byte poly b x -> a = b.
Proof.
  unfold crc_byte. intros Ha Hb Hx Heq. apply byte_u32 in Hx.
  apply iter_crc_bit_inj in Heq; [|by apply is_u32_lxor..].
  apply (f_equal (fun z => Z.lxor z x)) in Heq.
  by rewrite !Z.lxor_assoc, !Z.lxor_nilpotent, !Z.lxor_0_r in Heq.
Qed.

Lemma crc_byte_inj_data c x y :
  is_u32 c -> is_byte x -> is_byte y -> crc_byte poly c x = crc_byte poly c y -> x = y.
Proof.
  unfold crc_byte. intros Hc Hx Hy Heq. apply byte_u32 in Hx, Hy.
  apply iter_crc_bit_inj in Heq; [|by apply is_u32_lxor..].
  apply (f_equal (Z.lxor c)) in Heq.
  by rewrite <- !Z.lxor_assoc, !Z.lxor_nilpotent, !Z.lxor_0_l in Heq.
Qed.

Lemma crc_loop_u32 data c : is_u32 c -> bytes_ok data -> is_u32 (crc_loop poly c data).
Proof.
  intros Hc Hd. revert c Hc. induction Hd as [|x d Hx _ IH]; intros c Hc; [done|].
  rewrite crc_loop_cons. apply IH. by apply crc_byte_u32.
Qed.

Lemma crc_loop_inj_state data a b :
  bytes_ok data -> is_u32 a -> is_u32 b ->
  crc_loop poly a data = crc_loop poly b data -> a = b.
Proof.
  intros Hd. revert a b. induction Hd as [|x d Hx _ IH]; intros a b Ha Hb; [done|].
  rewrite !crc_loop_cons. intros Heq. eapply crc_byte_inj_state; [done..|].
  apply IH; [by apply crc_byte_u32..|done].
Qed.
End crc_inj.

Lemma crc_loop_app poly c d1 d2 : crc_loop poly c (d1 ++ d2) = crc_loop poly (crc_loop poly c d1) d2.
Proof. apply fold_left_app. Qed.

Lemma crc_poly_ok : is_u32 CRC_POLY /\ Z.testbit CRC_POLY 31 = true.
Proof. by vm_compute. Qed.

Lemma crc32_update_u32 c d : is_u32 c -> bytes_ok d -> is_u32 (crc32_update c d).
Proof. rewrite crc32_update_fold. apply crc_loop_u32, crc_poly_ok. Qed.

Lemma crc32_update_app c d1 d2 : crc32_update c (d1 ++ d2) = crc32_update (crc32_update c d1) d2.
Proof. rewrite !crc32_update_fold. apply crc_loop_app. Qed.

Lemma crc32_update_finalize d : crc32_finalize (crc32_update CRC_INIT d) = crc32 d.
Proof. unfold crc32, crc32_finalize. by rewrite crc32_update_fold, crc32_loop_fold. Qed.

Lemma crc_init_u32 : is_u32 CRC_INIT.
Proof. by vm_compute. Qed.

Lemma u32_lnot_inj a b : is_u32 a -> is_u32 b -> u32 (Z.lnot a) = u32 (Z.lnot b) -> a = b.
Proof.
  unfold is_u32, u32, Z.lnot. intros Ha Hb Heq.
  assert (forall x, 0 <= x < 2 ^ 32 -> Z.pred (- x) mod 2 ^ 32 = 2 ^ 32 - 1 - x) as Hm.
  { intros x Hx. rewrite <- (Z.mod_add _ 1) by done. rewrite Z.mod_small; lia. }
  rewrite !Hm in Heq by done. lia.
Qed.

Lemma updates_fold (upd : Z -> list Z -> Z) (Hupd : forall d c, upd c d = crc_loop CRC_POLY c d) chunks c :
  fold_left upd chunks c = crc_loop CRC_POLY c (concat chunks).
Proof.
  revert c. induction chunks as [|d ds IH]; intros c; [done|].
  cbn [fold_left]. rewrite IH, Hupd. symmetry. apply crc_loop_app.
Qed.

(** *** Polynomials *)

Lemma double_add_bit a b : 2 * a + Z.b2z b = Z.lxor (2 * a) (Z.b2z b).
Proof.
  apply Z.add_nocarry_lxor. destruct b; [|apply Z.land_0_r].
  change (Z.b2z true) with (Z.ones 1). rewrite Z.land_ones by lia.
  change (2 ^ 1) with 2. rewrite Z.mul_comm. by apply Z.mod_mul.
Qed.

Lemma double_lxor a b : 2 * Z.lxor a b = Z.lxor (2 * a) (2 * b).
Proof.
  rewrite <- !(Z.mul_comm _ 2). change 2 with (2 ^ 1) at 1 2 3.
  rewrite <- !Z.shiftl_mul_pow2 by lia. apply Z.shiftl_lxor.
Qed.

Lemma poly_of_snoc bits b : poly_of (bits ++ [b]) = 2 * poly_of bits + Z.b2z b.
Proof. unfold poly_of. by rewrite fold_left_app. Qed.

Lemma poly_of_range bits : 0 <= poly_of bits < 2 ^ Z.of_nat (length bits).
Proof.
  induction bits as [|b bits IH] using rev_ind; [done|].
  rewrite poly_of_snoc, length_app, Nat2Z.inj_add, Z.pow_add_r by lia.
  change (2 ^ Z.of_nat (length [b])) with 2. destruct b; cbn [Z.b2z]; lia.
Qed.

Lemma poly_of_testbit bits k :
  0 <= k < Z.of_nat (length bits) ->
  Z.testbit (poly_of bits) k = nth (length bits - 1 - Z.to_nat k) bits false.
Proof.
  revert k. induction bits as [|b bits IH] using rev_ind; intros k Hk; [cbn in Hk; lia|].
  rewrite length_app in *. cbn [length] in *. rewrite poly_of_snoc.
  destruct (decide (k = 0)) as [->|Hn].
  - rewrite Z.add_b2z_double_bit0 || rewrite Z.testbit_0_r. 
    rewrite app_nth2 by lia.
    by replace (length bits + 1 - 1 - Z.to_nat 0 - length bits)%nat with 0%nat by lia.
  - replace k with (Z.succ (k - 1)) at 1 by lia. rewrite Z.testbit_succ_r by lia.
    rewrite IH by lia. rewrite app_nth1 by lia. f_equal. lia.
Qed.

Lemma length_low_bits n x : length (low_bits n x) = n.
Proof. unfold low_bits. by rewrite length_map, length_seq. Qed.

Lemma nth_low_bits n x i : (i < n)%nat -> nth i (low_bits n x) false = Z.testbit x (Z.of_nat i).
Proof.
  intros Hi. unfold low_bits. rewrite (nth_indep _ false (Z.testbit x (Z.of_nat 0))) by (by rewrite length_map, length_seq).
  rewrite map_nth with (f := fun i => Z.testbit x (Z.of_nat i)). by rewrite seq_nth.
Qed.

Lemma reflect32_u32 x : is_u32 (reflect32 x).
Proof. unfold reflect32. pose proof (poly_of_range (low_bits 32 x)). by rewrite length_low_bits in H. Qed.

Lemma reflect32_testbit x k : 0 <= k < 32 -> Z.testbit (reflect32 x) k = Z.testbit x (31 - k).
Proof.
  intros Hk. unfold reflect32. rewrite poly_of_testbit; rewrite length_low_bits; [|lia].
  rewrite nth_low_bits by lia. f_equal. lia.
Qed.

Lemma poly_mul_snoc q b p : poly_mul (q ++ [b]) p = Z.lxor (2 * poly_mul q p) (if b then p else 0).
Proof. unfold poly_mul. by rewrite fold_left_app. Qed.

Lemma poly_mul_pad n q p : poly_mul (repeat false n ++ q) p = poly_mul q p.
Proof. unfold poly_mul. rewrite fold_left_app. f_equal. induction n as [|n IH]; [done|]. exact IH. Qed.

Lemma poly_mul_same_length q1 q2 p :
  length q1 = length q2 -> exists q, poly_mul q p = Z.lxor (poly_mul q1 p) (poly_mul q2 p).
Proof.
  revert q2. induction q1 as [|b1 q1 IH] using rev_ind; intros q2 Hl.
  - destruct q2; [by exists []|done].
  - destruct q2 as [|b2 q2 _] using rev_ind; [rewrite length_app in Hl; cbn in Hl; lia|].
    rewrite !length_app in Hl. cbn in Hl. destruct (IH q2) as [q Hq]; [lia|].
    exists (q ++ [xorb b1 b2]). rewrite !poly_mul_snoc, Hq, double_lxor.
    apply Z.bits_inj'. intros k Hk. rewrite !Z.lxor_spec.
    destruct b1, b2; cbn [xorb]; rewrite ?Z.bits_0, ?xorb_false_r;
      destruct (Z.testbit (2 * poly_mul q1 p) k), (Z.testbit (2 * poly_mul q2 p) k), (Z.testbit p k); done.
Qed.

Lemma poly_mul_lxor q1 q2 p : exists q, poly_mul q p = Z.lxor (poly_mul q1 p) (poly_mul q2 p).
Proof.
  rewrite <- (poly_mul_pad (length q2) q1), <- (poly_mul_pad (length q1) q2).
  apply poly_mul_same_length. rewrite !length_app, !repeat_length. lia.
Qed.

(** A multiple of the generator is zero or has degree 32 at least. *)
Lemma poly_mul_degree q : poly_mul q GENERATOR = 0 \/ 2 ^ 32 <= poly_mul q GENERATOR.
Proof.
  induction q as [|b q IH] using rev_ind; [by left|]. rewrite poly_mul_snoc.
  destruct IH as [->|Hge]; [destruct b; [right; by vm_compute|by left]|].
  right. destruct b; [|rewrite Z.lxor_0_r; lia].
  set (a := 2 * poly_mul q GENERATOR). assert (2 ^ 33 <= a) as Ha by (subst a; lia).
  assert (33 <= Z.log2 a) as Hlog by (apply Z.log2_le_pow2; lia).
  destruct (Z.le_gt_cases (2 ^ 32) (Z.lxor a GENERATOR)) as [|Hlt]; [done|exfalso].
  assert (0 <= Z.lxor a GENERATOR) by (apply Z.lxor_nonneg; unfold GENERATOR; lia).
  pose proof (is_u32_bits (Z.lxor a GENERATOR) (Z.log2 a)) as Hb.
  rewrite Z.lxor_spec, Z.bit_log2 in Hb by lia.
  rewrite Z.bits_above_log2 in Hb; [|by vm_compute|change (Z.log2 GENERATOR) with 32; lia].
  specialize (Hb ltac:(unfold is_u32; lia) ltac:(lia)). done.
Qed.

Lemma lxor_cancel_l m a b : Z.lxor (Z.lxor m a) (Z.lxor m b) = Z.lxor a b.
Proof.
  rewrite (Z.lxor_comm m a), Z.lxor_assoc, <- (Z.lxor_assoc m m).
  by rewrite Z.lxor_nilpotent, Z.lxor_0_l.
Qed.

Lemma crc_remainder_unique bits r1 r2 : crc_remainder bits r1 -> crc_remainder bits r2 -> r1 = r2.
Proof.
  intros [H1 [q1 Hq1]] [H2 [q2 Hq2]]. destruct (poly_mul_lxor q1 q2 GENERATOR) as [q Hq].
  rewrite Hq1, Hq2, lxor_cancel_l in Hq.
  assert (is_u32 (Z.lxor r1 r2)) as Hu by by apply is_u32_lxor.
  apply Z.lxor_eq. rewrite <- Hq in Hu |- *. unfold is_u32 in Hu.
  destruct (poly_mul_degree q); lia.
Qed.

(** *** The register as the reflected remainder *)

(** One message bit. *)
Definition bit_step (c : Z) (b : bool) : Z := crc_bit CRC_POLY (Z.lxor c (Z.b2z b)).

Lemma odd_lxor a b : Z.odd (Z.lxor a b) = xorb (Z.odd a) (Z.odd b).
Proof. rewrite <- !Z.bit0_odd. apply Z.lxor_spec. Qed.

Lemma odd_b2z b : Z.odd (Z.b2z b) = b.
Proof. by destruct b. Qed.

Lemma crc_bit_split c e :
  crc_bit CRC_POLY (Z.lxor c e) = Z.lxor (bit_step c (Z.odd e)) (Z.shiftr e 1).
Proof.
  unfold bit_step. rewrite !crc_bit_alt by apply crc_poly_ok.
  rewrite !odd_lxor, odd_b2z, !Z.shiftr_lxor.
  replace (Z.shiftr (Z.b2z (Z.odd e)) 1) with 0 by by destruct (Z.odd e).
  rewrite Z.lxor_0_r, !Z.lxor_assoc. f_equal. apply Z.lxor_comm.
Qed.

Lemma low_bits_S n x : low_bits (S n) x = low_bits n x ++ [Z.testbit x (Z.of_nat n)].
Proof. unfold low_bits. by rewrite seq_S, map_app. Qed.

Lemma iter_crc_bit_split n c d :
  Nat.iter n (crc_bit CRC_POLY) (Z.lxor c d) =
  Z.lxor (fold_left bit_step (low_bits n d) c) (Z.shiftr d (Z.of_nat n)).
Proof.
  induction n as [|n IH]; [by rewrite Z.shiftr_0_r|].
  change (Nat.iter (S n) (crc_bit CRC_POLY) (Z.lxor c d))
    with (crc_bit CRC_POLY (Nat.iter n (crc_bit CRC_POLY) (Z.lxor c d))).
  rewrite IH, crc_bit_split, low_bits_S, fold_left_app. cbn [fold_left].
  rewrite Z.shiftr_shiftr by lia. f_equal; [|f_equal; lia]. f_equal.
  rewrite <- Z.bit0_odd, Z.shiftr_spec by lia. f_equal; lia.
Qed.

Lemma crc_byte_bits c b : is_byte b -> crc_byte CRC_POLY c b = fold_left bit_step (low_bits 8 b) c.
Proof.
  intros Hb. unfold crc_byte. rewrite iter_crc_bit_split.
  replace (Z.shiftr b (Z.of_nat 8)) with 0; [apply Z.lxor_0_r|].
  rewrite Z.shiftr_div_pow2 by lia. symmetry. apply Z.div_small. exact Hb.
Qed.

Lemma crc_loop_bits data c :
  bytes_ok data -> crc_loop CRC_POLY c data = fold_left bit_step (message_bits data) c.
Proof.
  intros Hd. revert c. induction Hd as [|b d Hb _ IH]; intros c; [done|].
  rewrite crc_loop_cons, IH, crc_byte_bits by done.
  unfold message_bits. cbn [map concat]. by rewrite fold_left_app.
Qed.

Lemma bit_step_u32 c b : is_u32 c -> is_u32 (bit_step c b).
Proof.
  intros Hc. apply crc_bit_u32; [apply crc_poly_ok|]. apply is_u32_lxor; [done|].
  destruct b; unfold is_u32; cbn; lia.
Qed.

Lemma generator_reflects : GENERATOR = Z.lxor (2 ^ 32) (reflect32 CRC_POLY).
Proof. by vm_compute. Qed.

Lemma double_reflect32_testbit c k :
  0 <= k -> Z.testbit (2 * reflect32 c) k = (0 <? k) && (k <=? 32) && Z.testbit c (32 - k).
Proof.
  intros Hk. destruct (decide (k = 0)) as [->|]; [by rewrite Z.testbit_even_0|].
  replace k with (Z.succ (k - 1)) at 1 by lia. rewrite Z.testbit_even_succ by lia.
  destruct (Z.leb_spec k 32); [|rewrite is_u32_bits by (apply reflect32_u32 || lia); by destruct (0 <? k)].
  rewrite reflect32_testbit by lia. destruct (Z.ltb_spec 0 k); [|lia]. cbn [andb]. f_equal. lia.
Qed.

Lemma message_bit_testbit b k : 0 <= k -> Z.testbit (Z.b2z b * 2 ^ 32) k = (k =? 32) && b.
Proof.
  intros Hk. destruct b; cbn [Z.b2z]; [|by rewrite Z.mul_0_l, Z.bits_0, andb_false_r].
  rewrite Z.mul_1_l, andb_true_r. destruct (Z.eqb_spec k 32) as [->|]; [done|]. by apply Z.pow2_bits_false.
Qed.

Lemma generator_testbit k :
  0 <= k -> Z.testbit GENERATOR k = (k =? 32) || (k <? 32) && Z.testbit CRC_POLY (31 - k).
Proof.
  intros Hk. rewrite generator_reflects, Z.lxor_spec. destruct (Z.eqb_spec k 32) as [->|Hn].
  - by rewrite (is_u32_bits (reflect32 _)) by (apply reflect32_u32 || lia).
  - rewrite Z.pow2_bits_false by done. cbn [orb xorb].
    destruct (Z.ltb_spec k 32); [by rewrite reflect32_testbit|].
    rewrite is_u32_bits by (apply reflect32_u32 || lia). done.
Qed.

Lemma choose_testbit (t : bool) x k : Z.testbit (if t then x else 0) k = t && Z.testbit x k.
Proof. destruct t; [done|apply Z.bits_0]. Qed.

(** A bit step of the register is one step of the long division. *)
Lemma reflect32_bit_step c b :
  is_u32 c ->
  reflect32 (bit_step c b) =
    Z.lxor (Z.lxor (2 * reflect32 c) (Z.b2z b * 2 ^ 32)) (if xorb (Z.odd c) b then GENERATOR else 0).
Proof.
  intros Hc. apply Z.bits_inj'. intros k Hk.
  rewrite !Z.lxor_spec, double_reflect32_testbit, message_bit_testbit, choose_testbit, generator_testbit by done.
  destruct (Z.lt_ge_cases k 32) as [Hlt|Hge].
  - rewrite reflect32_testbit by lia. unfold bit_step. rewrite crc_bit_alt by apply crc_poly_ok.
    rewrite Z.lxor_spec, odd_lxor, odd_b2z, Z.shiftr_spec, Z.lxor_spec, choose_testbit by lia.
    replace (Z.testbit (Z.b2z b) (31 - k + 1)) with false
      by (symmetry; destruct b; [apply Z.bits_above_log2; cbn; lia|apply Z.bits_0]).
    replace (31 - k + 1) with (32 - k) by lia. rewrite xorb_false_r.
    replace (k =? 32) with false by lia. replace (k <? 32) with true by lia.
    replace (k <=? 32) with true by lia. cbn [andb orb]. rewrite andb_true_r, xorb_false_r. f_equal.
    destruct (Z.ltb_spec 0 k); [done|]. replace k with 0 by lia. by apply is_u32_bits.
  - rewrite is_u32_bits by (apply reflect32_u32 || lia).
    destruct (decide (k = 32)) as [->|Hn].
    + change (32 - 32) with 0. rewrite Z.bit0_odd. by destruct (Z.odd c), b.
    + replace (k =? 32) with false by lia. replace (k <? 32) with false by lia.
      replace (k <=? 32) with false by lia. cbn [andb orb]. by rewrite !andb_false_r.
Qed.

(** The register after a bit string is the remainder of that string. *)
Lemma register_remainder bits :
  is_u32 (fold_left bit_step bits CRC_INIT) /\
  crc_remainder bits (reflect32 (fold_left bit_step bits CRC_INIT)).
Proof.
  induction bits as [|b bits [Hu [_ [q Hq]]]] using rev_ind.
  - split; [apply crc_init_u32|]. split; [apply reflect32_u32|]. exists []. by vm_compute.
  - rewrite fold_left_app. cbn [fold_left]. set (c := fold_left bit_step bits CRC_INIT) in *.
    split; [by apply bit_step_u32|]. split; [apply reflect32_u32|].
    exists (q ++ [xorb (Z.odd c) b]).
    rewrite poly_mul_snoc, Hq, reflect32_bit_step, poly_of_snoc by done.
    rewrite length_app, Nat2Z.inj_add. change (Z.of_nat (length [b])) with 1.
    rewrite Z.pow_add_r by lia.
    replace (0xFFFFFFFF * (2 ^ Z.of_nat (length bits) * 2 ^ 1))
      with (2 * (0xFFFFFFFF * 2 ^ Z.of_nat (length bits))) by lia.
    replace ((2 * poly_of bits + Z.b2z b) * 2 ^ 32)
      with (Z.lxor (2 * (poly_of bits * 2 ^ 32)) (Z.b2z b * 2 ^ 32)).
    2: { rewrite double_add_bit, <- !Z.shiftl_mul_pow2, Z.shiftl_lxor by lia.
         rewrite !Z.shiftl_mul_pow2 by lia. f_equal. lia. }
    rewrite !double_lxor.
    apply Z.bits_inj'. intros k Hk. rewrite !Z.lxor_spec.
    repeat match goal with |- context [Z.testbit ?x k] => destruct (Z.testbit x k) end; done.
Qed.

Lemma u32_lnot_lxor x : is_u32 x -> Z.lxor (u32 (Z.lnot x)) 0xFFFFFFFF = x.
Proof.
  intros Hx. unfold u32. rewrite <- Z.land_ones by lia. change 0xFFFFFFFF with (Z.ones 32).
  apply Z.bits_inj'. intros k Hk. rewrite Z.lxor_spec, Z.land_spec, Z.lnot_spec by lia.
  destruct (Z.lt_ge_cases k 32).
  - rewrite Z.ones_spec_low by lia. by destruct (Z.testbit x k).
  - rewrite Z.ones_spec_high, is_u32_bits by (done || lia). done.
Qed.

(** ** Properties *)

(** C38: the checksum is the CRC-32 of the standard: over bytes, reading the
    complement of [crc32 data] in the opposite bit order gives the remainder of the
    message, each byte lowest bit first, shifted up by 32 bits and with its first
    32 bits complemented, divided by the generator polynomial 0x104C11DB7 over
    GF(2), and no other number is such a remainder.  The incremental interface
    over any split of the data, in the kernel, in stage 2 and in the populate
    tool, and the one-shot function of stage 2 give the same number. *)
Theorem crc32_correct (data : list Z) (Hdata : bytes_ok data) :
  0 <= crc32 data < 2 ^ 32 /\
  (forall r, crc_remainder (message_bits data) r <-> r = reflect32 (Z.lxor (crc32 data) 0xFFFFFFFF)) /\
  stage2_crc32 data = crc32 data /\
  forall chunks, concat chunks = data ->
    crc32_finalize (fold_left crc32_update chunks CRC_INIT) = crc32 data /\
    crc32_finalize (fold_left stage2_crc32_update chunks CRC_INIT) = crc32 data /\
    populate_crc32_finalize (fold_left populate_crc32_update chunks CRC_INIT) = crc32 data.
Proof.
  assert (crc32 data = u32 (Z.lnot (crc_loop CRC_POLY CRC_INIT data))) as Hcrc
    by (unfold crc32; by rewrite crc32_loop_fold).
  split; [rewrite Hcrc; by apply Z.mod_pos_bound|]. split; [|split].
  - rewrite Hcrc, u32_lnot_lxor, crc_loop_bits by (done || by apply crc_loop_u32; [apply crc_poly_ok|apply crc_init_u32|]).
    intros r. destruct (register_remainder (message_bits data)) as [_ Hrem].
    split; [|by intros ->]. intros Hr. by apply (crc_remainder_unique (message_bits data)).
  - unfold stage2_crc32. by rewrite stage2_crc32_loop_fold.
  - intros chunks <-. rewrite !updates_fold; [done|..]; intros.
    + apply populate_crc32_update_fold.
    + apply stage2_crc32_update_fold.
    + apply crc32_update_fold.
Qed.

(** The digits 1 to 9: the check value of CRC-32/ISO-HDLC, its remainder, and the
    same value in two pieces. *)
Lemma crc32_correct_witness :
  crc_remainder (message_bits [49; 50; 51; 52; 53; 54; 55; 56; 57]) (reflect32 (Z.lxor 0xCBF43926 0xFFFFFFFF)) /\
  crc32_finalize (crc32_update (crc32_update CRC_INIT [49; 50; 51; 52]) [53; 54; 55; 56; 57]) = 0xCBF43926.
Proof.
  pose proof (crc32_correct [49; 50; 51; 52; 53; 54; 55; 56; 57]
    ltac:(apply (bool_decide_unpack _); vm_compute; exact I)) as (_ & Hrem & _ & Hsplit).
  split.
  - apply Hrem. vm_compute. reflexivity.
  - transitivity (crc32 [49; 50; 51; 52; 53; 54; 55; 56; 57]); [|vm_compute; reflexivity].
    apply (Hsplit [[49; 50; 51; 52]; [53; 54; 55; 56; 57]]). reflexivity.
Defined.

(** The checksum detects every change of a single byte: two buffers of the
    same length that differ in exactly one position have different [crc32]. *)
Theorem crc32_detects_byte_change (pre post : list Z) (x y : Z)
  (Hpre : bytes_ok pre) (Hpost : bytes_ok post) (Hx : is_byte x) (Hy : is_byte y)
  (Hne : x <> y) :
  crc32 (pre ++ x :: post) <> crc32 (pre ++ y :: post).
Proof.
  destruct crc_poly_ok as [Hp Ht]. pose proof crc_init_u32 as Hi.
  pose proof (crc_loop_u32 _ Hp pre CRC_INIT Hi Hpre) as Hs.
  unfold crc32. rewrite !crc32_loop_fold. revert Hp Ht Hi Hs. generalize CRC_POLY CRC_INIT. intros poly init Hp Ht Hi Hs.
  intros Heq. apply u32_lnot_inj in Heq.
  2,3: apply crc_loop_u32; [done..|]; apply Forall_app; split; [done|by constructor].
  rewrite !crc_loop_app, !crc_loop_cons in Heq.
  apply crc_loop_inj_state in Heq; [|done..|by apply crc_byte_u32|by apply crc_byte_u32].
  apply crc_byte_inj_data in Heq; done.
Qed.

Lemma crc32_detects_byte_change_witness :
  crc32 ([1; 2] ++ 3 :: [4]) <> crc32 ([1; 2] ++ 7 :: [4]).
Proof.
  apply (crc32_detects_byte_change [1; 2] [4] 3 7).
  - apply (bool_decide_unpack _). vm_compute. exact I.
  - apply (bool_decide_unpack _). vm_compute. exact I.
  - vm_compute. split; congruence.
  - vm_compute. split; congruence.
  - congruence.
Defined.

(** The check value of CRC-32/ISO-HDLC on the ASCII digits 1 to 9. *)
Example crc32_check_value : crc32 [49; 50; 51; 52; 53; 54; 55; 56; 57] = 0xCBF43926.
Proof. vm_compute. reflexivity. Qed.

(** The populate tool's one-shot [crc32] does not compute the checksum the
    rest of the program uses: its polynomial constant has two digits swapped. *)
Theorem populate_crc32_differs :
  populate_crc32 [0] <> crc32 [0] /\
  populate_crc32_finalize (populate_crc32_update CRC_INIT [0]) = crc32 [0].
Proof. split; vm_compute; [congruence|reflexivity]. Qed.
