(* ===== verification/Memory.v ===== *)
(** * Byte-addressed memory

    A memory is a total function from byte addresses to bytes (what lies in
    memory before the program writes it is arbitrary).  Words are little endian,
    as on x86.  The physical memory of [Vmm] and the address spaces of [CString]
    are values of this type. *)
From S2P Require Import Prelude.
From Stdlib Require Import ZArith Lia.
From stdpp Require Import base tactics list numbers.

Open Scope Z_scope.

Definition mem : Type := Z -> Z.

Definition mem_ok (m : mem) : Prop := forall a, is_byte (m a).

(** One byte. *)
Definition upd (m : mem) (a v : Z) : mem := fun x => if x =? a then v else m x.

(** [n] bytes from [a] on, and writing a run of bytes at [a]. *)
Definition load (m : mem) (a : Z) (n : nat) : list Z := (fun i => m (a + Z.of_nat i)) <$> seq 0 n.

Definition store (m : mem) (a : Z) (bs : list Z) : mem := fun x =>
  if x <? a then m x else
  match bs !! Z.to_nat (x - a) with Some b => b | None => m x end.

(** [memset]. *)
Definition fill (m : mem) (a n v : Z) : mem := fun x =>
  if (a <=? x) && (x <? a + n) then v else m x.

Definition load64 (m : mem) (a : Z) : Z := le_word (load m a 8).
Definition store64 (m : mem) (a v : Z) : mem := store m a (le_bytes 8 v).

#[global] Arguments load : simpl never.
#[global] Arguments load64 : simpl never.
#[global] Arguments store64 : simpl never.

(** ** Lemmas *)

Lemma upd_same m a v : upd m a v a = v.
Proof. unfold upd. by rewrite Z.eqb_refl. Qed.

Lemma upd_other m a v x : x <> a -> upd m a v x = m x.
Proof. unfold upd. intros. by rewrite (proj2 (Z.eqb_neq x a)). Qed.

Lemma length_load m a n : length (load m a n) = n.
Proof. unfold load. by rewrite length_fmap, length_seq. Qed.

Lemma load_lookup m a n i : (i < n)%nat -> load m a n !! i = Some (m (a + Z.of_nat i)).
Proof. intros. unfold load. by rewrite list_lookup_fmap, lookup_seq_lt. Qed.

Lemma load_S m a n : load m a (S n) = m a :: load m (a + 1) n.
Proof.
  apply list_eq_same_length with (S n); [cbn; by rewrite length_load|by rewrite length_load|].
  intros i x y Hi. rewrite load_lookup by done. destruct i as [|i].
  - cbn. rewrite Z.add_0_r. congruence.
  - cbn [lookup list_lookup]. rewrite load_lookup by lia.
    replace (a + 1 + Z.of_nat i) with (a + Z.of_nat (S i)) by lia. congruence.
Qed.

Lemma load_ext m m' a n :
  (forall x, a <= x < a + Z.of_nat n -> m x = m' x) -> load m a n = load m' a n.
Proof.
  intros Hext. apply list_eq_same_length with n; [by rewrite !length_load..|].
  intros i x y Hi. rewrite !load_lookup by done. intros [= <-] [= <-]. apply Hext. lia.
Qed.

Lemma load_bytes_ok m a n : mem_ok m -> bytes_ok (load m a n).
Proof. intros Hm. unfold load. apply Forall_fmap, Forall_true. intros i. apply Hm. Qed.

Lemma load64_range m a : mem_ok m -> 0 <= load64 m a < 2 ^ 64.
Proof.
  intros Hm. pose proof (le_word_range _ (load_bytes_ok m a 8 Hm)) as Hr.
  by rewrite length_load in Hr.
Qed.

Lemma store_in m a bs i b : bs !! i = Some b -> store m a bs (a + Z.of_nat i) = b.
Proof.
  intros Hb. unfold store. rewrite (proj2 (Z.ltb_ge _ _)) by lia.
  replace (Z.to_nat (a + Z.of_nat i - a)) with i by lia. by rewrite Hb.
Qed.

Lemma store_out m a bs x :
  x < a \/ a + Z.of_nat (length bs) <= x -> store m a bs x = m x.
Proof.
  intros Hx. unfold store. destruct (Z.ltb_spec x a); [done|].
  by rewrite lookup_ge_None_2 by lia.
Qed.

Lemma load_store_same m a bs : load (store m a bs) a (length bs) = bs.
Proof.
  apply list_eq_same_length with (length bs); [done|by rewrite length_load|].
  intros i x y Hi. rewrite load_lookup by done. intros [= <-] Hy.
  by apply store_in.
Qed.

Lemma load_store_disjoint m a b bs n :
  a + Z.of_nat n <= b \/ b + Z.of_nat (length bs) <= a ->
  load (store m b bs) a n = load m a n.
Proof. intros Hd. apply load_ext. intros x Hx. apply store_out. lia. Qed.

Lemma store_ok m a bs : mem_ok m -> bytes_ok bs -> mem_ok (store m a bs).
Proof.
  intros Hm Hb x. unfold store. destruct (x <? a); [apply Hm|].
  destruct (bs !! Z.to_nat (x - a)) as [b|] eqn:E; [|apply Hm].
  by eapply (Forall_lookup_1 is_byte).
Qed.

Lemma store64_ok m a v : mem_ok m -> mem_ok (store64 m a v).
Proof. intros Hm. apply store_ok; [done|]. apply le_bytes_ok. Qed.

Lemma fill_ok m a n v : mem_ok m -> is_byte v -> mem_ok (fill m a n v).
Proof. intros Hm Hv x. unfold fill. destruct (_ && _); [done|apply Hm]. Qed.

Lemma load64_store64_same m a v : 0 <= v < 2 ^ 64 -> load64 (store64 m a v) a = v.
Proof.
  intros Hv. unfold load64, store64.
  pose proof (load_store_same m a (le_bytes 8 v)) as Hl. rewrite length_le_bytes in Hl.
  rewrite Hl, le_word_bytes. by apply Z.mod_small.
Qed.

Lemma load64_store64_other m a b v :
  a + 8 <= b \/ b + 8 <= a -> load64 (store64 m b v) a = load64 m a.
Proof.
  intros Hd. unfold load64, store64. rewrite load_store_disjoint; [done|].
  rewrite length_le_bytes. lia.
Qed.

Lemma load64_ext m m' a :
  (forall x, a <= x < a + 8 -> m x = m' x) -> load64 m a = load64 m' a.
Proof. intros. unfold load64. f_equal. apply load_ext. intros; apply H; lia. Qed.

Lemma load64_fill_in m a n x : a <= x -> x + 8 <= a + n -> load64 (fill m a n 0) x = 0.
Proof.
  intros. unfold load64, load. cbn [seq fmap list_fmap le_word]. unfold fill.
  repeat match goal with |- context [(?p <=? ?q) && (?r <? ?s)] =>
    rewrite (proj2 (Z.leb_le p q)), (proj2 (Z.ltb_lt r s)) by lia end.
  done.
Qed.

Lemma load64_fill_out m a n v x :
  x + 8 <= a \/ a + n <= x -> load64 (fill m a n v) x = load64 m x.
Proof.
  intros Hx. apply load64_ext. intros y Hy. unfold fill.
  destruct (Z.leb_spec a y), (Z.ltb_spec y (a + n)); try done; lia.
Qed.

Lemma fill_in m a n v x : a <= x < a + n -> fill m a n v x = v.
Proof.
  intros. unfold fill. by rewrite (proj2 (Z.leb_le _ _)), (proj2 (Z.ltb_lt _ _)) by lia.
Qed.

Lemma fill_out m a n v x : x < a \/ a + n <= x -> fill m a n v x = m x.
Proof.
  intros. unfold fill. destruct (Z.leb_spec a x), (Z.ltb_spec x (a + n)); try done; lia.
Qed.
