(* ===== verification/CString.v ===== *)
(** * String and memory functions

    [kernel/common/string.c], [boot/stage2/stage2_string.c] and
    [userspace/libc/string.c].  A [char *] handed to [strlen], [strcmp] or
    [strrev] is the list of the bytes from the pointer to the end of its object;
    running past that end is a [Fault].  The copying functions work on a memory
    and addresses, byte by byte as [rep movsb]/[rep stosb] do, so overlapping
    regions behave as on the machine. *)
From S2P Require Import Prelude Memory.
From Stdlib Require Import ZArith Lia.
From stdpp Require Import base tactics list numbers.

Open Scope Z_scope.

(** ** Strings in one object *)

Fixpoint strlen_loop (str : list Z) (len : Z) : outcome Z :=
  match str with
  | [] => Fault
  | c :: str' => if c =? 0 then Ok len else strlen_loop str' (len + 1)
  end.

Definition strlen (str : list Z) : outcome Z := strlen_loop str 0.

Fixpoint strcmp (lhs rhs : list Z) : outcome Z :=
  match lhs, rhs with
  | a :: lhs', b :: rhs' =>
      if negb (a =? 0) && (a =? b) then strcmp lhs' rhs' else Ok (a - b)
  | _, _ => Fault
  end.

(** [while (end > start)]: swap the two ends and move inwards. *)
Fixpoint strrev_loop (fuel : nat) (str : list Z) (start end_ : Z) : outcome (list Z) :=
  if end_ <=? start then Ok str else
  match fuel with
  | O => OutOfFuel
  | S fuel' =>
      tmp ← rd str end_;
      c ← rd str start;
      str1 ← wr str end_ c;
      str2 ← wr str1 start tmp;
      strrev_loop fuel' str2 (start + 1) (end_ - 1)
  end.

Definition strrev (str : list Z) : outcome (list Z) :=
  c ← rd str 0;
  if c =? 0 then Ok str else
  n ← strlen str;
  strrev_loop (length str) str 0 (n - 1).

(** The stage 2 and libc copies are the same text. *)
Definition stage2_strlen (str : list Z) : outcome Z := strlen_loop str 0.
Definition stage2_strcmp (lhs rhs : list Z) : outcome Z := strcmp lhs rhs.
Definition libc_strlen (str : list Z) : outcome Z := strlen_loop str 0.
Definition libc_strcmp (lhs rhs : list Z) : outcome Z := strcmp lhs rhs.

(** [strchr]/[strrchr]: the index of the hit, [None] for [NULL]. *)
Fixpoint strchr_loop (str : list Z) (n : nat) (i chr : Z) : outcome (option Z) :=
  match n with
  | O => Ok None
  | S n' => c ← rd str i; if c =? chr then Ok (Some i) else strchr_loop str n' (i + 1) chr
  end.

Definition strchr (str : list Z) (chr : Z) : outcome (option Z) :=
  len ← libc_strlen str; strchr_loop str (Z.to_nat len) 0 chr.

Fixpoint strrchr_loop (str : list Z) (n : nat) (i chr : Z) (found : option Z)
  : outcome (option Z) :=
  match n with
  | O => Ok found
  | S n' =>
      c ← rd str i;
      strrchr_loop str n' (i + 1) chr (if c =? chr then Some i else found)
  end.

Definition strrchr (str : list Z) (chr : Z) : outcome (option Z) :=
  len ← libc_strlen str; strrchr_loop str (Z.to_nat len) 0 chr None.

(** ** Copies in memory *)

(** [rep movsb] upwards and downwards; [rep stosb]. *)
Fixpoint movsb_up (n : nat) (m : mem) (d s : Z) : mem :=
  match n with
  | O => m
  | S n' => movsb_up n' (upd m d (m s)) (d + 1) (s + 1)
  end.

Fixpoint movsb_down (n : nat) (m : mem) (d s : Z) : mem :=
  match n with
  | O => m
  | S n' => movsb_down n' (upd m d (m s)) (d - 1) (s - 1)
  end.

Fixpoint stosb (n : nat) (m : mem) (d v : Z) : mem :=
  match n with
  | O => m
  | S n' => stosb n' (upd m d v) (d + 1) v
  end.

(** The kernel's [memcpy]/[memset] return the register [rep] advanced: the
    address after the last byte written. *)
Definition memcpy (m : mem) (dst src count : Z) : Z * mem :=
  (dst + count, movsb_up (Z.to_nat count) m dst src).

Definition memset (m : mem) (dst data count : Z) : Z * mem :=
  (dst + count, stosb (Z.to_nat count) m dst (u8 data)).

Definition stage2_memcpy (m : mem) (dst src count : Z) : Z * mem :=
  (dst, movsb_up (Z.to_nat count) m dst src).

Definition stage2_memset (m : mem) (dst data count : Z) : Z * mem :=
  (dst + count, stosb (Z.to_nat count) m dst (u8 data)).

Definition libc_memcpy (m : mem) (dst src count : Z) : Z * mem :=
  (dst + count, movsb_up (Z.to_nat count) m dst src).

Definition libc_memset (m : mem) (dst data count : Z) : Z * mem :=
  (dst + count, stosb (Z.to_nat count) m dst (u8 data)).

Definition memmove (m : mem) (dst src count : Z) : Z * mem :=
  if dst <? src
  then (dst + count, movsb_up (Z.to_nat count) m dst src)
  else (dst, movsb_down (Z.to_nat count) m (dst + count - 1) (src + count - 1)).

(** [strlen] on memory, with at most [fuel] bytes read. *)
Fixpoint mem_strlen (fuel : nat) (m : mem) (p len : Z) : outcome Z :=
  match fuel with
  | O => OutOfFuel
  | S fuel' => if m (p + len) =? 0 then Ok len else mem_strlen fuel' m p (len + 1)
  end.

Definition strcpy (fuel : nat) (m : mem) (dst src : Z) : outcome (Z * mem) :=
  n ← mem_strlen fuel m src 0;
  Ok (dst, snd (libc_memcpy m dst src (n + 1))).

Definition strncpy (fuel : nat) (m : mem) (dst src count : Z) : outcome (Z * mem) :=
  len ← mem_strlen fuel m src 0;
  let copy_len := if len <? count then len else count in
  let pad_len := if copy_len =? count then 0 else count - len in
  let m1 := snd (libc_memcpy m dst src copy_len) in
  Ok (dst, snd (libc_memset m1 (dst + copy_len) 0 pad_len)).

(** ** Lemmas on strings *)

(** [cstr s bytes]: the object starts with the NUL-terminated string [s]. *)
Definition cstr (s bytes : list Z) : Prop :=
  Forall (fun c => c <> 0) s /\ exists rest, bytes = s ++ 0 :: rest.

Lemma strlen_loop_spec s rest n :
  Forall (fun c => c <> 0) s -> strlen_loop (s ++ 0 :: rest) n = Ok (n + Z.of_nat (length s)).
Proof.
  intros Hs. revert n. induction Hs as [|c s Hc _ IH]; intros n; cbn [app strlen_loop length].
  - cbn. f_equal; lia.
  - rewrite (proj2 (Z.eqb_neq c 0) Hc), IH. f_equal; lia.
Qed.

Lemma strlen_cstr s bytes : cstr s bytes -> strlen bytes = Ok (Z.of_nat (length s)).
Proof. intros [Hs [rest ->]]. unfold strlen. by rewrite strlen_loop_spec. Qed.

Lemma strcmp_cstr s1 s2 b1 b2 :
  cstr s1 b1 -> cstr s2 b2 -> exists v, strcmp b1 b2 = Ok v /\ (v = 0 <-> s1 = s2).
Proof.
  intros [Hs1 [r1 ->]] [Hs2 [r2 ->]]. revert s2 Hs2.
  induction Hs1 as [|a s1 Ha _ IH]; intros s2 Hs2; destruct Hs2 as [|b s2 Hb Hs2]; cbn [app strcmp].
  - exists 0. done.
  - cbn. eexists; split; [done|]. split; [lia|done].
  - rewrite (proj2 (Z.eqb_neq a 0) Ha). cbn.
    eexists; split; [done|]. split; [lia|done].
  - rewrite (proj2 (Z.eqb_neq a 0) Ha). cbn [negb andb].
    destruct (Z.eqb_spec a b) as [->|Hne].
    + destruct (IH s2 Hs2) as (v & -> & Hv). exists v. split; [done|].
      rewrite Hv. split; congruence.
    + eexists; split; [done|]. split; [lia|]. congruence.
Qed.

(** The two accesses of a swap: the first and the last cell of a segment. *)
Section segment.
Context (pre s post : list Z) (a z : Z).
Definition seg (x y : Z) : list Z := pre ++ (x :: s ++ [y]) ++ post.

Lemma seg_first : seg a z !! length pre = Some a.
Proof. unfold seg. by rewrite lookup_app_r, Nat.sub_diag by lia. Qed.

Lemma seg_last : seg a z !! (length pre + S (length s))%nat = Some z.
Proof.
  unfold seg. rewrite lookup_app_r by lia.
  replace (length pre + S (length s) - length pre)%nat with (S (length s)) by lia.
  change (((s ++ [z]) ++ post) !! length s = Some z).
  rewrite lookup_app_l by (rewrite length_app; cbn; lia).
  by rewrite lookup_app_r, Nat.sub_diag by lia.
Qed.

Lemma seg_set_last x : <[(length pre + S (length s))%nat := x]> (seg a z) = seg a x.
Proof.
  unfold seg. rewrite insert_app_r. f_equal.
  change (a :: <[length s := x]> ((s ++ [z]) ++ post) = a :: ((s ++ [x]) ++ post)). f_equal.
  rewrite <- !app_assoc. replace (length s) with (length s + 0)%nat by lia.
  by rewrite insert_app_r.
Qed.

Lemma seg_set_first x : <[length pre := x]> (seg a z) = seg x z.
Proof.
  unfold seg. replace (length pre) with (length pre + 0)%nat by lia. by rewrite insert_app_r.
Qed.

Lemma length_seg : length (seg a z) = (length pre + S (S (length s)) + length post)%nat.
Proof. unfold seg. rewrite !length_app. cbn. rewrite length_app. cbn. lia. Qed.
End segment.

(** The swap loop on [pre ++ s ++ post] reverses the middle [s]. *)
Lemma strrev_loop_spec fuel : forall (pre s post : list Z),
  (length s <= fuel)%nat ->
  strrev_loop fuel (pre ++ s ++ post) (Z.of_nat (length pre))
    (Z.of_nat (length pre) + Z.of_nat (length s) - 1) = Ok (pre ++ rev s ++ post).
Proof.
  induction fuel as [fuel IH] using (well_founded_induction lt_wf). intros pre s post Hf.
  destruct s as [|a s']; [|destruct s' as [|z s _] using rev_ind].
  1,2: destruct fuel; cbn [strrev_loop length]; rewrite (proj2 (Z.leb_le _ _)) by lia; done.
  destruct fuel as [|fuel]; [cbn in Hf; lia|]. cbn [strrev_loop].
  assert (length (a :: s ++ [z]) = S (S (length s))) as Hl
    by (cbn; rewrite length_app; cbn; lia).
  rewrite Hl in *. rewrite (proj2 (Z.leb_gt _ _)) by lia.
  change (pre ++ (a :: s ++ [z]) ++ post) with (seg pre s post a z).
  replace (Z.of_nat (length pre) + Z.of_nat (S (S (length s))) - 1)
    with (Z.of_nat (length pre + S (length s))) by lia.
  pose proof (length_seg pre s post) as Hseg.
  assert (forall i : nat, rd (seg pre s post a z) (Z.of_nat i) =
    match seg pre s post a z !! i with Some x => Ok x | None => Fault end) as Hrd.
  { intros i. unfold rd. by rewrite (proj2 (Z.ltb_ge _ _)), Nat2Z.id by lia. }
  rewrite !Hrd, seg_first, seg_last. munfold.
  rewrite wr_in_range, Nat2Z.id, seg_set_last by (rewrite Hseg; lia).
  rewrite wr_in_range, Nat2Z.id, seg_set_first by (rewrite Hseg; lia).
  specialize (IH fuel ltac:(lia) (pre ++ [z]) s (a :: post) ltac:(lia)).
  rewrite length_app in IH. cbn [length] in IH. unfold seg. cbn [app].
  replace (Z.of_nat (length pre) + 1) with (Z.of_nat (length pre + 1)) by lia.
  replace (Z.of_nat (length pre + S (length s)) - 1)
    with (Z.of_nat (length pre + 1) + Z.of_nat (length s) - 1) by lia.
  rewrite <- !app_assoc in *. cbn [app] in *. rewrite IH.
  f_equal. cbn. rewrite rev_unit. cbn. by rewrite <- app_assoc.
Qed.

Lemma strrev_cstr s rest :
  Forall (fun c => c <> 0) s -> strrev (s ++ 0 :: rest) = Ok (rev s ++ 0 :: rest).
Proof.
  intros Hs. unfold strrev. destruct Hs as [|c s Hc Hs]; [done|].
  change (rd ((c :: s) ++ 0 :: rest) 0) with (Ok c). munfold.
  rewrite (proj2 (Z.eqb_neq c 0) Hc).
  rewrite (strlen_cstr (c :: s)) by (split; [by constructor|by exists rest]).
  pose proof (strrev_loop_spec (length ((c :: s) ++ 0 :: rest)) [] (c :: s) (0 :: rest)) as H.
  cbn [app length Z.of_nat] in H. rewrite Z.add_0_l in H. apply H. rewrite length_app. lia.
Qed.

(** ** Lemmas on copies *)

(** What [memcpy]-like functions promise: the destination holds the old source
    bytes, everything else is kept. *)
Definition copied (m m' : mem) (d s n : Z) : Prop :=
  forall x, m' x = if decide (d <= x < d + n) then m (s + (x - d)) else m x.

Lemma movsb_up_copied n : forall m d s,
  d <= s \/ s + Z.of_nat n <= d -> copied m (movsb_up n m d s) d s (Z.of_nat n).
Proof.
  induction n as [|n IH]; intros m d s Hd x; cbn [movsb_up].
  { by rewrite decide_False by lia. }
  rewrite IH by lia. destruct (decide (x = d)) as [->|Hne].
  - rewrite decide_False, upd_same, decide_True by lia. f_equal; lia.
  - destruct (decide (d <= x < d + Z.of_nat (S n))).
    + rewrite decide_True by lia. rewrite upd_other by lia. f_equal; lia.
    + by rewrite decide_False, upd_other by lia.
Qed.

Lemma movsb_down_copied n : forall m d s,
  s <= d -> copied m (movsb_down n m (d + Z.of_nat n - 1) (s + Z.of_nat n - 1)) d s (Z.of_nat n).
Proof.
  induction n as [|n IH]; intros m d s Hd x; cbn [movsb_down].
  { by rewrite decide_False by lia. }
  replace (d + Z.of_nat (S n) - 1 - 1) with (d + Z.of_nat n - 1) by lia.
  replace (s + Z.of_nat (S n) - 1 - 1) with (s + Z.of_nat n - 1) by lia.
  rewrite IH by lia. set (e := d + Z.of_nat (S n) - 1).
  destruct (decide (x = e)) as [->|Hne].
  - rewrite decide_False, upd_same, decide_True by lia. f_equal; lia.
  - destruct (decide (d <= x < d + Z.of_nat (S n))).
    + rewrite decide_True by lia. by rewrite upd_other by lia.
    + by rewrite decide_False, upd_other by lia.
Qed.

Lemma stosb_spec n : forall m d v x,
  stosb n m d v x = if decide (d <= x < d + Z.of_nat n) then v else m x.
Proof.
  induction n as [|n IH]; intros m d v x; cbn [stosb].
  { by rewrite decide_False by lia. }
  rewrite IH. destruct (decide (x = d)) as [->|Hne].
  - by rewrite decide_False, upd_same, decide_True by lia.
  - rewrite upd_other by done. do 2 case_decide; lia || done.
Qed.

Lemma mem_strlen_spec m p s : forall fuel len,
  (length s < fuel)%nat -> Forall (fun c => c <> 0) s ->
  load m (p + len) (length s) = s -> m (p + len + Z.of_nat (length s)) = 0 ->
  mem_strlen fuel m p len = Ok (len + Z.of_nat (length s)).
Proof.
  induction s as [|c s IH]; intros fuel len Hf Hs Hl Hz; destruct fuel as [|fuel]; cbn in Hf; try lia.
  - cbn in *. rewrite Z.add_0_r in Hz. rewrite Hz. cbn. f_equal; lia.
  - cbn [mem_strlen]. apply Forall_cons_1 in Hs as [Hc Hs].
    cbn [length] in Hl. rewrite load_S in Hl. injection Hl as Hc0 Hl. rewrite Hc0, (proj2 (Z.eqb_neq c 0) Hc).
    rewrite (IH fuel (len + 1)); [f_equal; cbn; lia|lia|done| |].
    + by rewrite Z.add_assoc.
    + rewrite <- Hz. f_equal. cbn. lia.
Qed.

(** ** Properties *)

(** [strrev] reverses a NUL-terminated string in place, keeps the terminator
    and every byte after it, and never reads or writes outside the object. *)
Theorem strrev_correct (s rest : list Z) (Hs : Forall (fun c => c <> 0) s) :
  strrev (s ++ 0 :: rest) = Ok (rev s ++ 0 :: rest).
Proof. by apply strrev_cstr. Qed.

Lemma strrev_correct_witness : strrev ([104; 105; 33] ++ 0 :: [7]) = Ok (rev [104; 105; 33] ++ 0 :: [7]).
Proof. apply (strrev_correct [104; 105; 33] [7]). repeat constructor; lia. Defined.

(** [strcmp] returns 0 exactly on equal strings, and reads neither object past
    its terminator. *)
Theorem strcmp_zero_iff_equal (s1 s2 b1 b2 : list Z)
  (H1 : cstr s1 b1) (H2 : cstr s2 b2) :
  exists v, strcmp b1 b2 = Ok v /\ (v = 0 <-> s1 = s2).
Proof. by apply strcmp_cstr. Qed.

Lemma strcmp_zero_iff_equal_witness :
  exists v, strcmp [97; 98; 0; 1] [97; 98; 0] = Ok v /\ (v = 0 <-> [97; 98] = [97; 98]).
Proof.
  apply (strcmp_zero_iff_equal [97; 98] [97; 98]).
  - split; [repeat constructor; lia|by exists [1]].
  - split; [repeat constructor; lia|by exists []].
Defined.

(** [memmove] copies correctly whatever the overlap: afterwards the destination
    holds the bytes the source held before the call and nothing else changed. *)
Theorem memmove_correct (m : mem) (dst src count : Z) (Hc : 0 <= count) :
  copied m (snd (memmove m dst src count)) dst src count.
Proof.
  unfold memmove. pose proof (Z2Nat.id count Hc) as Hn.
  destruct (Z.ltb_spec dst src); cbn [snd].
  - pose proof (movsb_up_copied (Z.to_nat count) m dst src) as H0.
    rewrite Hn in H0. apply H0. lia.
  - pose proof (movsb_down_copied (Z.to_nat count) m dst src) as H0.
    rewrite Hn in H0. apply H0. lia.
Qed.

Lemma memmove_correct_witness : copied (fun a => a mod 256) (snd (memmove (fun a => a mod 256) 12 10 5)) 12 10 5.
Proof. apply (memmove_correct (fun a => a mod 256) 12 10 5). lia. Defined.

(** Libc [memcpy], [memset] and the forward branch of [memmove] return the
    address after the copied region, not the destination as the C library
    specifies, although the bytes are copied correctly. *)
Theorem memcpy_returns_end (m : mem) (dst src count : Z)
  (Hc : 0 < count) (Hdisj : dst + count <= src \/ src + count <= dst) :
  copied m (snd (libc_memcpy m dst src count)) dst src count /\
  fst (libc_memcpy m dst src count) = dst + count /\
  fst (libc_memcpy m dst src count) <> dst.
Proof.
  unfold libc_memcpy. cbn [fst snd]. split; [|lia].
  pose proof (movsb_up_copied (Z.to_nat count) m dst src) as H0.
  rewrite Z2Nat.id in H0 by lia. apply H0. lia.
Qed.

Lemma memcpy_returns_end_witness :
  copied (fun a => a mod 256) (snd (libc_memcpy (fun a => a mod 256) 0 100 15)) 0 100 15 /\
  fst (libc_memcpy (fun a => a mod 256) 0 100 15) = 0 + 15 /\
  fst (libc_memcpy (fun a => a mod 256) 0 100 15) <> 0.
Proof. apply (memcpy_returns_end (fun a => a mod 256) 0 100 15); lia. Defined.

(** [strncpy] writes exactly [count] bytes at the destination: the source
    string cut to [count] bytes or padded with zeros, and nothing outside. *)
Theorem strncpy_correct (fuel : nat) (m : mem) (dst src count : Z) (s : list Z)
  (Hfuel : (length s < fuel)%nat) (Hs : Forall (fun c => c <> 0) s)
  (Hload : load m src (length s) = s) (Hnul : m (src + Z.of_nat (length s)) = 0)
  (Hcount : 0 <= count)
  (Hdisj : dst + count <= src \/ src + Z.of_nat (length s) <= dst) :
  exists m', strncpy fuel m dst src count = Ok (dst, m') /\
    forall x, m' x =
      if decide (dst <= x < dst + count) then
        default 0 (s !! Z.to_nat (x - dst))
      else m x.
Proof.
  unfold strncpy. rewrite (mem_strlen_spec m src s fuel 0) by
    (done || (rewrite Z.add_0_r; done)). munfold. rewrite Z.add_0_l.
  eexists; split; [done|]. intros x. unfold libc_memset, libc_memcpy. cbn [snd].
  rewrite stosb_spec. set (len := Z.of_nat (length s)) in *.
  set (cl := if len <? count then len else count).
  assert (0 <= cl <= count /\ cl <= len /\ (cl = len \/ cl = count)) as Hcl
    by (subst cl; destruct (Z.ltb_spec len count); lia).
  set (pad := if cl =? count then 0 else count - len).
  assert (cl + pad = count) as Hpad.
  { subst pad. destruct (Z.eqb_spec cl count); [lia|].
    subst cl. destruct (Z.ltb_spec len count); lia. }
  rewrite Z2Nat.id by (subst pad; destruct (Z.eqb_spec cl count); lia).
  pose proof (movsb_up_copied (Z.to_nat cl) m dst src) as Hcp.
  rewrite Z2Nat.id in Hcp by lia. rewrite Hcp by lia.
  destruct (decide (dst + cl <= x < dst + cl + pad)).
  - rewrite decide_True by lia. rewrite lookup_ge_None_2 by lia. done.
  - destruct (decide (dst <= x < dst + cl)).
    + rewrite decide_True by lia.
      assert (Z.to_nat (x - dst) < length s)%nat as Hlt by lia.
      pose proof (load_lookup m src (length s) _ Hlt) as Hlk. rewrite Hload in Hlk.
      rewrite Hlk. cbn. f_equal. lia.
    + by rewrite decide_False by lia.
Qed.

Lemma strncpy_correct_witness :
  let m := store (fun _ => 9) 100 [72; 105; 0] in
  exists m', strncpy 5 m 0 100 4 = Ok (0, m') /\
    forall x, m' x =
      if decide (0 <= x < 0 + 4) then default 0 ([72; 105] !! Z.to_nat (x - 0)) else m x.
Proof.
  intros m. apply (strncpy_correct 5 m 0 100 4 [72; 105]).
  - cbn; lia.
  - repeat constructor; lia.
  - reflexivity.
  - reflexivity.
  - lia.
  - cbn; lia.
Defined.
