(* ===== verification/Common.v ===== *)
(** * Common definitions

    [include/common/common.h]: alignment macros and the address conversions of
    the higher-half direct map, at 64-bit width. *)
From S2P Require Import Prelude.
From Stdlib Require Import ZArith Lia.
From stdpp Require Import base tactics list numbers.

Open Scope Z_scope.

Definition PMM_HHDM_START : Z := 0xFFFF800000000000.
Definition KERNEL_BASE_OFFSET : Z := 0xFFFFFFFF80000000.
Definition KERNEL_BASE_PHYS : Z := 0x400000.
Definition KERNEL_END_PHYS : Z := KERNEL_BASE_PHYS + 0x200000.
Definition KERNEL_BASE_VIRT : Z := KERNEL_BASE_OFFSET + KERNEL_BASE_PHYS.

Definition ALIGN_UP (value align : Z) : Z :=
  Z.land (u64 (value + align - 1)) (u64 (Z.lnot (align - 1))).
Definition ALIGN_DOWN (value align : Z) : Z := Z.land value (u64 (Z.lnot (align - 1))).
Definition DIV_CEIL (a b : Z) : Z := (a + b - 1) / b.

Definition phys_to_virt (phys : Z) : Z := u64 (phys + PMM_HHDM_START).
Definition virt_to_phys (virt : Z) : Z := u64 (virt - PMM_HHDM_START).
Definition kernel_phys_to_virt (phys : Z) : Z := u64 (phys + KERNEL_BASE_OFFSET).
Definition kernel_virt_to_phys (virt : Z) : Z := u64 (virt - KERNEL_BASE_OFFSET).
Definition is_aligned (addr alignment : Z) : bool := Z.land addr (alignment - 1) =? 0.

#[global] Arguments ALIGN_UP : simpl never.
#[global] Arguments ALIGN_DOWN : simpl never.

(** ** Lemmas *)

(** Masking with [~(2^k - 1)] at width [w] rounds down to a multiple of [2^k]. *)
Lemma land_align_mask w x k :
  0 <= x < 2 ^ w -> 0 <= k <= w ->
  Z.land x (Z.lnot (2 ^ k - 1) mod 2 ^ w) = x / 2 ^ k * 2 ^ k.
Proof.
  intros Hx Hk. change (2 ^ k - 1) with (Z.pred (2 ^ k)). rewrite <- Z.ones_equiv.
  rewrite <- Z.shiftr_div_pow2, <- Z.shiftl_mul_pow2, <- Z.ldiff_ones_r by lia.
  apply Z.bits_inj'. intros n Hn. rewrite Z.land_spec, Z.ldiff_spec.
  destruct (Z.lt_ge_cases n w).
  - rewrite Z.mod_pow2_bits_low, Z.lnot_spec by lia. done.
  - assert (Z.testbit x n = false) as ->; [|done].
    destruct (decide (x = 0)) as [->|]; [apply Z.bits_0|].
    apply Z.bits_above_log2; [lia|]. apply Z.log2_lt_pow2; [lia|].
    eapply Z.lt_le_trans; [apply Hx|]. apply Z.pow_le_mono_r; lia.
Qed.

Lemma ALIGN_UP_pow2 v k :
  0 <= v -> 0 <= k <= 63 -> v + 2 ^ k - 1 < 2 ^ 64 ->
  ALIGN_UP v (2 ^ k) = (v + 2 ^ k - 1) / 2 ^ k * 2 ^ k.
Proof.
  intros. assert (0 < 2 ^ k) by (apply Z.pow_pos_nonneg; lia).
  unfold ALIGN_UP. rewrite u64_id by lia. apply land_align_mask; lia.
Qed.

Lemma ALIGN_DOWN_pow2 v k :
  0 <= v < 2 ^ 64 -> 0 <= k <= 63 -> ALIGN_DOWN v (2 ^ k) = v / 2 ^ k * 2 ^ k.
Proof. intros. apply land_align_mask; lia. Qed.

(** [ALIGN_UP] on pages: the least multiple of 4096 that is at least [v]. *)
Lemma ALIGN_UP_page v :
  0 <= v < 2 ^ 64 - 4095 ->
  v <= ALIGN_UP v 4096 < v + 4096 /\ ALIGN_UP v 4096 mod 4096 = 0.
Proof.
  intros. change 4096 with (2 ^ 12). rewrite ALIGN_UP_pow2 by lia.
  rewrite Z.mod_mul by done. change (2 ^ 12) with 4096.
  pose proof (Z.div_mod (v + 4096 - 1) 4096). pose proof (Z.mod_pos_bound (v + 4096 - 1) 4096).
  lia.
Qed.

Lemma ALIGN_DOWN_page v :
  0 <= v < 2 ^ 64 -> ALIGN_DOWN v 4096 <= v < ALIGN_DOWN v 4096 + 4096 /\
  ALIGN_DOWN v 4096 mod 4096 = 0 /\ 0 <= ALIGN_DOWN v 4096.
Proof.
  intros. change 4096 with (2 ^ 12). rewrite ALIGN_DOWN_pow2 by lia.
  rewrite Z.mod_mul by done. change (2 ^ 12) with 4096.
  pose proof (Z.div_mod v 4096). pose proof (Z.mod_pos_bound v 4096).
  pose proof (Z.div_pos v 4096). lia.
Qed.

(** The address conversions are inverse to each other on physical addresses. *)
Lemma virt_phys_roundtrip p : 0 <= p < 2 ^ 47 -> virt_to_phys (phys_to_virt p) = p.
Proof.
  intros. unfold virt_to_phys, phys_to_virt, PMM_HHDM_START. rewrite (u64_id (p + _)) by lia.
  rewrite Z.add_simpl_r. by unwrap.
Qed.

Lemma lor_shiftl_add a b k : 0 <= k -> 0 <= a < 2 ^ k -> Z.lor a (Z.shiftl b k) = a + b * 2 ^ k.
Proof.
  intros Hk Ha. rewrite <- Z.shiftl_mul_pow2 by done.
  rewrite <- Z.add_lor_land. assert (Z.land a (Z.shiftl b k) = 0) as ->; [|lia].
  apply Z.bits_inj'. intros n Hn. rewrite Z.land_spec, Z.bits_0.
  destruct (Z.lt_ge_cases n k).
  - rewrite Z.shiftl_spec_low by lia. apply andb_false_r.
  - assert (Z.testbit a n = false) as ->; [|done].
    destruct (decide (a = 0)) as [->|]; [apply Z.bits_0|].
    apply Z.bits_above_log2; [lia|]. apply Z.log2_lt_pow2; [lia|].
    eapply Z.lt_le_trans; [apply Ha|]. apply Z.pow_le_mono_r; lia.
Qed.

(** A low bit or-ed into a value that has zeros there is an addition. *)
Lemma lor_low_add a k f : 0 <= k -> 0 <= f < 2 ^ k -> Z.lor (a * 2 ^ k) f = a * 2 ^ k + f.
Proof.
  intros. rewrite Z.lor_comm, <- Z.shiftl_mul_pow2, lor_shiftl_add, Z.shiftl_mul_pow2 by lia. lia.
Qed.
