(* ===== verification/Arena.v ===== *)
(** * Arena allocator

    [kernel/common/arena.c] and its stage 2 copy [boot/stage2/stage2_memory.c]:
    a bump pointer [_arena_offset] into a static buffer of [ARENA_SIZE] bytes.
    The width of [size_t] is a parameter: 64 in the kernel, 32 in stage 2.
    [arena_alloc] returns the offset of the block in the buffer, [None] for 0. *)
From S2P Require Import Prelude Common.
From Stdlib Require Import ZArith Lia.
From stdpp Require Import base tactics list numbers.

Open Scope Z_scope.

Definition ARENA_SIZE : Z := 16 * 1024.

(** The state is [_arena_offset]. *)
Definition arena_align_up (W val align : Z) : Z :=
  Z.land ((val + align - 1) mod 2 ^ W) (Z.lnot (align - 1) mod 2 ^ W).

Definition arena_alloc_w (W : Z) (size align : Z) : M Z (option Z) :=
  _arena_offset ← get;
  let aligned := arena_align_up W _arena_offset align in
  if ARENA_SIZE <? (aligned + size) mod 2 ^ W then mret None else
  _ ← put (u32 ((aligned + size) mod 2 ^ W));
  mret (Some aligned).

Definition arena_reset : M Z unit := put 0.

Definition arena_alloc (size align : Z) : M Z (option Z) := arena_alloc_w 64 size align.
Definition stage2_arena_alloc (size align : Z) : M Z (option Z) := arena_alloc_w 32 size align.
Definition stage2_arena_reset : M Z unit := put 0.

(** A run of allocation requests from a given offset: the blocks handed out. *)
Fixpoint arena_run (W : Z) (reqs : list (Z * Z)) (off : Z) : list (Z * Z) :=
  match reqs with
  | [] => []
  | (size, align) :: reqs' =>
      match arena_alloc_w W size align off with
      | Ok (Some a, off') => (a, size) :: arena_run W reqs' off'
      | Ok (None, off') => arena_run W reqs' off'
      | _ => []
      end
  end.

(** ** Lemmas *)

Section arena.
Context (W : Z) (HW : 32 <= W).

Lemma pow2_W : 2 ^ 32 <= 2 ^ W.
Proof. apply Z.pow_le_mono_r; lia. Qed.

(** A request that fits does not wrap around: the alignment is a power of two up
    to [2^16] and the size is below half of the address range. *)
Definition ok_req (r : Z * Z) : Prop :=
  0 <= r.1 < 2 ^ (W - 1) /\ exists k, 0 <= k <= 16 /\ r.2 = 2 ^ k.

Lemma arena_align_up_spec off k :
  0 <= off <= ARENA_SIZE -> 0 <= k <= 16 ->
  let a := arena_align_up W off (2 ^ k) in
  off <= a < off + 2 ^ k /\ a mod 2 ^ k = 0.
Proof.
  intros Hoff Hk. pose proof pow2_W. assert (0 < 2 ^ k <= 2 ^ 16).
  { split; [apply Z.pow_pos_nonneg; lia|apply Z.pow_le_mono_r; lia]. }
  unfold ARENA_SIZE in *. unfold arena_align_up. cbv zeta.
  rewrite (Z.mod_small (off + _ - 1)) by lia. rewrite land_align_mask by lia.
  rewrite Z.mod_mul by lia.
  pose proof (Z.div_mod (off + 2 ^ k - 1) (2 ^ k)).
  pose proof (Z.mod_pos_bound (off + 2 ^ k - 1) (2 ^ k)). lia.
Qed.

Lemma arena_alloc_spec off size align :
  0 <= off <= ARENA_SIZE -> ok_req (size, align) ->
  (exists a, arena_alloc_w W size align off = Ok (Some a, a + size) /\
     off <= a /\ a + size <= ARENA_SIZE /\ a mod align = 0) \/
  (arena_alloc_w W size align off = Ok (None, off) /\
     ARENA_SIZE < arena_align_up W off align + size).
Proof.
  intros Hoff [Hsz (k & Hk & Hal)]. cbn in Hsz, Hal. subst align.
  pose proof (arena_align_up_spec off k Hoff Hk) as [Hr Hm]. cbv zeta in *.
  set (a := arena_align_up W off (2 ^ k)) in *. pose proof pow2_W as Hp.
  assert (0 < 2 ^ k <= 2 ^ 16).
  { split; [apply Z.pow_pos_nonneg; lia|apply Z.pow_le_mono_r; lia]. }
  assert (2 ^ W = 2 * 2 ^ (W - 1)) as HW2.
  { rewrite <- Z.pow_succ_r by lia. f_equal; lia. }
  assert (2 ^ 31 <= 2 ^ (W - 1)) by (apply Z.pow_le_mono_r; lia).
  unfold ARENA_SIZE in *. unfold arena_alloc_w. munfold. fold a. unfold ARENA_SIZE.
  rewrite (Z.mod_small (a + size)) by lia.
  destruct (Z.ltb_spec (16 * 1024) (a + size)).
  - right. split; [done|lia].
  - left. exists a. rewrite u32_id by lia. split; [done|lia].
Qed.

Definition block_ok (off : Z) (b : Z * Z) : Prop := off <= b.1 /\ b.1 + b.2 <= ARENA_SIZE /\ 0 <= b.2.

Definition blocks_disjoint (b c : Z * Z) : Prop := b.1 + b.2 <= c.1.

Lemma arena_run_spec reqs : forall off,
  0 <= off <= ARENA_SIZE -> Forall ok_req reqs ->
  Forall (block_ok off) (arena_run W reqs off) /\
  ForallOrdPairs blocks_disjoint (arena_run W reqs off).
Proof.
  induction reqs as [|[size align] reqs IH]; intros off Hoff Hok; cbn [arena_run].
  { split; constructor. }
  apply Forall_cons_1 in Hok as [Hr Hok].
  destruct (arena_alloc_spec off size align Hoff Hr) as [(a & -> & Ha & Hend & _)|[-> _]].
  - destruct Hr as [Hsz _]. cbn in Hsz. destruct (IH (a + size)) as [IH1 IH2]; [lia|done|]. split.
    + constructor; [unfold block_ok; cbn; lia|].
      eapply List.Forall_impl; [|exact IH1]. unfold block_ok. intros b; lia.
    + constructor; [|done]. eapply List.Forall_impl; [|exact IH1].
      unfold block_ok, blocks_disjoint. cbn. intros b; lia.
  - by apply IH.
Qed.
End arena.

(** ** Properties *)

(** C37: every sequence of arena allocations after a reset, with sizes below half the
    address range and alignments that are powers of two up to 2^16, returns blocks that
    lie inside the [ARENA_SIZE] buffer and are pairwise disjoint (each block ends
    before every later one starts), for the kernel and the stage 2 width.  For larger
    sizes the bounds check wraps and the property fails ([arena_alloc_wraps]). *)
Theorem arena_blocks_disjoint (W : Z) (reqs : list (Z * Z))
  (HW : 32 <= W) (Hreqs : Forall (ok_req W) reqs) :
  Forall (block_ok 0) (arena_run W reqs 0) /\
  ForallOrdPairs blocks_disjoint (arena_run W reqs 0).
Proof. apply arena_run_spec; [done|unfold ARENA_SIZE; lia|done]. Qed.

Lemma arena_blocks_disjoint_witness :
  Forall (block_ok 0) (arena_run 64 [(4096, 1); (128, 1); (4096, 1); (100, 64); (9000, 1)] 0) /\
  ForallOrdPairs blocks_disjoint (arena_run 64 [(4096, 1); (128, 1); (4096, 1); (100, 64); (9000, 1)] 0).
Proof.
  apply (arena_blocks_disjoint 64); [lia|].
  repeat (apply Forall_cons_2; [split; cbn; [lia|first [by exists 0|by exists 6]]|]).
  constructor.
Defined.

(** An arena request whose [aligned + size] wraps around the width of
    [size_t] is granted: the bound check of [arena_alloc] does not see it. *)
Theorem arena_alloc_wraps :
  arena_alloc (2 ^ 64 - 16) 1 64 = Ok (Some 64, 48).
Proof. vm_compute. reflexivity. Qed.
