(* ===== verification/Memmap.v ===== *)
(** * Memory map

    [kernel/common/memmap.c]: walks the E820 entries and marks pages in the
    physical bitmap.  The messages printed on the way are not modelled. *)
From S2P Require Import Prelude Common Bitmap Interfaces.
From Stdlib Require Import ZArith Lia.
From stdpp Require Import base tactics list numbers.

Open Scope Z_scope.

Record MemmapEntry := {
  BaseAddrLow : Z;
  BaseAddrHigh : Z;
  LengthLow : Z;
  LengthHigh : Z;
  Type_ : Z;
}.

Record MemmapInitResult := {
  memory_usable : Z;
  memory_usable_top : Z;
  memory_top : Z;
}.

(** ** Operations *)

Definition entry_base (e : MemmapEntry) : Z := Z.lor (Z.shiftl (BaseAddrHigh e) 32) (BaseAddrLow e).
Definition entry_size (e : MemmapEntry) : Z := Z.lor (Z.shiftl (LengthHigh e) 32) (LengthLow e).

(** The page range an entry marks: [base, end) after [ALIGN_UP] of both ends. *)
Definition range_base (e : MemmapEntry) : Z := ALIGN_UP (entry_base e) PAGE_SIZE.
Definition range_end (e : MemmapEntry) : Z := ALIGN_UP (u64 (entry_base e + entry_size e)) PAGE_SIZE.

(** [for (m = base; m < end; m += PAGE) op(bitmap, m / PAGE)]. *)
Fixpoint mark_pages (op : list Z -> Z -> outcome (list Z)) (n : nat) (m : Z) (bitmap : list Z)
  : outcome (list Z) :=
  match n with
  | O => Ok bitmap
  | S n' => bm ← op bitmap (m / PAGE_SIZE); mark_pages op n' (m + PAGE_SIZE) bm
  end.

Definition range_pages (e : MemmapEntry) : nat :=
  Z.to_nat ((range_end e - range_base e + PAGE_SIZE - 1) / PAGE_SIZE).

(** One turn of the loop over the entries: the accumulator is (mem_top,
    usable_mem_top, total_usable_memory), the last one a [uint32_t]. *)
Definition memmap_entry_step (acc : Z * Z * Z) (e : MemmapEntry) (bitmap : list Z)
  : outcome (Z * Z * Z * list Z) :=
  let '(mem_top, usable_mem_top, total_usable_memory) := acc in
  let base := range_base e in
  let end_ := range_end e in
  let mem_top := if mem_top <? end_ then end_ else mem_top in
  if Type_ e =? 1 then
    let total_usable_memory := u32 (total_usable_memory + entry_size e) in
    let usable_mem_top := if usable_mem_top <? end_ then end_ else usable_mem_top in
    bm ← mark_pages bitmap_clear (range_pages e) base bitmap;
    Ok (mem_top, usable_mem_top, total_usable_memory, bm)
  else
    bm ← mark_pages bitmap_set (range_pages e) base bitmap;
    Ok (mem_top, usable_mem_top, total_usable_memory, bm).

Fixpoint memmap_loop (acc : Z * Z * Z) (entries : list MemmapEntry) (bitmap : list Z)
  : outcome (Z * Z * Z * list Z) :=
  match entries with
  | [] => Ok (acc, bitmap)
  | e :: entries' =>
      r ← memmap_entry_step acc e bitmap;
      memmap_loop r.1 entries' r.2
  end.

Definition memmap_bitmap_init (entries : list MemmapEntry) (bitmap : list Z)
  : outcome (MemmapInitResult * list Z) :=
  r ← memmap_loop (0, 0, 0) entries bitmap;
  let '(mem_top, usable_mem_top, total_usable_memory, bm) := r in
  Ok ({| memory_usable := total_usable_memory;
         memory_usable_top := usable_mem_top;
         memory_top := mem_top |}, bm).

(** ** Reference: the entry that decides a page *)

Definition covers (e : MemmapEntry) (p : Z) : bool :=
  (range_base e <=? p * PAGE_SIZE) && (p * PAGE_SIZE <? range_end e).

(** The used/free state of page [p] after all entries: the last entry that covers
    it decides; uncovered pages keep their initial state. *)
Fixpoint page_used (entries : list MemmapEntry) (p : Z) (init : bool) : bool :=
  match entries with
  | [] => init
  | e :: entries' => page_used entries' p (if covers e p then negb (Type_ e =? 1) else init)
  end.

(** An entry whose aligned range does not wrap and lies inside the bitmap. *)
Definition entry_ok (bits : Z) (e : MemmapEntry) : Prop :=
  0 <= entry_base e /\ 0 <= entry_size e /\
  entry_base e + entry_size e < 2 ^ 64 - 4095 /\
  range_end e <= bits * PAGE_SIZE.

(** ** Lemmas *)

(** Marking [n] pages from page [i] on, for an operation that sets its bit to [x]. *)
Lemma mark_pages_spec op (x : bool) n : forall i bm,
  (forall bm j, bytes_ok bm -> in_bitmap bm j -> exists bm', op bm j = Ok bm' /\ flips bm bm' j x) ->
  bytes_ok bm -> 0 <= i -> (i + Z.of_nat n) <= 8 * Z.of_nat (length bm) ->
  i + Z.of_nat n <= 2 ^ 32 ->
  exists bm', mark_pages op n (i * PAGE_SIZE) bm = Ok bm' /\
    length bm' = length bm /\ bytes_ok bm' /\
    forall j, 0 <= j -> bit bm' j = if decide (i <= j < i + Z.of_nat n) then x else bit bm j.
Proof.
  induction n as [|n IH]; intros i bm Hop Hok Hi Hlen Hmax; cbn [mark_pages].
  { exists bm. split_and!; [done..|]. intros j Hj. by rewrite decide_False by lia. }
  destruct (Hop bm i) as (bm1 & Hrun & Hl1 & Hok1 & Hb1); [done|split; lia|].
  unfold PAGE_SIZE. rewrite Z.div_mul by done. rewrite Hrun. munfold. fold PAGE_SIZE.
  replace (i * PAGE_SIZE + PAGE_SIZE) with ((i + 1) * PAGE_SIZE) by lia.
  destruct (IH (i + 1) bm1) as (bm2 & -> & Hl2 & Hok2 & Hb2); [done..|lia|lia|lia|].
  exists bm2. split_and!; [done|congruence|done|]. intros j Hj. rewrite Hb2, Hb1 by done.
  repeat case_decide; try done; lia.
Qed.

Lemma range_ok bits e :
  entry_ok bits e -> exists i n, 0 <= i /\ 0 <= n /\ range_base e = i * PAGE_SIZE /\
    range_end e = (i + n) * PAGE_SIZE /\ i + n <= bits /\ range_pages e = Z.to_nat n.
Proof.
  intros (Hb & Hs & Hmax & Hbits). unfold range_pages, range_base, range_end, PAGE_SIZE in *.
  rewrite u64_id in * by lia.
  pose proof (ALIGN_UP_page (entry_base e) ltac:(lia)) as [[Hb1 Hb2] Hbm].
  pose proof (ALIGN_UP_page (entry_base e + entry_size e) ltac:(lia)) as [[He1 He2] Hem].
  set (B := ALIGN_UP (entry_base e) 4096) in *.
  set (E := ALIGN_UP (entry_base e + entry_size e) 4096) in *.
  pose proof (Z.div_mod B 4096). pose proof (Z.div_mod E 4096).
  assert (B / 4096 <= E / 4096) by lia.
  exists (B / 4096), (E / 4096 - B / 4096). split_and!; try lia.
  f_equal. replace (E - B + 4096 - 1) with (4095 + (E / 4096 - B / 4096) * 4096) by lia.
  by rewrite Z.div_add, Z.div_small, Z.add_0_l by lia.
Qed.

Lemma covers_iff e i n p :
  range_base e = i * PAGE_SIZE -> range_end e = (i + n) * PAGE_SIZE ->
  covers e p = bool_decide (i <= p < i + n).
Proof.
  intros Hb He. unfold covers. rewrite Hb, He. unfold PAGE_SIZE.
  destruct (Z.leb_spec (i * 4096) (p * 4096)), (Z.ltb_spec (p * 4096) ((i + n) * 4096));
    cbn; symmetry; (apply bool_decide_eq_true + apply bool_decide_eq_false); lia.
Qed.

(** One entry sets the bits of the pages it covers. *)
Lemma memmap_entry_step_spec acc e bm :
  bytes_ok bm -> Z.of_nat (length bm) * 8 <= 2 ^ 32 ->
  entry_ok (Z.of_nat (length bm) * 8) e ->
  exists acc' bm', memmap_entry_step acc e bm = Ok (acc', bm') /\
    length bm' = length bm /\ bytes_ok bm' /\
    forall j, 0 <= j -> bit bm' j = if covers e j then negb (Type_ e =? 1) else bit bm j.
Proof.
  intros Hok Hmax He. destruct (range_ok _ _ He) as (i & n & Hi & Hn & Hb & Hend & Hin & Hpages).
  destruct acc as [[mt ut] tu]. unfold memmap_entry_step. rewrite Hpages, Hb.
  assert (forall op (x : bool),
    (forall bm j, bytes_ok bm -> in_bitmap bm j -> exists bm', op bm j = Ok bm' /\ flips bm bm' j x) ->
    exists bm', mark_pages op (Z.to_nat n) (i * PAGE_SIZE) bm = Ok bm' /\
      length bm' = length bm /\ bytes_ok bm' /\
      forall j, 0 <= j -> bit bm' j = if covers e j then x else bit bm j) as Hmark.
  { intros op x Hop. destruct (mark_pages_spec op x (Z.to_nat n) i bm)
      as (bm' & Hrun & Hl & Hok' & Hbits); [done..|lia|lia|].
    exists bm'. split_and!; [done..|]. intros j Hj. rewrite Hbits by done.
    rewrite (covers_iff e i n) by done. case_bool_decide; case_decide; done || lia. }
  destruct (Type_ e =? 1).
  - destruct (Hmark bitmap_clear false) as (bm' & -> & ? & ? & ?).
    { intros; by apply bitmap_clear_flips. } munfold. eauto 10.
  - destruct (Hmark bitmap_set true) as (bm' & -> & ? & ? & ?).
    { intros; by apply bitmap_set_flips. } munfold. eauto 10.
Qed.

Lemma memmap_loop_spec entries : forall acc bm,
  bytes_ok bm -> Z.of_nat (length bm) * 8 <= 2 ^ 32 ->
  Forall (entry_ok (Z.of_nat (length bm) * 8)) entries ->
  exists acc' bm', memmap_loop acc entries bm = Ok (acc', bm') /\
    length bm' = length bm /\ bytes_ok bm' /\
    forall j, 0 <= j -> bit bm' j = page_used entries j (bit bm j).
Proof.
  induction entries as [|e entries IH]; intros acc bm Hok Hmax Hes; cbn [memmap_loop].
  { eexists _, _. eauto. }
  apply Forall_cons_1 in Hes as [He Hes].
  destruct (memmap_entry_step_spec acc e bm Hok Hmax He) as (acc1 & bm1 & -> & Hl1 & Hok1 & Hb1).
  munfold. cbn [fst snd].
  destruct (IH acc1 bm1) as (acc2 & bm2 & -> & Hl2 & Hok2 & Hb2); [done|by rewrite Hl1..|].
  exists acc2, bm2. split_and!; [done|congruence|done|]. intros j Hj. cbn [page_used].
  by rewrite Hb2, Hb1.
Qed.

(** ** Properties *)

(** When every entry lies inside the bitmap, [memmap_bitmap_init] succeeds and
    the bit of each page is decided by the last entry that covers it (clear for a
    usable entry, set for any other type); uncovered pages keep their bit. *)
Theorem memmap_bitmap_init_correct (entries : list MemmapEntry) (bm : list Z)
  (Hbytes : bytes_ok bm) (Hmax : Z.of_nat (length bm) * 8 <= 2 ^ 32)
  (Hentries : Forall (entry_ok (Z.of_nat (length bm) * 8)) entries) :
  exists res bm', memmap_bitmap_init entries bm = Ok (res, bm') /\
    length bm' = length bm /\ bytes_ok bm' /\
    forall p, 0 <= p -> bit bm' p = page_used entries p (bit bm p).
Proof.
  destruct (memmap_loop_spec entries (0, 0, 0) bm) as ([[mt ut] tu] & bm' & Hrun & ? & ? & ?); [done..|].
  unfold memmap_bitmap_init. rewrite Hrun. munfold. eauto 10.
Qed.

(** A 128 KiB machine: 64 KiB usable, one reserved page in it, the rest reserved. *)
Definition sample_map : list MemmapEntry := [
  {| BaseAddrLow := 0; BaseAddrHigh := 0; LengthLow := 0x10000; LengthHigh := 0; Type_ := 1 |};
  {| BaseAddrLow := 0x4000; BaseAddrHigh := 0; LengthLow := 0x1000; LengthHigh := 0; Type_ := 2 |};
  {| BaseAddrLow := 0x10000; BaseAddrHigh := 0; LengthLow := 0x10000; LengthHigh := 0; Type_ := 2 |}].

Lemma memmap_bitmap_init_correct_witness :
  exists res bm', memmap_bitmap_init sample_map [0; 0; 0; 0] = Ok (res, bm') /\
    length bm' = length [0; 0; 0; 0] /\ bytes_ok bm' /\
    forall p, 0 <= p -> bit bm' p = page_used sample_map p (bit [0; 0; 0; 0] p).
Proof.
  apply (memmap_bitmap_init_correct sample_map [0; 0; 0; 0]).
  - apply (bool_decide_unpack _). vm_compute. exact I.
  - vm_compute. congruence.
  - repeat (apply Forall_cons_2; [vm_compute; split_and!; congruence|]). constructor.
Defined.

(** The total of usable memory is kept in a [uint32_t]: a usable entry adds its
    size modulo 2^32, so a machine with 4 GiB of usable memory reports 0. *)
Theorem memmap_usable_truncated (e : MemmapEntry) (acc : Z * Z * Z) (bm : list Z)
  (acc' : Z * Z * Z * list Z)
  (Hrun : memmap_entry_step acc e bm = Ok acc') (Htype : Type_ e = 1) :
  acc'.1.2 = (acc.2 + entry_size e) mod 2 ^ 32.
Proof.
  destruct acc as [[mt ut] tu]. unfold memmap_entry_step in Hrun. rewrite Htype in Hrun.
  cbn [Z.eqb Pos.eqb] in Hrun. apply obind_Ok in Hrun as (bm1 & _ & [= <-]). done.
Qed.

Lemma memmap_usable_truncated_witness :
  exists acc', memmap_entry_step (0, 0, 2 ^ 32 - 4096)
    {| BaseAddrLow := 0; BaseAddrHigh := 0; LengthLow := 4096; LengthHigh := 0; Type_ := 1 |} [1]
    = Ok acc' /\ acc'.1.2 = 0.
Proof.
  eexists. split; [vm_compute; reflexivity|].
  apply (memmap_usable_truncated
    {| BaseAddrLow := 0; BaseAddrHigh := 0; LengthLow := 4096; LengthHigh := 0; Type_ := 1 |}
    (0, 0, 2 ^ 32 - 4096) [1]); reflexivity.
Defined.
