(* ===== verification/Vmm.v ===== *)
(** * Virtual memory manager

    [kernel/kernel/vmm.c] over an abstract page allocator.  The state is the
    allocator's together with physical memory; the kernel dereferences table
    pointers through the direct map, so an access at pointer [v] touches physical
    address [virt_to_phys v].  [PRISTINE_DEBUG] is the section variable [debug].
    [invlpg] and the TLB are not modelled ([vmm_switch] yields the value loaded
    into cr3). *)
From S2P Require Import Prelude Common Memory Interfaces.
From Stdlib Require Import ZArith Lia.
From stdpp Require Import base tactics list numbers.

Open Scope Z_scope.

Definition VMM_DEFAULT_PAGE_SIZE : Z := 4096.
Definition VMM_LARGE_PAGE_SIZE : Z := 0x200000.
Definition VMM_HUGE_PAGE_SIZE : Z := 0x40000000.
Definition VMM_PTE_ADDR_MASK : Z := 0x000FFFFFFFFFF000.
Definition VMM_PML4_IDX (addr : Z) : Z := Z.land (Z.shiftr addr 39) 0x1FF.
Definition VMM_PDPT_IDX (addr : Z) : Z := Z.land (Z.shiftr addr 30) 0x1FF.
Definition VMM_PD_IDX (addr : Z) : Z := Z.land (Z.shiftr addr 21) 0x1FF.
Definition VMM_PT_IDX (addr : Z) : Z := Z.land (Z.shiftr addr 12) 0x1FF.
Definition VMM_FLAGS_PRESENT : Z := 0x01.
Definition VMM_FLAGS_NO_CACHE : Z := 0x10.
Definition VMM_FLAGS_KERNEL_CODE : Z := 0x03.
Definition VMM_FLAGS_KERNEL_DATA : Z := Z.lor 0x03 (Z.shiftl 1 63).
Definition VMM_FLAGS_USER_CODE : Z := 0x07.
Definition VMM_FLAGS_USER_DATA : Z := Z.lor 0x07 (Z.shiftl 1 63).
Definition VMM_FLAGS_TABLE_KERNEL : Z := 0x03.
Definition VMM_FLAGS_TABLE_USER : Z := 0x07.
Definition VMM_FLAG_USER : Z := 0x04.
Definition VMM_PDPT_HUGE_FLAGS : Z := 0x80.
Definition VMM_PD_LARGE_FLAGS : Z := 0x80.

Section vmm.
Context {S : Type} `{PageAllocator S} (debug : bool).

Record vmm_state := VmmState {
  vs_alloc : S;
  vs_ram : mem;
}.

(** The allocator and physical memory, as effects on the combined state. *)
Definition with_alloc {A} (m : M S A) : M vmm_state A := fun st =>
  match m (vs_alloc st) with
  | Ok (a, al) => Ok (a, VmmState al (vs_ram st))
  | Panic => Panic
  | Fault => Fault
  | OutOfFuel => OutOfFuel
  end.

(** [ptr[idx]] and [ptr[idx] = v] for a [uint64_t *] into the direct map. *)
Definition tbl_get (ptr idx : Z) : M vmm_state Z := fun st =>
  Ok (load64 (vs_ram st) (virt_to_phys (u64 (ptr + 8 * idx))), st).

Definition tbl_set (ptr idx v : Z) : M vmm_state unit := fun st =>
  Ok (tt, VmmState (vs_alloc st) (store64 (vs_ram st) (virt_to_phys (u64 (ptr + 8 * idx))) v)).

(** [memset(ptr, 0, VMM_DEFAULT_PAGE_SIZE)] through the direct map. *)
Definition tbl_zero (ptr : Z) : M vmm_state unit := fun st =>
  Ok (tt, VmmState (vs_alloc st) (fill (vs_ram st) (virt_to_phys ptr) VMM_DEFAULT_PAGE_SIZE 0)).

(** ** Operations *)

Definition vmm_init : M vmm_state Z :=
  p ← with_alloc pa_alloc;
  let pml4 := phys_to_virt p in
  _ ← tbl_zero pml4;
  mret pml4.

(** The flags of intermediate entries. *)
Definition table_flags (flags : Z) : Z :=
  if negb (Z.land flags VMM_FLAG_USER =? 0) then VMM_FLAGS_TABLE_USER else VMM_FLAGS_TABLE_KERNEL.

(** The block the mapping functions repeat per level: follow the entry, or create
    a zeroed table in an empty one. *)
Definition vmm_next_table (table_ptr idx iflags : Z) : M vmm_state Z :=
  e ← tbl_get table_ptr idx;
  if e =? 0 then
    table_phys_addr ← with_alloc pa_alloc;
    _ ← tbl_set table_ptr idx (Z.lor table_phys_addr iflags);
    let table_ptr := phys_to_virt table_phys_addr in
    _ ← tbl_zero table_ptr;
    mret table_ptr
  else
    mret (phys_to_virt (Z.land e VMM_PTE_ADDR_MASK)).

(** The block the unmapping functions repeat: follow the entry or panic; under
    debug an entry with a bit of [ps] set (a large or huge page) panics too. *)
Definition vmm_follow (table_ptr idx ps : Z) : M vmm_state Z :=
  e ← tbl_get table_ptr idx;
  if e =? 0 then panic else
  if debug && negb (Z.land e ps =? 0) then panic else
  mret (phys_to_virt (Z.land e VMM_PTE_ADDR_MASK)).

Definition vmm_map (pml4 phys virt flags : Z) : M vmm_state unit :=
  if debug && negb (is_aligned phys VMM_DEFAULT_PAGE_SIZE) then panic else
  if debug && negb (is_aligned virt VMM_DEFAULT_PAGE_SIZE) then panic else
  let iflags := table_flags flags in
  table_ptr ← vmm_next_table pml4 (VMM_PML4_IDX virt) iflags;
  table_ptr ← vmm_next_table table_ptr (VMM_PDPT_IDX virt) iflags;
  table_ptr ← vmm_next_table table_ptr (VMM_PD_IDX virt) iflags;
  old ← tbl_get table_ptr (VMM_PT_IDX virt);
  if debug && negb (old =? 0) then panic else
  tbl_set table_ptr (VMM_PT_IDX virt) (Z.lor phys flags).

Definition vmm_unmap (pml4 virt : Z) : M vmm_state unit :=
  if debug && negb (is_aligned virt VMM_DEFAULT_PAGE_SIZE) then panic else
  table_ptr ← vmm_follow pml4 (VMM_PML4_IDX virt) 0;
  table_ptr ← vmm_follow table_ptr (VMM_PDPT_IDX virt) VMM_PDPT_HUGE_FLAGS;
  table_ptr ← vmm_follow table_ptr (VMM_PD_IDX virt) VMM_PD_LARGE_FLAGS;
  old ← tbl_get table_ptr (VMM_PT_IDX virt);
  if debug && (old =? 0) then panic else
  tbl_set table_ptr (VMM_PT_IDX virt) 0.

(** The debug check of [vmm_map_large] before it follows a PDPT entry: a non-zero
    entry with the page-size bit panics. *)
Definition vmm_check_table (table_ptr idx : Z) : M vmm_state unit :=
  e ← tbl_get table_ptr idx;
  if debug && negb (Z.land e VMM_PD_LARGE_FLAGS =? 0) then panic else mret tt.

Definition vmm_map_large (pml4 phys virt flags : Z) : M vmm_state unit :=
  if debug && negb (is_aligned phys VMM_LARGE_PAGE_SIZE) then panic else
  if debug && negb (is_aligned virt VMM_LARGE_PAGE_SIZE) then panic else
  let iflags := table_flags flags in
  table_ptr ← vmm_next_table pml4 (VMM_PML4_IDX virt) iflags;
  _ ← vmm_check_table table_ptr (VMM_PDPT_IDX virt);
  table_ptr ← vmm_next_table table_ptr (VMM_PDPT_IDX virt) iflags;
  old ← tbl_get table_ptr (VMM_PD_IDX virt);
  if debug && negb (old =? 0) then panic else
  tbl_set table_ptr (VMM_PD_IDX virt) (Z.lor phys (Z.lor flags VMM_PD_LARGE_FLAGS)).

Definition vmm_unmap_large (pml4 virt : Z) : M vmm_state unit :=
  if debug && negb (is_aligned virt VMM_LARGE_PAGE_SIZE) then panic else
  table_ptr ← vmm_follow pml4 (VMM_PML4_IDX virt) 0;
  table_ptr ← vmm_follow table_ptr (VMM_PDPT_IDX virt) 0;
  old ← tbl_get table_ptr (VMM_PD_IDX virt);
  if debug && (Z.land old VMM_PD_LARGE_FLAGS =? 0) then panic else
  if debug && (old =? 0) then panic else
  tbl_set table_ptr (VMM_PD_IDX virt) 0.

Definition vmm_map_huge (pml4 phys virt flags : Z) : M vmm_state unit :=
  if debug && negb (is_aligned phys VMM_HUGE_PAGE_SIZE) then panic else
  if debug && negb (is_aligned virt VMM_HUGE_PAGE_SIZE) then panic else
  let iflags := table_flags flags in
  table_ptr ← vmm_next_table pml4 (VMM_PML4_IDX virt) iflags;
  old ← tbl_get table_ptr (VMM_PDPT_IDX virt);
  if debug && negb (old =? 0) then panic else
  tbl_set table_ptr (VMM_PDPT_IDX virt) (Z.lor phys (Z.lor flags VMM_PDPT_HUGE_FLAGS)).

Definition vmm_unmap_huge (pml4 virt : Z) : M vmm_state unit :=
  if debug && negb (is_aligned virt VMM_HUGE_PAGE_SIZE) then panic else
  table_ptr ← vmm_follow pml4 (VMM_PML4_IDX virt) 0;
  old ← tbl_get table_ptr (VMM_PDPT_IDX virt);
  if debug && (Z.land old VMM_PDPT_HUGE_FLAGS =? 0) then panic else
  if debug && (old =? 0) then panic else
  tbl_set table_ptr (VMM_PDPT_IDX virt) 0.

(** [for (p = start; p < start + size; p += 4096) pmm_free(p)]. *)
Definition vmm_free_range (start size : Z) : M vmm_state unit :=
  for_range start (start + size) VMM_DEFAULT_PAGE_SIZE (fun p => with_alloc (pa_free p)).

Definition vmm_free (pml4 virt : Z) : M vmm_state unit :=
  let pml4idx := VMM_PML4_IDX virt in
  let pdptidx := VMM_PDPT_IDX virt in
  let pdidx := VMM_PD_IDX virt in
  let ptidx := VMM_PT_IDX virt in
  e4 ← tbl_get pml4 pml4idx;
  let pdpt := phys_to_virt (Z.land e4 VMM_PTE_ADDR_MASK) in
  if (pdpt =? 0) || (Z.land e4 VMM_FLAGS_PRESENT =? 0) then panic else
  e3 ← tbl_get pdpt pdptidx;
  if negb (Z.land e3 VMM_PDPT_HUGE_FLAGS =? 0) then
    _ ← vmm_free_range (Z.land e3 VMM_PTE_ADDR_MASK) VMM_HUGE_PAGE_SIZE;
    tbl_set pdpt pdptidx 0
  else
  let pd := phys_to_virt (Z.land e3 VMM_PTE_ADDR_MASK) in
  if (pd =? 0) || (Z.land e3 VMM_FLAGS_PRESENT =? 0) then panic else
  e2 ← tbl_get pd pdidx;
  if negb (Z.land e2 VMM_PD_LARGE_FLAGS =? 0) then
    _ ← vmm_free_range (Z.land e2 VMM_PTE_ADDR_MASK) VMM_LARGE_PAGE_SIZE;
    tbl_set pd pdidx 0
  else
  let pt := phys_to_virt (Z.land e2 VMM_PTE_ADDR_MASK) in
  e1 ← tbl_get pt ptidx;
  if (pt =? 0) || (Z.land e1 VMM_FLAGS_PRESENT =? 0) then panic else
  _ ← with_alloc (pa_free (Z.land e1 VMM_PTE_ADDR_MASK));
  tbl_set pt ptidx 0.

(** The four nested loops of [vmm_destroy], innermost first. *)
Definition vmm_destroy_pt (pt_table : Z) : M vmm_state unit :=
  for_range 0 512 1 (fun ptidx =>
    e ← tbl_get pt_table ptidx;
    if e =? 0 then mret tt else
    with_alloc (pa_free (Z.land e VMM_PTE_ADDR_MASK))).

Definition vmm_destroy_pd (pd_table : Z) : M vmm_state unit :=
  for_range 0 512 1 (fun pdidx =>
    e ← tbl_get pd_table pdidx;
    if e =? 0 then mret tt else
    if negb (Z.land e VMM_PD_LARGE_FLAGS =? 0) then mret tt else
    _ ← vmm_destroy_pt (phys_to_virt (Z.land e VMM_PTE_ADDR_MASK));
    e ← tbl_get pd_table pdidx;
    with_alloc (pa_free (Z.land e VMM_PTE_ADDR_MASK))).

Definition vmm_destroy_pdpt (pdpt_table : Z) : M vmm_state unit :=
  for_range 0 512 1 (fun pdptidx =>
    e ← tbl_get pdpt_table pdptidx;
    if e =? 0 then mret tt else
    if negb (Z.land e VMM_PDPT_HUGE_FLAGS =? 0) then mret tt else
    _ ← vmm_destroy_pd (phys_to_virt (Z.land e VMM_PTE_ADDR_MASK));
    e ← tbl_get pdpt_table pdptidx;
    with_alloc (pa_free (Z.land e VMM_PTE_ADDR_MASK))).

Definition vmm_destroy (pml4 : Z) : M vmm_state unit :=
  for_range 0 256 1 (fun pml4idx =>
    e ← tbl_get pml4 pml4idx;
    if e =? 0 then mret tt else
    _ ← vmm_destroy_pdpt (phys_to_virt (Z.land e VMM_PTE_ADDR_MASK));
    e ← tbl_get pml4 pml4idx;
    with_alloc (pa_free (Z.land e VMM_PTE_ADDR_MASK))).

(** The value [vmm_switch] loads into cr3. *)
Definition vmm_switch (pml4 : Z) : Z := virt_to_phys pml4.

End vmm.
Arguments vmm_state S : clear implicits.
Arguments VmmState {S} vs_alloc vs_ram.
