(* ===== verification/PageTables.v ===== *)
(** * Page tables: the hardware walk and the tree invariant

    The reference for [Vmm]: what the processor computes from the tables in
    physical memory ([walk], [translate]), and the invariant of one address space
    ([as_wf]): the tables form a tree of allocated pages, each linked from exactly
    one entry.  [walk_change] is the main lemma: storing one entry changes the
    translation of exactly the addresses whose path uses that entry. *)
From S2P Require Import Prelude Common Memory Interfaces Vmm.
From Stdlib Require Import ZArith Lia.
From stdpp Require Import base tactics list numbers gmap.

Open Scope Z_scope.

(** ** The hardware walk *)

(** The table index of [v] at level [n] (4 = PML4, ..., 1 = PT). *)
Definition level_shift (n : nat) : Z := 12 + 9 * (Z.of_nat n - 1).
Definition level_idx (n : nat) (v : Z) : Z := Z.land (Z.shiftr v (level_shift n)) 0x1FF.

Definition entry (m : mem) (p i : Z) : Z := load64 m (p + 8 * i).
Definition entry_addr (e : Z) : Z := Z.land e VMM_PTE_ADDR_MASK.
Definition present (e : Z) : bool := Z.testbit e 0.
Definition page_size_bit (e : Z) : bool := Z.testbit e 7.

(** Is a present entry at level [n] a page (rather than a link to a table)? *)
Definition is_leaf (n : nat) (e : Z) : bool :=
  bool_decide (n = 1)%nat || (bool_decide (n < 4)%nat && page_size_bit e).

(** The leaf entry that maps [v], with its level, starting at table [p]. *)
Fixpoint walk (m : mem) (n : nat) (p v : Z) : option (nat * Z) :=
  match n with
  | O => None
  | S n' =>
      let e := entry m p (level_idx n v) in
      if negb (present e) then None else
      if is_leaf n e then Some (n, e) else walk m n' (entry_addr e) v
  end.

(** The physical address [v] translates to under page map [root]. *)
Definition translate (m : mem) (root v : Z) : option Z :=
  '(n, e) ← walk m 4 root v;
  let size := 2 ^ level_shift n in
  Some (entry_addr e / size * size + v mod size).

(** ** The invariant of an address space *)

(** A non-leaf entry that points to a table. *)
Definition is_link (n : nat) (e : Z) : bool := present e && negb (is_leaf n e).

Section invariant.
Context {S : Type} `{PageAllocator S}.

(** [T] gives the level of every table page of the tree under [root]. *)
Record as_wf (T : gmap Z nat) (st : vmm_state S) (root : Z) : Prop := AsWf {
  wf_alloc : pa_wf (vs_alloc st);
  wf_ram : mem_ok (vs_ram st);
  wf_root : T !! root = Some 4%nat;
  wf_table : forall p n, T !! p = Some n ->
    is_page p /\ ~ pa_is_free (vs_alloc st) p /\ (1 <= n <= 4)%nat;
  wf_entry : forall p n i, T !! p = Some n -> 0 <= i < 512 ->
    let e := entry (vs_ram st) p i in
    e = 0 \/ (present e = true /\ is_leaf n e = true) \/
    (is_link n e = true /\ T !! entry_addr e = Some (n - 1)%nat);
  wf_inj : forall p n i p' n' i', T !! p = Some n -> T !! p' = Some n' ->
    (2 <= n)%nat -> (2 <= n')%nat -> 0 <= i < 512 -> 0 <= i' < 512 ->
    is_link n (entry (vs_ram st) p i) = true -> is_link n' (entry (vs_ram st) p' i') = true ->
    entry_addr (entry (vs_ram st) p i) = entry_addr (entry (vs_ram st) p' i') ->
    p = p' /\ i = i';
}.
End invariant.

(** [path m root v n p]: following [v] from [root] leads to table [p] at level [n]. *)
Inductive path (m : mem) (root v : Z) : nat -> Z -> Prop :=
| path_root : path m root v 4 root
| path_step n p : path m root v (S n) p -> (1 <= n)%nat ->
    is_link (S n) (entry m p (level_idx (S n) v)) = true ->
    path m root v n (entry_addr (entry m p (level_idx (S n) v))).

(** ** Lemmas on indices and entries *)

Lemma level_idx_range n v : 0 <= level_idx n v < 512.
Proof.
  unfold level_idx. change 0x1FF with (Z.ones 9). rewrite Z.land_ones by lia.
  by apply Z.mod_pos_bound.
Qed.

Lemma level_idx_div n v : (1 <= n)%nat -> level_idx n v = v / 2 ^ level_shift n mod 512.
Proof.
  intros. unfold level_idx. change 0x1FF with (Z.ones 9). rewrite Z.land_ones by lia.
  by rewrite Z.shiftr_div_pow2 by (unfold level_shift; lia).
Qed.

Lemma vmm_idx v :
  VMM_PML4_IDX v = level_idx 4 v /\ VMM_PDPT_IDX v = level_idx 3 v /\
  VMM_PD_IDX v = level_idx 2 v /\ VMM_PT_IDX v = level_idx 1 v.
Proof. done. Qed.

(** The addresses that share the indices of all levels from [n] up share their
    page number at that level. *)
Definition vpn (n : nat) (v : Z) : Z := v / 2 ^ level_shift n mod 2 ^ (9 * (5 - Z.of_nat n)).

Lemma vpn_step n v : (1 <= n <= 3)%nat -> vpn n v = vpn (S n) v * 512 + level_idx n v.
Proof.
  intros Hn. rewrite level_idx_div by lia. unfold vpn.
  replace (v / 2 ^ level_shift (S n)) with (v / 2 ^ level_shift n / 512).
  - replace (2 ^ (9 * (5 - Z.of_nat n))) with (512 * 2 ^ (9 * (5 - Z.of_nat (S n)))).
    + rewrite Z.rem_mul_r by lia. lia.
    + change 512 with (2 ^ 9). rewrite <- Z.pow_add_r by lia. f_equal. lia.
  - rewrite Z.div_div by first [lia|apply Z.pow_nonzero; unfold level_shift; lia].
    f_equal. change 512 with (2 ^ 9). rewrite <- Z.pow_add_r by (unfold level_shift; lia).
    f_equal. unfold level_shift. lia.
Qed.

Lemma vpn_top v : vpn 4 v = level_idx 4 v.
Proof. by rewrite level_idx_div by lia. Qed.

Lemma entry_range m p i : mem_ok m -> 0 <= entry m p i < 2 ^ 64.
Proof. intros. by apply load64_range. Qed.

Lemma entry_store_same m p i w : 0 <= w < 2 ^ 64 -> entry (store64 m (p + 8 * i) w) p i = w.
Proof. intros. by apply load64_store64_same. Qed.

(** Entries of pages do not overlap. *)
Lemma entry_store_other m p i q j w :
  is_page p -> is_page q -> 0 <= i < 512 -> 0 <= j < 512 -> (q, j) <> (p, i) ->
  entry (store64 m (p + 8 * i) w) q j = entry m q j.
Proof.
  intros [Hp Hpm] [Hq Hqm] Hi Hj Hne. apply load64_store64_other. unfold PAGE_SIZE in *.
  destruct (decide (p = q)) as [->|].
  - assert (i <> j) by congruence. lia.
  - pose proof (Z.div_mod p 4096). pose proof (Z.div_mod q 4096).
    assert (p / 4096 <> q / 4096) by lia. lia.
Qed.

Lemma entry_fill_other m p q j :
  is_page p -> is_page q -> 0 <= j < 512 -> q <> p -> entry (fill m p 4096 0) q j = entry m q j.
Proof.
  intros [Hp Hpm] [Hq Hqm] Hj Hne. apply load64_fill_out. unfold PAGE_SIZE in *.
  pose proof (Z.div_mod p 4096). pose proof (Z.div_mod q 4096).
  assert (p / 4096 <> q / 4096) by lia. lia.
Qed.

Lemma entry_fill_in m p j : 0 <= j < 512 -> entry (fill m p 4096 0) p j = 0.
Proof. intros. apply load64_fill_in; lia. Qed.

Lemma present_0 : present 0 = false.
Proof. done. Qed.

(** The entry made for a fresh table. *)
Lemma land_addr_mask e : 0 <= e -> Z.land e VMM_PTE_ADDR_MASK = e mod 2 ^ 52 / 4096 * 4096.
Proof.
  intros. change VMM_PTE_ADDR_MASK with (Z.shiftl (Z.ones 40) 12). change 4096 with (2 ^ 12).
  rewrite <- Z.shiftr_div_pow2, <- Z.shiftl_mul_pow2, <- Z.land_ones by lia.
  apply Z.bits_inj'. intros k Hk. rewrite Z.land_spec.
  destruct (Z.lt_ge_cases k 12).
  - by rewrite !Z.shiftl_spec_low, andb_false_r by lia.
  - rewrite !Z.shiftl_spec, Z.shiftr_spec, Z.land_spec by lia.
    replace (k - 12 + 12) with k by lia. f_equal.
    destruct (Z.lt_ge_cases k 52).
    + by rewrite !Z.ones_spec_low by lia.
    + by rewrite !Z.ones_spec_high by lia.
Qed.

Lemma entry_addr_lor p f :
  0 <= p < 2 ^ 52 -> p mod 4096 = 0 -> Z.land f VMM_PTE_ADDR_MASK = 0 ->
  entry_addr (Z.lor p f) = p.
Proof.
  intros Hp Hm Hf. unfold entry_addr. rewrite Z.land_lor_distr_l, Hf, Z.lor_0_r.
  rewrite land_addr_mask, (Z.mod_small p) by lia. pose proof (Z.div_mod p 4096). lia.
Qed.

Lemma page_low_bits p k : p mod 4096 = 0 -> 0 <= k < 12 -> Z.testbit p k = false.
Proof.
  intros Hp Hk. rewrite <- (Z.mod_pow2_bits_low p 12 k) by lia.
  change (2 ^ 12) with 4096. by rewrite Hp, Z.bits_0.
Qed.

Lemma lor_range a b n : 0 <= n -> 0 <= a < 2 ^ n -> 0 <= b < 2 ^ n -> 0 <= Z.lor a b < 2 ^ n.
Proof.
  intros Hn Ha Hb. assert (0 <= Z.lor a b) as H0 by (apply Z.lor_nonneg; lia). split; [done|].
  destruct (decide (Z.lor a b = 0)) as [->|]; [lia|].
  apply Z.log2_lt_pow2; [lia|]. rewrite Z.log2_lor by lia.
  destruct (decide (n = 0)) as [->|].
  { assert (a = 0) as -> by lia. assert (b = 0) as -> by lia. done. }
  apply Z.max_lub_lt.
  - destruct (decide (a = 0)) as [->|]; [cbn; lia|]. apply Z.log2_lt_pow2; lia.
  - destruct (decide (b = 0)) as [->|]; [cbn; lia|]. apply Z.log2_lt_pow2; lia.
Qed.

Lemma table_flags_cases f : table_flags f = 3 \/ table_flags f = 7.
Proof. unfold table_flags. destruct (negb _); [by right|by left]. Qed.

(** ** Lemmas on paths and walks *)
Lemma path_le4 m root v n p : path m root v n p -> (n <= 4)%nat.
Proof. induction 1; lia. Qed.

Lemma path_det m root v n p p' : path m root v n p -> path m root v n p' -> p = p'.
Proof.
  intros Hp. revert p'. induction Hp as [|n p Hp IH Hn Hl]; intros p' Hp'.
  - inversion Hp' as [|n' q Hq Hn' Hl']; [done|]. apply path_le4 in Hq. lia.
  - inversion Hp' as [E|n' q Hq Hn' Hl' E]; subst; [apply path_le4 in Hp; lia|].
    by rewrite (IH q Hq).
Qed.

Section paths.
Context {S : Type} `{PageAllocator S}.
Implicit Types (T : gmap Z nat) (st : vmm_state S).

Lemma path_table T st root v n p : as_wf T st root -> path (vs_ram st) root v n p -> T !! p = Some n.
Proof.
  intros Hwf. induction 1 as [|n p Hpath IH Hn Hl]; [apply Hwf|].
  destruct (wf_entry _ _ _ Hwf p (Datatypes.S n) (level_idx (Datatypes.S n) v) IH (level_idx_range _ _))
    as [E|[[_ E]|[_ E]]].
  - rewrite E in Hl. done.
  - unfold is_link in Hl. rewrite E in Hl. by rewrite andb_false_r in Hl.
  - by rewrite Nat.sub_1_r in E.
Qed.

(** Every table is reached by one sequence of indices only. *)
Lemma path_unique T st root n p v v' :
  as_wf T st root -> path (vs_ram st) root v n p -> path (vs_ram st) root v' n p ->
  (n < 4)%nat -> vpn (Datatypes.S n) v = vpn (Datatypes.S n) v'.
Proof.
  intros Hwf Hp. revert v'. remember (vs_ram st) as m. revert Heqm.
  induction Hp as [|n p Hp IH Hn Hl]; intros -> v' Hp' Hlt; [lia|].
  inversion Hp' as [|n' p' Hq Hn' Hl' Heq1 Heq2]; subst; [lia|].
  destruct (wf_inj _ _ _ Hwf p' (Datatypes.S n) (level_idx (Datatypes.S n) v') p (Datatypes.S n)
    (level_idx (Datatypes.S n) v)) as [-> Hidx];
    [by eapply path_table|by eapply path_table|lia|lia|apply level_idx_range|apply level_idx_range|done..|].
  destruct (decide (n = 3%nat)) as [->|].
  - by rewrite !vpn_top.
  - rewrite (vpn_step (Datatypes.S n) v), (vpn_step (Datatypes.S n) v') by lia.
    by rewrite (IH eq_refl v' Hq ltac:(lia)), Hidx.
Qed.

(** Changing one entry: the walk of [v] is the same, or its path runs through the
    table of that entry and uses its index. *)
Lemma walk_change T st root (m' : mem) q k i v :
  as_wf T st root -> T !! q = Some k ->
  (forall p n j, T !! p = Some n -> 0 <= j < 512 -> (p, j) <> (q, i) ->
     entry m' p j = entry (vs_ram st) p j) ->
  walk m' 4 root v = walk (vs_ram st) 4 root v \/
  (path (vs_ram st) root v k q /\ level_idx k v = i).
Proof.
  intros Hwf Hq Hm. set (m := vs_ram st).
  assert (forall n p, path m root v n p ->
    walk m' n p v = walk m n p v \/ (path m root v k q /\ level_idx k v = i)) as Hgen.
  { induction n as [|n IH]; intros p Hp; [by left|].
    pose proof (path_table _ _ _ _ _ _ Hwf Hp) as HT.
    destruct (decide ((p, level_idx (Datatypes.S n) v) = (q, i))) as [E|Hne].
    { inversion E; subst. right. rewrite HT in Hq. injection Hq as <-. done. }
    cbn [walk]. rewrite (Hm p (Datatypes.S n)) by (done || apply level_idx_range). fold m.
    destruct (present (entry m p (level_idx (Datatypes.S n) v))) eqn:Epr; [|by left]. cbn [negb].
    destruct (is_leaf (Datatypes.S n) (entry m p (level_idx (Datatypes.S n) v))) eqn:El; [by left|].
    apply IH. apply path_step; [done| |by unfold is_link; rewrite Epr, El].
    destruct n; [|lia]. done. }
  apply Hgen. constructor.
Qed.

(** The walk along a path continues at the path's table. *)
Lemma walk_path m root v n p : path m root v n p -> walk m 4 root v = walk m n p v.
Proof.
  induction 1 as [|n p Hp IH Hn Hl]; [done|]. rewrite IH. unfold is_link in Hl.
  apply andb_true_iff in Hl as [Hpr Hl]. apply negb_true_iff in Hl.
  cbn [walk]. rewrite Hpr, Hl. done.
Qed.

(** Paths survive as long as the links on them do. *)
Lemma path_mono T st root v n p (m' : mem) :
  as_wf T st root ->
  (forall q k j, T !! q = Some k -> 0 <= j < 512 -> entry (vs_ram st) q j <> 0 ->
     entry m' q j = entry (vs_ram st) q j) ->
  path (vs_ram st) root v n p -> path m' root v n p.
Proof.
  intros Hwf Hm. induction 1 as [|n p Hp IH Hn Hl]; [constructor|].
  rewrite <- (Hm p (Datatypes.S n)); [|by eapply path_table|apply level_idx_range|
    by intros E; rewrite E in Hl].
  constructor; [done..|]. rewrite (Hm p (Datatypes.S n)); [done|by eapply path_table|apply level_idx_range|].
  by intros E; rewrite E in Hl.
Qed.

(** Changing an entry at level [k] keeps the paths down to level [k]. *)
Lemma path_change T st root (m' : mem) q k i v n p :
  as_wf T st root -> T !! q = Some k ->
  (forall p n j, T !! p = Some n -> 0 <= j < 512 -> (p, j) <> (q, i) ->
     entry m' p j = entry (vs_ram st) p j) ->
  path (vs_ram st) root v n p -> (k <= n)%nat -> path m' root v n p.
Proof.
  intros Hwf Hq Hm. induction 1 as [|n p Hp IH Hn Hl]; intros Hk; [constructor|].
  pose proof (path_table _ _ _ _ _ _ Hwf Hp) as HT.
  assert (entry m' p (level_idx (Datatypes.S n) v) = entry (vs_ram st) p (level_idx (Datatypes.S n) v))
    as E.
  { apply (Hm p (Datatypes.S n)); [done|apply level_idx_range|]. intros [= -> _].
    rewrite HT in Hq. injection Hq. lia. }
  rewrite <- E. constructor; [by apply IH; lia|done|by rewrite E].
Qed.

(** Addresses with the same page number at level [n] share the index at [n] and
    the paths down to it. *)
Lemma vpn_idx n v v' : (1 <= n <= 4)%nat -> vpn n v = vpn n v' ->
  level_idx n v = level_idx n v' /\ ((n < 4)%nat -> vpn (Datatypes.S n) v = vpn (Datatypes.S n) v').
Proof.
  intros Hn E. destruct (decide (n = 4%nat)) as [->|].
  { rewrite !vpn_top in E. split; [done|lia]. }
  rewrite (vpn_step n v), (vpn_step n v') in E by lia.
  pose proof (level_idx_range n v). pose proof (level_idx_range n v'). lia.
Qed.

Lemma path_vpn m root v v' n p :
  path m root v n p -> ((n < 4)%nat -> vpn (Datatypes.S n) v = vpn (Datatypes.S n) v') ->
  path m root v' n p.
Proof.
  induction 1 as [|n p Hp IH Hn Hl]; intros E; [constructor|].
  destruct (decide (n < 4)%nat) as [Hlt|Hge].
  - destruct (vpn_idx (Datatypes.S n) v v') as [Ei Eu]; [lia|by apply E|]. rewrite Ei in Hl |- *.
    constructor; [by apply IH|done..].
  - apply path_le4 in Hp. lia.
Qed.

(** The hardware walk after storing the page entry [w] at the end of [v]'s path. *)
Lemma walk_store T st root v k q (m' : mem) w :
  as_wf T st root -> path (vs_ram st) root v k q ->
  (forall p n j, T !! p = Some n -> 0 <= j < 512 -> (p, j) <> (q, level_idx k v) ->
     entry m' p j = entry (vs_ram st) p j) ->
  entry m' q (level_idx k v) = w -> (1 <= k)%nat ->
  (present w = true -> is_leaf k w = true) ->
  forall v', walk m' 4 root v' =
    if decide (vpn k v' = vpn k v) then (if present w then Some (k, w) else None)
    else walk (vs_ram st) 4 root v'.
Proof.
  intros Hwf Hp Hm Hw Hk Hleaf v'. pose proof (path_table _ _ _ _ _ _ Hwf Hp) as HT.
  pose proof (wf_table _ _ _ Hwf _ _ HT) as (_ & _ & Hk4). case_decide as Ev.
  - destruct (vpn_idx k v' v ltac:(lia) Ev) as [Ei Eu].
    assert (path m' root v' k q) as Hp'.
    { eapply path_change; [done|done|done| |lia]. eapply path_vpn; [done|].
      intros Hlt. symmetry. by apply Eu. }
    rewrite (walk_path _ _ _ _ _ Hp'). destruct k as [|k']; [lia|]. cbn [walk].
    rewrite Ei, Hw. destruct (present w); [|done]. by rewrite Hleaf.
  - destruct (walk_change T st root m' q k (level_idx k v) v') as [E|[Hp' Ei]]; [done..|].
    destruct Ev. destruct (decide (k = 4%nat)) as [->|]; [by rewrite !vpn_top|].
    rewrite (vpn_step k v), (vpn_step k v') by lia.
    by rewrite Ei, (path_unique T st root k q v v' Hwf Hp Hp') by lia.
Qed.

(** A successful walk from a table on the path: the leaf's table is further down
    the path, and every level in between has one. *)
Lemma walk_Some_path m root v k e : forall n p,
  path m root v n p -> walk m n p v = Some (k, e) ->
  (1 <= k <= n)%nat /\
  (forall j, (k <= j <= n)%nat -> exists q, path m root v j q) /\
  exists q, path m root v k q /\ entry m q (level_idx k v) = e /\ present e = true /\ is_leaf k e = true.
Proof.
  induction n as [|n IH]; intros p Hp Hw; [done|]. cbn [walk] in Hw.
  destruct (present (entry m p (level_idx (Datatypes.S n) v))) eqn:Epr; [|done]. cbn [negb] in Hw.
  destruct (is_leaf (Datatypes.S n) (entry m p (level_idx (Datatypes.S n) v))) eqn:El.
  - injection Hw as <- <-. split; [lia|]. split; [|eauto 10].
    intros j Hj. replace j with (Datatypes.S n) by lia. eauto.
  - assert ((1 <= n)%nat) by (destruct n; [done|lia]).
    destruct (IH (entry_addr (entry m p (level_idx (Datatypes.S n) v)))) as (Hk & Hall & Hleaf); [|done|].
    { apply path_step; [done..|]. unfold is_link. by rewrite Epr, El. }
    split; [lia|]. split; [|done]. intros j Hj. destruct (decide (j = Datatypes.S n)) as [->|]; [eauto|].
    apply Hall. lia.
Qed.
End paths.
