(* ===== verification/VmmProofs.v ===== *)
(** * Correctness of the virtual memory manager

    [vmm_map], [vmm_unmap] and their large and huge variants against the hardware
    walk of [PageTables], for any page allocator that satisfies the interface. *)
From S2P Require Import Prelude Common Memory Interfaces Vmm PageTables.
From Stdlib Require Import ZArith Lia.
From stdpp Require Import base tactics list numbers gmap.

Open Scope Z_scope.

(** Page flags: a 64-bit value with the present bit and no address bits. *)
Definition flags_ok (f : Z) : Prop :=
  0 <= f < 2 ^ 64 /\ Z.land f VMM_PTE_ADDR_MASK = 0 /\ present f = true.

(** A frame of the page size of level [n]. *)
Definition frame_ok (n : nat) (p : Z) : Prop := 0 <= p < 2 ^ 52 /\ p mod 2 ^ level_shift n = 0.

Section proofs.
Context {S : Type} `{PageAllocator S} (debug : bool).
Implicit Types (T : gmap Z nat) (st : vmm_state S).

(** ** Table accesses *)

Lemma table_addr p i : is_page p -> 0 <= i < 512 -> virt_to_phys (u64 (phys_to_virt p + 8 * i)) = p + 8 * i.
Proof.
  intros [Hp _] Hi. unfold phys_to_virt, virt_to_phys, PMM_HHDM_START.
  rewrite (u64_id (p + _)) by lia. rewrite (u64_id (p + _ + _)) by lia. rewrite u64_id by lia. lia.
Qed.

Lemma tbl_get_run st p i :
  is_page p -> 0 <= i < 512 -> tbl_get (phys_to_virt p) i st = Ok (entry (vs_ram st) p i, st).
Proof. intros. unfold tbl_get. by rewrite table_addr. Qed.

Lemma tbl_set_run st p i w :
  is_page p -> 0 <= i < 512 ->
  tbl_set (phys_to_virt p) i w st = Ok (tt, VmmState (vs_alloc st) (store64 (vs_ram st) (p + 8 * i) w)).
Proof. intros. unfold tbl_set. by rewrite table_addr. Qed.

Lemma tbl_zero_run st p :
  is_page p ->
  tbl_zero (phys_to_virt p) st = Ok (tt, VmmState (vs_alloc st) (fill (vs_ram st) p 4096 0)).
Proof. intros [Hp _]. unfold tbl_zero. rewrite virt_phys_roundtrip by lia. done. Qed.

(** ** Changing an entry that is not a link *)

Lemma store_entry_wf T st root q k i w :
  as_wf T st root -> T !! q = Some k -> 0 <= i < 512 -> 0 <= w < 2 ^ 64 ->
  w = 0 \/ (present w = true /\ is_leaf k w = true) ->
  as_wf T (VmmState (vs_alloc st) (store64 (vs_ram st) (q + 8 * i) w)) root.
Proof.
  intros Hwf Hq Hi Hw Hnl. pose proof (wf_table _ _ _ Hwf _ _ Hq) as (Hqp & _ & _).
  assert (forall p n j, T !! p = Some n -> 0 <= j < 512 -> (p, j) <> (q, i) ->
    entry (store64 (vs_ram st) (q + 8 * i) w) p j = entry (vs_ram st) p j) as Hother.
  { intros p n j Hp Hj Hne. apply entry_store_other; try done. by apply (wf_table _ _ _ Hwf _ _ Hp). }
  assert (forall n, T !! q = Some n -> (2 <= n)%nat ->
    is_link n (entry (store64 (vs_ram st) (q + 8 * i) w) q i) = false) as Hnolink.
  { intros n Hn H2. rewrite Hq in Hn. injection Hn as <-. rewrite entry_store_same by done.
    unfold is_link. destruct Hnl as [->|[_ ->]]; [done|]. apply andb_false_r. }
  split; cbn [vs_alloc vs_ram]; try apply Hwf.
  - apply store64_ok, Hwf.
  - intros p n j Hp Hj. destruct (decide ((p, j) = (q, i))) as [[= -> ->]|Hne].
    + rewrite entry_store_same by done. rewrite Hq in Hp. injection Hp as <-.
      destruct Hnl; auto.
    + rewrite (Hother p n) by done. by apply (wf_entry _ _ _ Hwf).
  - intros p n j p' n' j' Hp Hp' Hn Hn' Hj Hj'.
    destruct (decide ((p, j) = (q, i))) as [[= -> ->]|Hne]; [rewrite Hnolink by done; done|].
    destruct (decide ((p', j') = (q, i))) as [[= -> ->]|Hne']; [rewrite (Hnolink n') by done; done|].
    rewrite (Hother p n), (Hother p' n') by done. by apply (wf_inj _ _ _ Hwf).
Qed.

(** ** Growing the tree *)

(** From [T, st] to [T', st'] only empty entries were filled with links to at most
    [c] new tables, in tables above level [lvl]: translations, other memory and the other pages are as before. *)
Record grows (c lvl : nat) T st T' st' root : Prop := Grows {
  gr_sub : T ⊆ T';
  gr_size : (size T' <= size T + c)%nat;
  gr_entry : forall p n j, T !! p = Some n -> 0 <= j < 512 ->
    entry (vs_ram st) p j <> 0 -> entry (vs_ram st') p j = entry (vs_ram st) p j;
  gr_low : forall p n j, T !! p = Some n -> 0 <= j < 512 -> (n <= lvl)%nat ->
    entry (vs_ram st') p j = entry (vs_ram st) p j;
  gr_walk : forall v, walk (vs_ram st') 4 root v = walk (vs_ram st) 4 root v;
  gr_free : forall p, pa_is_free (vs_alloc st') p <-> pa_is_free (vs_alloc st) p /\ T' !! p = None;
  gr_managed : forall p, pa_managed (vs_alloc st') p <-> pa_managed (vs_alloc st) p;
  gr_frame : forall a, (forall p n, T' !! p = Some n -> ~ p <= a < p + 4096) ->
    vs_ram st' a = vs_ram st a;
  gr_new : forall p n, T' !! p = Some n -> T !! p = None -> pa_is_free (vs_alloc st) p /\ (lvl <= n)%nat;
  gr_old : forall p n j k, T' !! p = Some n -> 0 <= j < 512 -> is_link n (entry (vs_ram st') p j) = true ->
    T !! entry_addr (entry (vs_ram st') p j) = Some k -> T !! p = Some n /\ entry (vs_ram st) p j = entry (vs_ram st') p j;
}.

Lemma grows_refl T st root : as_wf T st root -> grows 0 4 T st T st root.
Proof.
  intros Hwf. split; try done; [lia| |by intros p n ->]. intros p. split; [|by intros [? _]]. intros Hf. split; [done|].
  destruct (T !! p) eqn:E; [|done]. by apply (wf_table _ _ _ Hwf) in E as (_ & Hn & _).
Qed.

Lemma grows_weaken c c' l l' T st T' st' root :
  (c <= c')%nat -> (l' <= l)%nat -> grows c l T st T' st' root -> grows c' l' T st T' st' root.
Proof.
  intros Hc Hl G. pose proof (gr_low _ _ _ _ _ _ _ G) as Hlow. pose proof (gr_new _ _ _ _ _ _ _ G) as Hnew.
  destruct G. split; try done; [lia| |].
  - intros p n j Hp Hj Hn. eapply Hlow; [done..|lia].
  - intros p n Hp HT. destruct (Hnew p n Hp HT). split; [done|lia].
Qed.

Lemma grows_trans c c' l T1 st1 T2 st2 T3 st3 root :
  grows c l T1 st1 T2 st2 root -> grows c' l T2 st2 T3 st3 root -> grows (c + c') l T1 st1 T3 st3 root.
Proof.
  intros G1 G2. split.
  - etrans; [apply G1|apply G2].
  - pose proof (gr_size _ _ _ _ _ _ _ G1). pose proof (gr_size _ _ _ _ _ _ _ G2). lia.
  - intros p n j Hp Hj Hne. rewrite (gr_entry _ _ _ _ _ _ _ G2 p n); [by eapply G1|..]; [|done|].
    + eapply lookup_weaken; [done|apply G1].
    + by rewrite (gr_entry _ _ _ _ _ _ _ G1 p n).
  - intros p n j Hp Hj Hn. rewrite (gr_low _ _ _ _ _ _ _ G2 p n); [|eapply lookup_weaken; [done|apply G1]|done..].
    by eapply (gr_low _ _ _ _ _ _ _ G1).
  - intros v. by rewrite (gr_walk _ _ _ _ _ _ _ G2), (gr_walk _ _ _ _ _ _ _ G1).
  - intros p. rewrite (gr_free _ _ _ _ _ _ _ G2), (gr_free _ _ _ _ _ _ _ G1).
    split; [naive_solver|]. intros [? E]. split; [split; [done|]|done].
    by eapply lookup_weaken_None; [|apply G2].
  - intros p. by rewrite (gr_managed _ _ _ _ _ _ _ G2), (gr_managed _ _ _ _ _ _ _ G1).
  - intros a Ha. rewrite (gr_frame _ _ _ _ _ _ _ G2 a Ha). apply (gr_frame _ _ _ _ _ _ _ G1).
    intros p n Hp. eapply Ha, lookup_weaken; [done|apply G2].
  - intros p n Hp Hn. destruct (T2 !! p) as [k|] eqn:E.
    + apply (lookup_weaken _ T3) in E as E3; [|apply G2]. assert (k = n) as -> by congruence. exact (gr_new _ _ _ _ _ _ _ G1 p n E Hn).
    + apply (gr_new _ _ _ _ _ _ _ G2 p n Hp) in E as [E Hl]. by apply (gr_free _ _ _ _ _ _ _ G1) in E as [? _].
  - intros p n j k Hp Hj Hl Hk. destruct (gr_old _ _ _ _ _ _ _ G2 p n j k Hp Hj Hl) as [Hp2 E2].
    { eapply lookup_weaken; [done|apply G1]. }
    rewrite <- E2 in Hl, Hk |- *. exact (gr_old _ _ _ _ _ _ _ G1 p n j k Hp2 Hj Hl Hk).
Qed.

(** The state after linking the fresh page [p] into entry [i] of table [q]. *)
Definition linked (al : S) (m : mem) (q i p f : Z) : vmm_state S :=
  VmmState al (fill (store64 m (q + 8 * i) (Z.lor p f)) p 4096 0).

Section link.
Context (T : gmap Z nat) (st : vmm_state S) (root q : Z) (k : nat) (i p : Z) (al : S) (f : Z).
Context (Hwf : as_wf T st root) (Hq : T !! q = Some k) (Hk : (2 <= k)%nat) (Hi : 0 <= i < 512).
Context (Hzero : entry (vs_ram st) q i = 0) (Hf : f = 3 \/ f = 7).
Context (Halloc : pa_alloc (vs_alloc st) = Ok (p, al)).

Let st' := linked al (vs_ram st) q i p f.
Let T' := <[p := (k - 1)%nat]> T.

Lemma link_fresh : pa_is_free (vs_alloc st) p /\ is_page p /\ T !! p = None.
Proof.
  destruct (pa_alloc_Ok _ _ _ (wf_alloc _ _ _ Hwf) Halloc) as (_ & Hfree & Hpg & _).
  split; [done|]. split; [done|]. destruct (T !! p) eqn:E; [|done].
  by apply (wf_table _ _ _ Hwf) in E as (_ & Hn & _).
Qed.

Lemma link_value : 0 <= Z.lor p f < 2 ^ 64 /\ entry_addr (Z.lor p f) = p /\ is_link k (Z.lor p f) = true.
Proof.
  destruct link_fresh as (_ & [Hp Hm] & _). unfold PAGE_SIZE in Hm. split; [apply lor_range; lia|].
  split; [apply entry_addr_lor; [lia|done|by destruct Hf as [-> | ->]]|].
  unfold is_link, is_leaf, present, page_size_bit.
  rewrite !Z.lor_spec, !(page_low_bits p) by (done || lia).
  rewrite (bool_decide_eq_false_2 (k = 1%nat)) by lia.
  destruct Hf as [-> | ->]; by destruct (bool_decide (k < 4)%nat).
Qed.

Lemma link_entry_new j : 0 <= j < 512 -> entry (vs_ram st') p j = 0.
Proof. apply entry_fill_in. Qed.

Lemma link_entry_same : entry (vs_ram st') q i = Z.lor p f.
Proof.
  destruct link_fresh as (_ & Hp & Hnone). pose proof (wf_table _ _ _ Hwf _ _ Hq) as (Hqp & _ & _).
  unfold st', linked. cbn [vs_ram]. rewrite entry_fill_other by (done || congruence).
  apply entry_store_same, link_value.
Qed.

Lemma link_entry_other p0 n j :
  T !! p0 = Some n -> 0 <= j < 512 -> (p0, j) <> (q, i) ->
  entry (vs_ram st') p0 j = entry (vs_ram st) p0 j.
Proof.
  intros Hp0 Hj Hne. destruct link_fresh as (_ & Hp & Hnone).
  pose proof (wf_table _ _ _ Hwf _ _ Hq) as (Hqp & _ & _).
  pose proof (wf_table _ _ _ Hwf _ _ Hp0) as (Hp0p & _ & _).
  unfold st', linked. cbn [vs_ram]. rewrite entry_fill_other by (done || congruence).
  by apply entry_store_other.
Qed.

(** Where the new tree has links. *)
Lemma link_cases p0 n j :
  T' !! p0 = Some n -> 0 <= j < 512 ->
  is_link n (entry (vs_ram st') p0 j) = true ->
  (p0 = q /\ j = i) \/
  (T !! p0 = Some n /\ entry (vs_ram st') p0 j = entry (vs_ram st) p0 j).
Proof.
  intros Hp0 Hj Hl. unfold T' in Hp0. apply lookup_insert_Some in Hp0 as [[<- <-]|[Hne Hp0]].
  - rewrite link_entry_new in Hl by done. done.
  - destruct (decide ((p0, j) = (q, i))) as [[= -> ->]|Hne']; [by left|].
    right. split; [done|]. by eapply link_entry_other.
Qed.

(** A link of the old tree never points to the fresh page. *)
Lemma link_not_fresh p0 n j :
  T !! p0 = Some n -> 0 <= j < 512 ->
  is_link n (entry (vs_ram st) p0 j) = true -> entry_addr (entry (vs_ram st) p0 j) <> p.
Proof.
  intros Hp0 Hj Hl E. destruct link_fresh as (_ & _ & Hnone).
  destruct (wf_entry _ _ _ Hwf p0 n j Hp0 Hj) as [E0|[[_ E0]|[_ E0]]].
  - rewrite E0 in Hl. done.
  - unfold is_link in Hl. rewrite E0 in Hl. by rewrite andb_false_r in Hl.
  - rewrite E, Hnone in E0. done.
Qed.

Lemma link_wf : as_wf T' st' root.
Proof.
  destruct (pa_alloc_Ok _ _ _ (wf_alloc _ _ _ Hwf) Halloc) as (Hal & Hfree & Hpg & Hfr & Hmg).
  destruct link_fresh as (_ & Hp & Hnone). destruct link_value as (Hv & Hva & Hvl).
  pose proof (wf_table _ _ _ Hwf _ _ Hq) as (Hqp & _ & Hk4).
  split.
  - done.
  - apply fill_ok; [|by unfold is_byte]. apply store64_ok, Hwf.
  - unfold T'. rewrite lookup_insert_ne; [apply Hwf|]. intros E. subst p. by rewrite (wf_root _ _ _ Hwf) in Hnone.
  - intros p0 n Hp0. cbn [linked st' vs_alloc]. rewrite Hfr.
    unfold T' in Hp0. apply lookup_insert_Some in Hp0 as [[<- <-]|[Hne Hp0]]; [split; [done|naive_solver lia]|].
    apply (wf_table _ _ _ Hwf) in Hp0. naive_solver.
  - intros p0 n j Hp0 Hj e.
    destruct (is_link n e) eqn:El.
    + right. right. split; [done|]. subst e. destruct (link_cases p0 n j) as [[-> ->]|[HT0 E]]; [done..| |].
      * rewrite link_entry_same, Hva. unfold T'. rewrite lookup_insert_eq.
        unfold T' in Hp0. rewrite lookup_insert_ne in Hp0 by congruence. congruence.
      * rewrite E in El |- *. destruct (wf_entry _ _ _ Hwf p0 n j HT0 Hj) as [E0|[[_ E0]|[_ E0]]].
        { rewrite E0 in El. done. }
        { unfold is_link in El. rewrite E0 in El. by rewrite andb_false_r in El. }
        unfold T'. rewrite lookup_insert_ne; [done|]. intros ->. by rewrite Hnone in E0.
    + subst e. unfold T' in Hp0. apply lookup_insert_Some in Hp0 as [[<- <-]|[Hne Hp0]];
        [left; by apply link_entry_new|].
      destruct (decide ((p0, j) = (q, i))) as [[= -> ->]|Hne'].
      * rewrite link_entry_same in El. rewrite Hq in Hp0. injection Hp0 as <-. congruence.
      * rewrite (link_entry_other p0 n) in El |- * by done.
        destruct (wf_entry _ _ _ Hwf p0 n j Hp0 Hj) as [E0|[E0|[E0 _]]]; [by left|by right; left|congruence].
  - intros p1 n1 j1 p2 n2 j2 H1 H2 Hn1 Hn2 Hj1 Hj2 Hl1 Hl2 Heq.
    destruct (link_cases p1 n1 j1) as [[-> ->]|[HT1 E1]]; [done..| |];
      destruct (link_cases p2 n2 j2) as [[-> ->]|[HT2 E2]]; try done.
    + rewrite link_entry_same, Hva, E2 in Heq. rewrite E2 in Hl2.
      by destruct (link_not_fresh p2 n2 j2).
    + rewrite link_entry_same, Hva, E1 in Heq. rewrite E1 in Hl1.
      by destruct (link_not_fresh p1 n1 j1).
    + rewrite E1, E2 in *. by apply (wf_inj _ _ _ Hwf p1 n1 j1 p2 n2 j2).
Qed.

Lemma link_walk v : walk (vs_ram st') 4 root v = walk (vs_ram st) 4 root v.
Proof.
  destruct (walk_change T st root (vs_ram st') q k i v) as [E|[Hpath Hidx]]; [done..| |done|].
  { intros. by eapply link_entry_other. }
  destruct link_value as (_ & Hva & Hvl).
  assert (path (vs_ram st') root v k q) as Hpath'.
  { eapply (path_mono T st); [done| |done]. intros p0 n j Hp0 Hj Hne.
    eapply link_entry_other; [done..|]. by intros [= -> ->]. }
  rewrite (walk_path _ _ _ _ _ Hpath), (walk_path _ _ _ _ _ Hpath').
  pose proof link_entry_same as Hsame. pose proof link_entry_new as Hnew.
  destruct k as [|[|k']]; [lia..|]. cbn [walk]. rewrite Hidx, Hzero, Hsame.
  unfold is_link in Hvl. apply andb_true_iff in Hvl as [-> Hlf]. apply negb_true_iff in Hlf.
  rewrite Hlf, Hva. cbn [negb]. cbn [walk]. rewrite Hnew by apply level_idx_range. done.
Qed.

Lemma link_grows : grows 1 (k - 1) T st T' st' root.
Proof.
  destruct (pa_alloc_Ok _ _ _ (wf_alloc _ _ _ Hwf) Halloc) as (Hal & Hfree & Hpg & Hfr & Hmg).
  destruct link_fresh as (_ & _ & Hnone). split.
  - by apply insert_subseteq.
  - unfold T'. rewrite map_size_insert_None by done. lia.
  - intros p0 n j Hp0 Hj Hne. eapply link_entry_other; [done..|]. by intros [= -> ->].
  - intros p0 n j Hp0 Hj Hn. eapply link_entry_other; [done..|]. intros [= -> ->].
    rewrite Hq in Hp0. injection Hp0. lia.
  - apply link_walk.
  - intros p0. cbn [st' linked vs_alloc]. rewrite Hfr. unfold T'. rewrite lookup_insert_None.
    split; [|naive_solver]. intros [Hfp Hne]. split; [done|]. split; [|done].
    destruct (T !! p0) eqn:E; [|done]. by apply (wf_table _ _ _ Hwf) in E as (_ & Hn & _).
  - apply Hmg.
  - intros a Ha. cbn [st' linked vs_ram].
    rewrite fill_out by (specialize (Ha p (k - 1)%nat (lookup_insert_eq _ _ _)); lia).
    apply store_out. rewrite length_le_bytes.
    assert (T' !! q = Some k) as HTq by (unfold T'; rewrite lookup_insert_ne by congruence; done).
    specialize (Ha q k HTq). lia.
  - intros p0 n Hp0 Hn. unfold T' in Hp0. apply lookup_insert_Some in Hp0 as [[<- <-]|[_ Hp0]]; [done|congruence].
  - intros p0 n j k0 Hp0 Hj Hl Hk0. destruct (link_cases p0 n j Hp0 Hj Hl) as [[-> ->]|[HT0 E]]; [|done].
    destruct link_value as (_ & Hva & _). rewrite link_entry_same, Hva in Hk0. congruence.
Qed.
End link.

(** One level of the descent of the mapping functions. *)
Lemma vmm_next_table_spec T st root v n q f :
  as_wf T st root -> path (vs_ram st) root v (Datatypes.S n) q -> (1 <= n)%nat ->
  (present (entry (vs_ram st) q (level_idx (Datatypes.S n) v)) &&
   is_leaf (Datatypes.S n) (entry (vs_ram st) q (level_idx (Datatypes.S n) v))) = false ->
  f = 3 \/ f = 7 ->
  (vmm_next_table (phys_to_virt q) (level_idx (Datatypes.S n) v) f st = Panic /\
   forall p, ~ pa_is_free (vs_alloc st) p) \/
  exists q' st' T',
    vmm_next_table (phys_to_virt q) (level_idx (Datatypes.S n) v) f st = Ok (phys_to_virt q', st') /\
    as_wf T' st' root /\ path (vs_ram st') root v n q' /\ grows 1 n T st T' st' root /\
    (forall p n', T' !! p = Some n' -> T !! p = None -> p = q' /\ n' = n) /\
    ((entry (vs_ram st) q (level_idx (Datatypes.S n) v) <> 0 /\ st' = st /\
      q' = entry_addr (entry (vs_ram st) q (level_idx (Datatypes.S n) v))) \/
     (forall j, 0 <= j < 512 -> entry (vs_ram st') q' j = 0)).
Proof.
  intros Hwf Hpath Hn Hnl Hf. set (i := level_idx (Datatypes.S n) v) in *.
  pose proof (level_idx_range (Datatypes.S n) v) as Hi. fold i in Hi.
  pose proof (path_table _ _ _ _ _ _ Hwf Hpath) as Hq.
  pose proof (wf_table _ _ _ Hwf _ _ Hq) as (Hqp & _ & Hn4).
  unfold vmm_next_table. rewrite (bind_run _ _ _ _ _ (tbl_get_run st q i Hqp Hi)).
  destruct (Z.eqb_spec (entry (vs_ram st) q i) 0) as [Hz|Hnz].
  - destruct (pa_alloc_spec _ (wf_alloc _ _ _ Hwf)) as [(p & al & Ha & _)|[Ha Hno]].
    2: { left. unfold mbind, M_bind, with_alloc. by rewrite Ha. }
    right. destruct (link_fresh T st root p al Hwf Ha) as (_ & Hp & _).
    exists p, (linked al (vs_ram st) q i p f), (<[p := n]> T).
    assert (as_wf (<[p := n]> T) (linked al (vs_ram st) q i p f) root) as Hwf'.
    { pose proof (link_wf T st root q (Datatypes.S n) i p al f) as Hw.
      rewrite Nat.sub_1_r in Hw. apply Hw; try done. lia. }
    assert (grows 1 n T st (<[p := n]> T) (linked al (vs_ram st) q i p f) root) as Hgr.
    { pose proof (link_grows T st root q (Datatypes.S n) i p al f) as Hw.
      rewrite Nat.sub_1_r in Hw. apply Hw; try done. lia. }
    pose proof (link_entry_same T st root q (Datatypes.S n) i p al f Hwf Hq ltac:(lia) Hi Hf Ha) as Hsame.
    destruct (link_value T st root q (Datatypes.S n) i p al f) as (_ & Hva & Hvl); try done; try lia.
    split; [|split; [done|split; [|split; [done|split; [|right; intros j; apply entry_fill_in]]]]].
    3: { intros p0 n' Hp0 Hn0. apply lookup_insert_Some in Hp0 as [[<- <-]|[_ Hp0]]; [done|congruence]. }
    + unfold mbind, M_bind, with_alloc. rewrite Ha.
      rewrite tbl_set_run by done. rewrite tbl_zero_run by done. done.
    + pose proof (path_step (vs_ram (linked al (vs_ram st) q i p f)) root v n q) as Hstep.
      fold i in Hstep. rewrite Hsame, Hva in Hstep. apply Hstep; [|done..].
      eapply (path_mono T st); [done| |done]. intros. by eapply Hgr.
  - right. exists (entry_addr (entry (vs_ram st) q i)), st, T.
    split; [done|]. split; [done|]. split; [|split; [eapply grows_weaken, grows_refl; [lia|lia|done]|split; [by intros p0 n' ->|by left]]].
    apply path_step; [done..|]. fold i.
    destruct (wf_entry _ _ _ Hwf q (Datatypes.S n) i Hq Hi) as [E|[[E1 E2]|[E _]]];
      [done| |done]. rewrite E1, E2 in Hnl. done.
Qed.

(** At least [c] pages are free. *)
Definition free_at_least (c : nat) st : Prop :=
  exists l, NoDup l /\ length l = c /\ Forall (pa_is_free (vs_alloc st)) l.

Lemma grows_not_exhausted c l T st T' st' root :
  grows c l T st T' st' root -> as_wf T st root -> free_at_least (Datatypes.S c) st ->
  ~ (forall p, ~ pa_is_free (vs_alloc st') p).
Proof.
  intros G Hwf (ps & Hnd & Hlen & Hfree) Hno.
  assert (dom T ∪ list_to_set ps ⊆ (dom T' : gset Z)) as Hsub.
  { apply union_least; [by apply subseteq_dom, G|]. intros p Hp%elem_of_list_to_set.
    rewrite Forall_forall in Hfree. specialize (Hfree p Hp). apply elem_of_dom.
    destruct (T' !! p) eqn:E; [done|]. destruct (Hno p). by apply G. }
  apply subseteq_size in Hsub. rewrite size_union in Hsub.
  - rewrite !size_dom, size_list_to_set in Hsub by done.
    pose proof (gr_size _ _ _ _ _ _ _ G). lia.
  - intros p [n Hp]%elem_of_dom Hl%elem_of_list_to_set. rewrite Forall_forall in Hfree.
    apply (wf_table _ _ _ Hwf) in Hp as (_ & Hn & _). by apply Hn, Hfree.
Qed.

(** Table [q], reached in [st], is the one [v] reached in [st0] already, or empty. *)
Definition old_or_empty st0 st root v n q : Prop :=
  path (vs_ram st0) root v n q \/ (forall j, 0 <= j < 512 -> entry (vs_ram st) q j = 0).

(** A descent that started in [st0] and is at table [q] of level [n] in [st]. *)
Record descent T0 st0 root v (n : nat) T st q : Prop := Descent {
  de_wf0 : as_wf T0 st0 root;
  de_wf : as_wf T st root;
  de_grows : grows (4 - n) n T0 st0 T st root;
  de_path : path (vs_ram st) root v n q;
  de_old : old_or_empty st0 st root v n q;
  de_new : forall p n', T !! p = Some n' -> T0 !! p = None -> path (vs_ram st) root v n' p;
}.

Lemma descent_start T st root v : as_wf T st root -> descent T st root v 4 T st root.
Proof. intros Hwf. split; try done; [by apply grows_refl|constructor|left; constructor|by intros p n' ->]. Qed.

Lemma descend T0 st0 T st root v n q f :
  descent T0 st0 root v (Datatypes.S n) T st q ->
  free_at_least (4 - n) st0 ->
  (forall k e, walk (vs_ram st0) 4 root v = Some (k, e) -> (k <= n)%nat) ->
  (1 <= n <= 3)%nat -> f = 3 \/ f = 7 ->
  exists q' st' T',
    vmm_next_table (phys_to_virt q) (level_idx (Datatypes.S n) v) f st = Ok (phys_to_virt q', st') /\
    descent T0 st0 root v n T' st' q'.
Proof.
  intros [Hwf0 Hwf Hg Hpath Hold Hnew] Hfree Hnl Hn Hf.
  destruct (vmm_next_table_spec T st root v n q f)
    as [[_ Hno]|(q' & st' & T' & Hrun & Hwf' & Hp' & Hg' & Hnew' & Hq')]; [done..|lia| |done| |].
  - apply andb_false_iff. destruct (present _) eqn:Epr; [|by left]. right.
    destruct (is_leaf _ _) eqn:El; [|done].
    assert (walk (vs_ram st0) 4 root v =
      Some (Datatypes.S n, entry (vs_ram st) q (level_idx (Datatypes.S n) v))) as Hw.
    { rewrite <- (gr_walk _ _ _ _ _ _ _ Hg), (walk_path _ _ _ _ _ Hpath). cbn [walk]. by rewrite Epr, El. }
    apply Hnl in Hw. lia.
  - destruct (grows_not_exhausted (4 - Datatypes.S n) (Datatypes.S n) T0 st0 T st root); try done.
    by replace (Datatypes.S (4 - Datatypes.S n)) with (4 - n)%nat by lia.
  - exists q', st', T'. split; [done|]. split; [done..| |done| |].
    3: { intros p n' Hp Hp0. destruct (T !! p) as [n''|] eqn:E; [|by destruct (Hnew' p n' Hp E) as [-> ->]].
      pose proof (lookup_weaken _ _ _ _ E (gr_sub _ _ _ _ _ _ _ Hg')). assert (n'' = n') as -> by congruence.
      eapply (path_mono T st); [done|intros; by eapply Hg'|by eapply Hnew]. }
    + replace (4 - n)%nat with ((4 - Datatypes.S n) + 1)%nat by lia.
      eapply grows_trans; [|done]. eapply grows_weaken; [| |done]; lia.
    + destruct Hq' as [(Hnz & -> & ->)|Hz]; [|by right]. destruct Hold as [Hold|Hz].
      * left. pose proof (path_table _ _ _ _ _ _ Hwf0 Hold) as HT0.
        pose proof (gr_low _ _ _ _ _ _ _ Hg q (Datatypes.S n) (level_idx (Datatypes.S n) v) HT0
          (level_idx_range _ _) ltac:(lia)) as E.
        rewrite E in Hnz |- *. apply path_step; [done|lia|].
        destruct (wf_entry _ _ _ Hwf0 q (Datatypes.S n) (level_idx (Datatypes.S n) v) HT0
          (level_idx_range _ _)) as [E0|[[E1 E2]|[E0 _]]]; [done| |done].
        assert (walk (vs_ram st0) 4 root v =
          Some (Datatypes.S n, entry (vs_ram st0) q (level_idx (Datatypes.S n) v))) as Hw.
        { rewrite (walk_path _ _ _ _ _ Hold). cbn [walk]. by rewrite E1, E2. }
        apply Hnl in Hw. lia.
      * destruct Hnz. apply Hz, level_idx_range.
Qed.

(** At the end of a descent for an address with no mapping and no lower table, the
    entry is empty. *)
Lemma descent_empty T0 st0 root v k T st q :
  descent T0 st0 root v k T st q -> (1 <= k)%nat ->
  walk (vs_ram st0) 4 root v = None -> (forall q', ~ path (vs_ram st0) root v (k - 1) q') ->
  entry (vs_ram st) q (level_idx k v) = 0.
Proof.
  intros [Hwf0 _ Hg _ [Hp|Hz] _] Hk Hw Hno; [|apply Hz, level_idx_range].
  pose proof (path_table _ _ _ _ _ _ Hwf0 Hp) as HT0.
  rewrite (gr_low _ _ _ _ _ _ _ Hg q k) by (done || lia || apply level_idx_range).
  rewrite (walk_path _ _ _ _ _ Hp) in Hw. destruct k as [|k]; [lia|]. cbn [walk] in Hw.
  destruct (wf_entry _ _ _ Hwf0 q (Datatypes.S k) (level_idx (Datatypes.S k) v) HT0 (level_idx_range _ _))
    as [E|[[E1 E2]|[E _]]]; [done|by rewrite E1, E2 in Hw|].
  destruct k as [|k].
  - unfold is_link, is_leaf in E. cbn in E. by rewrite andb_false_r in E.
  - destruct (Hno (entry_addr (entry (vs_ram st0) q (level_idx (Datatypes.S (Datatypes.S k)) v)))).
    cbn [Nat.sub]. apply path_step; [done|lia|done].
Qed.

(** The address space [st'] is [st] with the level-[k] page of [v] walked to [r]:
    nothing else is translated differently, no memory outside the tables changed,
    and the pages taken from the allocator are new tables, at most one per level
    above [k], and on the path of [v]; removing a page leaves the allocator alone, no link
    above level [k] changes, and no new link leads to an old table. *)
Definition remapped (k : nat) (v : Z) (r : option (nat * Z)) T st st' root : Prop :=
  exists T', as_wf T' st' root /\ T ⊆ T' /\
    (forall v', walk (vs_ram st') 4 root v' =
       if decide (vpn k v' = vpn k v) then r else walk (vs_ram st) 4 root v') /\
    (forall p, pa_is_free (vs_alloc st') p <-> pa_is_free (vs_alloc st) p /\ T' !! p = None) /\
    (forall a, (forall p n, T' !! p = Some n -> ~ p <= a < p + 4096) -> vs_ram st' a = vs_ram st a) /\
    (forall p, pa_managed (vs_alloc st') p <-> pa_managed (vs_alloc st) p) /\
    (size T' <= size T + (4 - k))%nat /\
    (r = None -> vs_alloc st' = vs_alloc st) /\
    (forall p n, T' !! p = Some n -> T !! p = None -> pa_is_free (vs_alloc st) p /\ (k <= n)%nat) /\
    (forall p n j, T !! p = Some n -> (k < n)%nat -> 0 <= j < 512 -> entry (vs_ram st) p j <> 0 ->
       entry (vs_ram st') p j = entry (vs_ram st) p j) /\
    (forall p n, T' !! p = Some n -> T !! p = None -> path (vs_ram st') root v n p) /\
    (forall p n j k', T' !! p = Some n -> 0 <= j < 512 -> is_link n (entry (vs_ram st') p j) = true ->
       T !! entry_addr (entry (vs_ram st') p j) = Some k' -> T !! p = Some n /\ entry (vs_ram st) p j = entry (vs_ram st') p j).

(** The final store of the mapping functions. *)
Lemma store_remapped T0 st0 T st root v k q w :
  descent T0 st0 root v k T st q -> 0 <= w < 2 ^ 64 ->
  w = 0 \/ (present w = true /\ is_leaf k w = true) ->
  (present w = false -> vs_alloc st = vs_alloc st0) ->
  exists st', tbl_set (phys_to_virt q) (level_idx k v) w st = Ok (tt, st') /\
    remapped k v (if present w then Some (k, w) else None) T0 st0 st' root.
Proof.
  intros [Hwf0 Hwf Hg Hp _ Hnew] Hw Hleaf Hal. pose proof (path_table _ _ _ _ _ _ Hwf Hp) as HT.
  pose proof (wf_table _ _ _ Hwf _ _ HT) as (Hq & _ & Hk). pose proof (level_idx_range k v) as Hi.
  rewrite tbl_set_run by done. eexists. split; [done|]. exists T.
  split; [by eapply store_entry_wf|]. split; [apply Hg|]. split; [|split; [|split; [|split; [apply Hg|split; [apply Hg|split; [|split; [apply Hg|split; [|split]]]]]]]].
  - intros v'. rewrite <- (gr_walk _ _ _ _ _ _ _ Hg). cbn [vs_ram].
    apply (walk_store T st root v k q); [done..| | |lia|].
    + intros p n j HTp Hj Hne. apply entry_store_other; try done. by apply (wf_table _ _ _ Hwf _ _ HTp).
    + by apply entry_store_same.
    + destruct Hleaf as [->|[_ ?]]; done.
  - apply Hg.
  - intros a Ha. cbn [vs_ram]. rewrite <- (gr_frame _ _ _ _ _ _ _ Hg a Ha). apply store_out.
    rewrite length_le_bytes. specialize (Ha q k HT). lia.
  - intros E. apply Hal. by destruct (present w).
  - intros p n j Hpn Hkn Hj Hnz. rewrite <- (gr_entry _ _ _ _ _ _ _ Hg p n j) by done. cbn [vs_ram].
    pose proof (lookup_weaken _ _ _ _ Hpn (gr_sub _ _ _ _ _ _ _ Hg)) as HTp.
    pose proof (wf_table _ _ _ Hwf _ _ HTp) as (Hpp & _ & _). apply entry_store_other; try done. intros [= -> _].
    rewrite HT in HTp. injection HTp. lia.
  - intros p n Hpn Hp0. cbn [vs_ram]. eapply (path_change T st root _ q k (level_idx k v)); [done|done| |by eapply Hnew|].
    + intros p1 n1 j HTp Hj Hne. apply entry_store_other; try done. by apply (wf_table _ _ _ Hwf _ _ HTp).
    + by apply (gr_new _ _ _ _ _ _ _ Hg) in Hpn as [_ ?].
  - intros p n j k' Hpn Hj. cbn [vs_ram]. pose proof (wf_table _ _ _ Hwf _ _ Hpn) as (Hpp & _ & _).
    destruct (decide ((p, j) = (q, level_idx k v))) as [[= -> ->]|Hne].
    + rewrite entry_store_same by done. assert (n = k) as -> by congruence. unfold is_link.
      destruct Hleaf as [->|[_ ->]]; [done|]. by rewrite andb_false_r.
    + rewrite entry_store_other by done. by apply (gr_old _ _ _ _ _ _ _ Hg).
Qed.

(** The entry for a frame: its address and flags read back, and it is a page. *)
Lemma leaf_entry k phys flags :
  (1 <= k <= 3)%nat -> frame_ok k phys -> flags_ok flags ->
  (1 < k -> page_size_bit flags = true)%nat ->
  0 <= Z.lor phys flags < 2 ^ 64 /\ present (Z.lor phys flags) = true /\
  is_leaf k (Z.lor phys flags) = true /\ entry_addr (Z.lor phys flags) = phys.
Proof.
  intros Hk [Hp Hm] (Hf & Ha & Hpr) Hps.
  assert (phys mod 4096 = 0) as Hm12.
  { apply Z.mod_divide in Hm; [|apply Z.pow_nonzero; unfold level_shift; lia].
    apply Z.mod_divide; [lia|]. etrans; [|exact Hm]. change 4096 with (2 ^ 12).
    exists (2 ^ (level_shift k - 12)). rewrite <- Z.pow_add_r by (unfold level_shift; lia).
    f_equal. lia. }
  split; [apply lor_range; lia|]. unfold present, page_size_bit in *.
  split; [by rewrite Z.lor_spec, Hpr, orb_true_r|]. split.
  - unfold is_leaf, page_size_bit. destruct (decide (k = 1%nat)) as [->|]; [done|].
    rewrite Z.lor_spec, Hps, orb_true_r by lia. rewrite (bool_decide_eq_true_2 (k < 4)%nat) by lia.
    apply orb_true_r.
  - by apply entry_addr_lor.
Qed.

Lemma is_aligned_pow2 a k : 0 <= k -> a mod 2 ^ k = 0 -> is_aligned a (2 ^ k) = true.
Proof.
  intros Hk Ha. unfold is_aligned. change (2 ^ k - 1) with (Z.pred (2 ^ k)).
  rewrite <- Z.ones_equiv, Z.land_ones, Ha by lia. done.
Qed.

(** The debug guards of the mapping functions pass on aligned arguments. *)
Lemma debug_aligned (d : bool) a n :
  (1 <= n)%nat -> (d = true -> a mod 2 ^ level_shift n = 0) ->
  d && negb (is_aligned a (2 ^ level_shift n)) = false.
Proof.
  intros Hn Ha. destruct d; [|done]. rewrite is_aligned_pow2; [done|unfold level_shift; lia|by apply Ha].
Qed.


(** Flags keep the page-size bit that the large and huge functions add. *)
Lemma flags_ps f : flags_ok f -> flags_ok (Z.lor f 0x80) /\ page_size_bit (Z.lor f 0x80) = true.
Proof.
  intros (Hf & Ha & Hp). unfold flags_ok, present, page_size_bit in *. rewrite !Z.lor_spec, Hp.
  split; [|apply orb_true_r]. split; [apply lor_range; lia|]. split; [|done].
  by rewrite Z.land_lor_distr_l, Ha.
Qed.

(** The preconditions the three mapping functions share: [phys] and [virt] name a
    page of level [k], [virt] is not inside a larger page, and (debug builds panic
    otherwise) [virt] is unmapped. *)
Record can_map (k : nat) T st root phys virt flags : Prop := CanMap {
  cm_wf : as_wf T st root;
  cm_frame : frame_ok k phys;
  cm_flags : flags_ok flags;
  cm_small : forall n e, walk (vs_ram st) 4 root virt = Some (n, e) -> (n <= k)%nat;
  cm_memory : free_at_least (4 - k) st;
  cm_debug : debug = true -> virt mod 2 ^ level_shift k = 0 /\
    walk (vs_ram st) 4 root virt = None /\ (forall q, ~ path (vs_ram st) root virt (k - 1) q);
}.

(** The tail of the mapping functions: check the old entry, store the new one. *)
Lemma map_tail k T0 st0 root phys virt flags T st q :
  (1 <= k <= 3)%nat -> can_map k T0 st0 root phys virt flags ->
  descent T0 st0 root virt k T st q ->
  (1 < k -> page_size_bit flags = true)%nat ->
  exists st', (old ← tbl_get (phys_to_virt q) (level_idx k virt);
    if debug && negb (old =? 0) then panic else
    tbl_set (phys_to_virt q) (level_idx k virt) (Z.lor phys flags)) st = Ok (tt, st') /\
    remapped k virt (Some (k, Z.lor phys flags)) T0 st0 st' root.
Proof.
  intros Hk [Hwf Hfr Hfl Hsm Hmem Hdbg] Hd Hps. pose proof (de_wf _ _ _ _ _ _ _ _ Hd) as Hwf1.
  pose proof (path_table _ _ _ _ _ _ Hwf1 (de_path _ _ _ _ _ _ _ _ Hd)) as HT.
  pose proof (wf_table _ _ _ Hwf1 _ _ HT) as (Hq & _ & _).
  destruct (leaf_entry k phys flags) as (Hw & Hpr & Hlf & _); [done..|].
  rewrite (bind_run _ _ _ _ _ (tbl_get_run st q _ Hq (level_idx_range _ _))).
  assert (debug && negb (entry (vs_ram st) q (level_idx k virt) =? 0) = false) as ->.
  { destruct debug; [|done]. destruct Hdbg as (_ & Hnone & Hnop); [done|].
    by rewrite (descent_empty _ _ _ _ _ _ _ _ Hd) by (done || lia). }
  destruct (store_remapped _ _ _ _ _ _ _ _ (Z.lor phys flags) Hd) as (st' & Hrun & Hre); [done|auto|by rewrite Hpr|].
  rewrite Hpr in Hre. eauto.
Qed.

Lemma can_map_down k T st root phys virt flags n :
  can_map k T st root phys virt flags -> (k <= n <= 3)%nat ->
  free_at_least (4 - n) st /\
  (forall k e, walk (vs_ram st) 4 root virt = Some (k, e) -> (k <= n)%nat).
Proof.
  intros Hc Hn. split.
  - destruct (cm_memory _ _ _ _ _ _ _ Hc) as (l & Hnd & Hl & Hf). exists (take (4 - n) l).
    rewrite <- (take_drop (4 - n) l), NoDup_app in Hnd. split; [apply Hnd|]. split; [rewrite length_take; lia|by apply Forall_take].
  - intros j e E. apply (cm_small _ _ _ _ _ _ _ Hc) in E. lia.
Qed.

(** One descent step of a mapping function, as a rewriting of its run. *)
Lemma map_step k T0 st0 root phys virt flags n T st q (B : Type) (cont : Z -> M (vmm_state S) B) f :
  can_map k T0 st0 root phys virt flags -> descent T0 st0 root virt (Datatypes.S n) T st q ->
  (1 <= k <= n)%nat -> (n <= 3)%nat ->
  exists q' st' T', (vmm_next_table (phys_to_virt q) (level_idx (Datatypes.S n) virt) (table_flags f) ≫= cont) st
      = cont (phys_to_virt q') st' /\ descent T0 st0 root virt n T' st' q'.
Proof.
  intros Hc Hd Hk Hn. destruct (can_map_down _ _ _ _ _ _ _ n Hc ltac:(lia)) as [Hfree Hsmall].
  destruct (descend T0 st0 T st root virt n q (table_flags f)) as (q' & st' & T' & Hrun & Hd');
    [done..|lia|apply table_flags_cases|].
  exists q', st', T'. split; [|done]. by apply bind_run.
Qed.

(** ** Mapping *)

(** The three mapping functions, up to the proofs of the debug guards. *)
Lemma vmm_map_remaps T st root phys virt flags :
  can_map 1 T st root phys virt flags ->
  exists st', vmm_map debug (phys_to_virt root) phys virt flags st = Ok (tt, st') /\
    remapped 1 virt (Some (1%nat, Z.lor phys flags)) T st st' root.
Proof.
  intros Hc. unfold vmm_map. destruct (vmm_idx virt) as (-> & -> & -> & ->).
  change VMM_DEFAULT_PAGE_SIZE with (2 ^ level_shift 1).
  rewrite !debug_aligned by (try lia; intros Hd; apply (cm_debug _ _ _ _ _ _ _ Hc Hd) || apply Hc).
  pose proof (descent_start T st root virt (cm_wf _ _ _ _ _ _ _ Hc)) as Hd4.
  edestruct (map_step 1 T st root phys virt flags 3) as (q3 & st3 & T3 & -> & Hd3); [done..|lia|lia|].
  edestruct (map_step 1 T st root phys virt flags 2) as (q2 & st2 & T2 & -> & Hd2); [done..|lia|lia|].
  edestruct (map_step 1 T st root phys virt flags 1) as (q1 & st1 & T1 & -> & Hd1); [done..|lia|lia|].
  eapply map_tail; [lia|done|done|lia].
Qed.

Lemma can_map_ps k T st root phys virt flags :
  can_map k T st root phys virt flags -> can_map k T st root phys virt (Z.lor flags 0x80).
Proof. intros []. split; try done. by apply flags_ps. Qed.

Lemma land_80 e : Z.land e 0x80 = 0 <-> page_size_bit e = false.
Proof.
  unfold page_size_bit. split; intros E.
  - apply (f_equal (fun x => Z.testbit x 7)) in E. rewrite Z.land_spec, Z.bits_0 in E.
    by rewrite andb_true_r in E.
  - apply Z.bits_inj'. intros j Hj. rewrite Z.land_spec, Z.bits_0. change 0x80 with (2 ^ 7).
    rewrite Z.pow2_bits_eqb by lia. destruct (Z.eqb_spec 7 j) as [<-|]; [by rewrite E|].
    apply andb_false_r.
Qed.

(** A link at level 2 or 3 has no page-size bit. *)
Lemma link_no_ps n e : (2 <= n <= 3)%nat -> is_link n e = true -> Z.land e 0x80 = 0.
Proof.
  intros Hn Hl. apply land_80. unfold is_link, is_leaf in Hl.
  rewrite (bool_decide_eq_false_2 (n = 1%nat)), (bool_decide_eq_true_2 (n < 4)%nat) in Hl by lia.
  apply andb_true_iff in Hl as [_ Hl]. by apply negb_true_iff in Hl.
Qed.

Lemma check_table_passes T0 st0 root v T st q :
  descent T0 st0 root v 3 T st q ->
  (forall n e, walk (vs_ram st0) 4 root v = Some (n, e) -> (n <= 2)%nat) ->
  vmm_check_table debug (phys_to_virt q) (level_idx 3 v) st = Ok (tt, st).
Proof.
  intros [_ Hwf Hg Hp _ _] Hsm. pose proof (path_table _ _ _ _ _ _ Hwf Hp) as HT.
  pose proof (wf_table _ _ _ Hwf _ _ HT) as (Hq & _ & _). unfold vmm_check_table.
  rewrite (bind_run _ _ _ _ _ (tbl_get_run st q _ Hq (level_idx_range _ _))).
  assert (Z.land (entry (vs_ram st) q (level_idx 3 v)) VMM_PD_LARGE_FLAGS = 0) as ->; [|by rewrite andb_false_r].
  destruct (wf_entry _ _ _ Hwf q 3 (level_idx 3 v) HT (level_idx_range _ _)) as [->|[[E1 E2]|[E _]]];
    [done| |by apply (link_no_ps 3); [lia|]].
  assert (walk (vs_ram st0) 4 root v = Some (3%nat, entry (vs_ram st) q (level_idx 3 v))) as Hw.
  { rewrite <- (gr_walk _ _ _ _ _ _ _ Hg), (walk_path _ _ _ _ _ Hp). cbn [walk]. by rewrite E1, E2. }
  apply Hsm in Hw. lia.
Qed.

Lemma vmm_map_large_remaps T st root phys virt flags :
  can_map 2 T st root phys virt flags ->
  exists st', vmm_map_large debug (phys_to_virt root) phys virt flags st = Ok (tt, st') /\
    remapped 2 virt (Some (2%nat, Z.lor phys (Z.lor flags VMM_PD_LARGE_FLAGS))) T st st' root.
Proof.
  intros Hc. unfold vmm_map_large. destruct (vmm_idx virt) as (-> & -> & -> & _).
  change VMM_LARGE_PAGE_SIZE with (2 ^ level_shift 2).
  rewrite !debug_aligned by (try lia; intros Hd; apply (cm_debug _ _ _ _ _ _ _ Hc Hd) || apply Hc).
  pose proof (descent_start T st root virt (cm_wf _ _ _ _ _ _ _ Hc)) as Hd4.
  edestruct (map_step 2 T st root phys virt flags 3) as (q3 & st3 & T3 & -> & Hd3); [done..|lia|lia|].
  rewrite (bind_run _ _ _ _ _ (check_table_passes _ _ _ _ _ _ _ Hd3 (cm_small _ _ _ _ _ _ _ Hc))).
  edestruct (map_step 2 T st root phys virt flags 2) as (q2 & st2 & T2 & -> & Hd2); [done..|lia|lia|].
  eapply map_tail; [lia|by apply can_map_ps|done|]. intros _. apply flags_ps, Hc.
Qed.

Lemma vmm_map_huge_remaps T st root phys virt flags :
  can_map 3 T st root phys virt flags ->
  exists st', vmm_map_huge debug (phys_to_virt root) phys virt flags st = Ok (tt, st') /\
    remapped 3 virt (Some (3%nat, Z.lor phys (Z.lor flags VMM_PDPT_HUGE_FLAGS))) T st st' root.
Proof.
  intros Hc. unfold vmm_map_huge. destruct (vmm_idx virt) as (-> & -> & _ & _).
  change VMM_HUGE_PAGE_SIZE with (2 ^ level_shift 3).
  rewrite !debug_aligned by (try lia; intros Hd; apply (cm_debug _ _ _ _ _ _ _ Hc Hd) || apply Hc).
  pose proof (descent_start T st root virt (cm_wf _ _ _ _ _ _ _ Hc)) as Hd4.
  edestruct (map_step 3 T st root phys virt flags 3) as (q3 & st3 & T3 & -> & Hd3); [done..|lia|lia|].
  eapply map_tail; [lia|by apply can_map_ps|done|]. intros _. apply flags_ps, Hc.
Qed.

(** ** Unmapping *)

(** Following a link of the path. *)
Lemma follow_run T st root v n q q' ps (B : Type) (cont : Z -> M (vmm_state S) B) :
  as_wf T st root -> path (vs_ram st) root v (Datatypes.S n) q -> path (vs_ram st) root v n q' ->
  (1 <= n)%nat -> ps = 0 \/ (ps = 0x80 /\ (n <= 2)%nat) ->
  (vmm_follow debug (phys_to_virt q) (level_idx (Datatypes.S n) v) ps ≫= cont) st
    = cont (phys_to_virt q') st.
Proof.
  intros Hwf Hq Hq' Hn Hps. pose proof (path_table _ _ _ _ _ _ Hwf Hq) as HT.
  pose proof (wf_table _ _ _ Hwf _ _ HT) as (Hqp & _ & H4).
  apply bind_run. unfold vmm_follow.
  rewrite (bind_run _ _ _ _ _ (tbl_get_run st q _ Hqp (level_idx_range _ _))).
  inversion Hq' as [|n' p' Hp'' Hk' Hl E1 E2]; subst; [lia|].
  rewrite (path_det _ _ _ _ _ _ Hp'' Hq) in *. set (e := entry _ _ _) in *.
  rewrite (proj2 (Z.eqb_neq e 0)) by (intros E; rewrite E in Hl; done).
  assert (Z.land e ps = 0) as ->; [|by rewrite andb_false_r].
  destruct Hps as [->|[-> ?]]; [apply Z.land_0_r|]. apply (link_no_ps (Datatypes.S n)); [lia|done].
Qed.

(** The leaf entry of a mapped address read by its table index. *)
Lemma leaf_run T st root v k e q (B : Type) (cont : Z -> M (vmm_state S) B) :
  as_wf T st root -> walk (vs_ram st) 4 root v = Some (k, e) -> path (vs_ram st) root v k q ->
  (tbl_get (phys_to_virt q) (level_idx k v) ≫= cont) st = cont e st.
Proof.
  intros Hwf Hw Hp. destruct (walk_Some_path _ _ _ _ _ 4 root (path_root _ _ _) Hw)
    as (_ & _ & q' & Hq' & He & _). rewrite (path_det _ _ _ _ _ _ Hp Hq').
  pose proof (path_table _ _ _ _ _ _ Hwf Hq') as HT.
  pose proof (wf_table _ _ _ Hwf _ _ HT) as (Hqp & _ & _).
  rewrite (bind_run _ _ _ _ _ (tbl_get_run st q' _ Hqp (level_idx_range _ _))). by rewrite He.
Qed.

(** Clearing the leaf entry of a mapped address. *)
Lemma clear_remapped T st root v k q :
  as_wf T st root -> path (vs_ram st) root v k q ->
  exists st', tbl_set (phys_to_virt q) (level_idx k v) 0 st = Ok (tt, st') /\
    remapped k v None T st st' root.
Proof.
  intros Hwf Hp. destruct (store_remapped T st T st root v k q 0) as (st' & ? & ?); [|done|by left|done|eauto].
  pose proof (path_le4 _ _ _ _ _ Hp).
  split; try done; [|by left|by intros p n' ->]. eapply grows_weaken, grows_refl; [lia|lia|done].
Qed.

Lemma not_zero_present e : present e = true -> (e =? 0) = false.
Proof. intros He. apply Z.eqb_neq. by intros ->. Qed.

Lemma leaf_has_ps k e : (2 <= k)%nat -> is_leaf k e = true -> (Z.land e 0x80 =? 0) = false.
Proof.
  intros Hk El. apply Z.eqb_neq. intros E%land_80. unfold is_leaf in El.
  rewrite E, andb_false_r, (bool_decide_eq_false_2 (k = 1%nat)) in El by lia. done.
Qed.

(** A mapped page: the tables on the way to its entry. *)
Lemma page_path T st root virt e : as_wf T st root -> walk (vs_ram st) 4 root virt = Some (1%nat, e) ->
  exists q3 q2 q1, path (vs_ram st) root virt 3 q3 /\ path (vs_ram st) root virt 2 q2 /\ path (vs_ram st) root virt 1 q1 /\ present e = true.
Proof.
  intros Hwf Hw. destruct (walk_Some_path _ _ _ _ _ 4 root (path_root _ _ _) Hw) as (_ & Hall & _ & _ & _ & Hpr & _).
  destruct (Hall 3%nat ltac:(lia)) as [q3 H3], (Hall 2%nat ltac:(lia)) as [q2 H2], (Hall 1%nat ltac:(lia)) as [q1 H1]. eauto 10.
Qed.

Lemma vmm_unmap_run T st root virt e q1 :
  as_wf T st root -> walk (vs_ram st) 4 root virt = Some (1%nat, e) -> path (vs_ram st) root virt 1 q1 ->
  (debug = true -> virt mod 2 ^ level_shift 1 = 0) ->
  vmm_unmap debug (phys_to_virt root) virt st = tbl_set (phys_to_virt q1) (level_idx 1 virt) 0 st.
Proof.
  intros Hwf Hw H1 Hal. destruct (page_path T st root virt e Hwf Hw) as (q3 & q2 & q1' & H3 & H2 & H1' & Hpr).
  assert (q1' = q1) as -> by (by eapply path_det).
  unfold vmm_unmap. destruct (vmm_idx virt) as (-> & -> & -> & ->).
  change VMM_DEFAULT_PAGE_SIZE with (2 ^ level_shift 1). rewrite debug_aligned by (done || lia).
  rewrite (follow_run T _ root virt 3 root q3), (follow_run T _ root virt 2 q3 q2),
    (follow_run T _ root virt 1 q2 q1), (leaf_run T _ root virt 1 e q1)
    by first [done|lia|apply path_root|by left|by right; split; [done|lia]].
  by rewrite not_zero_present, andb_false_r by done.
Qed.

Lemma vmm_unmap_remaps T st root virt e :
  as_wf T st root -> walk (vs_ram st) 4 root virt = Some (1%nat, e) ->
  (debug = true -> virt mod 2 ^ level_shift 1 = 0) ->
  exists st', vmm_unmap debug (phys_to_virt root) virt st = Ok (tt, st') /\
    remapped 1 virt None T st st' root.
Proof.
  intros Hwf Hw Hal. destruct (page_path T st root virt e Hwf Hw) as (q3 & q2 & q1 & _ & _ & H1 & _).
  rewrite (vmm_unmap_run T st root virt e q1) by done. by apply clear_remapped.
Qed.

(** [vmm_free] reads each link of the path and checks that it is present. *)
Lemma present_land e : present e = true -> (Z.land e 1 =? 0) = false.
Proof.
  intros He. apply Z.eqb_neq. intros E. unfold present in He. apply (f_equal (fun x => Z.testbit x 0)) in E.
  rewrite Z.land_spec, He in E. done.
Qed.

Lemma phys_to_virt_nonzero p : is_page p -> (phys_to_virt p =? 0) = false.
Proof.
  intros [Hp _]. apply Z.eqb_neq. unfold phys_to_virt, PMM_HHDM_START. rewrite u64_id by lia. lia.
Qed.

Lemma link_run T st root v n q q' (B : Type) (cont : Z -> M (vmm_state S) B) :
  as_wf T st root -> path (vs_ram st) root v (Datatypes.S n) q -> path (vs_ram st) root v n q' -> (1 <= n)%nat ->
  exists e, (tbl_get (phys_to_virt q) (level_idx (Datatypes.S n) v) ≫= cont) st = cont e st /\
    Z.land e VMM_PTE_ADDR_MASK = q' /\ (phys_to_virt q' =? 0) = false /\ (Z.land e 1 =? 0) = false /\ ((n <= 2)%nat -> Z.land e 0x80 = 0).
Proof.
  intros Hwf Hq Hq' Hn. pose proof (path_table _ _ _ _ _ _ Hwf Hq) as HT.
  pose proof (wf_table _ _ _ Hwf _ _ HT) as (Hqp & _ & H4).
  pose proof (wf_table _ _ _ Hwf _ _ (path_table _ _ _ _ _ _ Hwf Hq')) as (Hqp' & _).
  inversion Hq' as [|n' p' Hp'' Hk' Hl E1 E2]; subst; [lia|].
  rewrite (path_det _ _ _ _ _ _ Hp'' Hq) in *. set (e := entry _ _ _) in *. exists e.
  rewrite (bind_run _ _ _ _ _ (tbl_get_run st q _ Hqp (level_idx_range _ _))). split; [done|].
  split; [done|]. split; [by apply phys_to_virt_nonzero|]. split.
  - apply present_land. unfold is_link in Hl. by apply andb_true_iff in Hl as [? _].
  - intros Hn2. apply (link_no_ps (Datatypes.S n)); [lia|done].
Qed.

Lemma vmm_free_run T st root virt e q1 :
  as_wf T st root -> walk (vs_ram st) 4 root virt = Some (1%nat, e) -> path (vs_ram st) root virt 1 q1 ->
  vmm_free (phys_to_virt root) virt st =
    (_ ← with_alloc (pa_free (entry_addr e)); tbl_set (phys_to_virt q1) (level_idx 1 virt) 0) st.
Proof.
  intros Hwf Hw H1. destruct (page_path T st root virt e Hwf Hw) as (q3 & q2 & q1' & H3 & H2 & H1' & Hpr).
  assert (q1' = q1) as -> by (by eapply path_det). unfold vmm_free. destruct (vmm_idx virt) as (-> & -> & -> & ->).
  edestruct (link_run T st root virt 3 root q3 unit) as (e4 & -> & -> & -> & E4 & _); [done|apply path_root|done|lia|].
  unfold VMM_FLAGS_PRESENT. rewrite E4. cbn [orb].
  edestruct (link_run T st root virt 2 q3 q2 unit) as (e3 & -> & -> & -> & E3 & P3); [done..|lia|].
  unfold VMM_PDPT_HUGE_FLAGS. rewrite P3, E3 by lia. cbn [orb negb Z.eqb].
  edestruct (link_run T st root virt 1 q2 q1 unit) as (e2 & -> & -> & E1 & _ & P2); [done..|lia|].
  unfold VMM_PD_LARGE_FLAGS. rewrite P2 by lia. cbn [negb Z.eqb].
  rewrite (leaf_run T st root virt 1 e q1) by done. by rewrite E1, present_land by done.
Qed.

Lemma vmm_unmap_large_remaps T st root virt e :
  as_wf T st root -> walk (vs_ram st) 4 root virt = Some (2%nat, e) ->
  (debug = true -> virt mod 2 ^ level_shift 2 = 0) ->
  exists st', vmm_unmap_large debug (phys_to_virt root) virt st = Ok (tt, st') /\
    remapped 2 virt None T st st' root.
Proof.
  intros Hwf Hw Hal. destruct (walk_Some_path _ _ _ _ _ 4 root (path_root _ _ _) Hw)
    as (_ & Hall & _ & _ & _ & Hpr & Hlf).
  destruct (Hall 3%nat ltac:(lia)) as [q3 H3], (Hall 2%nat ltac:(lia)) as [q2 H2].
  unfold vmm_unmap_large. destruct (vmm_idx virt) as (-> & -> & -> & _).
  change VMM_LARGE_PAGE_SIZE with (2 ^ level_shift 2). rewrite debug_aligned by (done || lia).
  rewrite (follow_run T _ root virt 3 root q3), (follow_run T _ root virt 2 q3 q2),
    (leaf_run T _ root virt 2 e q2) by first [done|lia|apply path_root|by left].
  change VMM_PD_LARGE_FLAGS with 0x80. rewrite (leaf_has_ps 2) by (done || lia).
  rewrite not_zero_present, andb_false_r by done. by apply clear_remapped.
Qed.

Lemma vmm_unmap_huge_remaps T st root virt e :
  as_wf T st root -> walk (vs_ram st) 4 root virt = Some (3%nat, e) ->
  (debug = true -> virt mod 2 ^ level_shift 3 = 0) ->
  exists st', vmm_unmap_huge debug (phys_to_virt root) virt st = Ok (tt, st') /\
    remapped 3 virt None T st st' root.
Proof.
  intros Hwf Hw Hal. destruct (walk_Some_path _ _ _ _ _ 4 root (path_root _ _ _) Hw)
    as (_ & Hall & _ & _ & _ & Hpr & Hlf). destruct (Hall 3%nat ltac:(lia)) as [q3 H3].
  unfold vmm_unmap_huge. destruct (vmm_idx virt) as (-> & -> & _ & _).
  change VMM_HUGE_PAGE_SIZE with (2 ^ level_shift 3). rewrite debug_aligned by (done || lia).
  rewrite (follow_run T _ root virt 3 root q3), (leaf_run T _ root virt 3 e q3)
    by first [done|lia|apply path_root|by left].
  change VMM_PDPT_HUGE_FLAGS with 0x80. rewrite (leaf_has_ps 3) by (done || lia).
  rewrite not_zero_present, andb_false_r by done. by apply clear_remapped.
Qed.

(** ** Fresh address spaces *)

Lemma fresh_wf al m p :
  pa_wf al -> mem_ok m -> is_page p -> ~ pa_is_free al p ->
  as_wf {[p := 4%nat]} (VmmState al (fill m p 4096 0)) p.
Proof.
  intros Hal Hm Hp Hnf. assert (forall q n i, ({[p := 4%nat]} : gmap Z nat) !! q = Some n -> 0 <= i < 512 ->
    entry (fill m p 4096 0) q i = 0) as Hz.
  { intros q n i [<- _]%lookup_singleton_Some Hi. by apply entry_fill_in. }
  split; cbn [vs_alloc vs_ram].
  - done.
  - by apply fill_ok.
  - apply lookup_singleton_eq.
  - intros q n [<- <-]%lookup_singleton_Some. split; [done|]. split; [done|lia].
  - intros q n i Hq Hi. left. by apply (Hz q n).
  - intros q n i q' n' i' Hq Hq' _ _ Hi Hi' Hl. by rewrite (Hz q n) in Hl.
Qed.

Lemma walk_fresh m p v : walk (fill m p 4096 0) 4 p v = None.
Proof. cbn [walk]. rewrite entry_fill_in by apply level_idx_range. done. Qed.
End proofs.
