(* ===== verification/VmmTheorems.v ===== *)
(** * Properties of the virtual memory manager

    The theorems about [vmm_map], [vmm_unmap] and their variants, each for any page
    allocator and for debug and release builds, with witnesses on a 64-page machine
    managed by [Pmm]. *)
From S2P Require Import Prelude Common Memory Bitmap Interfaces Pmm Vmm PageTables VmmProofs.
From Stdlib Require Import ZArith Lia.
From stdpp Require Import base tactics list numbers gmap.

Open Scope Z_scope.

(** ** The sample machine: 64 pages, page 0 reserved, page 1 an empty PML4 *)

#[local] Instance sample_allocator : PageAllocator pmm_state := pmm_page_allocator true.

Definition sample_pmm : pmm_state := PmmState [3; 0; 0; 0; 0; 0; 0; 0] 8.
Definition sample_root : Z := 0x1000.
Definition sample_state : vmm_state pmm_state :=
  VmmState sample_pmm (fill (fun _ => 0) sample_root 4096 0).

Lemma sample_pmm_wf : pmm_wf sample_pmm.
Proof. split; [apply (bool_decide_unpack _); vm_compute; exact I|]. vm_compute. intuition congruence. Qed.

Lemma sample_wf : as_wf {[sample_root := 4%nat]} sample_state sample_root.
Proof.
  apply (fresh_wf (S := pmm_state)).
  - apply sample_pmm_wf.
  - intros a. vm_compute. intuition congruence.
  - vm_compute. intuition congruence.
  - intros (i & Hi & E & Hb). unfold sample_root, PAGE_SIZE in E. assert (i = 1) as -> by lia. done.
Qed.

Lemma sample_free c : (c <= 3)%nat -> free_at_least c sample_state.
Proof.
  intros Hc. exists (take c [0x2000; 0x3000; 0x4000]).
  assert (NoDup [0x2000; 0x3000; 0x4000]) as Hnd.
  { apply (bool_decide_unpack _). vm_compute. exact I. }
  rewrite <- (take_drop c [0x2000; 0x3000; 0x4000]), NoDup_app in Hnd. split; [apply Hnd|].
  split; [rewrite length_take; cbn; lia|]. apply Forall_take.
  repeat (apply Forall_cons_2; [|]); [| | |constructor];
    [exists 2|exists 3|exists 4]; (split; [vm_compute; intuition congruence|done]).
Qed.

Lemma sample_can_map k phys virt flags :
  (1 <= k <= 3)%nat -> frame_ok k phys -> flags_ok flags -> virt mod 2 ^ level_shift k = 0 ->
  can_map true k {[sample_root := 4%nat]} sample_state sample_root phys virt flags.
Proof.
  intros Hk Hf Hfl Hv. pose proof (walk_fresh (fun _ => 0) sample_root) as Hw. split; try done.
  - apply sample_wf.
  - intros n e E. cbn [vs_ram sample_state] in E. by rewrite Hw in E.
  - apply sample_free. lia.
  - intros _. split; [done|]. split; [apply Hw|]. intros q Hq.
    pose proof (path_table _ _ _ _ _ _ sample_wf Hq) as [_ E]%lookup_singleton_Some. lia.
Qed.

(** ** Properties *)

Section theorems.
Context {S : Type} `{PageAllocator S} (debug : bool).

(** C1: [vmm_map] with at least three free pages succeeds on any well-formed
    address space: the page of [virt] then translates to [phys] with [flags], every
    other address translates as before, the tables still form a well-formed tree,
    no byte outside the tables changes, and the pages taken from the allocator are
    exactly the new tables. *)
Theorem vmm_map_correct (T : gmap Z nat) (st : vmm_state S) (root phys virt flags : Z)
  (Hmap : can_map debug 1 T st root phys virt flags) :
  exists st', vmm_map debug (phys_to_virt root) phys virt flags st = Ok (tt, st') /\
    remapped 1 virt (Some (1%nat, Z.lor phys flags)) T st st' root /\
    (forall v, vpn 1 v = vpn 1 virt ->
       translate (vs_ram st') root v = Some (phys + v mod 4096)).
Proof.
  destruct (vmm_map_remaps debug T st root phys virt flags Hmap) as (st' & Hrun & Hre).
  exists st'. split; [done|]. split; [done|]. intros v Hv. destruct Hre as (T' & _ & _ & Hw & _).
  unfold translate. rewrite Hw, decide_True by done.
  destruct (leaf_entry 1 phys flags) as (_ & _ & _ & Ha); [lia|apply Hmap|apply Hmap|lia|].
  change (2 ^ level_shift 1) with 4096. cbv [mbind option_bind]. rewrite Ha.
  destruct (cm_frame _ _ _ _ _ _ _ _ Hmap) as [Hp Hm]. change (2 ^ level_shift 1) with 4096 in Hm.
  pose proof (Z.div_mod phys 4096). f_equal. change (2 ^ level_shift 1) with 4096. lia.
Qed.

(** [vmm_map_large] and [vmm_map_huge] install one 2 MiB or 1 GiB page: exactly
    the addresses of that page are walked to the new entry. *)
Theorem vmm_map_large_huge_correct (T : gmap Z nat) (st : vmm_state S) (root phys virt flags : Z) :
  (can_map debug 2 T st root phys virt flags ->
   exists st', vmm_map_large debug (phys_to_virt root) phys virt flags st = Ok (tt, st') /\
     remapped 2 virt (Some (2%nat, Z.lor phys (Z.lor flags VMM_PD_LARGE_FLAGS))) T st st' root) /\
  (can_map debug 3 T st root phys virt flags ->
   exists st', vmm_map_huge debug (phys_to_virt root) phys virt flags st = Ok (tt, st') /\
     remapped 3 virt (Some (3%nat, Z.lor phys (Z.lor flags VMM_PDPT_HUGE_FLAGS))) T st st' root).
Proof. split; [apply vmm_map_large_remaps|apply vmm_map_huge_remaps]. Qed.

(** C34: the unmapping functions remove exactly the page of [virt], at the size it is
    mapped with, and keep the tree well formed. *)
Theorem vmm_unmap_correct (T : gmap Z nat) (st : vmm_state S) (root virt e : Z) (k : nat)
  (Hwf : as_wf T st root) (Hmapped : walk (vs_ram st) 4 root virt = Some (k, e))
  (Haligned : debug = true -> virt mod 2 ^ level_shift k = 0) :
  exists st', (match k with
               | 1%nat => vmm_unmap debug (phys_to_virt root) virt
               | 2%nat => vmm_unmap_large debug (phys_to_virt root) virt
               | _ => vmm_unmap_huge debug (phys_to_virt root) virt
               end) st = Ok (tt, st') /\
    remapped k virt None T st st' root.
Proof.
  destruct (walk_Some_path _ _ _ _ _ 4 root (path_root _ _ _) Hmapped) as (Hk & _ & _ & _ & _ & _ & Hl).
  destruct k as [|[|[|[|[|k]]]]]; [lia|by eapply vmm_unmap_remaps|by eapply vmm_unmap_large_remaps|
    by eapply vmm_unmap_huge_remaps|done|lia].
Qed.
End theorems.

Lemma vmm_map_correct_witness :
  exists st', vmm_map true (phys_to_virt sample_root) 0x30000 0x400000 7 sample_state = Ok (tt, st') /\
    remapped 1 0x400000 (Some (1%nat, 0x30007)) {[sample_root := 4%nat]} sample_state st' sample_root /\
    (forall v, vpn 1 v = vpn 1 0x400000 ->
       translate (vs_ram st') sample_root v = Some (0x30000 + v mod 4096)).
Proof.
  apply (vmm_map_correct true {[sample_root := 4%nat]} sample_state sample_root 0x30000 0x400000 7).
  apply sample_can_map; [lia|vm_compute; intuition congruence..].
Defined.

Lemma vmm_map_large_huge_correct_witness :
  exists st', vmm_map_large true (phys_to_virt sample_root) 0x200000 0x400000 7 sample_state = Ok (tt, st') /\
    remapped 2 0x400000 (Some (2%nat, 0x200087)) {[sample_root := 4%nat]} sample_state st' sample_root.
Proof.
  apply (vmm_map_large_huge_correct true {[sample_root := 4%nat]} sample_state sample_root 0x200000 0x400000 7).
  apply sample_can_map; [lia|vm_compute; intuition congruence..].
Defined.

(** A mapped page of the sample machine: the state after one [vmm_map]. *)
Lemma vmm_unmap_correct_witness :
  exists T st st', walk (vs_ram st) 4 sample_root 0x400000 = Some (1%nat, 0x30007) /\
    vmm_unmap true (phys_to_virt sample_root) 0x400000 st = Ok (tt, st') /\
    remapped 1 0x400000 None T st st' sample_root.
Proof.
  destruct (vmm_map_remaps true {[sample_root := 4%nat]} sample_state sample_root 0x30000 0x400000 7)
    as (st1 & _ & T1 & Hwf & _ & Hw & _).
  { apply sample_can_map; [lia|vm_compute; intuition congruence..]. }
  specialize (Hw 0x400000). rewrite decide_True in Hw by done.
  destruct (vmm_unmap_correct true T1 st1 sample_root 0x400000 _ 1 Hwf Hw) as (st2 & Hrun & Hre); [done|].
  exists T1, st1, st2. split; [exact Hw|]. split; [exact Hrun|exact Hre].
Defined.
