(* ===== verification/KernelMemory.v ===== *)
(** * Kernel memory as the heap sees it

    The slab allocator takes pages from [pmm_alloc], maps them with [vmm_map] into
    its own virtual region and then uses plain pointers into it.  [KernelMemory]
    states what such a client relies on: loads and stores through mapped pages, stores
    to a frame through the direct map, allocation,
    mapping, unmapping and freeing, each with its effect on a [window] (the pages
    mapped in the region, the frames the client owns, the bytes it sees, and how
    many pages are known to be free).  [vmm_kernel_memory] discharges the interface
    with the page tables of [Vmm] and any page allocator: an access goes through
    the hardware walk of [PageTables]. *)
From S2P Require Import Prelude Common Memory Interfaces Bitmap Pmm Vmm PageTables VmmProofs VmmTheorems.
From Stdlib Require Import ZArith Lia.
From stdpp Require Import base tactics list numbers gmap.

Open Scope Z_scope.

(** The virtual region of the heap ([include/kernel/slab.h]). *)
Definition SLAB_VIRT_START : Z := 0xFFFF900000000000.
Definition SLAB_VIRT_SIZE : Z := 0x10000000000.
Definition SLAB_VIRT_END : Z := SLAB_VIRT_START + SLAB_VIRT_SIZE.

(** A range of virtual pages that one client has for itself. *)
Definition in_region (lo hi a : Z) : Prop := lo <= a < hi.
Definition page_region (lo hi : Z) : Prop :=
  0 <= lo /\ hi <= 2 ^ 64 /\ hi - lo <= 2 ^ 48 /\ lo mod 4096 = 0 /\ hi mod 4096 = 0.

(** The page an address lies in. *)
Definition page_of (a : Z) : Z := a - a mod 4096.

Record window := Window {
  w_pages : gmap Z Z;
  w_owned : gset Z;
  w_view : mem;
  w_budget : nat;
}.

(** An address in a mapped page whose frame the client owns. *)
Definition mapped (w : window) (a : Z) : Prop :=
  exists p, w_pages w !! page_of a = Some p /\ p ∈ w_owned w.

Definition mapped_range (w : window) (a n : Z) : Prop := forall x, a <= x < a + n -> mapped w x.

(** Every mapped frame is owned: false only between freeing a frame and unmapping it. *)
Definition settled (w : window) : Prop := forall v p, w_pages w !! v = Some p -> p ∈ w_owned w.

Definition set_view (w : window) (m : mem) : window := Window (w_pages w) (w_owned w) m (w_budget w).

Class KernelMemory (lo hi : Z) (H : Type) := {
  km_load : Z -> nat -> M H (list Z);
  km_store : Z -> list Z -> M H unit;
  km_poke : Z -> list Z -> M H unit;
  km_alloc : M H Z;
  km_free : Z -> M H unit;
  km_map : Z -> Z -> Z -> M H unit;
  km_unmap : Z -> M H unit;
  km_rep : H -> window -> Prop;
  km_inj : forall h w v v' p, km_rep h w -> w_pages w !! v = Some p -> w_pages w !! v' = Some p -> v = v';
  km_load_ok : forall h w a n, km_rep h w -> mapped_range w a (Z.of_nat n) ->
    km_load a n h = Ok (load (w_view w) a n, h);
  km_store_ok : forall h w a bs, km_rep h w -> mapped_range w a (Z.of_nat (length bs)) ->
    bytes_ok bs -> exists h', km_store a bs h = Ok (tt, h') /\ km_rep h' (set_view w (store (w_view w) a bs));
  km_poke_ok : forall h w v p off bs, km_rep h w -> w_pages w !! v = Some p -> p ∈ w_owned w ->
    0 <= off -> off + Z.of_nat (length bs) <= 4096 -> bytes_ok bs ->
    exists h', km_poke (p + off) bs h = Ok (tt, h') /\ km_rep h' (set_view w (store (w_view w) (v + off) bs));
  km_alloc_ok : forall h w, km_rep h w -> settled w -> (1 <= w_budget w)%nat ->
    exists p h', km_alloc h = Ok (p, h') /\ is_page p /\ p ∉ w_owned w /\
      km_rep h' (Window (w_pages w) ({[p]} ∪ w_owned w) (w_view w) (w_budget w - 1));
  km_map_ok : forall h w p v f, km_rep h w -> settled w -> p ∈ w_owned w -> flags_ok f ->
    (forall v', w_pages w !! v' <> Some p) -> in_region lo hi v -> v mod 4096 = 0 -> w_pages w !! v = None ->
    (3 <= w_budget w)%nat ->
    exists h' m, km_map p v f h = Ok (tt, h') /\
      (forall a, page_of a <> v -> m a = w_view w a) /\
      km_rep h' (Window (<[v := p]> (w_pages w)) (w_owned w) m (w_budget w - 3));
  km_free_ok : forall h w p, km_rep h w -> p ∈ w_owned w ->
    exists h', km_free p h = Ok (tt, h') /\
      km_rep h' (Window (w_pages w) (w_owned w ∖ {[p]}) (w_view w) (w_budget w + 1));
  km_unmap_ok : forall h w v p, km_rep h w -> w_pages w !! v = Some p ->
    exists h', km_unmap v h = Ok (tt, h') /\
      km_rep h' (Window (delete v (w_pages w)) (w_owned w) (w_view w) (w_budget w));
}.

(** ** Accesses through the page tables *)
Section access.
Context {S : Type}.

Definition vm_load (root a : Z) (n : nat) : M (vmm_state S) (list Z) := fun st =>
  match mapM (fun i => translate (vs_ram st) root (u64 (a + Z.of_nat i))) (seq 0 n) with
  | Some ps => Ok (vs_ram st <$> ps, st)
  | None => Fault
  end.

Definition vm_store (root a : Z) (bs : list Z) : M (vmm_state S) unit := fun st =>
  match mapM (fun i => translate (vs_ram st) root (u64 (a + Z.of_nat i))) (seq 0 (length bs)) with
  | Some ps => Ok (tt, VmmState (vs_alloc st) (foldl (fun m '(p, b) => upd m p b) (vs_ram st) (zip ps bs)))
  | None => Fault
  end.

(** A store to physical memory through the direct map. *)
Definition phys_store (a : Z) (bs : list Z) : M (vmm_state S) unit := fun st =>
  Ok (tt, VmmState (vs_alloc st) (store (vs_ram st) a bs)).
End access.

(** ** The page tables implement the interface *)

Lemma page_of_mod a : page_of a mod 4096 = 0.
Proof. unfold page_of. dlia. Qed.

Lemma page_of_split a : a = page_of a + a mod 4096.
Proof. unfold page_of. lia. Qed.

Lemma page_of_aligned v o : v mod 4096 = 0 -> 0 <= o < 4096 -> page_of (v + o) = v.
Proof. intros. unfold page_of. dlia. Qed.

(** Two addresses of the region have the same page number exactly when they are in
    the same page. *)
Lemma region_vpn lo hi a b : page_region lo hi -> in_region lo hi a -> in_region lo hi b ->
  vpn 1 a = vpn 1 b -> page_of a = page_of b.
Proof.
  intros (Hlo0 & _ & Hlen & Hlo & _) Ha Hb. unfold in_region, vpn, page_of in *.
  change (2 ^ level_shift 1) with 4096. change (2 ^ (9 * (5 - Z.of_nat 1))) with 0x1000000000. dlia.
Qed.

Lemma vpn_page_of a : vpn 1 (page_of a) = vpn 1 a.
Proof. unfold vpn, page_of. change (2 ^ level_shift 1) with 4096. f_equal. dlia. Qed.

(** Addresses of one page are walked alike. *)
Lemma walk_idx m v v' : forall n p,
  (forall k, (1 <= k <= n)%nat -> level_idx k v = level_idx k v') -> walk m n p v = walk m n p v'.
Proof.
  induction n as [|n IH]; intros p Hi; [done|]. cbn [walk]. rewrite Hi by lia.
  destruct (negb _); [done|]. destruct (is_leaf _ _); [done|]. apply IH. intros; apply Hi; lia.
Qed.

Lemma walk_vpn m root v v' : vpn 1 v = vpn 1 v' -> walk m 4 root v = walk m 4 root v'.
Proof.
  intros E1. destruct (vpn_idx 1 v v') as [I1 E2]; [lia|done|].
  destruct (vpn_idx 2 v v') as [I2 E3]; [lia|apply E2; lia|].
  destruct (vpn_idx 3 v v') as [I3 E4]; [lia|apply E3; lia|].
  destruct (vpn_idx 4 v v') as [I4 _]; [lia|apply E4; lia|].
  apply walk_idx. intros [|[|[|[|[|k]]]]] Hk; lia || done.
Qed.

Section lists.
Lemma mapM_total {A B} (f : A -> option B) (g : A -> B) (l : list A) :
  (forall x, x ∈ l -> f x = Some (g x)) -> mapM f l = Some (g <$> l).
Proof.
  induction l as [|x l IH]; intros Hf; [done|]. cbn [mapM fmap list_fmap].
  rewrite Hf by (by left). cbn. rewrite IH by (intros; apply Hf; by right). done.
Qed.

(** Writing bytes one by one at distinct addresses. *)
Lemma foldl_upd (f : nat -> Z) bs : forall k m,
  (forall i j, (k <= i < k + length bs)%nat -> (k <= j < k + length bs)%nat -> f i = f j -> i = j) ->
  let m' := foldl (fun m '(p, b) => upd m p b) m (zip (f <$> seq k (length bs)) bs) in
  (forall i b, bs !! i = Some b -> m' (f (k + i)%nat) = b) /\
  (forall x, (forall i, (i < length bs)%nat -> x <> f (k + i)%nat) -> m' x = m x).
Proof.
  induction bs as [|b bs IH]; intros k m Hinj m'; [split; [done|done]|].
  unfold m'. cbn [length seq fmap list_fmap zip zip_with foldl]. cbn [length] in Hinj.
  destruct (IH (S k) (upd m (f k) b)) as [Hin Hout]; [intros i j Hi Hj; apply Hinj; lia|]. split.
  - intros [|i] c Hc; cbn in Hc.
    + injection Hc as <-. rewrite Nat.add_0_r, Hout; [apply upd_same|]. intros i Hi E.
      apply Hinj in E; lia.
    + rewrite <- (Hin i c Hc). f_equal. f_equal. lia.
  - intros x Hx. rewrite Hout.
    + apply upd_other. specialize (Hx 0%nat ltac:(cbn; lia)). by rewrite Nat.add_0_r in Hx.
    + intros i Hi. specialize (Hx (S i) ltac:(cbn; lia)). by replace (S k + i)%nat with (k + S i)%nat by lia.
Qed.
End lists.

Section vmm_memory.
Context {S : Type} `{PageAllocator S} (debug : bool) (root lo hi : Z) (Hreg : page_region lo hi).
Implicit Types (T : gmap Z nat) (st : vmm_state S) (w : window).

(** Changing memory outside the tables changes neither the tree nor any walk. *)
Lemma ram_change_wf T st (m : mem) :
  as_wf T st root -> mem_ok m ->
  (forall p n x, T !! p = Some n -> p <= x < p + 4096 -> m x = vs_ram st x) ->
  as_wf T (VmmState (vs_alloc st) m) root /\ (forall v, walk m 4 root v = walk (vs_ram st) 4 root v).
Proof.
  intros Hwf Hm Heq. assert (forall p n j, T !! p = Some n -> 0 <= j < 512 ->
    entry m p j = entry (vs_ram st) p j) as He.
  { intros p n j Hp Hj. apply load64_ext. intros x Hx. eapply Heq; [done|]. lia. }
  split.
  - destruct Hwf as [Ha _ Hr Ht Hen Hin]. split; cbn [vs_alloc vs_ram]; try done.
    + intros p n i Hp Hi. rewrite (He p n) by done. by apply Hen.
    + intros p n i p' n' i' Hp Hp' Hn Hn' Hi Hi'. rewrite (He p n), (He p' n') by done. by apply Hin.
  - intros v. destruct (walk_change T st root m root 4 (-1) v) as [E|[_ E]]; [done|apply Hwf|..].
    + intros p n j Hp Hj _. by eapply He.
    + done.
    + pose proof (level_idx_range 4 v). lia.
Qed.

(** The representation: the pages of the window are the level-1 pages the tables map
    in the region, owned frames are allocated and are not tables. *)
Record vrep T st w : Prop := VRep {
  vr_wf : as_wf T st root;
  vr_page : forall v p, w_pages w !! v = Some p ->
    in_region lo hi v /\ v mod 4096 = 0 /\ is_page p /\
    exists f, flags_ok f /\ walk (vs_ram st) 4 root v = Some (1%nat, Z.lor p f);
  vr_unmapped : forall v, in_region lo hi v -> v mod 4096 = 0 -> w_pages w !! v = None ->
    walk (vs_ram st) 4 root v = None;
  vr_owned : forall p, p ∈ w_owned w ->
    pa_managed (vs_alloc st) p /\ ~ pa_is_free (vs_alloc st) p /\ T !! p = None;
  vr_inj : forall v v' p, w_pages w !! v = Some p -> w_pages w !! v' = Some p -> v = v';
  vr_view : forall a p, w_pages w !! page_of a = Some p -> p ∈ w_owned w ->
    vs_ram st (p + a mod 4096) = w_view w a;
  vr_budget : free_at_least (w_budget w) st;
}.

Definition vmm_rep st w : Prop := exists T, vrep T st w.

(** What an operation of the client leaves alone: only free pages become tables, only
    owned frames become free, and memory changes in tables and owned frames only. *)
Record kept T st w T' st' : Prop := Kept {
  kp_new : forall p n, T' !! p = Some n -> T !! p = None -> pa_is_free (vs_alloc st) p;
  kp_free : forall p, pa_is_free (vs_alloc st') p -> pa_is_free (vs_alloc st) p \/ p ∈ w_owned w;
  kp_ram : forall x, (forall p n, T' !! p = Some n -> ~ p <= x < p + 4096) -> (forall p, p ∈ w_owned w -> ~ p <= x < p + 4096) ->
    vs_ram st' x = vs_ram st x;
}.

Lemma kept_same T st w m : (forall x, (forall p, p ∈ w_owned w -> ~ p <= x < p + 4096) -> m x = vs_ram st x) ->
  kept T st w T (VmmState (vs_alloc st) m).
Proof using Type. intros Hm. split; cbn [vs_alloc vs_ram]; [by intros p n ->|by left|]. intros x _ Ho. by apply Hm. Qed.

Lemma page_entry p f : is_page p -> flags_ok f -> entry_addr (Z.lor p f) = p.
Proof.
  intros [Hp Hm] Hf. unfold PAGE_SIZE in Hm. destruct (leaf_entry 1 p f) as (_ & _ & _ & ?); [lia| |done|lia|done].
  split; [lia|]. by change (2 ^ level_shift 1) with 4096.
Qed.

Lemma vrep_translate T st w a p :
  vrep T st w -> in_region lo hi a -> w_pages w !! page_of a = Some p ->
  translate (vs_ram st) root (u64 a) = Some (p + a mod 4096).
Proof.
  intros Hr Ha Hp. destruct (vr_page _ _ _ Hr _ _ Hp) as (_ & _ & Hpg & f & Hf & Hw).
  assert (u64 a = a) as -> by (apply u64_id; destruct Hreg as (? & ? & _); unfold in_region in Ha; lia).
  unfold translate. rewrite <- (walk_vpn _ root (page_of a) a) by apply vpn_page_of.
  rewrite Hw. cbv [mbind option_bind]. rewrite (page_entry p f Hpg Hf).
  change (2 ^ level_shift 1) with 4096. destruct Hpg as [_ Hm]. unfold PAGE_SIZE in Hm.
  pose proof (Z.div_mod p 4096). f_equal. lia.
Qed.

(** The physical address behind a mapped address. *)
Definition phys_at w (a : Z) : Z := default 0 (w_pages w !! page_of a) + a mod 4096.

Lemma mapped_phys T st w a : vrep T st w -> mapped w a ->
  translate (vs_ram st) root (u64 a) = Some (phys_at w a) /\ vs_ram st (phys_at w a) = w_view w a /\
  exists p, p ∈ w_owned w /\ is_page p /\ w_pages w !! page_of a = Some p /\ phys_at w a = p + a mod 4096.
Proof.
  intros Hr (p & Hp & Ho). destruct (vr_page _ _ _ Hr _ _ Hp) as (Hv & _ & Hpg & _).
  assert (in_region lo hi a) as Ha.
  { destruct Hreg as (_ & _ & _ & Hlo & Hhi). revert Hv. unfold in_region, page_of. dlia. }
  unfold phys_at. rewrite Hp. cbn [default]. split; [by eapply vrep_translate|].
  split; [by apply (vr_view _ _ _ Hr)|eauto].
Qed.

Lemma page_offset_inj p p' o o' : is_page p -> is_page p' -> 0 <= o < 4096 -> 0 <= o' < 4096 ->
  p + o = p' + o' -> p = p' /\ o = o'.
Proof. intros [_ Hp] [_ Hp'] Ho Ho' E. unfold PAGE_SIZE in *. split; dlia. Qed.

Lemma phys_at_inj T st w a b : vrep T st w -> mapped w a -> mapped w b -> phys_at w a = phys_at w b -> a = b.
Proof.
  intros Hr Ha Hb E. destruct (mapped_phys _ _ _ _ Hr Ha) as (_ & _ & p & _ & Hp & Hpa & Epa).
  destruct (mapped_phys _ _ _ _ Hr Hb) as (_ & _ & q & _ & Hq & Hqb & Eqb). rewrite Epa, Eqb in E.
  apply page_offset_inj in E as [-> Eo]; [|done|done|by apply Z.mod_pos_bound..].
  rewrite (page_of_split a), (page_of_split b), Eo. f_equal. by eapply (vr_inj _ _ _ Hr).
Qed.

Lemma vmm_load_ok st w a n : vmm_rep st w -> mapped_range w a (Z.of_nat n) ->
  vm_load root a n st = Ok (load (w_view w) a n, st).
Proof.
  intros [T Hr] Ha. assert (forall i, i ∈ seq 0 n -> mapped w (a + Z.of_nat i)) as Hm.
  { intros i Hi%elem_of_seq. apply Ha. lia. }
  unfold vm_load. rewrite (mapM_total _ (fun i => phys_at w (a + Z.of_nat i))).
  - unfold load. rewrite <- list_fmap_compose. do 2 f_equal. apply list_fmap_ext. intros i x Hi.
    apply list_elem_of_lookup_2 in Hi. cbn. by apply (mapped_phys _ _ _ _ Hr), Hm.
  - intros i Hi. by apply (mapped_phys _ _ _ _ Hr), Hm.
Qed.

Lemma vmm_store_step T st w a bs : vrep T st w -> mapped_range w a (Z.of_nat (length bs)) -> bytes_ok bs ->
  exists st', vm_store root a bs st = Ok (tt, st') /\ vrep T st' (set_view w (store (w_view w) a bs)) /\ kept T st w T st'.
Proof.
  intros Hr Ha Hbs. unfold vm_store. set (f := fun i => phys_at w (a + Z.of_nat i)).
  assert (forall i, (i < length bs)%nat -> mapped w (a + Z.of_nat i)) as Hm by (intros i Hi; apply Ha; lia).
  rewrite (mapM_total _ f) by (intros i Hi%elem_of_seq; apply (mapped_phys _ _ _ _ Hr), Hm; lia).
  destruct (foldl_upd f bs 0 (vs_ram st)) as [Hin Hout].
  { intros i j Hi Hj E. apply (phys_at_inj T st w) in E; [lia|done|apply Hm; lia..]. }
  eexists. split; [done|]. set (m' := foldl _ _ _) in *. clearbody m'.
  assert (forall x, (exists i, (i < length bs)%nat /\ x = f i) \/ m' x = vs_ram st x) as Hx.
  { intros x. destruct (decide (x ∈ f <$> seq 0 (length bs))) as [(i & -> & Hi%elem_of_seq)%list_elem_of_fmap|Hn].
    - left. exists i. split; [lia|done].
    - right. apply Hout. intros i Hi ->. destruct Hn. apply list_elem_of_fmap_2. apply elem_of_seq. lia. }
  destruct (ram_change_wf T st m' (vr_wf _ _ _ Hr)) as [Hwf' Hwalk].
  - intros x. destruct (Hx x) as [(i & Hi & ->)| ->]; [|apply (wf_ram _ _ _ (vr_wf _ _ _ Hr))].
    destruct (lookup_lt_is_Some_2 bs i Hi) as [b Hb].
    assert (m' (f i) = b) as -> by exact (Hin i b Hb).
    by eapply (Forall_lookup_1 is_byte).
  - intros p n x Hp Hpx. destruct (Hx x) as [(i & Hi & ->)|]; [|done].
    destruct (mapped_phys _ _ _ _ Hr (Hm i Hi)) as (_ & _ & q & Hq & Hqp & _ & E). unfold f in Hpx. rewrite E in Hpx.
    pose proof (wf_table _ _ _ (vr_wf _ _ _ Hr) _ _ Hp) as (Hpp & _ & _).
    destruct (page_offset_inj q p ((a + Z.of_nat i) mod 4096) (q + (a + Z.of_nat i) mod 4096 - p)) as [-> _];
      [done|done|by apply Z.mod_pos_bound|lia|lia|].
    apply (vr_owned _ _ _ Hr) in Hq as (_ & _ & Hq). congruence.
  - split; [|apply kept_same; intros x Hno; destruct (Hx x) as [(i & Hi & ->)|]; [|done];
      destruct (mapped_phys _ _ _ _ Hr (Hm i Hi)) as (_ & _ & q & Hq & _ & _ & E); exfalso; apply (Hno q Hq); unfold f; rewrite E;
      pose proof (Z.mod_pos_bound (a + Z.of_nat i) 4096); lia].
    destruct Hr as [Hwf Hpg Hun Hown Hinj Hview Hb].
    split; cbn [set_view w_pages w_owned w_view w_budget vs_ram vs_alloc]; try done.
    + intros v p Hv. rewrite Hwalk. by apply Hpg.
    + intros v Hv1 Hv2 Hv. rewrite Hwalk. by apply Hun.
    + intros b p Hp Ho. assert (mapped w b) as Hmb by (exists p; eauto).
      assert (p + b mod 4096 = phys_at w b) as E by (unfold phys_at; by rewrite Hp). rewrite E.
      destruct (decide (a <= b < a + Z.of_nat (length bs))) as [Hr'|Hr'].
      * replace b with (a + Z.of_nat (Z.to_nat (b - a))) by lia.
        destruct (lookup_lt_is_Some_2 bs (Z.to_nat (b - a))) as [c Hc]; [lia|].
        rewrite (store_in _ _ _ _ c Hc). exact (Hin _ _ Hc).
      * rewrite store_out by lia. rewrite Hout; [rewrite <- E; by apply Hview|]. intros i Hi Ei.
        apply (phys_at_inj T st w) in Ei; [lia|by split|done|by apply Hm].
Qed.

Lemma vmm_poke_step T st w v p off bs : vrep T st w -> w_pages w !! v = Some p -> p ∈ w_owned w ->
  0 <= off -> off + Z.of_nat (length bs) <= 4096 -> bytes_ok bs ->
  exists st', phys_store (p + off) bs st = Ok (tt, st') /\ vrep T st' (set_view w (store (w_view w) (v + off) bs)) /\ kept T st w T st'.
Proof.
  intros Hr Hp Ho Hoff Hlen Hbs. destruct (vr_page _ _ _ Hr v p Hp) as (_ & Hva & Hpp & _).
  eexists. split; [done|]. set (m' := store (vs_ram st) (p + off) bs).
  destruct (ram_change_wf T st m' (vr_wf _ _ _ Hr)) as [Hwf' Hwalk].
  - apply store_ok; [apply (wf_ram _ _ _ (vr_wf _ _ _ Hr))|done].
  - intros q n x Hq Hx. apply store_out. destruct (vr_owned _ _ _ Hr p Ho) as (_ & _ & HT).
    pose proof (wf_table _ _ _ (vr_wf _ _ _ Hr) _ _ Hq) as ([_ Hqm] & _ & _). destruct Hpp as [_ Hpm].
    assert (p <> q) by congruence. unfold PAGE_SIZE in *. dlia.
  - split; [|apply kept_same; intros x Hno; apply store_out; specialize (Hno p Ho); lia].
    destruct Hr as [Hwf Hpg Hun Hown Hinj Hview Hb].
    split; cbn [set_view w_pages w_owned w_view w_budget vs_ram vs_alloc]; try done.
    + intros u q Hu. rewrite Hwalk. by apply Hpg.
    + intros u Hu1 Hu2 Hu. rewrite Hwalk. by apply Hun.
    + intros a q Hq Hqo. destruct (Hpg _ _ Hq) as (_ & _ & Hqq & _). pose proof (Z.mod_pos_bound a 4096).
      destruct (decide (q = p)) as [->|Hne].
      * assert (page_of a = v) as Ea by (by eapply Hinj). pose proof (page_of_split a) as Es. rewrite Ea in Es.
        unfold m', store. rewrite <- (Hview a p Hq Hqo).
        destruct (Z.ltb_spec (p + a mod 4096) (p + off)), (Z.ltb_spec a (v + off)); try done; try lia.
        replace (p + a mod 4096 - (p + off)) with (a - (v + off)) by lia. done.
      * unfold m'. rewrite !store_out; [by apply Hview|..].
        -- assert (page_of a <> v) by (intros E; rewrite E in Hq; congruence). unfold page_of in *. dlia.
        -- destruct Hpp as [_ Hpm], Hqq as [_ Hqm]. unfold PAGE_SIZE in *. dlia.
Qed.

(** The free pages that remain when at most [c] pages are taken. *)
Lemma free_shrink st st' n c (X : gset Z) :
  free_at_least n st -> (size X <= c)%nat ->
  (forall p, pa_is_free (vs_alloc st) p -> p ∉ X -> pa_is_free (vs_alloc st') p) ->
  free_at_least (n - c) st'.
Proof using Type.
  clear Hreg. intros (l & Hnd & Hl & Hf) Hc Hx. set (Y := list_to_set l ∖ X : gset Z).
  assert (n - c <= length (elements Y))%nat as Hlen.
  { change (length (elements Y)) with (size Y). unfold Y. pose proof (size_list_to_set (C := gset Z) l Hnd).
    pose proof (size_difference_alt (list_to_set l : gset Z) X).
    pose proof (subseteq_size (list_to_set l ∩ X : gset Z) X ltac:(set_solver)). lia. }
  exists (take (n - c) (elements Y)). split; [|split].
  - pose proof (NoDup_elements Y) as Hn. rewrite <- (take_drop (n - c) (elements Y)), list.NoDup_app in Hn. apply Hn.
  - rewrite length_take. lia.
  - apply Forall_take, list.Forall_forall. intros p Hp. apply elem_of_elements in Hp. unfold Y in Hp.
    apply elem_of_difference in Hp as [Hp1%elem_of_list_to_set Hp2]. apply Hx; [|done].
    rewrite list.Forall_forall in Hf. by apply Hf.
Qed.

Lemma vmm_alloc_step T st w : vrep T st w -> settled w -> (1 <= w_budget w)%nat ->
  exists p st', with_alloc pa_alloc st = Ok (p, st') /\ is_page p /\ p ∉ w_owned w /\
    vrep T st' (Window (w_pages w) ({[p]} ∪ w_owned w) (w_view w) (w_budget w - 1)) /\ kept T st w T st' /\ pa_is_free (vs_alloc st) p.
Proof.
  intros Hr Hset Hb. pose proof (wf_alloc _ _ _ (vr_wf _ _ _ Hr)) as Hal. unfold with_alloc.
  destruct (pa_alloc_spec (vs_alloc st) Hal) as [(p & al & Hrun & Hwf' & Hfree & Hfr & Hmg)|[_ Hno]].
  2: { destruct (vr_budget _ _ _ Hr) as ([|q l] & _ & Hl & Hf); cbn in Hl; [lia|].
       apply list.Forall_cons in Hf as [Hq _]. by destruct (Hno q). }
  rewrite Hrun. exists p. eexists. split; [done|].
  split; [eapply (pa_managed_page (vs_alloc st)); [done|by apply pa_free_managed]|].
  assert (p ∉ w_owned w) as Hpo by (intros Ho; by apply (vr_owned _ _ _ Hr) in Ho as (_ & ? & _)).
  split; [done|]. split; [|split; [split; cbn [vs_alloc vs_ram]; [by intros q n ->|intros q Hq; left; by apply Hfr|done]|done]].
  destruct Hr as [Hwf Hpg Hun Hown Hinj Hview Hbud].
  split; cbn [w_pages w_owned w_view w_budget vs_ram vs_alloc]; try done.
  - destruct Hwf as [_ Hram Hroot Ht Hen Hin]. split; cbn [vs_alloc vs_ram]; try done.
    intros q n Hq. destruct (Ht q n Hq) as (? & ? & ?). split; [done|]. split; [|done]. rewrite Hfr. tauto.
  - intros q [->%elem_of_singleton|Hq]%elem_of_union; rewrite Hmg, Hfr.
    + split; [by apply pa_free_managed|]. split; [tauto|]. destruct (T !! p) eqn:E; [|done].
      by apply (wf_table _ _ _ Hwf) in E as (_ & ? & _).
    + apply Hown in Hq as (? & ? & ?). tauto.
  - intros a q Hq Ho. apply Hview; [done|]. by eapply Hset.
  - apply (free_shrink st _ _ _ {[p]}); [done|by rewrite size_singleton|]. cbn [vs_alloc].
    intros q Hq Hne. apply Hfr. set_solver.
Qed.

Lemma vmm_free_step T st w p : vrep T st w -> p ∈ w_owned w ->
  exists st', with_alloc (pa_free p) st = Ok (tt, st') /\
    vrep T st' (Window (w_pages w) (w_owned w ∖ {[p]}) (w_view w) (w_budget w + 1)) /\ kept T st w T st'.
Proof using Type.
  intros [Hwf Hpg Hun Hown Hinj Hview Hbud] Hp. destruct (Hown p Hp) as (Hm & Hnf & HT). unfold with_alloc.
  destruct (pa_free_spec (vs_alloc st) p (wf_alloc _ _ _ Hwf) Hm Hnf) as (al & -> & Hal & Hfr & Hmg).
  eexists. split; [done|]. split; [|split; cbn [vs_alloc vs_ram]; [by intros q n ->|intros q [?| ->]%Hfr; [by left|by right]|done]].
  split; cbn [w_pages w_owned w_view w_budget vs_ram vs_alloc]; try done.
  - destruct Hwf as [_ Hram Hroot Ht Hen Hin]. split; cbn [vs_alloc vs_ram]; try done.
    intros q n Hq. destruct (Ht q n Hq) as (? & ? & ?). split; [done|]. split; [|done]. rewrite Hfr.
    intros [?| ->]; [done|congruence].
  - intros q [Hq Hne%not_elem_of_singleton]%elem_of_difference. rewrite Hmg, Hfr.
    apply Hown in Hq as (? & ? & ?). naive_solver.
  - intros a q Hq [Ho _]%elem_of_difference. by apply Hview.
  - destruct Hbud as (l & Hnd & Hl & Hf). exists (p :: l). rewrite list.Forall_forall in Hf. split; [|split].
    + apply NoDup_cons. split; [|done]. intros Hin%Hf. done.
    + cbn. lia.
    + constructor; [apply Hfr; by right|]. apply list.Forall_forall. intros q Hq%Hf. apply Hfr. by left.
Qed.

(** What a change of one page of the region does to the representation. *)
Lemma vrep_remapped T st st' w v r (pages : gmap Z Z) (m : mem) (budget : nat) :
  vrep T st w -> in_region lo hi v -> v mod 4096 = 0 ->
  remapped 1 v r T st st' root ->
  (forall v', v' <> v -> pages !! v' = w_pages w !! v') ->
  (forall p, pages !! v = Some p -> is_page p /\ (exists f, flags_ok f /\ r = Some (1%nat, Z.lor p f)) /\
     (forall v', w_pages w !! v' <> Some p)) ->
  (pages !! v = None -> r = None) ->
  (forall a, page_of a <> v -> m a = w_view w a) ->
  (forall a p, page_of a = v -> pages !! v = Some p -> m a = vs_ram st' (p + a mod 4096)) ->
  free_at_least budget st' ->
  exists T', vrep T' st' (Window pages (w_owned w) m budget) /\ kept T st w T' st'.
Proof.
  intros [Hwf Hpg Hun Hown Hinj Hview Hbud] Hv Hva (T' & Hwf' & Hsub & Hwalk & Hfree & Hram & Hmg & _ & _ & Hnew & _)
    Hother Hnewp Hnone Hm Hmv Hb.
  assert (forall p, p ∈ w_owned w -> T' !! p = None) as HT'.
  { intros p Hp. destruct (Hown p Hp) as (_ & Hnf & HTp). destruct (T' !! p) as [n|] eqn:E; [|done].
    by destruct (Hnf (proj1 (Hnew p n E HTp))). }
  assert (forall v', in_region lo hi v' -> v' mod 4096 = 0 -> v' <> v ->
    walk (vs_ram st') 4 root v' = walk (vs_ram st) 4 root v') as Hwo.
  { intros v' Hr Ha Hne. rewrite Hwalk, decide_False; [done|]. intros E%(region_vpn lo hi); [|done..].
    destruct Hne. unfold page_of in E. lia. }
  assert (forall p a, p ∈ w_owned w -> is_page p -> 0 <= a < 4096 -> vs_ram st' (p + a) = vs_ram st (p + a)) as Hro.
  { intros p a Hp Hpp Ha. apply Hram. intros q n Hq Hin.
    pose proof (wf_table _ _ _ Hwf' _ _ Hq) as (Hqp & _ & _).
    destruct (page_offset_inj p q a (p + a - q)) as [-> _]; [done..|lia|lia|]. by rewrite HT' in Hq. }
  exists T'. split; [|split; [intros p n Hp E; by destruct (Hnew p n Hp E)|intros p Hp; left; by apply Hfree in Hp as [? _]|intros x Hx _; by apply Hram]].
  split; cbn [w_pages w_owned w_view w_budget]; try done.
  - intros v' p Hp. destruct (decide (v' = v)) as [->|Hne].
    + destruct (Hnewp p Hp) as (Hpp & (f & Hf & ->) & _). rewrite Hwalk, decide_True by done. eauto 10.
    + rewrite Hother in Hp by done. destruct (Hpg _ _ Hp) as (? & ? & ? & ?). rewrite Hwo by done. done.
  - intros v' Hr Ha Hp. destruct (decide (v' = v)) as [->|Hne].
    + rewrite Hwalk, decide_True by done. by apply Hnone.
    + rewrite Hwo by done. apply Hun; [done..|]. by rewrite <- Hother.
  - intros p Hp. destruct (Hown p Hp) as (? & ? & ?). rewrite Hmg, Hfree. split; [done|].
    split; [tauto|by apply HT'].
  - intros v1 v2 p H1 H2. destruct (decide (v1 = v)) as [->|N1], (decide (v2 = v)) as [->|N2]; [done|..].
    + destruct (Hnewp p H1) as (_ & _ & Hno). rewrite Hother in H2 by done. by destruct (Hno v2).
    + destruct (Hnewp p H2) as (_ & _ & Hno). rewrite Hother in H1 by done. by destruct (Hno v1).
    + rewrite Hother in H1, H2 by done. by eapply Hinj.
  - intros a p Hp Ho. destruct (decide (page_of a = v)) as [E|Hne].
    + symmetry. apply Hmv; [done|]. by rewrite <- E.
    + rewrite Hother in Hp by done. destruct (Hpg _ _ Hp) as (_ & _ & Hpp & _).
      rewrite Hm, Hro by first [done|by apply Z.mod_pos_bound]. by apply Hview.
Qed.

Lemma vmm_map_step T st w p v f : vrep T st w -> settled w -> p ∈ w_owned w -> flags_ok f ->
  (forall v', w_pages w !! v' <> Some p) -> in_region lo hi v -> v mod 4096 = 0 -> w_pages w !! v = None ->
  (3 <= w_budget w)%nat ->
  exists st' m, vmm_map debug (phys_to_virt root) p v f st = Ok (tt, st') /\
    (forall a, page_of a <> v -> m a = w_view w a) /\
    exists T', vrep T' st' (Window (<[v := p]> (w_pages w)) (w_owned w) m (w_budget w - 3)) /\ kept T st w T' st'.
Proof.
  intros Hr Hset Hp Hf Hnp Hv Hva Hnone Hb.
  pose proof (vr_unmapped _ _ _ Hr v Hv Hva Hnone) as Hw.
  destruct (vr_owned _ _ _ Hr p Hp) as (Hmp & _ & _).
  assert (is_page p) as Hpp by (eapply pa_managed_page; [apply Hr|done]).
  destruct (vmm_map_remaps debug T st root p v f) as (st' & Hrun & Hre).
  { split; [apply Hr|..].
    - destruct Hpp as [? ?]. split; [lia|]. by change (2 ^ level_shift 1) with 4096.
    - done.
    - intros n e E. by rewrite Hw in E.
    - destruct (vr_budget _ _ _ Hr) as (l & Hnd & Hl & Hfl). exists (take 3 l).
      rewrite <- (take_drop 3 l), list.NoDup_app in Hnd. split; [apply Hnd|].
      split; [rewrite length_take; lia|by apply Forall_take].
    - intros _. split; [done|]. split; [done|]. intros q Hq. inversion Hq; lia. }
  set (m := fun a => if decide (page_of a = v) then vs_ram st' (p + a mod 4096) else w_view w a).
  exists st', m. split; [done|]. split; [intros a Ha; unfold m; by rewrite decide_False|].
  eapply (vrep_remapped T st st' w v _ _ m _ Hr); [done|done|exact Hre|..].
  - intros v' Hne. by rewrite lookup_insert_ne.
  - intros q. rewrite lookup_insert_eq. intros [= <-]. eauto.
  - by rewrite lookup_insert_eq.
  - intros a Ha. unfold m. by rewrite decide_False.
  - intros a q Ha. rewrite lookup_insert_eq. intros [= <-]. unfold m. by rewrite decide_True.
  - destruct Hre as (T' & _ & Hsub & _ & Hfr & _ & _ & Hsz & _ & _).
    apply (free_shrink st st' _ 3 (dom T' ∖ dom T)); [apply Hr|..].
    + rewrite size_difference by (by apply subseteq_dom). rewrite !size_dom. lia.
    + intros q Hq Hx. apply Hfr. split; [done|]. destruct (T' !! q) as [n|] eqn:E; [|done]. destruct Hx.
      apply elem_of_difference. split; [by apply elem_of_dom|]. intros [k Hk]%elem_of_dom.
      by apply (wf_table _ _ _ (vr_wf _ _ _ Hr)) in Hk as (_ & ? & _).
Qed.

Lemma vmm_unmap_step T st w v p : vrep T st w -> w_pages w !! v = Some p ->
  exists st', vmm_unmap debug (phys_to_virt root) v st = Ok (tt, st') /\
    exists T', vrep T' st' (Window (delete v (w_pages w)) (w_owned w) (w_view w) (w_budget w)) /\ kept T st w T' st'.
Proof.
  intros Hr Hp. destruct (vr_page _ _ _ Hr v p Hp) as (Hv & Hva & _ & f & _ & Hw).
  destruct (vmm_unmap_remaps debug T st root v _ (vr_wf _ _ _ Hr) Hw) as (st' & Hrun & Hre); [done|].
  exists st'. split; [done|].
  eapply (vrep_remapped T st st' w v _ _ _ _ Hr); [done|done|exact Hre|..].
  - intros v' Hne. by rewrite lookup_delete_ne.
  - intros q. by rewrite lookup_delete_eq.
  - done.
  - done.
  - intros a q _. by rewrite lookup_delete_eq.
  - destruct Hre as (T' & _ & _ & _ & _ & _ & _ & _ & Hal & _).
    destruct (vr_budget _ _ _ Hr) as (l & Hnd & Hl & Hf). exists l. by rewrite Hal.
Qed.

(** The same operations on the representation without the tables. *)
Lemma vmm_store_ok st w a bs : vmm_rep st w -> mapped_range w a (Z.of_nat (length bs)) -> bytes_ok bs ->
  exists st', vm_store root a bs st = Ok (tt, st') /\ vmm_rep st' (set_view w (store (w_view w) a bs)).
Proof. intros [T Hr] Ha Hbs. destruct (vmm_store_step T st w a bs) as (st' & ? & ? & _); [done..|]. exists st'. split; [done|by exists T]. Qed.

Lemma vmm_poke_ok st w v p off bs : vmm_rep st w -> w_pages w !! v = Some p -> p ∈ w_owned w ->
  0 <= off -> off + Z.of_nat (length bs) <= 4096 -> bytes_ok bs ->
  exists st', phys_store (p + off) bs st = Ok (tt, st') /\ vmm_rep st' (set_view w (store (w_view w) (v + off) bs)).
Proof. intros [T Hr] Hp Ho H1 H2 H3. destruct (vmm_poke_step T st w v p off bs) as (st' & ? & ? & _); [done..|]. exists st'. split; [done|by exists T]. Qed.

Lemma vmm_alloc_ok st w : vmm_rep st w -> settled w -> (1 <= w_budget w)%nat ->
  exists p st', with_alloc pa_alloc st = Ok (p, st') /\ is_page p /\ p ∉ w_owned w /\
    vmm_rep st' (Window (w_pages w) ({[p]} ∪ w_owned w) (w_view w) (w_budget w - 1)).
Proof.
  intros [T Hr] Hs Hb. destruct (vmm_alloc_step T st w) as (p & st' & ? & ? & ? & ? & _); [done..|].
  exists p, st'. split; [done|]. split; [done|]. split; [done|by exists T].
Qed.

Lemma vmm_free_ok st w p : vmm_rep st w -> p ∈ w_owned w ->
  exists st', with_alloc (pa_free p) st = Ok (tt, st') /\
    vmm_rep st' (Window (w_pages w) (w_owned w ∖ {[p]}) (w_view w) (w_budget w + 1)).
Proof using Type. intros [T Hr] Hp. destruct (vmm_free_step T st w p) as (st' & ? & ? & _); [done..|]. exists st'. split; [done|by exists T]. Qed.

Lemma vmm_map_ok st w p v f : vmm_rep st w -> settled w -> p ∈ w_owned w -> flags_ok f ->
  (forall v', w_pages w !! v' <> Some p) -> in_region lo hi v -> v mod 4096 = 0 -> w_pages w !! v = None ->
  (3 <= w_budget w)%nat ->
  exists st' m, vmm_map debug (phys_to_virt root) p v f st = Ok (tt, st') /\
    (forall a, page_of a <> v -> m a = w_view w a) /\
    vmm_rep st' (Window (<[v := p]> (w_pages w)) (w_owned w) m (w_budget w - 3)).
Proof.
  intros [T Hr] H1 H2 H3 H4 H5 H6 H7 H8. destruct (vmm_map_step T st w p v f) as (st' & m & ? & ? & T' & ? & _); [done..|].
  exists st', m. split; [done|]. split; [done|by exists T'].
Qed.

Lemma vmm_unmap_ok st w v p : vmm_rep st w -> w_pages w !! v = Some p ->
  exists st', vmm_unmap debug (phys_to_virt root) v st = Ok (tt, st') /\
    vmm_rep st' (Window (delete v (w_pages w)) (w_owned w) (w_view w) (w_budget w)).
Proof. intros [T Hr] Hp. destruct (vmm_unmap_step T st w v p) as (st' & ? & T' & ? & _); [done..|]. exists st'. split; [done|by exists T']. Qed.

Lemma vmm_inj st w v v' p : vmm_rep st w -> w_pages w !! v = Some p -> w_pages w !! v' = Some p -> v = v'.
Proof. intros [T Hr]. apply (vr_inj _ _ _ Hr). Qed.

Definition vmm_kernel_memory : KernelMemory lo hi (vmm_state S) := {|
  km_load := vm_load root;
  km_store := vm_store root;
  km_poke := phys_store;
  km_alloc := with_alloc pa_alloc;
  km_free p := with_alloc (pa_free p);
  km_map p v f := vmm_map debug (phys_to_virt root) p v f;
  km_unmap v := vmm_unmap debug (phys_to_virt root) v;
  km_rep := vmm_rep;
  km_inj := vmm_inj;
  km_load_ok := vmm_load_ok;
  km_store_ok := vmm_store_ok;
  km_poke_ok := vmm_poke_ok;
  km_alloc_ok := vmm_alloc_ok;
  km_map_ok := vmm_map_ok;
  km_free_ok := vmm_free_ok;
  km_unmap_ok := vmm_unmap_ok
|}.
End vmm_memory.

(** ** The 64-page machine of [VmmTheorems], for the witnesses *)

Definition sample_memory (lo hi : Z) (Hreg : page_region lo hi) : KernelMemory lo hi (vmm_state pmm_state) :=
  vmm_kernel_memory (H := pmm_page_allocator true) true sample_root lo hi Hreg.

Lemma sample_boot lo hi Hreg : km_rep (KernelMemory := sample_memory lo hi Hreg) sample_state (Window ∅ ∅ (fun _ => 0) 8).
Proof.
  exists {[sample_root := 4%nat]}. split; cbn [w_pages w_owned w_view w_budget]; try done.
  - apply sample_wf.
  - intros v _ _ _. apply walk_fresh.
  - exists ((fun i => i * 4096) <$> seqZ 2 8). split; [|split; [done|]].
    + apply (bool_decide_unpack _). vm_compute. exact I.
    + apply list.Forall_forall. intros p (i & -> & Hi%elem_of_seqZ)%list_elem_of_fmap. exists i.
      assert (i = 2 \/ i = 3 \/ i = 4 \/ i = 5 \/ i = 6 \/ i = 7 \/ i = 8 \/ i = 9) as Hc by lia.
      destruct_or! Hc; subst i; (split; [vm_compute; intuition congruence|done]).
Qed.
