(* ===== verification/Isolation.v ===== *)
(** * Isolation of memory clients

    A client of the page tables (the loader, the heap of a process) never touches pages
    that belong to others.  [guarded_memory] implements the [KernelMemory] interface with
    a set of guarded pages: the representation says in addition that these pages are
    allocated, not part of the client's tables or frames, and hold what they held.  A
    theorem proved against the interface therefore holds together with the isolation. *)
From Stdlib Require Import ZArith Lia.
From stdpp Require Import base tactics list numbers gmap.
From S2P Require Import Prelude Common Memory Interfaces Vmm PageTables VmmProofs KernelMemory.

Open Scope Z_scope.

Section isolation.
Context {S : Type} `{PageAllocator S} (debug : bool) (root lo hi : Z) (Hreg : page_region lo hi).
Context (G : Z -> Prop) (before : vmm_state S).
Implicit Types (T : gmap Z nat) (st : vmm_state S) (w : window).

(** The guarded pages are allocated, not the client's, and hold what they held
    [before]. *)
Record guard T st w : Prop := Guard {
  gd_page : forall g, G g -> is_page g /\ ~ pa_is_free (vs_alloc st) g /\ T !! g = None /\ g ∉ w_owned w;
  gd_ram : forall g o, G g -> 0 <= o < 4096 -> vs_ram st (g + o) = vs_ram before (g + o);
}.

Definition guarded_rep st w : Prop := exists T, vrep root lo hi T st w /\ guard T st w.

Lemma guard_step T st w T' st' w' : guard T st w -> vrep root lo hi T' st' w' -> kept T st w T' st' ->
  (forall p, p ∈ w_owned w -> is_page p) -> (forall p, p ∈ w_owned w' -> p ∈ w_owned w \/ pa_is_free (vs_alloc st) p) -> guard T' st' w'.
Proof using Type.
  intros [Hp Hram] Hr [Hnew Hfree Hkeep] Hopg Hown. split.
  - intros g Hg. destruct (Hp g Hg) as (Hpg & Hnf & HT & Ho). split; [done|]. split; [by intros [?|?]%Hfree|]. split.
    + destruct (T' !! g) as [n|] eqn:E; [|done]. by destruct Hnf; eapply Hnew.
    + intros [?|?]%Hown; done.
  - intros g o Hg Ho. rewrite <- Hram by done. destruct (Hp g Hg) as (Hpg & Hnf & HT & Hno). apply Hkeep.
    + intros p n Hq Hin. pose proof (wf_table _ _ _ (vr_wf _ _ _ _ _ _ Hr) _ _ Hq) as (Hqp & _ & _).
      destruct (page_offset_inj g p o (g + o - p)) as [-> _]; [done|done|done|lia|lia|]. by destruct Hnf; eapply Hnew.
    + intros p Hq Hin. destruct (page_offset_inj g p o (g + o - p)) as [-> _]; [done|by apply Hopg|done|lia|lia|]. done.
Qed.

Lemma owned_page T st w p : vrep root lo hi T st w -> p ∈ w_owned w -> is_page p.
Proof using Type. intros Hr Hp. apply (pa_managed_page (vs_alloc st)); [apply (vr_wf _ _ _ _ _ _ Hr)|]. by apply (vr_owned _ _ _ _ _ _ Hr). Qed.

(** The step of a client that acquires no page. *)
Lemma guard_kept T st w T' st' w' : guard T st w -> vrep root lo hi T st w -> vrep root lo hi T' st' w' -> kept T st w T' st' ->
  w_owned w' ⊆ w_owned w -> guarded_rep st' w'.
Proof using Type.
  intros Hg Hr Hr' Hk Hsub. exists T'. split; [done|]. eapply guard_step; [done..| |].
  - intros p Hp. by apply (owned_page T st w).
  - intros p Hp. left. by apply Hsub.
Qed.

Lemma guarded_load_ok st w a n : guarded_rep st w -> mapped_range w a (Z.of_nat n) -> vm_load root a n st = Ok (load (w_view w) a n, st).
Proof using Hreg. intros (T & Hr & _) Ha. apply (vmm_load_ok root lo hi Hreg); [by exists T|done]. Qed.

Lemma guarded_store_ok st w a bs : guarded_rep st w -> mapped_range w a (Z.of_nat (length bs)) -> bytes_ok bs ->
  exists st', vm_store root a bs st = Ok (tt, st') /\ guarded_rep st' (set_view w (store (w_view w) a bs)).
Proof using Hreg.
  intros (T & Hr & Hg) Ha Hbs. destruct (vmm_store_step root lo hi Hreg T st w a bs Hr Ha Hbs) as (st' & E & Hr' & Hk).
  exists st'. split; [done|]. by eapply guard_kept.
Qed.

Lemma guarded_poke_ok st w v p off bs : guarded_rep st w -> w_pages w !! v = Some p -> p ∈ w_owned w ->
  0 <= off -> off + Z.of_nat (length bs) <= 4096 -> bytes_ok bs ->
  exists st', phys_store (p + off) bs st = Ok (tt, st') /\ guarded_rep st' (set_view w (store (w_view w) (v + off) bs)).
Proof using Type.
  intros (T & Hr & Hg) Hp Ho H1 H2 H3. destruct (vmm_poke_step root lo hi T st w v p off bs Hr Hp Ho H1 H2 H3) as (st' & E & Hr' & Hk).
  exists st'. split; [done|]. by eapply guard_kept.
Qed.

Lemma guarded_alloc_ok st w : guarded_rep st w -> settled w -> (1 <= w_budget w)%nat ->
  exists p st', with_alloc pa_alloc st = Ok (p, st') /\ is_page p /\ p ∉ w_owned w /\
    guarded_rep st' (Window (w_pages w) ({[p]} ∪ w_owned w) (w_view w) (w_budget w - 1)).
Proof using Hreg.
  intros (T & Hr & Hg) Hs Hb. destruct (vmm_alloc_step root lo hi Hreg T st w Hr Hs Hb) as (p & st' & E & Hp & Hno & Hr' & Hk & Hfree).
  exists p, st'. split; [done|]. split; [done|]. split; [done|]. exists T. split; [done|]. eapply guard_step; [done..| |].
  - intros q Hq. by apply (owned_page T st w).
  - cbn [w_owned]. intros q [->%elem_of_singleton|Hq]%elem_of_union; [by right|by left].
Qed.

Lemma guarded_free_ok st w p : guarded_rep st w -> p ∈ w_owned w ->
  exists st', with_alloc (pa_free p) st = Ok (tt, st') /\
    guarded_rep st' (Window (w_pages w) (w_owned w ∖ {[p]}) (w_view w) (w_budget w + 1)).
Proof using Type.
  intros (T & Hr & Hg) Hp. destruct (vmm_free_step root lo hi T st w p Hr Hp) as (st' & E & Hr' & Hk).
  exists st'. split; [done|]. eapply guard_kept; [done..|]. cbn [w_owned]. apply subseteq_difference_l. done.
Qed.

Lemma guarded_map_ok st w p v f : guarded_rep st w -> settled w -> p ∈ w_owned w -> flags_ok f ->
  (forall v', w_pages w !! v' <> Some p) -> in_region lo hi v -> v mod 4096 = 0 -> w_pages w !! v = None ->
  (3 <= w_budget w)%nat ->
  exists st' m, vmm_map debug (phys_to_virt root) p v f st = Ok (tt, st') /\
    (forall a, page_of a <> v -> m a = w_view w a) /\
    guarded_rep st' (Window (<[v := p]> (w_pages w)) (w_owned w) m (w_budget w - 3)).
Proof using Hreg.
  intros (T & Hr & Hg) H1 H2 H3 H4 H5 H6 H7 H8.
  destruct (vmm_map_step debug root lo hi Hreg T st w p v f Hr H1 H2 H3 H4 H5 H6 H7 H8) as (st' & m & E & Hm & T' & Hr' & Hk).
  exists st', m. split; [done|]. split; [done|]. by eapply guard_kept.
Qed.

Lemma guarded_unmap_ok st w v p : guarded_rep st w -> w_pages w !! v = Some p ->
  exists st', vmm_unmap debug (phys_to_virt root) v st = Ok (tt, st') /\
    guarded_rep st' (Window (delete v (w_pages w)) (w_owned w) (w_view w) (w_budget w)).
Proof using Hreg.
  intros (T & Hr & Hg) Hp. destruct (vmm_unmap_step debug root lo hi Hreg T st w v p Hr Hp) as (st' & E & T' & Hr' & Hk).
  exists st'. split; [done|]. by eapply guard_kept.
Qed.

Lemma guarded_inj st w v v' p : guarded_rep st w -> w_pages w !! v = Some p -> w_pages w !! v' = Some p -> v = v'.
Proof using Type. intros (T & Hr & _). apply (vr_inj _ _ _ _ _ _ Hr). Qed.

Definition guarded_memory : KernelMemory lo hi (vmm_state S) := {|
  km_load := vm_load root;
  km_store := vm_store root;
  km_poke := phys_store;
  km_alloc := with_alloc pa_alloc;
  km_free p := with_alloc (pa_free p);
  km_map p v f := vmm_map debug (phys_to_virt root) p v f;
  km_unmap v := vmm_unmap debug (phys_to_virt root) v;
  km_rep := guarded_rep;
  km_inj := guarded_inj;
  km_load_ok := guarded_load_ok;
  km_store_ok := guarded_store_ok;
  km_poke_ok := guarded_poke_ok;
  km_alloc_ok := guarded_alloc_ok;
  km_map_ok := guarded_map_ok;
  km_free_ok := guarded_free_ok;
  km_unmap_ok := guarded_unmap_ok
|}.
End isolation.
