(* ===== verification/AddressSpace.v ===== *)
(** * Address spaces as functions

    What the processor finds behind every virtual address ([walk]), as a function that
    the mapping functions update in one place: [space lvl root W budget st] says that
    the page map at [root] is well formed, translates by [W], has no table below level
    [lvl], and that [budget] pages are free.  The kernel's own page map and those of
    processes are built with these lemmas. *)
From S2P Require Import Prelude Common Memory Interfaces Vmm PageTables VmmProofs KernelMemory.
From Stdlib Require Import ZArith Lia.
From stdpp Require Import base tactics list numbers gmap.

Open Scope Z_scope.

Section spaces.
Context {S : Type} `{PageAllocator S} (debug : bool).
Implicit Types (W : Z -> option (nat * Z)) (st : vmm_state S).

(** The address space as what the processor finds, with [budget] free pages. *)
Record space (lvl : nat) (root : Z) W (budget : nat) st : Prop := Space {
  sp_walk : forall v, walk (vs_ram st) 4 root v = W v;
  sp_budget : free_at_least budget st;
  sp_wf : exists T, as_wf T st root /\ forall p n, T !! p = Some n -> (lvl <= n)%nat;
}.

(** [W] with the page of [v] at level [k] replaced. *)
Definition set_page (k : nat) (v : Z) (r : option (nat * Z)) W : Z -> option (nat * Z) :=
  fun v' => if decide (vpn k v' = vpn k v) then r else W v'.

Lemma space_ext lvl root W W' b st : (forall v, W v = W' v) -> space lvl root W b st -> space lvl root W' b st.
Proof. intros E [H1 H2 H3]. split; [|done..]. intros v. by rewrite H1. Qed.

Lemma space_lower lvl lvl' root W b b' st : (lvl' <= lvl)%nat -> (b' <= b)%nat -> space lvl root W b st -> space lvl' root W b' st.
Proof.
  intros Hl Hb [H1 (l & Hnd & Hlen & Hf) (T & Hwf & HT)]. split; [done| |exists T; split; [done|]; intros p n Hp; specialize (HT p n Hp); lia].
  exists (take b' l). rewrite <- (take_drop b' l), list.NoDup_app in Hnd. split; [apply Hnd|]. split; [rewrite length_take; lia|by apply Forall_take].
Qed.

Lemma remapped_space lvl k v r T root W b st st' : (lvl <= k)%nat ->
  (forall v, walk (vs_ram st) 4 root v = W v) -> free_at_least b st -> as_wf T st root -> (forall p n, T !! p = Some n -> (lvl <= n)%nat) ->
  remapped k v r T st st' root -> space lvl root (set_page k v r W) (b - (4 - k)) st'.
Proof.
  intros Hk HW Hb Hwf HT (T' & Hwf' & Hsub & Hwalk & Hfree & _ & _ & Hsize & _ & Hnew & _). split.
  - intros v'. rewrite Hwalk, HW. done.
  - apply (free_shrink st st' b (4 - k) (dom T' ∖ dom T)); [done| |].
    + pose proof (subseteq_dom T T' Hsub) as Hd. rewrite size_difference, !size_dom by done. lia.
    + intros p Hp Hn. apply Hfree. split; [done|]. apply not_elem_of_dom. intros Hd. apply Hn, elem_of_difference. split; [done|].
      rewrite elem_of_dom. intros [n E]. by apply (wf_table _ _ _ Hwf) in E as (_ & ? & _).
  - exists T'. split; [done|]. intros p n Hp. destruct (T !! p) as [n'|] eqn:E.
    + apply (lookup_weaken _ _ _ _ E) in Hsub. assert (n' = n) as -> by congruence. by eapply HT.
    + destruct (Hnew p n Hp E). lia.
Qed.

Lemma map_page_space root W b st phys virt flags : space 1 root W b st -> frame_ok 1 phys -> flags_ok flags ->
  virt mod 4096 = 0 -> W virt = None -> (3 <= b)%nat ->
  exists st', vmm_map debug (phys_to_virt root) phys virt flags st = Ok (tt, st') /\
    space 1 root (set_page 1 virt (Some (1%nat, Z.lor phys flags)) W) (b - 3) st'.
Proof.
  intros Hs Hf Hfl Hv Hn Hb. pose proof (space_lower 1 1 root W b 3 st ltac:(lia) Hb Hs) as [_ Hb3 _].
  destruct Hs as [HW Hbud (T & Hwf & HT)].
  destruct (vmm_map_remaps debug T st root phys virt flags) as (st' & Hrun & Hre).
  { split; try done.
    - intros n e E. by rewrite HW, Hn in E.
    - intros _. split; [done|]. rewrite HW. split; [done|]. intros q Hq. apply (path_table _ _ _ _ _ _ Hwf) in Hq.
      apply (wf_table _ _ _ Hwf) in Hq. cbn in Hq. lia. }
  exists st'. split; [done|]. by eapply remapped_space.
Qed.

Lemma map_huge_space root W b st phys virt flags : space 3 root W b st -> frame_ok 3 phys -> flags_ok flags ->
  virt mod 0x40000000 = 0 -> W virt = None -> (1 <= b)%nat ->
  exists st', vmm_map_huge debug (phys_to_virt root) phys virt flags st = Ok (tt, st') /\
    space 3 root (set_page 3 virt (Some (3%nat, Z.lor phys (Z.lor flags VMM_PDPT_HUGE_FLAGS))) W) (b - 1) st'.
Proof.
  intros Hs Hf Hfl Hv Hn Hb. pose proof (space_lower 3 3 root W b 1 st ltac:(lia) Hb Hs) as [_ Hb1 _].
  destruct Hs as [HW Hbud (T & Hwf & HT)].
  destruct (vmm_map_huge_remaps debug T st root phys virt flags) as (st' & Hrun & Hre).
  { split; try done.
    - intros n e E. by rewrite HW, Hn in E.
    - intros _. split; [done|]. rewrite HW. split; [done|]. intros q Hq. apply (path_table _ _ _ _ _ _ Hwf) in Hq.
      apply HT in Hq. cbn in Hq. lia. }
  exists st'. split; [done|]. by eapply remapped_space.
Qed.

Lemma unmap_page_space root W b st virt e : space 1 root W b st -> virt mod 4096 = 0 -> W virt = Some (1%nat, e) ->
  exists st', vmm_unmap debug (phys_to_virt root) virt st = Ok (tt, st') /\ space 1 root (set_page 1 virt None W) b st'.
Proof.
  intros [HW Hbud (T & Hwf & HT)] Hv Hn.
  destruct (vmm_unmap_remaps debug T st root virt e) as (st' & Hrun & Hre); [done|by rewrite HW|done|].
  exists st'. split; [done|]. pose proof (remapped_space 1 1 virt None T root W b st st' ltac:(lia) HW Hbud Hwf HT Hre) as [H1 _ H3].
  split; [done| |done]. destruct Hre as (T' & _ & _ & _ & _ & _ & _ & _ & Hal & _). unfold free_at_least. by rewrite Hal.
Qed.

Lemma vmm_init_space b st : pa_wf (vs_alloc st) -> mem_ok (vs_ram st) -> free_at_least (Datatypes.S b) st ->
  exists root st', vmm_init st = Ok (phys_to_virt root, st') /\ is_page root /\ space 3 root (fun _ => None) b st'.
Proof.
  intros Hal Hm (l & Hnd & Hlen & Hf). destruct st as [al m]. cbn [vs_alloc vs_ram] in *.
  destruct (pa_alloc_spec al Hal) as [(p & al' & Hrun & Hal' & Hp & Hfree & _)|[_ Hno]].
  2: { destruct l as [|x l]; [done|]. apply list.Forall_cons in Hf as [Hx _]. by destruct (Hno x). }
  assert (is_page p) as Hpg by (apply (pa_managed_page al p Hal), (pa_free_managed al p Hal), Hp).
  exists p, (VmmState al' (fill m p 4096 0)).
  assert (~ pa_is_free al' p) as Hnf by (rewrite Hfree; tauto).
  split; [|split; [done|split]].
  - unfold vmm_init, with_alloc. munfold. cbn [vs_alloc vs_ram]. rewrite Hrun. cbn [vs_alloc vs_ram]. unfold tbl_zero. cbn [vs_alloc vs_ram].
    rewrite virt_phys_roundtrip by (unfold is_page in Hpg; lia). done.
  - intros v. apply walk_fresh.
  - replace b with (Datatypes.S b - 1)%nat by lia. apply (free_shrink (VmmState al m) (VmmState al' (fill m p 4096 0)) (Datatypes.S b) 1 {[p]}); cbn [vs_alloc].
    + by exists l.
    + by rewrite size_singleton.
    + intros q Hq Hn. apply Hfree. split; [done|]. intros ->. by apply Hn, elem_of_singleton.
  - exists {[p := 4%nat]}. split; [by apply fresh_wf|]. intros q n [_ <-]%lookup_singleton_Some. lia.
Qed.

Lemma space_translate root W b st v k phys f : space 1 root W b st -> (1 <= k <= 3)%nat -> W v = Some (k, Z.lor phys f) ->
  frame_ok k phys -> flags_ok f -> (1 < k -> page_size_bit f = true)%nat ->
  translate (vs_ram st) root v = Some (phys + v mod 2 ^ level_shift k).
Proof.
  intros [HW _ _] Hk E Hf Hfl Hps. unfold translate. rewrite HW, E. cbv [mbind option_bind].
  destruct (leaf_entry k phys f Hk Hf Hfl Hps) as (_ & _ & _ & ->). destruct Hf as [_ Hm]. f_equal. f_equal.
  rewrite Z.mul_comm. symmetry. apply Z_div_exact_full_2; [|done]. apply Z.pow_nonzero; unfold level_shift; lia.
Qed.

Lemma unmapped_translate root W b st v : space 1 root W b st -> W v = None -> translate (vs_ram st) root v = None.
Proof. intros [HW _ _] E. unfold translate. by rewrite HW, E. Qed.

End spaces.
