(* ===== verification/VmmDestroy.v ===== *)
(** * Tearing down an address space

    [vmm_destroy] ([kernel/kernel/vmm.c]) walks the user half of a page map and frees
    its frames and tables.  Its four nested loops are shown to free the pages of one
    list ([lower_pages]); the list names, without repetition, exactly the frames mapped
    in the user half and the tables on the way to them. *)
From S2P Require Import Prelude Common Memory Interfaces Vmm PageTables VmmProofs.
From Stdlib Require Import ZArith Lia.
From stdpp Require Import base tactics list numbers gmap.

Open Scope Z_scope.

(** ** Freeing a list of pages *)
Section free_all.
Context {S : Type} `{PageAllocator S}.

Fixpoint free_all (l : list Z) : M S unit :=
  match l with
  | [] => mret tt
  | p :: l' => _ ← pa_free p; free_all l'
  end.

Lemma free_all_app l l' (s : S) : free_all (l ++ l') s = (_ ← free_all l; free_all l') s.
Proof.
  revert s. induction l as [|p l IH]; intros s; [done|]. cbn [app free_all]. munfold.
  destruct (pa_free p s) as [[[] s1]| | |]; done.
Qed.

Lemma with_alloc_bind {A B} (m : M S A) (k : A -> M S B) (st : vmm_state S) :
  (a ← with_alloc m; with_alloc (k a)) st = with_alloc (a ← m; k a) st.
Proof. unfold with_alloc. munfold. destruct (m (vs_alloc st)) as [[a s]| | |]; done. Qed.

(** Pages that are allocated and pairwise different can be freed one after the other. *)
Lemma free_all_run l : forall s, pa_wf s -> NoDup l -> Forall (fun p => pa_managed s p /\ ~ pa_is_free s p) l ->
  exists s', free_all l s = Ok (tt, s') /\ pa_wf s' /\ (forall q, pa_is_free s' q <-> pa_is_free s q \/ q ∈ l) /\
    (forall q, pa_managed s' q <-> pa_managed s q).
Proof.
  induction l as [|p l IH]; intros s Hwf Hnd Hall; cbn [free_all].
  { exists s. split; [done|]. split; [done|]. split; [|done]. intros q. rewrite elem_of_nil. tauto. }
  apply list.NoDup_cons in Hnd as [Hp Hnd]. apply list.Forall_cons in Hall as [[Hm Hf] Hall].
  destruct (pa_free_spec s p Hwf Hm Hf) as (s1 & E1 & Hwf1 & Hfr1 & Hmg1).
  destruct (IH s1 Hwf1 Hnd) as (s2 & E2 & Hwf2 & Hfr2 & Hmg2).
  { apply list.Forall_forall. intros q Hq. rewrite list.Forall_forall in Hall. destruct (Hall q Hq) as [? ?].
    rewrite Hmg1, Hfr1. split; [done|]. intros [?| ->]; done. }
  exists s2. rewrite (bind_run _ _ _ _ _ E1). split; [done|]. split; [done|]. split.
  - intros q. rewrite Hfr2, Hfr1, elem_of_cons. tauto.
  - intros q. by rewrite Hmg2.
Qed.

(** A loop whose bodies free pages and leave the memory alone. *)
Lemma free_loop (m : mem) (f : Z -> list Z) (body : Z -> M (vmm_state S) unit) n : forall i al,
  (forall k al, i <= k < i + Z.of_nat n -> body k (VmmState al m) = with_alloc (free_all (f k)) (VmmState al m)) ->
  iter_for n i 1 body (VmmState al m) = with_alloc (free_all (seqZ i (Z.of_nat n) ≫= f)) (VmmState al m).
Proof.
  induction n as [|n IH]; intros i al Hbody; [done|]. cbn [iter_for].
  rewrite seqZ_cons by lia. replace (Z.pred (Z.of_nat (Datatypes.S n))) with (Z.of_nat n) by lia. rewrite bind_cons.
  munfold. rewrite Hbody by lia. unfold with_alloc. cbn [vs_alloc vs_ram]. rewrite free_all_app. munfold.
  destruct (free_all (f i) al) as [[[] al']| | |]; try done.
  replace (i + 1) with (Z.succ i) by lia. rewrite IH; [done|]. intros k al0 Hk. apply Hbody. lia.
Qed.
End free_all.

(** ** The pages of a subtree *)

(** What the loops free for the entry [e] of a table at level [n]: the frame of a page
    (in a page table), or the pages below the table it links and the table itself. *)
Definition slot_pages (below : Z -> list Z) (n : nat) (e : Z) : list Z :=
  if e =? 0 then [] else
  if bool_decide (n = 1)%nat then [entry_addr e] else
  if is_leaf n e then [] else below (entry_addr e) ++ [entry_addr e].

Fixpoint table_pages (m : mem) (n : nat) (p : Z) : list Z :=
  match n with
  | O => []
  | S n' => seqZ 0 512 ≫= fun i => slot_pages (table_pages m n') n (entry m p i)
  end.

Definition lower_pages (m : mem) (root : Z) : list Z :=
  seqZ 0 256 ≫= fun i => slot_pages (table_pages m 3) 4 (entry m root i).

Section destroy.
Context {S : Type} `{PageAllocator S} (T : gmap Z nat) (st : vmm_state S) (root : Z).
Context (Hwf : as_wf T st root).
Let m := vs_ram st.

Lemma get_run q n i (al : S) : T !! q = Some n -> 0 <= i < 512 ->
  tbl_get (phys_to_virt q) i (VmmState al m) = Ok (entry m q i, VmmState al m).
Proof using Hwf. intros Hq Hi. pose proof (wf_table _ _ _ Hwf _ _ Hq) as (Hp & _). by rewrite (tbl_get_run (VmmState al m)). Qed.

Lemma destroy_pt_run p (al : S) : T !! p = Some 1%nat ->
  vmm_destroy_pt (phys_to_virt p) (VmmState al m) = with_alloc (free_all (table_pages m 1 p)) (VmmState al m).
Proof using Hwf.
  intros Hp. apply (free_loop m _ _ 512 0). intros i al' Hi. rewrite (bind_run _ _ _ _ _ (get_run p 1 i al' Hp ltac:(lia))).
  unfold slot_pages. destruct (entry m p i =? 0); [done|]. rewrite bool_decide_eq_true_2 by done. cbn [free_all].
  unfold with_alloc. cbn [vs_alloc vs_ram]. munfold. unfold entry_addr. by destruct (pa_free _ al') as [[[] ?]| | |].
Qed.

(** A loop over the entries of a table that frees what the links lead to; [huge] is the
    test for large and huge pages. *)
Lemma destroy_table_run n c q (destroy : Z -> M (vmm_state S) unit) (huge : Z -> bool) (al : S) :
  T !! q = Some (Datatypes.S n) -> (1 <= n)%nat -> (c <= 512)%nat ->
  (forall e, is_link (Datatypes.S n) e = true -> huge e = false) ->
  (forall e, present e = true -> is_leaf (Datatypes.S n) e = true -> huge e = true) ->
  (forall p al, T !! p = Some n -> destroy (phys_to_virt p) (VmmState al m) = with_alloc (free_all (table_pages m n p)) (VmmState al m)) ->
  iter_for c 0 1 (fun i => e ← tbl_get (phys_to_virt q) i;
    if e =? 0 then mret tt else if huge e then mret tt else
    _ ← destroy (phys_to_virt (Z.land e VMM_PTE_ADDR_MASK));
    e ← tbl_get (phys_to_virt q) i; with_alloc (pa_free (Z.land e VMM_PTE_ADDR_MASK))) (VmmState al m) =
  with_alloc (free_all (seqZ 0 (Z.of_nat c) ≫= fun i => slot_pages (table_pages m n) (Datatypes.S n) (entry m q i))) (VmmState al m).
Proof using Hwf.
  intros Hq Hn Hc Hlink Hleaf Hrec. apply (free_loop m _ _ c 0). intros i al' Hi. rewrite (bind_run _ _ _ _ _ (get_run q _ i al' Hq ltac:(lia))).
  unfold slot_pages. destruct (Z.eqb_spec (entry m q i) 0) as [Hz|Hz]; [done|].
  rewrite (bool_decide_eq_false_2 (Datatypes.S n = 1%nat)) by lia.
  pose proof (wf_entry _ _ _ Hwf q _ i Hq ltac:(lia)) as Hen. cbv zeta in Hen. fold m in Hen.
  destruct Hen as [E|[[E1 E2]|[E1 E2]]]; [done| |].
  - by rewrite E2, Hleaf.
  - rewrite (Hlink _ E1). unfold is_link in E1. apply andb_true_iff in E1 as [_ ->%negb_true_iff].
    replace (Datatypes.S n - 1)%nat with n in E2 by lia. unfold entry_addr in *. set (a := Z.land _ _) in *.
    unfold with_alloc. cbn [vs_alloc vs_ram]. rewrite free_all_app. munfold. rewrite Hrec by done. unfold with_alloc. cbn [vs_alloc vs_ram].
    destruct (free_all (table_pages m n a) al') as [[[] al2]| | |]; try done. rewrite (get_run q _ i al2 Hq ltac:(lia)).
    cbn [free_all vs_alloc vs_ram]. munfold. fold a. by destruct (pa_free a al2) as [[[] ?]| | |].
Qed.

Lemma huge_link n e : (2 <= n <= 3)%nat -> is_link n e = true -> negb (Z.land e 0x80 =? 0) = false.
Proof. intros Hn Hl. by rewrite (link_no_ps n e Hn Hl). Qed.

Lemma huge_leaf n e : (2 <= n)%nat -> is_leaf n e = true -> negb (Z.land e 0x80 =? 0) = true.
Proof. intros Hn Hl. by rewrite (leaf_has_ps n e Hn Hl). Qed.

Lemma destroy_pd_run p (al : S) : T !! p = Some 2%nat ->
  vmm_destroy_pd (phys_to_virt p) (VmmState al m) = with_alloc (free_all (table_pages m 2 p)) (VmmState al m).
Proof using Hwf.
  intros Hp. apply (destroy_table_run 1 512 p vmm_destroy_pt (fun e => negb (Z.land e VMM_PD_LARGE_FLAGS =? 0))); try done; try lia.
  - intros e. apply huge_link. lia.
  - intros e _. apply huge_leaf. lia.
  - intros q al'. apply destroy_pt_run.
Qed.

Lemma destroy_pdpt_run p (al : S) : T !! p = Some 3%nat ->
  vmm_destroy_pdpt (phys_to_virt p) (VmmState al m) = with_alloc (free_all (table_pages m 3 p)) (VmmState al m).
Proof using Hwf.
  intros Hp. apply (destroy_table_run 2 512 p vmm_destroy_pd (fun e => negb (Z.land e VMM_PDPT_HUGE_FLAGS =? 0))); try done; try lia.
  - intros e. apply huge_link. lia.
  - intros e _. apply huge_leaf. lia.
  - intros q al'. apply destroy_pd_run.
Qed.

Lemma destroy_root_run (al : S) :
  vmm_destroy (phys_to_virt root) (VmmState al m) = with_alloc (free_all (lower_pages m root)) (VmmState al m).
Proof using Hwf.
  apply (destroy_table_run 3 256 root vmm_destroy_pdpt (fun _ => false)); try done; try lia.
  - apply Hwf.
  - intros q al'. apply destroy_pdpt_run.
Qed.
End destroy.

(** ** Which pages these are *)

(** The virtual addresses that share their upper indices with [v] and have index [i] at
    level [n]. *)
Lemma idx_choice n v i : (1 <= n <= 4)%nat -> 0 <= i < 512 ->
  exists v', level_idx n v' = i /\ ((n < 4)%nat -> vpn (S n) v' = vpn (S n) v).
Proof.
  intros Hn Hi. assert (0 < 2 ^ level_shift n) as Hpos by (apply Z.pow_pos_nonneg; unfold level_shift; lia).
  exists (vpn (S n) v * (512 * 2 ^ level_shift n) + i * 2 ^ level_shift n).
  assert ((vpn (S n) v * (512 * 2 ^ level_shift n) + i * 2 ^ level_shift n) / 2 ^ level_shift n = vpn (S n) v * 512 + i) as Hdiv.
  { replace (vpn (S n) v * (512 * 2 ^ level_shift n) + i * 2 ^ level_shift n) with ((vpn (S n) v * 512 + i) * 2 ^ level_shift n) by lia.
    apply Z.div_mul. lia. }
  split.
  - rewrite level_idx_div, Hdiv by lia. rewrite Z.add_comm, Z.mod_add by lia. by apply Z.mod_small.
  - intros Hn4. unfold vpn at 1. replace (2 ^ level_shift (S n)) with (2 ^ level_shift n * 512).
    + rewrite <- Z.div_div, Hdiv by lia. rewrite Z.div_add_l, (Z.div_small i), Z.add_0_r by lia. apply Z.mod_small.
      unfold vpn. apply Z.mod_pos_bound, Z.pow_pos_nonneg; lia.
    + change 512 with (2 ^ 9). rewrite <- Z.pow_add_r by (unfold level_shift; lia). f_equal. unfold level_shift. lia.
Qed.

(** [x] is a table below level [n] on the path of [v], or the frame [v] is mapped to. *)
Definition on_way (m : mem) (root : Z) (n : nat) (v x : Z) : Prop :=
  (exists k, (k < n)%nat /\ path m root v k x) \/ (exists e, walk m 4 root v = Some (1%nat, e) /\ x = entry_addr e).

Section members.
Context {S : Type} `{PageAllocator S} (T : gmap Z nat) (st : vmm_state S) (root : Z).
Context (Hwf : as_wf T st root).

Lemma path_pos v k x : path (vs_ram st) root v k x -> (1 <= k)%nat.
Proof. destruct 1; lia. Qed.

(** The path through one entry. *)
Lemma on_way_leaf n v q x : path (vs_ram st) root v n q -> entry (vs_ram st) q (level_idx n v) = 0 \/ (is_leaf n (entry (vs_ram st) q (level_idx n v)) = true /\ (n <> 1)%nat) ->
  ~ on_way (vs_ram st) root n v x.
Proof.
  intros Hq Hno [(k & Hk & Hx)|(e & He & _)].
  - assert (forall j y, path (vs_ram st) root v j y -> (j < n)%nat -> exists z, path (vs_ram st) root v n z /\ is_link n (entry (vs_ram st) z (level_idx n v)) = true) as Hup.
    { clear - Hq. apply path_le4 in Hq. intros j y Hy. induction Hy as [|j y Hy IH Hj Hl]; intros Hlt; [lia|].
      destruct (decide (n = Datatypes.S j)) as [->|]; [eauto|]. apply IH. lia. }
    destruct (Hup k x Hx Hk) as (z & Hz & Hl). rewrite (path_det _ _ _ _ _ _ Hz Hq) in Hl. unfold is_link in Hl.
    destruct Hno as [E|[E _]]; rewrite E in Hl; [done|]. by rewrite andb_false_r in Hl.
  - rewrite (walk_path _ _ _ _ _ Hq) in He. destruct n as [|n]; [done|]. cbn [walk] in He.
    destruct Hno as [E|[E Hn]]; rewrite E in He; [done|]. destruct (present _); [|done]. cbn in He. injection He. lia.
Qed.

Lemma on_way_link n v q x : path (vs_ram st) root v (Datatypes.S n) q -> (1 <= n)%nat ->
  is_link (Datatypes.S n) (entry (vs_ram st) q (level_idx (Datatypes.S n) v)) = true ->
  on_way (vs_ram st) root (Datatypes.S n) v x <->
    x = entry_addr (entry (vs_ram st) q (level_idx (Datatypes.S n) v)) \/ on_way (vs_ram st) root n v x.
Proof.
  intros Hq Hn Hl. pose proof (path_step _ _ _ _ _ Hq Hn Hl) as Hp. split.
  - intros [(k & Hk & Hx)|?]; [|by right; right]. destruct (decide (k = n)) as [->|]; [left; by eapply path_det|].
    right. left. exists k. split; [lia|done].
  - intros [->|[(k & Hk & Hx)|?]]; [left; exists n; split; [lia|done]| |by right]. left. exists k. split; [lia|done].
Qed.

(** Addresses with the same upper indices as [v] go through the same entry. *)
Lemma same_slot n p v v' : (1 <= n <= 4)%nat -> path (vs_ram st) root v n p -> vpn n v' = vpn n v ->
  path (vs_ram st) root v' n p /\ level_idx n v' = level_idx n v.
Proof using Type.
  intros Hn Hp Ev. destruct (vpn_idx n v' v Hn Ev) as [Ei Eu]. split; [|done]. eapply path_vpn; [exact Hp|].
  intros ?. symmetry. by apply Eu.
Qed.

(** The pages of one entry, given those of the table it links. *)
Lemma slot_spec n p v x : (n <= 3)%nat -> path (vs_ram st) root v (Datatypes.S n) p ->
  (forall q, (1 <= n)%nat -> path (vs_ram st) root v n q ->
     x ∈ table_pages (vs_ram st) n q <-> exists v', path (vs_ram st) root v' n q /\ on_way (vs_ram st) root n v' x) ->
  x ∈ slot_pages (table_pages (vs_ram st) n) (Datatypes.S n) (entry (vs_ram st) p (level_idx (Datatypes.S n) v)) <->
    exists v', vpn (Datatypes.S n) v' = vpn (Datatypes.S n) v /\ on_way (vs_ram st) root (Datatypes.S n) v' x.
Proof using Hwf.
  intros Hn Hp IH. pose proof (path_table _ _ _ _ _ _ Hwf Hp) as HT.
  assert (forall v', vpn (Datatypes.S n) v' = vpn (Datatypes.S n) v ->
    path (vs_ram st) root v' (Datatypes.S n) p /\ level_idx (Datatypes.S n) v' = level_idx (Datatypes.S n) v) as Hsame by (intros; apply same_slot; [lia|done..]).
  pose proof (wf_entry _ _ _ Hwf p _ (level_idx (Datatypes.S n) v) HT (level_idx_range _ _)) as Hen. cbv zeta in Hen.
  unfold slot_pages. set (e := entry _ _ _) in *.
  assert (e = 0 \/ (is_leaf (Datatypes.S n) e = true /\ (Datatypes.S n <> 1)%nat) ->
    ~ exists v', vpn (Datatypes.S n) v' = vpn (Datatypes.S n) v /\ on_way (vs_ram st) root (Datatypes.S n) v' x) as Hnone.
  { intros Hc (v' & [Hp' Ei]%Hsame & Hw). eapply on_way_leaf; [exact Hp'| |exact Hw]. by rewrite Ei. }
  destruct (Z.eqb_spec e 0) as [Hz|Hz]; [rewrite elem_of_nil; tauto|]. destruct (decide (n = 0%nat)) as [->|Hn0].
  - rewrite bool_decide_eq_true_2, list_elem_of_singleton by done.
    assert (present e = true) as Hpr by (destruct Hen as [?|[[? _]|[Hl _]]]; [done..|]; unfold is_link in Hl; by apply andb_true_iff in Hl as [? _]).
    assert (forall v', vpn 1 v' = vpn 1 v -> walk (vs_ram st) 4 root v' = Some (1%nat, e)) as Hw.
    { intros v' [Hp' Ei]%Hsame. rewrite (walk_path _ _ _ _ _ Hp'). cbn [walk]. rewrite Ei. fold e. by rewrite Hpr. }
    split; [intros ->; exists v; split; [done|]; right; exists e; split; [by apply Hw|done]|].
    intros (v' & Ev & [(k & Hk & Hx%path_pos)|(e' & He & ->)]); [lia|]. rewrite (Hw v' Ev) in He. by injection He as <-.
  - rewrite bool_decide_eq_false_2 by lia. destruct (is_leaf (Datatypes.S n) e) eqn:El; [rewrite elem_of_nil; split; [done|intros Hx; destruct Hnone; [right; split; [done|lia]|done]]|].
    assert (is_link (Datatypes.S n) e = true) as Hl by (destruct Hen as [?|[[_ ?]|[? _]]]; congruence).
    assert (1 <= n)%nat as Hn1 by lia. pose proof (path_step _ _ _ _ _ Hp Hn1 Hl) as Hnext. fold e in Hnext.
    rewrite elem_of_app, list_elem_of_singleton, (IH _ Hn1 Hnext). split.
    + intros [(v' & Hp' & Hw)| ->].
      * assert (vpn (Datatypes.S n) v' = vpn (Datatypes.S n) v) as Ev by (eapply path_unique; [exact Hwf|exact Hp'|exact Hnext|lia]).
        exists v'. split; [done|]. destruct (Hsame v' Ev) as [Hpv Ei]. apply (on_way_link n v' p x Hpv Hn1); [by rewrite Ei|by right].
      * exists v. split; [done|]. apply (on_way_link n v p _ Hp Hn1 Hl). by left.
    + intros (v' & Ev & Hw). destruct (Hsame v' Ev) as [Hpv Ei].
      apply (on_way_link n v' p x Hpv Hn1) in Hw; rewrite Ei in *; [|done]. fold e in Hw. destruct Hw as [->|Hw]; [by right|].
      left. exists v'. split; [|done]. pose proof (path_step _ _ _ _ _ Hpv Hn1) as Hx. rewrite Ei in Hx. by apply Hx.
Qed.

(** The loops over the entries: the pages below a table. *)
Lemma table_pages_spec n : forall p v0 x, (1 <= n <= 3)%nat -> path (vs_ram st) root v0 n p ->
  x ∈ table_pages (vs_ram st) n p <-> exists v, path (vs_ram st) root v n p /\ on_way (vs_ram st) root n v x.
Proof using Hwf.
  induction n as [|n IH]; intros p v0 x Hn Hp; [lia|]. cbn [table_pages]. rewrite list_elem_of_bind.
  assert (forall v, path (vs_ram st) root v (Datatypes.S n) p ->
    x ∈ slot_pages (table_pages (vs_ram st) n) (Datatypes.S n) (entry (vs_ram st) p (level_idx (Datatypes.S n) v)) <->
    exists v', vpn (Datatypes.S n) v' = vpn (Datatypes.S n) v /\ on_way (vs_ram st) root (Datatypes.S n) v' x) as Hslot.
  { intros v Hv. apply slot_spec; [lia|done|]. intros q Hn1 Hq. apply (IH q v); [lia|done]. }
  split.
  - intros (i & Hx & Hi%elem_of_seqZ). destruct (idx_choice (Datatypes.S n) v0 i ltac:(lia) ltac:(lia)) as (v & <- & Hvpn).
    assert (path (vs_ram st) root v (Datatypes.S n) p) as Hv by (eapply path_vpn; [done|]; intros ?; symmetry; by apply Hvpn).
    apply (Hslot v Hv) in Hx as (v' & Ev & Hw). exists v'. split; [|done]. by apply (same_slot (Datatypes.S n) p v v'); [lia|..].
  - intros (v & Hv & Hw). exists (level_idx (Datatypes.S n) v). pose proof (level_idx_range (Datatypes.S n) v). split; [|apply elem_of_seqZ; lia].
    apply (Hslot v Hv). by exists v.
Qed.

Lemma lower_pages_spec x :
  x ∈ lower_pages (vs_ram st) root <-> exists v, level_idx 4 v < 256 /\ on_way (vs_ram st) root 4 v x.
Proof using Hwf.
  unfold lower_pages. rewrite list_elem_of_bind.
  assert (forall v, x ∈ slot_pages (table_pages (vs_ram st) 3) 4 (entry (vs_ram st) root (level_idx 4 v)) <->
    exists v', vpn 4 v' = vpn 4 v /\ on_way (vs_ram st) root 4 v' x) as Hslot.
  { intros v. apply slot_spec; [lia|constructor|]. intros q _ Hq. apply (table_pages_spec 3 q v); [lia|done]. }
  split.
  - intros (i & Hx & Hi%elem_of_seqZ). destruct (idx_choice 4 0 i ltac:(lia) ltac:(lia)) as (v & <- & _).
    apply Hslot in Hx as (v' & Ev & Hw). exists v'. split; [|done]. rewrite !vpn_top in Ev. lia.
  - intros (v & Hv & Hw). exists (level_idx 4 v). pose proof (level_idx_range 4 v). split; [|apply elem_of_seqZ; lia].
    apply Hslot. by exists v.
Qed.
End members.

(** ** No page twice *)

(** The addresses of [V] are mapped to allocated frames that are not tables, different
    ones for different pages. *)
Record frames_ok {S : Type} `{PageAllocator S} (T : gmap Z nat) (st : vmm_state S) (root : Z) (V : Z -> Prop) : Prop := FramesOk {
  fo_frame : forall v e, V v -> walk (vs_ram st) 4 root v = Some (1%nat, e) ->
    T !! entry_addr e = None /\ pa_managed (vs_alloc st) (entry_addr e) /\ ~ pa_is_free (vs_alloc st) (entry_addr e);
  fo_inj : forall v v' e e', V v -> V v' -> walk (vs_ram st) 4 root v = Some (1%nat, e) -> walk (vs_ram st) 4 root v' = Some (1%nat, e') ->
    entry_addr e = entry_addr e' -> vpn 1 v = vpn 1 v';
}.

(** The user half of an address space: the first 256 entries of its root. *)
Definition user_half (v : Z) : Prop := level_idx 4 v < 256.

(** [x] is a frame mapped in the user half, or a table of it. *)
Definition user_page (m : mem) (root x : Z) : Prop := exists v, user_half v /\ on_way m root 4 v x.

Lemma vpn_up k n v v' : (1 <= k <= n)%nat -> (n <= 4)%nat -> vpn k v = vpn k v' -> vpn n v = vpn n v'.
Proof.
  intros Hk Hn E. replace n with (k + (n - k))%nat by lia. assert (k + (n - k) <= 4)%nat as Hd by lia. revert Hd.
  generalize (n - k)%nat as d. induction d as [|d IH]; intros Hd; [by rewrite Nat.add_0_r|].
  replace (k + S d)%nat with (S (k + d))%nat by lia. apply (vpn_idx (k + d)); [lia|apply IH; lia|lia].
Qed.

Section nodup.
Context {S : Type} `{PageAllocator S} (T : gmap Z nat) (st : vmm_state S) (root : Z).
Context (Hwf : as_wf T st root) (Hfr : frames_ok T st root user_half).

Lemma user_vpn n v v' : (1 <= n <= 4)%nat -> vpn n v = vpn n v' -> user_half v -> user_half v'.
Proof using Type. unfold user_half. intros Hn E. rewrite <- !vpn_top, (vpn_up n 4 v v') by (lia || done). done. Qed.

(** A page on the way to two addresses: they agree in the indices down to that page. *)
Lemma on_way_unique n v v' x : (1 <= n <= 4)%nat -> user_half v -> user_half v' ->
  on_way (vs_ram st) root n v x -> on_way (vs_ram st) root n v' x -> vpn n v = vpn n v'.
Proof using Hwf Hfr.
  intros Hn Hv Hv' [(k & Hk & Hx)|(e & He & ->)] [(k' & Hk' & Hx')|(e' & He' & Ee)].
  - pose proof (path_table _ _ _ _ _ _ Hwf Hx) as HT. pose proof (path_table _ _ _ _ _ _ Hwf Hx') as HT'.
    assert (k' = k) as -> by congruence. apply (vpn_up (Datatypes.S k) n); [lia|lia|]. eapply path_unique; [exact Hwf|done|done|lia].
  - subst x. destruct (fo_frame _ _ _ _ Hfr v' e' Hv' He') as (Hn' & _). by rewrite (path_table _ _ _ _ _ _ Hwf Hx) in Hn'.
  - destruct (fo_frame _ _ _ _ Hfr v e Hv He) as (Hn' & _). by rewrite (path_table _ _ _ _ _ _ Hwf Hx') in Hn'.
  - apply (vpn_up 1 n); [lia|lia|]. by apply (fo_inj _ _ _ _ Hfr v v' e e').
Qed.

Lemma slot_nodup n p v : (n <= 3)%nat -> user_half v -> path (vs_ram st) root v (Datatypes.S n) p ->
  (forall q, (1 <= n)%nat -> path (vs_ram st) root v n q -> NoDup (table_pages (vs_ram st) n q)) ->
  NoDup (slot_pages (table_pages (vs_ram st) n) (Datatypes.S n) (entry (vs_ram st) p (level_idx (Datatypes.S n) v))).
Proof using Hwf Hfr.
  intros Hn Hv Hp IH. pose proof (path_table _ _ _ _ _ _ Hwf Hp) as HT.
  pose proof (wf_entry _ _ _ Hwf p _ (level_idx (Datatypes.S n) v) HT (level_idx_range _ _)) as Hen. cbv zeta in Hen.
  unfold slot_pages. set (e := entry _ _ _) in *. destruct (Z.eqb_spec e 0) as [Hz|Hz]; [constructor|].
  case_bool_decide as H1; [apply NoDup_singleton|]. assert (1 <= n)%nat as Hn1 by lia.
  destruct (is_leaf (Datatypes.S n) e) eqn:El; [constructor|].
  assert (is_link (Datatypes.S n) e = true) as Hl by (destruct Hen as [?|[[_ ?]|[? _]]]; congruence).
  pose proof (path_step _ _ _ _ _ Hp Hn1 Hl) as Hnext. fold e in Hnext. pose proof (path_table _ _ _ _ _ _ Hwf Hnext) as HTn.
  apply list.NoDup_app. split; [by apply IH|]. split; [|apply NoDup_singleton]. intros x Hx ->%list_elem_of_singleton.
  apply (table_pages_spec T st root Hwf n _ v) in Hx as (v' & Hv' & [(k & Hk & Hx)|(e' & He' & Ex)]); [| |lia|done].
  - apply (path_table _ _ _ _ _ _ Hwf) in Hx. assert (k = n) by congruence. lia.
  - assert (user_half v') as Hu.
    { apply (user_vpn (Datatypes.S n) v v'); [lia| |done]. eapply path_unique; [exact Hwf|exact Hnext|exact Hv'|lia]. }
    destruct (fo_frame _ _ _ _ Hfr v' e' Hu He') as (Hno & _). congruence.
Qed.

(** Entries of one table have different pages. *)
Lemma slots_disjoint n p v1 v2 x : (n <= 3)%nat -> user_half v1 -> user_half v2 ->
  path (vs_ram st) root v1 (Datatypes.S n) p -> path (vs_ram st) root v2 (Datatypes.S n) p ->
  x ∈ slot_pages (table_pages (vs_ram st) n) (Datatypes.S n) (entry (vs_ram st) p (level_idx (Datatypes.S n) v1)) ->
  x ∈ slot_pages (table_pages (vs_ram st) n) (Datatypes.S n) (entry (vs_ram st) p (level_idx (Datatypes.S n) v2)) ->
  level_idx (Datatypes.S n) v1 = level_idx (Datatypes.S n) v2.
Proof using Hwf Hfr.
  intros Hn Hu1 Hu2 H1 H2 Hx1 Hx2.
  apply (slot_spec T st root Hwf n p v1 x) in Hx1 as (w1 & E1 & W1); [|done|done|intros q Hn1 Hq; apply (table_pages_spec T st root Hwf n q v1); [lia|done]].
  apply (slot_spec T st root Hwf n p v2 x) in Hx2 as (w2 & E2 & W2); [|done|done|intros q Hn1 Hq; apply (table_pages_spec T st root Hwf n q v2); [lia|done]].
  assert (vpn (Datatypes.S n) v1 = vpn (Datatypes.S n) v2) as E.
  { rewrite <- E1, <- E2. apply (on_way_unique (Datatypes.S n) w1 w2 x); [lia| | |done|done].
    - by apply (user_vpn (Datatypes.S n) v1 w1); [lia|..].
    - by apply (user_vpn (Datatypes.S n) v2 w2); [lia|..]. }
  by apply (vpn_idx (Datatypes.S n)); [lia|].
Qed.

Lemma table_nodup n : forall p v, (1 <= n <= 3)%nat -> user_half v -> path (vs_ram st) root v n p -> NoDup (table_pages (vs_ram st) n p).
Proof using Hwf Hfr.
  induction n as [|n IH]; intros p v Hn Hv Hp; [lia|]. cbn [table_pages].
  assert (forall i, i ∈ seqZ 0 512 -> exists v', level_idx (Datatypes.S n) v' = i /\ user_half v' /\ path (vs_ram st) root v' (Datatypes.S n) p) as Hi.
  { intros i Hi%elem_of_seqZ. destruct (idx_choice (Datatypes.S n) v i ltac:(lia) ltac:(lia)) as (v' & <- & Hvpn). exists v'. split; [done|].
    assert (vpn (Datatypes.S (Datatypes.S n)) v = vpn (Datatypes.S (Datatypes.S n)) v') as E by (symmetry; apply Hvpn; lia).
    split; [by apply (user_vpn (Datatypes.S (Datatypes.S n)) v v'); [lia|..]|]. by eapply path_vpn. }
  apply NoDup_bind; [| |apply NoDup_seqZ].
  - intros i1 i2 x (v1 & <- & Hu1 & Hp1)%Hi (v2 & <- & Hu2 & Hp2)%Hi. by apply slots_disjoint; [lia|..].
  - intros i (v1 & <- & Hu1 & Hp1)%Hi. apply slot_nodup; [lia|done|done|]. intros q Hn1 Hq. by apply (IH q v1); [lia|..].
Qed.

Lemma lower_nodup : NoDup (lower_pages (vs_ram st) root).
Proof using Hwf Hfr.
  unfold lower_pages. assert (forall i, i ∈ seqZ 0 256 -> exists v', level_idx 4 v' = i /\ user_half v') as Hi.
  { intros i Hi%elem_of_seqZ. destruct (idx_choice 4 0 i ltac:(lia) ltac:(lia)) as (v' & <- & _). exists v'. split; [done|]. unfold user_half. lia. }
  apply NoDup_bind; [| |apply NoDup_seqZ].
  - intros i1 i2 x (v1 & <- & Hu1)%Hi (v2 & <- & Hu2)%Hi. apply (slots_disjoint 3 root v1 v2 x); [lia|done|done|constructor|constructor].
  - intros i (v1 & <- & Hu1)%Hi. apply (slot_nodup 3 root v1); [lia|done|constructor|]. intros q _ Hq. by apply (table_nodup 3 q v1); [lia|..].
Qed.

(** The whole teardown, for tables that the allocator manages. *)
Lemma vmm_destroy_run : (forall v n p, user_half v -> (n < 4)%nat -> path (vs_ram st) root v n p -> pa_managed (vs_alloc st) p) ->
  exists al, vmm_destroy (phys_to_virt root) st = Ok (tt, VmmState al (vs_ram st)) /\ pa_wf al /\
    (forall x, pa_is_free al x <-> pa_is_free (vs_alloc st) x \/ user_page (vs_ram st) root x) /\
    (forall x, pa_managed al x <-> pa_managed (vs_alloc st) x).
Proof using Hwf Hfr.
  intros Htab. destruct (free_all_run (lower_pages (vs_ram st) root) (vs_alloc st) (wf_alloc _ _ _ Hwf) lower_nodup) as (al & E & Hal & Hfree & Hman).
  { apply list.Forall_forall. intros x (v & Hv & [(k & Hk & Hx)|(e & He & ->)])%(lower_pages_spec T st root Hwf).
    - split; [by apply (Htab v k)|]. by apply (wf_table _ _ _ Hwf x k), (path_table _ _ _ _ _ _ Hwf Hx).
    - by destruct (fo_frame _ _ _ _ Hfr v e Hv He) as (_ & ? & ?). }
  exists al. split; [|split; [done|split; [|done]]].
  - pose proof (destroy_root_run T st root Hwf (vs_alloc st)) as Hrun. replace (VmmState (vs_alloc st) (vs_ram st)) with st in Hrun by (by destruct st).
    rewrite Hrun. unfold with_alloc. by rewrite E.
  - intros x. rewrite Hfree, (lower_pages_spec T st root Hwf). done.
Qed.
End nodup.
