(* ===== verification/Slab.v ===== *)
(** * Slab allocator and kmalloc

    [kernel/kernel/slab.c] and [kernel/kernel/kmalloc.c] over the [KernelMemory]
    interface.  A slab is one page: a [SlabHeader] of 48 bytes, then objects of the
    bin's size; free objects are chained through their first word, and the slabs of
    a bin are on a doubly linked list of slabs with free objects or of full ones.
    Pointers are addresses and NULL is 0; a field access is a load or store of the
    field's width at its offset.  [PRISTINE_DEBUG] is the section variable [debug];
    the counters of the loops do not wrap below [SLAB_VIRT_END]. *)
From S2P Require Import Prelude Common Memory Interfaces Vmm KernelMemory.
From Stdlib Require Import ZArith Lia.
From stdpp Require Import base tactics list numbers gmap.

Open Scope Z_scope.

Definition SLAB_TOTAL_BINS : Z := 24.

(** ** Data *)

Record BinHeader := {
  object_size : Z;
  max_objects : Z;
  free_slabs : Z;
  full_slabs : Z;
}.

(** Offsets and size of [SlabHeader] (natural alignment, 64-bit pointers). *)
Definition count_objects (slab : Z) : Z := slab.
Definition next_free (slab : Z) : Z := slab + 8.
Definition next_slab (slab : Z) : Z := slab + 16.
Definition prev_slab (slab : Z) : Z := slab + 24.
Definition slab_phys (slab : Z) : Z := slab + 32.
Definition slab_bin (slab : Z) : Z := slab + 40.
Definition sizeof_SlabHeader : Z := 48.

Definition bin_header (size : Z) : BinHeader :=
  {| object_size := size; free_slabs := 0; full_slabs := 0;
     max_objects := (VMM_DEFAULT_PAGE_SIZE - sizeof_SlabHeader) / size |}.

Definition bins : list BinHeader := bin_header <$>
  [8; 16; 24; 32; 40; 48; 56; 64; 80; 96; 112; 128; 160; 192; 224; 256;
   320; 384; 448; 512; 640; 768; 896; 1024].

Definition with_free (b : BinHeader) (slab : Z) : BinHeader :=
  {| object_size := object_size b; max_objects := max_objects b; free_slabs := slab; full_slabs := full_slabs b |}.
Definition with_full (b : BinHeader) (slab : Z) : BinHeader :=
  {| object_size := object_size b; max_objects := max_objects b; free_slabs := free_slabs b; full_slabs := slab |}.

(** The page of an address, [addr & ~0xFFF]. *)
Definition slab_of (addr : Z) : Z := Z.land addr (Z.lnot 0xFFF).

Section slab.
Context {H : Type} `{KernelMemory SLAB_VIRT_START SLAB_VIRT_END H} (debug : bool).

(** The static variables [bins] and [slab_top], and kernel memory. *)
Record slab_state := SlabState {
  st_bins : list BinHeader;
  slab_top : Z;
  st_mem : H;
}.

Definition on_mem {A} (m : M H A) : M slab_state A := fun s =>
  match m (st_mem s) with
  | Ok (a, h) => Ok (a, SlabState (st_bins s) (slab_top s) h)
  | Panic => Panic
  | Fault => Fault
  | OutOfFuel => OutOfFuel
  end.

(** Loads and stores of [n] bytes. *)
Definition peek (n : nat) (a : Z) : M slab_state Z := bs ← on_mem (km_load a n); mret (le_word bs).
Definition poke (n : nat) (a v : Z) : M slab_state unit := on_mem (km_store a (le_bytes n v)).

Definition get_bin (i : Z) : M slab_state BinHeader := s ← get; lift (rd (st_bins s) i).
Definition put_bin (i : Z) (b : BinHeader) : M slab_state unit :=
  s ← get; l ← lift (wr (st_bins s) i b); put (SlabState l (slab_top s) (st_mem s)).
Definition set_free (i slab : Z) : M slab_state unit := b ← get_bin i; put_bin i (with_free b slab).
Definition set_full (i slab : Z) : M slab_state unit := b ← get_bin i; put_bin i (with_full b slab).

Definition whenM (c : bool) (m : M slab_state unit) : M slab_state unit := if c then m else mret tt.

(** ** Operations *)

(** The branch of [bin_alloc] for a bin without a slab that has free objects. *)
Definition new_slab (bin_idx : Z) : M slab_state unit :=
  bin ← get_bin bin_idx;
  phys ← on_mem km_alloc;
  s ← get;
  let slab_virt := u64 (SLAB_VIRT_START + slab_top s) in
  let slab_virt_end := u64 (slab_virt + VMM_DEFAULT_PAGE_SIZE) in
  _ ← on_mem (km_map phys slab_virt VMM_FLAGS_KERNEL_DATA);
  _ ← modify (fun s => SlabState (st_bins s) (u64 (slab_top s + VMM_DEFAULT_PAGE_SIZE)) (st_mem s));
  let slab := slab_virt in
  _ ← poke 4 (count_objects slab) 0;
  _ ← poke 8 (slab_phys slab) phys;
  _ ← poke 2 (slab_bin slab) bin_idx;
  _ ← for_range (slab_virt + sizeof_SlabHeader) slab_virt_end (object_size bin) (fun i =>
        poke 8 i (u64 (i + object_size bin)));
  _ ← poke 8 (u64 (slab_virt_end - object_size bin)) 0;
  _ ← poke 8 (next_free slab) (slab_virt + sizeof_SlabHeader);
  _ ← poke 8 (next_slab slab) (free_slabs bin);
  _ ← poke 8 (prev_slab slab) 0;
  _ ← whenM (negb (free_slabs bin =? 0)) (poke 8 (prev_slab (free_slabs bin)) slab);
  set_free bin_idx slab.

(** The stores that put a slab in front of a list with first slab [head]. *)
Definition slab_push (slab head : Z) : M slab_state unit :=
  _ ← whenM (negb (head =? 0)) (poke 8 (prev_slab head) slab);
  _ ← poke 8 (next_slab slab) head;
  poke 8 (prev_slab slab) 0.

(** The stores that take a slab out of its list. *)
Definition slab_unlink (slab : Z) : M slab_state unit :=
  next ← peek 8 (next_slab slab);
  _ ← whenM (negb (next =? 0)) (prev ← peek 8 (prev_slab slab); poke 8 (prev_slab next) prev);
  prev ← peek 8 (prev_slab slab);
  whenM (negb (prev =? 0)) (next ← peek 8 (next_slab slab); poke 8 (next_slab prev) next).

(** The block of [bin_alloc] that moves a slab which has become full. *)
Definition slab_to_full (bin_idx slab : Z) (bin : BinHeader) : M slab_state unit :=
  next ← peek 8 (next_slab slab);
  _ ← set_free bin_idx next;
  _ ← whenM (negb (next =? 0)) (poke 8 (prev_slab next) 0);
  _ ← slab_push slab (full_slabs bin);
  set_full bin_idx slab.

(** The blocks of [bin_free]: a slab that was full moves to the other list, and a slab
    without objects is given back. *)
Definition slab_to_free (bin_idx slab : Z) (bin : BinHeader) : M slab_state unit :=
  _ ← whenM (full_slabs bin =? slab) (next ← peek 8 (next_slab slab); set_full bin_idx next);
  _ ← slab_unlink slab;
  _ ← slab_push slab (free_slabs bin);
  set_free bin_idx slab.

Definition slab_release (bin_idx slab : Z) : M slab_state unit :=
  bin ← get_bin bin_idx;
  _ ← whenM (free_slabs bin =? slab) (next ← peek 8 (next_slab slab); set_free bin_idx next);
  _ ← slab_unlink slab;
  phys ← peek 8 (slab_phys slab);
  _ ← on_mem (km_free phys);
  on_mem (km_unmap slab).

(** The rest of [bin_alloc]: take the first free object of the first slab. *)
Definition take_object (bin_idx : Z) : M slab_state Z :=
  bin ← get_bin bin_idx;
  let slab := free_slabs bin in
  addr ← peek 8 (next_free slab);
  next ← peek 8 addr;
  _ ← poke 8 (next_free slab) next;
  count ← peek 4 (count_objects (slab_of addr));
  _ ← poke 4 (count_objects (slab_of addr)) (u32 (count + 1));
  count ← peek 4 (count_objects slab);
  _ ← whenM (count =? max_objects bin) (slab_to_full bin_idx slab bin);
  mret addr.

Definition bin_alloc (bin_idx : Z) : M slab_state Z :=
  s ← get;
  if debug && (SLAB_TOTAL_BINS <=? bin_idx) then panic else
  if debug && (u64 (SLAB_VIRT_END - VMM_DEFAULT_PAGE_SIZE) <=? slab_top s) then panic else
  bin ← get_bin bin_idx;
  _ ← whenM (free_slabs bin =? 0) (new_slab bin_idx);
  take_object bin_idx.

Definition bin_free (addr : Z) : M slab_state bool :=
  if debug && ((addr <? SLAB_VIRT_START) || (SLAB_VIRT_END <? addr)) then panic else
  let slab := slab_of addr in
  bin_idx ← peek 2 (slab_bin slab);
  if debug && (SLAB_TOTAL_BINS <=? bin_idx) then panic else
  bin ← get_bin bin_idx;
  count ← peek 4 (count_objects slab);
  let was_full := count =? max_objects bin in
  next ← peek 8 (next_free slab);
  _ ← poke 8 addr next;
  _ ← poke 8 (next_free slab) addr;
  count ← peek 4 (count_objects slab);
  _ ← poke 4 (count_objects slab) (u32 (count - 1));
  _ ← whenM was_full (slab_to_free bin_idx slab bin);
  count ← peek 4 (count_objects slab);
  _ ← whenM (count =? 0) (slab_release bin_idx slab);
  mret true.

(** ** kmalloc *)

Definition kmalloc (num_bytes : Z) : M slab_state Z :=
  if num_bytes =? 0 then panic else
  if num_bytes <=? 8 then bin_alloc 0 else
  if num_bytes <=? 16 then bin_alloc 1 else
  if num_bytes <=? 24 then bin_alloc 2 else
  if num_bytes <=? 32 then bin_alloc 3 else
  if num_bytes <=? 40 then bin_alloc 4 else
  if num_bytes <=? 48 then bin_alloc 5 else
  if num_bytes <=? 56 then bin_alloc 6 else
  if num_bytes <=? 64 then bin_alloc 7 else
  if num_bytes <=? 80 then bin_alloc 8 else
  if num_bytes <=? 96 then bin_alloc 9 else
  if num_bytes <=? 112 then bin_alloc 10 else
  if num_bytes <=? 128 then bin_alloc 11 else
  if num_bytes <=? 160 then bin_alloc 12 else
  if num_bytes <=? 192 then bin_alloc 13 else
  if num_bytes <=? 224 then bin_alloc 14 else
  if num_bytes <=? 256 then bin_alloc 15 else
  if num_bytes <=? 320 then bin_alloc 16 else
  if num_bytes <=? 384 then bin_alloc 17 else
  if num_bytes <=? 448 then bin_alloc 18 else
  if num_bytes <=? 512 then bin_alloc 19 else
  if num_bytes <=? 640 then bin_alloc 20 else
  if num_bytes <=? 768 then bin_alloc 21 else
  if num_bytes <=? 896 then bin_alloc 22 else
  if num_bytes <=? 1024 then bin_alloc 23 else
  panic.

Definition kfree (ptr : Z) : M slab_state unit := _ ← bin_free ptr; mret tt.
End slab.
Arguments slab_state H : clear implicits.
Arguments SlabState {H} st_bins slab_top st_mem.
