(* ===== verification/SlabLists.v ===== *)
(** * The linked lists of the slab allocator

    Words in memory, the doubly linked lists of slabs ([dlist]) and the chains of
    free objects ([chain]), and what [slab_push] and [slab_unlink] do to them.  The
    stores of a list operation touch link fields only ([links_only]), so the slabs'
    contents and the other lists are unaffected. *)
From S2P Require Import Prelude Common Memory Interfaces Vmm KernelMemory Slab.
From Stdlib Require Import ZArith Lia.
From stdpp Require Import base tactics list numbers gmap.

Open Scope Z_scope.

(** ** Words *)

Definition ld (n : nat) (m : mem) (a : Z) : Z := le_word (load m a n).
Definition sto (n : nat) (m : mem) (a v : Z) : mem := store m a (le_bytes n v).

Lemma ld_sto_same n m a v : 0 <= v < 2 ^ (8 * Z.of_nat n) -> ld n (sto n m a v) a = v.
Proof.
  intros Hv. unfold ld, sto. pose proof (load_store_same m a (le_bytes n v)) as Hl.
  rewrite length_le_bytes in Hl. rewrite Hl, le_word_bytes. by apply Z.mod_small.
Qed.

Lemma ld_ext n m m' a : (forall x, a <= x < a + Z.of_nat n -> m' x = m x) -> ld n m' a = ld n m a.
Proof. intros Hx. unfold ld. f_equal. by apply load_ext. Qed.

Lemma sto_out n m a v x : x < a \/ a + Z.of_nat n <= x -> sto n m a v x = m x.
Proof. intros Hx. apply store_out. rewrite length_le_bytes. lia. Qed.

Lemma ld_sto_other n k m a b v :
  b + Z.of_nat n <= a \/ a + Z.of_nat k <= b -> ld n (sto k m a v) b = ld n m b.
Proof. intros Hd. apply ld_ext. intros x Hx. apply sto_out. lia. Qed.

(** ** Lists of slabs *)

Definition hd_or (n : Z) (l : list Z) : Z := match l with [] => n | x :: _ => x end.
Definition last_or (p : Z) (l : list Z) : Z := default p (last l).

Fixpoint dlist (m : mem) (prev : Z) (l : list Z) (next : Z) : Prop :=
  match l with
  | [] => True
  | s :: l => ld 8 m (prev_slab s) = prev /\ ld 8 m (next_slab s) = hd_or next l /\ dlist m s l next
  end.

(** Chains of free objects; what follows the last one does not matter. *)
Fixpoint chain (m : mem) (a : Z) (l : list Z) : Prop :=
  match l with
  | [] => True
  | x :: l => a = x /\ chain m (ld 8 m x) l
  end.

(** Addresses a slab can have. *)
Definition slab_addr (s : Z) : Prop := 0 < s < 2 ^ 64 - 8192 /\ s mod 4096 = 0.

(** The link fields of the slabs of [X] are all that differs. *)
Definition links_only (X : list Z) (m m' : mem) : Prop :=
  forall x, (forall t, t ∈ X -> ~ t + 16 <= x < t + 32) -> m' x = m x.

Lemma slab_addr_far s t x : slab_addr s -> slab_addr t -> s <> t -> s <= x < s + 4096 -> ~ t <= x < t + 4096.
Proof. intros [_ Hs] [_ Ht] Hne Hx Hx'. dlia. Qed.

Lemma last_or_cons p x l : last_or p (x :: l) = last_or x l.
Proof. unfold last_or. by destruct l as [|y l]; [|rewrite last_cons_cons; destruct (last (y :: l)) eqn:E; [|apply last_None in E]]. Qed.

Lemma last_or_snoc p l x : last_or p (l ++ [x]) = x.
Proof. unfold last_or. by rewrite last_snoc. Qed.

Lemma dlist_app m l1 l2 n : forall p,
  dlist m p (l1 ++ l2) n <-> dlist m p l1 (hd_or n l2) /\ dlist m (last_or p l1) l2 n.
Proof.
  induction l1 as [|x l1 IH]; intros p; [cbn; tauto|]. cbn [app dlist]. rewrite IH, last_or_cons.
  replace (hd_or n (l1 ++ l2)) with (hd_or (hd_or n l2) l1) by (by destruct l1). tauto.
Qed.

Lemma dlist_ext m m' l n : forall p,
  (forall t x, t ∈ l -> t + 16 <= x < t + 32 -> m' x = m x) -> dlist m p l n -> dlist m' p l n.
Proof.
  induction l as [|s l IH]; intros p Hx; [done|]. cbn [dlist]. intros (Hp & Hn & Hl).
  split; [rewrite <- Hp|split; [rewrite <- Hn|]].
  - apply ld_ext. intros x Hr. apply (Hx s); [by left|]. unfold prev_slab in Hr. lia.
  - apply ld_ext. intros x Hr. apply (Hx s); [by left|]. unfold next_slab in Hr. lia.
  - apply IH; [|done]. intros t x Ht. apply Hx. by right.
Qed.

Lemma dlist_frame X m m' p l n :
  links_only X m m' -> Forall slab_addr X -> Forall slab_addr l -> (forall t, t ∈ l -> t ∉ X) ->
  dlist m p l n -> dlist m' p l n.
Proof.
  intros Hm HX Hl Hd. apply dlist_ext. intros t x Ht Hx. apply Hm. intros s Hs Hr.
  rewrite list.Forall_forall in HX, Hl. destruct (decide (t = s)) as [->|Hne]; [by destruct (Hd s Ht)|].
  apply (slab_addr_far t s x); [by apply Hl|by apply HX|done|lia..].
Qed.

(** Changing the links of the slabs [X] and the contents of anything else. *)
Lemma links_only_trans X Y Z m1 m2 m3 :
  links_only X m1 m2 -> links_only Y m2 m3 -> X ⊆ Z -> Y ⊆ Z -> links_only Z m1 m3.
Proof.
  intros H1 H2 HX HY x Hx. rewrite H2 by (intros t Ht; apply Hx; by apply HY).
  apply H1. intros t Ht. apply Hx. by apply HX.
Qed.

Lemma links_only_next X m s v : s ∈ X -> links_only X m (sto 8 m (next_slab s) v).
Proof. intros Hs x Hx. apply sto_out. specialize (Hx s Hs). unfold next_slab. lia. Qed.

Lemma links_only_prev X m s v : s ∈ X -> links_only X m (sto 8 m (prev_slab s) v).
Proof. intros Hs x Hx. apply sto_out. specialize (Hx s Hs). unfold prev_slab. lia. Qed.

Lemma links_only_refl X m : links_only X m m.
Proof. by intros x _. Qed.

(** Redirecting the ends of a segment. *)
Lemma dlist_set_prev m p p' x l n :
  Forall slab_addr (x :: l) -> x ∉ l -> 0 <= p' < 2 ^ 64 ->
  dlist m p (x :: l) n -> dlist (sto 8 m (prev_slab x) p') p' (x :: l) n.
Proof.
  intros Hal Hx Hp (_ & Hn & Hl). apply list.Forall_cons in Hal as [Hxa Hla]. cbn [dlist]. split; [|split].
  - by apply ld_sto_same.
  - rewrite ld_sto_other; [done|]. unfold next_slab, prev_slab. lia.
  - eapply (dlist_frame [x]); [apply links_only_prev; by left|by apply list.Forall_singleton|done| |done].
    intros t Ht ->%list_elem_of_singleton. done.
Qed.

Lemma dlist_set_next m p x l n n' :
  Forall slab_addr (l ++ [x]) -> x ∉ l -> 0 <= n' < 2 ^ 64 ->
  dlist m p (l ++ [x]) n -> dlist (sto 8 m (next_slab x) n') p (l ++ [x]) n'.
Proof.
  rewrite list.Forall_app, !dlist_app. intros [Hla Hxa] Hx Hn (Hl & Hp & _ & _). cbn [hd_or dlist] in *. split; [|split; [|split; [|done]]].
  - eapply (dlist_frame [x]); [apply links_only_next; by left|done|done| |done].
    intros t Ht ->%list_elem_of_singleton. done.
  - rewrite ld_sto_other; [done|]. unfold next_slab, prev_slab. lia.
  - by apply ld_sto_same.
Qed.

(** ** Runs *)
Section runs.
Context {H : Type} `{KernelMemory SLAB_VIRT_START SLAB_VIRT_END H}.
Implicit Types (w : window) (hm : H) (m : mem).

(** A page of the heap: mapped and owned. *)
Definition slab_page w (s : Z) : Prop := slab_addr s /\ exists p, w_pages w !! s = Some p /\ p ∈ w_owned w.

Lemma page_of_slab s x : slab_addr s -> s <= x < s + 4096 -> page_of x = s.
Proof. intros [_ Hs] Hx. replace x with (s + (x - s)) by lia. apply page_of_aligned; [done|lia]. Qed.

Lemma slab_mapped w s a n : slab_page w s -> s <= a -> a + n <= s + 4096 -> mapped_range w a n.
Proof.
  intros [Hs (p & Hp & Ho)] Ha Hn x Hx. exists p. rewrite (page_of_slab s); [done|done|lia].
Qed.

Lemma peek_run w bs tp hm s a n : km_rep hm w -> slab_page w s -> s <= a -> a + Z.of_nat n <= s + 4096 ->
  peek n a (SlabState bs tp hm) = Ok (ld n (w_view w) a, SlabState bs tp hm).
Proof.
  intros Hr Hs Ha Hn. unfold peek, on_mem. munfold. cbn [st_mem st_bins slab_top].
  by rewrite (km_load_ok hm w) by (done || by eapply slab_mapped).
Qed.

Lemma poke_run w bs tp hm s a n v : km_rep hm w -> slab_page w s -> s <= a -> a + Z.of_nat n <= s + 4096 ->
  exists hm', poke n a v (SlabState bs tp hm) = Ok (tt, SlabState bs tp hm') /\
    km_rep hm' (set_view w (sto n (w_view w) a v)).
Proof.
  intros Hr Hs Ha Hn. unfold poke, on_mem. cbn [st_mem st_bins slab_top].
  destruct (km_store_ok hm w a (le_bytes n v)) as (hm' & -> & Hr'); [done| |apply le_bytes_ok|by exists hm'].
  rewrite length_le_bytes. by eapply slab_mapped.
Qed.

Lemma slab_page_view w m s : slab_page (set_view w m) s <-> slab_page w s.
Proof. done. Qed.

Lemma slab_page_addr w l : Forall (slab_page w) l -> Forall slab_addr l.
Proof. intros Hl. eapply Forall_impl; [exact Hl|]. by intros x [? _]. Qed.

Lemma slab_addr_nonzero s : slab_addr s -> (s =? 0) = false.
Proof. intros [? _]. lia. Qed.

Lemma set_view_twice w m m' : set_view (set_view w m) m' = set_view w m'.
Proof. done. Qed.

(** [slab_push] puts the slab in front. *)
Lemma slab_push_run bs tp hm w s l :
  km_rep hm w -> Forall (slab_page w) (s :: l) -> NoDup (s :: l) -> dlist (w_view w) 0 l 0 ->
  exists hm' m', slab_push s (hd_or 0 l) (SlabState bs tp hm) = Ok (tt, SlabState bs tp hm') /\
    km_rep hm' (set_view w m') /\ dlist m' 0 (s :: l) 0 /\ links_only (s :: l) (w_view w) m'.
Proof.
  intros Hr Hp Hnd Hl. pose proof (slab_page_addr _ _ Hp) as Ha.
  apply list.Forall_cons in Hp as [Hs Hp]. apply list.Forall_cons in Ha as [Hsa Ha]. apply NoDup_cons in Hnd as [Hsl Hnd].
  assert (0 <= s < 2 ^ 64) as Hs64 by (destruct Hsa; lia). unfold slab_push.
  assert (exists hm1 m1, whenM (negb (hd_or 0 l =? 0)) (poke 8 (prev_slab (hd_or 0 l)) s) (SlabState bs tp hm)
      = Ok (tt, SlabState bs tp hm1) /\ km_rep hm1 (set_view w m1) /\ dlist m1 s l 0 /\ links_only l (w_view w) m1)
    as (hm1 & m1 & Hrun1 & Hr1 & Hl1 & Ho1).
  { destruct l as [|x l]; [exists hm, (w_view w); by destruct w|]. cbn [hd_or].
    apply list.Forall_cons in Hp as [Hx Hp]. rewrite (slab_addr_nonzero x) by apply Hx. cbn [negb whenM].
    destruct (poke_run w bs tp hm x (prev_slab x) 8 s) as (hm1 & Hrun & Hr1);
      [done|done|unfold prev_slab; lia|unfold prev_slab; lia|].
    exists hm1. eexists. split; [done|]. split; [exact Hr1|]. split; [|apply links_only_prev; by left].
    eapply dlist_set_prev; [done|by apply NoDup_cons in Hnd as [? _]|done|done]. }
  rewrite (bind_run _ _ _ _ _ Hrun1).
  destruct (poke_run (set_view w m1) bs tp hm1 s (next_slab s) 8 (hd_or 0 l)) as (hm2 & Hrun2 & Hr2);
    [done|done|unfold next_slab; lia|unfold next_slab; lia|].
  rewrite (bind_run _ _ _ _ _ Hrun2).
  destruct (poke_run (set_view (set_view w m1) (sto 8 m1 (next_slab s) (hd_or 0 l))) bs tp hm2 s (prev_slab s) 8 0)
    as (hm3 & Hrun3 & Hr3); [done|done|unfold prev_slab; lia|unfold prev_slab; lia|].
  exists hm3. eexists. split; [exact Hrun3|]. split; [exact Hr3|]. cbn [w_view set_view].
  set (m2 := sto 8 m1 (next_slab s) (hd_or 0 l)) in *.
  assert (links_only [s] m1 (sto 8 m2 (prev_slab s) 0)) as Hs2.
  { eapply (links_only_trans [s] [s] _ _ m2); [apply links_only_next; by left|apply links_only_prev; by left|done|done]. }
  split.
  - cbn [dlist]. split; [by apply ld_sto_same|]. split.
    + rewrite ld_sto_other by (unfold next_slab, prev_slab; lia). apply ld_sto_same.
      destruct l as [|x l]; [done|]. cbn [hd_or]. apply list.Forall_cons in Ha as [[? _] _]. lia.
    + eapply (dlist_frame [s]); [done|by apply list.Forall_singleton|done| |done].
      intros t Ht ->%list_elem_of_singleton. done.
  - eapply links_only_trans; [exact Ho1|exact Hs2|set_solver|set_solver].
Qed.

(** [slab_unlink] joins the two sides. *)
Lemma slab_unlink_run bs tp hm w l1 s l2 :
  km_rep hm w -> Forall (slab_page w) (l1 ++ s :: l2) -> NoDup (l1 ++ s :: l2) ->
  dlist (w_view w) 0 (l1 ++ s :: l2) 0 ->
  exists hm' m', slab_unlink s (SlabState bs tp hm) = Ok (tt, SlabState bs tp hm') /\
    km_rep hm' (set_view w m') /\ dlist m' 0 (l1 ++ l2) 0 /\ links_only (l1 ++ l2) (w_view w) m'.
Proof.
  intros Hr Hp Hnd Hl. pose proof (slab_page_addr _ _ Hp) as Ha.
  apply list.Forall_app in Hp as [Hp1 Hp2]. apply list.Forall_cons in Hp2 as [Hs Hp2].
  apply list.Forall_app in Ha as [Ha1 Ha2]. apply list.Forall_cons in Ha2 as [Hsa Ha2].
  apply list.NoDup_app in Hnd as (Hn1 & Hd & Hn2). apply NoDup_cons in Hn2 as [Hs2 Hn2].
  apply dlist_app in Hl as [Hl1 Hl2]. cbn [hd_or dlist] in Hl1, Hl2. destruct Hl2 as (Hprev & Hnext & Hl2).
  assert (s ∉ l1) as Hs1 by (intros ?; eapply Hd; [done|by left]).
  assert (0 <= last_or 0 l1 < 2 ^ 64 /\ (l1 = [] -> last_or 0 l1 = 0)) as [Hlast Hlast0].
  { split; [|by intros ->]. destruct l1 as [|x l1' _] using rev_ind; [done|]. rewrite last_or_snoc.
    apply list.Forall_app in Ha1 as [_ [? _]%list.Forall_singleton]. lia. }
  assert (0 <= hd_or 0 l2 < 2 ^ 64) as Hhd.
  { destruct l2 as [|x l2]; [done|]. apply list.Forall_cons in Ha2 as [[? _] _]. cbn [hd_or]. lia. }
  unfold slab_unlink.
  rewrite (bind_run _ _ _ _ _ (peek_run w bs tp hm s (next_slab s) 8 Hr Hs ltac:(unfold next_slab; lia) ltac:(unfold next_slab; lia))).
  rewrite Hnext.
  assert (exists hm1 m1, whenM (negb (hd_or 0 l2 =? 0)) (prev ← peek 8 (prev_slab s); poke 8 (prev_slab (hd_or 0 l2)) prev)
      (SlabState bs tp hm) = Ok (tt, SlabState bs tp hm1) /\ km_rep hm1 (set_view w m1) /\
      dlist m1 (last_or 0 l1) l2 0 /\ links_only l2 (w_view w) m1) as (hm1 & m1 & Hrun1 & Hr1 & Hm2 & Ho1).
  { destruct l2 as [|x l2]; [exists hm, (w_view w); by destruct w|]. cbn [hd_or].
    apply list.Forall_cons in Hp2 as [Hx Hp2]. rewrite (slab_addr_nonzero x) by apply Hx. cbn [negb whenM].
    rewrite (bind_run _ _ _ _ _ (peek_run w bs tp hm s (prev_slab s) 8 Hr Hs ltac:(unfold prev_slab; lia) ltac:(unfold prev_slab; lia))).
    rewrite Hprev. destruct (poke_run w bs tp hm x (prev_slab x) 8 (last_or 0 l1)) as (hm1 & Hrun & Hr1);
      [done|done|unfold prev_slab; lia|unfold prev_slab; lia|].
    exists hm1. eexists. split; [done|]. split; [exact Hr1|]. split; [|apply links_only_prev; by left].
    eapply dlist_set_prev; [done|by apply NoDup_cons in Hn2 as [? _]|done|done]. }
  rewrite (bind_run _ _ _ _ _ Hrun1).
  assert (ld 8 m1 (prev_slab s) = last_or 0 l1 /\ ld 8 m1 (next_slab s) = hd_or 0 l2) as [Hprev1 Hnext1].
  { rewrite <- Hprev, <- Hnext. split; apply ld_ext; intros x Hx; apply Ho1; intros t Ht Hr';
      rewrite list.Forall_forall in Ha2; (apply (slab_addr_far s t x); [done|by apply Ha2|congruence|..];
      unfold prev_slab, next_slab in Hx; lia). }
  rewrite (bind_run _ _ _ _ _ (peek_run (set_view w m1) bs tp hm1 s (prev_slab s) 8 Hr1 Hs ltac:(unfold prev_slab; lia) ltac:(unfold prev_slab; lia))).
  cbn [w_view set_view]. rewrite Hprev1.
  assert (dlist m1 0 l1 s) as Hm1.
  { eapply (dlist_frame l2); [done..| |done]. intros t Ht Ht'. eapply Hd; [done|by right]. }
  destruct l1 as [|x l1' _] using rev_ind.
  - exists hm1, m1. by rewrite Hlast0.
  - rewrite last_or_snoc in *. assert (slab_page w x) as Hx. { apply list.Forall_app in Hp1 as [_ Hq]. by inversion Hq. }
    rewrite (slab_addr_nonzero x) by apply Hx. cbn [negb whenM].
    rewrite (bind_run _ _ _ _ _ (peek_run (set_view w m1) bs tp hm1 s (next_slab s) 8 Hr1 Hs ltac:(unfold next_slab; lia) ltac:(unfold next_slab; lia))).
    cbn [w_view set_view]. rewrite Hnext1.
    destruct (poke_run (set_view w m1) bs tp hm1 x (next_slab x) 8 (hd_or 0 l2)) as (hm2 & Hrun & Hr2);
      [done|done|unfold next_slab; lia|unfold next_slab; lia|].
    exists hm2. eexists. split; [exact Hrun|]. split; [exact Hr2|]. cbn [w_view set_view]. split.
    + apply dlist_app. rewrite last_or_snoc. split.
      * eapply dlist_set_next; [done| |done|exact Hm1]. apply list.NoDup_app in Hn1 as (_ & Hn & _).
        intros Hx'. eapply Hn; [exact Hx'|by left].
      * eapply (dlist_frame [x]); [apply links_only_next; by left| |done| |done]; [apply list.Forall_singleton, Hx|].
        intros t Ht ->%list_elem_of_singleton. eapply (Hd x); [set_solver|by right].
    + eapply links_only_trans; [exact Ho1|apply (links_only_next [x]); by left|set_solver|set_solver].
Qed.
End runs.
