(* ===== verification/SlabProofs.v ===== *)
(** * The invariant of the slab allocator

    [slab_ok] describes one slab page (header, chain of free objects), [bin_ok] the
    lists of one bin, [heap_inv] the whole allocator.  [live] says which objects
    are handed out.  The main lemmas run [take_object], [new_slab] and [bin_free]
    from a state that satisfies the invariant. *)
From S2P Require Import Prelude Common Memory Interfaces Vmm KernelMemory Slab SlabLists.
From Stdlib Require Import ZArith Lia.
From stdpp Require Import base tactics list numbers gmap.

Open Scope Z_scope.

(** ** Bins *)

Definition bsize (b : Z) : Z := default 8 (object_size <$> bins !! Z.to_nat b).
Definition bmax (b : Z) : Z := (4096 - 48) / bsize b.

Definition mk_bin (b free full : Z) : BinHeader :=
  {| object_size := bsize b; max_objects := bmax b; free_slabs := free; full_slabs := full |}.

Lemma bin_facts b : 0 <= b < 24 ->
  8 <= bsize b <= 1024 /\ bsize b mod 8 = 0 /\ 3 <= bmax b <= 506 /\ bmax b * bsize b <= 4048 < (bmax b + 1) * bsize b /\
  bins !! Z.to_nat b = Some (mk_bin b 0 0).
Proof.
  intros Hb. assert (Forall (fun b => 8 <= bsize b <= 1024 /\ bsize b mod 8 = 0 /\ 3 <= bmax b <= 506 /\
    bmax b * bsize b <= 4048 < (bmax b + 1) * bsize b /\ bins !! Z.to_nat b = Some (mk_bin b 0 0)) (seqZ 0 24)) as Hall.
  { repeat (apply Forall_cons_2; [vm_compute; intuition congruence|]). by apply Forall_nil_2. }
  rewrite list.Forall_forall in Hall. apply Hall, elem_of_seqZ. lia.
Qed.

(** The objects of a slab. *)
Definition is_obj (b s a : Z) : Prop := exists k, 0 <= k < bmax b /\ a = s + 48 + k * bsize b.

Lemma obj_bounds b s a : 0 <= b < 24 -> is_obj b s a -> s + 48 <= a /\ a + bsize b <= s + 4096.
Proof. intros Hb (k & Hk & ->). destruct (bin_facts b Hb) as (? & _ & ? & ? & _). nia. Qed.

Lemma obj_disjoint b s a a' : 0 <= b < 24 -> is_obj b s a -> is_obj b s a' -> a <> a' ->
  a + bsize b <= a' \/ a' + bsize b <= a.
Proof.
  intros Hb (k & Hk & ->) (k' & Hk' & ->) Hne. destruct (bin_facts b Hb) as (? & _). 
  assert (k < k' \/ k' < k) as [?|?] by (destruct (Z.lt_trichotomy k k') as [?|[->|?]]; tauto || lia); nia.
Qed.

Lemma slab_of_page a : slab_of a = page_of a.
Proof.
  unfold slab_of, page_of. rewrite <- Z.ldiff_land. change 0xFFF with (Z.ones 12).
  rewrite Z.ldiff_ones_r, Z.shiftr_div_pow2, Z.shiftl_mul_pow2 by lia. change (2 ^ 12) with 4096. dlia.
Qed.

(** ** The invariant *)

Record slab_ok (w : window) (b s : Z) (fr : list Z) : Prop := SlabOk {
  so_page : slab_page w s;
  so_phys : w_pages w !! s = Some (ld 8 (w_view w) (slab_phys s));
  so_bin : ld 2 (w_view w) (slab_bin s) = b;
  so_count : ld 4 (w_view w) (count_objects s) = bmax b - Z.of_nat (length fr);
  so_chain : chain (w_view w) (ld 8 (w_view w) (next_free s)) fr;
  so_objs : Forall (is_obj b s) fr;
  so_nodup : NoDup fr;
  so_length : Z.of_nat (length fr) <= bmax b;
}.

(** The lists of one bin: slabs with free objects (all free only for the exempt slab
    [e], which [bin_alloc] has just made) and full slabs. *)
Record bin_ok (e : option Z) (w : window) (b : Z) (F U : list Z) (O : Z -> list Z) : Prop := BinOk {
  bo_nodup : NoDup F /\ NoDup U;
  bo_links : dlist (w_view w) 0 F 0 /\ dlist (w_view w) 0 U 0;
  bo_free : forall s, s ∈ F -> slab_ok w b s (O s) /\ O s <> [] /\ (Z.of_nat (length (O s)) = bmax b -> e = Some s);
  bo_full : forall s, s ∈ U -> slab_ok w b s (O s) /\ O s = [];
}.

(** Ghost state: the lists of every bin and the free objects of every slab. *)
Record ghost := Ghost {
  g_free : Z -> list Z;
  g_full : Z -> list Z;
  g_objs : Z -> list Z;
}.

Definition fset {A} (f : Z -> A) (k : Z) (v : A) : Z -> A := fun x => if decide (x = k) then v else f x.

Lemma fset_eq {A} (f : Z -> A) k v : fset f k v k = v.
Proof. unfold fset. by rewrite decide_True. Qed.
Lemma fset_ne {A} (f : Z -> A) k v x : x <> k -> fset f k v x = f x.
Proof. intros. unfold fset. by rewrite decide_False. Qed.

Definition in_bin (g : ghost) (b s : Z) : Prop := s ∈ g_free g b \/ s ∈ g_full g b.

Record heap_inv (e : option Z) (bs : list BinHeader) (tp : Z) (w : window) (g : ghost) : Prop := HeapInv {
  hi_settled : settled w;
  hi_top : 0 <= tp <= SLAB_VIRT_SIZE /\ tp mod 4096 = 0;
  hi_length : length bs = 24%nat;
  hi_head : forall b, 0 <= b < 24 -> bs !! Z.to_nat b = Some (mk_bin b (hd_or 0 (g_free g b)) (hd_or 0 (g_full g b)));
  hi_bin : forall b, 0 <= b < 24 -> bin_ok e w b (g_free g b) (g_full g b) (g_objs g);
  hi_pages : forall v p, w_pages w !! v = Some p ->
    SLAB_VIRT_START <= v < SLAB_VIRT_START + tp /\ v mod 4096 = 0 /\ exists b, 0 <= b < 24 /\ in_bin g b v;
  hi_owned : forall p, p ∈ w_owned w -> exists v, w_pages w !! v = Some p;
}.

(** Objects that are handed out. *)
Definition live (g : ghost) (b a : Z) : Prop :=
  0 <= b < 24 /\ exists s, in_bin g b s /\ is_obj b s a /\ a ∉ g_objs g s.

(** Bytes outside [R] and outside the link fields of the slabs [X] are unchanged. *)
Definition touched (R : Z -> Prop) (X : list Z) (m m' : mem) : Prop :=
  forall x, ~ R x -> (forall t, t ∈ X -> ~ t + 16 <= x < t + 32) -> m' x = m x.

(** ** Frame lemmas *)

Lemma chain_ext m m' l : forall a,
  (forall x y, x ∈ l -> x <= y < x + 8 -> m' y = m y) -> chain m a l -> chain m' a l.
Proof.
  induction l as [|x l IH]; intros a Hx; [done|]. cbn [chain]. intros [-> Hc]. split; [done|].
  rewrite (ld_ext 8 m m' x) by (intros y Hy; apply (Hx x); [by left|lia]).
  apply IH; [|done]. intros z y Hz. apply Hx. by right.
Qed.

Lemma slab_ok_in_bin e bs tp w g b s : heap_inv e bs tp w g -> 0 <= b < 24 -> in_bin g b s -> slab_ok w b s (g_objs g s).
Proof.
  intros Hi Hb [Hs|Hs]; [apply (bo_free _ _ _ _ _ _ (hi_bin _ _ _ _ _ Hi b Hb) s Hs)|
    apply (bo_full _ _ _ _ _ _ (hi_bin _ _ _ _ _ Hi b Hb) s Hs)].
Qed.

Lemma slab_ok_ext w w' b s fr :
  0 <= b < 24 -> slab_ok w b s fr ->
  w_pages w' !! s = w_pages w !! s ->
  (forall p, w_pages w !! s = Some p -> p ∈ w_owned w -> p ∈ w_owned w') ->
  (forall x, s <= x < s + 4096 -> ~ s + 16 <= x < s + 32 -> w_view w' x = w_view w x) ->
  slab_ok w' b s fr.
Proof.
  intros Hb [[Ha (p & Hp & Ho)] Hph Hbin Hcnt Hch Hobj Hnd Hlen] Hpg Hown Hx. unfold slab_phys, slab_bin, count_objects, next_free in *.
  split; unfold slab_phys, slab_bin, count_objects, next_free; try done.
  - split; [done|]. exists p. rewrite Hpg. auto.
  - rewrite Hpg, Hph. f_equal. symmetry. apply ld_ext. intros x Hr. apply Hx; lia.
  - rewrite <- Hbin. apply ld_ext. intros x Hr. apply Hx; lia.
  - rewrite <- Hcnt. apply ld_ext. intros x Hr. apply Hx; lia.
  - rewrite (ld_ext 8 (w_view w) (w_view w')) by (intros x Hr; apply Hx; lia).
    eapply chain_ext; [|exact Hch]. intros x y Hxl Hy. rewrite list.Forall_forall in Hobj.
    destruct (obj_bounds b s x Hb (Hobj x Hxl)). destruct (bin_facts b Hb) as (? & _). apply Hx; lia.
Qed.

(** Slabs of different bins, and free and full slabs, are different pages. *)
Lemma slab_ok_unique w b b' s fr fr' : slab_ok w b s fr -> slab_ok w b' s fr' -> b = b' /\ length fr = length fr'.
Proof. intros H1 H2. pose proof (so_bin _ _ _ _ H1). pose proof (so_bin _ _ _ _ H2). subst b b'. split; [congruence|].
  pose proof (so_count _ _ _ _ H1). pose proof (so_count _ _ _ _ H2). lia. Qed.

Lemma in_bin_unique e bs tp w g b b' s : heap_inv e bs tp w g -> 0 <= b < 24 -> 0 <= b' < 24 ->
  in_bin g b s -> in_bin g b' s -> b = b'.
Proof.
  intros Hi Hb Hb' H1 H2. eapply slab_ok_unique; eapply slab_ok_in_bin; eassumption.
Qed.

Lemma free_not_full e w b F U O s : bin_ok e w b F U O -> s ∈ F -> s ∉ U.
Proof. intros Hbo HF HU. destruct (bo_free _ _ _ _ _ _ Hbo s HF) as (_ & Hn & _), (bo_full _ _ _ _ _ _ Hbo s HU) as [_ Hn']. done. Qed.

Lemma bin_pages e bs tp w g b : heap_inv e bs tp w g -> 0 <= b < 24 ->
  Forall (slab_page w) (g_free g b) /\ Forall (slab_page w) (g_full g b).
Proof.
  intros Hi Hb. split; apply list.Forall_forall; intros s Hs; eapply so_page, slab_ok_in_bin; try done; [by left|by right].
Qed.

(** A slab with unchanged contents, whatever happened to links. *)
Lemma slab_ok_touched w m' b s fr R X :
  0 <= b < 24 -> slab_ok w b s fr -> touched R X (w_view w) m' -> Forall slab_addr X ->
  (forall x, s <= x < s + 4096 -> ~ R x) -> slab_ok (set_view w m') b s fr.
Proof.
  intros Hb Hs Ht HX HR. eapply slab_ok_ext; [done|exact Hs|done|done|]. intros x Hx Hl. cbn [w_view set_view].
  apply Ht; [by apply HR|]. intros t HtX Hr. destruct (decide (t = s)) as [->|Hne]; [lia|].
  rewrite list.Forall_forall in HX. apply (slab_addr_far s t x); [apply Hs|by apply HX|done|lia..].
Qed.

(** ** The contents of one slab *)

Lemma slab_ok_data w m' b s fr fr' :
  slab_ok w b s fr -> (forall x, s + 32 <= x < s + 48 -> m' x = w_view w x) ->
  ld 4 m' (count_objects s) = bmax b - Z.of_nat (length fr') ->
  chain m' (ld 8 m' (next_free s)) fr' -> Forall (is_obj b s) fr' -> NoDup fr' -> Z.of_nat (length fr') <= bmax b ->
  slab_ok (set_view w m') b s fr'.
Proof.
  intros [Hpg Hph Hbin _ _ _ _ _] Hx Hc Hch Ho Hn Hl. unfold slab_phys, slab_bin in *.
  split; unfold slab_phys, slab_bin; cbn [w_view w_pages set_view]; try done.
  - rewrite Hph. f_equal. symmetry. apply ld_ext. intros x Hr. apply Hx. lia.
  - rewrite <- Hbin. apply ld_ext. intros x Hr. apply Hx. lia.
Qed.

Lemma obj_range w b s a : 0 <= b < 24 -> slab_page w s -> is_obj b s a -> 0 <= a < 2 ^ 64.
Proof. intros Hb [[Hs _] _] Ha. destruct (obj_bounds b s a Hb Ha). destruct (bin_facts b Hb) as (? & _). lia. Qed.

(** The head of a chain is a pointer the header can hold. *)
Lemma chain_hd m a l : chain m a l -> l <> [] -> a = hd_or 0 l.
Proof. by destruct l as [|x l]; [|intros [-> _]]. Qed.

(** The stores of [take_object] to the slab: its first free object leaves the chain. *)
Lemma slab_take w b s a fr :
  0 <= b < 24 -> slab_ok w b s (a :: fr) ->
  let m1 := sto 8 (w_view w) (next_free s) (ld 8 (w_view w) a) in
  let m2 := sto 4 m1 (count_objects s) (u32 (ld 4 m1 (count_objects s) + 1)) in
  slab_ok (set_view w m2) b s fr /\ touched (fun x => s <= x < s + 16) [] (w_view w) m2.
Proof.
  intros Hb Hs m1 m2. pose proof Hs as [Hpg Hph Hbin Hcnt Hch Hobj Hnd Hlen].
  destruct (bin_facts b Hb) as (Hsz & _ & Hmx & _). cbn [length] in Hcnt, Hlen.
  apply list.Forall_cons in Hobj as [Ha Hobj]. apply NoDup_cons in Hnd as [Haf Hnd].
  assert (touched (fun x => s <= x < s + 16) [] (w_view w) m2) as Ht.
  { intros x Hx _. unfold m2, m1, count_objects, next_free. by rewrite !sto_out by lia. }
  assert (ld 4 m1 (count_objects s) = bmax b - Z.of_nat (S (length fr))) as Hc1.
  { unfold m1. rewrite ld_sto_other by (unfold count_objects, next_free; lia). done. }
  split; [|done]. eapply slab_ok_data; [exact Hs| |..]; try done.
  - intros x Hx. apply Ht; [lia|]. by intros t Ht'%elem_of_nil.
  - unfold m2. rewrite Hc1, u32_id by lia. rewrite ld_sto_same by lia. lia.
  - assert (forall x y, x ∈ fr -> x <= y < x + 8 -> m2 y = w_view w y) as Hy.
    { intros x y Hx Hy. apply Ht; [|by intros t Ht'%elem_of_nil]. rewrite list.Forall_forall in Hobj.
      destruct (obj_bounds b s x Hb (Hobj x Hx)). lia. }
    destruct fr as [|x fr]; [done|]. destruct Hch as [_ Hch]. pose proof (chain_hd _ _ _ Hch ltac:(done)) as Hx.
    cbn [hd_or] in Hx. apply (chain_ext (w_view w)); [done|].
    unfold m2. rewrite ld_sto_other by (unfold count_objects, next_free; lia).
    unfold m1. rewrite ld_sto_same; [done|]. rewrite Hx. apply list.Forall_cons in Hobj as [Hox _].
    by eapply obj_range.
  - lia.
Qed.

(** The stores of [bin_free] to the slab: the object joins the chain. *)
Lemma slab_give w b s a fr :
  0 <= b < 24 -> slab_ok w b s fr -> is_obj b s a -> a ∉ fr ->
  let m1 := sto 8 (w_view w) a (ld 8 (w_view w) (next_free s)) in
  let m2 := sto 8 m1 (next_free s) a in
  let m3 := sto 4 m2 (count_objects s) (u32 (ld 4 m2 (count_objects s) - 1)) in
  Z.of_nat (length fr) < bmax b ->
  slab_ok (set_view w m3) b s (a :: fr) /\ touched (fun x => s <= x < s + 16 \/ a <= x < a + 8) [] (w_view w) m3.
Proof.
  intros Hb Hs Ha Haf m1 m2 m3 Hlen. pose proof Hs as [Hpg Hph Hbin Hcnt Hch Hobj Hnd _].
  destruct (bin_facts b Hb) as (Hsz & _ & Hmx & _). destruct (obj_bounds b s a Hb Ha) as [Ha1 Ha2].
  assert (touched (fun x => s <= x < s + 16 \/ a <= x < a + 8) [] (w_view w) m3) as Ht.
  { intros x Hx _. unfold m3, m2, m1, count_objects, next_free. by rewrite !sto_out by lia. }
  assert (ld 4 m2 (count_objects s) = bmax b - Z.of_nat (length fr)) as Hc1.
  { unfold m2, m1. rewrite !ld_sto_other by (unfold count_objects, next_free; lia). done. }
  split; [|done]. eapply slab_ok_data; [exact Hs|..].
  - intros x Hx. apply Ht; [lia|]. by intros t Ht'%elem_of_nil.
  - unfold m3. rewrite Hc1, u32_id by lia. rewrite ld_sto_same by lia. cbn [length]. lia.
  - cbn [chain]. split.
    { unfold m3. rewrite ld_sto_other by (unfold count_objects, next_free; lia).
      unfold m2. apply ld_sto_same. by eapply obj_range. }
    assert (forall x y, x ∈ fr -> x <= y < x + 8 -> m3 y = w_view w y) as Hy.
    { intros x y Hx Hy. apply Ht; [|by intros t Ht'%elem_of_nil]. rewrite list.Forall_forall in Hobj.
      destruct (obj_bounds b s x Hb (Hobj x Hx)).
      destruct (obj_disjoint b s x a Hb (Hobj x Hx) Ha) as [?|?]; [by intros ->|lia..]. }
    destruct fr as [|x fr]; [done|]. pose proof (chain_hd _ _ _ Hch ltac:(done)) as Hx. cbn [hd_or] in Hx.
    apply (chain_ext (w_view w)); [done|]. unfold m3, m2. rewrite !ld_sto_other by (unfold count_objects, next_free; lia).
    unfold m1. rewrite ld_sto_same; [done|]. rewrite Hx. apply list.Forall_cons in Hobj as [Hox _]. by eapply obj_range.
  - by constructor.
  - by constructor.
  - cbn [length]. lia.
Qed.

(** ** Updating one bin *)

Definition upd_bin (g : ghost) (b : Z) (F U : list Z) (O : Z -> list Z) : ghost :=
  Ghost (fset (g_free g) b F) (fset (g_full g) b U) O.

Lemma in_upd_bin g b F U O b' s :
  in_bin (upd_bin g b F U O) b' s <-> (b' = b /\ (s ∈ F \/ s ∈ U)) \/ (b' <> b /\ in_bin g b' s).
Proof.
  unfold in_bin, upd_bin. cbn [g_free g_full]. destruct (decide (b' = b)) as [->|Hne].
  - rewrite !fset_eq. tauto.
  - rewrite !fset_ne by done. tauto.
Qed.

(** The invariant after an operation on bin [b]: the bin is fine again, and the pages
    of the other bins were not touched. *)
Lemma heap_inv_bin e e' bs tp tp' w w' g b F U O :
  heap_inv e bs tp w g -> 0 <= b < 24 -> settled w' -> 0 <= tp' <= SLAB_VIRT_SIZE /\ tp' mod 4096 = 0 ->
  bin_ok e' w' b F U O -> (forall t, e = Some t -> in_bin g b t) ->
  (forall b' t, 0 <= b' < 24 -> b' <> b -> in_bin g b' t -> w_pages w' !! t = w_pages w !! t /\
     (forall p, w_pages w !! t = Some p -> p ∈ w_owned w') /\
     (forall x, t <= x < t + 4096 -> w_view w' x = w_view w x) /\ O t = g_objs g t) ->
  (forall v p, w_pages w' !! v = Some p -> SLAB_VIRT_START <= v < SLAB_VIRT_START + tp' /\ v mod 4096 = 0 /\
     (v ∈ F \/ v ∈ U \/ (is_Some (w_pages w !! v) /\ ~ in_bin g b v))) ->
  (forall p, p ∈ w_owned w' -> exists v, w_pages w' !! v = Some p) ->
  heap_inv e' (<[Z.to_nat b := mk_bin b (hd_or 0 F) (hd_or 0 U)]> bs) tp' w' (upd_bin g b F U O).
Proof.
  intros Hi Hb Hset Htop Hbo He Hother Hpg Hown. split; try done.
  - rewrite length_insert. apply Hi.
  - intros b' Hb'. cbn [g_free g_full upd_bin]. destruct (decide (b' = b)) as [->|Hne].
    + rewrite !fset_eq. apply list_lookup_insert_eq. rewrite (hi_length _ _ _ _ _ Hi). lia.
    + rewrite !fset_ne, list_lookup_insert_ne by (done || lia). by apply Hi.
  - intros b' Hb'. cbn [g_free g_full g_objs upd_bin]. destruct (decide (b' = b)) as [->|Hne]; [by rewrite !fset_eq|].
    rewrite !fset_ne by done. pose proof (hi_bin _ _ _ _ _ Hi b' Hb') as [Hnd [Hl1 Hl2] Hfr Hfu].
    assert (forall t, in_bin g b' t -> slab_ok w' b' t (O t)) as Hok.
    { intros t Ht. destruct (Hother b' t Hb' Hne Ht) as (E1 & E2 & E3 & ->).
      eapply slab_ok_ext; [done|by eapply slab_ok_in_bin|done|auto|]. intros x Hx _. by apply E3. }
    split; [done| | |].
    + split; (eapply dlist_ext; [|eassumption]); intros t x Ht Hx; (eapply (Hother b' t); [done|done| |lia]);
        [by left|by right].
    + intros t Ht. split; [apply Hok; by left|]. destruct (Hother b' t Hb' Hne (or_introl Ht)) as (_ & _ & _ & ->).
      destruct (Hfr t Ht) as (_ & Hn & Hex). split; [done|]. intros E. apply Hex in E. apply He in E.
      destruct Hne. eapply (in_bin_unique e bs tp w g b' b t); [done..|by left|done].
    + intros t Ht. split; [apply Hok; by right|]. destruct (Hother b' t Hb' Hne (or_intror Ht)) as (_ & _ & _ & ->).
      by apply Hfu.
  - intros v p Hv. destruct (Hpg v p Hv) as (E1 & E2 & Hin). split; [done|]. split; [done|].
    destruct Hin as [Hin|[Hin|[[q Hq] Hno]]].
    + exists b. split; [done|]. apply in_upd_bin. left. auto.
    + exists b. split; [done|]. apply in_upd_bin. left. auto.
    + destruct (hi_pages _ _ _ _ _ Hi v q Hq) as (_ & _ & b' & Hb' & Hin'). exists b'. split; [done|].
      apply in_upd_bin. right. split; [|done]. by intros ->.
Qed.

(** What lies outside the touched slab and the links of [X]. *)
Lemma touched_other R X s t m m' x :
  touched R X m m' -> (forall y, R y -> s <= y < s + 4096) -> slab_addr s -> Forall slab_addr X -> slab_addr t ->
  t <> s -> t ∉ X -> t <= x < t + 4096 -> m' x = m x.
Proof.
  intros Ht HR Hs HX Hta Hne HtX Hx. apply Ht.
  - intros HRx. apply (slab_addr_far t s x); auto.
  - intros u Hu Hr. rewrite list.Forall_forall in HX. apply (slab_addr_far t u x); [done|by apply HX|congruence|done|lia].
Qed.

Lemma touched_links R X Y Z m m1 m2 :
  touched R X m m1 -> links_only Y m1 m2 -> X ⊆ Z -> Y ⊆ Z -> touched R Z m m2.
Proof.
  intros Ht Hl HX HY x HR Hx. rewrite Hl by (intros t Hin; apply Hx; by apply HY).
  apply Ht; [done|]. intros t Hin. apply Hx. by apply HX.
Qed.

(** The invariant after touching slab [s] of bin [b] and links of the bin's slabs. *)
Lemma heap_inv_touched e e' bs tp w g b s m' F U fr R X :
  heap_inv e bs tp w g -> 0 <= b < 24 -> in_bin g b s -> (forall t, e = Some t -> t = s) ->
  touched R X (w_view w) m' -> (forall y, R y -> s <= y < s + 4096) -> (forall t, t ∈ X -> in_bin g b t) ->
  s ∈ F \/ s ∈ U -> (forall t, t <> s -> (t ∈ F <-> t ∈ g_free g b)) -> (forall t, t <> s -> (t ∈ U <-> t ∈ g_full g b)) ->
  NoDup F /\ NoDup U -> dlist m' 0 F 0 /\ dlist m' 0 U 0 ->
  slab_ok (set_view w m') b s fr ->
  (s ∈ F -> fr <> [] /\ (Z.of_nat (length fr) = bmax b -> e' = Some s)) -> (s ∈ U -> fr = []) ->
  heap_inv e' (<[Z.to_nat b := mk_bin b (hd_or 0 F) (hd_or 0 U)]> bs) tp (set_view w m')
    (upd_bin g b F U (fset (g_objs g) s fr)).
Proof.
  intros Hi Hb Hs He Ht HR HX HFU HF HU Hnd Hl Hok HsF HsU.
  assert (forall b' t, 0 <= b' < 24 -> in_bin g b' t -> slab_addr t) as Haddr.
  { intros b' t Hb' Hin. apply (so_page _ _ _ _ (slab_ok_in_bin _ _ _ _ _ _ _ Hi Hb' Hin)). }
  assert (Forall slab_addr X) as HXa by (apply list.Forall_forall; intros t Hin; eapply Haddr; eauto).
  pose proof (hi_bin _ _ _ _ _ Hi b Hb) as Hbo. pose proof (Haddr b s Hb Hs) as Hsa.
  assert (forall t, in_bin g b t -> t <> s -> slab_ok (set_view w m') b t (g_objs g t)) as Hkeep.
  { intros t Hin Hne. eapply (slab_ok_touched w m' b t _ R X); [done|by eapply slab_ok_in_bin|done|done|].
    intros x Hx HRx. apply (slab_addr_far t s x); [by eapply Haddr|done..|by apply HR]. }
  apply (heap_inv_bin e e' bs tp tp w); try done; try apply Hi.
  - split; [done|done| |].
    + intros t Htf. destruct (decide (t = s)) as [->|Hne]; [rewrite fset_eq; naive_solver|]. rewrite fset_ne by done.
      apply HF in Htf; [|done]. destruct (bo_free _ _ _ _ _ _ Hbo t Htf) as (_ & Hn & Hm).
      split; [apply Hkeep; [by left|done]|]. split; [done|intros E; destruct Hne; by apply He, Hm].
    + intros t Htu. destruct (decide (t = s)) as [->|Hne]; [rewrite fset_eq; naive_solver|]. rewrite fset_ne by done.
      apply HU in Htu; [|done]. destruct (bo_full _ _ _ _ _ _ Hbo t Htu) as (_ & Hn).
      split; [apply Hkeep; [by right|done]|done].
  - intros t ->%He. done.
  - intros b' t Hb' Hne Hin. assert (t <> s) as Hts by (intros ->; destruct Hne; by eapply in_bin_unique).
    split; [done|]. split; [intros p Hp; by apply (hi_settled _ _ _ _ _ Hi t)|]. split; [|by rewrite fset_ne].
    intros x Hx. eapply (touched_other R X s t); try done; [by eapply Haddr|].
    intros HtX%HX. destruct Hne. by eapply in_bin_unique.
  - intros v p Hv. destruct (hi_pages _ _ _ _ _ Hi v p Hv) as (E1 & E2 & b' & Hb' & Hin). split; [done|]. split; [done|].
    destruct (decide (v = s)) as [->|Hne]; [tauto|]. rewrite HF, HU by done.
    destruct (decide (v ∈ g_free g b)); [by left|]. destruct (decide (v ∈ g_full g b)); [by right; left|].
    right. right. split; [done|]. intros [?|?]; done.
Qed.

(** ** Runs of the operations *)

(** The fields of a slab are in its page. *)
Ltac field := unfold count_objects, next_free, next_slab, prev_slab, slab_phys, slab_bin in *; lia.

Section runs.
Context {H : Type} `{KernelMemory SLAB_VIRT_START SLAB_VIRT_END H} (debug : bool).
Implicit Types (w : window) (hm : H) (g : ghost).

Lemma get_bin_run bs tp hm b h : 0 <= b -> bs !! Z.to_nat b = Some h ->
  get_bin b (SlabState bs tp hm) = Ok (h, SlabState bs tp hm).
Proof. intros Hb Hh. unfold get_bin. munfold. cbn [st_bins]. by rewrite (proj2 (rd_Ok bs b h) (conj Hb Hh)). Qed.

Lemma put_bin_run bs tp hm b h h' : 0 <= b -> bs !! Z.to_nat b = Some h ->
  put_bin b h' (SlabState bs tp hm) = Ok (tt, SlabState (<[Z.to_nat b := h']> bs) tp hm).
Proof.
  intros Hb Hh%lookup_lt_Some. unfold put_bin. munfold. cbn [st_bins slab_top st_mem].
  rewrite wr_in_range by lia. done.
Qed.

Lemma set_free_run bs tp hm b f u x : 0 <= b -> bs !! Z.to_nat b = Some (mk_bin b f u) ->
  set_free b x (SlabState bs tp hm) = Ok (tt, SlabState (<[Z.to_nat b := mk_bin b x u]> bs) tp hm).
Proof. intros Hb Hh. unfold set_free. rewrite (bind_run _ _ _ _ _ (get_bin_run _ _ _ _ _ Hb Hh)). by eapply put_bin_run. Qed.

Lemma set_full_run bs tp hm b f u x : 0 <= b -> bs !! Z.to_nat b = Some (mk_bin b f u) ->
  set_full b x (SlabState bs tp hm) = Ok (tt, SlabState (<[Z.to_nat b := mk_bin b f x]> bs) tp hm).
Proof. intros Hb Hh. unfold set_full. rewrite (bind_run _ _ _ _ _ (get_bin_run _ _ _ _ _ Hb Hh)). by eapply put_bin_run. Qed.

Lemma whenM_false (c : bool) (m : M (slab_state H) unit) s : c = false -> whenM c m s = Ok (tt, s).
Proof. by intros ->. Qed.

(** Taking the first slab off the list of slabs with free objects. *)
Lemma pop_free_run bs tp hm w s l n :
  km_rep hm w -> Forall (slab_page w) l -> NoDup l -> dlist (w_view w) n l 0 ->
  exists hm' m', whenM (negb (hd_or 0 l =? 0)) (poke 8 (prev_slab (hd_or 0 l)) 0) (SlabState bs tp hm)
      = Ok (tt, SlabState bs tp hm') /\
    km_rep hm' (set_view w m') /\ dlist m' 0 l 0 /\ links_only (s :: l) (w_view w) m'.
Proof.
  intros Hr Hp Hnd Hl. destruct l as [|x l].
  - exists hm, (w_view w). split; [done|]. split; [by destruct w|]. split; [done|apply links_only_refl].
  - cbn [hd_or]. pose proof (slab_page_addr _ _ Hp) as Ha. apply list.Forall_cons in Hp as [Hx _]. apply NoDup_cons in Hnd as [Hxl _].
    rewrite (slab_addr_nonzero x) by apply Hx. cbn [negb whenM].
    destruct (poke_run w bs tp hm x (prev_slab x) 8 0) as (hm' & Hrun & Hr'); [done|done|field|field|].
    exists hm'. eexists. split; [exact Hrun|]. split; [exact Hr'|].
    split; [by eapply dlist_set_prev|apply links_only_prev; set_solver].
Qed.

(** Moving a slab to the list of full slabs. *)
Lemma slab_to_full_run bs tp hm w b s l U :
  km_rep hm w -> 0 <= b -> bs !! Z.to_nat b = Some (mk_bin b s (hd_or 0 U)) ->
  Forall (slab_page w) (s :: l) -> Forall (slab_page w) U -> NoDup (s :: l) -> NoDup (s :: U) -> (forall t, t ∈ l -> t ∉ U) ->
  dlist (w_view w) 0 (s :: l) 0 -> dlist (w_view w) 0 U 0 ->
  exists hm' m', slab_to_full b s (mk_bin b s (hd_or 0 U)) (SlabState bs tp hm)
      = Ok (tt, SlabState (<[Z.to_nat b := mk_bin b (hd_or 0 l) s]> bs) tp hm') /\
    km_rep hm' (set_view w m') /\ dlist m' 0 l 0 /\ dlist m' 0 (s :: U) 0 /\
    links_only ((s :: l) ++ U) (w_view w) m'.
Proof.
  intros Hr Hb Hhead HpF HpU HnF HnU Hd (_ & Hnx & HlF) HlU.
  pose proof (slab_page_addr _ _ HpF) as HaF. pose proof (slab_page_addr _ _ HpU) as HaU.
  apply list.Forall_cons in HpF as [Hs Hpl]. apply list.Forall_cons in HaF as [Hsa Hal].
  apply NoDup_cons in HnF as [Hsl Hnl]. unfold slab_to_full.
  rewrite (bind_run _ _ _ _ _ (peek_run w bs tp hm s (next_slab s) 8 Hr Hs ltac:(field) ltac:(field))). rewrite Hnx.
  rewrite (bind_run _ _ _ _ _ (set_free_run bs tp hm b _ _ (hd_or 0 l) Hb Hhead)).
  set (bs1 := <[Z.to_nat b := mk_bin b (hd_or 0 l) (hd_or 0 U)]> bs).
  destruct (pop_free_run bs1 tp hm w s l s Hr Hpl Hnl HlF) as (h1 & m1 & E1 & Hr1 & Hl1 & Ho1).
  rewrite (bind_run _ _ _ _ _ E1). cbn [full_slabs mk_bin].
  destruct (slab_push_run bs1 tp h1 (set_view w m1) s U) as (h2 & m2 & E2 & Hr2 & Hl2 & Ho2); [done|by constructor|done| |].
  { cbn [w_view set_view]. eapply (dlist_frame (s :: l)); [done|by constructor|done| |done]. intros t Ht Ht'.
    apply elem_of_cons in Ht' as [->|Ht']; [by apply NoDup_cons in HnU as [? _]|by eapply Hd]. }
  rewrite (bind_run _ _ _ _ _ E2). exists h2, m2.
  rewrite (set_full_run bs1 tp h2 b (hd_or 0 l) (hd_or 0 U)).
  - unfold bs1. rewrite list_insert_insert_eq. split; [done|]. split; [done|]. split; [|split; [done|]].
    + eapply (dlist_frame (s :: U)); [exact Ho2|by constructor|done| |exact Hl1].
      intros t Ht Ht'. apply elem_of_cons in Ht' as [->|Ht']; [done|by eapply Hd].
    + eapply links_only_trans; [exact Ho1|exact Ho2|set_solver|set_solver].
  - done.
  - apply list_lookup_insert_eq. by eapply lookup_lt_Some.
Qed.

Lemma take_object_run e bs tp hm w g b s l a fr :
  km_rep hm w -> heap_inv e bs tp w g -> 0 <= b < 24 -> g_free g b = s :: l -> g_objs g s = a :: fr ->
  (forall t, e = Some t -> t = s) ->
  exists bs' hm' m' g', take_object b (SlabState bs tp hm) = Ok (a, SlabState bs' tp hm') /\
    km_rep hm' (set_view w m') /\ heap_inv None bs' tp (set_view w m') g' /\
    g_objs g' = fset (g_objs g) s fr /\ (forall b' t, 0 <= b' < 24 -> (in_bin g' b' t <-> in_bin g b' t)) /\
    touched (fun x => s <= x < s + 16) ((s :: l) ++ g_full g b) (w_view w) m'.
Proof.
  intros Hr Hi Hb HF Ho He. set (U := g_full g b) in *.
  pose proof (hi_bin _ _ _ _ _ Hi b Hb) as Hbo. rewrite HF in Hbo. fold U in Hbo.
  destruct (bin_pages _ _ _ _ _ b Hi Hb) as [HpF HpU]. rewrite HF in HpF. fold U in HpU.
  destruct (bo_free _ _ _ _ _ _ Hbo s ltac:(by left)) as (Hok & _ & Hfull). rewrite Ho in Hok, Hfull.
  pose proof (free_not_full _ _ _ _ _ _ s Hbo ltac:(by left)) as HsU.
  destruct (bo_nodup _ _ _ _ _ _ Hbo) as [HnF HnU]. destruct (bo_links _ _ _ _ _ _ Hbo) as [HlF HlU].
  pose proof (hi_head _ _ _ _ _ Hi b Hb) as Hhead. rewrite HF in Hhead. fold U in Hhead. cbn [hd_or] in Hhead.
  pose proof (so_page _ _ _ _ Hok) as Hs. destruct (bin_facts b Hb) as (Hsz & _ & Hmx & _).
  pose proof (so_objs _ _ _ _ Hok) as Hobj. apply list.Forall_cons in Hobj as [Ha _].
  destruct (obj_bounds b s a Hb Ha) as [Ha1 Ha2]. pose proof (so_chain _ _ _ _ Hok) as [Hnf _].
  assert (in_bin g b s) as HsB by (left; rewrite HF; by left).
  unfold take_object. rewrite (bind_run _ _ _ _ _ (get_bin_run bs tp hm b _ (proj1 Hb) Hhead)).
  cbn [free_slabs full_slabs max_objects mk_bin].
  rewrite (bind_run _ _ _ _ _ (peek_run w bs tp hm s (next_free s) 8 Hr Hs ltac:(field) ltac:(field))). rewrite Hnf.
  rewrite (bind_run _ _ _ _ _ (peek_run w bs tp hm s a 8 Hr Hs ltac:(lia) ltac:(lia))).
  destruct (poke_run w bs tp hm s (next_free s) 8 (ld 8 (w_view w) a)) as (h1 & E1 & Hr1); [done|done|field|field|].
  rewrite (bind_run _ _ _ _ _ E1). clear E1. set (m1 := sto 8 (w_view w) (next_free s) (ld 8 (w_view w) a)) in *.
  rewrite slab_of_page, (page_of_slab s) by (apply Hs || lia).
  rewrite (bind_run _ _ _ _ _ (peek_run _ bs tp h1 s (count_objects s) 4 Hr1 Hs ltac:(field) ltac:(field))).
  destruct (poke_run (set_view w m1) bs tp h1 s (count_objects s) 4 (u32 (ld 4 m1 (count_objects s) + 1)))
    as (h2 & E2 & Hr2); [done|done|field|field|]. cbn [w_view set_view] in E2 |- *.
  rewrite (bind_run _ _ _ _ _ E2). clear E2. cbn [w_view set_view] in Hr2. rewrite set_view_twice in Hr2.
  destruct (slab_take w b s a fr Hb Hok) as [Hok2 Ht2]. fold m1 in Hok2, Ht2.
  set (m2 := sto 4 m1 (count_objects s) _) in *.
  rewrite (bind_run _ _ _ _ _ (peek_run _ bs tp h2 s (count_objects s) 4 Hr2 Hs ltac:(field) ltac:(field))).
  rewrite (so_count _ _ _ _ Hok2).
  assert (forall l', Forall slab_addr l' -> dlist (w_view w) 0 l' 0 -> dlist m2 0 l' 0) as Hkeep.
  { intros l' Hal. apply dlist_ext. intros t x Htl Hx. apply Ht2; [|by intros ? ?%elem_of_nil]. intros Hx'.
    rewrite list.Forall_forall in Hal. destruct (decide (t = s)) as [->|Hne]; [lia|].
    apply (slab_addr_far t s x); [by apply Hal|apply Hs|done|lia..]. }
  apply (Hkeep _ (slab_page_addr _ _ HpU)) in HlU. pose proof (Hkeep _ (slab_page_addr _ _ HpF) HlF) as HlF2. clear Hkeep HlF.
  pose proof (so_length _ _ _ _ Hok) as Hlen. cbn [length] in Hlen.
  destruct (decide (fr = [])) as [->|Hne].
  - (* the slab becomes full *)
    assert ((bmax b - Z.of_nat (@length Z []) =? bmax b) = true) as -> by (change (Z.of_nat (@length Z [])) with 0; rewrite Z.sub_0_r; apply Z.eqb_refl). cbn [whenM].
    assert (forall t, t ∈ l -> t ∉ U) as Hd by (intros t Htl; eapply free_not_full; [exact Hbo|by right]).
    destruct (slab_to_full_run bs tp h2 (set_view w m2) b s l U) as (h3 & m3 & E3 & Hr3 & Hl3 & HlU3 & Ho3);
      [done|lia|done|done|done|done|by constructor|done|done|done|].
    rewrite (bind_run _ _ _ _ _ E3). apply NoDup_cons in HnF as [Hsl Hnl].
    exists (<[Z.to_nat b := mk_bin b (hd_or 0 l) s]> bs), h3, m3, (upd_bin g b l (s :: U) (fset (g_objs g) s [])).
    assert (touched (fun x => s <= x < s + 16) ((s :: l) ++ U) (w_view w) m3) as Ht3.
    { eapply touched_links; [exact Ht2|exact Ho3|set_solver|set_solver]. }
    split; [done|]. split; [done|]. split; [|split; [done|split; [|done]]].
    + eapply (heap_inv_touched e None bs tp w g b s m3 l (s :: U) [] (fun x => s <= x < s + 16) ((s :: l) ++ U)); try done.
      * cbn. intros y Hy. lia.
      * intros t Ht. unfold in_bin. rewrite HF. fold U. set_solver.
      * right. by left.
      * intros t Hts. rewrite HF. set_solver.
      * intros t Hts. fold U. set_solver.
      * split; [done|by constructor].
      * eapply (slab_ok_touched (set_view w m2) m3 b s [] (fun _ => False)); [done|exact Hok2| | |].
        -- intros x _ Hx. apply Ho3. exact Hx.
        -- apply list.Forall_app. by split; apply (slab_page_addr w).
        -- auto.
    + intros b' t Hb'. rewrite in_upd_bin. unfold in_bin. destruct (decide (b' = b)) as [->|?]; [rewrite HF; fold U; set_solver|tauto].
  - assert ((bmax b - Z.of_nat (length fr) =? bmax b) = false) as Hnf2
      by (apply Z.eqb_neq; destruct fr; [done|cbn [length]; lia]).
    rewrite (bind_run _ _ _ _ _ (whenM_false _ _ _ Hnf2)).
    exists (<[Z.to_nat b := mk_bin b (hd_or 0 (s :: l)) (hd_or 0 U)]> bs), h2, m2, (upd_bin g b (s :: l) U (fset (g_objs g) s fr)).
    rewrite list_insert_id at 1 by done.
    split; [done|]. split; [done|]. split; [|split; [done|split]].
    + eapply (heap_inv_touched e None bs tp w g b s m2 (s :: l) U fr (fun x => s <= x < s + 16) []); try done.
      * cbn. intros y Hy. lia.
      * by intros t ?%elem_of_nil.
      * left. by left.
      * intros t _. by rewrite HF.
      * intros _. split; [done|]. cbn [length] in *. lia.
    + intros b' t Hb'. rewrite in_upd_bin. unfold in_bin. destruct (decide (b' = b)) as [->|?]; [rewrite HF|]; tauto.
    + intros x Hx Hx'. apply Ht2; [done|]. by intros t ?%elem_of_nil.
Qed.

(** ** A new slab *)

Definition obj_at (b s k : Z) : Z := s + 48 + k * bsize b.
Definition all_objs (b s : Z) : list Z := obj_at b s <$> seqZ 0 (bmax b).

Lemma all_objs_spec b s : 0 <= b < 24 ->
  Z.of_nat (length (all_objs b s)) = bmax b /\ NoDup (all_objs b s) /\ (forall a, a ∈ all_objs b s <-> is_obj b s a).
Proof.
  intros Hb. destruct (bin_facts b Hb) as (Hsz & _ & Hmx & _). unfold all_objs. split; [|split].
  - rewrite length_fmap, length_seqZ. lia.
  - apply (NoDup_fmap_2_strong (obj_at b s)); [|apply NoDup_seqZ]. intros x y _ _ E. unfold obj_at in E. nia.
  - intros a. rewrite list_elem_of_fmap. unfold is_obj, obj_at. split.
    + intros (k & -> & Hk%elem_of_seqZ). exists k. split; [lia|done].
    + intros (k & Hk & ->). exists k. split; [done|]. apply elem_of_seqZ. lia.
Qed.

Lemma chain_seq m b s n : forall j,
  (forall i, j <= i < j + Z.of_nat n -> ld 8 m (obj_at b s i) = obj_at b s (i + 1)) ->
  chain m (obj_at b s j) (obj_at b s <$> seqZ j (Z.of_nat n + 1)).
Proof.
  induction n as [|n IH]; intros j Hl; rewrite seqZ_cons by lia; cbn [fmap list_fmap chain]; (split; [done|]).
  - done.
  - rewrite Hl by lia. replace (Z.pred (Z.of_nat (Datatypes.S n) + 1)) with (Z.of_nat n + 1) by lia.
    apply (IH (Z.succ j)). intros i Hi. apply Hl. lia.
Qed.

(** The loop of [bin_alloc] that chains the objects of a new slab. *)
Lemma chain_loop_run bs tp hm w b s :
  km_rep hm w -> 0 <= b < 24 -> slab_page w s ->
  exists hm' m', for_range (s + sizeof_SlabHeader) (s + 4096) (bsize b) (fun i => poke 8 i (u64 (i + bsize b)))
      (SlabState bs tp hm) = Ok (tt, SlabState bs tp hm') /\
    km_rep hm' (set_view w m') /\
    (forall x, x < s + 48 \/ s + 4096 <= x -> m' x = w_view w x) /\
    (forall j, 0 <= j < bmax b -> ld 8 m' (obj_at b s j) = obj_at b s (j + 1)).
Proof.
  intros Hr Hb Hs. destruct (bin_facts b Hb) as (Hsz & Hmod & Hmx & Hfit & _). destruct Hs as [[Hs64 Hsm] Hpg] eqn:Es.
  set (n := for_count (s + sizeof_SlabHeader) (s + 4096) (bsize b)).
  assert (Z.of_nat n * bsize b < 4048 + bsize b /\ bmax b <= Z.of_nat n) as [Hn1 Hn2].
  { unfold n, for_count, sizeof_SlabHeader. set (q := (s + 4096 - (s + 48) + bsize b - 1) / bsize b).
    assert (bsize b * q <= 4048 + bsize b - 1 < bsize b * (q + 1)) as Hq.
    { unfold q. replace (s + 4096 - (s + 48) + bsize b - 1) with (4047 + bsize b) by lia.
      pose proof (Z.div_mod (4047 + bsize b) (bsize b)). pose proof (Z.mod_pos_bound (4047 + bsize b) (bsize b)). lia. }
    clearbody q. assert (0 <= q) by nia. rewrite Z2Nat.id by done. nia. }
  destruct (iter_for_inv (fun k st => exists hm' m', st = SlabState bs tp hm' /\ km_rep hm' (set_view w m') /\
      (forall x, x < s + 48 \/ s + 4096 <= x -> m' x = w_view w x) /\
      (forall j, 0 <= j -> obj_at b s j < k -> ld 8 m' (obj_at b s j) = obj_at b s (j + 1))) (bsize b)
      (fun i => poke 8 i (u64 (i + bsize b))) n (s + sizeof_SlabHeader) (SlabState bs tp hm))
    as (st' & Hrun & hm' & m' & -> & Hr' & Hout & Hin).
  - exists hm, (w_view w). split; [done|]. split; [by destruct w|]. split; [done|].
    intros j Hj Hlt. unfold obj_at, sizeof_SlabHeader in Hlt. nia.
  - intros k st (j & Hj & ->) (h & m & -> & Hrh & Hout & Hin). unfold sizeof_SlabHeader in *.
    assert (s + 48 + Z.of_nat j * bsize b + 8 <= s + 4096) as Hroom.
    { assert (Z.of_nat j * bsize b < 4048) by nia.
      assert ((Z.of_nat j * bsize b) mod 8 = 0) by (rewrite <- Z.mul_mod_idemp_r, Hmod, Z.mul_0_r by lia; done). dlia. }
    destruct (poke_run (set_view w m) bs tp h s (s + 48 + Z.of_nat j * bsize b) 8
      (u64 (s + 48 + Z.of_nat j * bsize b + bsize b))) as (h' & E & Hr'); [done|done|lia|lia|].
    eexists. split; [exact E|]. exists h'. eexists. split; [done|]. split; [exact Hr'|]. cbn [w_view set_view].
    rewrite u64_id by lia. split.
    + intros x Hx. rewrite sto_out by lia. by apply Hout.
    + intros i Hi Hlt. unfold obj_at in *. destruct (decide (i = Z.of_nat j)) as [->|Hne].
      * rewrite ld_sto_same by lia. lia.
      * assert (i < Z.of_nat j) by nia. rewrite ld_sto_other by (left; nia). apply Hin; nia.
  - exists hm', m'. split; [exact Hrun|]. split; [done|]. split; [done|]. intros j Hj. apply Hin; [lia|].
    unfold obj_at, sizeof_SlabHeader. nia.
Qed.

(** The stores that initialise a page as a slab without objects. *)
Definition init_view (m : mem) (s b p : Z) : mem :=
  sto 2 (sto 8 (sto 4 m (count_objects s) 0) (slab_phys s) p) (slab_bin s) b.
Definition finish_view (m : mem) (s b : Z) : mem :=
  sto 8 (sto 8 (sto 8 (sto 8 m (s + 4096 - bsize b) 0) (next_free s) (s + sizeof_SlabHeader)) (next_slab s) 0) (prev_slab s) 0.

Lemma init_slab_ok w s b p m1 :
  0 <= b < 24 -> slab_page w s -> w_pages w !! s = Some p -> 0 <= p < 2 ^ 64 ->
  (forall x, x < s + 48 \/ s + 4096 <= x -> m1 x = init_view (w_view w) s b p x) ->
  (forall j, 0 <= j < bmax b -> ld 8 m1 (obj_at b s j) = obj_at b s (j + 1)) ->
  let m := finish_view m1 s b in
  slab_ok (set_view w m) b s (all_objs b s) /\ dlist m 0 [s] 0 /\
  (forall x, x < s \/ s + 4096 <= x -> m x = w_view w x).
Proof.
  intros Hb Hs Hp Hp64 Hout Hin m. destruct (bin_facts b Hb) as (Hsz & Hmod & Hmx & Hfit & _).
  destruct (all_objs_spec b s Hb) as (Hal & Hand & Hael). pose proof Hs as [[Hs64 _] _].
  assert (forall x, s <= x < s + 8 \/ s + 32 <= x < s + 48 -> m x = init_view (w_view w) s b p x) as Hhdr.
  { intros x Hx. unfold m, finish_view. unfold next_free, next_slab, prev_slab. rewrite !sto_out by lia. apply Hout. lia. }
  split; [split|split]; cbn [w_view w_pages set_view]; try done.
  - rewrite Hp. f_equal. rewrite (ld_ext 8 (init_view (w_view w) s b p)) by (intros x Hx; apply Hhdr; unfold slab_phys in Hx; lia).
    unfold init_view. rewrite ld_sto_other, ld_sto_same by (done || field). done.
  - rewrite (ld_ext 2 (init_view (w_view w) s b p)) by (intros x Hx; apply Hhdr; unfold slab_bin in Hx; lia).
    unfold init_view. rewrite ld_sto_same by lia. done.
  - rewrite (ld_ext 4 (init_view (w_view w) s b p)) by (intros x Hx; apply Hhdr; unfold count_objects in Hx; lia).
    unfold init_view. rewrite !ld_sto_other, ld_sto_same by (done || field). lia.
  - replace (ld 8 m (next_free s)) with (obj_at b s 0).
    + unfold all_objs. replace (bmax b) with (Z.of_nat (Z.to_nat (bmax b - 1)) + 1) by lia. apply chain_seq. intros i Hi.
      assert (s + 48 + i * bsize b + 8 <= s + 4096 - bsize b) as Hroom.
      { assert ((i + 1) * bsize b < 4048) by nia.
        assert (((i + 1) * bsize b) mod 8 = 0) by (rewrite <- Z.mul_mod_idemp_r, Hmod, Z.mul_0_r by lia; done). dlia. }
      unfold m, finish_view. rewrite !ld_sto_other by (unfold obj_at, next_free, next_slab, prev_slab; nia).
      apply Hin. lia.
    + unfold m, finish_view. rewrite !(ld_sto_other 8 8) by field. unfold sizeof_SlabHeader. rewrite ld_sto_same by lia. unfold obj_at. lia.
  - apply list.Forall_forall. intros a Ha. by apply Hael.
  - lia.
  - cbn [dlist hd_or]. split; [by apply ld_sto_same|]. split; [|done].
    unfold m, finish_view. rewrite ld_sto_other by field. by apply ld_sto_same.
  - intros x Hx. unfold m, finish_view, next_free, next_slab, prev_slab. rewrite !sto_out by lia.
    rewrite Hout by lia. unfold init_view, count_objects, slab_phys, slab_bin. by rewrite !sto_out by lia.
Qed.

(** A page that was not part of the heap joins it as a slab of bin [b]. *)
Lemma new_slab_inv bs tp w g b p m budget :
  heap_inv None bs tp w g -> 0 <= b < 24 -> g_free g b = [] -> tp + 4096 <= SLAB_VIRT_SIZE ->
  let s := SLAB_VIRT_START + tp in
  let w' := Window (<[s := p]> (w_pages w)) ({[p]} ∪ w_owned w) m budget in
  slab_ok w' b s (all_objs b s) -> dlist m 0 [s] 0 -> (forall x, page_of x <> s -> m x = w_view w x) ->
  heap_inv (Some s) (<[Z.to_nat b := mk_bin b s (hd_or 0 (g_full g b))]> bs) (tp + 4096) w'
    (upd_bin g b [s] (g_full g b) (fset (g_objs g) s (all_objs b s))) /\
  (forall b' t, 0 <= b' < 24 -> in_bin g b' t -> t <> s).
Proof.
  intros Hi Hb HF Htp s w' Hok Hdl Hm. destruct (hi_top _ _ _ _ _ Hi) as [Ht1 Ht2].
  assert (forall v q, w_pages w !! v = Some q -> v <> s) as Hnone.
  { intros v q E ->. apply (hi_pages _ _ _ _ _ Hi) in E. unfold s in E. lia. }
  assert (forall b' t, 0 <= b' < 24 -> in_bin g b' t -> t <> s /\ slab_addr t) as Hother.
  { intros b' t Hb' Hin. destruct (so_page _ _ _ _ (slab_ok_in_bin _ _ _ _ _ _ _ Hi Hb' Hin)) as [? (q & Hq & _)].
    split; [by eapply Hnone|done]. }
  assert (forall b' t x, 0 <= b' < 24 -> in_bin g b' t -> t <= x < t + 4096 -> m x = w_view w x) as Hbytes.
  { intros b' t x Hb' Hin Hx. destruct (Hother b' t Hb' Hin) as [Hne Ha]. apply Hm. by rewrite (page_of_slab t x). }
  split; [|intros b' t Hb' Hin; by eapply Hother].
  change s with (hd_or 0 [s]) at 2. apply (heap_inv_bin None (Some s) bs tp (tp + 4096) w w' g b [s]); try done.
  - intros v q. cbn [w_pages w_owned w']. intros [[<- <-]|[_ Hq]]%lookup_insert_Some; [set_solver|].
    apply elem_of_union_r. by eapply (hi_settled _ _ _ _ _ Hi).
  - split; [lia|]. dlia.
  - pose proof (hi_bin _ _ _ _ _ Hi b Hb) as [[_ Hn] [_ Hl] _ Hfu]. split.
    + split; [apply list.NoDup_singleton|done].
    + split; [done|]. eapply dlist_ext; [|exact Hl]. intros t x Ht Hx. apply (Hbytes b t); [done|by right|lia].
    + intros t ->%list_elem_of_singleton. rewrite fset_eq. split; [done|]. split; [|done].
      intros E. destruct (all_objs_spec b s Hb) as (Hlen & _). rewrite E in Hlen. destruct (bin_facts b Hb) as (_ & _ & ? & _). cbn in Hlen. lia.
    + intros t Ht. destruct (Hother b t Hb (or_intror Ht)) as [Hne _]. rewrite fset_ne by done.
      destruct (Hfu t Ht) as [Hokt Hnil]. split; [|done]. eapply slab_ok_ext; [done|exact Hokt|..].
      * cbn. by rewrite lookup_insert_ne by done.
      * cbn. set_solver.
      * intros x Hx _. apply (Hbytes b t); [done|by right|done].
  - intros b' t Hb' Hne Hin. destruct (Hother b' t Hb' Hin) as [Hts _]. split; [|split; [|split]].
    + cbn. by rewrite lookup_insert_ne by done.
    + intros q Hq. apply elem_of_union_r. by eapply (hi_settled _ _ _ _ _ Hi).
    + intros x Hx. by apply (Hbytes b' t).
    + by rewrite fset_ne.
  - intros v q. cbn [w_pages w']. intros [[<- _]|[Hne Hq]]%lookup_insert_Some.
    + split; [unfold s; lia|]. split; [unfold s, SLAB_VIRT_START; dlia|left; by left].
    + destruct (hi_pages _ _ _ _ _ Hi v q Hq) as (Hv1 & Hv2 & _). split; [lia|]. split; [done|].
      destruct (decide (v ∈ g_full g b)); [by right; left|]. right. right. split; [done|]. intros [Hin|Hin]; [|done].
      rewrite HF in Hin. by apply elem_of_nil in Hin.
  - intros q. cbn [w_owned w_pages w']. intros [->%elem_of_singleton|Hq]%elem_of_union; [exists s; apply lookup_insert_eq|].
    destruct (hi_owned _ _ _ _ _ Hi q Hq) as [v Hv]. exists v. rewrite lookup_insert_ne; [done|].
    intros <-. by destruct (Hnone s q Hv).
Qed.

Lemma new_slab_run bs tp hm w g b :
  km_rep hm w -> heap_inv None bs tp w g -> 0 <= b < 24 -> g_free g b = [] ->
  tp + 4096 <= SLAB_VIRT_SIZE -> (4 <= w_budget w)%nat ->
  let s := SLAB_VIRT_START + tp in
  exists bs' hm' w', new_slab b (SlabState bs tp hm) = Ok (tt, SlabState bs' (tp + 4096) hm') /\ km_rep hm' w' /\
    heap_inv (Some s) bs' (tp + 4096) w' (upd_bin g b [s] (g_full g b) (fset (g_objs g) s (all_objs b s))) /\
    (forall x, page_of x <> s -> w_view w' x = w_view w x) /\ w_budget w' = (w_budget w - 4)%nat /\
    (forall b' t, 0 <= b' < 24 -> in_bin g b' t -> t <> s).
Proof.
  intros Hr Hi Hb HF Htp Hbud s. destruct (hi_top _ _ _ _ _ Hi) as [Ht1 Ht2]. pose proof (hi_head _ _ _ _ _ Hi b Hb) as Hhead.
  destruct (bin_facts b Hb) as (Hsz & _ & Hmx & _). rewrite HF in Hhead. cbn [hd_or] in Hhead.
  assert (in_region SLAB_VIRT_START SLAB_VIRT_END s /\ slab_addr s) as [Hreg Hsa].
  { unfold s, in_region, slab_addr, SLAB_VIRT_END, SLAB_VIRT_START, SLAB_VIRT_SIZE in *. dlia. }
  assert (w_pages w !! s = None) as Hnone.
  { destruct (w_pages w !! s) as [q|] eqn:E; [|done]. apply (hi_pages _ _ _ _ _ Hi) in E. unfold s in E. lia. }
  unfold new_slab. rewrite (bind_run _ _ _ _ _ (get_bin_run bs tp hm b _ (proj1 Hb) Hhead)). cbn [object_size free_slabs mk_bin].
  destruct (km_alloc_ok hm w Hr (hi_settled _ _ _ _ _ Hi)) as (p & h1 & E1 & Hpp & Hpo & Hr1); [lia|].
  assert (on_mem km_alloc (SlabState bs tp hm) = Ok (p, SlabState bs tp h1)) as E1' by (unfold on_mem; cbn [st_mem]; by rewrite E1).
  rewrite (bind_run _ _ _ _ _ E1'). set (w1 := Window (w_pages w) ({[p]} ∪ w_owned w) (w_view w) (w_budget w - 1)) in *.
  rewrite (bind_run get _ (SlabState bs tp h1) (SlabState bs tp h1) (SlabState bs tp h1) eq_refl). cbn [slab_top].
  change (SLAB_VIRT_START + tp) with s. change VMM_DEFAULT_PAGE_SIZE with 4096.
  rewrite (u64_id s), (u64_id (s + 4096)), (u64_id (s + 4096 - bsize b)) by (destruct Hsa; lia).
  destruct (km_map_ok h1 w1 p s VMM_FLAGS_KERNEL_DATA Hr1) as (h2 & m0 & E2 & Hm0 & Hr2);
    [intros v q Hq; apply elem_of_union_r; by eapply (hi_settled _ _ _ _ _ Hi)|cbn; set_solver|vm_compute; intuition congruence| |done|apply Hsa|done|cbn; lia|].
  { intros v' Hv'. destruct Hpo. by eapply (hi_settled _ _ _ _ _ Hi). }
  cbn [w_pages w_owned w_view w_budget w1] in Hm0, Hr2.
  assert (on_mem (km_map p s VMM_FLAGS_KERNEL_DATA) (SlabState bs tp h1) = Ok (tt, SlabState bs tp h2)) as E2'
    by (unfold on_mem; cbn [st_mem]; by rewrite E2).
  rewrite (bind_run _ _ _ _ _ E2'). set (w2 := Window (<[s := p]> (w_pages w)) ({[p]} ∪ w_owned w) m0 _) in *.
  assert (slab_page w2 s) as Hs2.
  { split; [done|]. exists p. cbn. rewrite lookup_insert_eq. split; [done|set_solver]. }
  set (tp' := tp + 4096).
  rewrite (bind_run (modify _) _ _ tt (SlabState bs tp' h2)) by (unfold modify; cbn [st_bins slab_top st_mem]; rewrite u64_id by (unfold SLAB_VIRT_SIZE in *; lia); done).
  destruct (poke_run w2 bs tp' h2 s (count_objects s) 4 0) as (h3 & E3 & Hr3); [done|done|field|field|]. rewrite (bind_run _ _ _ _ _ E3).
  destruct (poke_run _ bs tp' h3 s (slab_phys s) 8 p Hr3 Hs2) as (h4 & E4 & Hr4); [field|field|]. rewrite (bind_run _ _ _ _ _ E4).
  destruct (poke_run _ bs tp' h4 s (slab_bin s) 2 b Hr4 Hs2) as (h5 & E5 & Hr5); [field|field|]. rewrite (bind_run _ _ _ _ _ E5).
  clear E3 E4 E5 Hr3 Hr4. cbn [w_view set_view] in Hr5. rewrite !set_view_twice in Hr5. fold (init_view (w_view w2) s b p) in Hr5.
  destruct (chain_loop_run bs tp' h5 _ b s Hr5 Hb Hs2) as (h6 & m1 & E6 & Hr6 & Hout & Hin). rewrite set_view_twice in Hr6.
  rewrite (bind_run _ _ _ _ _ E6). cbn [w_view set_view] in Hout.
  destruct (poke_run _ bs tp' h6 s (s + 4096 - bsize b) 8 0 Hr6 Hs2) as (h7 & E7 & Hr7); [lia|lia|]. rewrite (bind_run _ _ _ _ _ E7).
  destruct (poke_run _ bs tp' h7 s (next_free s) 8 (s + sizeof_SlabHeader) Hr7 Hs2) as (h8 & E8 & Hr8); [field|field|]. rewrite (bind_run _ _ _ _ _ E8).
  destruct (poke_run _ bs tp' h8 s (next_slab s) 8 0 Hr8 Hs2) as (h9 & E9 & Hr9); [field|field|]. rewrite (bind_run _ _ _ _ _ E9).
  destruct (poke_run _ bs tp' h9 s (prev_slab s) 8 0 Hr9 Hs2) as (h10 & E10 & Hr10); [field|field|]. rewrite (bind_run _ _ _ _ _ E10).
  clear E6 E7 E8 E9 E10 Hr7 Hr8 Hr9. cbn [w_view set_view] in Hr10. rewrite !set_view_twice in Hr10. fold (finish_view m1 s b) in Hr10.
  change (negb (0 =? 0)) with false. rewrite (bind_run _ _ _ _ _ (whenM_false false _ _ eq_refl)).
  rewrite (set_free_run bs tp' h10 b _ _ s (proj1 Hb) Hhead).
  destruct (init_slab_ok w2 s b p m1 Hb Hs2) as (Hok & Hdl & Hkeep); [apply lookup_insert_eq|destruct Hpp; lia|done|done|].
  assert (forall x, page_of x <> s -> finish_view m1 s b x = w_view w x) as Hfar.
  { intros x Hx. rewrite Hkeep; [by apply Hm0|]. destruct (decide (s <= x < s + 4096)); [|lia].
    destruct Hx. by apply page_of_slab. }
  destruct (new_slab_inv bs tp w g b p (finish_view m1 s b) (w_budget w - 1 - 3) Hi Hb HF Htp Hok Hdl Hfar) as [Hi' Hne].
  exists (<[Z.to_nat b := mk_bin b s (hd_or 0 (g_full g b))]> bs), h10, (set_view w2 (finish_view m1 s b)).
  split; [done|]. split; [exact Hr10|]. split; [exact Hi'|]. split; [exact Hfar|]. split; [|exact Hne]. cbn. lia.
Qed.

(** ** Moving slabs back *)

Lemma hd_or_remove n l1 s l2 : s ∉ l1 -> (if hd_or n (l1 ++ s :: l2) =? s then hd_or n l2 else hd_or n (l1 ++ s :: l2)) = hd_or n (l1 ++ l2).
Proof.
  intros Hs. destruct l1 as [|x l1]; cbn [app hd_or]; [by rewrite Z.eqb_refl|].
  assert (x <> s) by set_solver. by rewrite (proj2 (Z.eqb_neq x s)).
Qed.

(** Dropping the head of a list whose first slab leaves it. *)
Lemma drop_head_run (full : bool) bs tp hm w b f u s l1 l2 :
  km_rep hm w -> 0 <= b -> bs !! Z.to_nat b = Some (mk_bin b f u) -> slab_page w s -> s ∉ l1 ->
  dlist (w_view w) 0 (l1 ++ s :: l2) 0 -> (if full then u else f) = hd_or 0 (l1 ++ s :: l2) ->
  whenM (hd_or 0 (l1 ++ s :: l2) =? s) (next ← peek 8 (next_slab s); (if full then set_full else set_free) b next) (SlabState bs tp hm)
  = Ok (tt, SlabState (<[Z.to_nat b := if full then mk_bin b f (hd_or 0 (l1 ++ l2)) else mk_bin b (hd_or 0 (l1 ++ l2)) u]> bs) tp hm).
Proof.
  intros Hr Hb Hh Hs Hs1 Hl Hhd. apply dlist_app in Hl as [_ (_ & Hnx & _)]. pose proof (hd_or_remove 0 l1 s l2 Hs1) as Hrm.
  destruct (hd_or 0 (l1 ++ s :: l2) =? s) eqn:E; cbn [whenM].
  - rewrite (bind_run _ _ _ _ _ (peek_run w bs tp hm s (next_slab s) 8 Hr Hs ltac:(field) ltac:(field))).
    rewrite Hnx, Hrm. destruct full; [by apply (set_full_run bs tp hm b f u)|by apply (set_free_run bs tp hm b f u)].
  - rewrite list_insert_id; [done|]. rewrite Hh. f_equal. rewrite <- Hrm, <- Hhd. by destruct full.
Qed.

Lemma slab_to_free_run bs tp hm w b s F U1 U2 :
  km_rep hm w -> 0 <= b -> bs !! Z.to_nat b = Some (mk_bin b (hd_or 0 F) (hd_or 0 (U1 ++ s :: U2))) ->
  Forall (slab_page w) F -> Forall (slab_page w) (U1 ++ s :: U2) -> NoDup F -> NoDup (U1 ++ s :: U2) ->
  (forall t, t ∈ F -> t ∉ U1 ++ s :: U2) ->
  dlist (w_view w) 0 F 0 -> dlist (w_view w) 0 (U1 ++ s :: U2) 0 ->
  exists hm' m', slab_to_free b s (mk_bin b (hd_or 0 F) (hd_or 0 (U1 ++ s :: U2))) (SlabState bs tp hm)
      = Ok (tt, SlabState (<[Z.to_nat b := mk_bin b s (hd_or 0 (U1 ++ U2))]> bs) tp hm') /\
    km_rep hm' (set_view w m') /\ dlist m' 0 (s :: F) 0 /\ dlist m' 0 (U1 ++ U2) 0 /\
    links_only (F ++ U1 ++ s :: U2) (w_view w) m'.
Proof.
  intros Hr Hb Hhead HpF HpU HnF HnU Hd HlF HlU.
  pose proof (slab_page_addr _ _ HpF) as HaF. pose proof (slab_page_addr _ _ HpU) as HaU.
  assert (slab_page w s) as Hs by (rewrite list.Forall_forall in HpU; apply HpU; set_solver).
  assert (s ∉ U1 /\ s ∉ U2) as [Hs1 Hs2].
  { apply list.NoDup_app in HnU as (_ & Hx & Hy). apply NoDup_cons in Hy as [Hy _]. split; [|done].
    intros Hin. apply (Hx s Hin). by left. }
  assert (Forall slab_addr (U1 ++ U2)) as HaU'.
  { rewrite list.Forall_app in HaU |- *. rewrite list.Forall_cons in HaU. tauto. }
  unfold slab_to_free. cbn [full_slabs free_slabs mk_bin].
  rewrite (bind_run _ _ _ _ _ (drop_head_run true bs tp hm w b _ _ s U1 U2 Hr Hb Hhead Hs Hs1 HlU eq_refl)).
  set (bs1 := <[Z.to_nat b := mk_bin b (hd_or 0 F) (hd_or 0 (U1 ++ U2))]> bs).
  destruct (slab_unlink_run bs1 tp hm w U1 s U2 Hr HpU HnU HlU) as (h1 & m1 & E1 & Hr1 & Hl1 & Ho1).
  rewrite (bind_run _ _ _ _ _ E1).
  destruct (slab_push_run bs1 tp h1 (set_view w m1) s F) as (h2 & m2 & E2 & Hr2 & Hl2 & Ho2); [done|by constructor| | |].
  { constructor; [|done]. intros Hin. apply (Hd s Hin). set_solver. }
  { cbn [w_view set_view]. eapply (dlist_frame (U1 ++ U2)); [done|done|done| |done]. set_solver. }
  rewrite (bind_run _ _ _ _ _ E2). exists h2, m2.
  rewrite (set_free_run bs1 tp h2 b (hd_or 0 F) (hd_or 0 (U1 ++ U2))).
  - unfold bs1. rewrite list_insert_insert_eq. split; [done|]. split; [done|]. split; [done|]. split.
    + eapply (dlist_frame (s :: F)); [exact Ho2|by constructor; [apply Hs|]|done| |exact Hl1]. set_solver.
    + eapply links_only_trans; [exact Ho1|exact Ho2|set_solver|set_solver].
  - done.
  - apply list_lookup_insert_eq. by eapply lookup_lt_Some.
Qed.

Lemma slab_release_run bs tp hm w b s F1 F2 u p :
  km_rep hm w -> 0 <= b -> bs !! Z.to_nat b = Some (mk_bin b (hd_or 0 (F1 ++ s :: F2)) u) ->
  Forall (slab_page w) (F1 ++ s :: F2) -> NoDup (F1 ++ s :: F2) -> dlist (w_view w) 0 (F1 ++ s :: F2) 0 ->
  w_pages w !! s = Some p -> p ∈ w_owned w -> ld 8 (w_view w) (slab_phys s) = p ->
  exists hm' m', slab_release b s (SlabState bs tp hm)
      = Ok (tt, SlabState (<[Z.to_nat b := mk_bin b (hd_or 0 (F1 ++ F2)) u]> bs) tp hm') /\
    km_rep hm' (Window (delete s (w_pages w)) (w_owned w ∖ {[p]}) m' (w_budget w + 1)) /\
    dlist m' 0 (F1 ++ F2) 0 /\ links_only (F1 ++ F2) (w_view w) m'.
Proof.
  intros Hr Hb Hhead HpF HnF HlF Hp Hpo Hph. pose proof (slab_page_addr _ _ HpF) as HaF.
  assert (slab_page w s) as Hs by (rewrite list.Forall_forall in HpF; apply HpF; set_solver).
  assert (s ∉ F1) as Hs1 by (apply list.NoDup_app in HnF as (_ & Hx & _); intros Hin; apply (Hx s Hin); by left).
  unfold slab_release. rewrite (bind_run _ _ _ _ _ (get_bin_run bs tp hm b _ Hb Hhead)). cbn [free_slabs mk_bin].
  rewrite (bind_run _ _ _ _ _ (drop_head_run false bs tp hm w b _ _ s F1 F2 Hr Hb Hhead Hs Hs1 HlF eq_refl)).
  set (bs1 := <[Z.to_nat b := mk_bin b (hd_or 0 (F1 ++ F2)) u]> bs).
  destruct (slab_unlink_run bs1 tp hm w F1 s F2 Hr HpF HnF HlF) as (h1 & m1 & E1 & Hr1 & Hl1 & Ho1).
  rewrite (bind_run _ _ _ _ _ E1).
  rewrite (bind_run _ _ _ _ _ (peek_run _ bs1 tp h1 s (slab_phys s) 8 Hr1 Hs ltac:(field) ltac:(field))).
  cbn [w_view set_view]. replace (ld 8 m1 (slab_phys s)) with p.
  2: { rewrite <- Hph. symmetry. apply ld_ext. intros x Hx. apply Ho1. intros t Ht Hr'. unfold slab_phys in Hx.
       destruct (decide (t = s)) as [->|Hne]; [lia|]. rewrite list.Forall_forall in HaF.
       apply (slab_addr_far s t x); [apply Hs|apply HaF; set_solver|done|lia..]. }
  destruct (km_free_ok h1 _ p Hr1 Hpo) as (h2 & E2 & Hr2).
  rewrite (bind_run _ _ _ tt (SlabState bs1 tp h2)) by (unfold on_mem; cbn [st_mem]; by rewrite E2).
  destruct (km_unmap_ok h2 _ s p Hr2 Hp) as (h3 & E3 & Hr3). exists h3, m1.
  split; [unfold on_mem; cbn [st_mem]; by rewrite E3|]. split; [exact Hr3|done].
Qed.
End runs.
