(* ===== verification/SlabTheorems.v ===== *)
(** * kmalloc and kfree: the heap they implement

    [bin_alloc] and [bin_free] from any state that satisfies the invariant, the
    client's view of its objects, and the refinement of an abstract heap: a finite
    map from addresses to blocks of bytes. *)
From S2P Require Import Prelude Common Memory Interfaces Vmm KernelMemory Slab SlabLists SlabProofs.
From Stdlib Require Import ZArith Lia.
From stdpp Require Import base tactics list numbers gmap.

Open Scope Z_scope.

(** ** Live objects *)

(** Live objects lie behind the header of their slab. *)
Lemma live_bytes e bs tp w g b a x : heap_inv e bs tp w g -> live g b a -> a <= x < a + bsize b ->
  exists s, in_bin g b s /\ slab_addr s /\ s + 48 <= x < s + 4096 /\ page_of x = s.
Proof.
  intros Hi (Hb & s & Hin & Ho & _) Hx. exists s. pose proof (slab_ok_in_bin _ _ _ _ _ _ _ Hi Hb Hin) as Hok.
  destruct (obj_bounds b s a Hb Ho). destruct (so_page _ _ _ _ Hok) as [Ha _].
  split; [done|]. split; [done|]. split; [lia|]. apply page_of_slab; [done|lia].
Qed.

(** Two live objects do not overlap. *)
Lemma live_disjoint e bs tp w g b a b' a' : heap_inv e bs tp w g -> live g b a -> live g b' a' -> a <> a' ->
  a + bsize b <= a' \/ a' + bsize b' <= a.
Proof.
  intros Hi (Hb & s & Hin & Ho & _) (Hb' & s' & Hin' & Ho' & _) Hne.
  destruct (obj_bounds b s a Hb Ho), (obj_bounds b' s' a' Hb' Ho'). destruct (bin_facts b Hb) as (? & _), (bin_facts b' Hb') as (? & _).
  destruct (decide (s = s')) as [->|Hs].
  - assert (b = b') as -> by (by eapply in_bin_unique). by eapply obj_disjoint.
  - destruct (so_page _ _ _ _ (slab_ok_in_bin _ _ _ _ _ _ _ Hi Hb Hin)) as [Ha _].
    destruct (so_page _ _ _ _ (slab_ok_in_bin _ _ _ _ _ _ _ Hi Hb' Hin')) as [Ha' _].
    destruct Ha as [_ Ha], Ha' as [_ Ha']. dlia.
Qed.

Lemma live_unique e bs tp w g b b' a : heap_inv e bs tp w g -> live g b a -> live g b' a -> b = b'.
Proof.
  intros Hi Hl Hl'. destruct (bin_facts b (proj1 Hl)) as (? & _), (bin_facts b' (proj1 Hl')) as (? & _).
  destruct (live_bytes _ _ _ _ _ _ _ a Hi Hl) as (s & Hs & _ & _ & E); [lia|].
  destruct (live_bytes _ _ _ _ _ _ _ a Hi Hl') as (s' & Hs' & _ & _ & E'); [lia|]. subst s s'.
  eapply in_bin_unique; [done|apply Hl|apply Hl'|done|done].
Qed.

(** Header stores do not reach the contents of live objects. *)
Lemma live_kept e bs tp w g b a x R X m' :
  heap_inv e bs tp w g -> live g b a -> a <= x < a + bsize b -> touched R X (w_view w) m' -> Forall slab_addr X ->
  (R x -> exists s, slab_addr s /\ s <= x < s + 16) -> m' x = w_view w x.
Proof.
  intros Hi Hl Hx Ht HX HR. destruct (live_bytes _ _ _ _ _ _ _ x Hi Hl Hx) as (s & _ & [_ Hs] & Hr & _). apply Ht.
  - intros (t & [_ Hta] & Ht')%HR. dlia.
  - intros t HtX Hr'. rewrite list.Forall_forall in HX. destruct (HX t HtX) as [_ Hta]. dlia.
Qed.

(** Taking object [a] of slab [s]: it becomes live, nothing else changes. *)
Lemma live_take e bs tp w g g' b s a fr b' a' :
  heap_inv e bs tp w g -> 0 <= b < 24 -> in_bin g b s -> g_objs g s = a :: fr ->
  g_objs g' = fset (g_objs g) s fr -> (forall b' t, 0 <= b' < 24 -> (in_bin g' b' t <-> in_bin g b' t)) ->
  live g' b' a' <-> live g b' a' \/ (b' = b /\ a' = a).
Proof.
  intros Hi Hb Hs Ho Ho' Hin. pose proof (slab_ok_in_bin _ _ _ _ _ _ _ Hi Hb Hs) as Hok. rewrite Ho in Hok.
  pose proof (so_objs _ _ _ _ Hok) as Hobj. apply list.Forall_cons in Hobj as [Ha _].
  pose proof (so_nodup _ _ _ _ Hok) as Hnd. apply NoDup_cons in Hnd as [Hafr _]. unfold live. rewrite Ho'. split.
  - intros (Hb' & t & Ht & Hoa & Hn). apply Hin in Ht; [|done]. destruct (decide (t = s)) as [->|Hne].
    + rewrite fset_eq in Hn. assert (b' = b) as -> by (by eapply in_bin_unique).
      destruct (decide (a' = a)) as [->|Hna]; [by right|]. left. split; [done|]. exists s. rewrite Ho. set_solver.
    + rewrite fset_ne in Hn by done. left. eauto.
  - intros [(Hb' & t & Ht & Hoa & Hn)|[-> ->]].
    + split; [done|]. exists t. rewrite Hin by done. split; [done|]. split; [done|].
      destruct (decide (t = s)) as [->|Hne]; [rewrite fset_eq; rewrite Ho in Hn; set_solver|by rewrite fset_ne].
    + split; [done|]. exists s. rewrite Hin, fset_eq by done. done.
Qed.

(** A new slab has no live objects. *)
Lemma live_new_slab g b s b' a' :
  0 <= b < 24 -> g_free g b = [] -> (forall b' t, 0 <= b' < 24 -> in_bin g b' t -> t <> s) ->
  live (upd_bin g b [s] (g_full g b) (fset (g_objs g) s (all_objs b s))) b' a' <-> live g b' a'.
Proof.
  intros Hb HF Hne. destruct (all_objs_spec b s Hb) as (_ & _ & Hall). unfold live. cbn [g_objs upd_bin].
  setoid_rewrite in_upd_bin. split.
  - intros (Hb' & t & [[-> [->%list_elem_of_singleton|Ht]]|[Hbb Ht]] & Hoa & Hn).
    + rewrite fset_eq, Hall in Hn. done.
    + rewrite fset_ne in Hn by (eapply Hne; [done|by right]). split; [done|]. exists t. by split; [right|].
    + rewrite fset_ne in Hn by (by eapply Hne). eauto.
  - intros (Hb' & t & Ht & Hoa & Hn). split; [done|]. exists t. rewrite fset_ne by (by eapply Hne).
    split; [|done]. destruct (decide (b' = b)) as [->|]; [left|by right]. split; [done|]. right.
    destruct Ht as [Ht|Ht]; [|done]. rewrite HF in Ht. by apply elem_of_nil in Ht.
Qed.

Section operations.
Context {H : Type} `{KernelMemory SLAB_VIRT_START SLAB_VIRT_END H} (debug : bool).
Implicit Types (w : window) (hm : H) (g : ghost).

Lemma debug_false (c : bool) : c = false -> debug && c = false.
Proof. intros ->. apply andb_false_r. Qed.

(** [take_object], as the client sees it. *)
Lemma take_live_run e bs tp hm w g b s l :
  km_rep hm w -> heap_inv e bs tp w g -> 0 <= b < 24 -> g_free g b = s :: l -> (forall t, e = Some t -> t = s) ->
  exists a bs' hm' m' g', take_object b (SlabState bs tp hm) = Ok (a, SlabState bs' tp hm') /\
    km_rep hm' (set_view w m') /\ heap_inv None bs' tp (set_view w m') g' /\ ~ live g b a /\
    (forall b' a', live g' b' a' <-> live g b' a' \/ (b' = b /\ a' = a)) /\
    (forall b' a' x, live g b' a' -> a' <= x < a' + bsize b' -> m' x = w_view w x).
Proof.
  intros Hr Hi Hb HF He. assert (in_bin g b s) as Hs by (left; rewrite HF; by left).
  pose proof (hi_bin _ _ _ _ _ Hi b Hb) as Hbo. destruct (bo_free _ _ _ _ _ _ Hbo s) as (Hok & Hn & _); [rewrite HF; by left|].
  destruct (g_objs g s) as [|a fr] eqn:Ho; [done|].
  destruct (take_object_run e bs tp hm w g b s l a fr) as (bs' & h' & m' & g' & E & Hr' & Hi' & Ho' & Hin' & Ht); [done..|].
  destruct (bin_pages _ _ _ _ _ b Hi Hb) as [HpF HpU]. rewrite HF in HpF.
  exists a, bs', h', m', g'. split; [done|]. split; [done|]. split; [done|]. split; [|split].
  - intros (_ & t & Htb & Hoa & Hna). destruct (so_page _ _ _ _ Hok) as [Hsa _].
    destruct (so_page _ _ _ _ (slab_ok_in_bin _ _ _ _ _ _ _ Hi Hb Htb)) as [Hta _].
    pose proof (so_objs _ _ _ _ Hok) as Hobj. apply list.Forall_cons in Hobj as [Has _].
    destruct (obj_bounds b s a Hb Has), (obj_bounds b t a Hb Hoa). destruct (bin_facts b Hb) as (? & _).
    assert (t = s) as ->; [|rewrite Ho in Hna; set_solver].
    rewrite <- (page_of_slab s a), <- (page_of_slab t a) by (done || lia). done.
  - intros b' a'. by eapply (live_take e bs tp w g g' b s a fr).
  - intros b' a' x Hl Hx. eapply (live_kept e bs tp w g b' a' x _ _ m'); [done..|exact Ht| |].
    + apply list.Forall_app. by split; apply (slab_page_addr w).
    + intros HR. exists s. split; [apply (so_page _ _ _ _ Hok)|exact HR].
Qed.

(** What [bin_alloc] does. *)
Lemma bin_alloc_run bs tp hm w g b :
  km_rep hm w -> heap_inv None bs tp w g -> 0 <= b < 24 -> tp + 4096 <= SLAB_VIRT_SIZE -> (4 <= w_budget w)%nat ->
  exists a bs' tp' hm' w' g', bin_alloc debug b (SlabState bs tp hm) = Ok (a, SlabState bs' tp' hm') /\
    km_rep hm' w' /\ heap_inv None bs' tp' w' g' /\ ~ live g b a /\
    (forall b' a', live g' b' a' <-> live g b' a' \/ (b' = b /\ a' = a)) /\
    (forall b' a' x, live g b' a' -> a' <= x < a' + bsize b' -> w_view w' x = w_view w x) /\
    (w_budget w - 4 <= w_budget w')%nat /\ tp <= tp' <= tp + 4096.
Proof.
  intros Hr Hi Hb Htp Hbud. pose proof (hi_head _ _ _ _ _ Hi b Hb) as Hhead. unfold bin_alloc.
  rewrite (bind_run get _ (SlabState bs tp hm) (SlabState bs tp hm) (SlabState bs tp hm) eq_refl). cbn [slab_top].
  rewrite (debug_false (SLAB_TOTAL_BINS <=? b)) by (apply Z.leb_gt; unfold SLAB_TOTAL_BINS; lia).
  rewrite (debug_false (_ <=? tp)).
  2: { apply Z.leb_gt. change (u64 (SLAB_VIRT_END - VMM_DEFAULT_PAGE_SIZE)) with 0xFFFF90FFFFFFF000.
       unfold SLAB_VIRT_SIZE in Htp. lia. }
  rewrite (bind_run _ _ _ _ _ (get_bin_run bs tp hm b _ (proj1 Hb) Hhead)). cbn [free_slabs mk_bin].
  destruct (g_free g b) as [|s l] eqn:HF.
  - (* a new slab *)
    cbn [hd_or]. change (0 =? 0) with true. cbn [whenM]. set (s := SLAB_VIRT_START + tp).
    destruct (new_slab_run bs tp hm w g b Hr Hi Hb HF Htp Hbud) as (bs1 & h1 & w1 & E1 & Hr1 & Hi1 & Hv1 & Hb1 & Hne).
    rewrite (bind_run _ _ _ _ _ E1). fold s in Hi1, Hv1, Hne. set (g1 := upd_bin g b [s] _ _) in *.
    assert (forall b' a', live g1 b' a' <-> live g b' a') as Hl1 by (intros b' a'; by apply live_new_slab).
    destruct (take_live_run (Some s) bs1 (tp + 4096) h1 w1 g1 b s []) as (a & bs2 & h2 & m2 & g2 & E2 & Hr2 & Hi2 & Hnl & Hl2 & Hx2);
      [done..|apply fset_eq|by intros t [= ->]|].
    exists a, bs2, (tp + 4096), h2, (set_view w1 m2), g2. split; [exact E2|]. split; [done|]. split; [done|].
    split; [by rewrite <- Hl1|]. split; [intros b' a'; by rewrite Hl2, Hl1|]. split; [|cbn; lia].
    intros b' a' x Hl Hx. cbn [w_view set_view]. rewrite (Hx2 b' a' x) by (done || by apply Hl1).
    destruct (live_bytes _ _ _ _ _ _ _ x Hi Hl Hx) as (t & Ht & _ & _ & Ept).
    apply Hv1. rewrite Ept. eapply Hne; [apply Hl|done].
  - assert (slab_addr s) as Hs.
    { destruct (bin_pages _ _ _ _ _ b Hi Hb) as [HpF _]. rewrite HF in HpF. by apply list.Forall_cons in HpF as [[? _] _]. }
    cbn [hd_or]. rewrite (bind_run _ _ _ _ _ (whenM_false _ _ _ (slab_addr_nonzero s Hs))).
    destruct (take_live_run None bs tp hm w g b s l) as (a & bs2 & h2 & m2 & g2 & E2 & Hr2 & Hi2 & Hnl & Hl2 & Hx2); [done..|].
    exists a, bs2, tp, h2, (set_view w m2), g2. split; [exact E2|]. do 5 (split; [done|]). cbn. lia.
Qed.

(** ** Freeing *)

(** The full lists and link fields are as before when only the slab's counters and
    objects change. *)
Lemma touched_dlist R s m m' l : touched R [] m m' ->
  (forall y, R y -> s <= y < s + 16 \/ s + 48 <= y < s + 4096) -> slab_addr s -> Forall slab_addr l ->
  dlist m 0 l 0 -> dlist m' 0 l 0.
Proof.
  intros Ht HR Hs Hl. apply dlist_ext. intros t x Htl Hx. apply Ht; [|by intros ? ?%elem_of_nil]. intros Hy%HR.
  rewrite list.Forall_forall in Hl. destruct (decide (t = s)) as [->|Hne]; [lia|].
  apply (slab_addr_far t s x); [by apply Hl|done|done|lia..].
Qed.

Lemma links_touched X m m' : links_only X m m' -> touched (fun _ => False) X m m'.
Proof. intros Hl x _ Hx. by apply Hl. Qed.

(** A slab all of whose objects are free leaves the heap. *)
Lemma release_inv bs tp w g b s F1 F2 p m' budget :
  heap_inv (Some s) bs tp w g -> 0 <= b < 24 -> g_free g b = F1 ++ s :: F2 ->
  w_pages w !! s = Some p -> (forall v, w_pages w !! v = Some p -> v = s) ->
  dlist m' 0 (F1 ++ F2) 0 -> links_only (F1 ++ F2) (w_view w) m' ->
  heap_inv None (<[Z.to_nat b := mk_bin b (hd_or 0 (F1 ++ F2)) (hd_or 0 (g_full g b))]> bs) tp
    (Window (delete s (w_pages w)) (w_owned w ∖ {[p]}) m' budget) (upd_bin g b (F1 ++ F2) (g_full g b) (g_objs g)).
Proof.
  intros Hi Hb HF Hp Hinj Hl Ho. set (w' := Window _ _ _ _). pose proof (hi_bin _ _ _ _ _ Hi b Hb) as Hbo.
  pose proof Hbo as [[HnF HnU] [HlF HlU] Hfr Hfu]. rewrite HF in HnF, Hfr.
  assert (s ∉ F1 ++ F2) as HsF.
  { apply list.NoDup_app in HnF as (_ & Hx & Hy). apply NoDup_cons in Hy as [Hy _].
    intros [Hin|Hin]%elem_of_app; [apply (Hx s Hin); by left|done]. }
  assert (in_bin g b s) as Hs by (left; rewrite HF; set_solver).
  assert (forall b' t, 0 <= b' < 24 -> in_bin g b' t -> slab_addr t) as Haddr.
  { intros b' t Hb' Hin. apply (so_page _ _ _ _ (slab_ok_in_bin _ _ _ _ _ _ _ Hi Hb' Hin)). }
  assert (Forall slab_addr (F1 ++ F2)) as HaF.
  { apply list.Forall_forall. intros t Ht. apply (Haddr b); [done|]. left. rewrite HF. set_solver. }
  assert (forall t q, t <> s -> w_pages w !! t = Some q -> w_pages w' !! t = Some q /\ q ∈ w_owned w') as Hpg.
  { intros t q Hne Hq. cbn. rewrite lookup_delete_ne by done. split; [done|].
    pose proof (hi_settled _ _ _ _ _ Hi t q Hq) as Hqo. apply elem_of_difference. split; [done|].
    intros ->%elem_of_singleton. by destruct (Hne (Hinj t Hq)). }
  assert (forall b' t, 0 <= b' < 24 -> in_bin g b' t -> t <> s -> slab_ok w' b' t (g_objs g t)) as Hkeep.
  { intros b' t Hb' Hin Hne. pose proof (slab_ok_in_bin _ _ _ _ _ _ _ Hi Hb' Hin) as Hok.
    destruct (so_page _ _ _ _ Hok) as [_ (q & Hq & _)]. destruct (Hpg t q Hne Hq) as [Hq' Hqo].
    eapply (slab_ok_ext (set_view w m')); [done| |..].
    - eapply (slab_ok_touched w m' b' t _ (fun _ => False) (F1 ++ F2)); [done|done|by apply links_touched|done|auto].
    - cbn. by rewrite lookup_delete_ne by done.
    - cbn [w_pages set_view]. intros q' Hq'' _. by eapply Hpg.
    - done. }
  apply (heap_inv_bin (Some s) None bs tp tp w); try done; try apply Hi.
  - intros v q. cbn [w_pages w']. intros [Hne Hq]%lookup_delete_Some. by eapply Hpg.
  - split.
    + split; [|done]. apply list.NoDup_app in HnF as (H1 & Hx & Hy). apply NoDup_cons in Hy as [_ Hy].
      apply list.NoDup_app. split; [done|]. split; [|done]. intros t Ht1 Ht2. apply (Hx t Ht1). by right.
    + split; [done|]. eapply (dlist_frame (F1 ++ F2)); [done|done| | |exact HlU].
      * apply list.Forall_forall. intros t Ht. apply (Haddr b); [done|by right].
      * intros t Ht Ht'. eapply free_not_full; [exact Hbo| |exact Ht]. rewrite HF. set_solver.
    + intros t Ht. assert (t <> s) as Hne by (by intros ->). destruct (Hfr t) as (_ & Hn & Hex); [set_solver|].
      split; [apply Hkeep; [done|left; rewrite HF; set_solver|done]|]. split; [done|]. intros E. destruct Hne.
      apply Hex in E. congruence.
    + intros t Ht. destruct (Hfu t Ht) as [_ Hn]. split; [|done]. apply Hkeep; [done|by right|].
      intros ->. eapply free_not_full; [exact Hbo| |exact Ht]. rewrite HF. set_solver.
  - by intros t [= <-].
  - intros b' t Hb' Hne Hin. assert (t <> s) as Hts by (intros ->; destruct Hne; by eapply in_bin_unique).
    split; [cbn; by rewrite lookup_delete_ne by done|]. split; [intros q Hq; by eapply Hpg|]. split; [|done].
    intros x Hx. apply Ho. intros u Hu Hr. apply (slab_addr_far t u x); [by eapply Haddr| | |done|lia].
    + rewrite list.Forall_forall in HaF. by apply HaF.
    + intros ->. destruct Hne. eapply (in_bin_unique _ _ _ _ _ b' b u); [done..|]. left. rewrite HF. set_solver.
  - intros v q. cbn [w_pages w']. intros [Hne Hq]%lookup_delete_Some.
    destruct (hi_pages _ _ _ _ _ Hi v q Hq) as (E1 & E2 & _). split; [done|]. split; [done|].
    destruct (decide (v ∈ F1 ++ F2)); [by left|]. destruct (decide (v ∈ g_full g b)); [by right; left|].
    right. right. split; [done|]. intros [Hin|Hin]; [|done]. rewrite HF in Hin. set_solver.
  - intros q. cbn [w_owned w_pages w']. intros [Hq Hqp%not_elem_of_singleton]%elem_of_difference.
    destruct (hi_owned _ _ _ _ _ Hi q Hq) as [v Hv]. exists v. rewrite lookup_delete_ne; [done|]. congruence.
Qed.

(** The objects of a slab that has all of them free. *)
Lemma all_free b s fr : 0 <= b < 24 -> Forall (is_obj b s) fr -> NoDup fr -> Z.of_nat (length fr) = bmax b ->
  forall a, is_obj b s a -> a ∈ fr.
Proof.
  intros Hb Hobj Hnd Hlen a Ha. destruct (all_objs_spec b s Hb) as (Hl & Hn & Hall).
  assert (fr ≡ₚ all_objs b s) as Hp.
  { apply submseteq_length_Permutation; [|lia]. apply NoDup_submseteq; [done|].
    rewrite list.Forall_forall in Hobj. intros x Hx. by apply Hall, Hobj. }
  rewrite Hp. by apply Hall.
Qed.

(** Giving back object [a] of slab [s]. *)
Lemma live_give e bs tp w g g' b s a b' a' :
  heap_inv e bs tp w g -> 0 <= b < 24 -> in_bin g b s -> is_obj b s a ->
  g_objs g' = fset (g_objs g) s (a :: g_objs g s) -> (forall b' t, 0 <= b' < 24 -> (in_bin g' b' t <-> in_bin g b' t)) ->
  live g' b' a' <-> live g b' a' /\ a' <> a.
Proof.
  intros Hi Hb Hs Ha Ho' Hin. unfold live. rewrite Ho'.
  assert (forall t, 0 <= b' < 24 -> in_bin g b' t -> is_obj b' t a' -> a' = a -> t = s) as Hpage.
  { intros t Hb' Ht Ho ->. destruct (so_page _ _ _ _ (slab_ok_in_bin _ _ _ _ _ _ _ Hi Hb' Ht)) as [Hta _].
    destruct (so_page _ _ _ _ (slab_ok_in_bin _ _ _ _ _ _ _ Hi Hb Hs)) as [Hsa _].
    destruct (obj_bounds b s a Hb Ha), (obj_bounds b' t a Hb' Ho). destruct (bin_facts b Hb) as (? & _), (bin_facts b' Hb') as (? & _).
    rewrite <- (page_of_slab s a), <- (page_of_slab t a) by (done || lia). done. }
  split.
  - intros (Hb' & t & Ht & Ho & Hn). apply Hin in Ht; [|done]. destruct (decide (t = s)) as [->|Hne].
    + rewrite fset_eq in Hn. split; [|set_solver]. split; [done|]. exists s. set_solver.
    + rewrite fset_ne in Hn by done. split; [eauto|]. intros ->. by apply Hne, (Hpage t).
  - intros [(Hb' & t & Ht & Ho & Hn) Hne]. split; [done|]. exists t. rewrite Hin by done. split; [done|]. split; [done|].
    destruct (decide (t = s)) as [->|]; [rewrite fset_eq; set_solver|by rewrite fset_ne].
Qed.

(** The part of [bin_free] before the lists: the object joins its slab's chain. *)
Lemma bin_free_prefix bs tp hm w g b s a :
  km_rep hm w -> heap_inv None bs tp w g -> 0 <= b < 24 -> in_bin g b s -> is_obj b s a -> a ∉ g_objs g s ->
  Z.of_nat (length (g_objs g s)) < bmax b ->
  exists h' m', bin_free debug a (SlabState bs tp hm) =
      (_ ← whenM (bool_decide (g_objs g s = [])) (slab_to_free b s (mk_bin b (hd_or 0 (g_free g b)) (hd_or 0 (g_full g b))));
       count ← peek 4 (count_objects s);
       _ ← whenM (count =? 0) (slab_release b s);
       mret true) (SlabState bs tp h') /\
    km_rep h' (set_view w m') /\ slab_ok (set_view w m') b s (a :: g_objs g s) /\
    touched (fun x => s <= x < s + 16 \/ a <= x < a + 8) [] (w_view w) m'.
Proof.
  intros Hr Hi Hb Hs Ha Hna Hlen. pose proof (slab_ok_in_bin _ _ _ _ _ _ _ Hi Hb Hs) as Hok.
  pose proof (so_page _ _ _ _ Hok) as Hp. pose proof Hp as [Hsa (q & Hq & _)].
  destruct (obj_bounds b s a Hb Ha) as [Ha1 Ha2]. destruct (bin_facts b Hb) as (Hsz & _ & Hmx & _).
  destruct (hi_pages _ _ _ _ _ Hi s q Hq) as (Hreg & _ & _). destruct (hi_top _ _ _ _ _ Hi) as [Htp Htpm].
  unfold bin_free. rewrite debug_false.
  2: { apply orb_false_iff. split; apply Z.ltb_ge; unfold SLAB_VIRT_END; [lia|].
       destruct Hsa as [_ Hsm]. unfold SLAB_VIRT_START, SLAB_VIRT_SIZE in *. dlia. }
  rewrite slab_of_page, (page_of_slab s a) by (done || lia).
  rewrite (bind_run _ _ _ _ _ (peek_run w bs tp hm s (slab_bin s) 2 Hr Hp ltac:(field) ltac:(field))). rewrite (so_bin _ _ _ _ Hok).
  rewrite debug_false by (apply Z.leb_gt; unfold SLAB_TOTAL_BINS; lia).
  rewrite (bind_run _ _ _ _ _ (get_bin_run bs tp hm b _ (proj1 Hb) (hi_head _ _ _ _ _ Hi b Hb))).
  rewrite (bind_run _ _ _ _ _ (peek_run w bs tp hm s (count_objects s) 4 Hr Hp ltac:(field) ltac:(field))). rewrite (so_count _ _ _ _ Hok).
  rewrite (bind_run _ _ _ _ _ (peek_run w bs tp hm s (next_free s) 8 Hr Hp ltac:(field) ltac:(field))).
  destruct (slab_give w b s a (g_objs g s) Hb Hok Ha Hna Hlen) as [Hok' Ht].
  destruct (poke_run w bs tp hm s a 8 (ld 8 (w_view w) (next_free s)) Hr Hp) as (h1 & E1 & Hr1); [lia|lia|]. rewrite (bind_run _ _ _ _ _ E1).
  set (m1 := sto 8 (w_view w) a _) in *.
  destruct (poke_run _ bs tp h1 s (next_free s) 8 a Hr1 Hp) as (h2 & E2 & Hr2); [field|field|]. rewrite (bind_run _ _ _ _ _ E2).
  cbn [w_view set_view] in Hr2. rewrite set_view_twice in Hr2. set (m2 := sto 8 m1 (next_free s) a) in *.
  rewrite (bind_run _ _ _ _ _ (peek_run _ bs tp h2 s (count_objects s) 4 Hr2 Hp ltac:(field) ltac:(field))). cbn [w_view set_view].
  destruct (poke_run _ bs tp h2 s (count_objects s) 4 (u32 (ld 4 m2 (count_objects s) - 1)) Hr2 Hp) as (h3 & E3 & Hr3); [field|field|].
  rewrite (bind_run _ _ _ _ _ E3). cbn [w_view set_view] in Hr3. rewrite set_view_twice in Hr3. set (m3 := sto 4 m2 _ _) in *.
  exists h3, m3. split; [|done]. cbn [max_objects mk_bin].
  replace (bmax b - Z.of_nat (length (g_objs g s)) =? bmax b) with (bool_decide (g_objs g s = [])); [done|].
  destruct (g_objs g s) as [|x fr]; symmetry; [apply Z.eqb_eq|apply Z.eqb_neq]; cbn [length]; lia.
Qed.

(** What freeing the live object [a] leaves behind. *)
Record freed w g (a : Z) bs' (tp : Z) hm' w' g' : Prop := Freed {
  fd_rep : km_rep hm' w';
  fd_inv : heap_inv None bs' tp w' g';
  fd_live : forall b' a', live g' b' a' <-> live g b' a' /\ a' <> a;
  fd_bytes : forall b' a' x, live g b' a' -> a' <> a -> a' <= x < a' + bsize b' -> w_view w' x = w_view w x;
  fd_budget : (w_budget w <= w_budget w')%nat;
}.

Section free_cases.
Context (bs : list BinHeader) (tp : Z) (w : window) (g : ghost) (b s a : Z) (h1 : H) (m1 : mem).
Context (Hi : heap_inv None bs tp w g) (Hb : 0 <= b < 24) (Hs : in_bin g b s) (Ha : is_obj b s a) (Hna : a ∉ g_objs g s).
Context (Hr1 : km_rep h1 (set_view w m1)) (Hok1 : slab_ok (set_view w m1) b s (a :: g_objs g s)).
Let R := fun x => s <= x < s + 16 \/ a <= x < a + 8.
Context (Ht1 : touched R [] (w_view w) m1).

Lemma fc_range y : R y -> s <= y < s + 16 \/ s + 48 <= y < s + 4096.
Proof. destruct (obj_bounds b s a Hb Ha). destruct (bin_facts b Hb) as (? & _). unfold R. lia. Qed.

Lemma fc_slab : slab_addr s.
Proof. apply (so_page _ _ _ _ Hok1). Qed.

Lemma fc_dlist l : Forall (slab_page w) l -> dlist (w_view w) 0 l 0 -> dlist m1 0 l 0.
Proof. intros Hp. apply (touched_dlist R s); [done|apply fc_range|apply fc_slab|by apply (slab_page_addr w)]. Qed.

Lemma fc_bytes X m2 : touched R X (w_view w) m2 -> Forall slab_addr X ->
  forall b' a' x, live g b' a' -> a' <> a -> a' <= x < a' + bsize b' -> m2 x = w_view w x.
Proof.
  intros Ht HX b' a' x Hl' Hne Hx. eapply (live_kept None bs tp w g b' a' x R X m2); [done..|].
  intros [?|Hx']; [exists s; split; [apply fc_slab|done]|]. destruct (bin_facts b' (proj1 Hl')) as (? & _), (bin_facts b Hb) as (? & _).
  assert (live g b a) as Hl by (split; [done|eauto]). destruct (live_disjoint _ _ _ _ _ _ _ _ _ Hi Hl Hl'); [done|lia..].
Qed.

(** The slab was full: it moves to the front of the other list. *)
Lemma free_full_case : g_objs g s = [] ->
  exists bs' hm' w' g',
    (_ ← slab_to_free b s (mk_bin b (hd_or 0 (g_free g b)) (hd_or 0 (g_full g b)));
     count ← peek 4 (count_objects s);
     _ ← whenM (count =? 0) (slab_release b s); mret true) (SlabState bs tp h1) = Ok (true, SlabState bs' tp hm') /\
    freed w g a bs' tp hm' w' g'.
Proof.
  intros Hnil. pose proof (hi_bin _ _ _ _ _ Hi b Hb) as Hbo. destruct (bin_pages _ _ _ _ _ b Hi Hb) as [HpF HpU].
  destruct (bo_nodup _ _ _ _ _ _ Hbo) as [HnF HnU]. destruct (bo_links _ _ _ _ _ _ Hbo) as [HlF HlU].
  pose proof (hi_head _ _ _ _ _ Hi b Hb) as Hhead. destruct (bin_facts b Hb) as (Hsz & _ & Hmx & _).
  apply fc_dlist in HlF, HlU; [|done..].
  assert (s ∈ g_full g b) as HsU.
  { destruct Hs as [Hf|Hf]; [|done]. by destruct (bo_free _ _ _ _ _ _ Hbo s Hf) as (_ & Hn & _). }
  assert (forall t, t ∈ g_free g b -> t ∉ g_full g b) as Hd by (intros t Ht; by eapply free_not_full).
  apply list_elem_of_split in HsU as (U1 & U2 & EU). set (F := g_free g b) in *. rewrite EU in *.
  destruct (slab_to_free_run bs tp h1 (set_view w m1) b s F U1 U2 Hr1 (proj1 Hb) Hhead HpF HpU HnF HnU Hd HlF HlU)
    as (h2 & m2 & E2 & Hr2 & HlF2 & HlU2 & Ho2). rewrite (bind_run _ _ _ _ _ E2). cbn [w_view set_view] in Ho2.
  assert (Forall slab_addr (F ++ U1 ++ s :: U2)) as HX by (apply list.Forall_app; split; by apply (slab_page_addr w)).
  assert (slab_ok (set_view w m2) b s [a]) as Hok2.
  { rewrite <- Hnil. eapply (slab_ok_touched (set_view w m1) m2 b s _ (fun _ => False) (F ++ U1 ++ s :: U2)); [done|exact Hok1| |done|auto].
    by apply links_touched. }
  assert (touched R (F ++ U1 ++ s :: U2) (w_view w) m2) as Ht2 by (eapply touched_links; [exact Ht1|exact Ho2|set_solver|set_solver]).
  rewrite (bind_run _ _ _ _ _ (peek_run _ _ tp h2 s (count_objects s) 4 Hr2 (so_page _ _ _ _ Hok1) ltac:(field) ltac:(field))).
  cbn [w_view set_view]. change (ld 4 m2 (count_objects s)) with (ld 4 (w_view (set_view w m2)) (count_objects s)).
  rewrite (so_count _ _ _ _ Hok2). rewrite (bind_run _ _ _ _ _ (whenM_false _ _ _ (proj2 (Z.eqb_neq (bmax b - Z.of_nat (length [a])) 0) ltac:(cbn; lia)))).
  apply list.NoDup_app in HnU as (Hn1 & Hn12 & [Hs2 Hn2]%NoDup_cons).
  assert (s ∉ F) as HsF by (intros Hin; apply (Hd s Hin); set_solver).
  assert (s ∉ U1) as Hs1 by (intros Hin; apply (Hn12 s Hin); by left).
  set (g' := upd_bin g b (s :: F) (U1 ++ U2) (fset (g_objs g) s [a])).
  eexists _, h2, (set_view w m2), g'. split; [reflexivity|]. split; [done| | |by apply (fc_bytes (F ++ U1 ++ s :: U2))|done].
  - eapply (heap_inv_touched None None bs tp w g b s m2 (s :: F) (U1 ++ U2) [a] R (F ++ U1 ++ s :: U2)); try done.
    + intros y Hy%fc_range. lia.
    + intros t Ht. unfold in_bin. rewrite EU. fold F. set_solver.
    + left. by left.
    + intros t Hne. fold F. set_solver.
    + intros t Hne. rewrite EU. set_solver.
    + split; [by constructor|]. apply list.NoDup_app. split; [done|]. split; [|done]. intros t Ht1' Ht2'. apply (Hn12 t Ht1'). by right.
    + intros _. split; [done|]. cbn. lia.
    + set_solver.
  - intros b' a'. apply (live_give None bs tp w g g' b s a b' a' Hi Hb Hs Ha); [by rewrite Hnil|].
    intros b2 t Hb2. unfold g'. rewrite in_upd_bin. unfold in_bin. destruct (decide (b2 = b)) as [->|]; [rewrite EU; fold F; set_solver|tauto].
Qed.

(** The invariant once the object is on the chain of a slab that was not full. *)
Lemma fc_partial_inv : g_objs g s <> [] ->
  heap_inv (Some s) bs tp (set_view w m1) (upd_bin g b (g_free g b) (g_full g b) (fset (g_objs g) s (a :: g_objs g s))) /\
  s ∈ g_free g b /\
  (forall b' t, in_bin (upd_bin g b (g_free g b) (g_full g b) (fset (g_objs g) s (a :: g_objs g s))) b' t <-> in_bin g b' t).
Proof.
  intros Hnn. pose proof (hi_bin _ _ _ _ _ Hi b Hb) as Hbo. destruct (bin_pages _ _ _ _ _ b Hi Hb) as [HpF HpU].
  destruct (bo_links _ _ _ _ _ _ Hbo) as [HlF HlU].
  assert (s ∈ g_free g b) as HsF.
  { destruct Hs as [Hf|Hf]; [done|]. by destruct (bo_full _ _ _ _ _ _ Hbo s Hf) as (_ & Hn). }
  split; [|split; [done|]].
  - rewrite <- (list_insert_id bs (Z.to_nat b) (mk_bin b (hd_or 0 (g_free g b)) (hd_or 0 (g_full g b)))) by (by apply Hi).
    eapply (heap_inv_touched None (Some s) bs tp w g b s m1 _ _ _ R []); try done.
    + intros y Hy%fc_range. lia.
    + by intros t ?%elem_of_nil.
    + apply Hbo.
    + split; by apply fc_dlist.
    + intros Hf. by destruct (bo_full _ _ _ _ _ _ Hbo s Hf) as (_ & Hn).
  - intros b' t. rewrite in_upd_bin. unfold in_bin. destruct (decide (b' = b)) as [->|]; tauto.
Qed.

(** The slab keeps allocated objects. *)
Lemma free_partial_case : g_objs g s <> [] -> Z.of_nat (length (a :: g_objs g s)) < bmax b ->
  exists w' g', freed w g a bs tp h1 w' g'.
Proof.
  intros Hnn Hlen. destruct (fc_partial_inv Hnn) as (Hi1 & HsF & Hin). eexists (set_view w m1), _. split; [done| | | |done].
  - destruct Hi1 as [H1 H2 H3 H4 H5 H6 H7]. split; try done. intros b' Hb'. destruct (H5 b' Hb') as [Hnd Hl Hfr Hfu].
    split; try done. intros t Ht. destruct (Hfr t Ht) as (Hok & Hn & Hex). split; [done|]. split; [done|].
    intros E. pose proof (Hex E) as [= <-]. exfalso.
    assert (b' = b) as ->.
    { eapply (in_bin_unique (Some s)); [split; done|done|done|left; exact Ht|]. apply Hin. by left. }
    cbn [g_objs upd_bin] in E. rewrite fset_eq in E. lia.
  - intros b' a'. eapply (live_give None bs tp w g _ b s a b' a' Hi Hb Hs Ha); [done|]. intros b2 t _. apply Hin.
  - by apply (fc_bytes []).
Qed.

(** The last allocated object of a slab: its page goes back. *)
Lemma free_last_case : g_objs g s <> [] -> Z.of_nat (length (a :: g_objs g s)) = bmax b ->
  exists bs' hm' w' g', slab_release b s (SlabState bs tp h1) = Ok (tt, SlabState bs' tp hm') /\ freed w g a bs' tp hm' w' g'.
Proof.
  intros Hnn Hlen. destruct (fc_partial_inv Hnn) as (Hi1 & HsF & Hin). set (g1 := upd_bin _ _ _ _ _) in *.
  apply list_elem_of_split in HsF as (F1 & F2 & EF).
  assert (g_free g1 b = F1 ++ s :: F2) as EF1 by (cbn; by rewrite fset_eq).
  pose proof (hi_bin _ _ _ _ _ Hi1 b Hb) as Hbo. destruct (bin_pages _ _ _ _ _ b Hi1 Hb) as [HpF _].
  pose proof (hi_head _ _ _ _ _ Hi1 b Hb) as Hhead. rewrite EF1 in Hbo, HpF, Hhead.
  destruct (so_page _ _ _ _ Hok1) as [_ (p & Hp & Hpo)]. pose proof (so_phys _ _ _ _ Hok1) as Hph. rewrite Hp in Hph. injection Hph as Hph.
  destruct (slab_release_run bs tp h1 (set_view w m1) b s F1 F2 _ p Hr1 (proj1 Hb) Hhead HpF) as (h2 & m2 & E2 & Hr2 & Hl2 & Ho2);
    [apply Hbo|apply Hbo|done|done|done|].
  assert (Forall slab_addr (F1 ++ F2)) as HX.
  { apply slab_page_addr in HpF. rewrite list.Forall_app in HpF |- *. rewrite list.Forall_cons in HpF. tauto. }
  set (w2 := Window _ _ m2 _) in *. eexists _, h2, w2, _. split; [exact E2|]. split; [exact Hr2| | | |cbn; lia].
  - apply (release_inv bs tp (set_view w m1) g1 b s F1 F2 p); try done. intros v Hv. by eapply (km_inj h1 (set_view w m1)).
  - intros b' a'. rewrite <- (live_give None bs tp w g g1 b s a b' a' Hi Hb Hs Ha eq_refl (fun b2 t _ => Hin b2 t)).
    unfold live. cbn [g_objs upd_bin]. setoid_rewrite in_upd_bin.
    assert (forall t, t ∈ F1 ++ F2 -> t <> s) as Hne.
    { intros t Ht ->. destruct (bo_nodup _ _ _ _ _ _ Hbo) as [(_ & Hx & [Hy _]%NoDup_cons)%list.NoDup_app _].
      apply elem_of_app in Ht as [Ht|Ht]; [apply (Hx s Ht); by left|done]. }
    split; intros (Hb' & t & Ht & Ho & Hn); (split; [done|]; exists t; split; [|done]).
    + destruct Ht as [[-> [Ht|Ht]]|[Hbb Ht]]; [left|by right|done]. rewrite EF1. set_solver.
    + destruct (decide (b' = b)) as [->|]; [|by right]. left. split; [done|]. destruct Ht as [Ht|Ht]; [|by right]. left.
      rewrite EF1 in Ht. assert (t <> s); [|set_solver]. intros ->. destruct Hn. cbn. rewrite fset_eq.
      by eapply (all_free b s); [|apply Hok1|apply Hok1| |].
  - apply (fc_bytes (F1 ++ F2)); [|done]. eapply touched_links; [exact Ht1|exact Ho2|set_solver|set_solver].
Qed.
End free_cases.

(** What [bin_free] does: a live object stops being live, all others keep their bytes. *)
Lemma bin_free_run bs tp hm w g b a :
  km_rep hm w -> heap_inv None bs tp w g -> live g b a ->
  exists bs' hm' w' g', bin_free debug a (SlabState bs tp hm) = Ok (true, SlabState bs' tp hm') /\
    freed w g a bs' tp hm' w' g'.
Proof.
  intros Hr Hi (Hb & s & Hs & Ha & Hna). destruct (bin_facts b Hb) as (_ & _ & Hmx & _).
  pose proof (slab_ok_in_bin _ _ _ _ _ _ _ Hi Hb Hs) as Hok.
  assert (Z.of_nat (length (g_objs g s)) < bmax b) as Hlen.
  { pose proof (so_length _ _ _ _ Hok). destruct (decide (Z.of_nat (length (g_objs g s)) = bmax b)) as [E|]; [|lia].
    destruct Hna. eapply all_free; [done|apply Hok|apply Hok|done|done]. }
  destruct (bin_free_prefix bs tp hm w g b s a Hr Hi Hb Hs Ha Hna Hlen) as (h1 & m1 & -> & Hr1 & Hok1 & Ht1).
  destruct (decide (g_objs g s = [])) as [Hnil|Hnn].
  - rewrite (bool_decide_eq_true_2 _ Hnil). by apply (free_full_case bs tp w g b s a h1 m1).
  - rewrite (bind_run _ _ _ _ _ (whenM_false _ _ _ (bool_decide_eq_false_2 _ Hnn))).
    rewrite (bind_run _ _ _ _ _ (peek_run _ bs tp h1 s (count_objects s) 4 Hr1 (so_page _ _ _ _ Hok1) ltac:(field) ltac:(field))).
    rewrite (so_count _ _ _ _ Hok1). pose proof (so_length _ _ _ _ Hok1) as Hle.
    destruct (decide (Z.of_nat (length (a :: g_objs g s)) = bmax b)) as [E|Hne].
    + rewrite E, Z.sub_diag. change (0 =? 0) with true. cbn [whenM].
      destruct (free_last_case bs tp w g b s a h1 m1) as (bs' & h2 & w' & g' & Hrun & Hfd); [done..|].
      rewrite (bind_run _ _ _ _ _ Hrun). by exists bs', h2, w', g'.
    + rewrite (bind_run _ _ _ _ _ (whenM_false _ _ _ (proj2 (Z.eqb_neq (bmax b - Z.of_nat (length (a :: g_objs g s))) 0) ltac:(lia)))).
      destruct (free_partial_case bs tp w g b s a h1 m1) as (w' & g' & Hfd); [done..|lia|]. by exists bs, h1, w', g'.
Qed.
End operations.
