(* ===== verification/KmallocTheorems.v ===== *)
(** * The heap that kmalloc implements

    The abstract heap is a finite map from addresses to blocks of bytes.  A client
    allocates, frees, and reads and writes inside its blocks ([heap_step]);
    [kmalloc_refines] shows that the slab allocator, run on any implementation of
    [KernelMemory], simulates it. *)
From S2P Require Import Prelude Common Memory Interfaces Bitmap Pmm Vmm PageTables VmmProofs VmmTheorems KernelMemory Slab SlabLists SlabProofs SlabTheorems.
From Stdlib Require Import ZArith Lia.
From stdpp Require Import base tactics list numbers gmap.

Open Scope Z_scope.

(** ** The specification *)

(** The smallest object size that holds [n] bytes. *)
Definition size_class (n : Z) : Z := default 0 (head (filter (fun s => n <= s) (object_size <$> bins))).

Inductive heap_op :=
| Malloc (n : Z)
| Free (a : Z)
| Write (a off : Z) (bs : list Z)
| Read (a off : Z) (n : nat).

Inductive heap_result :=
| Addr (a : Z)
| Bytes (bs : list Z)
| Done.

Abbreviation heap := (gmap Z (list Z)).

Definition block_bytes (old : list Z) (off : Z) (bs : list Z) : list Z :=
  take (Z.to_nat off) old ++ bs ++ drop (Z.to_nat off + length bs) old.

(** What a client may ask for. *)
Definition allowed (A : heap) (op : heap_op) : Prop :=
  match op with
  | Malloc n => 0 < n <= 1024
  | Free a => is_Some (A !! a)
  | Write a off bs => exists old, A !! a = Some old /\ 0 <= off /\ off + Z.of_nat (length bs) <= Z.of_nat (length old) /\ bytes_ok bs
  | Read a off n => exists old, A !! a = Some old /\ 0 <= off /\ off + Z.of_nat n <= Z.of_nat (length old)
  end.

(** What it gets: a fresh block that overlaps no other, of the smallest size that
    fits and with any contents; blocks keep their contents until they are freed. *)
Inductive heap_step (A : heap) : heap_op -> heap_result -> heap -> Prop :=
| step_malloc n a bs :
    a <> 0 -> a mod 8 = 0 -> Z.of_nat (length bs) = size_class n -> A !! a = None ->
    (forall a' bs', A !! a' = Some bs' -> a + Z.of_nat (length bs) <= a' \/ a' + Z.of_nat (length bs') <= a) ->
    heap_step A (Malloc n) (Addr a) (<[a := bs]> A)
| step_free a : heap_step A (Free a) Done (delete a A)
| step_write a off bs old : A !! a = Some old ->
    heap_step A (Write a off bs) Done (<[a := block_bytes old off bs]> A)
| step_read a off n old : A !! a = Some old ->
    heap_step A (Read a off n) (Bytes (take n (drop (Z.to_nat off) old))) A.

(** ** The bin of a request *)

Definition bin_index (n : Z) : Z := Z.of_nat (length (filter (fun s => s < n) (object_size <$> bins))).

Lemma size_class_bin n : 0 < n <= 1024 ->
  0 <= bin_index n < 24 /\ bsize (bin_index n) = size_class n /\ n <= size_class n.
Proof.
  intros Hn. assert (Forall (fun n => 0 <= bin_index n < 24 /\ bsize (bin_index n) = size_class n /\ n <= size_class n) (seqZ 1 1024)) as Hall.
  { apply (bool_decide_unpack _). vm_compute. exact I. }
  rewrite list.Forall_forall in Hall. apply Hall, elem_of_seqZ. lia.
Qed.

Lemma bin_index_eq n b : 0 < n <= 1024 -> 0 <= b < 24 -> (b = 0 \/ bsize (b - 1) < n) -> n <= bsize b -> bin_index n = b.
Proof.
  intros Hn Hb Hlo Hhi. assert (Forall (fun n => Forall (fun b => (b = 0 \/ bsize (b - 1) < n) -> n <= bsize b -> bin_index n = b)
    (seqZ 0 24)) (seqZ 1 1024)) as Hall by (apply (bool_decide_unpack _); vm_compute; exact I).
  rewrite list.Forall_forall in Hall. specialize (Hall n). rewrite list.Forall_forall in Hall.
  apply Hall; [apply elem_of_seqZ; lia..|done|done].
Qed.

Section refinement.
Context {H : Type} `{KernelMemory SLAB_VIRT_START SLAB_VIRT_END H} (debug : bool).
Implicit Types (st : slab_state H) (A : heap).

Lemma kmalloc_bin n : 0 < n <= 1024 -> kmalloc debug n = bin_alloc debug (bin_index n).
Proof.
  intros Hn. unfold kmalloc. rewrite (proj2 (Z.eqb_neq n 0)) by lia.
  assert (forall b, 0 <= b < 24 -> (b = 0 \/ bsize (b - 1) < n) -> n <= bsize b -> bin_alloc debug b = bin_alloc debug (bin_index n))
    as Hb by (intros b ? ? ?; by rewrite (bin_index_eq n b)).
  repeat match goal with
  | |- (if n <=? ?c then bin_alloc _ ?b else _) = _ =>
      let v := eval vm_compute in (bsize b) in let u := eval vm_compute in (bsize (b - 1)) in
      destruct (Z.leb_spec n c) as [?|?]; cycle 1;
      [|apply (Hb b); [lia|(by left) || (right; change (bsize (b - 1)) with u; lia)|change (bsize b) with v; lia]]
  end. lia.
Qed.

(** One operation of the client on the concrete heap; reads and writes go through
    pointers into the block. *)
Definition exec (op : heap_op) : M (slab_state H) heap_result :=
  match op with
  | Malloc n => a ← kmalloc debug n; mret (Addr a)
  | Free a => _ ← kfree debug a; mret Done
  | Write a off bs => _ ← on_mem (km_store (a + off) bs); mret Done
  | Read a off n => bs ← on_mem (km_load (a + off) n); mret (Bytes bs)
  end.

(** The representation, with room for [n] more allocations: the blocks are the live
    objects with the bytes kernel memory holds for them. *)
Definition heap_rep (n : nat) st A : Prop :=
  exists w g, km_rep (st_mem st) w /\ heap_inv None (st_bins st) (slab_top st) w g /\
    (4 * n <= w_budget w)%nat /\ slab_top st + 4096 * Z.of_nat n <= SLAB_VIRT_SIZE /\
    (forall a bs, A !! a = Some bs <-> exists b, live g b a /\ bs = load (w_view w) a (Z.to_nat (bsize b))).

Lemma heap_rep_block w g A bs tp a old :
  heap_inv None bs tp w g -> (forall a bs, A !! a = Some bs <-> exists b, live g b a /\ bs = load (w_view w) a (Z.to_nat (bsize b))) ->
  A !! a = Some old -> exists b s, live g b a /\ 0 <= b < 24 /\ in_bin g b s /\ slab_page w s /\ is_obj b s a /\ 
    old = load (w_view w) a (Z.to_nat (bsize b)) /\ Z.of_nat (length old) = bsize b.
Proof.
  intros Hi HA Hold. apply HA in Hold as (b & Hl & ->). pose proof Hl as (Hb & s & Hs & Ho & _). exists b, s.
  pose proof (so_page _ _ _ _ (slab_ok_in_bin _ _ _ _ _ _ _ Hi Hb Hs)). destruct (bin_facts b Hb) as (? & _).
  rewrite length_load, Z2Nat.id by lia. done.
Qed.

(** Bytes of live objects determine the blocks. *)
Lemma blocks_kept g g' w w' A (P : Z -> Prop) :
  (forall a bs, A !! a = Some bs <-> exists b, live g b a /\ bs = load (w_view w) a (Z.to_nat (bsize b))) ->
  (forall b a, P a -> (live g' b a <-> live g b a)) ->
  (forall b a x, live g b a -> P a -> a <= x < a + bsize b -> w_view w' x = w_view w x) ->
  forall a bs, P a -> A !! a = Some bs <-> exists b, live g' b a /\ bs = load (w_view w') a (Z.to_nat (bsize b)).
Proof.
  intros HA Hl Hx a bs HP. rewrite HA. apply exist_proper. intros b. rewrite (Hl b a HP).
  split; intros [Hlv ->]; (split; [done|]); [symmetry|]; apply load_ext; intros x Hr;
    destruct (bin_facts b (proj1 Hlv)) as (? & _); apply (Hx b a); done || lia.
Qed.

Lemma malloc_refines n k st A : heap_rep (Datatypes.S n) st A -> 0 < k <= 1024 ->
  exists a st' A', kmalloc debug k st = Ok (a, st') /\ heap_step A (Malloc k) (Addr a) A' /\ heap_rep n st' A'.
Proof.
  intros (w & g & Hr & Hi & Hbud & Htop & HA) Hk. rewrite kmalloc_bin by done.
  destruct (size_class_bin k Hk) as (Hb & Hsc & Hks). set (b := bin_index k) in *.
  destruct st as [bs tp hm]. cbn [st_bins slab_top st_mem] in *.
  destruct (bin_alloc_run debug bs tp hm w g b Hr Hi Hb) as (a & bs' & tp' & hm' & w' & g' & Hrun & Hr' & Hi' & Hnl & Hl & Hx & Hb' & Htp');
    [lia|lia|].
  destruct (bin_facts b Hb) as (Hsz & Hmod & _). assert (live g' b a) as Hla by (apply Hl; by right).
  destruct (live_bytes _ _ _ _ _ _ _ a Hi' Hla) as (s & _ & [Hs0 Hsm] & Hsr & Eps); [lia|].
  assert (forall b', ~ live g b' a) as Hfresh.
  { intros b' Hl'. assert (b' = b) as ->; [|done]. eapply (live_unique _ _ _ _ _ _ _ _ Hi'); [|exact Hla]. apply Hl. by left. }
  set (blk := load (w_view w') a (Z.to_nat (bsize b))).
  assert (Z.of_nat (length blk) = bsize b) as Hlen by (unfold blk; rewrite length_load; lia).
  exists a, (SlabState bs' tp' hm'), (<[a := blk]> A). split; [done|]. split.
  - apply step_malloc.
    + lia.
    + destruct Hla as (_ & s' & Hs' & (j & Hj & Ea) & _).
      destruct (so_page _ _ _ _ (slab_ok_in_bin _ _ _ _ _ _ _ Hi' Hb Hs')) as [[_ Hm'] _]. rewrite Ea.
      assert ((j * bsize b) mod 8 = 0) by (rewrite <- Z.mul_mod_idemp_r, Hmod, Z.mul_0_r by lia; done). dlia.
    + by rewrite Hlen.
    + destruct (A !! a) as [bl|] eqn:E; [|done]. apply HA in E as (b' & Hl' & _). by destruct (Hfresh b').
    + intros a' bs2 (b' & Hl' & ->)%HA. rewrite Hlen, length_load. destruct (bin_facts b' (proj1 Hl')) as (? & _).
      rewrite Z2Nat.id by lia. eapply (live_disjoint _ _ _ _ _ _ _ _ _ Hi' Hla); [apply Hl; by left|].
      intros ->. by destruct (Hfresh b').
  - exists w', g'. cbn [st_bins slab_top st_mem]. split; [done|]. split; [done|]. split; [lia|]. split; [lia|].
    intros a' bs2. destruct (decide (a' = a)) as [->|Hne].
    + rewrite lookup_insert_eq. split; [intros [= <-]; by exists b|]. intros (b' & Hl' & ->). f_equal. unfold blk.
      by rewrite (live_unique _ _ _ _ _ _ _ _ Hi' Hl' Hla).
    + rewrite lookup_insert_ne by done. apply (blocks_kept g g' w w' A (fun x => x <> a)); [done|..|done].
      * intros b' a2 Hne2. rewrite Hl. naive_solver.
      * intros b' a2 x Hl2 _ Hx2. by apply (Hx b' a2).
Qed.

Lemma free_refines n a st A : heap_rep n st A -> is_Some (A !! a) ->
  exists st', kfree debug a st = Ok (tt, st') /\ heap_rep n st' (delete a A).
Proof.
  intros (w & g & Hr & Hi & Hbud & Htop & HA) [old (b & Hl & _)%HA]. destruct st as [bs tp hm]. cbn [st_bins slab_top st_mem] in *.
  destruct (bin_free_run debug bs tp hm w g b a Hr Hi Hl) as (bs' & hm' & w' & g' & Hrun & [Hr' Hi' Hl' Hx Hb']).
  exists (SlabState bs' tp hm'). split; [unfold kfree; by rewrite (bind_run _ _ _ _ _ Hrun)|].
  exists w', g'. cbn [st_bins slab_top st_mem]. split; [done|]. split; [done|]. split; [lia|]. split; [done|].
  intros a' bs2. destruct (decide (a' = a)) as [->|Hne].
  - rewrite lookup_delete_eq. split; [done|]. by intros (b' & [_ ?]%Hl' & _).
  - rewrite lookup_delete_ne by done. apply (blocks_kept g g' w w' A (fun x => x <> a)); [done|..|done].
    + intros b' a2 Hne2. rewrite Hl'. tauto.
    + intros b' a2 x Hl2 Hne2 Hx2. by apply (Hx b' a2).
Qed.

(** A client that writes inside a live object does not disturb the allocator. *)
Lemma client_store_inv bs tp w g b a x (ws : list Z) :
  heap_inv None bs tp w g -> live g b a -> a <= x -> x + Z.of_nat (length ws) <= a + bsize b ->
  exists g', heap_inv None bs tp (set_view w (store (w_view w) x ws)) g' /\ (forall b' a', live g' b' a' <-> live g b' a').
Proof.
  intros Hi (Hb & s & Hs & Ho & Hna) Hx1 Hx2. pose proof (slab_ok_in_bin _ _ _ _ _ _ _ Hi Hb Hs) as Hok.
  pose proof (hi_bin _ _ _ _ _ Hi b Hb) as Hbo. destruct (obj_bounds b s a Hb Ho) as [Ho1 Ho2].
  set (m' := store (w_view w) x ws). set (R := fun y => x <= y < x + Z.of_nat (length ws)).
  assert (touched R [] (w_view w) m') as Ht by (intros y Hy _; apply store_out; unfold R in Hy; lia).
  assert (forall y, y < a \/ a + bsize b <= y -> m' y = w_view w y) as Hout by (intros y Hy; apply store_out; lia).
  destruct (bin_pages _ _ _ _ _ b Hi Hb) as [HpF HpU].
  exists (upd_bin g b (g_free g b) (g_full g b) (fset (g_objs g) s (g_objs g s))). split.
  - rewrite <- (list_insert_id bs (Z.to_nat b) (mk_bin b (hd_or 0 (g_free g b)) (hd_or 0 (g_full g b)))) by (by apply Hi).
    eapply (heap_inv_touched None None bs tp w g b s m' _ _ _ R []); try done.
    + unfold R. intros y Hy. lia.
    + by intros t ?%elem_of_nil.
    + apply Hbo.
    + split; (eapply (touched_dlist R s); [done|unfold R; intros y Hy; lia|apply Hok|by apply (slab_page_addr w)|apply Hbo]).
    + unfold count_objects in *. eapply slab_ok_data; [exact Hok|..]; try apply Hok.
      * intros y Hy. apply Hout. lia.
      * rewrite <- (so_count _ _ _ _ Hok). unfold count_objects. apply ld_ext. intros y Hy. apply Hout. lia.
      * rewrite (ld_ext 8 (w_view w) m') by (intros y Hy; apply Hout; unfold next_free in Hy; lia).
        eapply chain_ext; [|apply Hok]. intros z y Hz Hy. apply Hout. destruct (bin_facts b Hb) as (? & _).
        pose proof (so_objs _ _ _ _ Hok) as Hobj. rewrite list.Forall_forall in Hobj.
        destruct (obj_disjoint b s z a Hb (Hobj z Hz) Ho) as [?|?]; [by intros ->|lia..].
    + intros Hf. destruct (bo_free _ _ _ _ _ _ Hbo s Hf) as (_ & ? & ?). done.
    + intros Hf. by destruct (bo_full _ _ _ _ _ _ Hbo s Hf) as (_ & ?).
  - intros b' a'. unfold live. cbn [g_objs upd_bin]. setoid_rewrite in_upd_bin. split; intros (Hb' & t & Hin & Hoa & Hn).
    + split; [done|]. exists t. split; [destruct Hin as [[-> ?]|[_ ?]]; done|]. split; [done|].
      destruct (decide (t = s)) as [->|]; [by rewrite fset_eq in Hn|by rewrite fset_ne in Hn].
    + split; [done|]. exists t. split; [destruct (decide (b' = b)) as [->|]; [by left|by right]|]. split; [done|].
      destruct (decide (t = s)) as [->|]; [by rewrite fset_eq|by rewrite fset_ne].
Qed.

Lemma load_store_block m a (n : nat) off bs : 0 <= off -> off + Z.of_nat (length bs) <= Z.of_nat n ->
  load (store m (a + off) bs) a n = block_bytes (load m a n) off bs.
Proof.
  intros Hoff Hlen. apply list_eq. intros i. unfold block_bytes.
  destruct (decide (i < n)%nat) as [Hi|Hi].
  2: { rewrite !lookup_ge_None_2; [done|..]; rewrite ?length_app, ?length_take, ?length_drop, ?length_load; lia. }
  rewrite load_lookup by done. destruct (decide (i < Z.to_nat off)%nat) as [H1|H1].
  - rewrite lookup_app_l by (rewrite length_take, length_load; lia). rewrite lookup_take_lt, load_lookup by lia.
    by rewrite store_out by lia.
  - rewrite lookup_app_r by (rewrite length_take, length_load; lia). rewrite length_take, length_load.
    replace (Z.to_nat off `min` n)%nat with (Z.to_nat off) by lia.
    destruct (decide (i - Z.to_nat off < length bs)%nat) as [H2|H2].
    + rewrite lookup_app_l by done. destruct (lookup_lt_is_Some_2 bs _ H2) as [c Hc]. rewrite Hc.
      rewrite <- (store_in m (a + off) bs _ c Hc). do 2 f_equal. lia.
    + rewrite lookup_app_r, lookup_drop by lia. rewrite load_lookup by lia. rewrite store_out by lia. do 2 f_equal. lia.
Qed.

Lemma write_refines n a off bs st A : heap_rep n st A -> allowed A (Write a off bs) ->
  exists st' A', exec (Write a off bs) st = Ok (Done, st') /\ heap_step A (Write a off bs) Done A' /\ heap_rep n st' A'.
Proof.
  intros (w & g & Hr & Hi & Hbud & Htop & HA) (old & Hold & Hoff & Hfit & Hbs). destruct st as [bh tp hm].
  cbn [st_bins slab_top st_mem] in *.
  destruct (heap_rep_block w g A bh tp a old Hi HA Hold) as (b & s & Hl & Hb & Hs & Hp & Ho & Eold & Hlen).
  destruct (obj_bounds b s a Hb Ho). destruct (bin_facts b Hb) as (Hsz & _).
  destruct (km_store_ok hm w (a + off) bs Hr) as (hm' & Hrun & Hr'); [by eapply (slab_mapped w s); [|lia|lia]|done|].
  destruct (client_store_inv bh tp w g b a (a + off) bs Hi Hl) as (g' & Hi' & Hl'); [lia|lia|].
  exists (SlabState bh tp hm'), (<[a := block_bytes old off bs]> A). split; [|split; [by constructor|]].
  - unfold exec. rewrite (bind_run _ _ _ tt (SlabState bh tp hm')); [done|]. unfold on_mem. cbn [st_mem]. by rewrite Hrun.
  - exists (set_view w (store (w_view w) (a + off) bs)), g'. cbn [st_bins slab_top st_mem]. do 4 (split; [done|]).
    intros a' bs2. destruct (decide (a' = a)) as [->|Hne].
    + rewrite lookup_insert_eq. cbn [w_view set_view].
      assert (load (store (w_view w) (a + off) bs) a (Z.to_nat (bsize b)) = block_bytes old off bs) as Eblk
        by (rewrite Eold; apply load_store_block; lia).
      split; [intros [= <-]; exists b; split; [by apply Hl'|done]|]. intros (b' & Hlb%Hl' & ->).
      by rewrite (live_unique _ _ _ _ _ _ _ _ Hi Hlb Hl), Eblk.
    + rewrite lookup_insert_ne by done. apply (blocks_kept g g' w _ A (fun x => x <> a)); [done|..|done].
      * intros b' a2 _. apply Hl'.
      * intros b' a2 x Hl2 Hne2 Hx2. cbn [w_view set_view]. apply store_out.
        destruct (live_disjoint _ _ _ _ _ _ _ _ _ Hi Hl Hl2); [done|lia..].
Qed.

Lemma read_refines n a off k st A : heap_rep n st A -> allowed A (Read a off k) ->
  exists r, exec (Read a off k) st = Ok (r, st) /\ heap_step A (Read a off k) r A.
Proof.
  intros (w & g & Hr & Hi & Hbud & Htop & HA) (old & Hold & Hoff & Hfit). destruct st as [bh tp hm]. cbn [st_bins slab_top st_mem] in *.
  destruct (heap_rep_block w g A bh tp a old Hi HA Hold) as (b & s & Hl & Hb & Hs & Hp & Ho & Eold & Hlen).
  destruct (obj_bounds b s a Hb Ho). eexists. split; [|by econstructor].
  unfold exec. rewrite (bind_run _ _ _ (take k (drop (Z.to_nat off) old)) (SlabState bh tp hm)); [done|]. unfold on_mem.
  cbn [st_mem]. rewrite (km_load_ok hm w) by first [done|by eapply (slab_mapped w s); [|lia|lia]]. do 2 f_equal.
  rewrite Eold in Hfit |- *. rewrite length_load in Hfit. apply list_eq. intros i.
  destruct (decide (i < k)%nat) as [Hi'|Hi'].
  - rewrite lookup_take_lt, lookup_drop, !load_lookup by lia. do 2 f_equal. lia.
  - rewrite !lookup_ge_None_2; [done|..]; rewrite ?length_take, ?length_drop, ?length_load; lia.
Qed.

Lemma heap_rep_weaken n st A : heap_rep (Datatypes.S n) st A -> heap_rep n st A.
Proof. intros (w & g & ? & ? & ? & ? & ?). exists w, g. repeat (split; [done || lia|]). done. Qed.

Lemma heap_rep_zero n st A : heap_rep n st A -> heap_rep 0 st A.
Proof. induction n as [|n IH]; [done|]. intros Hr. by apply IH, heap_rep_weaken. Qed.

Lemma exec_refines n st A op : heap_rep (Datatypes.S n) st A -> allowed A op ->
  exists r st' A', exec op st = Ok (r, st') /\ heap_step A op r A' /\ heap_rep n st' A'.
Proof.
  intros Hrep Hal. destruct op as [k|a|a off bs|a off k]; pose proof (heap_rep_weaken _ _ _ Hrep) as Hrep'.
  - destruct (malloc_refines n k st A Hrep Hal) as (a & st' & A' & Hrun & Hstep & Hr).
    exists (Addr a), st', A'. unfold exec. by rewrite (bind_run _ _ _ _ _ Hrun).
  - destruct (free_refines n a st A Hrep' Hal) as (st' & Hrun & Hr).
    exists Done, st', (delete a A). unfold exec. rewrite (bind_run _ _ _ _ _ Hrun). split; [done|]. by split; [constructor|].
  - destruct (write_refines n a off bs st A Hrep' Hal) as (st' & A' & Hrun & Hstep & Hr). by exists Done, st', A'.
  - destruct (read_refines n a off k st A Hrep' Hal) as (r & Hrun & Hstep). by exists r, st, A.
Qed.

(** A client is a tree of requests that goes on with the results it gets; it is
    well behaved for [n] steps when every request it makes is allowed by the
    abstract heap, whatever the abstract heap answered before. *)
Inductive client :=
| Stop
| Ask (op : heap_op) (k : heap_result -> client).

Fixpoint run_client (c : client) : M (slab_state H) unit :=
  match c with
  | Stop => mret tt
  | Ask op k => r ← exec op; run_client (k r)
  end.

Inductive well_behaved : nat -> heap -> client -> Prop :=
| wb_stop n A : well_behaved n A Stop
| wb_ask n A op k : allowed A op -> (forall r A', heap_step A op r A' -> well_behaved n A' (k r)) ->
    well_behaved (Datatypes.S n) A (Ask op k).

Inductive spec_run : heap -> client -> heap -> Prop :=
| sr_stop A : spec_run A Stop A
| sr_ask A op k r A1 A2 : heap_step A op r A1 -> spec_run A1 (k r) A2 -> spec_run A (Ask op k) A2.

Lemma run_client_refines n A c : well_behaved n A c -> forall st, heap_rep n st A ->
  exists st' A', run_client c st = Ok (tt, st') /\ spec_run A c A' /\ heap_rep 0 st' A'.
Proof.
  induction 1 as [n A|n A op k Hal Hk IH]; intros st Hrep.
  - exists st, A. split; [done|]. split; [constructor|]. eapply heap_rep_zero. exact Hrep.
  - destruct (exec_refines n st A op Hrep Hal) as (r & st1 & A1 & Hrun & Hstep & Hrep1).
    destruct (IH r A1 Hstep st1 Hrep1) as (st2 & A2 & Hrun2 & Hs2 & Hrep2). exists st2, A2.
    cbn [run_client]. rewrite (bind_run _ _ _ _ _ Hrun). split; [done|]. split; [by econstructor|done].
Qed.

(** Every page of a represented heap holds a live block: a slab is neither left with all
    its objects free nor full of objects that are free. *)
Lemma page_holds_block w g A bs tp v p :
  heap_inv None bs tp w g -> (forall a bs, A !! a = Some bs <-> exists b, live g b a /\ bs = load (w_view w) a (Z.to_nat (bsize b))) ->
  w_pages w !! v = Some p -> exists a old, A !! a = Some old /\ v <= a /\ a + Z.of_nat (length old) <= v + 4096.
Proof.
  intros Hi HA Hv. destruct (hi_pages _ _ _ _ _ Hi v p Hv) as (_ & _ & b & Hb & Hin).
  pose proof (slab_ok_in_bin _ _ _ _ _ _ _ Hi Hb Hin) as Hok. pose proof (hi_bin _ _ _ _ _ Hi b Hb) as Hbo.
  destruct (all_objs_spec b v Hb) as (Hlen & Hnd & Hall). destruct (bin_facts b Hb) as (Hsz & _ & Hmx & _).
  destruct (decide (Forall (fun a => a ∈ g_objs g v) (all_objs b v))) as [Hsub|(a & Ha & Hn)%not_Forall_Exists%list.Exists_exists]; [exfalso| |apply _].
  - rewrite list.Forall_forall in Hsub. apply NoDup_submseteq, submseteq_length in Hsub; [|done]. pose proof (so_length _ _ _ _ Hok).
    destruct Hin as [Hf|Hf].
    + destruct (bo_free _ _ _ _ _ _ Hbo v Hf) as (_ & _ & He). discriminate He. lia.
    + destruct (bo_full _ _ _ _ _ _ Hbo v Hf) as (_ & E). rewrite E in Hsub. cbn in Hsub. lia.
  - apply Hall in Ha. assert (live g b a) as Hl by (split; [done|]; exists v; done).
    exists a, (load (w_view w) a (Z.to_nat (bsize b))). split; [apply HA; eauto|].
    rewrite length_load, Z2Nat.id by lia. pose proof (obj_bounds b v a Hb Ha). lia.
Qed.

(** The state at boot: empty bins, nothing mapped in the region. *)
Lemma boot_heap_rep (hm : H) m (budget n : nat) : km_rep hm (Window ∅ ∅ m budget) -> (4 * n <= budget)%nat ->
  4096 * Z.of_nat n <= SLAB_VIRT_SIZE -> heap_rep n (SlabState bins 0 hm) ∅.
Proof.
  intros Hr Hb Ht. exists (Window ∅ ∅ m budget), (Ghost (fun _ => []) (fun _ => []) (fun _ => [])).
  cbn [st_bins slab_top st_mem w_budget]. split; [done|]. split; [|split; [done|split; [done|]]].
  - split; cbn [g_free g_full g_objs hd_or]; try done.
    + intros b Hb'. by apply bin_facts.
    + intros b Hb'. split; [by split; constructor|done| |]; by intros s ?%elem_of_nil.
  - intros a bs. split; [done|]. intros (b & (_ & s & [Hs|Hs] & _) & _); by apply elem_of_nil in Hs.
Qed.

(** ** Properties *)

(** C9: the slab allocator refines the abstract heap: from any represented state with
    four free pages per remaining request, every allowed request ([kmalloc] of 1 to
    1024 bytes, [kfree] of a block, a read or write inside a block) succeeds, and
    its result and the new state are those of an abstract step.  In particular a new
    block is aligned, fresh, disjoint from all live blocks and of the smallest size
    that fits, and no operation changes the contents of another block. *)
Theorem kmalloc_refines (n : nat) (st : slab_state H) (A : heap) (op : heap_op)
  (Hrep : heap_rep (Datatypes.S n) st A) (Hallowed : allowed A op) :
  exists r st' A', exec op st = Ok (r, st') /\ heap_step A op r A' /\ heap_rep n st' A'.
Proof. by apply exec_refines. Qed.

(** C10: from boot, every client that respects the abstract heap runs to completion
    on the slab allocator, without fault or panic, along a run of the abstract
    heap. *)
Theorem kmalloc_clients_run (hm : H) (m : mem) (n : nat) (c : client)
  (Hboot : km_rep hm (Window ∅ ∅ m (4 * n))) (Hroom : 4096 * Z.of_nat n <= SLAB_VIRT_SIZE)
  (Hclient : well_behaved n ∅ c) :
  exists st' A', run_client c (SlabState bins 0 hm) = Ok (tt, st') /\ spec_run ∅ c A' /\ heap_rep 0 st' A'.
Proof. eapply run_client_refines; [done|]. by eapply (boot_heap_rep hm m (4 * n)). Qed.

(** C11: nothing leaks: from boot, after any run of a client that respects the abstract
    heap, every page that is still mapped in the region holds a block the client has not
    freed, and every frame the heap owns is mapped; when all blocks have been freed, no
    page is mapped and no frame is owned.  As for the runs above, there are four free
    pages per request. *)
Theorem kmalloc_no_leak (hm : H) (m : mem) (n : nat) (c : client)
  (Hboot : km_rep hm (Window ∅ ∅ m (4 * n))) (Hroom : 4096 * Z.of_nat n <= SLAB_VIRT_SIZE)
  (Hclient : well_behaved n ∅ c) :
  exists st' A' w, run_client c (SlabState bins 0 hm) = Ok (tt, st') /\ spec_run ∅ c A' /\ km_rep (st_mem st') w /\
    (forall v p, w_pages w !! v = Some p -> exists a bs, A' !! a = Some bs /\ v <= a /\ a + Z.of_nat (length bs) <= v + 4096) /\
    (forall p, p ∈ w_owned w -> exists v, w_pages w !! v = Some p) /\
    (A' = ∅ -> w_pages w = ∅ /\ w_owned w = ∅).
Proof.
  destruct (run_client_refines n ∅ c Hclient (SlabState bins 0 hm)) as (st' & A' & Hrun & Hspec & (w & g & Hr & Hi & _ & _ & HA));
    [by eapply (boot_heap_rep hm m (4 * n))|].
  pose proof (fun v p => page_holds_block w g A' _ _ v p Hi HA) as Hpage.
  assert (forall p, p ∈ w_owned w -> exists v, w_pages w !! v = Some p) as Hown by apply (hi_owned _ _ _ _ _ Hi).
  exists st', A', w. do 3 (split; [done|]). split; [exact Hpage|]. split; [exact Hown|]. intros ->.
  assert (w_pages w = ∅) as Hnone.
  { apply map_empty. intros v. destruct (w_pages w !! v) as [p|] eqn:Hv; [|done]. by destruct (Hpage v p Hv) as (a & bs & ? & _). }
  split; [done|]. apply set_eq. intros p. rewrite elem_of_empty. split; [|done]. intros Hp.
  destruct (Hown p Hp) as [v Hv]. by rewrite Hnone in Hv.
Qed.
End refinement.

(** ** Witnesses: the heap on the 64-page machine of [VmmTheorems] *)

Lemma heap_region : page_region SLAB_VIRT_START SLAB_VIRT_END.
Proof. vm_compute. intuition congruence. Qed.

#[local] Instance heap_memory : KernelMemory SLAB_VIRT_START SLAB_VIRT_END (vmm_state pmm_state) :=
  sample_memory SLAB_VIRT_START SLAB_VIRT_END heap_region.

Definition sample_heap : slab_state (vmm_state pmm_state) := SlabState bins 0 sample_state.

Lemma sample_heap_rep : heap_rep 2 sample_heap ∅.
Proof. apply (boot_heap_rep sample_state (fun _ => 0) 8); [apply sample_boot|lia|vm_compute; congruence]. Qed.

Lemma kmalloc_refines_witness :
  exists r st' A', exec true (Malloc 100) sample_heap = Ok (r, st') /\ heap_step ∅ (Malloc 100) r A' /\ heap_rep 1 st' A'.
Proof. apply (kmalloc_refines true 1 sample_heap ∅ (Malloc 100)); [apply sample_heap_rep|cbn; lia]. Defined.

(** Allocate a block and free it. *)
Definition sample_client : client :=
  Ask (Malloc 100) (fun r => match r with Addr a => Ask (Free a) (fun _ => Stop) | _ => Stop end).

Lemma sample_client_ok : well_behaved 2 ∅ sample_client.
Proof.
  apply wb_ask; [cbn; lia|]. intros r A' Hstep. inversion Hstep; subst. apply wb_ask; [|constructor].
  cbn. rewrite lookup_insert_eq. by eexists.
Qed.

Lemma kmalloc_clients_run_witness :
  exists st' A', run_client true sample_client sample_heap = Ok (tt, st') /\ spec_run ∅ sample_client A' /\ heap_rep 0 st' A'.
Proof.
  apply (kmalloc_clients_run true sample_state (fun _ => 0) 2 sample_client).
  - exact (sample_boot _ _ heap_region).
  - vm_compute. congruence.
  - exact sample_client_ok.
Defined.

(** The sample client frees what it allocates, so that nothing stays mapped. *)
Lemma kmalloc_no_leak_witness :
  exists st w, run_client true sample_client sample_heap = Ok (tt, st) /\
    km_rep (st_mem st) w /\ w_pages w = ∅ /\ w_owned w = ∅.
Proof.
  destruct (kmalloc_no_leak true sample_state (fun _ => 0) 2 sample_client) as (st & A & w & Hrun & Hspec & Hr & _ & _ & Hempty).
  - exact (sample_boot _ _ heap_region).
  - vm_compute. congruence.
  - exact sample_client_ok.
  - exists st, w. split; [exact Hrun|]. split; [exact Hr|]. apply Hempty.
    inversion Hspec as [|? ? ? r A1 ? Hstep Hspec1]; subst. inversion Hstep; subst.
    inversion Hspec1 as [|? ? ? r2 A2 ? Hstep2 Hspec2]; subst. inversion Hstep2; subst.
    inversion Hspec2; subst. by rewrite delete_insert_eq, delete_empty.
Defined.
