(* ===== verification/Descriptors.v ===== *)
(** * Descriptor tables

    [kernel/common/gdt.c], the gate-setting part of [kernel/idt.c] and their stage 2
    counterparts: how segment, TSS and gate descriptors are packed, and what the
    processor reads back from them.  The addresses of the assembly interrupt stubs
    ([idt64_isr_0] ... [idt64_isr_255]) are the parameter [isr]. *)
From S2P Require Import Prelude Common.
From Stdlib Require Import ZArith Lia.
From stdpp Require Import base tactics list numbers.

Open Scope Z_scope.

(** ** Segment descriptors *)

(** The 64-bit value [gdt_set_entry] stores; the arguments are 32-, 32-, 8- and
    8-bit values, and the shifts are at 64 bits. *)
Definition gdt_entry (base limit access flags : Z) : Z :=
  Z.lor (Z.shiftl (Z.land limit 0xFFFF) 0)
  (Z.lor (Z.shiftl (Z.land base 0xFFFF) 16)
  (Z.lor (Z.shiftl (Z.land (Z.shiftr base 16) 0xFF) 32)
  (Z.lor (Z.shiftl access 40)
  (Z.lor (Z.shiftl (Z.land (Z.shiftr limit 16) 0xF) 48)
  (Z.lor (u64 (Z.shiftl flags 52))
         (Z.shiftl (Z.land (Z.shiftr base 24) 0xFF) 56)))))).

Definition gdt_set_entry (gdt : list Z) (index base limit access flags : Z) : outcome (list Z) :=
  wr gdt index (gdt_entry base limit access flags).

(** The stage 2 copy is the same text. *)
Definition stage2_gdt_set_entry (gdt : list Z) (index base limit access flags : Z) : outcome (list Z) :=
  wr gdt index
    (Z.lor (Z.shiftl (Z.land limit 0xFFFF) 0)
    (Z.lor (Z.shiftl (Z.land base 0xFFFF) 16)
    (Z.lor (Z.shiftl (Z.land (Z.shiftr base 16) 0xFF) 32)
    (Z.lor (Z.shiftl access 40)
    (Z.lor (Z.shiftl (Z.land (Z.shiftr limit 16) 0xF) 48)
    (Z.lor (u64 (Z.shiftl flags 52))
           (Z.shiftl (Z.land (Z.shiftr base 24) 0xFF) 56))))))).

(** The TSS descriptor takes two slots; the upper one holds bits 32-63 of the base. *)
Definition gdt_set_tss_entry (gdt : list Z) (index tss access flags count : Z) : outcome (list Z) :=
  gdt ← wr gdt index
    (Z.lor (Z.shiftl (Z.land count 0xFFFF) 0)
    (Z.lor (Z.shiftl (Z.land tss 0xFFFF) 16)
    (Z.lor (Z.shiftl (Z.land (Z.shiftr tss 16) 0xFF) 32)
    (Z.lor (Z.shiftl access 40)
    (Z.lor (Z.shiftl (Z.land (Z.shiftr count 16) 0xF) 48)
    (Z.lor (u64 (Z.shiftl flags 52))
           (Z.shiftl (Z.land (Z.shiftr tss 24) 0xFF) 56)))))));
  wr gdt (index + 1) (Z.land (Z.shiftr tss 32) 0xFFFFFFFF).

(** The pseudo-descriptor [gdt_load_gdtr] hands to [lgdt]: (limit, base). *)
Definition gdt_load_gdtr (gdt count : Z) : Z * Z := (u16 (u64 (count * 8) - 1), gdt).
Definition stage2_gdt_load_gdtr (gdt count : Z) : Z * Z := (u16 (u32 (count * 8) - 1), u32 gdt).

(** ** What the processor reads from a segment descriptor *)
Definition desc_base (d : Z) : Z := d / 2 ^ 16 mod 2 ^ 24 + d / 2 ^ 56 mod 2 ^ 8 * 2 ^ 24.
Definition desc_limit (d : Z) : Z := d mod 2 ^ 16 + d / 2 ^ 48 mod 2 ^ 4 * 2 ^ 16.
Definition desc_access (d : Z) : Z := d / 2 ^ 40 mod 2 ^ 8.
Definition desc_flags (d : Z) : Z := d / 2 ^ 52 mod 2 ^ 4.

(** ** Interrupt gates *)

Inductive IDT64GateType := IDT64_ISR_INTERRUPT | IDT64_ISR_TRAP.

#[export] Instance gate_type_eq_dec : EqDecision IDT64GateType.
Proof. solve_decision. Defined.

Record IDT64Entry := {
  offset1 : Z;
  segment : Z;
  ist_index : Z;
  ist_reserved : Z;
  attr : Z;
  offset2 : Z;
  offset3 : Z;
  reserved : Z;
}.

Definition zero_gate : IDT64Entry :=
  {| offset1 := 0; segment := 0; ist_index := 0; ist_reserved := 0; attr := 0;
     offset2 := 0; offset3 := 0; reserved := 0 |}.

(** The IST index is a 4-bit field; [reserved] keeps its value. *)
Definition idt64_set_gate (idt_table : list IDT64Entry) (index handler : Z)
  (type : IDT64GateType) (ist : Z) : outcome (list IDT64Entry) :=
  old ← rd idt_table index;
  wr idt_table index
    {| offset1 := Z.land handler 0xFFFF;
       segment := 0x08;
       ist_index := ist mod 2 ^ 4;
       ist_reserved := 0;
       attr := match type with IDT64_ISR_INTERRUPT => 0x8E | IDT64_ISR_TRAP => 0x8F end;
       offset2 := Z.land (Z.shiftr handler 16) 0xFFFF;
       offset3 := Z.land (Z.shiftr handler 32) 0xFFFFFFFF;
       reserved := reserved old |}.

Definition IDT64_VECTOR_COUNT : Z := 256.

Section idt.
Context (isr : Z -> Z).

(** Type and IST of the gates of the 32 exceptions, as listed. *)
Definition exception_gates : list (IDT64GateType * Z) :=
  let t := IDT64_ISR_TRAP in
  let i := IDT64_ISR_INTERRUPT in
  [(t, 0); (t, 0); (i, 1); (t, 0); (t, 0); (t, 0); (t, 0); (t, 0);
   (t, 2); (t, 0); (t, 0); (t, 0); (t, 0); (t, 0); (t, 0); (i, 0);
   (t, 0); (t, 0); (t, 3); (t, 0); (t, 0); (t, 0); (i, 0); (i, 0);
   (i, 0); (i, 0); (i, 0); (i, 0); (i, 0); (i, 0); (i, 0); (i, 0)].

(** Vectors 32-143 and 144-255 are all interrupt gates without IST. *)
Definition irq_gates_low : list (IDT64GateType * Z) := replicate 112 (IDT64_ISR_INTERRUPT, 0).
Definition irq_gates_high : list (IDT64GateType * Z) := replicate 112 (IDT64_ISR_INTERRUPT, 0).

(** The calls [idt64_set_gate(idt_table, v, idt64_isr_v, type, ist)] for
    [v = from, from + 1, ...]. *)
Fixpoint set_gates (idt_table : list IDT64Entry) (from : Z) (gates : list (IDT64GateType * Z))
  : outcome (list IDT64Entry) :=
  match gates with
  | [] => Ok idt_table
  | (type, ist) :: gates' =>
      idt_table ← idt64_set_gate idt_table from (isr from) type ist;
      set_gates idt_table (from + 1) gates'
  end.

(** [memset] of the 256 entries, then the gates. *)
Definition idt64_init (idt_table : list IDT64Entry) : outcome (list IDT64Entry) :=
  if Z.of_nat (length idt_table) <? IDT64_VECTOR_COUNT then Fault else
  let idt_table := replicate 256 zero_gate ++ drop 256 idt_table in
  idt_table ← set_gates idt_table 0 exception_gates;
  idt_table ← set_gates idt_table 32 irq_gates_low;
  set_gates idt_table 144 irq_gates_high.
End idt.

Definition idt64_load_idtr (idt_table count : Z) : Z * Z := (u16 (u64 (count * 16) - 1), idt_table).

(** *** Stage 2 gates (32-bit) *)

Record IDT32Entry := {
  offset1_32 : Z;
  segment_32 : Z;
  zero_32 : Z;
  attr_32 : Z;
  offset2_32 : Z;
}.

Inductive IDT32ISRHandlerType := IDT32_ISR_INTERRUPT | IDT32_ISR_TRAP.

Definition IDT32_IDT_ATTR_INTERRUPT : Z := 0x8E.
Definition IDT32_IDT_ATTR_TRAP : Z := 0x8F.

Definition idt32_set_entry_int (idt_table : list IDT32Entry) (index handler : Z) : outcome (list IDT32Entry) :=
  wr idt_table index
    {| offset1_32 := Z.land handler 0xFFFF; segment_32 := 0x08; zero_32 := 0;
       attr_32 := IDT32_IDT_ATTR_INTERRUPT; offset2_32 := Z.land (Z.shiftr handler 16) 0xFFFF |}.

Definition idt32_set_entry_trap (idt_table : list IDT32Entry) (index handler : Z) : outcome (list IDT32Entry) :=
  wr idt_table index
    {| offset1_32 := Z.land handler 0xFFFF; segment_32 := 0x08; zero_32 := 0;
       attr_32 := IDT32_IDT_ATTR_TRAP; offset2_32 := Z.land (Z.shiftr handler 16) 0xFFFF |}.

(** The handlers from index [i] on. *)
Fixpoint idt32_set_entries_from (entries : list IDT32Entry) (i : Z)
  (handlers : list (IDT32ISRHandlerType * Z)) : outcome (list IDT32Entry) :=
  match handlers with
  | [] => Ok entries
  | (type, handler) :: handlers' =>
      entries ← match type with
                | IDT32_ISR_INTERRUPT => idt32_set_entry_int entries i (u32 handler)
                | IDT32_ISR_TRAP => idt32_set_entry_trap entries i (u32 handler)
                end;
      idt32_set_entries_from entries (i + 1) handlers'
  end.

Definition idt32_set_entries (entries : list IDT32Entry) (handlers : list (IDT32ISRHandlerType * Z))
  : outcome (list IDT32Entry) := idt32_set_entries_from entries 0 handlers.

(** ** What the processor reads from a gate *)
Definition gate_target (e : IDT64Entry) : Z := offset1 e + offset2 e * 2 ^ 16 + offset3 e * 2 ^ 32.
Definition gate_present (e : IDT64Entry) : bool := Z.testbit (attr e) 7.
Definition gate_dpl (e : IDT64Entry) : Z := attr e / 2 ^ 5 mod 4.
(** Gate type 14 clears IF on entry, 15 does not. *)
Definition gate_masks_interrupts (e : IDT64Entry) : bool := attr e mod 16 =? 14.
Definition gate32_target (e : IDT32Entry) : Z := offset1_32 e + offset2_32 e * 2 ^ 16.

(** ** Lemmas *)

Lemma land_ones_mod x n : 0 <= n -> Z.land x (2 ^ n - 1) = x mod 2 ^ n.
Proof. intros. change (2 ^ n - 1) with (Z.pred (2 ^ n)). by rewrite <- Z.ones_equiv, Z.land_ones. Qed.

(** A field placed above the fields below it, as an addition. *)
Lemma lor_field a b k : 0 <= k -> 0 <= a < 2 ^ k -> Z.lor a (b * 2 ^ k) = a + b * 2 ^ k.
Proof. intros. by rewrite <- Z.shiftl_mul_pow2, lor_shiftl_add, Z.shiftl_mul_pow2. Qed.

(** The packed descriptor as a sum of fields (flags below 16 leave the top byte to
    the base). *)
Lemma gdt_entry_sum base limit access flags :
  0 <= base -> 0 <= limit -> 0 <= access < 2 ^ 8 -> 0 <= flags < 2 ^ 4 ->
  gdt_entry base limit access flags =
    limit mod 2 ^ 16 + base mod 2 ^ 16 * 2 ^ 16 + base / 2 ^ 16 mod 2 ^ 8 * 2 ^ 32 +
    access * 2 ^ 40 + limit / 2 ^ 16 mod 2 ^ 4 * 2 ^ 48 + flags * 2 ^ 52 +
    base / 2 ^ 24 mod 2 ^ 8 * 2 ^ 56.
Proof.
  intros Hb Hl Ha Hf. unfold gdt_entry.
  rewrite !Z.shiftr_div_pow2, !Z.shiftl_mul_pow2 by lia. rewrite u64_id by lia.
  change 0xFFFF with (2 ^ 16 - 1). change 0xFF with (2 ^ 8 - 1). change 0xF with (2 ^ 4 - 1).
  rewrite !land_ones_mod by lia.
  pose proof (Z.mod_pos_bound limit (2 ^ 16)). pose proof (Z.mod_pos_bound base (2 ^ 16)).
  pose proof (Z.mod_pos_bound (base / 2 ^ 16) (2 ^ 8)). pose proof (Z.mod_pos_bound (limit / 2 ^ 16) (2 ^ 4)).
  pose proof (Z.mod_pos_bound (base / 2 ^ 24) (2 ^ 8)).
  generalize dependent (limit mod 2 ^ 16). generalize dependent (base mod 2 ^ 16).
  generalize dependent (base / 2 ^ 16 mod 2 ^ 8). generalize dependent (limit / 2 ^ 16 mod 2 ^ 4).
  generalize dependent (base / 2 ^ 24 mod 2 ^ 8). intros x1 H1 x2 H2 x3 H3 x4 H4 x5 H5.
  rewrite !Z.lor_assoc, Z.mul_1_r.
  rewrite (lor_field x5 x4 16), (lor_field _ x3 32), (lor_field _ access 40), (lor_field _ x2 48),
    (lor_field _ flags 52), (lor_field _ x1 56) by lia. lia.
Qed.

(** The fields the processor extracts from such a sum. *)
Lemma desc_fields (l0 b0 b1 access l1 flags b2 : Z) :
  0 <= l0 < 2 ^ 16 -> 0 <= b0 < 2 ^ 16 -> 0 <= b1 < 2 ^ 8 -> 0 <= access < 2 ^ 8 ->
  0 <= l1 < 2 ^ 4 -> 0 <= flags < 2 ^ 4 -> 0 <= b2 < 2 ^ 8 ->
  let d := l0 + b0 * 2 ^ 16 + b1 * 2 ^ 32 + access * 2 ^ 40 + l1 * 2 ^ 48 + flags * 2 ^ 52 + b2 * 2 ^ 56 in
  desc_base d = b0 + b1 * 2 ^ 16 + b2 * 2 ^ 24 /\ desc_limit d = l0 + l1 * 2 ^ 16 /\
  desc_access d = access /\ desc_flags d = flags.
Proof. intros. unfold desc_base, desc_limit, desc_access, desc_flags. subst d. dlia. Qed.

Lemma gdt_entry_fields base limit access flags :
  0 <= base -> 0 <= limit < 2 ^ 20 -> 0 <= access < 2 ^ 8 -> 0 <= flags < 2 ^ 4 ->
  let d := gdt_entry base limit access flags in
  desc_base d = base mod 2 ^ 32 /\ desc_limit d = limit /\ desc_access d = access /\ desc_flags d = flags.
Proof.
  intros Hb Hl Ha Hf d. subst d. rewrite gdt_entry_sum by lia.
  destruct (desc_fields (limit mod 2 ^ 16) (base mod 2 ^ 16) (base / 2 ^ 16 mod 2 ^ 8) access
    (limit / 2 ^ 16 mod 2 ^ 4) flags (base / 2 ^ 24 mod 2 ^ 8)) as (-> & -> & -> & ->);
    [by apply Z.mod_pos_bound..|done|by apply Z.mod_pos_bound|done|by apply Z.mod_pos_bound|].
  dlia.
Qed.

(** The gate written for [handler]. *)
Lemma idt64_set_gate_run idt index handler type ist :
  0 <= index < Z.of_nat (length idt) ->
  exists e, idt64_set_gate idt index handler type ist = Ok (<[Z.to_nat index := e]> idt) /\
    (0 <= handler < 2 ^ 64 -> gate_target e = handler) /\ segment e = 8 /\
    gate_present e = true /\ gate_dpl e = 0 /\ ist_index e = ist mod 16 /\
    gate_masks_interrupts e = bool_decide (type = IDT64_ISR_INTERRUPT).
Proof.
  intros Hi. destruct (rd_in_range idt index Hi) as [old Hold]. unfold idt64_set_gate. rewrite Hold.
  munfold. rewrite wr_in_range by done. eexists. split; [done|].
  split; [|split; [done|destruct type; done]].
  intros Hh. unfold gate_target. cbn [offset1 offset2 offset3].
  rewrite !Z.shiftr_div_pow2 by lia. change 0xFFFF with (2 ^ 16 - 1). change 0xFFFFFFFF with (2 ^ 32 - 1).
  rewrite !land_ones_mod by lia. dlia.
Qed.

(** What a run of [set_gates] leaves in each slot. *)
Definition gate_for (isr : Z -> Z) (v : Z) (g : IDT64GateType * Z) (e : IDT64Entry) : Prop :=
  gate_target e = isr v /\ segment e = 8 /\ gate_present e = true /\ gate_dpl e = 0 /\
  ist_index e = g.2 mod 16 /\ gate_masks_interrupts e = bool_decide (g.1 = IDT64_ISR_INTERRUPT).

Lemma set_gates_spec isr gates : forall idt from,
  (forall v, 0 <= v < 256 -> 0 <= isr v < 2 ^ 64) ->
  0 <= from -> from + Z.of_nat (length gates) <= 256 ->
  from + Z.of_nat (length gates) <= Z.of_nat (length idt) ->
  exists idt', set_gates isr idt from gates = Ok idt' /\ length idt' = length idt /\
    (forall k, (k < Z.to_nat from \/ Z.to_nat from + length gates <= k)%nat -> idt' !! k = idt !! k) /\
    (forall k g, gates !! k = Some g ->
       exists e, idt' !! (Z.to_nat from + k)%nat = Some e /\ gate_for isr (from + Z.of_nat k) g e).
Proof.
  induction gates as [|[type ist] gates IH]; intros idt from Hisr Hfrom H256 Hlen; cbn [set_gates length] in *.
  { exists idt. split; [done|]. split; [done|]. split; [done|]. by intros k g. }
  destruct (idt64_set_gate_run idt from (isr from) type ist) as (e & Hrun & Htgt & He); [lia|].
  rewrite Hrun. munfold.
  destruct (IH (<[Z.to_nat from := e]> idt) (from + 1)) as (idt' & -> & Hl & Hout & Hin);
    [done|lia|lia|rewrite length_insert; lia|].
  rewrite length_insert in Hl. exists idt'. split; [done|]. split; [done|].
  replace (Z.to_nat (from + 1)) with (S (Z.to_nat from)) in * by lia. split.
  - intros k Hk. rewrite Hout by lia. apply list_lookup_insert_ne. lia.
  - intros [|k] g Hg.
    + injection Hg as <-. exists e. rewrite Nat.add_0_r, Z.add_0_r, Hout by lia.
      split; [apply list_lookup_insert_eq; lia|]. split; [apply Htgt, Hisr; lia|done].
    + destruct (Hin k g Hg) as (e' & He' & Hg'). exists e'.
      replace (Z.to_nat from + S k)%nat with (S (Z.to_nat from) + k)%nat by lia.
      split; [done|]. by replace (from + Z.of_nat (S k)) with (from + 1 + Z.of_nat k) by lia.
Qed.

(** ** Properties *)

(** A segment descriptor decodes to exactly the base, 20-bit limit, access byte
    and flags it was built from. *)
Theorem gdt_entry_roundtrip (gdt gdt' : list Z) (index base limit access flags : Z)
  (Hbase : 0 <= base < 2 ^ 32) (Hlimit : 0 <= limit < 2 ^ 20)
  (Haccess : 0 <= access < 2 ^ 8) (Hflags : 0 <= flags < 2 ^ 4)
  (Hrun : gdt_set_entry gdt index base limit access flags = Ok gdt') :
  exists d, rd gdt' index = Ok d /\ desc_base d = base /\ desc_limit d = limit /\
    desc_access d = access /\ desc_flags d = flags.
Proof.
  unfold gdt_set_entry in Hrun. apply wr_Ok in Hrun as [Hi ->].
  eexists. split; [apply rd_Ok; split; [lia|apply list_lookup_insert_eq; lia]|].
  destruct (gdt_entry_fields base limit access flags) as (-> & -> & -> & ->); [lia..|].
  by rewrite Z.mod_small.
Qed.

Lemma gdt_entry_roundtrip_witness :
  exists d, rd [0; 0x00CF9A000000FFFF; 0] 1 = Ok d /\ desc_base d = 0 /\ desc_limit d = 0xFFFFF /\
    desc_access d = 0x9A /\ desc_flags d = 0xC.
Proof. apply (gdt_entry_roundtrip [0; 0; 0] [0; 0x00CF9A000000FFFF; 0] 1 0 0xFFFFF 0x9A 0xC); (lia || reflexivity). Defined.

(** The two slots of a TSS descriptor give back the full 64-bit TSS address and
    its limit. *)
Theorem gdt_tss_roundtrip (gdt gdt' : list Z) (index tss access flags count : Z)
  (Htss : 0 <= tss < 2 ^ 64) (Hcount : 0 <= count < 2 ^ 20)
  (Haccess : 0 <= access < 2 ^ 8) (Hflags : 0 <= flags < 2 ^ 4)
  (Hrun : gdt_set_tss_entry gdt index tss access flags count = Ok gdt') :
  exists lo hi, rd gdt' index = Ok lo /\ rd gdt' (index + 1) = Ok hi /\
    desc_base lo + hi * 2 ^ 32 = tss /\ desc_limit lo = count /\ desc_access lo = access.
Proof.
  unfold gdt_set_tss_entry in Hrun. apply obind_Ok in Hrun as (g1 & H1 & H2).
  apply wr_Ok in H1 as [Hi ->]. apply wr_Ok in H2 as [Hi' ->]. rewrite length_insert in Hi'.
  exists (gdt_entry tss count access flags), (Z.land (Z.shiftr tss 32) 0xFFFFFFFF).
  split; [|split].
  - apply rd_Ok. split; [lia|]. rewrite list_lookup_insert_ne by lia. apply list_lookup_insert_eq. lia.
  - apply rd_Ok. split; [lia|]. apply list_lookup_insert_eq. rewrite length_insert. lia.
  - destruct (gdt_entry_fields tss count access flags) as (-> & -> & -> & _); [lia..|].
    split; [|done]. rewrite Z.shiftr_div_pow2 by lia. change 0xFFFFFFFF with (2 ^ 32 - 1).
    rewrite land_ones_mod by lia. dlia.
Qed.

Lemma gdt_tss_roundtrip_witness :
  exists lo hi, rd [0; 0x800089ABCDEF0067; 0xFFFF8000] 1 = Ok lo /\
    rd [0; 0x800089ABCDEF0067; 0xFFFF8000] (1 + 1) = Ok hi /\
    desc_base lo + hi * 2 ^ 32 = 0xFFFF800080ABCDEF /\ desc_limit lo = 0x67 /\ desc_access lo = 0x89.
Proof.
  apply (gdt_tss_roundtrip [0; 0; 0] [0; 0x800089ABCDEF0067; 0xFFFF8000] 1 0xFFFF800080ABCDEF 0x89 0 0x67);
    (lia || reflexivity).
Defined.

(** [idt64_init] fills all 256 vectors: every gate is present, kernel-only, points
    to its own stub in the kernel code segment, and has the type and IST slot of the
    exception list (NMI, double fault and machine check on their own stacks). *)
Theorem idt64_init_all_gates (isr : Z -> Z) (idt : list IDT64Entry)
  (Hisr : forall v, 0 <= v < 256 -> 0 <= isr v < 2 ^ 64) (Hlen : length idt = 256%nat) :
  exists idt', idt64_init isr idt = Ok idt' /\ length idt' = 256%nat /\
    forall v, (v < 256)%nat -> exists e, idt' !! v = Some e /\
      gate_for isr (Z.of_nat v)
        (default (IDT64_ISR_INTERRUPT, 0) (exception_gates !! v)) e.
Proof.
  unfold idt64_init. rewrite Hlen. cbn [Z.ltb IDT64_VECTOR_COUNT]. rewrite drop_ge, app_nil_r by lia.
  change (Z.of_nat 256 <? IDT64_VECTOR_COUNT) with false. cbv iota.
  destruct (set_gates_spec isr exception_gates (replicate 256 zero_gate) 0) as (i1 & -> & L1 & O1 & G1);
    [done|lia|cbn; lia|rewrite length_replicate; cbn; lia|]. munfold.
  rewrite length_replicate in L1.
  destruct (set_gates_spec isr irq_gates_low i1 32) as (i2 & -> & L2 & O2 & G2);
    [done|lia|cbn; lia|rewrite L1; cbn; lia|].
  destruct (set_gates_spec isr irq_gates_high i2 144) as (i3 & -> & L3 & O3 & G3);
    [done|lia|cbn; lia|rewrite L2, L1; cbn; lia|].
  exists i3. split; [done|]. split; [congruence|]. intros v Hv.
  unfold irq_gates_low, irq_gates_high in *. rewrite length_replicate in *.
  destruct (decide (v < 32)%nat); [|destruct (decide (v < 144)%nat)].
  - rewrite O3, O2 by lia. destruct (lookup_lt_is_Some_2 exception_gates v) as [g Hg]; [cbn; lia|].
    rewrite Hg. destruct (G1 v g Hg) as (e & He & Hgate). exists e. done.
  - rewrite O3 by lia. destruct (G2 (v - 32)%nat (IDT64_ISR_INTERRUPT, 0)) as (e & He & Hgate).
    { apply lookup_replicate_2. lia. }
    exists e. rewrite (lookup_ge_None_2 exception_gates v) by (cbn; lia).
    replace (Z.to_nat 32 + (v - 32))%nat with v in He by lia.
    by replace (32 + Z.of_nat (v - 32)) with (Z.of_nat v) in Hgate by lia.
  - destruct (G3 (v - 144)%nat (IDT64_ISR_INTERRUPT, 0)) as (e & He & Hgate).
    { apply lookup_replicate_2. lia. }
    exists e. rewrite (lookup_ge_None_2 exception_gates v) by (cbn; lia).
    replace (Z.to_nat 144 + (v - 144))%nat with v in He by lia.
    by replace (144 + Z.of_nat (v - 144)) with (Z.of_nat v) in Hgate by lia.
Qed.

Lemma idt64_init_all_gates_witness :
  exists idt', idt64_init (fun v => 0xFFFFFFFF80400000 + 16 * v) (replicate 256 zero_gate) = Ok idt' /\
    length idt' = 256%nat /\
    forall v, (v < 256)%nat -> exists e, idt' !! v = Some e /\
      gate_for (fun v => 0xFFFFFFFF80400000 + 16 * v) (Z.of_nat v)
        (default (IDT64_ISR_INTERRUPT, 0) (exception_gates !! v)) e.
Proof.
  apply (idt64_init_all_gates (fun v => 0xFFFFFFFF80400000 + 16 * v) (replicate 256 zero_gate));
    [lia|reflexivity].
Defined.
