(* ===== verification/Devices.v ===== *)
(** * Port devices and interrupt dispatch

    The port instructions of [kernel/common/io.c] are the interface [PortIO]; the
    drivers over it: the two interrupt controllers ([kernel/common/pic.c]), the
    interval timer ([kernel/kernel/pit.c]), the serial port ([kernel/common/serial.c])
    and the interrupt dispatcher ([idt64_isr_dispatch] of [kernel/idt.c] and
    [idt32_isr_handler] of stage 2).  What the chips do is stated as laws of the
    classes [PicDevice] and [Uart], from their data sheets; [bus] is a concrete
    device that satisfies them. *)
From S2P Require Import Prelude.
From Stdlib Require Import ZArith Lia.
From stdpp Require Import base tactics list numbers.

Open Scope Z_scope.

(** [io_inb], [io_inw], [io_outb] on a device state. *)
Class PortIO (D : Type) := {
  io_inb : Z -> M D Z;
  io_inw : Z -> M D Z;
  io_outb : Z -> Z -> M D unit;
}.

Definition PIC_MASTER_CMD_PORT : Z := 0x20.
Definition PIC_SLAVE_CMD_PORT : Z := 0xA0.
Definition PIC_MASTER_DATA_PORT : Z := 0x21.
Definition PIC_SLAVE_DATA_PORT : Z := 0xA1.
Definition PIC_EOI : Z := 0x20.
Definition PIT_CLOCK_RATE : Z := 1193180.
Definition PIT_PORT_CHANNEL0 : Z := 0x40.
Definition PIT_PORT_CHANNEL1 : Z := 0x41.
Definition PIT_PORT_CHANNEL2 : Z := 0x42.
Definition PIT_PORT_COMMAND : Z := 0x43.

Section drivers.
Context {D : Type} `{PortIO D}.

(** ** The interrupt controllers *)

Definition _pic_io_wait : M D unit := io_outb 0x80 0x00.

Definition pic_init : M D unit :=
  _ ← io_outb PIC_MASTER_CMD_PORT 0x11; _ ← _pic_io_wait;
  _ ← io_outb PIC_SLAVE_CMD_PORT 0x11; _ ← _pic_io_wait;
  _ ← io_outb PIC_MASTER_DATA_PORT 0x20; _ ← _pic_io_wait;
  _ ← io_outb PIC_SLAVE_DATA_PORT 0x28; _ ← _pic_io_wait;
  _ ← io_outb PIC_MASTER_DATA_PORT 0x04; _ ← _pic_io_wait;
  _ ← io_outb PIC_SLAVE_DATA_PORT 0x02; _ ← _pic_io_wait;
  _ ← io_outb PIC_MASTER_DATA_PORT 0x01; _ ← _pic_io_wait;
  _ ← io_outb PIC_SLAVE_DATA_PORT 0x01; _ ← _pic_io_wait;
  _ ← io_outb PIC_MASTER_DATA_PORT 0xFF; _ ← _pic_io_wait;
  _ ← io_outb PIC_SLAVE_DATA_PORT 0xFF; _pic_io_wait.

Definition pic_data_port (irq : Z) : Z :=
  if irq <? 8 then PIC_MASTER_DATA_PORT else PIC_SLAVE_DATA_PORT.

Definition pic_mask_irq (irq : Z) : M D unit :=
  let port := pic_data_port irq in
  current_mask ← io_inb port;
  io_outb port (u8 (Z.lor current_mask (Z.shiftl 1 (irq mod 8)))).

Definition pic_mask_all : M D unit := for_range 0 16 1 pic_mask_irq.

Definition pic_unmask_irq (irq : Z) : M D unit :=
  let port := pic_data_port irq in
  current_mask ← io_inb port;
  io_outb port (u8 (Z.land current_mask (Z.lnot (Z.shiftl 1 (irq mod 8))))).

(** The stage 2 copies. *)
Definition stage2_pic_init : M D unit := pic_init.
Definition stage2_pic_mask_irq (irq : Z) : M D unit := pic_mask_irq irq.
Definition stage2_pic_unmask_irq (irq : Z) : M D unit := pic_unmask_irq irq.

(** ** The interval timer *)

(** A zero frequency divides by zero. *)
Definition pit_init (channel hz : Z) : M D unit :=
  if 2 <? channel then mret tt else
  _ ← io_outb PIT_PORT_COMMAND (u8 (Z.lor (Z.shiftl channel 6) 0x36));
  let port := if channel =? 0 then PIT_PORT_CHANNEL0
              else if channel =? 1 then PIT_PORT_CHANNEL1 else PIT_PORT_CHANNEL2 in
  if hz =? 0 then fault else
  let final_divisor := u16 (PIT_CLOCK_RATE / hz) in
  _ ← io_outb port (Z.land final_divisor 0xFF);
  io_outb port (u8 (Z.shiftr final_divisor 8)).

(** ** The serial port *)

Definition serial_init (port : Z) : M D Z :=
  _ ← io_outb (port + 1) 0x00;
  _ ← io_outb (port + 3) 0x80;
  _ ← io_outb (port + 0) 0x03;
  _ ← io_outb (port + 1) 0x00;
  _ ← io_outb (port + 3) 0x03;
  _ ← io_outb (port + 2) 0xC7;
  _ ← io_outb (port + 4) 0x0B;
  mret port.

(** [while (!(io_inb(port + 5) & 0x20));], at most [fuel] polls. *)
Fixpoint serial_wait (fuel : nat) (port : Z) : M D unit :=
  match fuel with
  | O => fun _ => OutOfFuel
  | S fuel' =>
      status ← io_inb (port + 5);
      if Z.land status 0x20 =? 0 then serial_wait fuel' port else mret tt
  end.

Definition serial_putch (fuel : nat) (port c : Z) : M D unit :=
  _ ← serial_wait fuel port;
  io_outb port c.

(** The characters of the string up to its terminator. *)
Fixpoint serial_puts (fuel : nat) (port : Z) (s : list Z) : M D unit :=
  match s with
  | [] => mret tt
  | c :: s' => _ ← serial_putch fuel port c; serial_puts fuel port s'
  end.

Definition stage2_serial_init (port : Z) : M D Z := serial_init port.
Definition stage2_serial_putch (fuel : nat) (port c : Z) : M D unit := serial_putch fuel port c.
Definition stage2_serial_puts (fuel : nat) (port : Z) (s : list Z) : M D unit := serial_puts fuel port s.

(** ** Interrupt dispatch *)

(** The callback table holds the registered handlers; running one is the parameter
    [call].  The messages printed for an unhandled vector are not modelled. *)
Definition idt64_set_callback {H} (isr_callbacks : list (option H)) (vector : Z) (callback : option H)
  : outcome (list (option H)) := wr isr_callbacks vector callback.

(** The acknowledgement at the end of both dispatchers. *)
Definition send_eoi (int_no : Z) : M D unit :=
  if 40 <=? int_no then
    _ ← io_outb PIC_SLAVE_CMD_PORT PIC_EOI;
    io_outb PIC_MASTER_CMD_PORT PIC_EOI
  else if 32 <=? int_no then
    io_outb PIC_MASTER_CMD_PORT PIC_EOI
  else mret tt.

Definition idt64_isr_dispatch {H} (call : H -> M D unit) (isr_callbacks : list (option H)) (int_no : Z)
  : M D unit :=
  handler ← lift (rd isr_callbacks int_no);
  _ ← match handler with
      | None => if int_no <? 32 then panic else mret tt
      | Some h => call h
      end;
  send_eoi int_no.

(** Stage 2: the table has 48 entries. *)
Definition idt32_set_dispatch {H} (dispatch_table : list (option H)) (vector : Z) (handler : option H)
  : outcome (list (option H)) := wr dispatch_table vector handler.

Definition idt32_isr_handler {H} (call : H -> M D unit) (dispatch_table : list (option H)) (int_no : Z)
  : M D unit :=
  handler ← lift (rd dispatch_table int_no);
  _ ← match handler with
      | None => if int_no <? 32 then panic else mret tt
      | Some h => call h
      end;
  send_eoi int_no.
End drivers.

(** ** Device laws *)

(** The initialised 8259 pair: outside the initialisation sequence, a data port
    reads and writes the chip's interrupt mask register. *)
Class PicDevice (D : Type) `{PortIO D} := {
  pic_ready : D -> Prop;
  pic_imr : D -> Z -> Z;
  pic_imr_byte : forall d port, pic_ready d -> is_byte (pic_imr d port);
  pic_read : forall d port, pic_ready d -> port = PIC_MASTER_DATA_PORT \/ port = PIC_SLAVE_DATA_PORT ->
    io_inb port d = Ok (pic_imr d port, d);
  pic_write : forall d port v, pic_ready d -> port = PIC_MASTER_DATA_PORT \/ port = PIC_SLAVE_DATA_PORT ->
    is_byte v ->
    exists d', io_outb port v d = Ok (tt, d') /\ pic_ready d' /\ pic_imr d' port = v /\
      forall port', port' = PIC_MASTER_DATA_PORT \/ port' = PIC_SLAVE_DATA_PORT ->
        port' <> port -> pic_imr d' port' = pic_imr d port';
}.

(** A 16550: reading the line status eventually reports an empty transmit holding
    register ([uart_busy] polls at most), and writing the data port then sends. *)
Class Uart (D : Type) `{PortIO D} (port : Z) := {
  uart_busy : D -> nat;
  uart_sent : D -> list Z;
  uart_busy_bound : nat;
  uart_poll : forall d, exists status d', io_inb (port + 5) d = Ok (status, d') /\
    uart_sent d' = uart_sent d /\
    if decide (uart_busy d = 0)%nat then Z.land status 0x20 <> 0 /\ uart_busy d' = 0%nat
    else Z.land status 0x20 = 0 /\ uart_busy d = S (uart_busy d');
  uart_send : forall d c, uart_busy d = 0%nat ->
    exists d', io_outb port c d = Ok (tt, d') /\ uart_sent d' = uart_sent d ++ [c] /\
      (uart_busy d' <= uart_busy_bound)%nat;
}.

(** Is interrupt request line [irq] masked? *)
Definition irq_masked {D} `{PicDevice D} (d : D) (irq : Z) : bool :=
  Z.testbit (pic_imr d (pic_data_port irq)) (irq mod 8).

(** ** Lemmas *)

Section pic_lemmas.
Context {D : Type} `{PicDevice D}.

Lemma pic_data_port_cases irq : pic_data_port irq = PIC_MASTER_DATA_PORT \/ pic_data_port irq = PIC_SLAVE_DATA_PORT.
Proof. unfold pic_data_port. destruct (irq <? 8); auto. Qed.

(** Two request lines share a chip and a bit only when they are the same line. *)
Lemma irq_bit_inj irq irq' :
  0 <= irq < 16 -> 0 <= irq' < 16 -> pic_data_port irq = pic_data_port irq' ->
  irq mod 8 = irq' mod 8 -> irq = irq'.
Proof.
  unfold pic_data_port, PIC_MASTER_DATA_PORT, PIC_SLAVE_DATA_PORT. intros Hi Hi' Hp Hm.
  destruct (Z.ltb_spec irq 8), (Z.ltb_spec irq' 8); try done; dlia.
Qed.

(** Rewriting one mask register with a value that differs in one bit. *)
Lemma pic_update d irq v (x : bool) :
  pic_ready d -> 0 <= irq < 16 -> is_byte v ->
  (forall k, 0 <= k < 8 -> Z.testbit v k = if decide (k = irq mod 8) then x
     else Z.testbit (pic_imr d (pic_data_port irq)) k) ->
  exists d', io_outb (pic_data_port irq) v d = Ok (tt, d') /\ pic_ready d' /\
    forall irq', 0 <= irq' < 16 ->
      irq_masked d' irq' = if decide (irq' = irq) then x else irq_masked d irq'.
Proof.
  intros Hr Hirq Hv Hbits.
  destruct (pic_write d (pic_data_port irq) v Hr (pic_data_port_cases irq) Hv) as (d' & Hrun & Hr' & Hsame & Hother).
  exists d'. split; [done|]. split; [done|]. intros irq' Hi'. unfold irq_masked.
  pose proof (Z.mod_pos_bound irq' 8).
  destruct (decide (pic_data_port irq' = pic_data_port irq)) as [Hp|Hp].
  - rewrite Hp, Hsame, Hbits by lia. case_decide as Hm; case_decide as Hii; try done.
    + destruct Hii. by apply irq_bit_inj.
    + by subst.
  - rewrite Hother by (done || apply pic_data_port_cases). rewrite decide_False by congruence. done.
Qed.

Lemma byte_bits_high v k : is_byte v -> 8 <= k -> Z.testbit v k = false.
Proof.
  intros Hv Hk. destruct (decide (v = 0)) as [->|]; [apply Z.bits_0|]. unfold is_byte in Hv.
  apply Z.bits_above_log2; [lia|]. apply Z.log2_lt_pow2; [lia|].
  eapply Z.lt_le_trans; [apply Hv|]. change 256 with (2 ^ 8). apply Z.pow_le_mono_r; lia.
Qed.

Lemma u8_byte v : is_byte (u8 v).
Proof. apply (u8_range v). Qed.

Lemma u8_bit v k : 0 <= k < 8 -> Z.testbit (u8 v) k = Z.testbit v k.
Proof. intros. unfold u8. by rewrite Z.mod_pow2_bits_low by lia. Qed.

Lemma shiftl_1_bit n k : 0 <= n -> Z.testbit (Z.shiftl 1 n) k = bool_decide (k = n).
Proof.
  intros. rewrite Z.shiftl_1_l. case_bool_decide as E.
  - subst. by apply Z.pow2_bits_true.
  - apply Z.pow2_bits_false. lia.
Qed.

Lemma pic_mask_irq_spec d irq :
  pic_ready d -> 0 <= irq < 16 ->
  exists d', pic_mask_irq irq d = Ok (tt, d') /\ pic_ready d' /\
    forall irq', 0 <= irq' < 16 ->
      irq_masked d' irq' = if decide (irq' = irq) then true else irq_masked d irq'.
Proof.
  intros Hr Hirq. unfold pic_mask_irq.
  rewrite (bind_run _ _ _ _ _ (pic_read d _ Hr (pic_data_port_cases irq))).
  apply pic_update; [done|done|apply u8_byte|]. intros k Hk. pose proof (Z.mod_pos_bound irq 8).
  rewrite u8_bit, Z.lor_spec, shiftl_1_bit by lia.
  case_bool_decide; case_decide; try done; [apply orb_true_r|apply orb_false_r].
Qed.

Lemma pic_unmask_irq_spec d irq :
  pic_ready d -> 0 <= irq < 16 ->
  exists d', pic_unmask_irq irq d = Ok (tt, d') /\ pic_ready d' /\
    forall irq', 0 <= irq' < 16 ->
      irq_masked d' irq' = if decide (irq' = irq) then false else irq_masked d irq'.
Proof.
  intros Hr Hirq. unfold pic_unmask_irq.
  rewrite (bind_run _ _ _ _ _ (pic_read d _ Hr (pic_data_port_cases irq))).
  apply pic_update; [done|done|apply u8_byte|]. intros k Hk. pose proof (Z.mod_pos_bound irq 8).
  rewrite u8_bit, Z.land_spec, Z.lnot_spec, shiftl_1_bit by lia.
  case_bool_decide; case_decide; try done; [apply andb_false_r|apply andb_true_r].
Qed.
End pic_lemmas.

Section uart_lemmas.
Context {D : Type} {io : PortIO D} {port : Z} {u : Uart D port}.

Lemma serial_wait_spec n : forall fuel d,
  uart_busy d = n -> (n < fuel)%nat ->
  exists d', serial_wait fuel port d = Ok (tt, d') /\ uart_busy d' = 0%nat /\ uart_sent d' = uart_sent d.
Proof.
  induction n as [|n IH]; intros [|fuel] d Hn Hf; try lia; cbn [serial_wait];
    destruct (uart_poll d) as (status & d1 & Hrun & Hsent & Hst);
    rewrite (bind_run _ _ _ _ _ Hrun), Hn in *.
  - rewrite decide_True in Hst by done. destruct Hst as [Hst Hb].
    rewrite (proj2 (Z.eqb_neq _ _) Hst). eexists. split; [done|]. split; [done|congruence].
  - rewrite decide_False in Hst by lia. destruct Hst as [-> Hb]. cbn [Z.eqb].
    destruct (IH fuel d1) as (d' & Hr & Hb' & Hs'); [lia|lia|]. exists d'. split; [done|]. split; [done|congruence].
Qed.

Lemma serial_putch_spec fuel d c :
  (uart_busy d < fuel)%nat ->
  exists d', serial_putch fuel port c d = Ok (tt, d') /\ uart_sent d' = uart_sent d ++ [c] /\
    (uart_busy d' <= uart_busy_bound)%nat.
Proof.
  intros Hf. destruct (serial_wait_spec _ fuel d eq_refl Hf) as (d1 & Hrun & Hb & Hs).
  unfold serial_putch. rewrite (bind_run _ _ _ _ _ Hrun).
  destruct (uart_send d1 c Hb) as (d2 & Hr & Hs2 & Hb2). exists d2.
  split; [done|]. split; [congruence|done].
Qed.

Lemma serial_puts_spec fuel s : forall d,
  (uart_busy d < fuel)%nat -> (uart_busy_bound < fuel)%nat ->
  exists d', serial_puts fuel port s d = Ok (tt, d') /\ uart_sent d' = uart_sent d ++ s.
Proof.
  induction s as [|c s IH]; intros d Hd Hb; cbn [serial_puts].
  { exists d. by rewrite app_nil_r. }
  destruct (serial_putch_spec fuel d c Hd) as (d1 & Hrun & Hs1 & Hb1).
  rewrite (bind_run _ _ _ _ _ Hrun). destruct (IH d1) as (d2 & Hr & Hs2); [lia|done|].
  exists d2. split; [done|]. by rewrite Hs2, Hs1, <- app_assoc.
Qed.
End uart_lemmas.

(** ** A concrete bus: the 8259 pair and one UART at 0x3F8 *)

Record chip := Chip { chip_icw : nat; chip_offset : Z; chip_imr : Z }.
Record bus := Bus { bus_master : chip; bus_slave : chip; bus_busy : nat; bus_sent : list Z }.

(** Initialisation words after ICW1: vector offset, cascade, mode. *)
Definition chip_cmd (c : chip) (v : Z) : chip :=
  if Z.testbit v 4 then Chip 3 (chip_offset c) 0 else c.
Definition chip_data (c : chip) (v : Z) : chip :=
  match chip_icw c with
  | 3%nat => Chip 2 v (chip_imr c)
  | S n => Chip n (chip_offset c) (chip_imr c)
  | O => Chip 0 (chip_offset c) v
  end.

#[export] Instance bus_io : PortIO bus := {|
  io_inb port := fun b =>
    if port =? PIC_MASTER_DATA_PORT then Ok (chip_imr (bus_master b), b) else
    if port =? PIC_SLAVE_DATA_PORT then Ok (chip_imr (bus_slave b), b) else
    if port =? 0x3F8 + 5 then
      match bus_busy b with
      | O => Ok (0x20, b)
      | S n => Ok (0, Bus (bus_master b) (bus_slave b) n (bus_sent b))
      end
    else Ok (0xFF, b);
  io_inw port := fun b => Ok (0xFFFF, b);
  io_outb port v := fun b =>
    if port =? PIC_MASTER_CMD_PORT then
      Ok (tt, Bus (chip_cmd (bus_master b) v) (bus_slave b) (bus_busy b) (bus_sent b)) else
    if port =? PIC_SLAVE_CMD_PORT then
      Ok (tt, Bus (bus_master b) (chip_cmd (bus_slave b) v) (bus_busy b) (bus_sent b)) else
    if port =? PIC_MASTER_DATA_PORT then
      Ok (tt, Bus (chip_data (bus_master b) v) (bus_slave b) (bus_busy b) (bus_sent b)) else
    if port =? PIC_SLAVE_DATA_PORT then
      Ok (tt, Bus (bus_master b) (chip_data (bus_slave b) v) (bus_busy b) (bus_sent b)) else
    if port =? 0x3F8 then
      Ok (tt, Bus (bus_master b) (bus_slave b) 2 (bus_sent b ++ [v]))
    else Ok (tt, b) |}.

Definition bus_ready (b : bus) : Prop :=
  chip_icw (bus_master b) = 0%nat /\ chip_icw (bus_slave b) = 0%nat /\
  is_byte (chip_imr (bus_master b)) /\ is_byte (chip_imr (bus_slave b)).

#[export] Instance bus_pic : PicDevice bus.
Proof.
  refine (Build_PicDevice bus _ bus_ready
    (fun b port => if port =? PIC_MASTER_DATA_PORT then chip_imr (bus_master b) else chip_imr (bus_slave b))
    _ _ _).
  - intros b port (_ & _ & ? & ?). by destruct (port =? _).
  - intros b port _ [-> | ->]; done.
  - intros [m s n o] port v (Hm & Hs & Hmb & Hsb) Hport Hv. cbn in *.
    destruct Hport as [-> | ->]; cbn; unfold chip_data; rewrite ?Hm, ?Hs;
      (eexists; split; [reflexivity|]; split; [done|]; split; [done|]);
      by intros port' [-> | ->].
Defined.

#[export] Instance bus_uart : Uart bus 0x3F8.
Proof.
  refine (Build_Uart bus _ 0x3F8 bus_busy bus_sent 2 _ _).
  - intros [m s [|n] o]; cbn; eexists _, _; (split; [reflexivity|]); done.
  - intros [m s n o] c Hn. cbn in *. eexists. split; [reflexivity|]. split; [done|cbn; lia].
Defined.

(** ** Properties *)

(** On an initialised interrupt controller pair, masking and unmasking change
    exactly the requested line, and [pic_mask_all] masks all sixteen. *)
Theorem pic_masks_exactly {D} `{PicDevice D} (d : D) (irq : Z)
  (Hready : pic_ready d) (Hirq : 0 <= irq < 16) :
  (exists d', pic_mask_irq irq d = Ok (tt, d') /\ pic_ready d' /\
     forall i, 0 <= i < 16 -> irq_masked d' i = if decide (i = irq) then true else irq_masked d i) /\
  (exists d', pic_unmask_irq irq d = Ok (tt, d') /\ pic_ready d' /\
     forall i, 0 <= i < 16 -> irq_masked d' i = if decide (i = irq) then false else irq_masked d i) /\
  (exists d', pic_mask_all d = Ok (tt, d') /\ forall i, 0 <= i < 16 -> irq_masked d' i = true).
Proof.
  split; [by apply pic_mask_irq_spec|]. split; [by apply pic_unmask_irq_spec|].
  destruct (iter_for_inv (fun k d => pic_ready d /\ forall i, 0 <= i < 16 -> i < k -> irq_masked d i = true)
    1 pic_mask_irq 16 0 d) as (d' & Hrun & _ & Hall).
  - split; [done|]. intros; lia.
  - intros k d1 (j & Hj & ->) [Hr Hm].
    destruct (pic_mask_irq_spec d1 (0 + Z.of_nat j * 1) Hr) as (d2 & Hrun & Hr2 & Hm2); [lia|].
    exists d2. split; [done|]. split; [done|]. intros i Hi Hlt. rewrite Hm2 by done.
    case_decide; [done|]. apply Hm; lia.
  - exists d'. split; [done|]. intros i Hi. apply Hall; lia.
Qed.

(** The bus after [pic_init]: vectors at 32 and 40, everything masked. *)
Definition reset_bus : bus := Bus (Chip 0 0 0) (Chip 0 0 0) 0 [].

Example pic_init_bus : exists b, pic_init reset_bus = Ok (tt, b) /\
  bus_master b = Chip 0 0x20 0xFF /\ bus_slave b = Chip 0 0x28 0xFF.
Proof. eexists. split; [vm_compute; reflexivity|]. done. Qed.

Lemma pic_masks_exactly_witness :
  exists d', pic_unmask_irq 9 (Bus (Chip 0 0x20 0xFF) (Chip 0 0x28 0xFF) 0 []) = Ok (tt, d') /\
    irq_masked d' 9 = false /\ irq_masked d' 1 = true.
Proof.
  assert (pic_ready (Bus (Chip 0 0x20 0xFF) (Chip 0 0x28 0xFF) 0 [])) as Hr
    by (vm_compute; intuition congruence).
  destruct (pic_masks_exactly (Bus (Chip 0 0x20 0xFF) (Chip 0 0x28 0xFF) 0 []) 9 Hr ltac:(lia))
    as (_ & (d' & Hrun & _ & Hm) & _).
  exists d'. split; [exact Hrun|]. split; rewrite Hm by lia; reflexivity.
Defined.

(** [serial_puts] terminates and transmits exactly the string, in order, waiting
    for the transmitter before each character. *)
Theorem serial_puts_transmits {D} `{PortIO D} (port : Z) {u : Uart D port} (fuel : nat) (s : list Z) (d : D)
  (Hfuel : (uart_busy d < fuel)%nat) (Hbound : (uart_busy_bound < fuel)%nat) :
  exists d', serial_puts fuel port s d = Ok (tt, d') /\ uart_sent d' = uart_sent d ++ s.
Proof. by apply serial_puts_spec. Qed.

Lemma serial_puts_transmits_witness :
  exists d', serial_puts 3 0x3F8 [72; 105] reset_bus = Ok (tt, d') /\ bus_sent d' = [72; 105].
Proof.
  destruct (serial_puts_transmits (u := bus_uart) 0x3F8 3 [72; 105] reset_bus) as (d' & Hr & Hs); [vm_compute; lia..|].
  exists d'. split; [exact Hr|exact Hs].
Defined.

(** An exception without a handler panics; every interrupt request that is
    dispatched is acknowledged after its handler, at the slave first for the lines
    of the slave. *)
Theorem isr_dispatch_acknowledges {D} `{PortIO D} {Hd} (call : Hd -> M D unit) (tbl : list (option Hd))
  (v : Z) (d : D) :
  (rd tbl v = Ok None -> v < 32 -> idt64_isr_dispatch call tbl v d = Panic) /\
  (forall h d1 d2 d3, rd tbl v = Ok (Some h) -> 40 <= v -> call h d = Ok (tt, d1) ->
     io_outb PIC_SLAVE_CMD_PORT PIC_EOI d1 = Ok (tt, d2) ->
     io_outb PIC_MASTER_CMD_PORT PIC_EOI d2 = Ok (tt, d3) ->
     idt64_isr_dispatch call tbl v d = Ok (tt, d3)) /\
  (forall h d1 d2, rd tbl v = Ok (Some h) -> 32 <= v < 40 -> call h d = Ok (tt, d1) ->
     io_outb PIC_MASTER_CMD_PORT PIC_EOI d1 = Ok (tt, d2) ->
     idt64_isr_dispatch call tbl v d = Ok (tt, d2)).
Proof.
  unfold idt64_isr_dispatch, send_eoi. munfold. split; [|split].
  - intros -> Hv. by rewrite (proj2 (Z.ltb_lt v 32)).
  - intros h d1 d2 d3 -> Hv -> H2 H3. rewrite (proj2 (Z.leb_le 40 v)) by done. by rewrite H2.
  - intros h d1 d2 -> Hv -> H2. rewrite (proj2 (Z.leb_gt 40 v)), (proj2 (Z.leb_le 32 v)) by lia. done.
Qed.
