(* ===== verification/Printf.v ===== *)
(** * Kernel printf

    [kernel/printf.c].  A call of [putchar_] appends one character to the output,
    so each function returns the list of characters it prints.  A format string is
    the list of its characters without the terminator; the variadic arguments are a
    list of [arg]s, and reading an argument that is missing or of another class is a
    [Fault], as is the overflow of [-num] on the least 64-bit integer.  The digit
    buffer is an array of [PRINTF_MAX_FORMAT_STACK] characters; its initial contents
    are never read, and an access outside it is a [Fault]. *)
From S2P Require Import Prelude CString.
From Stdlib Require Import ZArith Lia.
From stdpp Require Import base tactics list numbers.

Open Scope Z_scope.

Definition PRINTF_MAX_FORMAT_STACK : Z := 32.
Definition PRINTF_MAX_WIDTH_MODIFIER : Z := 4.
Definition PRINTF_MAX_LENGTH_MODIFIER : Z := 2.

Inductive PrintBase := BASE_OCT | BASE_DEC | BASE_HEX.

(** Integers of any type take one 64-bit slot; strings are the bytes at the pointer. *)
Inductive arg :=
| ArgInt (v : Z)
| ArgStr (bytes : list Z).

Definition is_digit (ch : Z) : bool := (47 <? ch) && (ch <? 58).

(** h l L z t j *)
Definition is_length_modifier (ch : Z) : bool :=
  bool_decide (ch ∈ [104; 108; 76; 122; 116; 106]).

(** d i u o x X f F e E g G c s p n %% *)
Definition is_format_specifier (ch : Z) : bool :=
  bool_decide (ch ∈ [100; 105; 117; 111; 120; 88; 102; 70; 101; 69; 103; 71; 99; 115; 112; 110; 37]).

(** Prints the characters up to the terminator. *)
Fixpoint vprintf_puts (str : list Z) : outcome (list Z) :=
  match str with
  | [] => Fault
  | c :: str' => if c =? 0 then Ok [] else out ← vprintf_puts str'; Ok (c :: out)
  end.

(** [len] characters of the buffer. *)
Definition nprintf_puts (str : list Z) (len : Z) : outcome (list Z) :=
  if (0 <=? len) && (len <=? Z.of_nat (length str)) then Ok (take (Z.to_nat len) str) else Fault.

(** [va_arg] of an integer class. *)
Definition va_int (args : list arg) : outcome (Z * list arg) :=
  match args with
  | ArgInt v :: args' => Ok (v, args')
  | _ => Fault
  end.

Definition va_str (args : list arg) : outcome (list Z * list arg) :=
  match args with
  | ArgStr s :: args' => Ok (s, args')
  | _ => Fault
  end.

Definition s16 (x : Z) : Z := (x + 2 ^ 15) mod 2 ^ 16 - 2 ^ 15.
Definition s8 (x : Z) : Z := (x + 2 ^ 7) mod 2 ^ 8 - 2 ^ 7.

(** [lspec] holds the length modifiers read. *)
Definition printf_resolve_signed (lspec : list Z) (args : list arg) : outcome (Z * list arg) :=
  '(v, args) ← va_int args;
  Ok (match lspec with
      | [] => s32 v
      | [c] => if c =? 104 then s16 v else
               if (c =? 108) || (c =? 116) || (c =? 122) || (c =? 106) then s64 v else s32 v
      | c1 :: c2 :: _ => if (c1 =? 104) && (c2 =? 104) then s8 v else
               if (c1 =? 108) && (c2 =? 108) then s64 v else s32 v
      end, args).

Definition printf_resolve_unsigned (lspec : list Z) (args : list arg) : outcome (Z * list arg) :=
  '(v, args) ← va_int args;
  Ok (match lspec with
      | [] => u32 v
      | [c] => if c =? 104 then u16 v else
               if (c =? 108) || (c =? 122) || (c =? 106) then u64 v else u32 v
      | c1 :: c2 :: _ => if (c1 =? 104) && (c2 =? 104) then u8 v else
               if (c1 =? 108) && (c2 =? 108) then u64 v else u32 v
      end, args).

Definition radix16 : list Z :=
  [48; 49; 50; 51; 52; 53; 54; 55; 56; 57; 97; 98; 99; 100; 101; 102;
   48; 49; 50; 51; 52; 53; 54; 55; 56; 57; 65; 66; 67; 68; 69; 70].
Definition radix10 : list Z := [48; 49; 50; 51; 52; 53; 54; 55; 56; 57].
Definition radix8 : list Z := [48; 49; 50; 51; 52; 53; 54; 55].

(** [while (num > 0 && buflen < PRINTF_MAX_FORMAT_STACK - 1)] storing
    [radix[num % base + off]]; the bound on [buflen] makes 32 rounds enough. *)
Fixpoint digit_loop (fuel : nat) (radix : list Z) (base off num : Z) (buf : list Z) (buflen : Z)
  : outcome (list Z * Z) :=
  match fuel with
  | O => OutOfFuel
  | S fuel' =>
      if (0 <? num) && (buflen <? PRINTF_MAX_FORMAT_STACK - 1) then
        c ← rd radix (num mod base + off);
        buf ← wr buf buflen c;
        digit_loop fuel' radix base off (num / base) buf (buflen + 1)
      else Ok (buf, buflen)
  end.

Definition stack_buf : list Z := replicate (Z.to_nat PRINTF_MAX_FORMAT_STACK) 0.

(** The digit loop, the terminator and [strrev]. *)
Definition digits_reversed (radix : list Z) (base off num : Z) (buf : list Z) : outcome (list Z * Z) :=
  '(buf, buflen) ← digit_loop 32 radix base off num buf 0;
  buf ← wr buf buflen 0;
  buf ← strrev buf;
  Ok (buf, buflen).

(** ["0"]. *)
Definition zero_digit (buf : list Z) : outcome (list Z * Z) :=
  buf ← wr buf 0 48;
  buf ← wr buf 1 0;
  Ok (buf, 1).

(** [for (size_t i = 0; i < n; i++) putchar_(c)], the count converted to [size_t]. *)
Definition pad_chars (c n : Z) : list Z := replicate (Z.to_nat (u64 n)) c.

Definition vprintf_signed (num width : Z)
  (f_leftalign f_space f_sign f_zeropad f_alternate uppercase : bool) (base : PrintBase)
  : outcome (list Z) :=
  let f_zeropad := if f_leftalign && f_zeropad then false else f_zeropad in
  let pad := if f_zeropad then 48 else 32 in
  let negative := num <? 0 in
  num ← (if negative then (if num =? - 2 ^ 63 then Fault else Ok (- num)) else Ok num);
  '(buf, buflen) ←
    (if num =? 0 then zero_digit stack_buf else
     match base with
     | BASE_DEC => digits_reversed radix10 10 0 num stack_buf
     | _ => Ok (stack_buf, 0)
     end);
  let neg := if negative then 1 else 0 in
  let width := if width <? buflen + neg then u8 (buflen + neg) else width in
  let sign := if negative || f_sign then [if negative then 45 else 43] else [] in
  let pads := pad_chars pad (width - buflen - neg) in
  digits ← nprintf_puts buf buflen;
  Ok (if negb f_leftalign then
        (if f_zeropad then sign else []) ++ pads ++ (if f_zeropad then [] else sign) ++ digits
      else sign ++ digits ++ pads).

Definition vprintf_unsigned (num width : Z)
  (f_leftalign f_space f_sign f_zeropad f_alternate uppercase : bool) (base : PrintBase)
  : outcome (list Z) :=
  let f_zeropad := if f_leftalign && f_zeropad then false else f_zeropad in
  let pad := if f_zeropad then 48 else 32 in
  '(buf, buflen) ←
    (if num =? 0 then zero_digit stack_buf else
     match base with
     | BASE_DEC => digits_reversed radix10 10 0 num stack_buf
     | BASE_HEX => digits_reversed radix16 16 (if uppercase then 16 else 0) num stack_buf
     | BASE_OCT => digits_reversed radix8 8 0 num stack_buf
     end);
  let width := if width <? buflen then u8 buflen else width in
  let pads := pad_chars pad (width - buflen) in
  digits ← nprintf_puts buf buflen;
  Ok (if negb f_leftalign then pads ++ digits else digits ++ pads).

(** [for (; buflen < n && buflen < PRINTF_MAX_FORMAT_STACK; buflen++) buf[buflen] = '0']. *)
Fixpoint fill_zeros (fuel : nat) (n : Z) (buf : list Z) (buflen : Z) : outcome (list Z * Z) :=
  match fuel with
  | O => OutOfFuel
  | S fuel' =>
      if (buflen <? n) && (buflen <? PRINTF_MAX_FORMAT_STACK) then
        buf ← wr buf buflen 48;
        fill_zeros fuel' n buf (buflen + 1)
      else Ok (buf, buflen)
  end.

Definition vprintf_ptr (num : Z) (f_zeropad : bool) : outcome (list Z) :=
  '(buf, buflen) ←
    (if num =? 0 then
       buf ← wr stack_buf 0 48;
       buf ← wr buf 1 120;
       '(buf, buflen) ← fill_zeros 33 18 buf 2;
       buf ← wr buf buflen 0;
       Ok (buf, buflen)
     else
       '(buf, buflen) ← digit_loop 32 radix16 16 0 num stack_buf 0;
       '(buf, buflen) ← fill_zeros 33 16 buf buflen;
       buf ← wr buf buflen 120;
       buf ← wr buf (buflen + 1) 48;
       buf ← wr buf (buflen + 2) 0;
       buf ← strrev buf;
       Ok (buf, buflen + 2));
  nprintf_puts buf buflen.

Definition vprintf_str (str : list Z) (width : Z) (f_leftalign : bool) : outcome (list Z) :=
  len ← strlen str;
  let width := if width <? len then u8 len else width in
  let pads := pad_chars 32 (width - len) in
  s ← vprintf_puts str;
  Ok (if negb f_leftalign then pads ++ s else s ++ pads).

Definition vprintf_char (ch width : Z) (f_leftalign : bool) : outcome (list Z) :=
  let width := if width <? 1 then 1 else width in
  let pads := pad_chars 32 (width - 1) in
  Ok (if negb f_leftalign then pads ++ [ch] else [ch] ++ pads).

(** *** Parsing a conversion specification *)

Record fmt_flags := FmtFlags {
  f_leftalign : bool; f_sign : bool; f_space : bool; f_zeropad : bool; f_alternate : bool
}.

(** The flag loop: + - space 0 #, in any order. *)
Fixpoint parse_flags (fmt : list Z) (fl : fmt_flags) : fmt_flags * list Z :=
  match fmt with
  | [] => (fl, [])
  | c :: fmt' =>
      let '(FmtFlags la sg sp zp al) := fl in
      if c =? 43 then parse_flags fmt' (FmtFlags la true sp zp al) else
      if c =? 45 then parse_flags fmt' (FmtFlags true sg sp zp al) else
      if c =? 32 then parse_flags fmt' (FmtFlags la sg true zp al) else
      if c =? 48 then parse_flags fmt' (FmtFlags la sg sp true al) else
      if c =? 35 then parse_flags fmt' (FmtFlags la sg sp zp true) else
      (fl, fmt)
  end.

(** At most [n] leading characters that satisfy [p]. *)
Fixpoint parse_while (p : Z -> bool) (n : nat) (fmt : list Z) : list Z * list Z :=
  match n, fmt with
  | S n', c :: fmt' => if p c then let '(cs, rest) := parse_while p n' fmt' in (c :: cs, rest) else ([], fmt)
  | _, _ => ([], fmt)
  end.

(** [width += (wspec[w] - 48) * mul] with an 8-bit [mul] of 10 to the number of
    digits that follow. *)
Fixpoint parse_width (wspec : list Z) (width : Z) : Z :=
  match wspec with
  | [] => width
  | c :: wspec' =>
      let mul := Nat.iter (length wspec') (fun m => u8 (m * 10)) 1 in
      parse_width wspec' (u8 (width + (c - 48) * mul))
  end.

(** One conversion: what it prints and the remaining arguments.  Conversions that
    [is_format_specifier] knows but no branch handles print nothing. *)
Definition convert (specifier : Z) (fl : fmt_flags) (width : Z) (lspec : list Z) (args : list arg)
  : outcome (list Z * list arg) :=
  if specifier =? 37 then Ok ([37], args) else
  if specifier =? 115 then
    '(s, args) ← va_str args;
    out ← vprintf_str s width (f_leftalign fl);
    Ok (out, args)
  else if specifier =? 99 then
    '(v, args) ← va_int args;
    out ← vprintf_char (u8 v) width (f_leftalign fl);
    Ok (out, args)
  else if specifier =? 112 then
    '(v, args) ← va_int args;
    out ← vprintf_ptr (u64 v) (f_zeropad fl);
    Ok (out, args)
  else if (specifier =? 100) || (specifier =? 105) then
    '(num, args) ← printf_resolve_signed lspec args;
    out ← vprintf_signed num width (f_leftalign fl) (f_space fl) (f_sign fl) (f_zeropad fl)
            (f_alternate fl) false BASE_DEC;
    Ok (out, args)
  else if (specifier =? 117) || (specifier =? 120) || (specifier =? 88) || (specifier =? 111) then
    '(unum, args) ← printf_resolve_unsigned lspec args;
    out ← vprintf_unsigned unum width (f_leftalign fl) (f_space fl) (f_sign fl) (f_zeropad fl)
            (f_alternate fl) (specifier =? 88)
            (if specifier =? 117 then BASE_DEC else if specifier =? 111 then BASE_OCT else BASE_HEX);
    Ok (out, args)
  else Ok ([], args).

(** The specification after a ['%']: the output, the arguments and the format left.
    The character at the specifier's place is consumed whatever it is. *)
Definition conversion (fmt : list Z) (args : list arg) : outcome (list Z * list arg * list Z) :=
  let '(fl, fmt) := parse_flags fmt (FmtFlags false false false false false) in
  let '(wspec, fmt) := parse_while is_digit (Z.to_nat (PRINTF_MAX_WIDTH_MODIFIER - 1)) fmt in
  let width := parse_width wspec 0 in
  let '(lspec, fmt) := parse_while is_length_modifier (Z.to_nat PRINTF_MAX_LENGTH_MODIFIER) fmt in
  let specifier := match fmt with c :: _ => if is_format_specifier c then c else 0 | [] => 0 end in
  '(out, args) ← convert specifier fl width lspec args;
  Ok (out, args, drop 1 fmt).

Fixpoint vprintf_loop (fuel : nat) (fmt : list Z) (args : list arg) : outcome (list Z) :=
  match fmt, fuel with
  | [], _ => Ok []
  | _, O => OutOfFuel
  | ch :: fmt', S fuel' =>
      if ch =? 37 then
        '(out, args, rest) ← conversion fmt' args;
        out' ← vprintf_loop fuel' rest args;
        Ok (out ++ out')
      else
        out' ← vprintf_loop fuel' fmt' args;
        Ok (ch :: out')
  end.

(** Each turn of the loop consumes a character, so the length of the format is
    enough fuel. *)
Definition vprintf_ (fmt : list Z) (args : list arg) : outcome (list Z) :=
  vprintf_loop (length fmt) fmt args.

Definition printf_ (fmt : list Z) (args : list arg) : outcome (list Z) := vprintf_ fmt args.

(** ** Reference: reading a number back *)

Definition base_value (b : PrintBase) : Z :=
  match b with BASE_OCT => 8 | BASE_DEC => 10 | BASE_HEX => 16 end.

Definition digit_value (c : Z) : Z :=
  if c <=? 57 then c - 48 else if c <=? 70 then c - 55 else c - 87.

(** The number a string of digits denotes, most significant digit first. *)
Definition parse_num (base : Z) (s : list Z) : Z :=
  fold_left (fun acc c => acc * base + digit_value c) s 0.

(** The characters of a base: the case of hexadecimal digits follows [uppercase]. *)
Definition base_radix (b : PrintBase) : list Z :=
  match b with BASE_OCT => radix8 | BASE_DEC => radix10 | BASE_HEX => radix16 end.
Definition base_off (b : PrintBase) (uppercase : bool) : Z :=
  match b with BASE_HEX => if uppercase then 16 else 0 | _ => 0 end.
Definition digit_char (b : PrintBase) (uppercase : bool) (d : Z) : Z :=
  default 0 (base_radix b !! Z.to_nat (d + base_off b uppercase)).

(** Digits of [n], least significant first. *)
Fixpoint le_digits (fuel : nat) (base n : Z) : list Z :=
  match fuel with
  | O => []
  | S fuel' => if n =? 0 then [] else n mod base :: le_digits fuel' base (n / base)
  end.

(** ** Lemmas *)

Lemma le_digits_bound base fuel : forall n k, 2 <= base -> 0 <= n < base ^ Z.of_nat k -> (length (le_digits fuel base n) <= k)%nat.
Proof.
  induction fuel as [|fuel IH]; intros n k Hb Hn; cbn [le_digits]; [cbn; lia|].
  destruct (Z.eqb_spec n 0); [cbn; lia|]. destruct k as [|k]; [cbn in Hn; lia|]. cbn [length].
  apply le_n_S, IH; [done|]. rewrite Nat2Z.inj_succ, Z.pow_succ_r in Hn by lia.
  split; [apply Z.div_pos; lia|]. apply Z.div_lt_upper_bound; lia.
Qed.

Lemma le_digits_range base fuel : forall n, 2 <= base -> 0 <= n -> Forall (fun d => 0 <= d < base) (le_digits fuel base n).
Proof.
  induction fuel as [|fuel IH]; intros n Hb Hn; cbn [le_digits]; [constructor|].
  destruct (Z.eqb_spec n 0); [constructor|].
  constructor; [by apply Z.mod_pos_bound; lia|]. apply IH; [done|apply Z.div_pos; lia].
Qed.

(** The digits denote [n], and the most significant one is not zero. *)
Lemma le_digits_value base fuel : forall n, 2 <= base -> 0 <= n < 2 ^ Z.of_nat fuel ->
  foldr (fun d acc => acc * base + d) 0 (le_digits fuel base n) = n /\
  (n <> 0 -> exists d, list.last (le_digits fuel base n) = Some d /\ d <> 0).
Proof.
  induction fuel as [|fuel IH]; intros n Hb Hn; cbn [le_digits]; [cbn in *; lia|].
  destruct (Z.eqb_spec n 0) as [->|Hnz]; [done|]. cbn [foldr].
  rewrite Nat2Z.inj_succ, Z.pow_succ_r in Hn by lia.
  destruct (IH (n / base)) as [Hv Hlast]; [done| |].
  { split; [apply Z.div_pos; lia|]. apply Z.div_lt_upper_bound; [lia|]. nia. }
  rewrite Hv. split; [pose proof (Z.div_mod n base); lia|]. intros _.
  destruct (decide (n / base = 0)) as [E|E].
  - rewrite E. destruct fuel; cbn; (exists (n mod base); split; [done|]);
      pose proof (Z.div_mod n base); lia.
  - destruct (Hlast E) as (d & Hd & Hd0). exists d. split; [|done].
    destruct (le_digits fuel base (n / base)); [done|]. done.
Qed.

(** Each printed character of a base, by computation. *)
Lemma digit_char_spec b up d : 0 <= d < base_value b ->
  rd (base_radix b) (d + base_off b up) = Ok (digit_char b up d) /\
  digit_value (digit_char b up d) = d /\ digit_char b up d <> 0 /\ (d <> 0 -> digit_char b up d <> 48).
Proof.
  intros Hd. assert (d ∈ seqZ 0 (base_value b)) as Hin by (apply elem_of_seqZ; lia).
  revert Hin. clear Hd. revert d. refine (proj1 (list.Forall_forall _ _) _).
  destruct b, up; vm_compute; repeat constructor; done.
Qed.

Section number.
Context (b : PrintBase) (up : bool).
Let base := base_value b.
Let chars (ds : list Z) := digit_char b up <$> ds.

Lemma base_ge_2 : 2 <= base.
Proof. unfold base. destruct b; cbn; lia. Qed.

Lemma digit_loop_spec fuel : forall n pre suf,
  0 <= n -> n < 2 ^ Z.of_nat fuel ->
  (length pre + length (le_digits fuel base n) <= 31)%nat -> length (pre ++ suf) = 32%nat ->
  forall fuel', (length (le_digits fuel base n) < fuel')%nat ->
  digit_loop fuel' (base_radix b) base (base_off b up) n (pre ++ suf) (Z.of_nat (length pre)) =
    Ok (pre ++ chars (le_digits fuel base n) ++ drop (length (le_digits fuel base n)) suf,
        Z.of_nat (length pre + length (le_digits fuel base n))).
Proof.
  pose proof base_ge_2 as Hb.
  induction fuel as [|fuel IH]; intros n pre suf Hn Hlt Hlen H32 [|fuel'] Hf; [lia| |lia|].
  { assert (n = 0) as -> by (cbn in Hlt; lia). cbn. by rewrite Nat.add_0_r. }
  cbn [le_digits digit_loop] in *. destruct (Z.eqb_spec n 0) as [->|Hnz].
  { cbn. by rewrite Nat.add_0_r. }
  cbn [length fmap list_fmap] in *. unfold PRINTF_MAX_FORMAT_STACK.
  rewrite (proj2 (Z.ltb_lt 0 n)), (proj2 (Z.ltb_lt (Z.of_nat (length pre)) (32 - 1))) by lia. cbn [andb].
  destruct (digit_char_spec b up (n mod base)) as (Hrd & _); [by apply Z.mod_pos_bound; lia|].
  rewrite Hrd. munfold. rewrite length_app in H32.
  destruct suf as [|x suf]; [cbn in H32; lia|].
  rewrite wr_in_range by (rewrite length_app; cbn; lia). rewrite Nat2Z.id, insert_app_r_alt by lia.
  rewrite Nat.sub_diag. cbn [insert list_insert].
  replace (pre ++ digit_char b up (n mod base) :: suf) with ((pre ++ [digit_char b up (n mod base)]) ++ suf)
    by (by rewrite <- app_assoc).
  replace (Z.of_nat (length pre) + 1) with (Z.of_nat (length (pre ++ [digit_char b up (n mod base)])))
    by (rewrite length_app; cbn; lia).
  rewrite Nat2Z.inj_succ, Z.pow_succ_r in Hlt by lia.
  rewrite IH.
  - f_equal. f_equal; [|rewrite length_app; cbn [length]; f_equal; lia].
    unfold chars. cbn [fmap list_fmap drop]. by rewrite <- app_assoc.
  - apply Z.div_pos; lia.
  - apply Z.div_lt_upper_bound; nia.
  - rewrite length_app. cbn. lia.
  - rewrite !length_app. cbn in *. lia.
  - lia.
Qed.

Lemma parse_chars ds : Forall (fun d => 0 <= d < base) ds ->
  parse_num base (rev (chars ds)) = foldr (fun d acc => acc * base + d) 0 ds.
Proof.
  intros Hds. unfold parse_num. rewrite <- fold_left_rev_right, rev_involutive.
  induction Hds as [|d ds Hd _ IH]; [done|]. cbn [chars fmap list_fmap fold_right foldr].
  unfold chars in IH. rewrite IH. f_equal. by apply digit_char_spec.
Qed.

(** Text of a number: digits of the base that denote it, without leading zeros. *)
Definition is_text (n : Z) (s : list Z) : Prop :=
  parse_num base s = n /\ (1 <= length s <= 22)%nat /\
  Forall (fun c => exists d, 0 <= d < base /\ c = digit_char b up d) s /\
  (n <> 0 -> head s <> Some 48).

Lemma zero_text : is_text 0 [48].
Proof.
  split; [destruct b; done|]. split; [cbn; lia|]. split; [|done].
  repeat constructor. exists 0. pose proof base_ge_2. split; [lia|]. by destruct b, up.
Qed.

Lemma digits_reversed_spec n :
  0 < n < 2 ^ 64 ->
  exists buf s, digits_reversed (base_radix b) base (base_off b up) n stack_buf = Ok (buf, Z.of_nat (length s)) /\
    take (length s) buf = s /\ (length s <= length buf)%nat /\ is_text n s.
Proof.
  intros Hn. pose proof base_ge_2 as Hb. set (ds := le_digits 64 base n).
  assert (length ds <= 22)%nat as Hl.
  { apply le_digits_bound; [done|]. split; [lia|]. eapply Z.lt_trans; [apply Hn|].
    unfold base. destruct b; vm_compute; done. }
  pose proof (le_digits_range base 64 n Hb ltac:(lia)) as Hr. fold ds in Hr.
  destruct (le_digits_value base 64 n Hb ltac:(cbn; lia)) as [Hv Hlast]. fold ds in Hv, Hlast.
  assert (Forall (fun c => c <> 0) (chars ds)) as Hnz.
  { apply Forall_fmap. eapply List.Forall_impl; [|exact Hr]. intros d Hd. by apply digit_char_spec. }
  unfold digits_reversed.
  pose proof (digit_loop_spec 64 n [] stack_buf ltac:(lia) ltac:(cbn; lia)) as Hloop.
  fold ds in Hloop. change (Z.of_nat (length [])) with 0 in Hloop. cbn [app length Nat.add] in Hloop. rewrite (Hloop ltac:(lia) eq_refl 32%nat ltac:(lia)).
  munfold. assert (length stack_buf = 32%nat) as H32 by done.
  rewrite wr_in_range by (rewrite length_app, length_drop, H32; unfold chars; rewrite length_fmap; lia).
  rewrite Nat2Z.id, insert_app_r_alt by (unfold chars; rewrite length_fmap; lia).
  unfold chars at 2. rewrite length_fmap, Nat.sub_diag.
  destruct (drop (length ds) stack_buf) as [|x rest] eqn:Ed.
  { apply (f_equal length) in Ed. rewrite length_drop, H32 in Ed. cbn [length] in Ed. lia. }
  cbn [insert list_insert]. rewrite strrev_cstr by done.
  assert (length (rev (chars ds)) = length ds) as Hlen by (rewrite length_rev; apply length_fmap).
  exists (rev (chars ds) ++ 0 :: rest), (rev (chars ds)). rewrite Hlen. split; [done|].
  split; [rewrite <- Hlen; apply take_app_length|]. split; [rewrite length_app, Hlen; lia|].
  split; [by rewrite parse_chars|]. split; [|split].
  - rewrite Hlen. split; [|done]. destruct (Hlast ltac:(lia)) as (d & Hd & _). destruct ds; [done|cbn; lia].
  - apply Forall_rev, Forall_fmap. eapply List.Forall_impl; [|exact Hr]. intros d Hd. by exists d.
  - intros _. destruct (Hlast ltac:(lia)) as (d & Hd & Hd0). apply last_Some in Hd as [ds' Hd].
    rewrite Hd in Hr |- *. unfold chars. rewrite fmap_app, rev_app_distr. cbn. intros [= E].
    apply Forall_app in Hr as [_ Hr]. apply Forall_cons_1 in Hr as [Hr _].
    by apply (digit_char_spec b up d Hr).
Qed.
End number.

Lemma nprintf_puts_take buf s :
  take (length s) buf = s -> (length s <= length buf)%nat -> nprintf_puts buf (Z.of_nat (length s)) = Ok s.
Proof.
  intros Ht Hl. unfold nprintf_puts.
  rewrite (proj2 (Z.leb_le 0 _)), (proj2 (Z.leb_le _ (Z.of_nat (length buf)))) by lia.
  cbn [andb]. by rewrite Nat2Z.id, Ht.
Qed.

(** The digits of a number, including zero: what both number printers put in the
    buffer. *)
Lemma number_text b up n :
  0 <= n < 2 ^ 64 ->
  exists buf s,
    (if n =? 0 then zero_digit stack_buf
     else digits_reversed (base_radix b) (base_value b) (base_off b up) n stack_buf)
      = Ok (buf, Z.of_nat (length s)) /\
    nprintf_puts buf (Z.of_nat (length s)) = Ok s /\ is_text b up n s.
Proof.
  intros Hn. destruct (Z.eqb_spec n 0) as [->|Hnz].
  - exists (<[1%nat := 0]> (<[0%nat := 48]> stack_buf)), [48]. split; [done|]. split; [done|]. apply zero_text.
  - destruct (digits_reversed_spec b up n ltac:(lia)) as (buf & s & Hrun & Ht & Hl & Hs).
    exists buf, s. split; [done|]. split; [by apply nprintf_puts_take|done].
Qed.

(** [width] raised to the text length, and the padding to it. *)
Lemma pad_to_width c w len k :
  0 <= w < 256 -> (len + k < 256)%nat ->
  pad_chars c ((if w <? Z.of_nat len + Z.of_nat k then u8 (Z.of_nat len + Z.of_nat k) else w)
               - Z.of_nat len - Z.of_nat k) =
    replicate (Z.to_nat w - (len + k)) c.
Proof.
  intros Hw Hl. unfold pad_chars. destruct (Z.ltb_spec w (Z.of_nat len + Z.of_nat k)).
  - rewrite u8_id by lia. replace (Z.to_nat w - (len + k))%nat with 0%nat by lia.
    by replace (Z.of_nat len + Z.of_nat k - Z.of_nat len - Z.of_nat k) with 0 by lia.
  - rewrite u64_id by lia. f_equal. lia.
Qed.

(** ** Properties *)

(** C40: [vprintf_unsigned] prints the number: the padding aside, the output is a
    string of digits of the base without leading zeros that denotes the number, and
    the output is as wide as the larger of the width and the number. *)
Theorem vprintf_unsigned_correct (num width : Z) (la sp sg zp al up : bool) (b : PrintBase)
  (Hnum : 0 <= num < 2 ^ 64) (Hwidth : 0 <= width < 256) :
  exists s, is_text b up num s /\
    vprintf_unsigned num width la sp sg zp al up b =
      Ok (let pads := replicate (Z.to_nat width - length s) (if zp && negb la then 48 else 32) in
          if la then s ++ pads else pads ++ s).
Proof.
  destruct (number_text b up num Hnum) as (buf & s & Hdig & Hput & Hs). exists s. split; [done|].
  pose proof Hs as (_ & Hl & _). unfold vprintf_unsigned.
  assert ((if num =? 0 then zero_digit stack_buf else
    match b with
    | BASE_OCT => digits_reversed radix8 8 0 num stack_buf
    | BASE_DEC => digits_reversed radix10 10 0 num stack_buf
    | BASE_HEX => digits_reversed radix16 16 (if up then 16 else 0) num stack_buf
    end) = Ok (buf, Z.of_nat (length s))) as -> by (destruct b; exact Hdig).
  munfold. rewrite Hput. pose proof (pad_to_width (if if la && zp then false else zp then 48 else 32)
    width (length s) 0 Hwidth ltac:(lia)) as Hpad.
  rewrite Z.add_0_r, Z.sub_0_r, Nat.add_0_r in Hpad. rewrite Hpad. by destruct la, zp.
Qed.

Lemma vprintf_unsigned_correct_witness :
  exists s, is_text BASE_HEX false 48879 s /\
    vprintf_unsigned 48879 8 false false false true false false BASE_HEX =
      Ok (replicate (8 - length s) 48 ++ s).
Proof.
  destruct (vprintf_unsigned_correct 48879 8 false false false true false false BASE_HEX) as (s & Hs & Hrun);
    [lia..|]. exists s. split; [exact Hs|exact Hrun].
Defined.

(** [vprintf_signed] without the [+] flag prints a minus sign exactly for
    negative numbers, then the digits of the magnitude, padded to the width (zeros
    go between sign and digits); the output is as wide as the larger of the two. *)
Theorem vprintf_signed_correct (num width : Z) (la sp zp al up : bool)
  (Hnum : - 2 ^ 63 < num < 2 ^ 63) (Hwidth : 0 <= width < 256) :
  exists s, is_text BASE_DEC false (Z.abs num) s /\
    let sign := if num <? 0 then [45] else [] in
    let pads := replicate (Z.to_nat width - (length s + length sign)) (if zp && negb la then 48 else 32) in
    vprintf_signed num width la sp false zp al up BASE_DEC =
      Ok (if la then sign ++ s ++ pads
          else if zp then sign ++ pads ++ s else pads ++ sign ++ s).
Proof.
  destruct (number_text BASE_DEC false (Z.abs num) ltac:(lia)) as (buf & s & Hdig & Hput & Hs).
  exists s. split; [done|]. pose proof Hs as (_ & Hl & _). cbn zeta.
  unfold vprintf_signed. cbn [base_radix base_value base_off] in Hdig.
  assert ((if num <? 0 then if num =? - 2 ^ 63 then Fault else Ok (- num) else Ok num) = Ok (Z.abs num)) as ->.
  { destruct (Z.ltb_spec num 0); [|f_equal; lia]. rewrite (proj2 (Z.eqb_neq num (- 2 ^ 63))) by lia. f_equal. lia. }
  munfold. rewrite Hdig, Hput.
  pose proof (pad_to_width (if if la && zp then false else zp then 48 else 32) width (length s)
    (if num <? 0 then 1%nat else 0%nat) Hwidth ltac:(destruct (num <? 0); lia)) as Hpad.
  destruct (num <? 0); [change (Z.of_nat 1) with 1 in Hpad|change (Z.of_nat 0) with 0 in Hpad];
    cbn [length orb]; rewrite Hpad; by destruct la, zp.
Qed.

Lemma vprintf_signed_correct_witness :
  exists s, is_text BASE_DEC false 42 s /\
    vprintf_signed (-42) 6 false false false true false false BASE_DEC =
      Ok ([45] ++ replicate (6 - (length s + 1)) 48 ++ s).
Proof.
  destruct (vprintf_signed_correct (-42) 6 false false true false false) as (s & Hs & Hrun); [lia..|].
  exists s. split; [exact Hs|exact Hrun].
Defined.

Lemma vprintf_puts_cstr s rest : Forall (fun c => c <> 0) s -> vprintf_puts (s ++ 0 :: rest) = Ok s.
Proof.
  induction 1 as [|c s Hc _ IH]; [done|]. cbn. rewrite (proj2 (Z.eqb_neq c 0)) by done. by rewrite IH.
Qed.

Lemma printf_strlen_cstr s rest : Forall (fun c => c <> 0) s -> strlen (s ++ 0 :: rest) = Ok (Z.of_nat (length s)).
Proof.
  intros Hs. unfold strlen. assert (forall n, strlen_loop (s ++ 0 :: rest) n = Ok (n + Z.of_nat (length s))) as Hg.
  { induction Hs as [|c s Hc _ IH]; intros n; cbn [app strlen_loop length]; [f_equal; lia|].
    rewrite (proj2 (Z.eqb_neq c 0)) by done. rewrite IH. f_equal. lia. }
  by rewrite Hg.
Qed.

(** [vprintf_str] keeps the field width in 8 bits: a string below 256 characters
    is printed whole and padded to the width, but for a longer one [width - len]
    wraps around and more than 2^64 - len spaces are printed. *)
Theorem vprintf_str_width (s rest : list Z) (width : Z) (la : bool)
  (Hs : Forall (fun c => c <> 0) s) (Hwidth : 0 <= width < 256) (Hlen : Z.of_nat (length s) < 2 ^ 64) :
  exists n, vprintf_str (s ++ 0 :: rest) width la =
      Ok (if la then s ++ replicate (Z.to_nat n) 32 else replicate (Z.to_nat n) 32 ++ s) /\
    (Z.of_nat (length s) < 256 -> n = Z.max 0 (width - Z.of_nat (length s))) /\
    (256 <= Z.of_nat (length s) -> 2 ^ 64 - Z.of_nat (length s) <= n).
Proof.
  unfold vprintf_str. rewrite printf_strlen_cstr by done. munfold. rewrite vprintf_puts_cstr by done.
  set (l := Z.of_nat (length s)) in *. set (w := if width <? l then u8 l else width).
  exists (u64 (w - l)). split; [by destruct la|]. subst w. split; intros Hl; destruct (Z.ltb_spec width l).
  - rewrite u8_id, Z.sub_diag by lia. change (u64 0) with 0. lia.
  - rewrite u64_id by lia. lia.
  - unfold u64. pose proof (u8_range l). rewrite <- (Z.mod_add _ 1), Z.mod_small by lia. lia.
  - lia.
Qed.

Lemma vprintf_str_width_witness :
  exists n, vprintf_str (replicate 256 65 ++ [0]) 0 false = Ok (replicate (Z.to_nat n) 32 ++ replicate 256 65) /\
    2 ^ 64 - 256 <= n.
Proof.
  assert (Forall (fun c => c <> 0) (replicate 256 65)) as Hs.
  { apply (bool_decide_unpack _). vm_compute. exact I. }
  destruct (vprintf_str_width (replicate 256 65) [] 0 false Hs) as (n & Hrun & _ & Hbig);
    [lia|vm_compute; reflexivity|].
  exists n. split; [exact Hrun|]. apply Hbig. vm_compute. congruence.
Defined.

(** *** The format loop *)

Lemma parse_flags_length fmt : forall fl, (length (parse_flags fmt fl).2 <= length fmt)%nat.
Proof.
  induction fmt as [|c fmt IH]; intros [la sg sp zp al]; cbn [parse_flags]; [done|].
  repeat match goal with |- context [if ?x then _ else _] => destruct x end;
    cbn [length snd]; try done; (etrans; [apply IH|lia]).
Qed.

Lemma parse_while_length p n : forall fmt, (length (parse_while p n fmt).2 <= length fmt)%nat.
Proof.
  induction n as [|n IH]; intros [|c fmt]; cbn [parse_while]; [done..|].
  destruct (p c); [|done]. specialize (IH fmt). destruct (parse_while p n fmt). cbn in *. lia.
Qed.

Lemma conversion_length fmt args out args' rest :
  conversion fmt args = Ok (out, args', rest) -> (length rest <= length fmt)%nat.
Proof.
  unfold conversion. intros Hrun.
  pose proof (parse_flags_length fmt (FmtFlags false false false false false)) as H1.
  destruct (parse_flags fmt _) as [fl f1]. cbn [snd] in H1.
  pose proof (parse_while_length is_digit (Z.to_nat (PRINTF_MAX_WIDTH_MODIFIER - 1)) f1) as H2.
  destruct (parse_while is_digit _ f1) as [ws f2]. cbn [snd] in H2.
  pose proof (parse_while_length is_length_modifier (Z.to_nat PRINTF_MAX_LENGTH_MODIFIER) f2) as H3.
  destruct (parse_while is_length_modifier _ f2) as [ls f3]. cbn [snd] in H3.
  apply obind_Ok in Hrun as ([o a] & _ & [= <- <- <-]). rewrite length_drop. lia.
Qed.

(** More fuel than the format is long makes no difference. *)
Lemma vprintf_loop_fuel n : forall fmt args, (length fmt <= n)%nat ->
  vprintf_loop n fmt args = vprintf_ fmt args.
Proof.
  unfold vprintf_. induction n as [n IH] using lt_wf_ind. intros fmt args Hn.
  destruct fmt as [|c fmt]; [by destruct n|]. cbn [length] in *. destruct n as [|n]; [lia|].
  cbn [vprintf_loop]. destruct (c =? 37).
  - destruct (conversion fmt args) as [[[out args'] rest]| | |] eqn:E; try done.
    cbv [mbind outcome_bind]. pose proof (conversion_length _ _ _ _ _ E).
    rewrite (IH n), (IH (length fmt)) by lia. done.
  - by rewrite (IH n) by lia.
Qed.

(** The format loop terminates on every format and arguments list, and unrolls
    to its specification: literal characters are printed as they are, and a ['%']
    hands over to the conversion that follows and resumes behind it. *)
Theorem vprintf_unroll (c : Z) (fmt : list Z) (args : list arg) :
  vprintf_ [] args = Ok [] /\
  vprintf_ (c :: fmt) args =
    if c =? 37 then
      '(out, args', rest) ← conversion fmt args;
      out' ← vprintf_ rest args';
      Ok (out ++ out')
    else out' ← vprintf_ fmt args; Ok (c :: out').
Proof.
  split; [done|]. unfold vprintf_ at 1. cbn [length vprintf_loop]. destruct (c =? 37); [|done].
  destruct (conversion fmt args) as [[[out args'] rest]| | |] eqn:E; try done.
  cbv [mbind outcome_bind]. pose proof (conversion_length _ _ _ _ _ E).
  by rewrite vprintf_loop_fuel by lia.
Qed.

(** ["%-8s = 0x%016lx"] as the frame dump uses it. *)
Example printf_frame_line :
  printf_ [37; 45; 56; 115; 61; 48; 120; 37; 48; 49; 54; 108; 120] [ArgStr [114; 105; 112; 0]; ArgInt 0xDEADBEEF]
  = Ok ([114; 105; 112; 32; 32; 32; 32; 32; 61; 48; 120] ++
        [48; 48; 48; 48; 48; 48; 48; 48; 100; 101; 97; 100; 98; 101; 101; 102]).
Proof. vm_compute. reflexivity. Qed.
