(* ===== verification/Process.v ===== *)
(** * Processes

    [include/kernel/process.h] and [kernel/kernel/process.c]: the process record, the
    context switch ([process_save_state], and [process_jump] with its assembly as
    pops from the context structure), creation and destruction of a process' address
    space, and [syscall_sbrk] of [kernel/kernel/syscall.c].  The address-space
    operations run on the state of [Vmm]. *)
From S2P Require Import Prelude Common Memory Interfaces Pmm Vmm.
From Stdlib Require Import ZArith Lia.
From stdpp Require Import base tactics list numbers.

Open Scope Z_scope.

Definition PROCESS_DEFAULT_STACK_SIZE : Z := 0x200000.
Definition PROCESS_DEFAULT_KERNEL_STACK_SIZE : Z := 0x4000.
Definition PROCESS_VIRT_TOP : Z := 0x00007FFFFFFFF000.
Definition PROCESS_VIRT_STACK_TOP : Z := PROCESS_VIRT_TOP - PROCESS_DEFAULT_KERNEL_STACK_SIZE - 0x1000.
Definition PROCESS_KERNEL_VIRT_BASE : Z := 0xFFFFFF7FC0000000.
Definition PROCESS_VIRT_KERNEL_STACK_TOP : Z := PROCESS_KERNEL_VIRT_BASE + 0x40000000.

Inductive ProcessState := PROCESS_READY | PROCESS_RUNNING | PROCESS_DEAD.

#[export] Instance process_state_eq_dec : EqDecision ProcessState.
Proof. solve_decision. Defined.

(** The registers the interrupt stubs push ([Registers64]), by name. *)
Record Registers64 := {
  r_rax : Z; r_rbx : Z; r_rcx : Z; r_rdx : Z; r_rsi : Z; r_rdi : Z; r_rbp : Z;
  r_r8 : Z; r_r9 : Z; r_r10 : Z; r_r11 : Z; r_r12 : Z; r_r13 : Z; r_r14 : Z; r_r15 : Z;
}.

Record IretFrame := { i_rip : Z; i_cs : Z; i_rflags : Z; i_rsp : Z; i_ss : Z }.

Record InterruptFrame := {
  registers : Registers64;
  int_no : Z;
  err_code : Z;
  iret_frame : IretFrame;
}.

Record ProcessContext := {
  rax : Z; rbx : Z; rcx : Z; rdx : Z; rsi : Z; rdi : Z; rbp : Z;
  r8 : Z; r9 : Z; r10 : Z; r11 : Z; r12 : Z; r13 : Z; r14 : Z; r15 : Z;
  rip : Z; cs : Z; rflags : Z; rsp : Z; ss : Z;
}.

Record Process := {
  pml4 : Z;
  pml4_phys : Z;
  pid : Z;
  entry : Z;
  stack_top : Z;
  kernel_stack_top : Z;
  stack_size : Z;
  kernel_stack_size : Z;
  brk_start : Z;
  brk : Z;
  exit_code : Z;
  context : ProcessContext;
  state : ProcessState;
}.

(** ** Context switch *)

Definition with_context (p : Process) (c : ProcessContext) : Process :=
  {| pml4 := pml4 p; pml4_phys := pml4_phys p; pid := pid p; entry := entry p;
     stack_top := stack_top p; kernel_stack_top := kernel_stack_top p; stack_size := stack_size p;
     kernel_stack_size := kernel_stack_size p; brk_start := brk_start p; brk := brk p;
     exit_code := exit_code p; context := c; state := state p |}.

Definition with_state (p : Process) (s : ProcessState) : Process :=
  {| pml4 := pml4 p; pml4_phys := pml4_phys p; pid := pid p; entry := entry p;
     stack_top := stack_top p; kernel_stack_top := kernel_stack_top p; stack_size := stack_size p;
     kernel_stack_size := kernel_stack_size p; brk_start := brk_start p; brk := brk p;
     exit_code := exit_code p; context := context p; state := s |}.

Definition with_brk (p : Process) (b : Z) : Process :=
  {| pml4 := pml4 p; pml4_phys := pml4_phys p; pid := pid p; entry := entry p;
     stack_top := stack_top p; kernel_stack_top := kernel_stack_top p; stack_size := stack_size p;
     kernel_stack_size := kernel_stack_size p; brk_start := brk_start p; brk := b;
     exit_code := exit_code p; context := context p; state := state p |}.

Definition process_save_state (process : Process) (frame : InterruptFrame) : Process :=
  let r := registers frame in
  let f := iret_frame frame in
  with_context process
    {| rax := r_rax r; rbx := r_rbx r; rcx := r_rcx r; rdx := r_rdx r; rsi := r_rsi r;
       rdi := r_rdi r; rbp := r_rbp r; r8 := r_r8 r; r9 := r_r9 r; r10 := r_r10 r;
       r11 := r_r11 r; r12 := r_r12 r; r13 := r_r13 r; r14 := r_r14 r; r15 := r_r15 r;
       ss := i_ss f; rsp := i_rsp f; rflags := i_rflags f; cs := i_cs f; rip := i_rip f |}.

(** The context structure as the quadwords it occupies in memory. *)
Definition context_words (c : ProcessContext) : list Z :=
  [rax c; rbx c; rcx c; rdx c; rsi c; rdi c; rbp c; r8 c; r9 c; r10 c; r11 c; r12 c;
   r13 c; r14 c; r15 c; rip c; cs c; rflags c; rsp c; ss c].

(** What [process_jump] does to the processor: page map, kernel stack for interrupts,
    whether [swapgs] runs, and the register state execution continues with. *)
Record cpu_jump := {
  j_rsp0 : Z;
  j_cr3 : Z;
  j_swapgs : bool;
  j_registers : Registers64;
  j_iret : IretFrame;
}.

(** The stack pointer is moved to the context; fifteen [pop]s and [iretq] (which pops
    rip, cs, rflags, rsp, ss) read the words in order. *)
Definition process_jump (process : Process) : outcome cpu_jump :=
  let needs_swapgs := negb (Z.land (cs (context process)) 0x03 =? 0) in
  match context_words (context process) with
  | [a; b; c; d; si; di; bp; x8; x9; x10; x11; x12; x13; x14; x15; ip; cs'; fl; sp; ss'] =>
      Ok {| j_rsp0 := kernel_stack_top process;
            j_cr3 := pml4_phys process;
            j_swapgs := needs_swapgs;
            j_registers := {| r_rax := a; r_rbx := b; r_rcx := c; r_rdx := d; r_rsi := si;
              r_rdi := di; r_rbp := bp; r_r8 := x8; r_r9 := x9; r_r10 := x10; r_r11 := x11;
              r_r12 := x12; r_r13 := x13; r_r14 := x14; r_r15 := x15 |};
            j_iret := {| i_rip := ip; i_cs := cs'; i_rflags := fl; i_rsp := sp; i_ss := ss' |} |}
  | _ => Fault
  end.

(** ** Address spaces *)
Section address_space.
Context {S : Type} `{PageAllocator S} (debug : bool).

(** [for (s = top - size; s < top; s += 4096)]: allocate a page and map it at [s]. *)
Definition map_pages (pml4 start end_ flags : Z) : M (vmm_state S) unit :=
  for_range start end_ VMM_DEFAULT_PAGE_SIZE (fun s =>
    stack_phys ← with_alloc pa_alloc;
    vmm_map debug pml4 stack_phys s flags).

(** The fields [brk_start], [brk] and [exit_code] and the general registers of the
    record keep their values. *)
Definition process_create (process : Process) (pid' entry' cs' ss' rflags' stack_top' stack_size'
  kernel_stack_top' kernel_stack_size' pml4' pml4_phys' kernel_pml4 : Z) : M (vmm_state S) Process :=
  _ ← for_range 256 512 1 (fun i =>
        e ← tbl_get kernel_pml4 i;
        tbl_set pml4' i e);
  let user := negb (stack_top' =? 0) && negb (stack_size' =? 0) in
  _ ← (if user then map_pages pml4' (u64 (stack_top' - stack_size')) stack_top' VMM_FLAGS_USER_DATA
       else mret tt);
  _ ← map_pages pml4' (u64 (kernel_stack_top' - kernel_stack_size')) kernel_stack_top' VMM_FLAGS_KERNEL_DATA;
  let c := context process in
  mret {| pml4 := pml4'; pml4_phys := pml4_phys'; pid := u32 pid'; entry := entry';
     stack_top := if user then stack_top' else kernel_stack_top';
     kernel_stack_top := kernel_stack_top';
     stack_size := if user then stack_size' else kernel_stack_size';
     kernel_stack_size := kernel_stack_size';
     brk_start := brk_start process; brk := brk process; exit_code := exit_code process;
     context := {| rax := rax c; rbx := rbx c; rcx := rcx c; rdx := rdx c; rsi := rsi c;
       rdi := rdi c; rbp := rbp c; r8 := r8 c; r9 := r9 c; r10 := r10 c; r11 := r11 c;
       r12 := r12 c; r13 := r13 c; r14 := r14 c; r15 := r15 c;
       rip := entry'; cs := cs'; rflags := rflags';
       rsp := if user then stack_top' else kernel_stack_top'; ss := ss' |};
     state := PROCESS_READY |}.

Definition process_destroy (process : Process) : M (vmm_state S) unit :=
  let kernel_stack_start := u64 (kernel_stack_top process - kernel_stack_size process) in
  let kernel_stack_end := kernel_stack_top process in
  _ ← for_range kernel_stack_start kernel_stack_end VMM_DEFAULT_PAGE_SIZE
        (fun p => vmm_free (pml4 process) p);
  _ ← vmm_destroy (pml4 process);
  with_alloc (pa_free (pml4_phys process)).

(** [syscall_sbrk]: the heap end moves by the signed request; pages are unmapped or
    mapped as it crosses page boundaries.  The result is the old end (0 when refused). *)
Definition syscall_sbrk (process : Process) (arg : Z) : M (vmm_state S) (Z * Process) :=
  let request := s64 arg in
  let moved := u64 (brk process + request) in
  if request <? 0 then
    if moved <? brk_start process then mret (0, process) else
    let old_page := ALIGN_UP (brk process) VMM_DEFAULT_PAGE_SIZE / VMM_DEFAULT_PAGE_SIZE in
    let new_page := ALIGN_UP moved VMM_DEFAULT_PAGE_SIZE / VMM_DEFAULT_PAGE_SIZE in
    _ ← for_range new_page old_page 1 (fun page =>
          vmm_free (pml4 process) (u64 (page * VMM_DEFAULT_PAGE_SIZE)));
    mret (brk process, with_brk process moved)
  else
    let start := ALIGN_UP (brk process) VMM_DEFAULT_PAGE_SIZE in
    let end_ := ALIGN_UP moved VMM_DEFAULT_PAGE_SIZE in
    let required_pages := u64 (end_ / VMM_DEFAULT_PAGE_SIZE - start / VMM_DEFAULT_PAGE_SIZE) in
    _ ← for_range 0 required_pages 1 (fun i =>
          phys ← with_alloc pa_alloc;
          vmm_map debug (pml4 process) phys (u64 (start + i * VMM_DEFAULT_PAGE_SIZE)) VMM_FLAGS_USER_DATA);
    mret (brk process, with_brk process moved).
End address_space.

(** ** Properties *)

(** C36: a context switch is transparent: a process whose state was saved from an
    interrupt frame and is later resumed continues with exactly the registers,
    instruction pointer, flags and stack of that frame, on its own page map, with
    [swapgs] run exactly when it returns to user mode. *)
Theorem context_switch_roundtrip (process : Process) (frame : InterruptFrame) :
  process_jump (process_save_state process frame) =
    Ok {| j_rsp0 := kernel_stack_top process;
          j_cr3 := pml4_phys process;
          j_swapgs := negb (Z.land (i_cs (iret_frame frame)) 3 =? 0);
          j_registers := registers frame;
          j_iret := iret_frame frame |}.
Proof. by destruct frame as [[] ? ? []]. Qed.

Lemma for_range_empty {S} lo hi step body (st : S) : 0 < step -> hi <= lo -> for_range lo hi step body st = Ok (tt, st).
Proof.
  intros Hs Hle. unfold for_range, for_count.
  assert (hi - lo + step - 1 < step) as Hlt by lia.
  assert ((hi - lo + step - 1) / step <= 0) as Hdiv.
  { apply Z.lt_succ_r, Z.div_lt_upper_bound; lia. }
  by replace (Z.to_nat ((hi - lo + step - 1) / step)) with 0%nat by lia.
Qed.

(** A request that leaves the address space at the bottom by a page or more. *)
Lemma sbrk_wrap_run {S : Type} `{PageAllocator S} (debug : bool) (p : Process) (arg : Z) (st : vmm_state S) :
  0 <= brk_start p <= brk p -> brk p <= 2 ^ 47 -> - 2 ^ 63 <= s64 arg <= - brk p - 4096 ->
  syscall_sbrk debug p arg st = Ok ((brk p, with_brk p (brk p + s64 arg + 2 ^ 64)), st).
Proof.
  intros Hbrk Hlow Hreq. unfold syscall_sbrk. rewrite (proj2 (Z.ltb_lt (s64 arg) 0)) by lia.
  assert (u64 (brk p + s64 arg) = brk p + s64 arg + 2 ^ 64) as ->.
  { unfold u64. rewrite <- (Z.mod_add _ 1), Z.mod_small by lia. lia. }
  set (b := brk p + s64 arg + 2 ^ 64). rewrite (proj2 (Z.ltb_ge b _)) by (unfold b; lia).
  change VMM_DEFAULT_PAGE_SIZE with 4096.
  pose proof (ALIGN_UP_page b ltac:(unfold b; lia)) as [Hb _].
  pose proof (ALIGN_UP_page (brk p) ltac:(lia)) as [Hk _].
  rewrite (bind_run _ _ st tt st); [done|]. apply for_range_empty; [lia|].
  apply Z.div_le_mono; unfold b in *; lia.
Qed.

(** [syscall_sbrk] compares with an unsigned sum, so a negative request larger than
    the heap end wraps around and is granted: the heap end jumps far above its old
    value, without mapping or freeing a page. *)
Theorem sbrk_negative_wraps {S : Type} `{PageAllocator S} (debug : bool) (p : Process) (arg : Z) (st : vmm_state S)
  (Hbrk : 0 <= brk_start p <= brk p) (Hlow : brk p < 2 ^ 47)
  (Hreq : - 2 ^ 63 <= s64 arg <= - brk p - 4096) :
  exists b, syscall_sbrk debug p arg st = Ok ((brk p, with_brk p b), st) /\ brk p + 2 ^ 62 < b.
Proof. eexists. split; [apply sbrk_wrap_run; lia|lia]. Qed.

(** A process with a heap at 5 MiB and nothing else of interest. *)
Definition sample_process : Process :=
  {| pml4 := PMM_HHDM_START + 0x1000; pml4_phys := 0x1000; pid := 100; entry := 0x400000;
     stack_top := PROCESS_VIRT_STACK_TOP; kernel_stack_top := PROCESS_VIRT_KERNEL_STACK_TOP;
     stack_size := PROCESS_DEFAULT_STACK_SIZE; kernel_stack_size := PROCESS_DEFAULT_KERNEL_STACK_SIZE;
     brk_start := 0x500000; brk := 0x500000; exit_code := 0;
     context := {| rax := 0; rbx := 0; rcx := 0; rdx := 0; rsi := 0; rdi := 0; rbp := 0; r8 := 0;
       r9 := 0; r10 := 0; r11 := 0; r12 := 0; r13 := 0; r14 := 0; r15 := 0; rip := 0x400000;
       cs := 0x23; rflags := 0x200; rsp := PROCESS_VIRT_STACK_TOP; ss := 0x1B |};
     state := PROCESS_READY |}.

Lemma sbrk_negative_wraps_witness :
  exists b, syscall_sbrk (H := pmm_page_allocator true) true sample_process (2 ^ 63)
      (VmmState (PmmState [3; 0; 0; 0; 0; 0; 0; 0] 8) (fun _ => 0)) =
    Ok ((0x500000, with_brk sample_process b), VmmState (PmmState [3; 0; 0; 0; 0; 0; 0; 0] 8) (fun _ => 0)) /\
    0x500000 + 2 ^ 62 < b.
Proof.
  apply (sbrk_negative_wraps (H := pmm_page_allocator true) true sample_process (2 ^ 63));
    vm_compute; intuition congruence.
Defined.
