(* ===== verification/Scheduler.v ===== *)
(** * Scheduler and reaper

    [kernel/kernel/scheduler.c], [kernel/kernel/reaper.c] and the exit and yield system
    calls.  Processes live in a heap of records indexed by their address (0 is
    [NULL]), so the lists, the current-process and the idle-process pointers alias the
    same records.  [scheduler_loop] does not return: its result is the processor state
    [process_jump] continues with.  Writes to the LAPIC (end of interrupt, reload of
    the timer) are not part of the state.

    The theorems: one run of the scheduler, every state that any interleaving of
    interrupts, exits, new processes and the steps of the reaper reaches from the start,
    and a bound on how long a process waits. *)
From S2P Require Import Prelude Process.
From Stdlib Require Import ZArith Lia.
From stdpp Require Import base tactics list numbers gmap.

Open Scope Z_scope.

Definition SCHEDULER_MAX_PROCESSES : Z := 32.

Record sched_state := Sched {
  heap : gmap Z Process;
  process_list : list Z;
  process_list_reap : list Z;
  reaper_cursor : Z;
  scheduler_next : Z;
  current_process : Z;
  idle_process : Z;
  interrupt_frame : InterruptFrame;
  cpu_kernel_stack_top : Z;
}.

(** ** State updates *)

Definition set_lists (s : sched_state) (pl rl : list Z) (next : Z) : sched_state :=
  Sched (heap s) pl rl (reaper_cursor s) next (current_process s) (idle_process s)
    (interrupt_frame s) (cpu_kernel_stack_top s).

Definition set_heap (s : sched_state) (h : gmap Z Process) : sched_state :=
  Sched h (process_list s) (process_list_reap s) (reaper_cursor s) (scheduler_next s)
    (current_process s) (idle_process s) (interrupt_frame s) (cpu_kernel_stack_top s).

(** Dereferencing a process pointer. *)
Definition deref (s : sched_state) (p : Z) : outcome Process :=
  match heap s !! p with Some pr => Ok pr | None => Fault end.

Definition update (p : Z) (f : Process -> Process) : M sched_state unit :=
  s ← get;
  pr ← lift (deref s p);
  put (set_heap s (<[p := f pr]> (heap s))).

(** ** Operations *)

(** The search loop of both [*_add_process] functions: the first NULL slot. *)
Fixpoint first_null (l : list Z) (i : nat) : option nat :=
  match l with
  | [] => None
  | p :: l' => if p =? 0 then Some i else first_null l' (S i)
  end.

Definition scheduler_add_process (process : Z) : M sched_state bool :=
  s ← get;
  match first_null (process_list s) 0 with
  | Some i => _ ← put (set_lists s (<[i := process]> (process_list s)) (process_list_reap s) (scheduler_next s));
              mret true
  | None => mret false
  end.

Definition reaper_add_process (process : Z) : M sched_state bool :=
  s ← get;
  match first_null (process_list_reap s) 0 with
  | Some i => _ ← put (set_lists s (process_list s) (<[i := process]> (process_list_reap s)) (scheduler_next s));
              mret true
  | None => mret false
  end.

Definition set_next (next : Z) : M sched_state unit :=
  modify (fun s => set_lists s (process_list s) (process_list_reap s) next).

(** The search loop, [loops] turns at most: the process to continue, or 0. *)
Fixpoint scheduler_scan (loops : nat) : M sched_state Z :=
  match loops with
  | O => mret 0
  | S loops' =>
      s ← get;
      let next := if SCHEDULER_MAX_PROCESSES <=? scheduler_next s then 0 else scheduler_next s in
      _ ← set_next next;
      proc ← lift (rd (process_list s) next);
      if proc =? 0 then _ ← set_next (next + 1); scheduler_scan loops' else
      pr ← lift (deref s proc);
      if bool_decide (state pr = PROCESS_DEAD) then
        added ← reaper_add_process proc;
        _ ← (if added : bool then
               modify (fun s => set_lists s (<[Z.to_nat next := 0]> (process_list s)) (process_list_reap s) next)
             else mret tt);
        _ ← set_next (next + 1);
        scheduler_scan loops'
      else mret proc
  end.

(** From the end of the search on: save the outgoing process, switch to the next. *)
Definition scheduler_switch (frame : InterruptFrame) (process_to_continue : Z) : M sched_state cpu_jump :=
  s ← get;
  _ ← set_next (scheduler_next s + 1);
  let process_to_continue := if process_to_continue =? 0 then idle_process s else process_to_continue in
  _ ← (if current_process s =? 0 then mret tt else
       pr ← lift (deref s (current_process s));
       if bool_decide (state pr = PROCESS_DEAD) then mret tt else
       update (current_process s) (fun p => with_state (process_save_state p frame) PROCESS_READY));
  _ ← update process_to_continue (fun p => with_state p PROCESS_RUNNING);
  s ← get;
  pr ← lift (deref s process_to_continue);
  _ ← put (Sched (heap s) (process_list s) (process_list_reap s) (reaper_cursor s) (scheduler_next s)
             process_to_continue (idle_process s) (interrupt_frame s) (kernel_stack_top pr));
  lift (process_jump pr).

Definition scheduler_loop : M sched_state cpu_jump :=
  s ← get;
  process_to_continue ← scheduler_scan (Z.to_nat SCHEDULER_MAX_PROCESSES);
  scheduler_switch (interrupt_frame s) process_to_continue.

(** An interrupt stores the frame the stub pushed and runs the scheduler; this is the
    timer interrupt and, as [int 0xFF], [scheduler_yield]. *)
Definition scheduler_interrupt (frame : InterruptFrame) : M sched_state cpu_jump :=
  _ ← modify (fun s => Sched (heap s) (process_list s) (process_list_reap s) (reaper_cursor s)
        (scheduler_next s) (current_process s) (idle_process s) frame (cpu_kernel_stack_top s));
  scheduler_loop.

Definition syscall_exit (frame : InterruptFrame) (arg : Z) : M sched_state cpu_jump :=
  s ← get;
  _ ← update (current_process s) (fun p =>
        let p := with_state p PROCESS_DEAD in
        {| pml4 := pml4 p; pml4_phys := pml4_phys p; pid := pid p; entry := entry p;
           stack_top := stack_top p; kernel_stack_top := kernel_stack_top p; stack_size := stack_size p;
           kernel_stack_size := kernel_stack_size p; brk_start := brk_start p; brk := brk p;
           exit_code := s32 arg; context := context p; state := state p |});
  scheduler_interrupt frame.

Definition syscall_yield (frame : InterruptFrame) : M sched_state cpu_jump := scheduler_interrupt frame.

(** One turn of [reaper_run]: the process taken out of the list, if any; destroying it
    and freeing its record follow ([process_destroy], [kfree]). *)
Definition reaper_step : M sched_state (option Z) :=
  s ← get;
  let cursor := if SCHEDULER_MAX_PROCESSES <=? reaper_cursor s then 0 else reaper_cursor s in
  process_to_reap ← lift (rd (process_list_reap s) cursor);
  _ ← put (Sched (heap s) (process_list s) (<[Z.to_nat cursor := 0]> (process_list_reap s)) (cursor + 1)
             (scheduler_next s) (current_process s) (idle_process s) (interrupt_frame s)
             (cpu_kernel_stack_top s));
  mret (if process_to_reap =? 0 then None else Some process_to_reap).

(** [kfree(process)] of the reaper: the record leaves the heap. *)
Definition reap (p : Z) : M sched_state unit := modify (fun s => set_heap s (delete p (heap s))).

(** ** Invariant *)

Definition live_ptrs (l : list Z) : list Z := filter (fun p => p <> 0) l.

Record sched_wf (s : sched_state) : Prop := SchedWf {
  sw_plen : length (process_list s) = 32%nat;
  sw_rlen : length (process_list_reap s) = 32%nat;
  sw_next : 0 <= scheduler_next s <= 33;
  sw_null : heap s !! 0 = None;
  sw_nodup : NoDup (live_ptrs (process_list s) ++ live_ptrs (process_list_reap s));
  sw_heap : forall p, p ∈ live_ptrs (process_list s) ++ live_ptrs (process_list_reap s) ->
    exists pr, heap s !! p = Some pr;
  sw_reap_dead : forall p, p ∈ live_ptrs (process_list_reap s) ->
    exists pr, heap s !! p = Some pr /\ state pr = PROCESS_DEAD;
  sw_idle : idle_process s <> 0 /\
    idle_process s ∉ live_ptrs (process_list s) ++ live_ptrs (process_list_reap s) /\
    exists pr, heap s !! idle_process s = Some pr /\ state pr <> PROCESS_DEAD;
  sw_current : current_process s = 0 \/ exists pr, heap s !! current_process s = Some pr;
  (** only the current process is running *)
  sw_running : forall p pr, heap s !! p = Some pr -> state pr = PROCESS_RUNNING -> p = current_process s;
}.

(** Slot [i] holds a process that may run. *)
Definition eligible (s : sched_state) (i : Z) : option Z :=
  match process_list s !! Z.to_nat i with
  | Some p => if p =? 0 then None else
      match heap s !! p with
      | Some pr => if bool_decide (state pr = PROCESS_DEAD) then None else Some p
      | None => None
      end
  | None => None
  end.

(** Reference: the first eligible slot in cyclic order from [next], within [n] slots. *)
Fixpoint round_robin (s : sched_state) (n : nat) (next : Z) : option (Z * Z) :=
  match n with
  | O => None
  | S n' =>
      let next := if 32 <=? next then 0 else next in
      match eligible s next with
      | Some p => Some (next, p)
      | None => round_robin s n' (next + 1)
      end
  end.

(** ** Lemmas on the lists *)

Lemma live_ptrs_app l k : live_ptrs (l ++ k) = live_ptrs l ++ live_ptrs k.
Proof. apply filter_app. Qed.

Lemma live_insert l i x y :
  l !! i = Some x -> live_ptrs [x] ++ live_ptrs (<[i := y]> l) ≡ₚ live_ptrs [y] ++ live_ptrs l.
Proof.
  intros Hi. pose proof (lookup_lt_Some _ _ _ Hi) as Hlt.
  rewrite <- (take_drop_middle l i x Hi) at 2. rewrite insert_take_drop by done.
  rewrite !live_ptrs_app. change (x :: drop (S i) l) with ([x] ++ drop (S i) l).
  change (y :: drop (S i) l) with ([y] ++ drop (S i) l). rewrite !live_ptrs_app.
  rewrite !(Permutation_app_swap_app (live_ptrs (take i l))). apply Permutation_app_swap_app.
Qed.

Lemma live_ptrs_elem l p : p ∈ live_ptrs l <-> p ∈ l /\ p <> 0.
Proof. unfold live_ptrs. rewrite list_elem_of_filter. naive_solver. Qed.

Lemma live_nonzero p : p <> 0 -> live_ptrs [p] = [p].
Proof. intros. unfold live_ptrs. by rewrite filter_cons_True. Qed.

Lemma first_null_Some l : forall k i, first_null l k = Some i ->
  (k <= i)%nat /\ l !! (i - k)%nat = Some 0 /\ forall j, (k <= j < i)%nat -> exists p, l !! (j - k)%nat = Some p /\ p <> 0.
Proof.
  induction l as [|p l IH]; intros k i H; cbn [first_null] in H; [done|].
  destruct (Z.eqb_spec p 0) as [->|Hp].
  - injection H as <-. rewrite Nat.sub_diag. split; [lia|]. split; [done|]. intros; lia.
  - apply IH in H as (Hk & Hl & Hj). split; [lia|]. replace (i - k)%nat with (S (i - S k)) by lia.
    split; [done|]. intros j Hj'. destruct (decide (j = k)) as [->|].
    + exists p. by rewrite Nat.sub_diag.
    + destruct (Hj j) as (q & Hq & Hq0); [lia|]. exists q. by replace (j - k)%nat with (S (j - S k)) by lia.
Qed.

Lemma first_null_None l : forall k, first_null l k = None -> Forall (fun p => p <> 0) l.
Proof.
  induction l as [|p l IH]; intros k H; cbn [first_null] in H; constructor.
  - by destruct (Z.eqb_spec p 0).
  - destruct (Z.eqb_spec p 0); [done|]. by eapply IH.
Qed.

(** ** The scan *)

(** The parts of the state the scan does not touch. *)
Definition same_cpu (s s' : sched_state) : Prop :=
  heap s' = heap s /\ reaper_cursor s' = reaper_cursor s /\ current_process s' = current_process s /\
  idle_process s' = idle_process s /\ interrupt_frame s' = interrupt_frame s /\
  cpu_kernel_stack_top s' = cpu_kernel_stack_top s.

(** One scan step or more: dead processes may have moved to the reaper's list. *)
Record scanned (s s' : sched_state) : Prop := Scanned {
  sc_cpu : same_cpu s s';
  sc_perm : live_ptrs (process_list s') ++ live_ptrs (process_list_reap s') ≡ₚ
            live_ptrs (process_list s) ++ live_ptrs (process_list_reap s);
  sc_eligible : forall i, 0 <= i -> eligible s' i = eligible s i;
  sc_wf : sched_wf s';
}.

Lemma set_next_wf s n : sched_wf s -> 0 <= n <= 33 ->
  sched_wf (set_lists s (process_list s) (process_list_reap s) n) /\
  scanned s (set_lists s (process_list s) (process_list_reap s) n).
Proof.
  intros Hwf Hn. assert (sched_wf (set_lists s (process_list s) (process_list_reap s) n)) as Hwf'
    by (destruct Hwf; by split).
  split; [done|]. split; try done.
Qed.

Lemma scanned_trans s1 s2 s3 : scanned s1 s2 -> scanned s2 s3 -> scanned s1 s3.
Proof.
  intros [C1 P1 E1 W1] [C2 P2 E2 W2]. split.
  - unfold same_cpu in *. intuition congruence.
  - by rewrite P2.
  - intros i Hi. by rewrite E2, E1.
  - done.
Qed.

(** Moving the dead process of slot [i] to slot [j] of the reaper's list. *)
Lemma move_dead s i j p pr :
  sched_wf s -> process_list s !! i = Some p -> p <> 0 -> heap s !! p = Some pr ->
  state pr = PROCESS_DEAD -> process_list_reap s !! j = Some 0 ->
  scanned s (set_lists s (<[i := 0]> (process_list s)) (<[j := p]> (process_list_reap s)) (scheduler_next s)).
Proof.
  intros Hwf Hi Hp Hheap Hdead Hj. set (s' := set_lists _ _ _ _).
  pose proof (live_insert _ _ _ 0 Hi) as P1. pose proof (live_insert _ _ _ p Hj) as P2.
  rewrite (live_nonzero p) in P1, P2 by done. change (live_ptrs [0]) with (@nil Z) in P1, P2.
  cbn [app] in P1, P2.
  assert (live_ptrs (<[i := 0]> (process_list s)) ++ live_ptrs (<[j := p]> (process_list_reap s)) ≡ₚ
          live_ptrs (process_list s) ++ live_ptrs (process_list_reap s)) as HP.
  { rewrite P2, <- P1. cbn [app].
    by rewrite <- Permutation_middle. }
  assert (sched_wf s') as Hwf'.
  { destruct Hwf. split; cbn [s' set_lists process_list process_list_reap scheduler_next heap
      idle_process current_process]; try done.
    - by rewrite length_insert.
    - by rewrite length_insert.
    - by rewrite HP.
    - intros q Hq. rewrite HP in Hq. auto.
    - intros q Hq. rewrite P2 in Hq. apply elem_of_cons in Hq as [->|Hq]; eauto.
    - destruct sw_idle0 as (? & Hni & ?). split; [done|]. split; [|done]. by rewrite HP. }
  split; try done. intros k Hk. unfold eligible. cbn [s' set_lists process_list heap].
  destruct (decide (Z.to_nat k = i)) as [E|E].
  - rewrite E, Hi, list_lookup_insert_eq by (by eapply lookup_lt_Some).
    cbn [Z.eqb]. rewrite (proj2 (Z.eqb_neq p 0)) by done. by rewrite Hheap, bool_decide_eq_true_2.
  - by rewrite list_lookup_insert_ne by done.
Qed.

Lemma round_robin_ext s s' n : forall k, 0 <= k ->
  (forall i, 0 <= i -> eligible s' i = eligible s i) -> round_robin s' n k = round_robin s n k.
Proof.
  induction n as [|n IH]; intros k Hk Hext; cbn [round_robin]; [done|].
  assert (0 <= if 32 <=? k then 0 else k) as Hk' by (destruct (32 <=? k); lia).
  rewrite Hext by done. destruct (eligible s _); [done|]. apply IH; [lia|done].
Qed.

(** What a scan returns, given the reference. *)
Definition scan_result (rr : option (Z * Z)) (r : Z) (s' : sched_state) : Prop :=
  match rr with
  | Some (i, p) => r = p /\ scheduler_next s' = i
  | None => r = 0
  end.

(** The dead process of slot [next] goes to the reaper, if there is room. *)
Lemma scan_dead_step s next p pr :
  sched_wf s -> scheduler_next s = next -> 0 <= next < 32 ->
  process_list s !! Z.to_nat next = Some p -> p <> 0 -> heap s !! p = Some pr -> state pr = PROCESS_DEAD ->
  exists s', (added ← reaper_add_process p;
     (if added : bool then
        modify (fun s => set_lists s (<[Z.to_nat next := 0]> (process_list s)) (process_list_reap s) next)
      else mret tt)) s = Ok (tt, s') /\ scanned s s'.
Proof.
  intros Hwf Hnext Hr Hl Hp Hheap Hdead. unfold reaper_add_process. munfold.
  destruct (first_null (process_list_reap s) 0) as [j|] eqn:E.
  - apply first_null_Some in E as (_ & Hj & _). rewrite Nat.sub_0_r in Hj.
    eexists. split; [reflexivity|]. pose proof (move_dead s _ _ _ _ Hwf Hl Hp Hheap Hdead Hj) as Hsc.
    by rewrite Hnext in Hsc.
  - eexists. split; [reflexivity|]. by split.
Qed.

(** Continuing a scan behind slot [next], which cannot run. *)
Lemma scan_continue n s s1 next :
  (forall s, sched_wf s -> exists r s', scheduler_scan n s = Ok (r, s') /\ scanned s s' /\
     scan_result (round_robin s n (scheduler_next s)) r s' /\
     (scheduler_next s' <= 32 \/ n = 0%nat /\ scheduler_next s' = scheduler_next s)) ->
  scanned s s1 -> 0 <= next < 32 -> eligible s next = None ->
  exists r s', (_ ← set_next (next + 1); scheduler_scan n) s1 = Ok (r, s') /\ scanned s s' /\
    scan_result (round_robin s n (next + 1)) r s' /\ scheduler_next s' <= 32.
Proof.
  intros IH Hsc Hr Hel. destruct (set_next_wf s1 (next + 1)) as [Hwf2 Hsc2]; [apply Hsc|lia|].
  rewrite (bind_run _ _ s1 tt _ eq_refl).
  destruct (IH _ Hwf2) as (r & s' & Hrun & Hsc3 & Hres & Hn). cbn [set_lists scheduler_next] in Hres, Hn.
  pose proof (scanned_trans _ _ _ Hsc Hsc2) as Hsc12.
  rewrite (round_robin_ext s) in Hres by (lia || apply Hsc12).
  exists r, s'. split; [done|]. split; [by eapply scanned_trans|]. split; [done|lia].
Qed.

Lemma scheduler_scan_spec n : forall s, sched_wf s ->
  exists r s', scheduler_scan n s = Ok (r, s') /\ scanned s s' /\
    scan_result (round_robin s n (scheduler_next s)) r s' /\
    (scheduler_next s' <= 32 \/ n = 0%nat /\ scheduler_next s' = scheduler_next s).
Proof.
  induction n as [|n IH]; intros s Hwf.
  { exists 0, s. split; [done|]. split; [by split|]. split; [done|by right]. }
  cbn [scheduler_scan round_robin]. rewrite (bind_run _ _ s s s eq_refl).
  pose proof (sw_next s Hwf) as Hnext. change SCHEDULER_MAX_PROCESSES with 32.
  set (next := if 32 <=? scheduler_next s then 0 else scheduler_next s).
  assert (0 <= next < 32) as Hr by (unfold next; destruct (Z.leb_spec 32 (scheduler_next s)); lia).
  destruct (set_next_wf s next Hwf ltac:(lia)) as [Hwf1 Hsc1].
  rewrite (bind_run _ _ s tt _ eq_refl). set (s1 := set_lists _ _ _ next) in *.
  destruct (rd_in_range (process_list s) next) as [p Hp]; [rewrite (sw_plen s Hwf); lia|].
  rewrite (bind_run (lift _) _ s1 p s1) by (unfold lift; by rewrite Hp).
  apply rd_Ok in Hp as [_ Hp].
  assert (eligible s next = if p =? 0 then None else match heap s !! p with
    | Some pr => if bool_decide (state pr = PROCESS_DEAD) then None else Some p | None => None end) as Hel.
  { unfold eligible. by rewrite Hp. }
  destruct (Z.eqb_spec p 0) as [->|Hp0].
  { rewrite Hel. destruct (scan_continue n s s1 next IH Hsc1 Hr Hel) as (r & s' & H1 & H2 & H3 & H4). eauto 10. }
  destruct (sw_heap s Hwf p) as [pr Hpr].
  { apply elem_of_app. left. apply live_ptrs_elem. split; [|done]. by eapply list_elem_of_lookup_2. }
  rewrite (bind_run (lift _) _ s1 pr s1) by (unfold lift, deref; by rewrite Hpr).
  rewrite Hpr in Hel. destruct (bool_decide (state pr = PROCESS_DEAD)) eqn:Ed; rewrite Hel.
  - apply bool_decide_eq_true in Ed.
    destruct (scan_dead_step s1 next p pr Hwf1 eq_refl Hr Hp Hp0 Hpr Ed) as (s2 & Hrun & Hsc2).
    destruct (scan_continue n s s2 next IH (scanned_trans _ _ _ Hsc1 Hsc2) Hr Hel) as (r & s' & H1 & H2 & H3 & H4).
    exists r, s'. split; [|eauto].
    apply bind_Ok in Hrun as (added & s2' & Hadd & Hmod). rewrite (bind_run _ _ _ _ _ Hadd).
    by rewrite (bind_run _ _ _ _ _ Hmod).
  - exists p, s1. split; [done|]. split; [done|]. split; [done|]. left. cbn. lia.
Qed.

(** The search loops are not unfolded during conversion. *)
#[global] Strategy opaque [scheduler_scan round_robin].

(** ** The context switch *)

(** The heap after the outgoing process was saved. *)
Definition saved_heap (s : sched_state) : gmap Z Process :=
  match heap s !! current_process s with
  | Some pr =>
      if (current_process s =? 0) || bool_decide (state pr = PROCESS_DEAD) then heap s
      else <[current_process s := with_state (process_save_state pr (interrupt_frame s)) PROCESS_READY]> (heap s)
  | None => heap s
  end.

(** The process the scheduler continues with. *)
Definition chosen (s : sched_state) : Z :=
  match round_robin s (Z.to_nat SCHEDULER_MAX_PROCESSES) (scheduler_next s) with Some (_, p) => p | None => idle_process s end.

(** Saving keeps every record, changes no dead one, and leaves none running. *)
Lemma saved_heap_lookup s p pr :
  sched_wf s -> heap s !! p = Some pr ->
  exists pr', saved_heap s !! p = Some pr' /\ state pr' <> PROCESS_RUNNING /\
    (state pr' = PROCESS_DEAD <-> state pr = PROCESS_DEAD) /\
    kernel_stack_top pr' = kernel_stack_top pr /\ (state pr = PROCESS_DEAD -> pr' = pr).
Proof.
  intros Hwf Hp. unfold saved_heap.
  destruct (heap s !! current_process s) as [pc|] eqn:Ec.
  - rewrite (proj2 (Z.eqb_neq (current_process s) 0))
      by (intros E; rewrite E, (sw_null s Hwf) in Ec; done). cbn [orb].
    case_bool_decide as Ed.
    + exists pr. split; [done|]. split; [|done]. intros Er.
      pose proof (sw_running s Hwf p pr Hp Er) as ->. rewrite Ec in Hp. injection Hp as ->. congruence.
    + destruct (decide (p = current_process s)) as [->|Hne].
      * rewrite lookup_insert_eq. eexists. split; [done|]. rewrite Hp in Ec. injection Ec as <-. done.
      * rewrite lookup_insert_ne by done. exists pr. split; [done|]. split; [|done].
        intros Er. by destruct Hne; apply (sw_running s Hwf p pr).
  - exists pr. split; [done|]. split; [|done]. intros Er.
    pose proof (sw_running s Hwf p pr Hp Er) as ->. congruence.
Qed.

Lemma saved_heap_dom s p : heap s !! p = None -> saved_heap s !! p = None.
Proof.
  intros Hp. unfold saved_heap. destruct (heap s !! current_process s) eqn:E; [|done].
  destruct (_ || _); [done|]. rewrite lookup_insert_ne by congruence. done.
Qed.

(** The chosen process exists and is not dead. *)
Lemma round_robin_range s n : forall k i p, 0 <= k -> round_robin s n k = Some (i, p) -> 0 <= i < 32.
Proof.
  induction n as [|n IH]; intros k i p Hk Hrr; cbn [round_robin] in Hrr; [done|].
  destruct (eligible s (if 32 <=? k then 0 else k)) as [q|] eqn:E.
  - injection Hrr as <- <-. destruct (Z.leb_spec 32 k); lia.
  - eapply IH; [|done]. destruct (Z.leb_spec 32 k); lia.
Qed.

Lemma round_robin_found s n : forall k i p, round_robin s n k = Some (i, p) -> eligible s i = Some p.
Proof.
  induction n as [|n IH]; intros k i p Hrr; cbn [round_robin] in Hrr; [done|].
  destruct (eligible s (if 32 <=? k then 0 else k)) as [q|] eqn:E; [by injection Hrr as <- <-|by eapply IH].
Qed.

Lemma eligible_Some s i p : eligible s i = Some p ->
  process_list s !! Z.to_nat i = Some p /\ p <> 0 /\ exists pr, heap s !! p = Some pr /\ state pr <> PROCESS_DEAD.
Proof.
  unfold eligible. destruct (process_list s !! Z.to_nat i) as [q|]; [|done].
  destruct (Z.eqb_spec q 0); [done|]. destruct (heap s !! q) as [pr|] eqn:E; [|done].
  case_bool_decide; [done|]. intros [= ->]. eauto.
Qed.

Lemma chosen_alive s : sched_wf s ->
  chosen s <> 0 /\ (exists pr, heap s !! chosen s = Some pr /\ state pr <> PROCESS_DEAD) /\
  chosen s ∉ live_ptrs (process_list_reap s).
Proof.
  intros Hwf. unfold chosen. destruct (round_robin s (Z.to_nat SCHEDULER_MAX_PROCESSES) (scheduler_next s)) as [[i p]|] eqn:E.
  - apply round_robin_found, eligible_Some in E as (Hl & Hp & pr & Hpr & Hst).
    split; [done|]. split; [eauto|]. intros Hin.
    destruct (sw_reap_dead s Hwf p Hin) as (pr' & Hpr' & Hd). congruence.
  - destruct (sw_idle s Hwf) as (H0 & Hni & Hpr). split; [done|]. split; [done|].
    intros Hin. apply Hni, elem_of_app. by right.
Qed.

(** The state after a context switch to [chosen s]: [s1] is [s] after the scan. *)
Definition switched (s s1 : sched_state) (pr : Process) : sched_state :=
  Sched (<[chosen s := with_state pr PROCESS_RUNNING]> (saved_heap s)) (process_list s1) (process_list_reap s1)
    (reaper_cursor s) (scheduler_next s1 + 1) (chosen s) (idle_process s) (interrupt_frame s) (kernel_stack_top pr).

Lemma switched_wf s s1 pr :
  sched_wf s -> scanned s s1 -> scheduler_next s1 <= 32 -> saved_heap s !! chosen s = Some pr ->
  sched_wf (switched s s1 pr).
Proof.
  intros Hwf [Hcpu Hperm _ Hwf1] Hnext Hpr. destruct (chosen_alive s Hwf) as (Hc0 & (prc & Hprc & Hst) & Hcr).
  destruct Hcpu as (Hh & _ & Hc & Hi & _).
  assert (forall p pr0, heap s !! p = Some pr0 ->
    exists pr', <[chosen s := with_state pr PROCESS_RUNNING]> (saved_heap s) !! p = Some pr' /\
      (state pr' = PROCESS_RUNNING -> p = chosen s) /\ (state pr' = PROCESS_DEAD <-> state pr0 = PROCESS_DEAD)) as Hlk.
  { intros p pr0 Hp. destruct (saved_heap_lookup s p pr0 Hwf Hp) as (pr' & Hp' & Hnr & Hd & _).
    destruct (decide (p = chosen s)) as [->|Hne].
    - rewrite lookup_insert_eq. eexists. split; [done|]. split; [done|]. cbn. split; [done|]. congruence.
    - rewrite lookup_insert_ne by done. exists pr'. done. }
  split; cbn [switched heap process_list process_list_reap scheduler_next current_process idle_process].
  - apply Hwf1.
  - apply Hwf1.
  - pose proof (sw_next s1 Hwf1). lia.
  - rewrite lookup_insert_ne by done. apply saved_heap_dom, Hwf.
  - apply Hwf1.
  - intros p Hp. destruct (sw_heap s1 Hwf1 p Hp) as [pr0 Hp0]. rewrite Hh in Hp0.
    destruct (Hlk p pr0 Hp0) as (pr' & ? & _). eauto.
  - intros p Hp. destruct (sw_reap_dead s1 Hwf1 p Hp) as (pr0 & Hp0 & Hd). rewrite Hh in Hp0.
    destruct (Hlk p pr0 Hp0) as (pr' & Hp' & _ & Hd'). exists pr'. split; [done|]. by apply Hd'.
  - destruct (sw_idle s1 Hwf1) as (H0 & Hni & pri & Hpri & Hsti). rewrite Hh, Hi in *.
    split; [done|]. split; [done|]. destruct (Hlk _ _ Hpri) as (pr' & Hp' & _ & Hd').
    exists pr'. split; [done|]. by rewrite Hd'.
  - right. rewrite lookup_insert_eq. eauto.
  - intros p pr' Hp Hr. destruct (decide (p = chosen s)) as [->|Hne]; [done|].
    rewrite lookup_insert_ne in Hp by done.
    destruct (heap s !! p) as [pr0|] eqn:E; [|by rewrite saved_heap_dom in Hp].
    destruct (saved_heap_lookup s p pr0 Hwf E) as (pr'' & Hp'' & Hnr & _). congruence.
Qed.

(** Saving the outgoing process, as the code does it after the scan. *)
Lemma save_run s s1 n :
  sched_wf s -> same_cpu s s1 ->
  let s2 := set_lists s1 (process_list s1) (process_list_reap s1) n in
  (if current_process s1 =? 0 then mret tt else
     pr ← lift (deref s1 (current_process s1));
     if bool_decide (state pr = PROCESS_DEAD) then mret tt else
     update (current_process s1)
       (fun p => with_state (process_save_state p (interrupt_frame s)) PROCESS_READY)) s2
  = Ok (tt, set_heap s2 (saved_heap s)).
Proof.
  intros Hwf (Hh & _ & Hc & _ & Hf & _) s2. assert (set_heap s2 (heap s) = s2) as Hid.
  { unfold set_heap. rewrite <- Hh. by destruct s1. }
  unfold saved_heap. rewrite Hc. destruct (sw_current s Hwf) as [H0|[pr Hpr]].
  - rewrite H0, (sw_null s Hwf), Hid. done.
  - rewrite (proj2 (Z.eqb_neq (current_process s) 0))
      by (intros E; rewrite E, (sw_null s Hwf) in Hpr; done).
    rewrite Hpr. cbn [orb]. unfold deref. rewrite Hh, Hpr. munfold.
    destruct (bool_decide (state pr = PROCESS_DEAD)); [by rewrite Hid|].
    unfold update, deref. munfold. cbn [s2 set_lists heap]. by rewrite Hh, Hpr.
Qed.

Lemma scheduler_switch_run s s1 r pr jump :
  sched_wf s -> same_cpu s s1 -> (if r =? 0 then idle_process s else r) = chosen s ->
  saved_heap s !! chosen s = Some pr -> process_jump (with_state pr PROCESS_RUNNING) = Ok jump ->
  scheduler_switch (interrupt_frame s) r s1 = Ok (jump, switched s s1 pr).
Proof.
  intros Hwf Hcpu Hr Hpr Hj. unfold scheduler_switch.
  rewrite (bind_run _ _ s1 s1 s1 eq_refl), (bind_run (set_next _) _ s1 tt _ eq_refl).
  rewrite (bind_run _ _ _ _ _ (save_run s s1 (scheduler_next s1 + 1) Hwf Hcpu)).
  destruct Hcpu as (Hh & Hcur & Hc & Hi & Hf & Hk). rewrite Hi, Hr.
  unfold update, deref. munfold. cbn [set_heap heap set_lists]. rewrite Hpr.
  cbn [set_heap heap set_lists]. rewrite lookup_insert_eq. rewrite Hj. unfold switched.
  cbn [set_heap set_lists process_list process_list_reap reaper_cursor scheduler_next idle_process interrupt_frame].
  by rewrite Hcur, Hi, Hf.
Qed.

(** The loop for any number [n] of turns; [scheduler_loop] is the one with 32. *)
Lemma scan_switch_run n s : sched_wf s -> (0 < n)%nat ->
  match round_robin s n (scheduler_next s) with Some (_, p) => p | None => idle_process s end = chosen s ->
  exists s1 pr jump, scanned s s1 /\ saved_heap s !! chosen s = Some pr /\
    scheduler_next s1 <= 32 /\
    (forall i p, round_robin s n (scheduler_next s) = Some (i, p) -> scheduler_next s1 = i) /\
    process_jump (with_state pr PROCESS_RUNNING) = Ok jump /\
    (s0 ← get; r ← scheduler_scan n; scheduler_switch (interrupt_frame s0) r) s = Ok (jump, switched s s1 pr).
Proof.
  intros Hwf Hn0 Hch. destruct (chosen_alive s Hwf) as (Hc0 & (prc & Hprc & _) & _).
  destruct (saved_heap_lookup s _ _ Hwf Hprc) as (pr & Hpr & _).
  destruct (process_jump (with_state pr PROCESS_RUNNING)) as [jump| | |] eqn:Hj; try done.
  destruct (scheduler_scan_spec n s Hwf) as (r & s1 & Hrun & Hsc & Hres & Hn).
  exists s1, pr, jump. split; [done|]. split; [done|]. split; [destruct Hn as [?|[? _]]; [done|lia]|].
  split; [intros i p E; rewrite E in Hres; apply Hres|]. split; [done|].
  rewrite (bind_run _ _ s s s eq_refl), (bind_run _ _ _ _ _ Hrun).
  apply scheduler_switch_run; [done|apply Hsc| |done|done].
  rewrite <- Hch. unfold scan_result in *. destruct (round_robin s _ _) as [[i p]|] eqn:E; [|by rewrite Hres].
  destruct Hres as [-> _]. apply round_robin_found, eligible_Some in E as (_ & Hp & _).
  by rewrite (proj2 (Z.eqb_neq p 0)).
Qed.

Lemma scheduler_loop_run s : sched_wf s ->
  exists s1 pr jump, scanned s s1 /\ saved_heap s !! chosen s = Some pr /\
    scheduler_next s1 <= 32 /\
    (forall i p, round_robin s (Z.to_nat SCHEDULER_MAX_PROCESSES) (scheduler_next s) = Some (i, p) -> scheduler_next s1 = i) /\
    process_jump (with_state pr PROCESS_RUNNING) = Ok jump /\
    scheduler_loop s = Ok (jump, switched s s1 pr).
Proof.
  intros Hwf. unfold scheduler_loop.
  assert (0 < Z.to_nat SCHEDULER_MAX_PROCESSES)%nat as Hn by (unfold SCHEDULER_MAX_PROCESSES; lia).
  exact (scan_switch_run _ s Hwf Hn eq_refl).
Qed.

(** ** The system as a step relation

    The state of the scheduler and the local variable [process_to_reap] of the reaper,
    0 outside of a reap: [reaper_run] takes a process out of its list with interrupts
    disabled, but destroys and frees it with interrupts enabled, so that anything can
    happen in between. *)
Record sched_system := Running {
  sched_of :> sched_state;
  process_to_reap : Z;
}.

(** The label says whether the scheduler ran.  A new process comes with a fresh
    record; the idle process does not exit. *)
Inductive sched_step : bool -> sched_system -> sched_system -> Prop :=
| step_timer frame jump s s' t :
    scheduler_interrupt frame s = Ok (jump, s') -> sched_step true (Running s t) (Running s' t)
| step_exit frame arg jump s s' t :
    current_process s <> idle_process s ->
    syscall_exit frame arg s = Ok (jump, s') -> sched_step true (Running s t) (Running s' t)
| step_spawn p pr s s' t :
    p <> 0 -> heap s !! p = None -> state pr = PROCESS_READY ->
    scheduler_add_process p (set_heap s (<[p := pr]> (heap s))) = Ok (true, s') ->
    sched_step false (Running s t) (Running s' t)
| step_reap_take r s s' :
    reaper_step s = Ok (r, s') -> sched_step false (Running s 0) (Running s' (default 0 r))
| step_reap_free p s s' :
    p <> 0 -> reap p s = Ok (tt, s') -> sched_step false (Running s p) (Running s' 0).

(** The process the reaper holds is dead and in no list any more. *)
Definition taken_ok (s : sched_state) (t : Z) : Prop :=
  t = 0 \/ t ∉ live_ptrs (process_list s) ++ live_ptrs (process_list_reap s) /\
    exists pr, heap s !! t = Some pr /\ state pr = PROCESS_DEAD.

(** Between steps the current process (once there is one) is the running one. *)
Definition sched_inv (s : sched_system) : Prop :=
  sched_wf s /\ 0 <= reaper_cursor s <= 32 /\
  (current_process s = 0 \/ exists pr, heap s !! current_process s = Some pr /\ state pr = PROCESS_RUNNING) /\
  taken_ok s (process_to_reap s).

(** *** Each step keeps the invariant *)

(** A dead process in no list stays so over a run of the scheduler. *)
Lemma switched_taken s s1 pr t : sched_wf s -> scanned s s1 -> taken_ok s t -> taken_ok (switched s s1 pr) t.
Proof.
  intros Hwf Hsc [->|[Hnin (prt & Hprt & Hd)]]; [by left|]. right. cbn [switched process_list process_list_reap heap].
  rewrite (sc_perm _ _ Hsc). split; [done|]. destruct (chosen_alive s Hwf) as (_ & (prc & Hprc & Hst) & _).
  rewrite lookup_insert_ne by congruence.
  destruct (saved_heap_lookup s t prt Hwf Hprt) as (pr' & Hpr' & _ & Hdd & _). exists pr'. split; [done|]. by apply Hdd.
Qed.

Lemma loop_inv s jump s' t :
  sched_wf s -> 0 <= reaper_cursor s <= 32 -> taken_ok s t -> scheduler_loop s = Ok (jump, s') -> sched_inv (Running s' t).
Proof.
  intros Hwf Hcur Ht Hrun. destruct (scheduler_loop_run s Hwf) as (s1 & pr & j & Hsc & Hpr & Hnext & _ & _ & Hrun').
  rewrite Hrun in Hrun'. injection Hrun' as -> ->. split; [by apply switched_wf|]. split; [done|].
  split; [|by apply switched_taken].
  right. cbn [switched heap current_process sched_of]. rewrite lookup_insert_eq. eauto.
Qed.

Lemma set_frame_wf s f : sched_wf s ->
  sched_wf (Sched (heap s) (process_list s) (process_list_reap s) (reaper_cursor s)
    (scheduler_next s) (current_process s) (idle_process s) f (cpu_kernel_stack_top s)).
Proof. intros []. by split. Qed.

(** The current process marked dead. *)
Lemma kill_current_wf s pr pr' :
  sched_wf s -> heap s !! current_process s = Some pr -> current_process s <> idle_process s ->
  state pr' = PROCESS_DEAD -> sched_wf (set_heap s (<[current_process s := pr']> (heap s))).
Proof.
  intros Hwf Hpr Hni Hd. destruct Hwf.
  split; cbn [set_heap heap process_list process_list_reap scheduler_next idle_process current_process]; try done.
  - rewrite lookup_insert_ne by (intros E; rewrite E in Hpr; congruence). done.
  - intros p Hp. destruct (decide (p = current_process s)) as [->|Hne];
      [rewrite lookup_insert_eq|rewrite lookup_insert_ne by done]; eauto.
  - intros p Hp. destruct (decide (p = current_process s)) as [->|Hne];
      [rewrite lookup_insert_eq|rewrite lookup_insert_ne by done]; eauto.
  - by rewrite lookup_insert_ne.
  - right. rewrite lookup_insert_eq. eauto.
  - intros p q. destruct (decide (p = current_process s)) as [->|Hne]; [done|].
    rewrite lookup_insert_ne by done. eauto.
Qed.

Lemma spawn_wf s p pr i :
  sched_wf s -> p <> 0 -> heap s !! p = None -> state pr = PROCESS_READY ->
  process_list s !! i = Some 0 ->
  sched_wf (set_lists (set_heap s (<[p := pr]> (heap s))) (<[i := p]> (process_list s))
    (process_list_reap s) (scheduler_next s)).
Proof.
  intros Hwf Hp Hfresh Hst Hi. pose proof (live_insert _ _ _ p Hi) as HP.
  rewrite (live_nonzero p) in HP by done. change (live_ptrs [0]) with (@nil Z) in HP. cbn [app] in HP.
  assert (forall q, q ∈ live_ptrs (process_list s) ++ live_ptrs (process_list_reap s) -> q <> p) as Hne.
  { intros q Hq ->. destruct (sw_heap s Hwf p Hq). congruence. }
  destruct Hwf. split; cbn [set_lists set_heap heap process_list process_list_reap scheduler_next
    idle_process current_process]; try done.
  - by rewrite length_insert.
  - by rewrite lookup_insert_ne.
  - rewrite HP. cbn [app]. apply NoDup_cons_2; [|done]. intros Hin. by apply (Hne p).
  - intros q. rewrite HP. cbn [app]. intros [->|Hq]%elem_of_cons; [rewrite lookup_insert_eq; eauto|].
    rewrite lookup_insert_ne by (symmetry; by apply Hne). auto.
  - intros q Hq. rewrite lookup_insert_ne by (symmetry; apply Hne, elem_of_app; by right). auto.
  - destruct sw_idle0 as (H0 & Hni & pi & Hpi & Hsi). split; [done|].
    assert (idle_process s <> p) by congruence. split.
    + rewrite HP. cbn [app]. intros [?|?]%elem_of_cons; done.
    + rewrite lookup_insert_ne by done. eauto.
  - destruct sw_current0 as [?|[pc Hpc]]; [by left|]. right. rewrite lookup_insert_ne by congruence. eauto.
  - intros q pq Hq Hr. destruct (decide (q = p)) as [->|]; [rewrite lookup_insert_eq in Hq; congruence|].
    rewrite lookup_insert_ne in Hq by done. eauto.
Qed.

(** Taking the process of slot [i] out of the reaper's list. *)
Lemma take_inv s i p c :
  sched_inv (Running s 0) -> process_list_reap s !! i = Some p -> 0 <= c <= 32 ->
  sched_inv (Running (Sched (heap s) (process_list s) (<[i := 0]> (process_list_reap s)) c (scheduler_next s)
    (current_process s) (idle_process s) (interrupt_frame s) (cpu_kernel_stack_top s)) p).
Proof.
  intros (Hwf & _ & Hcur & _) Hi Hc. pose proof (live_insert _ _ _ 0 Hi) as HP.
  change (live_ptrs [0]) with (@nil Z) in HP. cbn [app sched_of] in *.
  assert (forall q, q ∈ live_ptrs (<[i := 0]> (process_list_reap s)) -> q ∈ live_ptrs (process_list_reap s)) as Hsub
    by (intros q Hq; rewrite <- HP; apply elem_of_app; by right).
  assert (forall q, q ∈ live_ptrs (process_list s) ++ live_ptrs (<[i := 0]> (process_list_reap s)) ->
    q ∈ live_ptrs (process_list s) ++ live_ptrs (process_list_reap s)) as Hsub2
    by (intros q [?|?%Hsub]%elem_of_app; apply elem_of_app; auto).
  pose proof (sw_nodup s Hwf) as Hnd. rewrite <- HP, Permutation_app_swap_app in Hnd.
  split; [|split; [exact Hc|split; [exact Hcur|]]].
  - apply NoDup_app in Hnd as (_ & _ & Hnd). destruct Hwf.
    split; cbn [heap process_list process_list_reap scheduler_next idle_process current_process sched_of]; try done.
    + by rewrite length_insert.
    + intros q Hq. auto.
    + intros q Hq. auto.
    + destruct sw_idle0 as (H0 & Hni & Hpi). split; [done|]. split; [|done]. intros Hq. by apply Hni, Hsub2.
  - destruct (decide (p = 0)) as [->|Hp]; [by left|]. right. cbn [process_list process_list_reap heap sched_of process_to_reap].
    rewrite (live_nonzero p) in Hnd, HP by done. cbn [app] in Hnd. apply NoDup_cons in Hnd as [Hnin _]. split; [done|].
    apply (sw_reap_dead s Hwf). rewrite <- HP. apply elem_of_app. left. by apply list_elem_of_singleton.
Qed.

(** Freeing the record of the process that was taken. *)
Lemma free_inv s p : p <> 0 -> sched_inv (Running s p) -> sched_inv (Running (set_heap s (delete p (heap s))) 0).
Proof.
  intros Hp (Hwf & Hc & Hcur & [?|[Hnin (pr & Hpr & Hd)]]); [done|]. cbn [sched_of process_to_reap] in *.
  assert (current_process s <> p) as Hcp.
  { intros E. rewrite E in Hcur. destruct Hcur as [?|(pr' & Hpr' & Hr)]; [done|]. congruence. }
  assert (forall q, q ∈ live_ptrs (process_list s) ++ live_ptrs (process_list_reap s) -> q <> p) as Hne by (by intros q Hq ->).
  split; [|split; [exact Hc|split; [|by left]]]; cbn [set_heap sched_of heap current_process].
  - destruct Hwf. split; cbn [set_heap heap process_list process_list_reap scheduler_next idle_process current_process]; try done.
    + by rewrite lookup_delete_ne.
    + intros q Hq. rewrite lookup_delete_ne by (symmetry; by apply Hne). auto.
    + intros q Hq. rewrite lookup_delete_ne by (symmetry; apply Hne, elem_of_app; by right). auto.
    + destruct sw_idle0 as (H0 & Hni & pi & Hpi & Hsi). split; [done|]. split; [done|].
      rewrite lookup_delete_ne by congruence. eauto.
    + destruct sw_current0; [by left|]. right. by rewrite lookup_delete_ne.
    + intros q pq [_ Hq]%lookup_delete_Some. eauto.
  - by rewrite lookup_delete_ne.
Qed.

Lemma add_process_run s p s' :
  scheduler_add_process p s = Ok (true, s') ->
  exists i, process_list s !! i = Some 0 /\
    s' = set_lists s (<[i := p]> (process_list s)) (process_list_reap s) (scheduler_next s).
Proof.
  unfold scheduler_add_process. munfold. destruct (first_null (process_list s) 0) as [i|] eqn:E; [|done].
  apply first_null_Some in E as (_ & Hi & _). rewrite Nat.sub_0_r in Hi. intros [= <-]. eauto.
Qed.

Lemma reaper_step_run s r s1 :
  reaper_step s = Ok (r, s1) ->
  exists i p, process_list_reap s !! i = Some p /\ (i < 32)%nat /\ default 0 r = p /\
    s1 = Sched (heap s) (process_list s) (<[i := 0]> (process_list_reap s)) (Z.of_nat i + 1)
      (scheduler_next s) (current_process s) (idle_process s) (interrupt_frame s) (cpu_kernel_stack_top s).
Proof.
  unfold reaper_step. munfold.
  set (c := if SCHEDULER_MAX_PROCESSES <=? reaper_cursor s then 0 else reaper_cursor s).
  destruct (rd (process_list_reap s) c) as [p| | |] eqn:E; try done. apply rd_Ok in E as [Hc Hp].
  intros [= <- <-]. exists (Z.to_nat c), p. split; [done|].
  split; [unfold c, SCHEDULER_MAX_PROCESSES in *; destruct (Z.leb_spec 32 (reaper_cursor s)); lia|].
  split; [by destruct (Z.eqb_spec p 0)|]. by rewrite Z2Nat.id by done.
Qed.

(** The state a scheduling step starts its search from: the same slots and cursor, a
    process [p] that is not the current one as alive as before. *)
Lemma step_scheduling (s s' : sched_system) :
  sched_inv s -> sched_step true s s' ->
  exists s0 jump, sched_wf s0 /\ scheduler_loop s0 = Ok (jump, sched_of s') /\ process_to_reap s' = process_to_reap s /\
    process_list s0 = process_list s /\ process_list_reap s0 = process_list_reap s /\
    scheduler_next s0 = scheduler_next s /\ reaper_cursor s0 = reaper_cursor s /\
    forall p, p <> current_process s -> heap s0 !! p = heap s !! p.
Proof.
  intros (Hwf & _) Hstep. inversion Hstep as [frame jump s2 s2' t Hrun|frame arg jump s2 s2' t Hni Hrun| | |]; subst; cbn [sched_of process_to_reap] in *.
  - unfold scheduler_interrupt in Hrun. rewrite (bind_run _ _ s2 tt _ eq_refl) in Hrun.
    eexists _, jump. split; [|split; [exact Hrun|done]]. by apply set_frame_wf.
  - unfold syscall_exit in Hrun. rewrite (bind_run _ _ s2 s2 s2 eq_refl) in Hrun.
    apply bind_Ok in Hrun as ([] & s1 & Hup & Hrun). unfold update, deref in Hup. revert Hup. munfold.
    destruct (heap s2 !! current_process s2) as [pr|] eqn:Ec; [|done]. intros [= <-].
    unfold scheduler_interrupt in Hrun. rewrite (bind_run _ _ _ tt _ eq_refl) in Hrun.
    eexists _, jump. split; [|split; [exact Hrun|do 5 (split; [done|])]].
    + apply set_frame_wf. by eapply kill_current_wf.
    + intros p Hp. cbn [heap set_heap]. by rewrite lookup_insert_ne.
Qed.

Lemma step_inv b s s' : sched_inv s -> sched_step b s s' -> sched_inv s'.
Proof.
  intros Hinv Hstep. destruct b.
  { destruct (step_scheduling s s' Hinv Hstep) as (s0 & jump & Hwf0 & Hrun & Ht & Hpl & Hrl & _ & Hc & Hheap).
    destruct Hinv as (Hwf & Hcur & Hrunning & Htaken). destruct s' as [s' t']. cbn [process_to_reap sched_of] in *. subst t'.
    eapply loop_inv; [exact Hwf0|by rewrite Hc| |exact Hrun].
    destruct Htaken as [E|[Hnin (pr & Hpr & Hd)]]; [by left|]. right. rewrite Hpl, Hrl. split; [done|].
    exists pr. split; [|done]. rewrite Hheap; [done|]. intros E. rewrite E in Hpr. pose proof (sw_null s Hwf) as H0.
    destruct Hrunning as [E0|(pr' & Hpr' & Hr)]; [rewrite E0 in Hpr|]; congruence. }
  inversion Hstep as [| |p pr s2 s2' t Hp Hfresh Hst Hrun|r s2 s2' Hrun|p s2 s2' Hp Hreap]; subst.
  - apply add_process_run in Hrun as (i & Hi & ->). destruct Hinv as (Hwf & Hc & Hcur & Htaken). cbn [sched_of process_to_reap] in *.
    split; [by apply (spawn_wf s2 p pr i)|]. split; [exact Hc|]. cbn [set_lists set_heap heap current_process sched_of process_to_reap]. split.
    + destruct Hcur as [?|(pc & Hpc & Hr)]; [by left|]. right. exists pc. rewrite lookup_insert_ne by congruence. done.
    + pose proof (live_insert _ _ _ p Hi) as HP. change (live_ptrs [0]) with (@nil Z) in HP. rewrite (live_nonzero p) in HP by done.
      destruct Htaken as [?|[Hnin (prt & Hprt & Hd)]]; [by left|]. right. cbn [set_lists set_heap process_list process_list_reap heap app] in *.
      assert (t <> p) as Hne by congruence. split; [|exists prt; by rewrite lookup_insert_ne]. rewrite HP. cbn [app]. by intros [?|?]%elem_of_cons.
  - apply reaper_step_run in Hrun as (i & p & Hi & Hlt & -> & ->). apply take_inv; [done|done|lia].
  - injection Hreap as <-. by apply free_inv.
Qed.

(** Every operation runs without a fault in a state that satisfies the invariant. *)
Lemma interrupt_runs s frame : sched_wf s -> exists jump s', scheduler_interrupt frame s = Ok (jump, s').
Proof.
  intros Hwf. destruct (scheduler_loop_run _ (set_frame_wf s frame Hwf)) as (s1 & pr & jump & _ & _ & _ & _ & _ & Hrun).
  unfold scheduler_interrupt. rewrite (bind_run _ _ s tt _ eq_refl). eauto.
Qed.

Lemma exit_runs (s : sched_system) frame arg : sched_inv s -> current_process s <> 0 -> current_process s <> idle_process s ->
  exists jump s', syscall_exit frame arg s = Ok (jump, s').
Proof.
  intros (Hwf & _ & [?|(pr & Hpr & _)] & _) H0 Hni; [done|]. unfold syscall_exit. rewrite (bind_run _ _ _ _ _ eq_refl).
  erewrite (bind_run (update _ _)); [|unfold update, deref; munfold; rewrite Hpr; reflexivity].
  apply interrupt_runs. by eapply kill_current_wf.
Qed.

Lemma reaper_runs (s : sched_system) : sched_inv s -> exists r s', reaper_step s = Ok (r, s').
Proof.
  intros (Hwf & Hc & _). unfold reaper_step. munfold.
  set (c := if SCHEDULER_MAX_PROCESSES <=? reaper_cursor s then 0 else reaper_cursor s).
  assert (0 <= c < 32) as Hr by (unfold c, SCHEDULER_MAX_PROCESSES; destruct (Z.leb_spec 32 (reaper_cursor s)); lia).
  destruct (rd_in_range (process_list_reap s) c) as [p Hp]; [rewrite (sw_rlen s Hwf); lia|]. rewrite Hp. eauto.
Qed.

(** ** Properties *)

(** C4: the scheduler keeps its invariant and performs a correct switch: it continues
    the first runnable process in round-robin order (the idle process if there is
    none), never a dead one; that process is then the current and only running one,
    the outgoing process is saved and ready, and no process is lost from the two lists. *)
Theorem scheduler_loop_correct (s : sched_state) (Hwf : sched_wf s) :
  exists jump s' pr, scheduler_loop s = Ok (jump, s') /\ sched_wf s' /\
    current_process s' = chosen s /\
    saved_heap s !! chosen s = Some pr /\ state pr <> PROCESS_DEAD /\
    heap s' = <[chosen s := with_state pr PROCESS_RUNNING]> (saved_heap s) /\
    process_jump pr = Ok jump /\
    live_ptrs (process_list s') ++ live_ptrs (process_list_reap s') ≡ₚ
      live_ptrs (process_list s) ++ live_ptrs (process_list_reap s).
Proof.
  destruct (scheduler_loop_run s Hwf) as (s1 & pr & jump & Hsc & Hpr & Hnext & _ & Hj & Hrun).
  destruct (chosen_alive s Hwf) as (_ & (prc & Hprc & Hst) & _).
  destruct (saved_heap_lookup s _ _ Hwf Hprc) as (pr' & Hpr' & _ & Hd & _).
  rewrite Hpr in Hpr'. injection Hpr' as <-.
  exists jump, (switched s s1 pr), pr. split; [done|]. split; [by apply switched_wf|].
  split; [done|]. split; [done|]. split; [by rewrite Hd|]. split; [done|]. split; [done|]. apply Hsc.
Qed.

(** *** Fairness *)

(** Turns until slot [i] comes up when the scan starts at [next]. *)
Definition distance (next i : Z) : Z := (i - (if 32 <=? next then 0 else next)) mod 32.

(** The scan takes the first eligible slot: one that is at most as far as any other. *)
Lemma round_robin_first s n : forall k i p, 0 <= k -> 0 <= i < 32 -> eligible s i = Some p ->
  distance k i < Z.of_nat n ->
  exists j q, round_robin s n k = Some (j, q) /\ distance k j <= distance k i /\ 0 <= j < 32.
Proof.
  induction n as [|n IH]; intros k i p Hk Hi Hel Hd.
  { unfold distance in Hd. pose proof (Z.mod_pos_bound (i - (if 32 <=? k then 0 else k)) 32). lia. }
  cbn [round_robin]. set (next := if 32 <=? k then 0 else k).
  assert (0 <= next < 32) as Hn by (unfold next; destruct (Z.leb_spec 32 k); lia).
  unfold distance in *. fold next in Hd |- *. destruct (eligible s next) as [q|] eqn:E.
  - exists next, q. split; [done|]. split; [|lia]. rewrite Z.sub_diag. apply Z.mod_pos_bound. lia.
  - assert (i <> next) as Hne by congruence.
    destruct (IH (next + 1) i p ltac:(lia) Hi Hel) as (j & q & Hrr & Hdj & Hj).
    + destruct (Z.leb_spec 32 (next + 1)); dlia.
    + exists j, q. split; [done|]. split; [|done].
      destruct (Z.leb_spec 32 (next + 1)); dlia.
Qed.

(** A scheduling step either continues [p] or brings its slot closer. *)
Lemma loop_progress s jump s' i p :
  sched_wf s -> scheduler_loop s = Ok (jump, s') -> 0 <= i < 32 -> eligible s i = Some p ->
  current_process s' = p \/
  (eligible s' i = Some p /\ distance (scheduler_next s') i < distance (scheduler_next s) i).
Proof.
  intros Hwf Hrun Hi Hel. destruct (scheduler_loop_run s Hwf) as (s1 & pr & j & Hsc & Hpr & _ & Hnext & _ & Hrun').
  rewrite Hrun in Hrun'. injection Hrun' as -> ->. pose proof (sw_next s Hwf) as Hn.
  destruct (round_robin_first s (Z.to_nat SCHEDULER_MAX_PROCESSES) (scheduler_next s) i p) as (k & q & Hrr & Hd & Hk);
    [lia|done|done| |].
  { unfold distance, SCHEDULER_MAX_PROCESSES.
    pose proof (Z.mod_pos_bound (i - (if 32 <=? scheduler_next s then 0 else scheduler_next s)) 32). lia. }
  assert (chosen s = q) as Hch by (unfold chosen; by rewrite Hrr).
  pose proof (Hnext _ _ Hrr) as Hs1. pose proof (round_robin_found _ _ _ _ _ Hrr) as Hkel.
  destruct (decide (k = i)) as [->|Hki]; [left; cbn [switched current_process]; congruence|]. right. split.
  - pose proof (sc_eligible _ _ Hsc i ltac:(lia)) as He1. rewrite Hel in He1.
    apply eligible_Some in He1 as (Hl1 & Hp0 & prp & Hprp & Hst).
    destruct (sc_cpu _ _ Hsc) as (Hh & _). rewrite Hh in Hprp.
    destruct (saved_heap_lookup s p prp Hwf Hprp) as (pr' & Hpr' & _ & Hdd & _).
    unfold eligible. cbn [switched process_list heap]. rewrite Hl1, (proj2 (Z.eqb_neq p 0)) by done.
    destruct (decide (p = chosen s)) as [->|Hne].
    + by rewrite lookup_insert_eq.
    + rewrite lookup_insert_ne, Hpr' by done. rewrite bool_decide_eq_false_2; [done|]. by rewrite Hdd.
  - cbn [switched scheduler_next]. rewrite Hs1. unfold distance in *.
    destruct (Z.leb_spec 32 (scheduler_next s)), (Z.leb_spec 32 (k + 1)); dlia.
Qed.

(** [passed_over p c s]: from [s] there is a run with [c] scheduling steps during
    which [p] is never the current process. *)
Inductive passed_over (p : Z) : nat -> sched_system -> Prop :=
| passed_nil (s : sched_system) : current_process s <> p -> passed_over p 0 s
| passed_sched (s s' : sched_system) c : current_process s <> p -> sched_step true s s' ->
    passed_over p c s' -> passed_over p (S c) s
| passed_other (s s' : sched_system) c : current_process s <> p -> sched_step false s s' ->
    passed_over p c s' -> passed_over p c s.

Lemma passed_current p c (s : sched_system) : passed_over p c s -> current_process s <> p.
Proof. by inversion 1. Qed.

(** Steps that do not schedule keep the slot of a live process. *)
Lemma step_other_eligible (s s' : sched_system) i p :
  sched_inv s -> sched_step false s s' -> 0 <= i -> eligible s i = Some p ->
  eligible s' i = Some p /\ scheduler_next s' = scheduler_next s.
Proof.
  intros (Hwf & _ & _ & Htaken) Hstep Hi Hel. apply eligible_Some in Hel as (Hl & Hp0 & pr & Hpr & Hst).
  unfold eligible.
  inversion Hstep as [| |q prq s2 s2' t Hq Hfresh Hsq Hrun|r s2 s2' Hrun|q s2 s2' Hq Hreap]; subst; cbn [sched_of process_to_reap] in *.
  - apply add_process_run in Hrun as (j & Hj & ->).
    cbn [set_lists set_heap process_list heap scheduler_next] in *. split; [|done].
    rewrite list_lookup_insert_ne by congruence. rewrite Hl, (proj2 (Z.eqb_neq p 0)) by done.
    rewrite lookup_insert_ne, Hpr by congruence. by rewrite bool_decide_eq_false_2.
  - apply reaper_step_run in Hrun as (j & q & Hj & _ & _ & ->). cbn [process_list heap scheduler_next].
    split; [|done]. rewrite Hl, (proj2 (Z.eqb_neq p 0)), Hpr by done. by rewrite bool_decide_eq_false_2.
  - injection Hreap as <-. cbn [process_list heap scheduler_next set_heap]. split; [|done].
    rewrite Hl, (proj2 (Z.eqb_neq p 0)) by done. destruct Htaken as [?|[_ (pr' & Hpr' & Hd)]]; [done|].
    rewrite lookup_delete_ne, Hpr by congruence. by rewrite bool_decide_eq_false_2.
Qed.

(** *** From the start *)

(** The state of the scheduler when [kmain] has created the idle process and set up the
    processor's record: no current process, empty lists. *)
Definition kmain_scheduler_init (idle : Z) (pr : Process) (frame : InterruptFrame) (top : Z) : sched_state :=
  {| heap := {[ idle := pr ]};
     process_list := replicate (Z.to_nat SCHEDULER_MAX_PROCESSES) 0;
     process_list_reap := replicate (Z.to_nat SCHEDULER_MAX_PROCESSES) 0;
     reaper_cursor := 0;
     scheduler_next := 0;
     current_process := 0;
     idle_process := idle;
     interrupt_frame := frame;
     cpu_kernel_stack_top := top |}.

Lemma live_replicate n : live_ptrs (replicate n 0) = [].
Proof. by induction n. Qed.

Lemma init_inv idle pr frame top : idle <> 0 -> state pr = PROCESS_READY ->
  sched_inv (Running (kmain_scheduler_init idle pr frame top) 0).
Proof.
  intros Hidle Hst. split; [|split; [done|split; by left]].
  split; cbn [sched_of kmain_scheduler_init heap process_list process_list_reap scheduler_next current_process idle_process];
    rewrite ?live_replicate; try done.
  - by apply lookup_singleton_ne.
  - apply NoDup_nil_2.
  - intros p []%elem_of_nil.
  - intros p []%elem_of_nil.
  - split; [done|]. split; [apply not_elem_of_nil|]. exists pr. rewrite lookup_singleton_eq. split; [done|]. by rewrite Hst.
  - by left.
  - intros p q [_ <-]%lookup_singleton_Some. by rewrite Hst.
Qed.

(** The states of the system: any sequence of steps from the start. *)
Definition any_step (s s' : sched_system) : Prop := exists b, sched_step b s s'.

Lemma reachable_inv s s' : rtc any_step s s' -> sched_inv s -> sched_inv s'.
Proof. induction 1 as [|s1 s2 s3 [b Hstep] _ IH]; [done|]. intros Hinv. by apply IH, (step_inv b s1). Qed.

(** C29: from the state [kmain] starts the scheduler in, with a ready idle process, under
    timer interrupts, yields, exits, new processes and the reaper in any order and
    number, the reaper being interruptible between taking a process and freeing it, every
    state reached satisfies the invariant: the two lists share no process and hold only
    existing ones, only dead processes wait for the reaper, the one it holds is dead and
    in no list, and exactly the current process is running.  And in every such state the
    next interrupt, the next exit of a process other than the idle one and the next turn
    of the reaper run without a fault. *)
Theorem sched_reachable_inv (idle : Z) (pr : Process) (frame : InterruptFrame) (top : Z) (s : sched_system)
  (Hidle : idle <> 0) (Hready : state pr = PROCESS_READY)
  (Hreach : rtc any_step (Running (kmain_scheduler_init idle pr frame top) 0) s) :
  sched_inv s /\
  (forall f, exists jump s', scheduler_interrupt f s = Ok (jump, s')) /\
  (forall f arg, current_process s <> 0 -> current_process s <> idle_process s ->
     exists jump s', syscall_exit f arg s = Ok (jump, s')) /\
  (exists r s', reaper_step s = Ok (r, s')).
Proof.
  assert (sched_inv s) as Hinv by (eapply reachable_inv; [exact Hreach|by apply init_inv]).
  split; [done|]. split; [intros f; apply interrupt_runs, Hinv|]. split; [|by apply reaper_runs].
  intros f arg. by apply exit_runs.
Qed.

(** C30: no starvation: a runnable process in slot [i] is passed over by at most
    [distance] (so fewer than 32) runs of the scheduler before it becomes the current
    process, whatever else happens in between. *)
Theorem scheduler_fair (s : sched_system) (i p : Z) (c : nat)
  (Hinv : sched_inv s) (Hslot : 0 <= i < 32) (Hrunnable : eligible s i = Some p)
  (Hpassed : passed_over p c s) :
  Z.of_nat c <= distance (scheduler_next s) i < 32.
Proof.
  split; [|unfold distance; by apply Z.mod_pos_bound].
  induction Hpassed as [s Hne|s s' c Hne Hstep Hpass IH|s s' c Hne Hstep Hpass IH].
  - unfold distance. by apply Z.mod_pos_bound.
  - destruct (step_scheduling s s' Hinv Hstep) as (s0 & jump & Hwf0 & Hrun & _ & Hpl & _ & Hnx & _ & Hheap).
    assert (eligible s0 i = Some p) as Hel0.
    { apply eligible_Some in Hrunnable as (Hl & Hp0 & pr & Hpr & Hst). unfold eligible.
      rewrite Hpl, Hl, (proj2 (Z.eqb_neq p 0)), Hheap, Hpr by done. by rewrite bool_decide_eq_false_2. }
    destruct (loop_progress s0 jump s' i p Hwf0 Hrun Hslot Hel0) as [E|[Hel' Hd]];
      [by destruct (passed_current _ _ _ Hpass)|].
    rewrite Hnx in Hd. specialize (IH (step_inv _ _ _ Hinv Hstep) Hel'). lia.
  - destruct (step_other_eligible s s' i p Hinv Hstep ltac:(lia) Hrunnable) as [Hel' Hn].
    rewrite <- Hn. apply IH; [by eapply step_inv|done].
Qed.

(** ** A concrete system: an idle process, one ready and one dead process *)

Definition sample_frame : InterruptFrame :=
  {| registers := {| r_rax := 1; r_rbx := 2; r_rcx := 3; r_rdx := 4; r_rsi := 5; r_rdi := 6; r_rbp := 7;
       r_r8 := 8; r_r9 := 9; r_r10 := 10; r_r11 := 11; r_r12 := 12; r_r13 := 13; r_r14 := 14; r_r15 := 15 |};
     int_no := 0xFF; err_code := 0;
     iret_frame := {| i_rip := 0x401000; i_cs := 0x23; i_rflags := 0x202; i_rsp := 0x7000; i_ss := 0x1B |} |}.

(** Process 48 in the first slot has state [st], process 32 behind it is ready. *)
Definition two_processes (st : ProcessState) : sched_state :=
  Sched {[ 16 := sample_process; 32 := sample_process; 48 := with_state sample_process st ]}
    (48 :: 32 :: replicate 30 0) (replicate 32 0) 0 0 0 16 sample_frame 0.

Definition sample_sched : sched_state := two_processes PROCESS_DEAD.

Lemma two_processes_inv st : st <> PROCESS_RUNNING -> sched_inv (Running (two_processes st) 0).
Proof.
  intros Hst. assert (live_ptrs (process_list (two_processes st)) = [48; 32]) as Hp by (vm_compute; reflexivity).
  assert (live_ptrs (process_list_reap (two_processes st)) = []) as Hr by (vm_compute; reflexivity).
  split; [|split; [done|split; by left]]. cbn [sched_of]. split; rewrite ?Hp, ?Hr; try done.
  - apply (bool_decide_unpack _). vm_compute. exact I.
  - cbn [app]. intros p [->|[->|[]%elem_of_nil]%elem_of_cons]%elem_of_cons; eexists; vm_compute; reflexivity.
  - intros p []%elem_of_nil.
  - split; [done|]. split; [apply (bool_decide_unpack _); vm_compute; exact I|].
    exists sample_process. split; [vm_compute; reflexivity|done].
  - by left.
  - intros p pr Hlk Hrun. exfalso. revert Hlk Hrun. cbn [heap two_processes].
    rewrite !lookup_insert_Some. intros [[_ <-]|[_ [[_ <-]|[_ [_ <-]%lookup_singleton_Some]]]]; done.
Qed.

Lemma scheduler_loop_correct_witness :
  exists jump s' pr, scheduler_loop sample_sched = Ok (jump, s') /\ sched_wf s' /\
    current_process s' = 32 /\ saved_heap sample_sched !! 32 = Some pr /\ process_jump pr = Ok jump.
Proof.
  destruct (scheduler_loop_correct sample_sched (proj1 (two_processes_inv PROCESS_DEAD ltac:(discriminate))))
    as (jump & s' & pr & Hrun & Hwf & Hcur & Hpr & _ & _ & Hj & _).
  exists jump, s', pr. split; [exact Hrun|]. split; [exact Hwf|]. split; [exact Hcur|]. split; [exact Hpr|exact Hj].
Defined.

(** The idle process, a process that is added, runs, exits, is taken by the reaper,
    interrupted by the timer, and freed. *)
Definition start_sched : sched_state := kmain_scheduler_init 16 sample_process sample_frame 0.

Lemma sched_reachable_inv_witness :
  exists s, rtc any_step (Running start_sched 0) s /\ sched_inv s /\ heap s !! 32 = None /\ current_process s = 16.
Proof.
  assert (exists s, rtc any_step (Running start_sched 0) s /\ heap s !! 32 = None /\ current_process s = 16) as (s & Hs & Hh & Hc).
  { eexists. split; [|split].
    - eapply rtc_l; [exists false; eapply (step_spawn 32 sample_process); [lia|reflexivity|reflexivity|vm_compute; reflexivity]|].
      eapply rtc_l; [exists true; eapply (step_timer sample_frame); vm_compute; reflexivity|].
      eapply rtc_l; [exists true; eapply (step_exit sample_frame 7); [vm_compute; discriminate|vm_compute; reflexivity]|].
      eapply rtc_l; [exists false; eapply step_reap_take; vm_compute; reflexivity|].
      eapply rtc_l; [exists true; eapply (step_timer sample_frame); vm_compute; reflexivity|].
      eapply rtc_l; [exists false; eapply step_reap_free; [discriminate|vm_compute; reflexivity]|].
      apply rtc_refl.
    - vm_compute. reflexivity.
    - vm_compute. reflexivity. }
  exists s. split; [exact Hs|]. split; [|split; [exact Hh|exact Hc]].
  apply (sched_reachable_inv 16 sample_process sample_frame 0 s); [lia|reflexivity|exact Hs].
Defined.

(** With two ready processes the one in the first slot runs first. *)
Lemma scheduler_fair_witness :
  passed_over 32 1 (Running (two_processes PROCESS_READY) 0) /\ Z.of_nat 1 <= distance 0 1 < 32.
Proof.
  assert (passed_over 32 1 (Running (two_processes PROCESS_READY) 0)) as Hp.
  { eapply passed_sched; [discriminate|eapply (step_timer sample_frame); vm_compute; reflexivity|].
    apply passed_nil. discriminate. }
  split; [exact Hp|].
  apply (scheduler_fair (Running (two_processes PROCESS_READY) 0) 1 32 1 (two_processes_inv PROCESS_READY ltac:(discriminate))); [lia|vm_compute; reflexivity|exact Hp].
Defined.
