(* ===== verification/ProcessHeap.v ===== *)
(** * The heap of a process

    What [syscall_sbrk] ([kernel/kernel/syscall.c]) does to the memory of the calling
    process, on the pages the process sees ([window] of [KernelMemory]): growing maps
    fresh frames behind the old end, shrinking frees exactly the pages behind the new
    end, and the bytes in between are kept. *)
From Stdlib Require Import ZArith Lia.
From stdpp Require Import base tactics list numbers gmap.
From S2P Require Import Prelude Common Memory Interfaces Bitmap Pmm Vmm PageTables VmmProofs VmmTheorems KernelMemory Process.

Open Scope Z_scope.

(** The page-aligned addresses of [n] pages from [a] on. *)
Definition page_run (a : Z) (n : nat) (v : Z) : Prop := exists k : nat, (k < n)%nat /\ v = a + Z.of_nat k * 4096.

Lemma page_run_S a n v : page_run a (S n) v <-> v = a \/ page_run (a + 4096) n v.
Proof.
  split.
  - intros (k & Hk & ->). destruct k as [|k]; [left; lia|right; exists k; lia].
  - intros [->|(k & Hk & ->)]; [exists 0%nat; lia|exists (S k); lia].
Qed.

(** [w'] is [w] with fresh frames mapped at the pages of the run. *)
Record grown (a : Z) (n : nat) (w w' : window) : Prop := Grown {
  gw_outside : forall v, ~ page_run a n v -> w_pages w' !! v = w_pages w !! v;
  gw_inside : forall v, page_run a n v -> exists p, w_pages w' !! v = Some p /\ p ∈ w_owned w' /\ p ∉ w_owned w;
  gw_owned : forall p, p ∈ w_owned w' <-> p ∈ w_owned w \/ exists v, page_run a n v /\ w_pages w' !! v = Some p;
  gw_view : forall x, ~ page_run a n (page_of x) -> w_view w' x = w_view w x;
  gw_budget : w_budget w' = (w_budget w - 4 * n)%nat;
}.

(** [w'] is [w] with the pages of the run unmapped and their frames given back. *)
Record shrunk (a : Z) (n : nat) (w w' : window) : Prop := Shrunk {
  sw_outside : forall v, ~ page_run a n v -> w_pages w' !! v = w_pages w !! v;
  sw_inside : forall v, page_run a n v -> w_pages w' !! v = None;
  sw_owned : forall p, p ∈ w_owned w' <-> p ∈ w_owned w /\ ~ exists v, page_run a n v /\ w_pages w !! v = Some p;
  sw_view : forall x, w_view w' x = w_view w x;
  sw_budget : w_budget w' = (w_budget w + n)%nat;
}.

Lemma page_run_next a n : ~ page_run (a + 4096) n a.
Proof. intros (k & _ & E). lia. Qed.

Lemma grow_trans a n p w w2 w3 : p ∉ w_owned w -> w_pages w2 = <[a := p]> (w_pages w) -> w_owned w2 = {[p]} ∪ w_owned w ->
  (forall x, page_of x <> a -> w_view w2 x = w_view w x) -> w_budget w2 = (w_budget w - 4)%nat ->
  grown (a + 4096) n w2 w3 -> grown a (S n) w w3.
Proof.
  intros Hp Epg Eow Hv Hb [G1 G2 G3 G4 G5]. pose proof (page_run_next a n) as Hna.
  assert (w_pages w3 !! a = Some p) as Ea by (by rewrite G1, Epg, lookup_insert_eq). split.
  - intros v Hn. rewrite page_run_S in Hn. rewrite G1, Epg by tauto. apply lookup_insert_ne. intros ->. tauto.
  - intros v [->|Hr]%page_run_S.
    + exists p. split; [done|]. split; [|done]. apply G3. left. rewrite Eow. set_solver.
    + destruct (G2 v Hr) as (q & ? & ? & Hq). exists q. split; [done|]. split; [done|]. rewrite Eow in Hq. set_solver.
  - intros q. rewrite G3, Eow, elem_of_union, elem_of_singleton. split.
    + intros [[->|?]|(v & Hr & E)]; [right; exists a|by left|right; exists v]; rewrite page_run_S; auto.
    + intros [?|(v & [->|Hr]%page_run_S & E)]; [by left; right| |right; eauto]. left. left. congruence.
  - intros x Hn. rewrite page_run_S in Hn. rewrite G4, Hv by tauto. done.
  - lia.
Qed.

Lemma shrink_trans a n p w w2 w3 : w_pages w !! a = Some p -> (forall v, w_pages w !! v = Some p -> v = a) ->
  w_pages w2 = delete a (w_pages w) -> w_owned w2 = w_owned w ∖ {[p]} -> w_view w2 = w_view w -> w_budget w2 = (w_budget w + 1)%nat ->
  shrunk (a + 4096) n w2 w3 -> shrunk a (S n) w w3.
Proof.
  intros Ea Hinj Epg Eow Ev Hb [G1 G2 G3 G4 G5]. pose proof (page_run_next a n) as Hna. split.
  - intros v Hn. rewrite page_run_S in Hn. rewrite G1, Epg by tauto. apply lookup_delete_ne. intros ->. tauto.
  - intros v [->|Hr]%page_run_S; [|by apply G2]. by rewrite G1, Epg, lookup_delete_eq.
  - intros q. rewrite G3, Eow, Epg, elem_of_difference, elem_of_singleton. split.
    + intros [[? Hq] Hn]. split; [done|]. intros (v & [->|Hr]%page_run_S & E); [congruence|]. apply Hn. exists v. split; [done|].
      rewrite lookup_delete_ne; [done|]. intros ->. by destruct Hna.
    + intros [? Hn]. split; [split; [done|]|].
      * intros ->. apply Hn. exists a. rewrite page_run_S. auto.
      * intros (v & Hr & [_ E]%lookup_delete_Some). apply Hn. exists v. rewrite page_run_S. auto.
  - intros x. by rewrite G4, Ev.
  - lia.
Qed.

(** Growing and shrinking by the same pages. *)
Lemma grow_shrink a n w w1 w2 : grown a n w w1 -> shrunk a n w1 w2 -> (forall v, page_run a n v -> w_pages w !! v = None) ->
  w_pages w2 = w_pages w /\ w_owned w2 = w_owned w /\ (forall x, is_Some (w_pages w !! page_of x) -> w_view w2 x = w_view w x).
Proof.
  intros [G1 G2 G3 G4 _] [S1 S2 S3 S4 _] Hun. split; [|split].
  - apply map_eq. intros v. destruct (w_pages w !! v) as [q|] eqn:E.
    + assert (~ page_run a n v) as Hn by (intros Hr; by rewrite Hun in E). by rewrite S1, G1.
    + destruct (w_pages w2 !! v) as [q|] eqn:E2; [|done]. assert (~ page_run a n v) as Hn by (intros Hr; by rewrite S2 in E2).
      rewrite S1, G1 in E2 by done. congruence.
  - apply leibniz_equiv. intros q. rewrite S3, G3. split.
    + intros [[?|Hv] Hn]; [done|by destruct Hn].
    + intros Hq. split; [by left|]. intros (v & Hr & E). destruct (G2 v Hr) as (q' & E' & _ & Hq'). congruence.
  - intros x [q Hx]. rewrite S4. apply G4. intros Hr. by rewrite Hun in Hx.
Qed.

Section heap.
Context {S : Type} `{PageAllocator S} (debug : bool) (root lo hi : Z) (Hreg : page_region lo hi).
Implicit Types (st : vmm_state S) (w : window).

Notation rep := (vmm_rep root lo hi).

(** [vmm_free] on a page of the window. *)
Lemma vmm_free_page_ok st w v p : rep st w -> w_pages w !! v = Some p -> p ∈ w_owned w ->
  exists st', vmm_free (phys_to_virt root) v st = Ok (tt, st') /\
    rep st' (Window (delete v (w_pages w)) (w_owned w ∖ {[p]}) (w_view w) (w_budget w + 1)).
Proof.
  intros Hr Hp Ho. destruct (vmm_free_ok root lo hi st w p Hr Ho) as (st1 & E1 & Hr1).
  destruct (vmm_unmap_ok true root lo hi Hreg st1 _ v p Hr1 Hp) as (st2 & E2 & Hr2). cbn [w_pages w_owned w_view w_budget] in Hr2.
  exists st2. split; [|exact Hr2]. destruct Hr as [T Hr], Hr1 as [T1 Hr1].
  destruct (vr_page _ _ _ _ _ _ Hr v p Hp) as (_ & Hal & Hpg & f & Hf & Hw).
  destruct (vr_page _ _ _ _ _ _ Hr1 v p Hp) as (_ & _ & _ & f1 & _ & Hw1).
  destruct (page_path T st root v _ (vr_wf _ _ _ _ _ _ Hr) Hw) as (_ & _ & q1 & _ & _ & Hq1 & _).
  rewrite (vmm_free_run T st root v _ q1 (vr_wf _ _ _ _ _ _ Hr) Hw Hq1), (page_entry p f Hpg Hf), (bind_run _ _ _ _ _ E1), <- E2.
  symmetry. apply (vmm_unmap_run true T1 st1 root v _ q1 (vr_wf _ _ _ _ _ _ Hr1) Hw1); [|done].
  unfold with_alloc in E1. destruct (pa_free p (vs_alloc st)) as [[[] al]| | |]; [|done..]. injection E1 as <-. exact Hq1.
Qed.

(** ** Growing *)

Lemma grow_run n : forall st w i start, rep st w -> settled w -> (4 * n <= w_budget w)%nat ->
  (start + i * 4096) mod 4096 = 0 -> lo <= start + i * 4096 -> start + i * 4096 + Z.of_nat n * 4096 <= hi ->
  (forall v, page_run (start + i * 4096) n v -> w_pages w !! v = None) ->
  exists st' w', iter_for n i 1 (fun i =>
      phys ← with_alloc pa_alloc;
      vmm_map debug (phys_to_virt root) phys (u64 (start + i * VMM_DEFAULT_PAGE_SIZE)) VMM_FLAGS_USER_DATA) st = Ok (tt, st') /\
    rep st' w' /\ settled w' /\ grown (start + i * 4096) n w w'.
Proof.
  induction n as [|n IH]; intros st w i start Hr Hset Hb Hal Hlo Hhi Hnone; cbn [iter_for].
  { exists st, w. split; [done|]. split; [done|]. split; [done|]. split.
    - done.
    - intros v (k & ? & _). lia.
    - intros p. split; [by left|]. intros [?|(v & (k & ? & _) & _)]; [done|lia].
    - done.
    - lia. }
  assert (0 <= start + i * 4096 < 2 ^ 64) as H64 by (destruct Hreg as (? & ? & _); lia).
  unfold VMM_DEFAULT_PAGE_SIZE. rewrite (u64_id (start + i * 4096)) by lia. set (v := start + i * 4096) in *.
  destruct (vmm_alloc_ok root lo hi Hreg st w Hr Hset) as (p & st1 & E1 & Hpg & Hpo & Hr1); [lia|].
  set (w1 := Window _ _ _ _) in Hr1.
  assert (settled w1) as Hset1 by (intros v' p' Hv'; apply Hset in Hv'; set_solver).
  destruct (vmm_map_ok debug root lo hi Hreg st1 w1 p v VMM_FLAGS_USER_DATA Hr1 Hset1) as (st2 & m & E2 & Hm & Hr2); cbn [w1 w_pages w_owned w_view w_budget] in *.
  { set_solver. }
  { vm_compute. intuition congruence. }
  { intros v' Hv'. by apply Hset in Hv'. }
  { unfold in_region. lia. }
  { done. }
  { apply Hnone. apply page_run_S. by left. }
  { lia. }
  set (w2 := Window _ _ _ _) in Hr2.
  destruct (IH st2 w2 (i + 1) start Hr2) as (st3 & w3 & E3 & Hr3 & Hset3 & Hg).
  { intros v' p' Hv'. cbn [w2 w_pages w_owned] in *. apply lookup_insert_Some in Hv' as [[_ <-]|[_ Hv']]; [set_solver|]. apply Hset in Hv'. set_solver. }
  { cbn [w2 w_budget]. lia. }
  { replace (start + (i + 1) * 4096) with (v + 4096) by (unfold v; lia). clear - Hal. dlia. }
  { unfold v in Hlo. lia. }
  { unfold v in Hhi. lia. }
  { intros v' Hv'. cbn [w2 w_pages]. replace (start + (i + 1) * 4096) with (v + 4096) in Hv' by (unfold v; lia).
    rewrite lookup_insert_ne; [|destruct Hv' as (k & _ & ->); lia]. apply Hnone, page_run_S. by right. }
  replace (start + (i + 1) * 4096) with (v + 4096) in Hg by (unfold v; lia).
  exists st3, w3. split; [by rewrite (bind_run _ _ st tt st2) by (by rewrite (bind_run _ _ _ _ _ E1))|]. split; [done|]. split; [done|].
  apply (grow_trans v n p w w2 w3); try done. cbn [w2 w_budget]. lia.
Qed.

(** ** Shrinking *)

Lemma shrink_run n : forall st w page, rep st w -> settled w -> 0 <= page * 4096 -> page * 4096 + Z.of_nat n * 4096 <= hi ->
  (forall v, page_run (page * 4096) n v -> is_Some (w_pages w !! v)) ->
  exists st' w', iter_for n page 1 (fun page => vmm_free (phys_to_virt root) (u64 (page * VMM_DEFAULT_PAGE_SIZE))) st = Ok (tt, st') /\
    rep st' w' /\ settled w' /\ shrunk (page * 4096) n w w'.
Proof.
  induction n as [|n IH]; intros st w page Hr Hset Hlo Hhi Hsome; cbn [iter_for].
  { exists st, w. split; [done|]. split; [done|]. split; [done|]. split.
    - done.
    - intros v (k & ? & _). lia.
    - intros p. split; [|tauto]. intros ?. split; [done|]. intros (v & (k & ? & _) & _). lia.
    - done.
    - lia. }
  unfold VMM_DEFAULT_PAGE_SIZE. rewrite (u64_id (page * 4096)) by (destruct Hreg as (? & ? & _); lia). set (v := page * 4096) in *.
  destruct (Hsome v) as [p Hp]; [apply page_run_S; by left|].
  destruct (vmm_free_page_ok st w v p Hr Hp) as (st1 & E1 & Hr1); [by eapply Hset|].
  assert (forall v', w_pages w !! v' = Some p -> v' = v) as Hinj by (intros v' Hv'; by apply (vmm_inj root lo hi st w v' v p Hr)).
  set (w1 := Window _ _ _ _) in Hr1. replace (v + 4096) with ((page + 1) * 4096) in * by (unfold v; lia).
  destruct (IH st1 w1 (page + 1) Hr1) as (st2 & w2 & E2 & Hr2 & Hset2 & Hs).
  { intros v' p' Hv'. cbn [w1 w_pages w_owned] in *. apply lookup_delete_Some in Hv' as [Hne Hv']. apply elem_of_difference. split; [by eapply Hset|].
    intros ->%elem_of_singleton. by destruct Hne; symmetry; apply Hinj. }
  { lia. }
  { lia. }
  { intros v' Hv'. cbn [w1 w_pages]. rewrite lookup_delete_ne; [apply Hsome, page_run_S; right; by replace (v + 4096) with ((page + 1) * 4096) by (unfold v; lia)|].
    destruct Hv' as (k & _ & ->). unfold v. lia. }
  exists st2, w2. rewrite (bind_run _ _ _ _ _ E1). split; [done|]. split; [done|]. split; [done|].
  replace ((page + 1) * 4096) with (v + 4096) in Hs by (unfold v; lia). by apply (shrink_trans v n p w w1 w2).
Qed.
End heap.

(** ** The system call *)

Lemma user_half_region : page_region 0 (2 ^ 47).
Proof. vm_compute. intuition congruence. Qed.

Section sbrk.
Context {S : Type} `{PageAllocator S} (debug : bool) (root : Z).
Implicit Types (st : vmm_state S) (w : window) (p : Process).

(** The end of the heap, rounded up to pages, and the pages between two ends. *)
Definition page_end (b : Z) : Z := ALIGN_UP b 4096.
Definition pages_between (b b' : Z) : nat := Z.to_nat ((page_end b' - page_end b) / 4096).

(** A process whose user half shows the window [w], with a heap that is mapped. *)
Record heap_rep p st w : Prop := HeapRep {
  hr_pml4 : pml4 p = phys_to_virt root;
  hr_window : vmm_rep root 0 (2 ^ 47) st w;
  hr_settled : settled w;
  hr_bounds : 0 <= brk_start p <= brk p /\ brk p <= 2 ^ 47;
  hr_mapped : forall v, page_run (page_end (brk_start p)) (pages_between (brk_start p) (brk p)) v -> is_Some (w_pages w !! v);
}.

Lemma page_end_spec b : 0 <= b <= 2 ^ 47 -> b <= page_end b < b + 4096 /\ page_end b mod 4096 = 0 /\ page_end b <= 2 ^ 47.
Proof. intros Hb. destruct (ALIGN_UP_page b) as [Hr Hm]; [lia|]. unfold page_end. split; [done|]. split; [done|]. dlia. Qed.

Lemma page_end_mono b b' : 0 <= b <= b' -> b' <= 2 ^ 47 -> page_end b <= page_end b'.
Proof. intros Hb Hb'. destruct (page_end_spec b) as (? & ? & _); [lia|]. destruct (page_end_spec b') as (? & ? & _); [lia|]. dlia. Qed.

Lemma pages_between_spec b b' : 0 <= b <= b' -> b' <= 2 ^ 47 -> page_end b + Z.of_nat (pages_between b b') * 4096 = page_end b'.
Proof.
  intros Hb Hb'. pose proof (page_end_mono b b' Hb Hb'). destruct (page_end_spec b) as (_ & ? & _); [lia|].
  destruct (page_end_spec b') as (_ & ? & _); [lia|]. unfold pages_between. dlia.
Qed.

Lemma page_run_between b b' v : 0 <= b <= b' -> b' <= 2 ^ 47 ->
  page_run (page_end b) (pages_between b b') v <-> page_end b <= v < page_end b' /\ v mod 4096 = 0.
Proof.
  intros Hb Hb'. pose proof (pages_between_spec b b' Hb Hb') as Hn. destruct (page_end_spec b) as (_ & Hm & _); [lia|]. split.
  - intros (k & Hk & ->). split; [lia|]. clear - Hm. dlia.
  - intros [Hr Hv]. exists (Z.to_nat ((v - page_end b) / 4096)). clear - Hr Hv Hm Hn. dlia.
Qed.

Lemma sbrk_grow_run p st w r : heap_rep p st w -> 0 <= r -> brk p + r <= 2 ^ 47 ->
  (forall v, page_run (page_end (brk p)) (pages_between (brk p) (brk p + r)) v -> w_pages w !! v = None) ->
  (4 * pages_between (brk p) (brk p + r) <= w_budget w)%nat ->
  exists st' w', syscall_sbrk debug p r st = Ok ((brk p, with_brk p (brk p + r)), st') /\
    heap_rep (with_brk p (brk p + r)) st' w' /\ grown (page_end (brk p)) (pages_between (brk p) (brk p + r)) w w'.
Proof.
  intros [Hpm Hw Hset [Hb Hb'] Hmap] Hr Hend Hun Hbud. set (n := pages_between (brk p) (brk p + r)) in *.
  destruct (page_end_spec (brk p)) as (He & Hm & He'); [lia|]. destruct (page_end_spec (brk p + r)) as (Hx & Hxm & Hx'); [lia|].
  pose proof (pages_between_spec (brk p) (brk p + r) ltac:(lia) Hend) as Hn. fold n in Hn.
  unfold syscall_sbrk. assert (s64 r = r) as -> by (unfold s64; rewrite Z.mod_small; lia).
  rewrite (u64_id (brk p + r)), (proj2 (Z.ltb_ge r 0)) by lia. cbv zeta.
  change (ALIGN_UP (brk p) VMM_DEFAULT_PAGE_SIZE) with (page_end (brk p)). change (ALIGN_UP (brk p + r) VMM_DEFAULT_PAGE_SIZE) with (page_end (brk p + r)).
  assert (for_count 0 (u64 (page_end (brk p + r) / VMM_DEFAULT_PAGE_SIZE - page_end (brk p) / VMM_DEFAULT_PAGE_SIZE)) 1 = n) as Hcount.
  { unfold VMM_DEFAULT_PAGE_SIZE. rewrite u64_id by (clear - Hn Hm Hxm Hb He Hx'; dlia). unfold for_count. clear - Hn Hm Hxm. dlia. }
  unfold for_range. rewrite Hcount, Hpm.
  destruct (grow_run debug root 0 (2 ^ 47) user_half_region n st w 0 (page_end (brk p))) as (st' & w' & Hrun & Hrep & Hset' & Hg);
    rewrite ?Z.mul_0_l, ?Z.add_0_r in *; try done; try lia.
  exists st', w'. rewrite (bind_run _ _ _ _ _ Hrun). split; [done|]. split; [|done]. split; try done.
  - cbn [with_brk brk brk_start]. lia.
  - cbn [with_brk brk brk_start]. intros v Hv. apply page_run_between in Hv; [|lia..].
    destruct (decide (page_end (brk p) <= v)) as [Hin|Hout].
    + destruct (gw_inside _ _ _ _ Hg v) as (q & -> & _); [|done]. apply page_run_between; [lia..|]. lia.
    + rewrite (gw_outside _ _ _ _ Hg v); [apply Hmap, page_run_between; [lia..|lia]|]. unfold n. rewrite page_run_between by lia. lia.
Qed.

Lemma s64_neg d : 0 < d <= 2 ^ 63 -> s64 (2 ^ 64 - d) = - d.
Proof.
  intros Hd. unfold s64. replace (2 ^ 64 - d + 2 ^ 63) with (2 ^ 63 - d + 1 * 2 ^ 64) by lia. rewrite Z.mod_add, Z.mod_small by lia. lia.
Qed.

Lemma sbrk_shrink_run p st w d : heap_rep p st w -> 0 < d -> brk_start p <= brk p - d ->
  exists st' w', syscall_sbrk debug p (2 ^ 64 - d) st = Ok ((brk p, with_brk p (brk p - d)), st') /\
    heap_rep (with_brk p (brk p - d)) st' w' /\ shrunk (page_end (brk p - d)) (pages_between (brk p - d) (brk p)) w w'.
Proof.
  intros [Hpm Hw Hset [Hb Hb'] Hmap] Hd Hend. set (n := pages_between (brk p - d) (brk p)) in *.
  destruct (page_end_spec (brk p)) as (He & Hm & He'); [lia|]. destruct (page_end_spec (brk p - d)) as (Hx & Hxm & Hx'); [lia|].
  pose proof (pages_between_spec (brk p - d) (brk p) ltac:(lia) Hb') as Hn. fold n in Hn.
  pose proof (page_end_mono (brk_start p) (brk p - d) ltac:(lia) ltac:(lia)) as Hmono.
  unfold syscall_sbrk. rewrite (s64_neg d) by lia. replace (brk p + - d) with (brk p - d) by lia.
  rewrite (u64_id (brk p - d)), (proj2 (Z.ltb_lt (- d) 0)), (proj2 (Z.ltb_ge (brk p - d) (brk_start p))) by lia.
  change (ALIGN_UP (brk p) VMM_DEFAULT_PAGE_SIZE) with (page_end (brk p)). change (ALIGN_UP (brk p - d) VMM_DEFAULT_PAGE_SIZE) with (page_end (brk p - d)).
  cbv zeta. unfold for_range, VMM_DEFAULT_PAGE_SIZE.
  assert (for_count (page_end (brk p - d) / 4096) (page_end (brk p) / 4096) 1 = n) as -> by (unfold for_count; clear - Hn Hm Hxm; dlia).
  assert (page_end (brk p - d) / 4096 * 4096 = page_end (brk p - d)) as Hpage by (clear - Hxm; dlia). rewrite Hpm.
  destruct (shrink_run root 0 (2 ^ 47) user_half_region n st w (page_end (brk p - d) / 4096)) as (st' & w' & Hrun & Hrep & Hset' & Hs);
    rewrite ?Hpage in *; try done; try lia.
  { intros v Hv. apply Hmap. unfold n in Hv. rewrite page_run_between in Hv by lia. apply page_run_between; lia. }
  exists st', w'. rewrite (bind_run _ _ _ _ _ Hrun). split; [done|]. split; [|done]. split; try done.
  - cbn [with_brk brk brk_start]. lia.
  - cbn [with_brk brk brk_start]. intros v Hv. apply page_run_between in Hv; [|lia..].
    rewrite (sw_outside _ _ _ _ Hs v); [apply Hmap, page_run_between; [lia..|]|].
    + pose proof (page_end_mono (brk p - d) (brk p) ltac:(lia) ltac:(lia)). lia.
    + unfold n. rewrite page_run_between by lia. lia.
Qed.

(** C12: [sbrk] moves the end of the heap of the calling process and returns the old end.
    Growing (by any amount inside the user half, with four free pages per new page) maps
    a fresh frame at every page between the old and the new end; shrinking unmaps exactly
    the pages behind the new end and gives their frames back.  In both cases every other
    page of the process keeps its frame and its bytes, and the heap stays mapped.  A
    request whose new end is below the start of the heap and not below zero is refused
    with 0 and changes nothing.  A request that goes below zero, by a page or more, is
    not refused: the new end wraps around the address space, is recorded as the end of
    the heap, and no page is touched. *)
Theorem sbrk_correct p st w (Hrep : heap_rep p st w) :
  (forall r, 0 <= r -> brk p + r <= 2 ^ 47 ->
     (forall v, page_run (page_end (brk p)) (pages_between (brk p) (brk p + r)) v -> w_pages w !! v = None) ->
     (4 * pages_between (brk p) (brk p + r) <= w_budget w)%nat ->
     exists st' w', syscall_sbrk debug p r st = Ok ((brk p, with_brk p (brk p + r)), st') /\
       heap_rep (with_brk p (brk p + r)) st' w' /\ grown (page_end (brk p)) (pages_between (brk p) (brk p + r)) w w') /\
  (forall d, 0 < d -> brk_start p <= brk p - d ->
     exists st' w', syscall_sbrk debug p (2 ^ 64 - d) st = Ok ((brk p, with_brk p (brk p - d)), st') /\
       heap_rep (with_brk p (brk p - d)) st' w' /\ shrunk (page_end (brk p - d)) (pages_between (brk p - d) (brk p)) w w') /\
  (forall d, 0 < d -> 0 <= brk p - d < brk_start p -> syscall_sbrk debug p (2 ^ 64 - d) st = Ok ((0, p), st)) /\
  (forall d, brk p + 4096 <= d <= 2 ^ 63 ->
     syscall_sbrk debug p (2 ^ 64 - d) st = Ok ((brk p, with_brk p (brk p - d + 2 ^ 64)), st)).
Proof.
  split; [intros; by apply sbrk_grow_run|]. split; [intros; by apply sbrk_shrink_run|]. split.
  2: { intros d Hd. destruct (hr_bounds _ _ _ Hrep) as [Hb Hb']. pose proof (s64_neg d ltac:(lia)) as E.
       rewrite sbrk_wrap_run; rewrite ?E; try lia. by replace (brk p + - d) with (brk p - d) by lia. }
  intros d Hd Hend. destruct (hr_bounds _ _ _ Hrep) as [Hb Hb']. unfold syscall_sbrk. rewrite (s64_neg d) by lia. replace (brk p + - d) with (brk p - d) by lia.
  by rewrite (u64_id (brk p - d)), (proj2 (Z.ltb_lt (- d) 0)), (proj2 (Z.ltb_lt (brk p - d) (brk_start p))) by lia.
Qed.

(** C13: growing the heap and shrinking it by the same amount restores the process and
    its memory: the same pages, mapped to the same frames, with the same bytes, and no
    frame is kept. *)
Theorem sbrk_roundtrip p st w (d : Z) (Hrep : heap_rep p st w) (Hd : 0 < d) (Hend : brk p + d <= 2 ^ 47)
  (Hun : forall v, page_run (page_end (brk p)) (pages_between (brk p) (brk p + d)) v -> w_pages w !! v = None)
  (Hbud : (4 * pages_between (brk p) (brk p + d) <= w_budget w)%nat) :
  exists st1 st2 w2, syscall_sbrk debug p d st = Ok ((brk p, with_brk p (brk p + d)), st1) /\
    syscall_sbrk debug (with_brk p (brk p + d)) (2 ^ 64 - d) st1 = Ok ((brk p + d, p), st2) /\
    heap_rep p st2 w2 /\ w_pages w2 = w_pages w /\ w_owned w2 = w_owned w /\
    (forall x, is_Some (w_pages w !! page_of x) -> w_view w2 x = w_view w x).
Proof.
  destruct (sbrk_grow_run p st w d Hrep) as (st1 & w1 & E1 & Hrep1 & Hg); [lia|done..|].
  destruct (sbrk_shrink_run (with_brk p (brk p + d)) st1 w1 d Hrep1) as (st2 & w2 & E2 & Hrep2 & Hs); [done| |].
  { cbn [with_brk brk brk_start]. destruct (hr_bounds _ _ _ Hrep). lia. }
  assert (with_brk (with_brk p (brk p + d)) (brk p + d - d) = p) as Hp by (replace (brk p + d - d) with (brk p) by lia; by destruct p).
  cbn [with_brk brk] in E2, Hrep2, Hs. rewrite Hp in E2, Hrep2. replace (brk p + d - d) with (brk p) in Hs by lia.
  exists st1, st2, w2. split; [done|]. split; [done|]. split; [done|]. by apply (grow_shrink (page_end (brk p)) (pages_between (brk p) (brk p + d)) w w1 w2).
Qed.
End sbrk.

(** ** Witnesses: a process of the 64-page machine with an empty heap *)

Lemma sample_process_rep :
  heap_rep (H := pmm_page_allocator true) sample_root sample_process sample_state (Window ∅ ∅ (fun _ => 0) 8).
Proof.
  split.
  - reflexivity.
  - apply (sample_boot 0 (2 ^ 47) user_half_region).
  - intros v q Hv. cbn [w_pages] in Hv. by rewrite lookup_empty in Hv.
  - vm_compute. intuition congruence.
  - intros v (k & Hk & _). change (pages_between _ _) with 0%nat in Hk. lia.
Qed.

Lemma sbrk_correct_witness : (exists st',
  syscall_sbrk (H := pmm_page_allocator true) true sample_process 0x1000 sample_state = Ok ((0x500000, with_brk sample_process 0x501000), st')) /\
  syscall_sbrk (H := pmm_page_allocator true) true sample_process (2 ^ 64 - 1) sample_state = Ok ((0, sample_process), sample_state).
Proof.
  destruct (sbrk_correct (H := pmm_page_allocator true) true sample_root sample_process sample_state _ sample_process_rep) as (Hgrow & _ & Hrefuse & _).
  split; [|apply Hrefuse; vm_compute; intuition congruence].
  destruct (Hgrow 0x1000) as (st' & w' & E & _); [lia|vm_compute; congruence|intros; apply lookup_empty|vm_compute; lia|].
  exists st'. exact E.
Defined.

Lemma sbrk_roundtrip_witness : exists st1 st2,
  syscall_sbrk (H := pmm_page_allocator true) true sample_process 0x1000 sample_state = Ok ((0x500000, with_brk sample_process 0x501000), st1) /\
  syscall_sbrk (H := pmm_page_allocator true) true (with_brk sample_process 0x501000) (2 ^ 64 - 0x1000) st1 = Ok ((0x501000, sample_process), st2).
Proof.
  destruct (sbrk_roundtrip (H := pmm_page_allocator true) true sample_root sample_process sample_state _ 0x1000 sample_process_rep) as (st1 & st2 & w2 & E1 & E2 & _);
    [lia|vm_compute; congruence|intros; apply lookup_empty|vm_compute; lia|].
  exists st1, st2. split; [exact E1|exact E2].
Defined.
