(* ===== verification/Syscall.v ===== *)
(** * System calls

    The entry [syscall_stub] ([kernel/kernel/syscall_stub.asm]), the table of
    [kernel/kernel/syscall.c] and the numbers of [include/uapi/syscall.h].  The state is
    that of the scheduler, of the memory and of the serial port together.  A system call
    returns a value in [rax], or continues another process.  The calls themselves are in
    [Process] (sbrk), [Scheduler] (exit, yield) and here (serial output). *)
From Stdlib Require Import ZArith Lia.
From stdpp Require Import base tactics list numbers gmap.
From S2P Require Import Prelude Common Memory Interfaces Bitmap Pmm Vmm PageTables VmmProofs VmmTheorems KernelMemory Devices Process Scheduler ProcessHeap.

Open Scope Z_scope.

Definition SYSCALL_OK : Z := 0.
Definition SYSCALL_ERR : Z := -1.

Definition SYS_EXIT : Z := 0.
Definition SYS_SBRK : Z := 1.
Definition SYS_YIELD : Z := 2.
Definition SYS_SERIAL_PUTS : Z := 3.

Inductive SyscallHandler := handler_exit | handler_sbrk | handler_yield | handler_serial_puts.

Definition syscall_table : list SyscallHandler := [handler_exit; handler_sbrk; handler_yield; handler_serial_puts].
Definition syscall_table_count : Z := Z.of_nat (length syscall_table).

(** What the caller sees. *)
Inductive syscall_result := Returns (rax : Z) | Continues (j : cpu_jump).

Record system (S D : Type) := System {
  sys_sched : sched_state;
  sys_mem : vmm_state S;
  sys_dev : D;
}.
Arguments System {S D} sys_sched sys_mem sys_dev.
Arguments sys_sched {S D} s.
Arguments sys_mem {S D} s.
Arguments sys_dev {S D} s.

Section syscalls.
Context {S D : Type} `{PageAllocator S} `{PortIO D} (debug : bool).

Definition on_sched {A} (m : M sched_state A) : M (system S D) A := fun s =>
  match m (sys_sched s) with
  | Ok (a, x) => Ok (a, System x (sys_mem s) (sys_dev s))
  | Panic => Panic
  | Fault => Fault
  | OutOfFuel => OutOfFuel
  end.

Definition on_vmm {A} (m : M (vmm_state S) A) : M (system S D) A := fun s =>
  match m (sys_mem s) with
  | Ok (a, x) => Ok (a, System (sys_sched s) x (sys_dev s))
  | Panic => Panic
  | Fault => Fault
  | OutOfFuel => OutOfFuel
  end.

Definition on_dev {A} (m : M D A) : M (system S D) A := fun s =>
  match m (sys_dev s) with
  | Ok (a, x) => Ok (a, System (sys_sched s) (sys_mem s) x)
  | Panic => Panic
  | Fault => Fault
  | OutOfFuel => OutOfFuel
  end.

(** [while ( *s) serial_putch(serial, *s++)], reading through the page map of the
    process: at most [fuel] characters, each polled for at most [polls] times. *)
Fixpoint puts_user (fuel polls : nat) (port root s : Z) : M (system S D) unit :=
  match fuel with
  | O => fun _ => OutOfFuel
  | Datatypes.S fuel' =>
      c ← on_vmm (vm_load root s 1);
      if le_word c =? 0 then mret tt else
      _ ← on_dev (serial_putch polls port (le_word c));
      puts_user fuel' polls port root (u64 (s + 1))
  end.

(** [default] is the port of the default serial line, if it has been set. *)
Definition syscall_serial_puts (fuel polls : nat) (default : option Z) (arg : Z) : M (system S D) Z :=
  if arg =? 0 then mret SYSCALL_ERR else
  match default with
  | None => mret SYSCALL_ERR
  | Some port =>
      s ← get;
      current ← lift (deref (sys_sched s) (current_process (sys_sched s)));
      _ ← puts_user fuel polls port (pml4_phys current) arg;
      mret SYSCALL_OK
  end.

(** [syscall_sbrk] on the record of the current process. *)
Definition syscall_sbrk_current (arg : Z) : M (system S D) Z :=
  s ← get;
  current ← lift (deref (sys_sched s) (current_process (sys_sched s)));
  '(ret, current) ← on_vmm (syscall_sbrk debug current arg);
  _ ← on_sched (update (current_process (sys_sched s)) (fun _ => current));
  mret ret.

Definition call_handler (fuel polls : nat) (default : option Z) (frame : InterruptFrame) (h : SyscallHandler) (arg : Z) : M (system S D) syscall_result :=
  match h with
  | handler_exit => j ← on_sched (syscall_exit frame arg); mret (Continues j)
  | handler_sbrk => r ← syscall_sbrk_current arg; mret (Returns (u64 r))
  | handler_yield => j ← on_sched (syscall_yield frame); mret (Continues j)
  | handler_serial_puts => r ← syscall_serial_puts fuel polls default arg; mret (Returns (u64 r))
  end.

(** [cmp rax, \[syscall_table_count\]; jae .invalid; shl rax, 3; call \[syscall_table+rax\]] *)
Definition syscall_stub (fuel polls : nat) (default : option Z) (frame : InterruptFrame) (rax rdi : Z) : M (system S D) syscall_result :=
  if syscall_table_count <=? rax then mret (Returns (u64 (-1))) else
  h ← lift (rd syscall_table rax);
  call_handler fuel polls default frame h rdi.

(** ** Proofs *)

Lemma on_vmm_run {A} (m : M (vmm_state S) A) (s : system S D) a x : m (sys_mem s) = Ok (a, x) -> on_vmm m s = Ok (a, System (sys_sched s) x (sys_dev s)).
Proof. intros E. unfold on_vmm. by rewrite E. Qed.
Lemma on_dev_run {A} (m : M D A) (s : system S D) a x : m (sys_dev s) = Ok (a, x) -> on_dev m s = Ok (a, System (sys_sched s) (sys_mem s) x).
Proof. intros E. unfold on_dev. by rewrite E. Qed.
Lemma on_sched_run {A} (m : M sched_state A) (s : system S D) a x : m (sys_sched s) = Ok (a, x) -> on_sched m s = Ok (a, System x (sys_mem s) (sys_dev s)).
Proof. intros E. unfold on_sched. by rewrite E. Qed.

(** A string in the memory of a process. *)
Record user_string (w : window) (a : Z) (str : list Z) : Prop := UserString {
  us_mapped : mapped_range w a (Z.of_nat (length str) + 1);
  us_bytes : load (w_view w) a (length str + 1) = str ++ [0];
  us_nonzero : Forall (fun c => c <> 0) str;
  us_range : 0 <= a /\ a + Z.of_nat (length str) + 1 <= 2 ^ 47;
}.

Lemma user_string_tail w a c str : user_string w a (c :: str) -> user_string w (a + 1) str.
Proof.
  intros [Hm Hb Hn Hr]. cbn [length app Nat.add load] in *. split.
  - intros x Hx. apply Hm. lia.
  - unfold load in *. cbn [seq fmap list_fmap] in Hb. injection Hb as _ Hb. rewrite <- Hb, <- fmap_S_seq, <- list_fmap_compose.
    apply list_fmap_ext. intros i x _. cbn. f_equal. lia.
  - by apply list.Forall_cons in Hn as [_ Hn].
  - lia.
Qed.

Section serial.
Context (port : Z) {u : Uart D port} (root : Z).

Lemma puts_user_spec polls str : forall fuel (s : system S D) w a, vmm_rep root 0 (2 ^ 47) (sys_mem s) w -> user_string w a str ->
  (length str < fuel)%nat -> (uart_busy (sys_dev s) < polls)%nat -> (uart_busy_bound < polls)%nat ->
  exists d', puts_user fuel polls port root a s = Ok (tt, System (sys_sched s) (sys_mem s) d') /\ uart_sent d' = uart_sent (sys_dev s) ++ str.
Proof.
  induction str as [|c str IH]; intros fuel [sch st d] w a Hrep Hstr Hfuel Hd Hb; (destruct fuel as [|fuel]; [cbn in Hfuel; lia|]); cbn [puts_user sys_sched sys_mem sys_dev] in *.
  - rewrite (bind_run _ _ _ _ _ (on_vmm_run _ (System sch st d) _ _ (vmm_load_ok root 0 (2 ^ 47) user_half_region st w a 1 Hrep (us_mapped _ _ _ Hstr)))).
    change (load (w_view w) a 1) with (load (w_view w) a (length (@nil Z) + 1)). rewrite (us_bytes _ _ _ Hstr). exists d. split; [done|]. by rewrite app_nil_r.
  - assert (load (w_view w) a 1 = [c]) as Hc.
    { pose proof (us_bytes _ _ _ Hstr) as E. unfold load in *. cbn [length Nat.add app seq fmap list_fmap] in *. by injection E as -> _. }
    assert (mapped_range w a (Z.of_nat 1)) as Hm by (intros x Hx; apply (us_mapped _ _ _ Hstr); cbn [length]; lia).
    pose proof (us_nonzero _ _ _ Hstr) as Hnz. apply list.Forall_cons in Hnz as [Hnz _].
    assert (0 <= a < 2 ^ 64 - 1) as Ha by (destruct (us_range _ _ _ Hstr); lia).
    rewrite (bind_run _ _ _ _ _ (on_vmm_run _ (System sch st d) _ _ (vmm_load_ok root 0 (2 ^ 47) user_half_region st w a 1 Hrep Hm))), Hc. cbn [le_word sys_sched sys_dev].
    rewrite Z.mul_0_r, Z.add_0_r, (proj2 (Z.eqb_neq c 0)) by done.
    destruct (serial_putch_spec polls d c Hd) as (d1 & E1 & Hs1 & Hb1).
    rewrite (bind_run _ _ _ _ _ (on_dev_run _ (System sch st d) _ _ E1)), (u64_id (a + 1)) by lia. cbn [sys_sched sys_mem].
    destruct (IH fuel (System sch st d1) w (a + 1)) as (d2 & E2 & Hs2); cbn [sys_mem sys_dev length] in *; [done|by eapply user_string_tail|lia|lia|done|].
    exists d2. split; [done|]. by rewrite Hs2, Hs1, <- app_assoc.
Qed.
End serial.

(** The running process [p], at [cur], whose page map [root] the processor uses. *)
Record running (s : system S D) (cur root : Z) (p : Process) (w : window) : Prop := Running {
  ru_current : current_process (sys_sched s) = cur;
  ru_record : heap (sys_sched s) !! cur = Some p;
  ru_phys : pml4_phys p = root;
  ru_heap : heap_rep root p (sys_mem s) w;
}.

Lemma deref_running s cur root p w : running s cur root p w -> deref (sys_sched s) (current_process (sys_sched s)) = Ok p.
Proof. intros [Hc Hr _ _]. unfold deref. by rewrite Hc, Hr. Qed.

Lemma sbrk_current_run s cur root p w arg r p' st' : running s cur root p w -> syscall_sbrk debug p arg (sys_mem s) = Ok ((r, p'), st') ->
  syscall_sbrk_current arg s = Ok (r, System (set_heap (sys_sched s) (<[cur := p']> (heap (sys_sched s)))) st' (sys_dev s)).
Proof.
  intros Hrun E. pose proof Hrun as [Hc Hr _ _]. unfold syscall_sbrk_current. rewrite (bind_run get _ s s s eq_refl).
  rewrite (bind_run (lift _) _ s p s) by (unfold lift; by rewrite (deref_running s cur root p w Hrun)).
  rewrite (bind_run _ _ _ _ _ (on_vmm_run _ s _ _ E)), Hc.
  rewrite (bind_run _ _ _ tt (System (set_heap (sys_sched s) (<[cur := p']> (heap (sys_sched s)))) st' (sys_dev s))); [done|].
  apply (on_sched_run _ (System (sys_sched s) st' (sys_dev s))). unfold update. cbn [sys_sched]. rewrite (bind_run get _ _ _ _ eq_refl).
  rewrite (bind_run (lift _) _ _ p (sys_sched s)) by (unfold lift, deref; by rewrite Hr). done.
Qed.

(** C14: the system call entry, with the numbers of the user interface, for a running
    process.  [SYS_SBRK] grows its heap and returns the old end; the new record replaces
    the old one and nothing else of the scheduler changes.  [SYS_SERIAL_PUTS] with a
    string of the process transmits exactly its characters, whatever their number, and
    returns 0; with NULL, or without a serial port, it returns -1.  [SYS_EXIT] and
    [SYS_YIELD] continue with what the scheduler picks.  Every other number returns -1
    and changes nothing. *)
Theorem syscall_correct (s : system S D) (cur root : Z) (p : Process) (w : window) (fuel polls : nat) (default : option Z) (frame : InterruptFrame)
  (Hrun : running s cur root p w) :
  (forall r, 0 <= r -> brk p + r <= 2 ^ 47 ->
     (forall v, page_run (page_end (brk p)) (pages_between (brk p) (brk p + r)) v -> w_pages w !! v = None) ->
     (4 * pages_between (brk p) (brk p + r) <= w_budget w)%nat ->
     exists st' w', syscall_stub fuel polls default frame SYS_SBRK r s =
         Ok (Returns (brk p), System (set_heap (sys_sched s) (<[cur := with_brk p (brk p + r)]> (heap (sys_sched s)))) st' (sys_dev s)) /\
       heap_rep root (with_brk p (brk p + r)) st' w' /\ grown (page_end (brk p)) (pages_between (brk p) (brk p + r)) w w') /\
  (forall port (u : Uart D port) a str, user_string w a str -> a <> 0 -> (length str < fuel)%nat -> (uart_busy (sys_dev s) < polls)%nat -> (uart_busy_bound < polls)%nat ->
     exists d', syscall_stub fuel polls (Some port) frame SYS_SERIAL_PUTS a s = Ok (Returns 0, System (sys_sched s) (sys_mem s) d') /\
       uart_sent d' = uart_sent (sys_dev s) ++ str) /\
  syscall_stub fuel polls default frame SYS_SERIAL_PUTS 0 s = Ok (Returns (2 ^ 64 - 1), s) /\
  (forall arg j x, syscall_exit frame arg (sys_sched s) = Ok (j, x) ->
     syscall_stub fuel polls default frame SYS_EXIT arg s = Ok (Continues j, System x (sys_mem s) (sys_dev s))) /\
  (forall arg j x, syscall_yield frame (sys_sched s) = Ok (j, x) ->
     syscall_stub fuel polls default frame SYS_YIELD arg s = Ok (Continues j, System x (sys_mem s) (sys_dev s))) /\
  (forall number arg, 4 <= number -> syscall_stub fuel polls default frame number arg s = Ok (Returns (2 ^ 64 - 1), s)).
Proof.
  split; [|split; [|split; [|split; [|split]]]].
  - intros r Hr Hend Hun Hbud. destruct (sbrk_grow_run debug root p (sys_mem s) w r (ru_heap _ _ _ _ _ Hrun) Hr Hend Hun Hbud) as (st' & w' & E & Hrep & Hg).
    exists st', w'. split; [|done]. unfold syscall_stub. change (syscall_table_count <=? SYS_SBRK) with false. cbv iota.
    rewrite (bind_run (lift (rd syscall_table SYS_SBRK)) _ s handler_sbrk s eq_refl). cbn [call_handler]. rewrite (bind_run _ _ _ _ _ (sbrk_current_run s cur root p w r _ _ _ Hrun E)).
    rewrite u64_id by (destruct (hr_bounds _ _ _ _ (ru_heap _ _ _ _ _ Hrun)); lia). done.
  - intros port u a str Hstr Ha Hfuel Hd Hb.
    destruct (puts_user_spec port root polls str fuel s w a (hr_window _ _ _ _ (ru_heap _ _ _ _ _ Hrun)) Hstr Hfuel Hd Hb) as (d' & E & Hs).
    exists d'. split; [|done]. unfold syscall_stub. change (syscall_table_count <=? SYS_SERIAL_PUTS) with false. cbv iota.
    rewrite (bind_run (lift (rd syscall_table SYS_SERIAL_PUTS)) _ s handler_serial_puts s eq_refl). cbn [call_handler]. unfold syscall_serial_puts.
    rewrite (proj2 (Z.eqb_neq a 0)) by done. rewrite (bind_run _ _ s SYSCALL_OK (System (sys_sched s) (sys_mem s) d')); [done|].
    rewrite (bind_run get _ s s s eq_refl), (bind_run (lift _) _ s p s) by (unfold lift; by rewrite (deref_running s cur root p w Hrun)).
    by rewrite (ru_phys _ _ _ _ _ Hrun), (bind_run _ _ _ _ _ E).
  - reflexivity.
  - intros arg j x E. unfold syscall_stub. change (syscall_table_count <=? SYS_EXIT) with false. cbv iota.
    rewrite (bind_run (lift (rd syscall_table SYS_EXIT)) _ s handler_exit s eq_refl). cbn [call_handler]. by rewrite (bind_run _ _ _ _ _ (on_sched_run _ s _ _ E)).
  - intros arg j x E. unfold syscall_stub. change (syscall_table_count <=? SYS_YIELD) with false. cbv iota.
    rewrite (bind_run (lift (rd syscall_table SYS_YIELD)) _ s handler_yield s eq_refl). cbn [call_handler]. by rewrite (bind_run _ _ _ _ _ (on_sched_run _ s _ _ E)).
  - intros number arg Hn. unfold syscall_stub. by rewrite (proj2 (Z.leb_le syscall_table_count number)) by (change syscall_table_count with 4; lia).
Qed.
End syscalls.

(** ** Witness: the process of [ProcessHeap] asks for a page *)

Definition sample_frame : InterruptFrame :=
  {| registers := {| r_rax := 0; r_rbx := 0; r_rcx := 0; r_rdx := 0; r_rsi := 0; r_rdi := 0; r_rbp := 0; r_r8 := 0; r_r9 := 0; r_r10 := 0; r_r11 := 0;
       r_r12 := 0; r_r13 := 0; r_r14 := 0; r_r15 := 0 |};
     int_no := 0xFF; err_code := 0; iret_frame := {| i_rip := 0; i_cs := 8; i_rflags := 0x200; i_rsp := 0; i_ss := 0x10 |} |}.

Definition sample_system : system pmm_state bus :=
  System (Sched {[0x900000 := sample_process]} (replicate 32 0) (replicate 32 0) 0 0 0x900000 0 sample_frame 0) sample_state reset_bus.

Lemma syscall_correct_witness : exists st',
  syscall_stub (H := pmm_page_allocator true) true 0 0 None sample_frame SYS_SBRK 0x1000 sample_system =
    Ok (Returns 0x500000, System (set_heap (sys_sched sample_system) {[0x900000 := with_brk sample_process 0x501000]}) st' reset_bus).
Proof.
  destruct (syscall_correct (H := pmm_page_allocator true) true sample_system 0x900000 sample_root sample_process (Window ∅ ∅ (fun _ => 0) 8) 0 0 None sample_frame) as (Hgrow & _).
  { split; [reflexivity|apply lookup_singleton_eq|reflexivity|exact sample_process_rep]. }
  destruct (Hgrow 0x1000) as (st' & w' & E & _); [lia|vm_compute; congruence|intros; apply lookup_empty|vm_compute; lia|].
  exists st'. rewrite E. cbn [sys_sched sample_system heap]. by rewrite insert_singleton_eq.
Defined.
