(* ===== verification/ProcessSpace.v ===== *)
(** * The address space of a new process

    What [process_create] ([kernel/kernel/process.c]) builds: the kernel's half of the
    kernel's own page map, shared, and fresh pages for the stacks.  The page map of the
    process may already hold the pages of its program. *)
From Stdlib Require Import ZArith Lia.
From stdpp Require Import base tactics list numbers gmap.
From S2P Require Import Prelude Common Memory Interfaces Bitmap Pmm Vmm Process PageTables VmmProofs VmmTheorems KernelMemory AddressSpace.

Open Scope Z_scope.

Section spaces.
Context {S : Type} `{PageAllocator S} (debug : bool).
Implicit Types (T : gmap Z nat) (W : Z -> option (nat * Z)) (F : list Z) (st : vmm_state S).

(** ** Mapping fresh pages

    From [st0], whose tables are [T0], fresh frames [F] have been mapped and tables
    have been added: [st] translates by [W], no frame or table that was in use before
    has been taken, and neither the memory in use nor the links of [T0] have changed.  The
    pages taken are the frames and new tables on the way to pages mapped since. *)
Record building T0 st0 (root : Z) W F (b : nat) st : Prop := Building {
  bd_tables : exists T, as_wf T st root /\ T0 ⊆ T /\ (forall p n, T !! p = Some n -> T0 !! p = None -> pa_is_free (vs_alloc st0) p) /\
    Forall (fun p => T !! p = None) F /\
    (forall p, pa_is_free (vs_alloc st0) p -> pa_is_free (vs_alloc st) p \/ p ∈ F \/ is_Some (T !! p)) /\
    (forall p n, T !! p = Some n -> T0 !! p = None ->
       exists v, path (vs_ram st) root v n p /\ walk (vs_ram st0) 4 root v = None /\ W v <> None) /\
    (forall p n j k, T !! p = Some n -> 0 <= j < 512 -> is_link n (entry (vs_ram st) p j) = true ->
       T0 !! entry_addr (entry (vs_ram st) p j) = Some k -> T0 !! p = Some n /\ entry (vs_ram st0) p j = entry (vs_ram st) p j);
  bd_mono : forall v, W v = None -> walk (vs_ram st0) 4 root v = None;
  bd_managed : forall p, pa_managed (vs_alloc st) p <-> pa_managed (vs_alloc st0) p;
  bd_walk : forall v, walk (vs_ram st) 4 root v = W v;
  bd_budget : free_at_least b st;
  bd_free : forall p, pa_is_free (vs_alloc st) p -> pa_is_free (vs_alloc st0) p;
  bd_frames : NoDup F /\ Forall (fun p => pa_is_free (vs_alloc st0) p /\ ~ pa_is_free (vs_alloc st) p) F;
  bd_kept : forall p o, is_page p -> 0 <= o < 4096 -> ~ pa_is_free (vs_alloc st0) p -> T0 !! p = None ->
    vs_ram st (p + o) = vs_ram st0 (p + o);
  bd_links : forall p n j, T0 !! p = Some n -> (1 < n)%nat -> 0 <= j < 512 -> entry (vs_ram st0) p j <> 0 ->
    entry (vs_ram st) p j = entry (vs_ram st0) p j;
}.

Lemma building_start T st root W b : as_wf T st root -> (forall v, walk (vs_ram st) 4 root v = W v) -> free_at_least b st ->
  building T st root W [] b st.
Proof.
  intros Hwf HW Hb. split; try done.
  - exists T. split; [done|]. split; [done|]. split; [by intros p n ->|]. split; [constructor|]. split; [by left|].
    split; [by intros p n ->|done].
  - intros v Hv. by rewrite HW.
  - split; constructor.
Qed.

(** Allocating leaves the tables as they are. *)
Lemma alloc_wf T st root p al : as_wf T st root -> pa_alloc (vs_alloc st) = Ok (p, al) -> as_wf T (VmmState al (vs_ram st)) root.
Proof.
  intros Hwf Hrun. destruct (pa_alloc_Ok _ _ _ (wf_alloc _ _ _ Hwf) Hrun) as (Hal & _ & _ & Hfr & _).
  destruct Hwf as [_ Hram Hroot Ht Hen Hin]. split; cbn [vs_alloc vs_ram]; try done.
  intros q n Hq. destruct (Ht q n Hq) as (? & ? & ?). split; [done|]. split; [|done]. rewrite Hfr. tauto.
Qed.

(** Taking a frame, and mapping it. *)
Lemma build_alloc T0 st0 root W F b st : building T0 st0 root W F b st -> (1 <= b)%nat ->
  exists p st', with_alloc pa_alloc st = Ok (p, st') /\ is_page p /\ building T0 st0 root W (F ++ [p]) (b - 1) st'.
Proof.
  intros [(T & Hwf & Hsub & Hnew & HF & Hall & Hpath & Hold) Hmono Hman HW Hb Hfree [Hnd Hfr] Hkept Hlinks] Hb1.
  destruct (pa_alloc_spec (vs_alloc st) (wf_alloc _ _ _ Hwf)) as [(p & al & Hrun & Hal & Hp & Hfr1 & Hmg)|[_ Hno]].
  2: { destruct Hb as ([|q l] & _ & Hl & Hl'); cbn in Hl; [lia|]. apply list.Forall_cons in Hl' as [Hq _]. by destruct (Hno q). }
  exists p, (VmmState al (vs_ram st)). split; [unfold with_alloc; by rewrite Hrun|].
  split; [apply (pa_managed_page _ p (wf_alloc _ _ _ Hwf)), (pa_free_managed _ p (wf_alloc _ _ _ Hwf)), Hp|].
  rewrite list.Forall_forall in HF, Hfr. split; cbn [vs_alloc vs_ram]; try done.
  - exists T. split; [by eapply alloc_wf|]. split; [done|]. split; [done|]. split; [|split; [|done]].
    + apply list.Forall_app. split; [by apply list.Forall_forall|].
      apply list.Forall_singleton. destruct (T !! p) eqn:E; [|done]. by apply (wf_table _ _ _ Hwf) in E as (_ & ? & _).
    + intros q Hq. rewrite Hfr1, elem_of_app, list_elem_of_singleton. destruct (decide (q = p)); [tauto|]. destruct (Hall q Hq) as [?|[?|?]]; tauto.
  - intros q. by rewrite Hmg.
  - apply (free_shrink st _ b 1 {[p]}); [done|by rewrite size_singleton|]. cbn [vs_alloc]. intros q Hq Hne. apply Hfr1. set_solver.
  - intros q [Hq _]%Hfr1. by apply Hfree.
  - split.
    + apply list.NoDup_app. split; [done|]. split; [|apply NoDup_singleton]. intros q Hq ->%list_elem_of_singleton. by apply Hfr in Hq as [_ ?].
    + apply list.Forall_app. split; [|apply list.Forall_singleton; split; [by apply Hfree|rewrite Hfr1; tauto]].
      apply list.Forall_forall. intros q Hq. destruct (Hfr q Hq) as [? Hn]. split; [done|]. rewrite Hfr1. tauto.
Qed.

Lemma build_map T0 st0 root W F b st p s f : building T0 st0 root W F b st -> p ∈ F -> is_page p -> flags_ok f -> s mod 4096 = 0 -> W s = None ->
  (3 <= b)%nat ->
  exists st', vmm_map debug (phys_to_virt root) p s f st = Ok (tt, st') /\
    building T0 st0 root (set_page 1 s (Some (1%nat, Z.lor p f)) W) F (b - 3) st'.
Proof.
  intros [(T & Hwf & Hsub & Hnew & HF & Hall & Hpath & Hold) Hmono Hman HW Hb Hfree [Hnd Hfr] Hkept Hlinks] Hp Hpg Hf Hs Hnone Hb3.
  destruct (vmm_map_remaps debug T st root p s f) as (st2 & Hrun & T2 & Hwf2 & Hsub2 & Hwalk2 & Hfree2 & Hram2 & Hman2 & Hsz2 & _ & Hnew2 & Hlinks2 & Hpath2 & Hold2).
  { split; try done.
    - destruct Hpg as [? ?]. split; [lia|]. by change (2 ^ level_shift 1) with 4096.
    - intros n e E. by rewrite HW, Hnone in E.
    - destruct Hb as (l & Hndl & Hl & Hfl). exists (take 3 l). rewrite <- (take_drop 3 l), list.NoDup_app in Hndl.
      split; [apply Hndl|]. split; [rewrite length_take; lia|by apply Forall_take].
    - intros _. split; [done|]. split; [by rewrite HW|]. intros q Hq. inversion Hq; lia. }
  exists st2. split; [done|]. rewrite list.Forall_forall in HF, Hfr.
  assert (forall q n, T2 !! q = Some n -> T !! q = None -> pa_is_free (vs_alloc st) q) as Hn2 by (intros q n Hq E; by apply (Hnew2 q n Hq)).
  assert (forall q n, T2 !! q = Some n -> T0 !! q = None -> pa_is_free (vs_alloc st0) q) as Hn0.
  { intros q n Hq Hq0. destruct (T !! q) as [n'|] eqn:E; [by eapply Hnew|]. by apply Hfree, (Hn2 q n). }
  split; try done.
  - exists T2. split; [done|]. split; [by trans T|]. split; [done|]. split; [|split; [|split]].
    + apply list.Forall_forall. intros q Hq.
      destruct (T2 !! q) as [n|] eqn:E; [|done]. apply (Hn2 q n) in E; [|by apply HF]. by apply Hfr in Hq as [_ ?].
    + intros q Hq. destruct (T2 !! q) as [n|] eqn:E; [right; right; eauto|]. destruct (Hall q Hq) as [?|[?|[n Hn]]]; [left; by apply Hfree2|tauto|].
      by rewrite (lookup_weaken _ _ _ _ Hn Hsub2) in E.
    + intros q n Hq Hq0. destruct (T !! q) as [n'|] eqn:E.
      * pose proof (lookup_weaken _ _ _ _ E Hsub2). assert (n' = n) as -> by congruence. destruct (Hpath q n E Hq0) as (v & Hv & Hv0 & HWv).
        exists v. split; [|split; [done|]].
        { pose proof (wf_table _ _ _ Hwf _ _ E) as (_ & _ & Hn). clear - Hv Hlinks2 Hwf Hn.
          induction Hv as [|n q Hv IH Hn1 Hl]; [constructor|]. assert (1 <= Datatypes.S n <= 4)%nat as Hn' by (apply path_le4 in Hv; lia).
          rewrite <- (Hlinks2 q (Datatypes.S n)); [|by eapply path_table|lia|apply level_idx_range|by intros E; rewrite E in Hl].
          constructor; [by apply IH|done|]. rewrite (Hlinks2 q (Datatypes.S n)); [done|by eapply path_table|lia|apply level_idx_range|by intros E; rewrite E in Hl]. }
        unfold set_page. by case_decide.
      * exists s. split; [by apply Hpath2|]. split; [by apply Hmono|]. unfold set_page. by rewrite decide_True.
    + intros q n j k Hq Hj Hl Hk. destruct (Hold2 q n j k Hq Hj Hl) as [Hq1 E1]; [by eapply lookup_weaken|]. rewrite <- E1 in Hl, Hk |- *.
      by apply (Hold q n j k).
  - intros v. unfold set_page. case_decide; [done|]. apply Hmono.
  - intros q. by rewrite Hman2.
  - intros v. rewrite Hwalk2. unfold set_page. case_decide; [done|]. apply HW.
  - apply (free_shrink st st2 b 3 (dom T2 ∖ dom T)); [done| |].
    + pose proof (subseteq_dom T T2 Hsub2). rewrite size_difference, !size_dom by done. lia.
    + intros q Hq Hn. apply Hfree2. split; [done|]. apply not_elem_of_dom. intros Hd. apply Hn, elem_of_difference. split; [done|].
      rewrite elem_of_dom. intros [n E]. by apply (wf_table _ _ _ Hwf) in E as (_ & ? & _).
  - intros q [Hq _]%Hfree2. by apply Hfree.
  - split; [done|]. apply list.Forall_forall. intros q Hq. destruct (Hfr q Hq) as [? Hn]. split; [done|]. by intros [? _]%Hfree2.
  - intros q o Hqp Ho Hq HT0q. rewrite Hram2; [by apply Hkept|]. intros q' n Hq' Hin.
    pose proof (wf_table _ _ _ Hwf2 _ _ Hq') as (Hq'p & _ & _).
    destruct (page_offset_inj q q' o (q + o - q')) as [-> _]; [done..|lia|lia|]. by apply Hq, (Hn0 q' n).
  - intros q n j Hq Hn Hj Hnz. pose proof (Hlinks q n j Hq Hn Hj Hnz) as E. rewrite <- E.
    apply (Hlinks2 q n j); [by eapply lookup_weaken|done..|]. by rewrite E.
Qed.

(** [W] with the frames [G] mapped at the pages from [a] on. *)
Fixpoint mapped_view (a : Z) (G : list Z) (f : Z) W : Z -> option (nat * Z) :=
  match G with
  | [] => W
  | p :: G' => mapped_view (a + 4096) G' f (set_page 1 a (Some (1%nat, Z.lor p f)) W)
  end.

Lemma vpn_step_pages a k : a mod 4096 = 0 -> 0 < k < 2 ^ 36 -> vpn 1 (a + k * 4096) <> vpn 1 a.
Proof. intros Ha Hk. unfold vpn. change (2 ^ level_shift 1) with 4096. change (2 ^ (9 * (5 - Z.of_nat 1))) with (2 ^ 36). rewrite Z.div_add by lia. dlia. Qed.

Lemma mapped_view_out G f : forall a W v, (forall k : nat, (k < length G)%nat -> vpn 1 v <> vpn 1 (a + Z.of_nat k * 4096)) ->
  mapped_view a G f W v = W v.
Proof.
  induction G as [|p G IH]; intros a W v Hv; [done|]. cbn [mapped_view]. rewrite IH.
  - unfold set_page. rewrite decide_False; [done|]. specialize (Hv 0%nat). cbn [length] in Hv. rewrite Z.mul_0_l, Z.add_0_r in Hv. apply Hv. lia.
  - intros k Hk. specialize (Hv (Datatypes.S k)). cbn [length] in Hv. replace (a + 4096 + Z.of_nat k * 4096) with (a + Z.of_nat (Datatypes.S k) * 4096) by lia. apply Hv. lia.
Qed.

Lemma mapped_view_in G f : forall a W v k p, a mod 4096 = 0 -> Z.of_nat (length G) < 2 ^ 36 -> G !! k = Some p -> vpn 1 v = vpn 1 (a + Z.of_nat k * 4096) ->
  mapped_view a G f W v = Some (1%nat, Z.lor p f).
Proof.
  induction G as [|q G IH]; intros a W v k p Ha Hlen Hk Hv; [done|]. cbn [mapped_view length] in *. destruct k as [|k]; cbn in Hk.
  - injection Hk as ->. rewrite Z.mul_0_l, Z.add_0_r in Hv. rewrite mapped_view_out; [unfold set_page; by rewrite decide_True|].
    intros k Hk E. rewrite Hv in E. apply (vpn_step_pages a (Z.of_nat (Datatypes.S k))); [done|lia|].
    rewrite E. f_equal. lia.
  - apply (IH _ _ _ k p); [clear - Ha; dlia|lia|done|]. rewrite Hv. f_equal. lia.
Qed.

Lemma map_pages_run T0 st0 root f n : forall W F b st a, building T0 st0 root W F b st -> flags_ok f -> a mod 4096 = 0 ->
  (forall k : nat, (k < n)%nat -> W (a + Z.of_nat k * 4096) = None) -> (4 * n <= b)%nat -> Z.of_nat n < 2 ^ 36 ->
  exists G st', iter_for n a VMM_DEFAULT_PAGE_SIZE (fun s => stack_phys ← with_alloc pa_alloc; vmm_map debug (phys_to_virt root) stack_phys s f) st = Ok (tt, st') /\
    length G = n /\ Forall is_page G /\ building T0 st0 root (mapped_view a G f W) (F ++ G) (b - 4 * n) st'.
Proof.
  induction n as [|n IH]; intros W F b st a HB Hf Ha Hnone Hb Hlen; cbn [iter_for].
  { exists [], st. rewrite app_nil_r, Nat.sub_0_r. split; [done|]. split; [done|]. split; [constructor|done]. }
  destruct (build_alloc T0 st0 root W F b st HB) as (p & st1 & E1 & Hp & HB1); [lia|].
  destruct (build_map T0 st0 root W (F ++ [p]) (b - 1) st1 p a f HB1) as (st2 & E2 & HB2); try done.
  { apply elem_of_app. right. by apply list_elem_of_singleton. }
  { specialize (Hnone 0%nat). rewrite Z.mul_0_l, Z.add_0_r in Hnone. apply Hnone. lia. }
  { lia. }
  destruct (IH _ _ _ st2 (a + 4096) HB2 Hf) as (G & st3 & E3 & HG & HGp & HB3); try lia.
  { clear - Ha. dlia. }
  { intros k Hk. unfold set_page. replace (a + 4096 + Z.of_nat k * 4096) with (a + Z.of_nat (Datatypes.S k) * 4096) by lia.
    rewrite decide_False; [apply Hnone; lia|]. apply vpn_step_pages; [done|lia]. }
  exists (p :: G), st3. rewrite (bind_run _ _ st tt st2) by (by rewrite (bind_run _ _ _ _ _ E1)). split; [exact E3|].
  split; [cbn; lia|]. split; [by constructor|]. cbn [mapped_view]. rewrite <- app_assoc in HB3.
  replace (b - 4 * Datatypes.S n)%nat with (b - 1 - 3 - 4 * n)%nat by lia. exact HB3.
Qed.

(** ** Sharing the kernel's half *)

Lemma walk_below T st root (m' : mem) v : as_wf T st root ->
  (forall p n j, T !! p = Some n -> (n <= 3)%nat -> 0 <= j < 512 -> entry m' p j = entry (vs_ram st) p j) ->
  forall n p, (n <= 3)%nat -> T !! p = Some n -> walk m' n p v = walk (vs_ram st) n p v.
Proof.
  intros Hwf Hm. induction n as [|n IH]; intros p Hn Hp; [done|]. cbn [walk]. pose proof (level_idx_range (Datatypes.S n) v) as Hi.
  rewrite (Hm p (Datatypes.S n)) by done. destruct (present _) eqn:Epr; [|done]. cbn [negb].
  destruct (is_leaf _ _) eqn:El; [done|]. apply IH; [lia|].
  destruct (wf_entry _ _ _ Hwf p (Datatypes.S n) _ Hp Hi) as [E|[[_ E]|[_ E]]]; [by rewrite E in Epr|congruence|].
  by replace (Datatypes.S n - 1)%nat with n in E by lia.
Qed.

Lemma link_target T st root p n j : as_wf T st root -> T !! p = Some n -> 0 <= j < 512 -> is_link n (entry (vs_ram st) p j) = true ->
  T !! entry_addr (entry (vs_ram st) p j) = Some (n - 1)%nat.
Proof.
  intros Hwf Hp Hj Hl. destruct (wf_entry _ _ _ Hwf p n j Hp Hj) as [E|[[_ E]|[_ E]]]; [by rewrite E in Hl| |done].
  unfold is_link in Hl. by rewrite E, andb_false_r in Hl.
Qed.

(** The state after the loop that copies the upper entries of [kroot] to [root]. *)
Record copied_half (root kroot : Z) st (m' : mem) : Prop := CopiedHalf {
  ch_entry : forall j, 0 <= j < 512 -> entry m' root j = if 256 <=? j then entry (vs_ram st) kroot j else entry (vs_ram st) root j;
  ch_other : forall x, ~ root <= x < root + 4096 -> m' x = vs_ram st x;
  ch_ok : mem_ok m';
}.

Lemma page_apart p q x : is_page p -> is_page q -> p <> q -> p <= x < p + 4096 -> ~ q <= x < q + 4096.
Proof. intros [_ Hp] [_ Hq] Hne Hx. unfold PAGE_SIZE in *. clear - Hp Hq Hne Hx. dlia. Qed.

Lemma ch_other_entry root kroot st m' q j : copied_half root kroot st m' -> is_page root -> is_page q -> q <> root -> 0 <= j < 512 ->
  entry m' q j = entry (vs_ram st) q j.
Proof.
  intros Hc Hr Hq Hne Hj. apply load64_ext. intros x Hx. apply (ch_other _ _ _ _ Hc). apply (page_apart q); [done..|]. lia.
Qed.

Lemma copy_half_run root kroot st : is_page root -> is_page kroot -> root <> kroot -> mem_ok (vs_ram st) ->
  exists m', for_range 256 512 1 (fun i => e ← tbl_get (phys_to_virt kroot) i; tbl_set (phys_to_virt root) i e) st = Ok (tt, VmmState (vs_alloc st) m') /\
    copied_half root kroot st m'.
Proof.
  intros Hr Hk Hne Hok. unfold for_range. change (for_count 256 512 1) with 256%nat.
  destruct (iter_for_inv (fun i st' => 256 <= i /\ vs_alloc st' = vs_alloc st /\ mem_ok (vs_ram st') /\
    (forall j, 0 <= j < 512 -> entry (vs_ram st') root j = if (256 <=? j) && (j <? i) then entry (vs_ram st) kroot j else entry (vs_ram st) root j) /\
    (forall x, ~ root <= x < root + 4096 -> vs_ram st' x = vs_ram st x)) 1
    (fun i => e ← tbl_get (phys_to_virt kroot) i; tbl_set (phys_to_virt root) i e) 256 256 st) as ([al m'] & Hrun & _ & Hal & Hm & He & Ho).
  - split; [lia|]. split; [done|]. split; [done|]. split; [|done]. intros j Hj.
    destruct (Z.leb_spec 256 j), (Z.ltb_spec j 256); cbn [andb]; lia || done.
  - intros i st1 (k & Hki & ->) (_ & Hal & Hm & He & Ho). set (i := 256 + Z.of_nat k * 1) in *. assert (256 <= i < 512) as Hi by lia.
    rewrite (bind_run _ _ _ _ _ (tbl_get_run st1 kroot i Hk ltac:(lia))), tbl_set_run by (done || lia).
    assert (entry (vs_ram st1) kroot i = entry (vs_ram st) kroot i) as Ek.
    { apply load64_ext. intros x Hx. apply Ho, (page_apart kroot); [done..|]. lia. }
    eexists. split; [done|]. cbn [vs_alloc vs_ram]. split; [lia|]. split; [done|]. split; [by apply store64_ok|]. split.
    + intros j Hj. destruct (decide (j = i)) as [->|Hji].
      * rewrite entry_store_same, Ek, (proj2 (Z.leb_le _ _)), (proj2 (Z.ltb_lt _ _)) by (lia || apply load64_range, Hm). done.
      * rewrite entry_store_other, He by (done || lia || congruence).
        destruct (Z.leb_spec 256 j), (Z.ltb_spec j i), (Z.ltb_spec j (i + 1)); cbn [andb]; lia || done.
    + intros x Hx. rewrite <- Ho by done. apply store_out. rewrite length_le_bytes. lia.
  - cbn [vs_alloc vs_ram] in *. subst al. exists m'. split; [exact Hrun|]. split; [|done..]. intros j Hj. rewrite He by done.
    change (256 + Z.of_nat 256 * 1) with 512. rewrite (proj2 (Z.ltb_lt j 512)) by lia. by rewrite andb_true_r.
Qed.

(** Two page maps with separate tables, the upper half of the first empty. *)
Record separate T Tk st (root kroot : Z) : Prop := Separate {
  se_wf : as_wf T st root;
  se_kernel : as_wf Tk st kroot;
  se_disjoint : T ##ₘ Tk;
}.

(** The tables of the process once it shares the kernel's half. *)
Definition shared_tables T Tk (kroot : Z) : gmap Z nat := T ∪ delete kroot Tk.

Section share.
Context (T Tk : gmap Z nat) (root kroot : Z) (st : vmm_state S) (m' : mem).
Context (Hsep : separate T Tk st root kroot) (Hcp : copied_half root kroot st m').

Lemma shared_root : is_page root /\ T !! root = Some 4%nat /\ Tk !! root = None /\ is_page kroot /\ Tk !! kroot = Some 4%nat /\ root <> kroot.
Proof using Hsep.
  destruct Hsep as [Hwf Hk Hd]. pose proof (wf_root _ _ _ Hwf) as Hr. pose proof (wf_root _ _ _ Hk) as Hkr.
  assert (Tk !! root = None) as Hn by (by eapply map_disjoint_Some_l). split; [by eapply (wf_table _ _ _ Hwf)|]. split; [done|]. split; [done|].
  split; [by eapply (wf_table _ _ _ Hk)|]. split; [done|]. intros E. rewrite <- E in Hkr. congruence.
Qed.

Lemma shared_lookup p n : shared_tables T Tk kroot !! p = Some n <-> T !! p = Some n \/ (Tk !! p = Some n /\ p <> kroot).
Proof using Hsep.
  unfold shared_tables. rewrite lookup_union_Some by (apply map_disjoint_delete_r, Hsep). rewrite lookup_delete_Some. naive_solver.
Qed.

(** Where an entry of the shared tables comes from. *)
Lemma entry_origin p n j : shared_tables T Tk kroot !! p = Some n -> 0 <= j < 512 ->
  (T !! p = Some n /\ entry m' p j = entry (vs_ram st) p j) \/
  (exists p0, Tk !! p0 = Some n /\ entry m' p j = entry (vs_ram st) p0 j /\ ((p0 = p /\ p <> kroot /\ p <> root) \/ (p0 = kroot /\ p = root))).
Proof using Hsep Hcp.
  destruct shared_root as (Hrp & Hr & Hkr & Hkp & Hk & Hne). intros [Hp|[Hp Hpk]]%shared_lookup Hj.
  - destruct (decide (p = root)) as [->|Hpr].
    + rewrite (ch_entry _ _ _ _ Hcp j Hj). destruct (Z.leb_spec 256 j); [|by left].
      right. exists kroot. split; [congruence|]. split; [done|]. by right.
    + left. split; [done|]. apply (ch_other_entry root kroot st m'); try done. by eapply (wf_table _ _ _ (se_wf _ _ _ _ _ Hsep)).
  - right. exists p. assert (p <> root) as Hpr by congruence. split; [done|]. split; [|by left].
    apply (ch_other_entry root kroot st m'); try done. by eapply (wf_table _ _ _ (se_kernel _ _ _ _ _ Hsep)).
Qed.

Lemma share_wf : as_wf (shared_tables T Tk kroot) (VmmState (vs_alloc st) m') root.
Proof using Hsep Hcp.
  pose proof Hsep as [Hwf Hk Hd]. destruct shared_root as (Hrp & Hr & Hkr & Hkp & Hkk & Hne).
  assert (forall p n j, Tk !! p = Some n -> 0 <= j < 512 -> is_link n (entry (vs_ram st) p j) = true ->
    shared_tables T Tk kroot !! entry_addr (entry (vs_ram st) p j) = Some (n - 1)%nat) as Hkl.
  { intros p n j Hp Hj Hl. pose proof (link_target _ _ _ _ _ _ Hk Hp Hj Hl) as E. apply shared_lookup. right. split; [done|].
    intros E'. rewrite E', Hkk in E. injection E as E. apply (wf_table _ _ _ Hk) in Hp as (_ & _ & ?). lia. }
  split; cbn [vs_alloc vs_ram].
  - apply Hwf.
  - apply Hcp.
  - apply shared_lookup. by left.
  - intros p n [Hp|[Hp _]]%shared_lookup; [by eapply (wf_table _ _ _ Hwf)|by eapply (wf_table _ _ _ Hk)].
  - intros p n j Hp Hj. destruct (entry_origin p n j Hp Hj) as [[Hp0 ->]|(p0 & Hp0 & -> & _)].
    + destruct (wf_entry _ _ _ Hwf p n j Hp0 Hj) as [E|[E|[E1 E2]]]; [by left|by right; left|]. right. right. split; [done|].
      apply shared_lookup. by left.
    + destruct (wf_entry _ _ _ Hk p0 n j Hp0 Hj) as [E|[E|[E1 E2]]]; [by left|by right; left|]. right. right. split; [done|]. by apply Hkl.
  - intros p n j p' n' j' Hp Hp' Hn Hn' Hj Hj' Hl Hl'.
    destruct (entry_origin p n j Hp Hj) as [[Hp0 E0]|(p0 & Hp0 & E0 & Ho)], (entry_origin p' n' j' Hp' Hj') as [[Hp1 E1]|(p1 & Hp1 & E1 & Ho')];
      rewrite E0 in Hl |- *; rewrite E1 in Hl' |- *; intros E.
    + by apply (wf_inj _ _ _ Hwf p n j p' n' j').
    + pose proof (link_target _ _ _ _ _ _ Hwf Hp0 Hj Hl) as Hx. rewrite E in Hx. apply (map_disjoint_Some_l _ _ _ _ Hd) in Hx.
      by rewrite (link_target _ _ _ _ _ _ Hk Hp1 Hj' Hl') in Hx.
    + pose proof (link_target _ _ _ _ _ _ Hwf Hp1 Hj' Hl') as Hx. rewrite <- E in Hx. apply (map_disjoint_Some_l _ _ _ _ Hd) in Hx.
      by rewrite (link_target _ _ _ _ _ _ Hk Hp0 Hj Hl) in Hx.
    + destruct (wf_inj _ _ _ Hk p0 n j p1 n' j' Hp0 Hp1 Hn Hn' Hj Hj' Hl Hl' E) as [-> ->].
      destruct Ho as [(-> & ? & ?)|[-> ->]], Ho' as [(-> & ? & ?)|[? ->]]; naive_solver.
Qed.

Lemma share_walk v : walk m' 4 root v = walk (vs_ram st) 4 (if 256 <=? level_idx 4 v then kroot else root) v.
Proof using Hsep Hcp.
  pose proof Hsep as [Hwf Hk Hd]. destruct shared_root as (Hrp & Hr & Hkr & Hkp & Hkk & Hne). pose proof (level_idx_range 4 v) as Hi.
  set (r := if 256 <=? level_idx 4 v then kroot else root).
  assert (entry m' root (level_idx 4 v) = entry (vs_ram st) r (level_idx 4 v)) as E.
  { rewrite (ch_entry _ _ _ _ Hcp) by done. unfold r. by destruct (256 <=? level_idx 4 v). }
  assert (exists T0, as_wf T0 st r /\ T0 !! r = Some 4%nat /\
    (forall p n j, T0 !! p = Some n -> (n <= 3)%nat -> 0 <= j < 512 -> entry m' p j = entry (vs_ram st) p j)) as (T0 & Hwf0 & Hr0 & H0).
  { unfold r. destruct (256 <=? level_idx 4 v); [exists Tk|exists T]; (split; [done|]); (split; [done|]); intros p n j Hp Hn Hj;
      apply (ch_other_entry root kroot st m'); try done.
    - by eapply (wf_table _ _ _ Hk).
    - congruence.
    - by eapply (wf_table _ _ _ Hwf).
    - intros ->. rewrite Hr in Hp. injection Hp as <-. lia. }
  cbn [walk]. rewrite E. destruct (present _) eqn:Epr; [|done]. cbn [negb]. destruct (is_leaf 4 _) eqn:El; [done|].
  apply (walk_below T0 st r m' v Hwf0 H0 3); [lia|]. apply (link_target _ _ _ _ _ _ Hwf0 Hr0 Hi). unfold is_link. by rewrite Epr, El.
Qed.
End share.

(** The kernel's own page map after more has been built on the shared tables. *)
Lemma kernel_walk_kept T Tk root kroot st m' W F b st' v :
  separate T Tk st root kroot -> copied_half root kroot st m' ->
  building (shared_tables T Tk kroot) (VmmState (vs_alloc st) m') root W F b st' ->
  W v = walk (vs_ram st) 4 kroot v \/ entry (vs_ram st) kroot (level_idx 4 v) = 0 -> 256 <= level_idx 4 v \/ entry (vs_ram st) kroot (level_idx 4 v) = 0 ->
  walk (vs_ram st') 4 kroot v = walk (vs_ram st) 4 kroot v.
Proof.
  intros Hsep Hcp HB HW Hup. destruct (shared_root T Tk root kroot st Hsep) as (Hrp & Hr & Hkr & Hkp & Hkk & Hne).
  pose proof (level_idx_range 4 v) as Hi. set (j := level_idx 4 v) in *.
  assert (shared_tables T Tk kroot !! kroot = None) as HnT.
  { destruct (shared_tables T Tk kroot !! kroot) as [n|] eqn:E; [|done]. apply (shared_lookup T Tk root kroot st Hsep) in E as [E|[_ E]]; [|done].
    by rewrite (map_disjoint_Some_l _ _ _ _ (se_disjoint _ _ _ _ _ Hsep) E) in Hkk. }
  assert (entry (vs_ram st') kroot j = entry (vs_ram st) kroot j) as Ek.
  { rewrite <- (ch_other_entry root kroot st m' kroot j) by (done || congruence). apply load64_ext. intros x Hx.
    replace x with (kroot + (x - kroot)) by lia. apply (bd_kept _ _ _ _ _ _ _ HB); [done|lia| |done].
    cbn [vs_alloc]. by apply (wf_table _ _ _ (se_kernel _ _ _ _ _ Hsep) kroot 4). }
  destruct (decide (entry (vs_ram st) kroot j = 0)) as [E0|Hnz].
  { cbn [walk]. fold j. by rewrite Ek, E0. }
  destruct HW as [HW|?]; [|done]. destruct Hup as [Hup|?]; [|done].
  assert (entry m' root j = entry (vs_ram st) kroot j) as Er by (by rewrite (ch_entry _ _ _ _ Hcp), (proj2 (Z.leb_le 256 j)) by done).
  assert (entry (vs_ram st') root j = entry (vs_ram st) kroot j) as Er'.
  { rewrite <- Er. apply (bd_links _ _ _ _ _ _ _ HB root 4); [|lia|done|cbn [vs_ram]; by rewrite Er].
    apply (shared_lookup T Tk root kroot st Hsep). by left. }
  rewrite <- HW, <- (bd_walk _ _ _ _ _ _ _ HB v). cbn [walk]. fold j. by rewrite Ek, Er'.
Qed.

(** ** [process_create] *)

Lemma idx4_vpn v : level_idx 4 v = vpn 1 v / 2 ^ 27.
Proof. rewrite level_idx_div by lia. unfold vpn. change (2 ^ level_shift 4) with (2 ^ 39). change (2 ^ level_shift 1) with (2 ^ 12). change (2 ^ (9 * (5 - Z.of_nat 1))) with (2 ^ 36). dlia. Qed.

Lemma idx4_user v : 0 <= v < 2 ^ 47 -> level_idx 4 v < 256.
Proof. intros Hv. rewrite level_idx_div by lia. change (2 ^ level_shift 4) with (2 ^ 39). dlia. Qed.

(** The pages of the kernel stack lie in slot 510 of the page map. *)
Definition kernel_stack_start : Z := PROCESS_VIRT_KERNEL_STACK_TOP - PROCESS_DEFAULT_KERNEL_STACK_SIZE.

Lemma kernel_stack_idx4 (k : nat) : (k < 4)%nat -> level_idx 4 (kernel_stack_start + Z.of_nat k * 4096) = 510.
Proof. intros Hk. destruct k as [|[|[|[|k]]]]; [reflexivity..|lia]. Qed.

(** A user stack: none, or whole pages of the user half that are not mapped yet. *)
Definition stack_ok st (root top size : Z) : Prop :=
  (top = 0 /\ size = 0) \/
  (top mod 4096 = 0 /\ size mod 4096 = 0 /\ 0 < size <= top /\ top <= 2 ^ 47 /\
   forall k : nat, Z.of_nat k < size / 4096 -> walk (vs_ram st) 4 root (top - size + Z.of_nat k * 4096) = None).

Definition stack_count (size : Z) : nat := Z.to_nat (size / 4096).

(** The address space after [process_create], in terms of the one before: frames [U]
    are the user stack, [K] the kernel stack. *)
Definition created_view (root kroot top size : Z) (U K : list Z) st : Z -> option (nat * Z) :=
  mapped_view kernel_stack_start K VMM_FLAGS_KERNEL_DATA (mapped_view (top - size) U VMM_FLAGS_USER_DATA
    (fun v => walk (vs_ram st) 4 (if 256 <=? level_idx 4 v then kroot else root) v)).

Lemma map_user_stack T0 st0 root W b st top size : building T0 st0 root W [] b st -> stack_ok st0 root top size -> (4 * stack_count size <= b)%nat ->
  (forall v, level_idx 4 v < 256 -> W v = walk (vs_ram st0) 4 root v) ->
  exists U st', (if negb (top =? 0) && negb (size =? 0) then map_pages debug (phys_to_virt root) (u64 (top - size)) top VMM_FLAGS_USER_DATA else mret tt) st
      = Ok (tt, st') /\ length U = stack_count size /\ Forall is_page U /\
    building T0 st0 root (mapped_view (top - size) U VMM_FLAGS_USER_DATA W) U (b - 4 * stack_count size) st'.
Proof.
  intros HB [[-> ->]|(Ht & Hs & Hr & Htop & Hnone)] Hb HW.
  { exists [], st. split; [done|]. split; [done|]. split; [constructor|]. by rewrite Nat.sub_0_r. }
  rewrite (proj2 (Z.eqb_neq top 0)), (proj2 (Z.eqb_neq size 0)) by lia. cbn [negb andb]. unfold map_pages, for_range. rewrite (u64_id (top - size)) by lia.
  assert (for_count (top - size) top VMM_DEFAULT_PAGE_SIZE = stack_count size) as ->.
  { unfold for_count, VMM_DEFAULT_PAGE_SIZE, stack_count. clear - Hs. f_equal. dlia. }
  assert (forall k : nat, (k < stack_count size)%nat -> Z.of_nat k < size / 4096) as Hk by (intros k Hk; unfold stack_count in Hk; lia).
  destruct (map_pages_run T0 st0 root VMM_FLAGS_USER_DATA (stack_count size) W [] b st (top - size) HB) as (U & st' & E & HU & HUp & HB').
  - vm_compute. intuition congruence.
  - clear - Ht Hs. dlia.
  - intros k Hk'%Hk. rewrite HW; [by apply Hnone|]. apply idx4_user. clear - Hk' Hr Htop. dlia.
  - done.
  - unfold stack_count. clear - Hr Htop. dlia.
  - exists U, st'. done.
Qed.

Lemma map_kernel_stack T0 st0 root W F b st : building T0 st0 root W F b st -> (forall k : nat, (k < 4)%nat -> W (kernel_stack_start + Z.of_nat k * 4096) = None) -> (16 <= b)%nat ->
  exists K st', map_pages debug (phys_to_virt root) (u64 (PROCESS_VIRT_KERNEL_STACK_TOP - PROCESS_DEFAULT_KERNEL_STACK_SIZE)) PROCESS_VIRT_KERNEL_STACK_TOP
      VMM_FLAGS_KERNEL_DATA st = Ok (tt, st') /\ length K = 4%nat /\ Forall is_page K /\
    building T0 st0 root (mapped_view kernel_stack_start K VMM_FLAGS_KERNEL_DATA W) (F ++ K) (b - 16) st'.
Proof.
  intros HB HW Hb. unfold map_pages, for_range. change (u64 (PROCESS_VIRT_KERNEL_STACK_TOP - PROCESS_DEFAULT_KERNEL_STACK_SIZE)) with kernel_stack_start.
  change (for_count kernel_stack_start PROCESS_VIRT_KERNEL_STACK_TOP VMM_DEFAULT_PAGE_SIZE) with 4%nat.
  destruct (map_pages_run T0 st0 root VMM_FLAGS_KERNEL_DATA 4 W F b st kernel_stack_start HB) as (K & st' & E & HK & HKp & HB').
  - vm_compute. intuition congruence.
  - reflexivity.
  - exact HW.
  - lia.
  - lia.
  - exists K, st'. done.
Qed.

Lemma process_create_run T Tk root kroot st b process pid' entry' cs' ss' rflags' top size phys :
  separate T Tk st root kroot -> entry (vs_ram st) kroot 510 = 0 -> stack_ok st root top size -> free_at_least b st -> (4 * stack_count size + 16 <= b)%nat ->
  exists p' m' U K st', process_create debug process pid' entry' cs' ss' rflags' top size PROCESS_VIRT_KERNEL_STACK_TOP PROCESS_DEFAULT_KERNEL_STACK_SIZE
      (phys_to_virt root) phys (phys_to_virt kroot) st = Ok (p', st') /\
    length U = stack_count size /\ length K = 4%nat /\ copied_half root kroot st m' /\
    building (shared_tables T Tk kroot) (VmmState (vs_alloc st) m') root (created_view root kroot top size U K st) (U ++ K) (b - 4 * stack_count size - 16) st' /\
    (pml4 p' = phys_to_virt root /\ state p' = PROCESS_READY /\ rip (context p') = entry' /\ cs (context p') = cs' /\ ss (context p') = ss' /\
     rflags (context p') = rflags' /\ rsp (context p') = (if top =? 0 then PROCESS_VIRT_KERNEL_STACK_TOP else top) /\
     pml4_phys p' = phys /\ kernel_stack_top p' = PROCESS_VIRT_KERNEL_STACK_TOP /\ kernel_stack_size p' = PROCESS_DEFAULT_KERNEL_STACK_SIZE /\
     brk_start p' = brk_start process /\ brk p' = brk process).
Proof.
  intros Hsep H510 Hst Hb Hbud. destruct (shared_root T Tk root kroot st Hsep) as (Hrp & _ & _ & Hkp & _ & Hne).
  destruct (copy_half_run root kroot st Hrp Hkp Hne (wf_ram _ _ _ (se_wf _ _ _ _ _ Hsep))) as (m' & E1 & Hcp).
  set (W := fun v => walk (vs_ram st) 4 (if 256 <=? level_idx 4 v then kroot else root) v).
  assert (forall v, walk m' 4 root v = W v) as HW by (intros v; by apply (share_walk T Tk root kroot st m' Hsep Hcp)).
  pose proof (building_start _ (VmmState (vs_alloc st) m') root W b (share_wf T Tk root kroot st m' Hsep Hcp) HW Hb) as HB0.
  assert (forall v, level_idx 4 v < 256 -> W v = walk (vs_ram st) 4 root v) as Hlow by (intros v Hv; unfold W; by rewrite (proj2 (Z.leb_gt _ _))).
  destruct (map_user_stack _ _ root W b _ top size HB0) as (U & st2 & E2 & HU & HUp & HB2).
  { destruct Hst as [?|(? & ? & ? & ? & Hnone)]; [by left|]. right. split; [done|]. split; [done|]. split; [done|]. split; [done|].
    intros k Hk. cbn [vs_ram]. rewrite HW, Hlow; [by apply Hnone|]. apply idx4_user. dlia. }
  { lia. }
  { intros v Hv. cbn [vs_ram]. by rewrite HW. }
  destruct (map_kernel_stack _ _ root _ U _ st2 HB2) as (K & st3 & E3 & HK & HKp & HB3).
  { intros k Hk. rewrite mapped_view_out.
    - unfold W. rewrite (kernel_stack_idx4 k Hk). change (256 <=? 510) with true. cbn [walk]. by rewrite (kernel_stack_idx4 k Hk), H510.
    - intros j Hj Ev. apply (f_equal (fun x => x / 2 ^ 27)) in Ev. rewrite <- !idx4_vpn, (kernel_stack_idx4 k Hk) in Ev.
      destruct Hst as [[_ ->]|(_ & _ & Hr & Ht & _)]; [rewrite HU in Hj; change (stack_count 0) with 0%nat in Hj; lia|].
      pose proof (idx4_user (top - size + Z.of_nat j * 4096)) as Hx. rewrite HU in Hj. unfold stack_count in Hj. rewrite <- Ev in Hx.
      assert (510 < 256); [|lia]. apply Hx. clear - Hj Hr Ht. dlia. }
  { lia. }
  eexists _, m', U, K, st3. split; [|split; [done|split; [done|split; [done|split; [exact HB3|]]]]].
  - unfold process_create. rewrite (bind_run _ _ _ _ _ E1), (bind_run _ _ _ _ _ E2), (bind_run _ _ _ _ _ E3). reflexivity.
  - cbn [pml4 pml4_phys kernel_stack_top kernel_stack_size brk_start brk state context rip cs ss rflags rsp]. split; [done|]. split; [done|]. split; [done|]. split; [done|]. split; [done|]. split; [done|].
    split; [|split; [reflexivity|split; [reflexivity|split; [reflexivity|split; reflexivity]]]]. destruct Hst as [[-> ->]|(_ & _ & Hr & _)]; [done|]. by rewrite (proj2 (Z.eqb_neq top 0)), (proj2 (Z.eqb_neq size 0)) by lia.
Qed.

(** What the final view says. *)
Section view.
Context (root kroot top size : Z) (U K : list Z) (st : vmm_state S).
Context (Hst : stack_ok st root top size) (HU : length U = stack_count size) (HK : length K = 4%nat).

Lemma user_stack_idx4 (k : nat) o : (k < length U)%nat -> 0 <= o < 4096 -> level_idx 4 (top - size + Z.of_nat k * 4096 + o) < 256.
Proof using Hst HU.
  clear HK K. rewrite HU. unfold stack_count. destruct Hst as [[-> ->]|(_ & _ & Hr & Ht & _)]; [change (Z.to_nat (0 / 4096)) with 0%nat; lia|].
  intros Hk Ho. apply idx4_user. clear - Hk Hr Ht Ho. dlia.
Qed.

Lemma not_stack_page (a : Z) (n : nat) v (i : Z) : (forall k : nat, (k < n)%nat -> level_idx 4 (a + Z.of_nat k * 4096) = i) -> level_idx 4 v <> i ->
  forall k : nat, (k < n)%nat -> vpn 1 v <> vpn 1 (a + Z.of_nat k * 4096).
Proof using Type. intros Ha Hv k Hk E. apply Hv. rewrite <- (Ha k Hk), !idx4_vpn. by rewrite E. Qed.

Lemma created_kernel v : level_idx 4 v <> 510 -> 256 <= level_idx 4 v -> created_view root kroot top size U K st v = walk (vs_ram st) 4 kroot v.
Proof using Hst HU HK.
  intros Hne Hup. unfold created_view. rewrite !mapped_view_out.
  - by rewrite (proj2 (Z.leb_le _ _)).
  - intros k Hk E. pose proof (user_stack_idx4 k 0 Hk ltac:(lia)) as Hx. rewrite Z.add_0_r, idx4_vpn, <- E, <- idx4_vpn in Hx. lia.
  - rewrite HK. apply (not_stack_page _ _ _ 510); [apply kernel_stack_idx4|done].
Qed.

Lemma created_user v : level_idx 4 v < 256 -> (forall k : nat, (k < length U)%nat -> vpn 1 v <> vpn 1 (top - size + Z.of_nat k * 4096)) ->
  created_view root kroot top size U K st v = walk (vs_ram st) 4 root v.
Proof using Hst HU HK.
  intros Hlow Hout. unfold created_view. rewrite !mapped_view_out.
  - by rewrite (proj2 (Z.leb_gt _ _)).
  - done.
  - rewrite HK. apply (not_stack_page _ _ _ 510); [apply kernel_stack_idx4|lia].
Qed.

Lemma created_stack v k p : U !! k = Some p -> vpn 1 v = vpn 1 (top - size + Z.of_nat k * 4096) ->
  created_view root kroot top size U K st v = Some (1%nat, Z.lor p VMM_FLAGS_USER_DATA).
Proof using Hst HU HK.
  intros Hk Hv. pose proof (lookup_lt_Some _ _ _ Hk) as Hlt. unfold created_view. rewrite mapped_view_out.
  - apply (mapped_view_in U VMM_FLAGS_USER_DATA (top - size) _ v k p); try done; destruct Hst as [[-> ->]|(Ht & Hs & Hr & Htop & _)]; try done.
    + clear - Ht Hs. dlia.
    + rewrite HU. change (stack_count 0) with 0%nat. lia.
    + rewrite HU. unfold stack_count. clear - Hr Htop. dlia.
  - rewrite HK. apply (not_stack_page _ _ _ 510); [apply kernel_stack_idx4|]. rewrite idx4_vpn, Hv, <- idx4_vpn.
    pose proof (user_stack_idx4 k 0 Hlt ltac:(lia)) as Hx. rewrite Z.add_0_r in Hx. lia.
Qed.

Lemma created_kernel_stack v k p : K !! k = Some p -> vpn 1 v = vpn 1 (kernel_stack_start + Z.of_nat k * 4096) ->
  created_view root kroot top size U K st v = Some (1%nat, Z.lor p VMM_FLAGS_KERNEL_DATA).
Proof using HK. clear HU Hst. intros Hk Hv. apply (mapped_view_in K VMM_FLAGS_KERNEL_DATA kernel_stack_start _ v k p); try done. rewrite HK. lia. Qed.
End view.

(** What the creation of a process leaves alone. *)
Section untouched.
Context (T Tk : gmap Z nat) (root kroot top size : Z) (st : vmm_state S) (m' : mem) (U K : list Z) (b : nat) (st' : vmm_state S).
Context (Hsep : separate T Tk st root kroot) (Hcp : copied_half root kroot st m').
Context (HB : building (shared_tables T Tk kroot) (VmmState (vs_alloc st) m') root (created_view root kroot top size U K st) (U ++ K) b st').

Lemma created_kernel_walk v : (forall j, 0 <= j < 256 \/ j = 510 -> entry (vs_ram st) kroot j = 0) -> stack_ok st root top size ->
  length U = stack_count size -> length K = 4%nat -> walk (vs_ram st') 4 kroot v = walk (vs_ram st) 4 kroot v.
Proof using Hsep Hcp HB.
  intros Hempty Hst HU HK. apply (kernel_walk_kept T Tk root kroot st m' _ _ _ st' v Hsep Hcp HB);
    (destruct (decide (level_idx 4 v < 256)); [right; apply Hempty; pose proof (level_idx_range 4 v); lia|]);
    (destruct (decide (level_idx 4 v = 510)); [right; by apply Hempty; right|left; first [lia|apply created_kernel; done || lia]]).
Qed.

Lemma created_memory p o : is_page p -> 0 <= o < 4096 -> ~ pa_is_free (vs_alloc st) p -> T !! p = None -> Tk !! p = None ->
  vs_ram st' (p + o) = vs_ram st (p + o).
Proof using Hsep Hcp HB.
  intros Hp Ho Hnf HT HTk. destruct (shared_root T Tk root kroot st Hsep) as (Hrp & Hr & _).
  rewrite (bd_kept _ _ _ _ _ _ _ HB p o); cbn [vs_alloc vs_ram]; try done.
  - apply (ch_other _ _ _ _ Hcp). apply (page_apart p); [done..|congruence|lia].
  - destruct (shared_tables T Tk kroot !! p) as [n|] eqn:En; [|done]. apply (shared_lookup T Tk root kroot st Hsep) in En as [?|[? _]]; congruence.
Qed.
End untouched.

(** C6: [process_create] builds the address space of a process, for any page allocator
    with four free pages per page of its stacks.  Given a page map for the process (its
    program may be loaded in it already) and the kernel's page map, with separate tables,
    a user half that is empty in the kernel's, and slot 510 (the kernel stacks) empty:
    afterwards the process sees the kernel's half except its own kernel stack, its own
    pages as before, and fresh, distinct frames on all pages of its stacks; the kernel's
    own address space is unchanged, and so is every page in use that is not a table.
    The process starts at its entry point on its stack. *)
Theorem process_create_correct T Tk (root kroot : Z) st (b : nat) (process : Process) (pid' entry' cs' ss' rflags' top size phys : Z)
  (Hsep : separate T Tk st root kroot)
  (Hempty : forall j, 0 <= j < 256 \/ j = 510 -> entry (vs_ram st) kroot j = 0)
  (Hstack : stack_ok st root top size) (Hfree : free_at_least b st) (Hbudget : (4 * stack_count size + 16 <= b)%nat) :
  exists p' U K st', process_create debug process pid' entry' cs' ss' rflags' top size PROCESS_VIRT_KERNEL_STACK_TOP PROCESS_DEFAULT_KERNEL_STACK_SIZE
      (phys_to_virt root) phys (phys_to_virt kroot) st = Ok (p', st') /\
    (pml4 p' = phys_to_virt root /\ state p' = PROCESS_READY /\ rip (context p') = entry' /\ cs (context p') = cs' /\ ss (context p') = ss' /\
     rflags (context p') = rflags' /\ rsp (context p') = (if top =? 0 then PROCESS_VIRT_KERNEL_STACK_TOP else top) /\
     pml4_phys p' = phys /\ kernel_stack_top p' = PROCESS_VIRT_KERNEL_STACK_TOP /\ kernel_stack_size p' = PROCESS_DEFAULT_KERNEL_STACK_SIZE /\
     brk_start p' = brk_start process /\ brk p' = brk process) /\
    length U = stack_count size /\ length K = 4%nat /\ NoDup (U ++ K) /\
    Forall (fun p => pa_is_free (vs_alloc st) p /\ ~ pa_is_free (vs_alloc st') p) (U ++ K) /\
    (forall v k p, U !! k = Some p -> vpn 1 v = vpn 1 (top - size + Z.of_nat k * 4096) ->
       walk (vs_ram st') 4 root v = Some (1%nat, Z.lor p VMM_FLAGS_USER_DATA)) /\
    (forall v k p, K !! k = Some p -> vpn 1 v = vpn 1 (kernel_stack_start + Z.of_nat k * 4096) ->
       walk (vs_ram st') 4 root v = Some (1%nat, Z.lor p VMM_FLAGS_KERNEL_DATA)) /\
    (forall v, 256 <= level_idx 4 v -> level_idx 4 v <> 510 -> walk (vs_ram st') 4 root v = walk (vs_ram st) 4 kroot v) /\
    (forall v, level_idx 4 v < 256 -> (forall k : nat, (k < length U)%nat -> vpn 1 v <> vpn 1 (top - size + Z.of_nat k * 4096)) ->
       walk (vs_ram st') 4 root v = walk (vs_ram st) 4 root v) /\
    (forall v, walk (vs_ram st') 4 kroot v = walk (vs_ram st) 4 kroot v) /\
    (forall p o, is_page p -> 0 <= o < 4096 -> ~ pa_is_free (vs_alloc st) p -> T !! p = None -> Tk !! p = None ->
       vs_ram st' (p + o) = vs_ram st (p + o)).
Proof.
  destruct (process_create_run T Tk root kroot st b process pid' entry' cs' ss' rflags' top size phys) as (p' & m' & U & K & st' & E & HU & HK & Hcp & HB & Hp');
    [done|apply Hempty; by right|done..|].
  pose proof (bd_walk _ _ _ _ _ _ _ HB) as HW. destruct (bd_frames _ _ _ _ _ _ _ HB) as [Hnd Hfr].
  destruct (shared_root T Tk root kroot st Hsep) as (Hrp & Hr & _).
  exists p', U, K, st'. split; [exact E|]. split; [exact Hp'|]. split; [done|]. split; [done|]. split; [done|]. split; [done|].
  split; [|split; [|split; [|split; [|split]]]].
  - intros v k p Hk Hv. rewrite HW. by apply (created_stack root kroot top size U K st Hstack HU HK v k).
  - intros v k p Hk Hv. rewrite HW. by apply (created_kernel_stack root kroot top size U K st HK v k).
  - intros v Hup Hne. rewrite HW. by apply created_kernel.
  - intros v Hlow Hout. rewrite HW. by apply created_user.
  - intros v. by apply (created_kernel_walk T Tk root kroot top size st m' U K (b - 4 * stack_count size - 16) st').
  - intros p o Hp Ho Hnf HT HTk. by apply (created_memory T Tk root kroot top size st m' U K (b - 4 * stack_count size - 16) st').
Qed.
End spaces.

(** ** Witness: a kernel process on the 64-page machine, pages 1 and 2 being the maps *)

Definition two_maps_pmm : pmm_state := PmmState [7; 0; 0; 0; 0; 0; 0; 0] 8.
Definition two_maps : vmm_state pmm_state := VmmState two_maps_pmm (fun _ => 0).

Lemma two_maps_wf (p : Z) : p = 0x1000 \/ p = 0x2000 -> as_wf (H := pmm_page_allocator true) {[p := 4%nat]} two_maps p.
Proof.
  intros Hp. assert (forall q i, entry (fun _ => 0) q i = 0) as Hz by reflexivity. split; cbn [vs_alloc vs_ram two_maps].
  - split; [apply (bool_decide_unpack _); vm_compute; exact I|]. vm_compute. intuition congruence.
  - intros a. vm_compute. intuition congruence.
  - apply lookup_singleton_eq.
  - intros q n [<- <-]%lookup_singleton_Some. split; [destruct Hp as [->| ->]; vm_compute; intuition congruence|]. split; [|lia].
    intros (i & Hi & E & Hb). unfold PAGE_SIZE in E. destruct Hp as [->| ->]; [assert (i = 1) as -> by lia|assert (i = 2) as -> by lia]; done.
  - intros q n i _ _. left. apply Hz.
  - intros q n i q' n' i' _ _ _ _ _ _ Hl. by rewrite Hz in Hl.
Qed.

Lemma two_maps_free : free_at_least (H := pmm_page_allocator true) 16 two_maps.
Proof.
  exists ((fun i => i * 4096) <$> seqZ 8 16). split; [|split; [done|]].
  - apply list.NoDup_fmap_2; [intros i j E; lia|]. apply NoDup_seqZ.
  - apply list.Forall_forall. intros p (i & -> & Hi%elem_of_seqZ)%list_elem_of_fmap. exists i.
    split; [change (pmm_pages (vs_alloc two_maps)) with 64; lia|]. split; [done|]. unfold bit. assert (1 <= i / 8 < 3) as Hq by dlia.
    assert (i / 8 = 1 \/ i / 8 = 2) as [-> | ->] by lia; cbn; apply Z.testbit_0_l.
Qed.

Lemma process_create_correct_witness : exists p' st',
  process_create (H := pmm_page_allocator true) true sample_process 0 0x400000 0x08 0x10 0x200 0 0 PROCESS_VIRT_KERNEL_STACK_TOP
    PROCESS_DEFAULT_KERNEL_STACK_SIZE (phys_to_virt 0x2000) 0x2000 (phys_to_virt 0x1000) two_maps = Ok (p', st') /\
  rsp (context p') = PROCESS_VIRT_KERNEL_STACK_TOP.
Proof.
  destruct (process_create_correct (H := pmm_page_allocator true) true {[0x2000 := 4%nat]} {[0x1000 := 4%nat]} 0x2000 0x1000 two_maps 16
    sample_process 0 0x400000 0x08 0x10 0x200 0 0 0x2000) as (p' & U & K & st' & E & (_ & _ & _ & _ & _ & _ & Hrsp & _) & _).
  - split; [apply two_maps_wf; by right|apply two_maps_wf; by left|]. by apply map_disjoint_singleton_l_2.
  - reflexivity.
  - by left.
  - apply two_maps_free.
  - vm_compute. lia.
  - exists p', st'. split; [exact E|exact Hrsp].
Defined.
