(* ===== verification/ProcessEnd.v ===== *)
(** * The end of a process

    What [process_destroy] ([kernel/kernel/process.c]) gives back: the frames of the
    kernel stack, everything of the user half and the page map itself.  The tables of the
    kernel stack are not given back. *)
From Stdlib Require Import ZArith Lia.
From stdpp Require Import base tactics list numbers gmap.
From S2P Require Import Prelude Common Memory Interfaces Bitmap Pmm Vmm Process PageTables VmmProofs VmmTheorems KernelMemory AddressSpace VmmDestroy ProcessSpace.

Open Scope Z_scope.

Section process_end.
Context {S : Type} `{PageAllocator S} (debug : bool).
Implicit Types (T Tk : gmap Z nat) (st : vmm_state S).

(** ** Freeing mapped pages *)

Lemma freed_wf T st root p al : as_wf T st root -> pa_wf al -> T !! p = None ->
  (forall q, pa_is_free al q <-> pa_is_free (vs_alloc st) q \/ q = p) -> as_wf T (VmmState al (vs_ram st)) root.
Proof.
  intros [_ Hram Hroot Ht Hen Hin] Hal Hp Hfr. split; cbn [vs_alloc vs_ram]; try done.
  intros q n Hq. destruct (Ht q n Hq) as (? & ? & ?). split; [done|]. split; [|done]. rewrite Hfr. intros [?| ->]; [done|congruence].
Qed.

(** [st'] is [st] with the page of [v] unmapped and its frame freed. *)
Record page_freed T st (root v e : Z) st' : Prop := PageFreed {
  pf_wf : as_wf T st' root;
  pf_free : forall x, pa_is_free (vs_alloc st') x <-> pa_is_free (vs_alloc st) x \/ x = entry_addr e;
  pf_managed : forall x, pa_managed (vs_alloc st') x <-> pa_managed (vs_alloc st) x;
  pf_walk : forall v', walk (vs_ram st') 4 root v' = if decide (vpn 1 v' = vpn 1 v) then None else walk (vs_ram st) 4 root v';
  pf_path : forall v' n p, path (vs_ram st') root v' n p <-> path (vs_ram st) root v' n p;
  pf_ram : forall x, (forall q, path (vs_ram st) root v 1 q -> ~ q <= x < q + 4096) -> vs_ram st' x = vs_ram st x;
}.

Lemma vmm_free_page T st root v e : as_wf T st root -> walk (vs_ram st) 4 root v = Some (1%nat, e) ->
  T !! entry_addr e = None -> pa_managed (vs_alloc st) (entry_addr e) -> ~ pa_is_free (vs_alloc st) (entry_addr e) ->
  exists st', vmm_free (phys_to_virt root) v st = Ok (tt, st') /\ page_freed T st root v e st'.
Proof.
  intros Hwf Hw HT Hm Hf. destruct (page_path T st root v e Hwf Hw) as (_ & _ & q & _ & _ & Hq & _).
  destruct (pa_free_spec _ _ (wf_alloc _ _ _ Hwf) Hm Hf) as (al & Efree & Hal & Hfr & Hmg).
  pose proof (path_table _ _ _ _ _ _ Hwf Hq) as HTq. pose proof (wf_table _ _ _ Hwf _ _ HTq) as (Hqp & _ & _).
  pose proof (level_idx_range 1 v) as Hi. set (i := level_idx 1 v) in *. set (m' := store64 (vs_ram st) (q + 8 * i) 0).
  assert (as_wf T (VmmState al m') root) as Hwf'.
  { apply (store_entry_wf T (VmmState al (vs_ram st)) root q 1); try done; [by eapply freed_wf|by left]. }
  assert (forall p n j, T !! p = Some n -> 0 <= j < 512 -> (p, j) <> (q, i) -> entry m' p j = entry (vs_ram st) p j) as Hother.
  { intros p n j Hp Hj Hne. apply entry_store_other; try done. by apply (wf_table _ _ _ Hwf p n). }
  exists (VmmState al m'). split.
  - rewrite (vmm_free_run T st root v e q) by done. unfold with_alloc. munfold. rewrite Efree. by apply tbl_set_run.
  - split; cbn [vs_alloc vs_ram]; try done.
    + apply (walk_store T st root v 1 q m' 0); try done. by apply entry_store_same.
    + intros v' n p. split; intros Hp; assert (1 <= n)%nat by (inversion Hp; lia).
      * apply (path_change T (VmmState al m') root (vs_ram st) q 1 i v' n p); try done.
        intros p0 n0 j Hp0 Hj Hne. symmetry. by eapply Hother.
      * by apply (path_change T st root m' q 1 i v' n p).
    + intros x Hx. unfold m'. apply store_out. rewrite length_le_bytes. specialize (Hx q Hq). lia.
Qed.

(** The addresses of the pages of a run. *)
Definition in_run (a : Z) (n : nat) (v : Z) : Prop := exists k : nat, (k < n)%nat /\ vpn 1 v = vpn 1 (a + Z.of_nat k * 4096).

Lemma in_run_S a n v : in_run a (Datatypes.S n) v <-> vpn 1 v = vpn 1 a \/ in_run (a + 4096) n v.
Proof.
  split.
  - intros ([|k] & Hk & E); [left; by rewrite E, Z.mul_0_l, Z.add_0_r|right; exists k; split; [lia|]]. rewrite E. f_equal. lia.
  - intros [E|(k & Hk & E)]; [exists 0%nat; split; [lia|]; by rewrite Z.mul_0_l, Z.add_0_r|exists (Datatypes.S k); split; [lia|]].
    rewrite E. f_equal. lia.
Qed.

(** [st'] is [st] with the pages of the run unmapped and their frames freed. *)
Record run_freed T st (root a : Z) (n : nat) st' : Prop := RunFreed {
  rf_wf : as_wf T st' root;
  rf_free : forall x, pa_is_free (vs_alloc st') x <-> pa_is_free (vs_alloc st) x \/
    exists v e, in_run a n v /\ walk (vs_ram st) 4 root v = Some (1%nat, e) /\ x = entry_addr e;
  rf_managed : forall x, pa_managed (vs_alloc st') x <-> pa_managed (vs_alloc st) x;
  rf_walk : forall v, ~ in_run a n v -> walk (vs_ram st') 4 root v = walk (vs_ram st) 4 root v;
  rf_path : forall v k p, path (vs_ram st') root v k p <-> path (vs_ram st) root v k p;
  rf_ram : forall x, (forall v q, in_run a n v -> path (vs_ram st) root v 1 q -> ~ q <= x < q + 4096) -> vs_ram st' x = vs_ram st x;
}.

Lemma page_walk_vpn T st root v v' : as_wf T st root -> vpn 1 v = vpn 1 v' -> forall e, walk (vs_ram st) 4 root v = Some (1%nat, e) ->
  walk (vs_ram st) 4 root v' = Some (1%nat, e).
Proof.
  intros Hwf Ev e Hw. destruct (walk_Some_path _ _ _ _ _ 4 root (path_root _ _ _) Hw) as (_ & _ & q & Hq & He & Hpr & Hlf).
  destruct (same_slot st root 1 q v v' ltac:(lia) Hq (eq_sym Ev)) as [Hq' Ei]. rewrite (walk_path _ _ _ _ _ Hq'). cbn [walk].
  rewrite Ei, He, Hpr, Hlf. done.
Qed.

Lemma free_run T root n : forall st a, as_wf T st root -> a mod 4096 = 0 -> Z.of_nat n < 2 ^ 36 ->
  (forall v, in_run a n v -> exists e, walk (vs_ram st) 4 root v = Some (1%nat, e)) -> frames_ok T st root (in_run a n) ->
  exists st', iter_for n a VMM_DEFAULT_PAGE_SIZE (fun p => vmm_free (phys_to_virt root) p) st = Ok (tt, st') /\ run_freed T st root a n st'.
Proof.
  induction n as [|n IH]; intros st a Hwf Ha Hn Hmap Hfr; cbn [iter_for].
  { exists st. split; [done|]. split; try done. intros x. split; [by left|]. intros [?|(v & e & (k & Hk & _) & _)]; [done|lia]. }
  assert (in_run a (Datatypes.S n) a) as Hin by (apply in_run_S; by left). destruct (Hmap a Hin) as [e He].
  destruct (fo_frame _ _ _ _ Hfr a e Hin He) as (HT & Hm & Hf).
  destruct (vmm_free_page T st root a e Hwf He HT Hm Hf) as (st1 & E1 & [Hwf1 Hfree1 Hman1 Hwalk1 Hpath1 Hram1]).
  assert (forall v, in_run (a + 4096) n v -> vpn 1 v <> vpn 1 a) as Hne.
  { intros v (k & Hk & Ev) E. apply (vpn_step_pages a (Z.of_nat (Datatypes.S k))); [done|lia|]. rewrite <- E, Ev. f_equal. lia. }
  assert (forall v, in_run (a + 4096) n v -> walk (vs_ram st1) 4 root v = walk (vs_ram st) 4 root v) as Hwalk1'.
  { intros v Hv. rewrite Hwalk1, decide_False; [done|]. by apply Hne. }
  destruct (IH st1 (a + 4096) Hwf1) as (st2 & E2 & [Hwf2 Hfree2 Hman2 Hwalk2 Hpath2 Hram2]).
  { clear - Ha. dlia. }
  { lia. }
  { intros v Hv. rewrite Hwalk1' by done. apply Hmap, in_run_S. by right. }
  { split.
    - intros v e' Hv. rewrite Hwalk1', Hman1, Hfree1 by done. intros He'. assert (in_run a (Datatypes.S n) v) as Hv' by (apply in_run_S; by right).
      destruct (fo_frame _ _ _ _ Hfr v e' Hv' He') as (? & ? & ?). split; [done|]. split; [done|]. intros [?|Eq]; [done|].
      apply (Hne v Hv). by apply (fo_inj _ _ _ _ Hfr v a e' e).
    - intros v v' e1 e2 Hv Hv'. rewrite !Hwalk1' by done. apply (fo_inj _ _ _ _ Hfr); apply in_run_S; by right. }
  exists st2. rewrite (bind_run _ _ _ _ _ E1). split; [done|]. split; try done.
  - intros x. rewrite Hfree2, Hfree1. split.
    + intros [[?|Ex]|(v & e' & Hv & He' & Ex)]; [by left|right; exists a, e; done|]. right. exists v, e'. rewrite Hwalk1' in He' by done.
      split; [apply in_run_S; by right|done].
    + intros [?|(v & e' & [Ev|Hv]%in_run_S & He' & Ex)]; [by left; left| |].
      * left. right. rewrite (page_walk_vpn T st root v a Hwf Ev e' He') in He. by injection He as <-.
      * right. exists v, e'. by rewrite Hwalk1'.
  - intros x. by rewrite Hman2.
  - intros v Hv. rewrite in_run_S in Hv. rewrite Hwalk2, Hwalk1, decide_False by tauto. done.
  - intros v k p. by rewrite Hpath2.
  - intros x Hx. rewrite Hram2, Hram1; [done| |].
    + intros q Hq. apply (Hx a q); [apply in_run_S; by left|done].
    + intros v q Hv Hq. apply (Hx v q); [apply in_run_S; by right|by apply Hpath1].
Qed.

(** ** [process_destroy] *)

(** The addresses whose frames belong to the process alone. *)
Definition kernel_stack (v : Z) : Prop := in_run kernel_stack_start 4 v.
Definition owned (v : Z) : Prop := user_half v \/ kernel_stack v.

(** [x] is a frame of the kernel stack. *)
Definition stack_frame (m : mem) (root x : Z) : Prop :=
  exists v e, kernel_stack v /\ walk m 4 root v = Some (1%nat, e) /\ x = entry_addr e.

(** A process that can be destroyed: its page map is well formed, its kernel stack is
    mapped, and its frames, its tables and its root are allocated. *)
Record destroyable T st (root : Z) (p : Process) : Prop := Destroyable {
  dy_wf : as_wf T st root;
  dy_pml4 : pml4 p = phys_to_virt root /\ pml4_phys p = root;
  dy_stack : kernel_stack_top p = PROCESS_VIRT_KERNEL_STACK_TOP /\ kernel_stack_size p = PROCESS_DEFAULT_KERNEL_STACK_SIZE;
  dy_mapped : forall v, kernel_stack v -> exists e, walk (vs_ram st) 4 root v = Some (1%nat, e);
  dy_frames : frames_ok T st root owned;
  dy_root : pa_managed (vs_alloc st) root;
  dy_tables : forall v n x, user_half v -> (n < 4)%nat -> path (vs_ram st) root v n x -> pa_managed (vs_alloc st) x;
}.

Lemma kernel_stack_upper v : kernel_stack v -> level_idx 4 v = 510.
Proof. intros (k & Hk & E). by rewrite idx4_vpn, E, <- idx4_vpn, kernel_stack_idx4. Qed.

Lemma user_not_stack v : user_half v -> ~ kernel_stack v.
Proof. unfold user_half. intros Hu Hk%kernel_stack_upper. lia. Qed.

Lemma on_way_ext m m' root n v x : (forall k p, path m' root v k p <-> path m root v k p) -> walk m' 4 root v = walk m 4 root v ->
  on_way m' root n v x <-> on_way m root n v x.
Proof. intros Hp Hw. unfold on_way. rewrite Hw. by setoid_rewrite Hp. Qed.

Lemma process_destroy_run T st root p : destroyable T st root p ->
  exists st', process_destroy p st = Ok (tt, st') /\
    (forall x, pa_is_free (vs_alloc st') x <->
       pa_is_free (vs_alloc st) x \/ x = root \/ stack_frame (vs_ram st) root x \/ user_page (vs_ram st) root x) /\
    (forall x, (forall v q, kernel_stack v -> path (vs_ram st) root v 1 q -> ~ q <= x < q + 4096) -> vs_ram st' x = vs_ram st x).
Proof.
  intros [Hwf [Epm Eph] [Etop Esz] Hmap Hfr Hrm Htab].
  destruct (free_run T root 4 st kernel_stack_start Hwf eq_refl ltac:(lia) Hmap) as (st1 & E1 & [Hwf1 Hfree1 Hman1 Hwalk1 Hpath1 Hram1]).
  { split; intros *; intros; [eapply (fo_frame _ _ _ _ Hfr); [by right|done]|eapply (fo_inj _ _ _ _ Hfr); [by right|by right|done..]]. }
  assert (forall v, user_half v -> walk (vs_ram st1) 4 root v = walk (vs_ram st) 4 root v) as Hwu by (intros v Hv; by apply Hwalk1, user_not_stack).
  destruct (vmm_destroy_run T st1 root Hwf1) as (al2 & E2 & Hal2 & Hfree2 & Hman2).
  { split.
    - intros v e Hv. rewrite Hwu, Hman1, Hfree1 by done. intros He. destruct (fo_frame _ _ _ _ Hfr v e (or_introl Hv) He) as (? & ? & ?).
      split; [done|]. split; [done|]. intros [?|(v' & e' & Hv' & He' & Ee)]; [done|]. apply (user_not_stack v Hv). destruct Hv' as (k & Hk & Ek).
      exists k. split; [done|]. rewrite <- Ek. apply (fo_inj _ _ _ _ Hfr v v' e e'); [by left|right; by exists k|done..].
    - intros v v' e e' Hv Hv'. rewrite !Hwu by done. apply (fo_inj _ _ _ _ Hfr); by left. }
  { intros v n x Hv Hn Hx. apply Hman1. by apply (Htab v n), Hpath1. }
  assert (forall x, user_page (vs_ram st1) root x <-> user_page (vs_ram st) root x) as Hup.
  { intros x. unfold user_page. split; intros (v & Hv & Hw); exists v; (split; [done|]); revert Hw; apply on_way_ext; intros; by rewrite ?Hpath1, ?Hwu. }
  pose proof (wf_root _ _ _ Hwf) as HTr.
  destruct (pa_free_spec al2 root Hal2) as (al3 & E3 & Hal3 & Hfree3 & Hman3).
  { by apply Hman2, Hman1. }
  { rewrite Hfree2, Hfree1, Hup. intros [[Hx|(v & e & Hv & He & Ex)]|(v & Hv & [(k & Hk & Hx)|(e & He & Ex)])].
    - by apply (wf_table _ _ _ Hwf root 4) in Hx.
    - destruct (fo_frame _ _ _ _ Hfr v e (or_intror Hv) He) as (Hno & _). by rewrite <- Ex, HTr in Hno.
    - apply (path_table _ _ _ _ _ _ Hwf) in Hx. rewrite HTr in Hx. injection Hx. lia.
    - destruct (fo_frame _ _ _ _ Hfr v e (or_introl Hv) He) as (Hno & _). by rewrite <- Ex, HTr in Hno. }
  exists (VmmState al3 (vs_ram st1)). split; [|split; [|exact Hram1]].
  - unfold process_destroy. rewrite Etop, Esz, Epm, Eph. unfold for_range.
    change (u64 (PROCESS_VIRT_KERNEL_STACK_TOP - PROCESS_DEFAULT_KERNEL_STACK_SIZE)) with kernel_stack_start.
    change (for_count kernel_stack_start PROCESS_VIRT_KERNEL_STACK_TOP VMM_DEFAULT_PAGE_SIZE) with 4%nat.
    rewrite (bind_run _ _ _ _ _ E1), (bind_run _ _ _ _ _ E2). unfold with_alloc. cbn [vs_alloc vs_ram]. by rewrite E3.
  - intros x. cbn [vs_alloc]. rewrite Hfree3, Hfree2, Hfree1, Hup. unfold stack_frame, kernel_stack. tauto.
Qed.

(** The tables of the kernel stack are not tables of the user half. *)
Lemma stack_tables_kept T st root p v n x : destroyable T st root p -> kernel_stack v -> (n < 4)%nat -> path (vs_ram st) root v n x ->
  ~ (pa_is_free (vs_alloc st) x \/ x = root \/ stack_frame (vs_ram st) root x \/ user_page (vs_ram st) root x).
Proof.
  intros [Hwf _ _ _ Hfr _ _] Hv Hn Hx. pose proof (path_table _ _ _ _ _ _ Hwf Hx) as HT.
  intros [Hf|[->|[(v' & e & Hv' & He & ->)|(v' & Hv' & [(k & Hk & Hx')|(e & He & ->)])]]].
  - by apply (wf_table _ _ _ Hwf x n) in Hf.
  - rewrite (wf_root _ _ _ Hwf) in HT. injection HT. lia.
  - destruct (fo_frame _ _ _ _ Hfr v' e (or_intror Hv') He) as (Hno & _). congruence.
  - pose proof (path_table _ _ _ _ _ _ Hwf Hx') as HT'. assert (k = n) as -> by congruence.
    assert (vpn 4 v = vpn 4 v') as E.
    { apply (vpn_up (Datatypes.S n) 4); [|lia|eapply path_unique; [exact Hwf|exact Hx|exact Hx'|done]]. lia. }
    rewrite !vpn_top, (kernel_stack_upper v Hv) in E. unfold user_half in Hv'. lia.
  - destruct (fo_frame _ _ _ _ Hfr v' e (or_introl Hv') He) as (Hno & _). congruence.
Qed.

(** C8: [process_destroy] frees, exactly once each, the frames of the kernel stack, every
    frame mapped in the user half, every table of the user half and the root of the page
    map, and no other page: what it shares with the kernel stays, and so do the tables of
    the kernel stack, which nothing refers to afterwards.  No memory is written except in
    the page table of the kernel stack. *)
Theorem process_destroy_correct T st (root : Z) (p : Process) (Hp : destroyable T st root p) :
  exists st', process_destroy p st = Ok (tt, st') /\
    (forall x, pa_is_free (vs_alloc st') x <->
       pa_is_free (vs_alloc st) x \/ x = root \/ stack_frame (vs_ram st) root x \/ user_page (vs_ram st) root x) /\
    (forall v n x, kernel_stack v -> (n < 4)%nat -> path (vs_ram st) root v n x -> ~ pa_is_free (vs_alloc st') x) /\
    (forall x, (forall v q, kernel_stack v -> path (vs_ram st) root v 1 q -> ~ q <= x < q + 4096) -> vs_ram st' x = vs_ram st x).
Proof.
  destruct (process_destroy_run T st root p Hp) as (st' & E & Hfree & Hram). exists st'. split; [done|]. split; [done|]. split; [|done].
  intros v n x Hv Hn Hx. rewrite Hfree. by eapply stack_tables_kept.
Qed.

(** ** Creating and destroying a process *)

(** Tables that were there before are on the same paths as before. *)
Lemma old_path T0 st0 root W F b st T v n x : as_wf T st root ->
  (forall p n j k, T !! p = Some n -> 0 <= j < 512 -> is_link n (entry (vs_ram st) p j) = true ->
     T0 !! entry_addr (entry (vs_ram st) p j) = Some k -> T0 !! p = Some n /\ entry (vs_ram st0) p j = entry (vs_ram st) p j) ->
  building T0 st0 root W F b st -> path (vs_ram st) root v n x -> is_Some (T0 !! x) -> path (vs_ram st0) root v n x.
Proof.
  intros Hwf Hold HB. induction 1 as [|n p Hp IH Hn Hl]; intros [k Hk]; [constructor|].
  destruct (Hold p (Datatypes.S n) (level_idx (Datatypes.S n) v) k) as [HT0 E]; [by eapply path_table|apply level_idx_range|done..|].
  rewrite <- E in Hl |- *. constructor; [apply IH; eauto|done|done].
Qed.

(** A page map whose program is loaded: its frames and tables are allocated and not the
    kernel's. *)
Record loaded T Tk st (root : Z) : Prop := Loaded {
  ld_frames : frames_ok T st root user_half;
  ld_kernel : forall v e, user_half v -> walk (vs_ram st) 4 root v = Some (1%nat, e) -> Tk !! entry_addr e = None;
  ld_tables : forall p n, T !! p = Some n -> pa_managed (vs_alloc st) p;
}.

Section lifecycle.
Context (T Tk : gmap Z nat) (root kroot top size : Z) (st st1 : vmm_state S) (m' : mem) (U K : list Z) (b : nat).
Context (Hsep : separate T Tk st root kroot) (Hld : loaded T Tk st root) (H510 : entry (vs_ram st) kroot 510 = 0).
Context (Hst : stack_ok st root top size) (HU : length U = stack_count size) (HK : length K = 4%nat).
Context (Hcp : copied_half root kroot st m').
Context (HB : building (shared_tables T Tk kroot) (VmmState (vs_alloc st) m') root (created_view root kroot top size U K st) (U ++ K) b st1).

(** The user half of the copied page map is that of the original one. *)
Lemma copied_user_path v n x : user_half v -> path m' root v n x <-> path (vs_ram st) root v n x.
Proof using Hsep Hcp.
  intros Hv. destruct (shared_root T Tk root kroot st Hsep) as (Hrp & Hr & _). pose proof (se_wf _ _ _ _ _ Hsep) as Hwf.
  assert (forall p n, path (vs_ram st) root v n p -> entry m' p (level_idx n v) = entry (vs_ram st) p (level_idx n v)) as He.
  { intros p k Hp. pose proof (path_table _ _ _ _ _ _ Hwf Hp) as HT. pose proof (level_idx_range k v) as Hi. destruct (decide (p = root)) as [->|Hne].
    - assert (k = 4%nat) as -> by congruence. rewrite (ch_entry _ _ _ _ Hcp) by done. unfold user_half in Hv. by rewrite (proj2 (Z.leb_gt _ _)).
    - apply (ch_other_entry root kroot st m'); try done. by apply (wf_table _ _ _ Hwf p k). }
  split.
  - induction 1 as [|k p Hp IH Hk Hl]; [constructor|]. rewrite He in Hl |- * by done. by constructor.
  - induction 1 as [|k p Hp IH Hk Hl]; [constructor|]. rewrite <- (He p) in Hl |- * by done. by constructor.
Qed.

(** What the final page map shows behind the addresses of the process. *)
Lemma stack_slot v : kernel_stack v -> exists i p, (length U <= i)%nat /\ (U ++ K) !! i = Some p /\ vpn 1 v = vpn 1 (kernel_stack_start + Z.of_nat (i - length U) * 4096) /\
  walk (vs_ram st1) 4 root v = Some (1%nat, Z.lor p VMM_FLAGS_KERNEL_DATA).
Proof using HB HK HU.
  intros (k & Hk & Ev). rewrite <- HK in Hk. apply lookup_lt_is_Some in Hk as [p Hp]. exists (length U + k)%nat, p. split; [lia|].
  rewrite lookup_app_r by lia. replace (length U + k - length U)%nat with k by lia. split; [done|]. split; [done|].
  rewrite (bd_walk _ _ _ _ _ _ _ HB). by apply (created_kernel_stack root kroot top size U K st HK v k).
Qed.

Lemma user_slot v : user_half v ->
  (exists i p, U !! i = Some p /\ (U ++ K) !! i = Some p /\ vpn 1 v = vpn 1 (top - size + Z.of_nat i * 4096) /\
     walk (vs_ram st1) 4 root v = Some (1%nat, Z.lor p VMM_FLAGS_USER_DATA)) \/
  walk (vs_ram st1) 4 root v = walk (vs_ram st) 4 root v.
Proof using HB HK HU Hst.
  intros Hv. rewrite (bd_walk _ _ _ _ _ _ _ HB).
  destruct (decide (Exists (fun k : nat => vpn 1 v = vpn 1 (top - size + Z.of_nat k * 4096)) (seq 0 (length U)))) as [Hin|Hout].
  - left. apply Exists_exists in Hin as (i & Hi%elem_of_seq & Ev). destruct (lookup_lt_is_Some_2 U i) as [p Hp]; [lia|]. exists i, p.
    split; [done|]. split; [by apply lookup_app_l_Some|]. split; [done|]. by apply (created_stack root kroot top size U K st Hst HU HK v i).
  - right. apply created_user; try done. intros k Hk E. apply Hout, Exists_exists. exists k. split; [apply elem_of_seq; lia|done].
Qed.

Lemma frame_facts p : p ∈ U ++ K -> pa_is_free (vs_alloc st) p /\ ~ pa_is_free (vs_alloc st1) p /\ is_page p /\ pa_managed (vs_alloc st1) p.
Proof using HB Hsep.
  intros Hp. destruct (bd_frames _ _ _ _ _ _ _ HB) as [_ Hfr]. rewrite list.Forall_forall in Hfr. destruct (Hfr p Hp) as [Hf Hn].
  pose proof (wf_alloc _ _ _ (se_wf _ _ _ _ _ Hsep)) as Hal. pose proof (pa_free_managed _ _ Hal Hf) as Hm. split; [done|]. split; [done|].
  split; [by eapply pa_managed_page|]. by apply (bd_managed _ _ _ _ _ _ _ HB).
Qed.

Lemma frame_addr p f : p ∈ U ++ K -> f = VMM_FLAGS_USER_DATA \/ f = VMM_FLAGS_KERNEL_DATA -> entry_addr (Z.lor p f) = p.
Proof using HB Hsep.
  intros Hp Hf. destruct (frame_facts p Hp) as (_ & _ & [Hr Hm] & _). clear HU HK. apply entry_addr_lor; [lia|done|]. by destruct Hf as [-> | ->].
Qed.

(** The frame behind an address of the process: a new one, at the page of its index, or
    one that was mapped before. *)
Lemma owned_slot v e : owned v -> walk (vs_ram st1) 4 root v = Some (1%nat, e) ->
  (exists i, (U ++ K) !! i = Some (entry_addr e) /\
     vpn 1 v = vpn 1 (if (i <? length U)%nat then top - size + Z.of_nat i * 4096 else kernel_stack_start + Z.of_nat (i - length U) * 4096)) \/
  (user_half v /\ walk (vs_ram st) 4 root v = Some (1%nat, e)).
Proof using HB HK HU Hst Hsep.
  intros [Hv|Hv] He.
  - destruct (user_slot v Hv) as [(i & p & Hi & Hp & Ev & Ew)|Ew]; [|right; split; [done|congruence]]. left. exists i.
    rewrite Ew in He. injection He as <-. rewrite frame_addr by (by left || by eapply list_elem_of_lookup_2). split; [done|].
    apply lookup_lt_Some in Hi. by rewrite (proj2 (Nat.ltb_lt i (length U))).
  - destruct (stack_slot v Hv) as (i & p & Hi & Hp & Ev & Ew). left. exists i. rewrite Ew in He. injection He as <-.
    rewrite frame_addr by (by right || by eapply list_elem_of_lookup_2). split; [done|]. by rewrite (proj2 (Nat.ltb_ge i (length U))).
Qed.

(** The new process can be destroyed. *)
Lemma created_frames T1 : as_wf T1 st1 root -> shared_tables T Tk kroot ⊆ T1 ->
  (forall p n, T1 !! p = Some n -> shared_tables T Tk kroot !! p = None -> pa_is_free (vs_alloc st) p) ->
  Forall (fun p => T1 !! p = None) (U ++ K) -> frames_ok T1 st1 root owned.
Proof using HB HK HU Hst Hsep Hld.
  intros Hwf1 Hsub Hnew HF. rewrite list.Forall_forall in HF. destruct (bd_frames _ _ _ _ _ _ _ HB) as [Hnd _]. split.
  - intros v e Hv He. destruct (owned_slot v e Hv He) as [(i & Hi & _)|[Hu Hold]].
    + apply list_elem_of_lookup_2 in Hi. destruct (frame_facts _ Hi) as (_ & ? & _ & ?). split; [by apply HF|done].
    + destruct (fo_frame _ _ _ _ (ld_frames _ _ _ _ Hld) v e Hu Hold) as (HT & Hm & Hf). pose proof (ld_kernel _ _ _ _ Hld v e Hu Hold) as HTk.
      split; [|split; [by apply (bd_managed _ _ _ _ _ _ _ HB)|]].
      * destruct (T1 !! entry_addr e) as [n|] eqn:E; [|done]. destruct Hf. apply (Hnew _ n E).
        destruct (shared_tables T Tk kroot !! entry_addr e) as [k|] eqn:Es; [|done].
        apply (shared_lookup T Tk root kroot st Hsep) in Es as [?|[? _]]; congruence.
      * intros Hx. by apply Hf, (bd_free _ _ _ _ _ _ _ HB).
  - intros v v' e e' Hv Hv' He He' Ee.
    destruct (owned_slot v e Hv He) as [(i & Hi & Ev)|[Hu Hold]], (owned_slot v' e' Hv' He') as [(i' & Hi' & Ev')|[Hu' Hold']].
    + rewrite <- Ee in Hi'. rewrite Ev, Ev'. by rewrite (list.NoDup_lookup _ _ _ _ Hnd Hi Hi').
    + apply list_elem_of_lookup_2 in Hi. destruct (frame_facts _ Hi) as (Hf & _). rewrite Ee in Hf.
      by destruct (fo_frame _ _ _ _ (ld_frames _ _ _ _ Hld) v' e' Hu' Hold') as (_ & _ & ?).
    + apply list_elem_of_lookup_2 in Hi'. destruct (frame_facts _ Hi') as (Hf & _). rewrite <- Ee in Hf.
      by destruct (fo_frame _ _ _ _ (ld_frames _ _ _ _ Hld) v e Hu Hold) as (_ & _ & ?).
    + by apply (fo_inj _ _ _ _ (ld_frames _ _ _ _ Hld) v v' e e').
Qed.

(** Tables of the new user half: tables of the old one, or fresh. *)
Lemma created_user_table T1 v n x : as_wf T1 st1 root ->
  (forall p n j k, T1 !! p = Some n -> 0 <= j < 512 -> is_link n (entry (vs_ram st1) p j) = true ->
     shared_tables T Tk kroot !! entry_addr (entry (vs_ram st1) p j) = Some k ->
     shared_tables T Tk kroot !! p = Some n /\ entry m' p j = entry (vs_ram st1) p j) ->
  (forall p n, T1 !! p = Some n -> shared_tables T Tk kroot !! p = None -> pa_is_free (vs_alloc st) p) ->
  user_half v -> path (vs_ram st1) root v n x -> path (vs_ram st) root v n x \/ pa_is_free (vs_alloc st) x.
Proof using HB Hsep Hcp.
  intros Hwf1 Hold Hnew Hv Hx. pose proof (path_table _ _ _ _ _ _ Hwf1 Hx) as HT1.
  destruct (shared_tables T Tk kroot !! x) as [k|] eqn:E; [left|right; by eapply Hnew].
  apply (copied_user_path v n x Hv). eapply (old_path _ (VmmState (vs_alloc st) m') root _ _ _ st1 T1); [done|exact Hold|exact HB|done|eauto].
Qed.

Lemma created_destroyable p' : pml4 p' = phys_to_virt root -> pml4_phys p' = root ->
  kernel_stack_top p' = PROCESS_VIRT_KERNEL_STACK_TOP -> kernel_stack_size p' = PROCESS_DEFAULT_KERNEL_STACK_SIZE ->
  exists T1, destroyable T1 st1 root p' /\ shared_tables T Tk kroot ⊆ T1 /\ Forall (fun p => T1 !! p = None) (U ++ K) /\
    (forall p n, T1 !! p = Some n -> shared_tables T Tk kroot !! p = None -> pa_is_free (vs_alloc st) p).
Proof using HB HK HU Hst Hsep Hcp Hld.
  intros Ep Eph Et Es. destruct (bd_tables _ _ _ _ _ _ _ HB) as (T1 & Hwf1 & Hsub & Hnew & HF & _ & _ & Hold). exists T1. split; [|done].
  pose proof (bd_managed _ _ _ _ _ _ _ HB) as Hman. cbn [vs_alloc] in Hman. split; try done.
  - intros v Hv. destruct (stack_slot v Hv) as (i & p & _ & _ & _ & E). eauto.
  - by apply created_frames.
  - apply Hman. apply (ld_tables _ _ _ _ Hld root 4), (wf_root _ _ _ (se_wf _ _ _ _ _ Hsep)).
  - intros v n x Hv Hn Hx. apply Hman. destruct (created_user_table T1 v n x Hwf1 Hold Hnew Hv Hx) as [Hx0|Hx0].
    + apply (ld_tables _ _ _ _ Hld x n). by apply (path_table _ _ _ _ _ _ (se_wf _ _ _ _ _ Hsep) Hx0).
    + apply (pa_free_managed _ _ (wf_alloc _ _ _ (se_wf _ _ _ _ _ Hsep)) Hx0).
Qed.

(** The old user half is still there. *)
Lemma old_user_page x : user_page (vs_ram st) root x -> user_page (vs_ram st1) root x.
Proof using HB HK HU Hst Hsep Hcp.
  destruct (bd_tables _ _ _ _ _ _ _ HB) as (T1 & Hwf1 & Hsub & _).
  intros (v & Hv & [(n & Hn & Hx)|(e & He & ->)]); exists v; (split; [done|]).
  - left. exists n. split; [done|]. apply (copied_user_path v n x Hv) in Hx. clear Hn.
    pose proof (share_wf T Tk root kroot st m' Hsep Hcp) as Hwf0.
    induction Hx as [|n p Hp IH Hn Hl]; [constructor|]. pose proof (path_table _ _ _ _ _ _ Hwf0 Hp) as HT0. pose proof (level_idx_range (Datatypes.S n) v) as Hi.
    assert (entry (vs_ram st1) p (level_idx (Datatypes.S n) v) = entry m' p (level_idx (Datatypes.S n) v)) as E.
    { apply (bd_links _ _ _ _ _ _ _ HB p (Datatypes.S n)); cbn [vs_ram]; [done|lia|done|]. intros E0. by rewrite E0 in Hl. }
    rewrite <- E in Hl |- *. by constructor.
  - right. exists e. split; [|done]. destruct (user_slot v Hv) as [(i & p & Hi & _ & Ev & _)|Ew]; [|congruence]. exfalso.
    pose proof (lookup_lt_Some _ _ _ Hi) as Hlt. destruct Hst as [[-> ->]|(Ht & Hs & Hr & Htop & Hnone)].
    { rewrite HU in Hlt. change (stack_count 0) with 0%nat in Hlt. lia. }
    assert (walk (vs_ram st) 4 root (top - size + Z.of_nat i * 4096) = None) as Hn by (apply Hnone; rewrite HU in Hlt; unfold stack_count in Hlt; lia).
    by rewrite (page_walk_vpn T st root v _ (se_wf _ _ _ _ _ Hsep) Ev e He) in Hn.
Qed.

(** The tables of the kernel stack: three, all of them new. *)
Lemma stack_tables : exists q3 q2 q1,
  path (vs_ram st1) root kernel_stack_start 3 q3 /\ path (vs_ram st1) root kernel_stack_start 2 q2 /\ path (vs_ram st1) root kernel_stack_start 1 q1 /\
  (forall v n x, kernel_stack v -> (n < 4)%nat -> path (vs_ram st1) root v n x -> x ∈ [q3; q2; q1]).
Proof using HB HK HU.
  destruct (bd_tables _ _ _ _ _ _ _ HB) as (T1 & Hwf1 & _).
  assert (kernel_stack kernel_stack_start) as Hk by (exists 0%nat; split; [lia|reflexivity]).
  destruct (stack_slot _ Hk) as (_ & p & _ & _ & _ & Hw). destruct (page_path T1 st1 root _ _ Hwf1 Hw) as (q3 & q2 & q1 & H3 & H2 & H1 & _).
  exists q3, q2, q1. split; [done|]. split; [done|]. split; [done|]. clear HU HK. intros v n x (k & Hk4 & Ev) Hn Hx.
  assert (vpn 2 v = vpn 2 kernel_stack_start) as E2.
  { rewrite (vpn_up 1 2 v _ ltac:(lia) ltac:(lia) Ev). destruct k as [|[|[|[|k]]]]; [reflexivity..|lia]. }
  pose proof (path_pos st1 root v n x Hx) as Hn1.
  assert (path (vs_ram st1) root kernel_stack_start n x) as Hx'.
  { eapply path_vpn; [exact Hx|]. intros _. apply (vpn_up 2); [lia|lia|done]. }
  destruct n as [|[|[|[|n]]]]; [lia| | | |lia].
  - rewrite (path_det _ _ _ _ _ _ Hx' H1), !elem_of_cons. clear. tauto.
  - rewrite (path_det _ _ _ _ _ _ Hx' H2), !elem_of_cons. clear. tauto.
  - rewrite (path_det _ _ _ _ _ _ Hx' H3), !elem_of_cons. clear. tauto.
Qed.

Lemma stack_table_new T1 n x : as_wf T1 st1 root ->
  (forall p n j k, T1 !! p = Some n -> 0 <= j < 512 -> is_link n (entry (vs_ram st1) p j) = true ->
     shared_tables T Tk kroot !! entry_addr (entry (vs_ram st1) p j) = Some k ->
     shared_tables T Tk kroot !! p = Some n /\ entry m' p j = entry (vs_ram st1) p j) ->
  (forall p n, T1 !! p = Some n -> shared_tables T Tk kroot !! p = None -> pa_is_free (vs_alloc st) p) ->
  (n < 4)%nat -> path (vs_ram st1) root kernel_stack_start n x -> pa_is_free (vs_alloc st) x.
Proof using HB H510 Hcp.
  intros Hwf1 Hold Hnew Hn Hx. pose proof (path_table _ _ _ _ _ _ Hwf1 Hx) as HT1. apply (Hnew x n HT1).
  destruct (shared_tables T Tk kroot !! x) as [k|] eqn:E; [|done].
  pose proof (old_path _ (VmmState (vs_alloc st) m') root _ _ _ st1 T1 _ n x Hwf1 Hold HB Hx (ex_intro _ _ E)) as Hx0.
  destruct (on_way_leaf (VmmState (vs_alloc st) m') root 4 kernel_stack_start root x); [constructor| |left; by exists n].
  left. cbn [vs_ram]. rewrite (ch_entry _ _ _ _ Hcp) by apply level_idx_range. exact H510.
Qed.

(** What creating the process took. *)
Lemma created_taken x : pa_is_free (vs_alloc st) x ->
  pa_is_free (vs_alloc st1) x \/ stack_frame (vs_ram st1) root x \/ user_page (vs_ram st1) root x \/
  exists v n, kernel_stack v /\ (n < 4)%nat /\ path (vs_ram st1) root v n x.
Proof using HB HK HU Hst Hsep Hcp.
  intros Hx. destruct (bd_tables _ _ _ _ _ _ _ HB) as (T1 & Hwf1 & Hsub & Hnew & HF & Hall & Hpath & _).
  destruct (Hall x Hx) as [?|[Hin|[n HT1]]]; [by left| |].
  - right. apply list_elem_of_lookup in Hin as [i Hi]. destruct (decide (i < length U)%nat) as [Hlt|Hge].
    + right. left. rewrite lookup_app_l in Hi by done. exists (top - size + Z.of_nat i * 4096). split.
      { pose proof (user_stack_idx4 root top size U st Hst HU i 0 Hlt ltac:(lia)) as Hu. by rewrite Z.add_0_r in Hu. }
      right. exists (Z.lor x VMM_FLAGS_USER_DATA). rewrite (bd_walk _ _ _ _ _ _ _ HB).
      split; [by apply (created_stack root kroot top size U K st Hst HU HK _ i)|]. symmetry. apply frame_addr; [|by left].
      apply elem_of_app. left. by eapply list_elem_of_lookup_2.
    + left. rewrite lookup_app_r in Hi by lia. pose proof (lookup_lt_Some _ _ _ Hi) as Hlt. rewrite HK in Hlt.
      exists (kernel_stack_start + Z.of_nat (i - length U) * 4096), (Z.lor x VMM_FLAGS_KERNEL_DATA). split; [by exists (i - length U)%nat|].
      rewrite (bd_walk _ _ _ _ _ _ _ HB). split; [by apply (created_kernel_stack root kroot top size U K st HK _ (i - length U))|].
      symmetry. apply frame_addr; [|by right]. apply elem_of_app. right. by eapply list_elem_of_lookup_2.
  - right. right. assert (shared_tables T Tk kroot !! x = None) as Hno.
    { destruct (shared_tables T Tk kroot !! x) as [k|] eqn:E; [|done].
      by apply (wf_table _ _ _ (share_wf T Tk root kroot st m' Hsep Hcp)) in E as (_ & ? & _). }
    destruct (Hpath x n HT1 Hno) as (v & Hv & Hold & HW). cbn [vs_ram] in Hold.
    assert (n < 4)%nat as Hn.
    { pose proof (path_le4 _ _ _ _ _ Hv). destruct (decide (n = 4%nat)) as [->|]; [|lia].
      rewrite (path_det _ _ _ _ _ _ Hv (path_root _ _ _)) in Hno. pose proof (wf_root _ _ _ (share_wf T Tk root kroot st m' Hsep Hcp)). congruence. }
    destruct (decide (user_half v)) as [Hu|Hu]; [left; exists v; split; [done|]; left; by exists n|]. unfold user_half in Hu.
    right. exists v, n. split; [|done]. destruct (decide (level_idx 4 v = 510)) as [E510|Hne].
    + destruct (decide (Exists (fun k : nat => vpn 1 v = vpn 1 (kernel_stack_start + Z.of_nat k * 4096)) (seq 0 4))) as [Hin|Hout].
      { apply Exists_exists in Hin as (k & Hk%elem_of_seq & Ev). exists k. split; [lia|done]. }
      destruct HW. unfold created_view. rewrite !mapped_view_out.
      * rewrite (share_walk T Tk root kroot st m' Hsep Hcp) in Hold. exact Hold.
      * intros k Hk Ev. pose proof (user_stack_idx4 root top size U st Hst HU k 0 Hk ltac:(lia)) as Hlow.
        rewrite Z.add_0_r, idx4_vpn, <- Ev, <- idx4_vpn in Hlow. lia.
      * intros k Hk Ev. apply Hout, Exists_exists. exists k. split; [apply elem_of_seq; lia|done].
    + destruct HW. rewrite (created_kernel root kroot top size U K st Hst HU HK v Hne ltac:(lia)).
      rewrite (share_walk T Tk root kroot st m' Hsep Hcp) in Hold. by rewrite (proj2 (Z.leb_le _ _)) in Hold by lia.
Qed.

(** What destroying the process gives back was free before, or a page of the program. *)
Lemma given_back x : pa_is_free (vs_alloc st1) x \/ x = root \/ stack_frame (vs_ram st1) root x \/ user_page (vs_ram st1) root x ->
  pa_is_free (vs_alloc st) x \/ x = root \/ user_page (vs_ram st) root x.
Proof using HB HK HU Hst Hsep Hcp.
  destruct (bd_tables _ _ _ _ _ _ _ HB) as (T1 & Hwf1 & Hsub & Hnew & HF & _ & _ & Hold). cbn [vs_alloc vs_ram] in *.
  assert (forall v e, owned v -> walk (vs_ram st1) 4 root v = Some (1%nat, e) ->
    pa_is_free (vs_alloc st) (entry_addr e) \/ (user_half v /\ walk (vs_ram st) 4 root v = Some (1%nat, e))) as Hslot.
  { intros v e Hv He. destruct (owned_slot v e Hv He) as [(i & Hi & _)|?]; [left|by right].
    apply list_elem_of_lookup_2 in Hi. by destruct (frame_facts _ Hi). }
  intros [Hx|[->|[(v & e & Hv & He & ->)|(v & Hv & [(n & Hn & Hp)|(e & He & ->)])]]].
  - left. by apply (bd_free _ _ _ _ _ _ _ HB).
  - by right; left.
  - destruct (Hslot v e (or_intror Hv) He) as [?|[Hu _]]; [by left|by destruct (user_not_stack v)].
  - destruct (created_user_table T1 v n x Hwf1 Hold Hnew Hv Hp) as [Hp0|?]; [|by left].
    right. right. exists v. split; [done|]. left. by exists n.
  - destruct (Hslot v e (or_introl Hv) He) as [?|[_ Ho]]; [by left|]. right. right. exists v. split; [done|]. right. by exists e.
Qed.
End lifecycle.

(** C7: creating a process and destroying it again accounts for every page.  Whatever
    program was loaded into the page map: afterwards the pages of that program, its tables
    and the root are free, every page that was free is free again, except three: the
    tables that [process_create] took for the kernel stack, which [process_destroy] leaks.
    The destruction writes to no other page than these. *)
Theorem process_lifecycle T Tk (root kroot : Z) st (b : nat) (process : Process) (pid' entry' cs' ss' rflags' top size : Z)
  (Hsep : separate T Tk st root kroot) (Hprogram : loaded T Tk st root) (Hempty : entry (vs_ram st) kroot 510 = 0)
  (Hstack : stack_ok st root top size) (Hfree : free_at_least b st) (Hbudget : (4 * stack_count size + 16 <= b)%nat) :
  exists p' st1 st2 L,
    process_create debug process pid' entry' cs' ss' rflags' top size PROCESS_VIRT_KERNEL_STACK_TOP PROCESS_DEFAULT_KERNEL_STACK_SIZE
      (phys_to_virt root) root (phys_to_virt kroot) st = Ok (p', st1) /\
    process_destroy p' st1 = Ok (tt, st2) /\
    length L = 3%nat /\ NoDup L /\ Forall (pa_is_free (vs_alloc st)) L /\
    (forall x, pa_is_free (vs_alloc st2) x <-> (pa_is_free (vs_alloc st) x /\ x ∉ L) \/ x = root \/ user_page (vs_ram st) root x) /\
    (forall x, (forall q, q ∈ L -> ~ q <= x < q + 4096) -> vs_ram st2 x = vs_ram st1 x).
Proof.
  destruct (process_create_run debug T Tk root kroot st b process pid' entry' cs' ss' rflags' top size root) as
    (p' & m' & U & K & st1 & E1 & HU & HK & Hcp & HB & (Epm & _ & _ & _ & _ & _ & _ & Eph & Et & Es & _)); [done..|].
  set (b' := (b - 4 * stack_count size - 16)%nat) in HB.
  destruct (created_destroyable T Tk root kroot top size st st1 m' U K b' Hsep Hprogram Hstack HU HK Hcp HB p' Epm Eph Et Es) as (T1' & Hd & _).
  destruct (process_destroy_run T1' st1 root p' Hd) as (st2 & E2 & Hfree2 & Hram2).
  destruct (stack_tables T Tk root kroot top size st st1 m' U K b' HU HK HB) as (q3 & q2 & q1 & H3 & H2 & H1 & Hq).
  destruct (bd_tables _ _ _ _ _ _ _ HB) as (T1 & Hwf1 & Hsub & Hnew & HF & _ & _ & Hold). cbn [vs_alloc vs_ram] in *.
  assert (kernel_stack kernel_stack_start) as Hk by (exists 0%nat; split; [lia|reflexivity]).
  assert (forall q, q ∈ [q3; q2; q1] -> exists n, (n < 4)%nat /\ path (vs_ram st1) root kernel_stack_start n q) as HL.
  { intros q. rewrite !elem_of_cons, elem_of_nil. intros [->|[->|[->|[]]]]; [exists 3%nat|exists 2%nat|exists 1%nat]; (split; [lia|done]). }
  assert (forall q, q ∈ [q3; q2; q1] -> pa_is_free (vs_alloc st) q) as HLf.
  { intros q (n & Hn & Hp)%HL. by apply (stack_table_new T Tk root kroot top size st st1 m' U K b' Hempty Hcp HB T1 n q). }
  assert (forall x, x ∈ [q3; q2; q1] -> ~ (pa_is_free (vs_alloc st1) x \/ x = root \/ stack_frame (vs_ram st1) root x \/ user_page (vs_ram st1) root x)) as HLn.
  { intros x (n & Hn & Hp)%HL. by apply (stack_tables_kept T1' st1 root p' kernel_stack_start n x). }
  exists p', st1, st2, [q3; q2; q1]. split; [exact E1|]. split; [exact E2|]. split; [done|]. split; [|split; [|split]].
  - pose proof (path_table _ _ _ _ _ _ Hwf1 H3). pose proof (path_table _ _ _ _ _ _ Hwf1 H2). pose proof (path_table _ _ _ _ _ _ Hwf1 H1).
    repeat (apply list.NoDup_cons; split; [rewrite ?elem_of_cons, elem_of_nil; intuition congruence|]). constructor.
  - apply list.Forall_forall. exact HLf.
  - intros x. rewrite Hfree2. split.
    + intros Hx. destruct (decide (x ∈ [q3; q2; q1])) as [Hin|Hout]; [by destruct (HLn x Hin)|].
      destruct (given_back T Tk root kroot top size st st1 m' U K b' Hsep Hstack HU HK Hcp HB x Hx) as [?|[?|?]]; tauto.
    + intros [[Hx Hout]|[->|Hx]]; [|tauto|].
      * destruct (created_taken T Tk root kroot top size st st1 m' U K b' Hsep Hstack HU HK Hcp HB x Hx) as [?|[?|[?|(v & n & Hv & Hn & Hp)]]]; [tauto..|].
        by destruct Hout; eapply Hq.
      * right. right. right. by apply (old_user_page T Tk root kroot top size st st1 m' U K b' Hsep Hstack HU HK Hcp HB).
  - intros x Hx. apply Hram2. intros v q Hv Hp. apply Hx, (Hq v 1%nat q Hv); [lia|done].
Qed.
End process_end.

(** ** Witnesses: a kernel process on the 64-page machine *)

Lemma two_maps_separate : separate (H := pmm_page_allocator true) {[0x2000 := 4%nat]} {[0x1000 := 4%nat]} two_maps 0x2000 0x1000.
Proof. split; [apply two_maps_wf; by right|apply two_maps_wf; by left|]. by apply map_disjoint_singleton_l_2. Qed.

Lemma two_maps_loaded : loaded (H := pmm_page_allocator true) {[0x2000 := 4%nat]} {[0x1000 := 4%nat]} two_maps 0x2000.
Proof.
  assert (forall v, walk (vs_ram two_maps) 4 0x2000 v = None) as Hw by reflexivity. split.
  - split; intros *; rewrite ?Hw; done.
  - intros v e _. by rewrite Hw.
  - intros p n [<- _]%lookup_singleton_Some. exists 2. split; [vm_compute; intuition congruence|reflexivity].
Qed.

Lemma process_lifecycle_witness : exists p' st1 st2,
  process_create (H := pmm_page_allocator true) true sample_process 0 0x400000 0x08 0x10 0x200 0 0 PROCESS_VIRT_KERNEL_STACK_TOP
    PROCESS_DEFAULT_KERNEL_STACK_SIZE (phys_to_virt 0x2000) 0x2000 (phys_to_virt 0x1000) two_maps = Ok (p', st1) /\
  process_destroy (H := pmm_page_allocator true) p' st1 = Ok (tt, st2).
Proof.
  destruct (process_lifecycle (H := pmm_page_allocator true) true {[0x2000 := 4%nat]} {[0x1000 := 4%nat]} 0x2000 0x1000 two_maps 16
    sample_process 0 0x400000 0x08 0x10 0x200 0 0) as (p' & st1 & st2 & L & E1 & E2 & _).
  - apply two_maps_separate.
  - apply two_maps_loaded.
  - reflexivity.
  - by left.
  - apply two_maps_free.
  - vm_compute. lia.
  - exists p', st1, st2. split; [exact E1|exact E2].
Defined.

Lemma process_destroy_correct_witness : exists p' st1 st2,
  process_destroy (H := pmm_page_allocator true) p' st1 = Ok (tt, st2) /\ pa_is_free (PageAllocator := pmm_page_allocator true) (vs_alloc st2) 0x2000.
Proof.
  destruct (process_create_run (H := pmm_page_allocator true) true {[0x2000 := 4%nat]} {[0x1000 := 4%nat]} 0x2000 0x1000 two_maps 16
    sample_process 0 0x400000 0x08 0x10 0x200 0 0 0x2000) as (p' & m' & U & K & st1 & E1 & HU & HK & Hcp & HB & (Epm & _ & _ & _ & _ & _ & _ & Eph & Et & Es & _)).
  - apply two_maps_separate.
  - reflexivity.
  - by left.
  - apply two_maps_free.
  - vm_compute. lia.
  - destruct (created_destroyable (H := pmm_page_allocator true) {[0x2000 := 4%nat]} {[0x1000 := 4%nat]} 0x2000 0x1000 0 0 two_maps st1 m' U K _ two_maps_separate
      two_maps_loaded (or_introl (conj eq_refl eq_refl)) HU HK Hcp HB p' Epm Eph Et Es) as (T1 & Hd & _).
    destruct (process_destroy_correct (H := pmm_page_allocator true) T1 st1 0x2000 p' Hd) as (st2 & E2 & Hfree & _).
    exists p', st1, st2. split; [exact E2|]. apply Hfree. right. left. reflexivity.
Defined.
