(* ===== verification/BsfsTypes.v ===== *)
(** * BSFS on-disk structures

    [include/common/bsfs/bsfs.h]: the header, inode and directory-entry structures,
    which are packed, as records.  The C code copies these structures between memory and
    disk without a conversion; [header_bytes], [parse_header] and their like for inodes and
    entries state the representation the compiler gives a packed structure (the fields in
    the order of their declaration, without padding, little endian), so that the bytes of
    an image can be related to the fields the code reads and writes. *)
From S2P Require Import Prelude.
From Stdlib Require Import ZArith Lia.
From stdpp Require Import base tactics list numbers.

Open Scope Z_scope.

Definition BSFS_MAGIC : Z := 0x42534653.
Definition BSFS_VERSION : Z := 0x01030100.
Definition BSFS_MAX_DIRECTBLOCKS : Z := 10.
Definition BSFS_MAX_DIRENTNAME : Z := 124.
Definition BSFS_INODE_TYPE_FREE : Z := 0.
Definition BSFS_INODE_TYPE_FILE : Z := 1.
Definition BSFS_INODE_TYPE_DIRECTORY : Z := 2.
Definition BSFS_INODE_TYPE_SYMLINK : Z := 3.
Definition BSFS_INODE_NULL : Z := 0.
Definition BSFS_INODE_ROOT : Z := 1.

Record BsfsHeader := {
  bootjmp : list Z;
  magic : Z;
  version : Z;
  block_size : Z;
  total_blocks : Z;
  inode_count : Z;
  free_blocks : Z;
  free_inodes : Z;
  block_bitmap_start : Z;
  block_bitmap_blocks : Z;
  megablock_bitmap_start : Z;
  megablock_bitmap_blocks : Z;
  megablock_bitmap_size : Z;
  inode_bitmap_start : Z;
  inode_bitmap_blocks : Z;
  inode_table_start : Z;
  inode_table_blocks : Z;
  data_start : Z;
  root_inode : Z;
  partition_lba : Z;
  label : list Z;
  bootcode : list Z;
  bootcode_magic : list Z;
}.

Record BsfsInode := {
  type : Z;
  permissions : Z;
  uid : Z;
  gid : Z;
  size : Z;
  blocks : Z;
  created : Z;
  modified : Z;
  accessed : Z;
  link_count : Z;
  blocks_direct : list Z;
  blocks_l1indirect : Z;
  blocks_l2indirect : Z;
  blocks_l3indirect : Z;
  checksum : Z;
  inode_reserved : list Z;
}.

Record BsfsDirent := {
  inode : Z;
  name : list Z;
}.

Definition sizeof_BsfsHeader : Z := 512.
Definition sizeof_BsfsInode : Z := 128.
Definition sizeof_BsfsDirent : Z := 128.

(** ** Reading and writing packed fields *)

(** An [n]-byte integer at the front, and the bytes behind it. *)
Definition parse_le (n : nat) (bs : list Z) : Z * list Z := (le_word (take n bs), drop n bs).
Definition parse_bytes (n : nat) (bs : list Z) : list Z * list Z := (take n bs, drop n bs).

Fixpoint parse_words (k : nat) (bs : list Z) : list Z * list Z :=
  match k with
  | O => ([], bs)
  | S k' =>
      let '(w, bs) := parse_le 4 bs in
      let '(ws, bs) := parse_words k' bs in
      (w :: ws, bs)
  end.

Definition words_bytes (ws : list Z) : list Z := ws ≫= le_bytes 4.

Definition header_bytes (h : BsfsHeader) : list Z :=
  bootjmp h ++ words_bytes [magic h; version h; block_size h; total_blocks h; inode_count h;
    free_blocks h; free_inodes h; block_bitmap_start h; block_bitmap_blocks h;
    megablock_bitmap_start h; megablock_bitmap_blocks h; megablock_bitmap_size h;
    inode_bitmap_start h; inode_bitmap_blocks h; inode_table_start h; inode_table_blocks h;
    data_start h; root_inode h] ++
  le_bytes 8 (partition_lba h) ++ label h ++ bootcode h ++ bootcode_magic h.

Definition parse_header (bs : list Z) : BsfsHeader :=
  let '(bj, bs) := parse_bytes 3 bs in
  let '(mg, bs) := parse_le 4 bs in
  let '(ve, bs) := parse_le 4 bs in
  let '(bsz, bs) := parse_le 4 bs in
  let '(tb, bs) := parse_le 4 bs in
  let '(ic, bs) := parse_le 4 bs in
  let '(fb, bs) := parse_le 4 bs in
  let '(fi, bs) := parse_le 4 bs in
  let '(bbs, bs) := parse_le 4 bs in
  let '(bbb, bs) := parse_le 4 bs in
  let '(mbs, bs) := parse_le 4 bs in
  let '(mbb, bs) := parse_le 4 bs in
  let '(mbsz, bs) := parse_le 4 bs in
  let '(ibs, bs) := parse_le 4 bs in
  let '(ibb, bs) := parse_le 4 bs in
  let '(its, bs) := parse_le 4 bs in
  let '(itb, bs) := parse_le 4 bs in
  let '(ds, bs) := parse_le 4 bs in
  let '(ri, bs) := parse_le 4 bs in
  let '(pl, bs) := parse_le 8 bs in
  let '(lb, bs) := parse_bytes 32 bs in
  let '(bc, bs) := parse_bytes 395 bs in
  let '(bm, bs) := parse_bytes 2 bs in
  {| bootjmp := bj; magic := mg; version := ve; block_size := bsz; total_blocks := tb;
     inode_count := ic; free_blocks := fb; free_inodes := fi; block_bitmap_start := bbs;
     block_bitmap_blocks := bbb; megablock_bitmap_start := mbs; megablock_bitmap_blocks := mbb;
     megablock_bitmap_size := mbsz; inode_bitmap_start := ibs; inode_bitmap_blocks := ibb;
     inode_table_start := its; inode_table_blocks := itb; data_start := ds; root_inode := ri;
     partition_lba := pl; label := lb; bootcode := bc; bootcode_magic := bm |}.

Definition inode_bytes (i : BsfsInode) : list Z :=
  le_bytes 1 (type i) ++ le_bytes 2 (permissions i) ++ le_bytes 4 (uid i) ++ le_bytes 4 (gid i) ++
  le_bytes 8 (size i) ++ le_bytes 4 (blocks i) ++ le_bytes 8 (created i) ++ le_bytes 8 (modified i) ++
  le_bytes 8 (accessed i) ++ le_bytes 4 (link_count i) ++ words_bytes (blocks_direct i) ++
  le_bytes 4 (blocks_l1indirect i) ++ le_bytes 4 (blocks_l2indirect i) ++ le_bytes 4 (blocks_l3indirect i) ++
  le_bytes 4 (checksum i) ++ inode_reserved i.

Definition parse_inode (bs : list Z) : BsfsInode :=
  let '(ty, bs) := parse_le 1 bs in
  let '(pe, bs) := parse_le 2 bs in
  let '(ui, bs) := parse_le 4 bs in
  let '(gi, bs) := parse_le 4 bs in
  let '(sz, bs) := parse_le 8 bs in
  let '(bl, bs) := parse_le 4 bs in
  let '(cr, bs) := parse_le 8 bs in
  let '(mo, bs) := parse_le 8 bs in
  let '(ac, bs) := parse_le 8 bs in
  let '(lc, bs) := parse_le 4 bs in
  let '(bd, bs) := parse_words 10 bs in
  let '(l1, bs) := parse_le 4 bs in
  let '(l2, bs) := parse_le 4 bs in
  let '(l3, bs) := parse_le 4 bs in
  let '(ck, bs) := parse_le 4 bs in
  let '(rs, bs) := parse_bytes 21 bs in
  {| type := ty; permissions := pe; uid := ui; gid := gi; size := sz; blocks := bl; created := cr;
     modified := mo; accessed := ac; link_count := lc; blocks_direct := bd; blocks_l1indirect := l1;
     blocks_l2indirect := l2; blocks_l3indirect := l3; checksum := ck; inode_reserved := rs |}.

Definition dirent_bytes (d : BsfsDirent) : list Z := le_bytes 4 (inode d) ++ name d.

Definition parse_dirent (bs : list Z) : BsfsDirent :=
  let '(i, bs) := parse_le 4 bs in
  let '(n, bs) := parse_bytes 124 bs in
  {| inode := i; name := n |}.

(** ** Well-formed values: every field in its width *)

Definition header_ok (h : BsfsHeader) : Prop :=
  length (bootjmp h) = 3%nat /\ length (label h) = 32%nat /\ length (bootcode h) = 395%nat /\
  length (bootcode_magic h) = 2%nat /\ 0 <= partition_lba h < 2 ^ 64 /\
  Forall (fun w => 0 <= w < 2 ^ 32) [magic h; version h; block_size h; total_blocks h; inode_count h;
    free_blocks h; free_inodes h; block_bitmap_start h; block_bitmap_blocks h;
    megablock_bitmap_start h; megablock_bitmap_blocks h; megablock_bitmap_size h;
    inode_bitmap_start h; inode_bitmap_blocks h; inode_table_start h; inode_table_blocks h;
    data_start h; root_inode h].

Definition inode_ok (i : BsfsInode) : Prop :=
  0 <= type i < 2 ^ 8 /\ 0 <= permissions i < 2 ^ 16 /\ 0 <= size i < 2 ^ 64 /\
  0 <= created i < 2 ^ 64 /\ 0 <= modified i < 2 ^ 64 /\ 0 <= accessed i < 2 ^ 64 /\
  length (blocks_direct i) = 10%nat /\ length (inode_reserved i) = 21%nat /\
  Forall (fun w => 0 <= w < 2 ^ 32) (uid i :: gid i :: blocks i :: link_count i :: blocks_l1indirect i ::
    blocks_l2indirect i :: blocks_l3indirect i :: checksum i :: blocks_direct i).

Definition dirent_ok (d : BsfsDirent) : Prop := 0 <= inode d < 2 ^ 32 /\ length (name d) = 124%nat.

(** ** Lemmas *)

Lemma parse_le_app n w rest : 0 <= w < 2 ^ (8 * Z.of_nat n) -> parse_le n (le_bytes n w ++ rest) = (w, rest).
Proof.
  intros Hw. unfold parse_le. rewrite take_app_length', drop_app_length' by (by rewrite length_le_bytes).
  by rewrite le_word_bytes, Z.mod_small.
Qed.

Lemma parse_bytes_app n l rest : length l = n -> parse_bytes n (l ++ rest) = (l, rest).
Proof. intros <-. unfold parse_bytes. by rewrite take_app_length, drop_app_length. Qed.

Lemma parse_words_app k ws rest : length ws = k -> Forall (fun w => 0 <= w < 2 ^ 32) ws ->
  parse_words k (words_bytes ws ++ rest) = (ws, rest).
Proof.
  intros <- Hws. induction Hws as [|w ws Hw _ IH]; [done|]. cbn [length parse_words words_bytes].
  change (words_bytes (w :: ws)) with (le_bytes 4 w ++ words_bytes ws). rewrite <- app_assoc.
  rewrite parse_le_app by done. by rewrite IH.
Qed.

Lemma words_bytes_cons w ws rest : words_bytes (w :: ws) ++ rest = le_bytes 4 w ++ words_bytes ws ++ rest.
Proof. unfold words_bytes. cbn [mbind list_bind]. by rewrite app_assoc. Qed.

Lemma length_words_bytes ws : length (words_bytes ws) = (4 * length ws)%nat.
Proof. induction ws as [|w ws IH]; [done|]. cbn [length]. change (words_bytes (w :: ws)) with (le_bytes 4 w ++ words_bytes ws).
  rewrite length_app, length_le_bytes, IH. lia. Qed.

Lemma length_inode_bytes i : inode_ok i -> length (inode_bytes i) = 128%nat.
Proof.
  intros (_ & _ & _ & _ & _ & _ & Hd & Hr & _). unfold inode_bytes.
  rewrite !length_app, !length_le_bytes, length_words_bytes, Hd, Hr. lia.
Qed.

Lemma length_dirent_bytes d : dirent_ok d -> length (dirent_bytes d) = 128%nat.
Proof. intros [_ Hn]. unfold dirent_bytes. rewrite length_app, length_le_bytes, Hn. done. Qed.

Lemma length_header_bytes h : header_ok h -> length (header_bytes h) = 512%nat.
Proof.
  intros (Hb & Hl & Hc & Hm & _). unfold header_bytes.
  rewrite !length_app, length_words_bytes, length_le_bytes, Hb, Hl, Hc, Hm. done.
Qed.

(** The parsers undo the encodings; bytes that follow are ignored. *)
Lemma parse_inode_bytes i rest : inode_ok i -> parse_inode (inode_bytes i ++ rest) = i.
Proof.
  intros (H1 & H2 & H3 & H4 & H5 & H6 & Hd & Hr & Hw). rewrite !list.Forall_cons in Hw.
  destruct Hw as (Hw1 & Hw2 & Hw3 & Hw4 & Hw5 & Hw6 & Hw7 & Hw8 & Hwd).
  unfold parse_inode, inode_bytes. rewrite <- !app_assoc.
  do 10 (rewrite parse_le_app by done). rewrite parse_words_app by done.
  do 4 (rewrite parse_le_app by done). rewrite parse_bytes_app by done. by destruct i.
Qed.

Lemma parse_dirent_bytes d rest : dirent_ok d -> parse_dirent (dirent_bytes d ++ rest) = d.
Proof.
  intros (H1 & H2). unfold parse_dirent, dirent_bytes. rewrite <- !app_assoc.
  rewrite parse_le_app, parse_bytes_app by done. by destruct d.
Qed.

Lemma parse_header_bytes h rest : header_ok h -> parse_header (header_bytes h ++ rest) = h.
Proof.
  intros (Hb & Hl & Hc & Hm & Hp & Hw). rewrite !list.Forall_cons in Hw.
  destruct_and! Hw. unfold parse_header, header_bytes. rewrite <- !app_assoc.
  rewrite parse_bytes_app by done. do 18 (rewrite words_bytes_cons, parse_le_app by done).
  cbn [words_bytes mbind list_bind app]. rewrite parse_le_app by done.
  do 3 (rewrite parse_bytes_app by done). by destruct h.
Qed.

(** ** Properties *)

(** *** Samples *)

Definition sample_header : BsfsHeader :=
  {| bootjmp := [0xEB; 0x3C; 0x90]; magic := BSFS_MAGIC; version := BSFS_VERSION; block_size := 4096;
     total_blocks := 64; inode_count := 32; free_blocks := 50; free_inodes := 30; block_bitmap_start := 17;
     block_bitmap_blocks := 1; megablock_bitmap_start := 18; megablock_bitmap_blocks := 1;
     megablock_bitmap_size := 8; inode_bitmap_start := 19; inode_bitmap_blocks := 1;
     inode_table_start := 20; inode_table_blocks := 1; data_start := 21; root_inode := 1;
     partition_lba := 0; label := replicate 32 0; bootcode := replicate 395 0; bootcode_magic := [0x55; 0xAA] |}.

Definition sample_inode : BsfsInode :=
  {| type := 1; permissions := 6; uid := 0; gid := 0; size := 5; blocks := 1; created := 0; modified := 0;
     accessed := 0; link_count := 1; blocks_direct := 22 :: replicate 9 0; blocks_l1indirect := 0;
     blocks_l2indirect := 0; blocks_l3indirect := 0; checksum := 0x3610A686; inode_reserved := replicate 21 0 |}.

Definition sample_dirent : BsfsDirent := {| inode := 2; name := [104; 105] ++ replicate 122 0 |}.
