(* ===== verification/BsfsFile.v ===== *)
(** * BSFS: reading files

    [kernel/common/bsfs/bsfs.c] and its stage 2 copy: path resolution, opening,
    reading, seeking and checksum verification, over a disk given as operations on a
    device state.  A buffer is the list of its bytes, so its length is its capacity
    and a write or read past it is a [Fault].  [fread] yields the bytes it copies to
    the caller's memory along with its return value; a path is the list of its
    characters without the terminator. *)
From Stdlib Require Import ZArith Lia.
From stdpp Require Import base tactics list numbers.
From S2P Require Import Prelude Crc32 CString BsfsTypes.

Open Scope Z_scope.

Definition DISK_READ_MAX_BLOCKS : Z := 8.

(** [include/common/disk.h]: reading reports success and yields the bytes it stored in
    the buffer (on failure these may be fewer); writing reports success. *)
Record DiskOpsVtable (D : Type) := {
  disk_read : Z -> Z -> M D (bool * list Z);
  disk_write : Z -> Z -> list Z -> M D bool;
}.
Arguments disk_read {D} d _ _ _.
Arguments disk_write {D} d _ _ _ _.

Definition BSFS_FOPEN_FILE_NOTFOUND : Z := -1.
Definition BSFS_FOPEN_NOT_A_FILE : Z := -2.
Definition BSFS_DISK_READ_ERROR : Z := -3.
Definition BSFS_FREAD_FILE_TOO_BIG : Z := -4.
Definition BSFS_FOPEN_BUF_TOO_SMALL : Z := -5.
Definition BSFS_FOPEN_BUF_UNALIGNED : Z := -6.
Definition BSFS_FREAD_DISK_READ_ERROR : Z := -7.
Definition BSFS_FREAD_SIZE_TOO_BIG : Z := -8.
Definition BSFS_FREAD_BUF_TOO_SMALL : Z := -9.
Definition BSFS_CHECKSUM_FAILED : Z := -10.

(** The messages of [bsfs_strerror], as an enumeration. *)
Inductive bsfs_message :=
| msg_file_not_found | msg_inode_not_a_file | msg_disk_read_error | msg_file_too_big
| msg_buffer_too_small | msg_unaligned_buffer | msg_checksum_failed | msg_unknown_error.

Definition bsfs_strerror (err : Z) : bsfs_message :=
  if err =? -1 then msg_file_not_found else
  if err =? -2 then msg_inode_not_a_file else
  if err =? -3 then msg_disk_read_error else
  if err =? -4 then msg_file_too_big else
  if err =? -5 then msg_buffer_too_small else
  if err =? -6 then msg_unaligned_buffer else
  if err =? -7 then msg_disk_read_error else
  if err =? -8 then msg_file_too_big else
  if err =? -9 then msg_buffer_too_small else
  if err =? -10 then msg_checksum_failed else
  msg_unknown_error.

Inductive bsfs_whence := BSFS_FSEEKO_SET | BSFS_FSEEKO_CUR | BSFS_FSEEKO_END.

Record BsfsContext (D : Type) := {
  header : BsfsHeader;
  disk_ops : DiskOpsVtable D;
  phys_sector_size : Z;
  scratch_buf_capacity : Z;
}.
Arguments header {D} b.
Arguments disk_ops {D} b.
Arguments phys_sector_size {D} b.
Arguments scratch_buf_capacity {D} b.

(** [l2_table] and [l3_table] are never used. *)
Record BsfsFile := {
  f_inode : option BsfsInode;
  buf : list Z;
  bufsize : Z;
  position : Z;
  cached_block : Z;
  l1_table : list Z;
  cached_l1 : Z;
  cached_l2 : Z;
  cached_l3 : Z;
  eof : bool;
}.

Definition slice (bs : list Z) (off n : Z) : list Z := take (Z.to_nat n) (drop (Z.to_nat off) bs).

(** Storing bytes at an offset of a buffer. *)
Definition buf_write (b : list Z) (off : Z) (bytes : list Z) : outcome (list Z) :=
  if (0 <=? off) && (off + Z.of_nat (length bytes) <=? Z.of_nat (length b)) then
    Ok (take (Z.to_nat off) b ++ bytes ++ drop (Z.to_nat off + length bytes) b)
  else Fault.

Definition buf_read (b : list Z) (off n : Z) : outcome (list Z) :=
  if (0 <=? off) && (0 <=? n) && (off + n <=? Z.of_nat (length b)) then Ok (slice b off n) else Fault.

Section bsfs.
Context {D : Type} (context : BsfsContext D).

Let h := header context.

(** [disk_ops->read(lba, count, scratch_buf)]. *)
Definition read_scratch (lba count : Z) : M D (option (list Z)) :=
  '(ok, bytes) ← disk_read (disk_ops context) lba count;
  if scratch_buf_capacity context <? Z.of_nat (length bytes) then fault else
  mret (if ok : bool then Some bytes else None).

(** Return value and, on success, the inode. *)
Definition bsfs_read_inode (inode_idx : Z) : M D (Z * option BsfsInode) :=
  let inode_offset := u32 (u32 (inode_table_start h * block_size h) + sizeof_BsfsInode * inode_idx) in
  let inode_sector_lba := inode_offset / phys_sector_size context in
  r ← read_scratch inode_sector_lba 1;
  match r with
  | None => mret (BSFS_DISK_READ_ERROR, None)
  | Some bytes =>
      let idx := inode_offset mod phys_sector_size context / sizeof_BsfsInode in
      b ← lift (buf_read bytes (idx * sizeof_BsfsInode) sizeof_BsfsInode);
      mret (0, Some (parse_inode b))
  end.

(** The next component of a path: up to 123 characters before a ['/'] or the end, and
    the path behind the separator. *)
Fixpoint path_component (path : list Z) (len : nat) : option (list Z * list Z) :=
  match path with
  | [] => Some ([], [])
  | ch :: path' =>
      if ch =? 47 then Some ([], path') else
      if (Z.to_nat (BSFS_MAX_DIRENTNAME - 1) <=? len)%nat then None else
      match path_component path' (S len) with
      | Some (comp, rest) => Some (ch :: comp, rest)
      | None => None
      end
  end.

(** [for (d = 0; d < block_size / sizeof(BsfsDirent); d++)]: [n] entries from [d] on. *)
Fixpoint find_dirent (n : nat) (block : list Z) (d : Z) (name_tmp : list Z) : outcome (option Z) :=
  match n with
  | O => Ok None
  | S n' =>
      b ← buf_read block (d * sizeof_BsfsDirent) sizeof_BsfsDirent;
      let dirent := parse_dirent b in
      c ← strcmp (name dirent) name_tmp;
      if c =? 0 then Ok (Some (inode dirent)) else find_dirent n' block (d + 1) name_tmp
  end.

(** The loop over the direct blocks: [None] is a disk failure, [Some None] not found. *)
Fixpoint find_in_blocks (direct : list Z) (name_tmp : list Z) : M D (option (option Z)) :=
  match direct with
  | [] => mret (Some None)
  | dirent_block_idx :: direct' =>
      if dirent_block_idx =? 0 then find_in_blocks direct' name_tmp else
      let dirent_block_offset := u32 (dirent_block_idx * block_size h) in
      let dirent_sector_lba := dirent_block_offset / phys_sector_size context in
      r ← read_scratch dirent_sector_lba (block_size h / phys_sector_size context);
      match r with
      | None => mret None
      | Some bytes =>
          found ← lift (find_dirent (Z.to_nat (block_size h / sizeof_BsfsDirent)) bytes 0 name_tmp);
          match found with
          | Some i => mret (Some (Some i))
          | None => find_in_blocks direct' name_tmp
          end
      end
  end.

(** The loop over the components; each turn consumes a character at least. *)
Fixpoint resolve_loop (fuel : nat) (path : list Z) (current_inode_idx : Z) : M D Z :=
  match path, fuel with
  | [], _ => mret current_inode_idx
  | _, O => fun _ => OutOfFuel
  | _, S fuel' =>
      match path_component path 0 with
      | None => mret UINT32_MAX
      | Some (comp, rest) =>
          '(err, ino) ← bsfs_read_inode current_inode_idx;
          match ino with
          | None => mret UINT32_MAX
          | Some ino =>
              r ← find_in_blocks (blocks_direct ino) (comp ++ [0]);
              match r with
              | Some (Some i) => resolve_loop fuel' rest i
              | _ => mret UINT32_MAX
              end
          end
      end
  end.

Definition bsfs_resolve_path (path : list Z) : M D Z :=
  match path with
  | [] => mret UINT32_MAX
  | c :: path' =>
      if negb (c =? 47) then mret UINT32_MAX else resolve_loop (length path') path' (root_inode h)
  end.

(** On success the record is ready for reading at position 0. *)
Definition bsfs_fopen (path : list Z) (file_out : BsfsFile) : M D (Z * BsfsFile) :=
  inode_idx ← bsfs_resolve_path path;
  if inode_idx =? UINT32_MAX then mret (BSFS_FOPEN_NOT_A_FILE, file_out) else
  '(err, ino) ← bsfs_read_inode inode_idx;
  match ino with
  | None => mret (BSFS_DISK_READ_ERROR, file_out)
  | Some ino =>
      let f pos cb c1 c2 c3 e := {| f_inode := Some ino; buf := buf file_out; bufsize := bufsize file_out;
        position := pos; cached_block := cb; l1_table := l1_table file_out;
        cached_l1 := c1; cached_l2 := c2; cached_l3 := c3; eof := e |} in
      let kept := f (position file_out) (cached_block file_out) (cached_l1 file_out) (cached_l2 file_out)
        (cached_l3 file_out) (eof file_out) in
      if negb (type ino =? BSFS_INODE_TYPE_FILE) then mret (BSFS_FOPEN_NOT_A_FILE, kept) else
      if bufsize file_out <? block_size h then mret (BSFS_FOPEN_BUF_TOO_SMALL, kept) else
      if negb (bufsize file_out mod block_size h =? 0) then mret (BSFS_FOPEN_BUF_UNALIGNED, kept) else
      mret (0, f 0 UINT32_MAX UINT32_MAX UINT32_MAX UINT32_MAX false)
  end.

Definition with_buf (f : BsfsFile) (b : list Z) (cb : Z) : BsfsFile :=
  {| f_inode := f_inode f; buf := b; bufsize := bufsize f; position := position f; cached_block := cb;
     l1_table := l1_table f; cached_l1 := cached_l1 f; cached_l2 := cached_l2 f; cached_l3 := cached_l3 f;
     eof := eof f |}.

Definition with_l1 (f : BsfsFile) (t : list Z) (c1 : Z) : BsfsFile :=
  {| f_inode := f_inode f; buf := buf f; bufsize := bufsize f; position := position f;
     cached_block := cached_block f; l1_table := t; cached_l1 := c1; cached_l2 := cached_l2 f;
     cached_l3 := cached_l3 f; eof := eof f |}.

Definition with_position (f : BsfsFile) (p : Z) (e : bool) : BsfsFile :=
  {| f_inode := f_inode f; buf := buf f; bufsize := bufsize f; position := p;
     cached_block := cached_block f; l1_table := l1_table f; cached_l1 := cached_l1 f;
     cached_l2 := cached_l2 f; cached_l3 := cached_l3 f; eof := e |}.

Definition sectors_per_block : Z := block_size h / phys_sector_size context.
Definition l1_capacity : Z := block_size h / 4.
Definition l2_indirect_start : Z := u32 (BSFS_MAX_DIRECTBLOCKS + l1_capacity).

(** [block * block_size / phys_sector_size] in 32-bit arithmetic. *)
Definition block_lba (block : Z) : Z := u32 (block * block_size h) / phys_sector_size context.

(** [read(lba, sectors_per_block, bufptr)] into the file's buffer, and
    [cached_block = i] on success. *)
Definition read_into_buf (f : BsfsFile) (lba bufptr i : Z) : M D (option Z * BsfsFile) :=
  '(ok, bytes) ← disk_read (disk_ops context) lba sectors_per_block;
  b ← lift (buf_write (buf f) bufptr bytes);
  mret (if ok : bool then (None, with_buf f b i)
        else (Some BSFS_FREAD_DISK_READ_ERROR, with_buf f b (cached_block f))).

(** The indirect table, read on first use. *)
Definition load_l1 (ino : BsfsInode) (f : BsfsFile) : M D (option Z * BsfsFile) :=
  if negb (cached_l1 f =? UINT32_MAX) then mret (None, f) else
  '(ok, bytes) ← disk_read (disk_ops context) (block_lba (blocks_l1indirect ino)) sectors_per_block;
  t ← lift (buf_write (l1_table f) 0 bytes);
  mret (if ok : bool then (None, with_l1 f t (blocks_l1indirect ino))
        else (Some BSFS_FREAD_DISK_READ_ERROR, with_l1 f t (cached_l1 f))).

(** One turn of the block loop of [bsfs_fread], for block [i] into [bufptr]: the error
    code the function returns with, if any, and the file. *)
Definition fread_block (ino : BsfsInode) (f : BsfsFile) (i bufptr : Z) : M D (option Z * BsfsFile) :=
  if i =? cached_block f then mret (None, f) else
  if i <? BSFS_MAX_DIRECTBLOCKS then
    b ← lift (rd (blocks_direct ino) i);
    read_into_buf f (block_lba b) bufptr i
  else if i <? l2_indirect_start then
    '(err, f) ← load_l1 ino f;
    match err with
    | Some e => mret (Some e, f)
    | None =>
        e ← lift (buf_read (l1_table f) ((i - BSFS_MAX_DIRECTBLOCKS) * 4) 4);
        read_into_buf f (block_lba (le_word e)) bufptr i
    end
  else mret (Some BSFS_FREAD_FILE_TOO_BIG, f).

(** [n] blocks from [i] on. *)
Fixpoint fread_blocks (n : nat) (ino : BsfsInode) (f : BsfsFile) (i bufptr : Z) : M D (option Z * BsfsFile) :=
  match n with
  | O => mret (None, f)
  | S n' =>
      '(err, f) ← fread_block ino f i bufptr;
      match err with
      | Some e => mret (Some e, f)
      | None => fread_blocks n' ino f (i + 1) (bufptr + block_size h)
      end
  end.

(** Return value, bytes copied to the caller and the file. *)
Definition bsfs_fread (size_ count : Z) (file : BsfsFile) : M D (Z * list Z * BsfsFile) :=
  match f_inode file with
  | None => fault
  | Some ino =>
      let start_offset := u32 (position file) in
      let end_offset := u32 (start_offset + u32 (size_ * count)) in
      let end_offset := if size ino <? end_offset then u32 (size ino) else end_offset in
      let end_offset := if bufsize file <? u32 (end_offset - start_offset)
                        then u32 (start_offset + bufsize file) else end_offset in
      let total_bytes_to_read := u32 (end_offset - start_offset) in
      if DISK_READ_MAX_BLOCKS * phys_sector_size context <? total_bytes_to_read then
        mret (BSFS_FREAD_SIZE_TOO_BIG, [], file)
      else
      let start_block := start_offset / block_size h in
      let end_block := u32 (end_offset + block_size h - 1) / block_size h in
      '(err, f) ← fread_blocks (Z.to_nat (end_block - start_block)) ino file start_block 0;
      match err with
      | Some e => mret (e, [], f)
      | None =>
          let offset_in_buf := start_offset mod block_size h in
          bytes ← lift (buf_read (buf f) offset_in_buf total_bytes_to_read);
          mret (total_bytes_to_read, bytes, with_position f end_offset (size ino <=? end_offset))
      end
  end.

(** [offset] is a [uint64_t]; the position wraps at 64 bits. *)
Definition bsfs_fseeko (file : BsfsFile) (offset : Z) (whence : bsfs_whence) : outcome (Z * BsfsFile) :=
  match f_inode file with
  | None => Fault
  | Some ino =>
      let pos := match whence with
                 | BSFS_FSEEKO_CUR => u64 (position file + offset)
                 | BSFS_FSEEKO_SET => offset
                 | BSFS_FSEEKO_END => u64 (size ino - offset)
                 end in
      Ok (0, if size ino <=? pos then with_position file (size ino) true else with_position file pos false)
  end.

Definition bsfs_fclose (file : BsfsFile) : Z * BsfsFile :=
  (0, {| f_inode := None; buf := buf file; bufsize := bufsize file; position := UINT64_MAX;
         cached_block := cached_block file; l1_table := l1_table file; cached_l1 := cached_l1 file;
         cached_l2 := cached_l2 file; cached_l3 := cached_l3 file; eof := eof file |}).

(** The read loop of [bsfs_verify_checksum]: an error code, or the running checksum. *)
Fixpoint verify_loop (fuel : nat) (bufsize_ : Z) (file : BsfsFile) (checksum : Z) : M D (sum Z Z * BsfsFile) :=
  if eof file then mret (inr checksum, file) else
  match fuel with
  | O => fun _ => OutOfFuel
  | S fuel' =>
      '(read, bytes, file) ← bsfs_fread 1 (u32 bufsize_) file;
      if s32 read <? 0 then mret (inl (s32 read), file) else
      verify_loop fuel' bufsize_ file (crc32_update checksum bytes)
  end.

Definition bsfs_verify_checksum (fuel : nat) (file : BsfsFile) (bufsize_ : Z) : M D (Z * BsfsFile) :=
  '(r, file) ← verify_loop fuel bufsize_ file 0xFFFFFFFF;
  match r with
  | inl e => mret (e, file)
  | inr crc =>
      match f_inode file with
      | None => fault
      | Some ino =>
          mret (if crc32_finalize crc =? checksum ino then 1 else BSFS_CHECKSUM_FAILED, file)
      end
  end.
End bsfs.

(** The stage 2 copies are the same text (without the checksum verification). *)
Definition stage2_bsfs_read_inode {D} := @bsfs_read_inode D.
Definition stage2_bsfs_resolve_path {D} := @bsfs_resolve_path D.
Definition stage2_bsfs_fopen {D} := @bsfs_fopen D.
Definition stage2_bsfs_fread {D} := @bsfs_fread D.
Definition stage2_bsfs_fseeko := bsfs_fseeko.
Definition stage2_bsfs_fclose := bsfs_fclose.
Definition stage2_bsfs_strerror := bsfs_strerror.
