(* ===== verification/BsfsRead.v ===== *)
(** * BSFS: correctness of reading

    What [bsfs_fread] and [bsfs_verify_checksum] return, against the contents of a
    file as the inode describes it on the disk image. *)
From Stdlib Require Import ZArith Lia.
From stdpp Require Import base tactics list numbers.
From S2P Require Import Prelude Crc32 CString BsfsTypes BsfsFile.

Open Scope Z_scope.

(** ** The disk and the file on it *)

(** A disk that holds [image] and serves every read of at most eight sectors inside
    it; [good] is the device states in which it does. *)
Definition disk_serves {D} (ops : DiskOpsVtable D) (image : list Z) (good : D -> Prop) : Prop :=
  forall d lba n, good d -> 0 <= lba -> 0 < n <= 8 -> (lba + n) * 512 <= Z.of_nat (length image) ->
  exists d', disk_read ops lba n d = Ok ((true, slice image (lba * 512) (n * 512)), d') /\ good d'.

(** The image block that holds block [i] of the file. *)
Definition file_block (image : list Z) (ino : BsfsInode) (i : Z) : Z :=
  if i <? 10 then default 0 (blocks_direct ino !! Z.to_nat i)
  else le_word (slice image (blocks_l1indirect ino * 4096 + (i - 10) * 4) 4).

Definition file_byte (image : list Z) (ino : BsfsInode) (k : Z) : Z :=
  default 0 (image !! Z.to_nat (file_block image ino (k / 4096) * 4096 + k mod 4096)).

(** Bytes [pos, ..., pos+n-1] of the file, and all of it. *)
Definition file_bytes (image : list Z) (ino : BsfsInode) (pos n : Z) : list Z :=
  file_byte image ino <$> seqZ pos n.
Definition file_content (image : list Z) (ino : BsfsInode) : list Z := file_bytes image ino 0 (size ino).

(** ** Lemmas on slices *)

Lemma slice_lookup l off n j :
  0 <= off -> 0 <= j < n -> slice l off n !! Z.to_nat j = l !! Z.to_nat (off + j).
Proof.
  intros Ho Hj. unfold slice. rewrite lookup_take_lt, lookup_drop by lia. f_equal. lia.
Qed.

Lemma length_slice l off n : 0 <= off -> 0 <= n -> off + n <= Z.of_nat (length l) -> length (slice l off n) = Z.to_nat n.
Proof. intros. unfold slice. rewrite length_take, length_drop. lia. Qed.

(** A slice given by its bytes. *)
Lemma slice_fmap l off n (g : Z -> Z) pos :
  0 <= off -> 0 <= n -> off + n <= Z.of_nat (length l) ->
  (forall j, 0 <= j < n -> l !! Z.to_nat (off + j) = Some (g (pos + j))) ->
  slice l off n = g <$> seqZ pos n.
Proof.
  intros Ho Hn Hl Hg. apply list_eq_same_length with (Z.to_nat n).
  - by rewrite length_fmap, length_seqZ.
  - by apply length_slice.
  - intros j x y Hj Hx Hy. apply list_lookup_fmap_Some in Hy as (z & -> & Hz).
    apply lookup_seqZ in Hz as [-> Hz]. rewrite <- (Nat2Z.id j), slice_lookup, Hg in Hx by lia. congruence.
Qed.

Lemma buf_write_Ok b off bytes :
  0 <= off -> off + Z.of_nat (length bytes) <= Z.of_nat (length b) ->
  exists b', buf_write b off bytes = Ok b' /\ length b' = length b /\
    slice b' off (Z.of_nat (length bytes)) = bytes.
Proof.
  intros Ho Hl. unfold buf_write. rewrite (proj2 (Z.leb_le 0 off)), (proj2 (Z.leb_le (off + _) _)) by lia.
  eexists. split; [done|]. split.
  - rewrite !length_app, length_take, length_drop. lia.
  - unfold slice. rewrite drop_app_length' by (rewrite length_take; lia).
    rewrite take_app_length' by lia. done.
Qed.

Lemma buf_read_Ok b off n : 0 <= off -> 0 <= n -> off + n <= Z.of_nat (length b) -> buf_read b off n = Ok (slice b off n).
Proof.
  intros. unfold buf_read.
  by rewrite (proj2 (Z.leb_le 0 off)), (proj2 (Z.leb_le 0 n)), (proj2 (Z.leb_le (off + n) _)) by lia.
Qed.

(** ** Files whose cache agrees with the disk *)

Section reading.
Context {D : Type} (context : BsfsContext D) (image : list Z) (good : D -> Prop).

(** The geometry of the image and the parts of the context reading depends on. *)
Record geometry : Prop := Geometry {
  geo_block : block_size (header context) = 4096;
  geo_sector : phys_sector_size context = 512;
  geo_image : Z.of_nat (length image) <= 2 ^ 32;
  geo_disk : disk_serves (disk_ops context) image good;
}.

(** The blocks of the file lie on the image and direct and single-indirect blocks
    suffice. *)
Record inode_on_disk (ino : BsfsInode) : Prop := InodeOnDisk {
  iod_size : 0 <= size ino <= (10 + 1024) * 4096;
  iod_direct : length (blocks_direct ino) = 10%nat;
  iod_block : forall i, 0 <= i -> i * 4096 < size ino ->
    0 <= file_block image ino i /\ (file_block image ino i + 1) * 4096 <= Z.of_nat (length image);
  iod_l1 : 10 * 4096 < size ino ->
    0 <= blocks_l1indirect ino < UINT32_MAX /\
    (blocks_l1indirect ino + 1) * 4096 <= Z.of_nat (length image);
}.

Record file_ok (ino : BsfsInode) (f : BsfsFile) : Prop := FileOk {
  fo_inode : f_inode f = Some ino;
  fo_buf : (4096 <= length (buf f))%nat;
  fo_bufsize : 4096 <= bufsize f < 2 ^ 32;
  fo_l1 : (4096 <= length (l1_table f))%nat;
  fo_position : 0 <= position f <= size ino;
  fo_cache : cached_block f = UINT32_MAX \/
    (0 <= cached_block f /\ cached_block f * 4096 < size ino /\
     slice (buf f) 0 4096 = slice image (file_block image ino (cached_block f) * 4096) 4096);
  fo_cache_l1 : cached_l1 f = UINT32_MAX \/
    (10 * 4096 < size ino /\
     slice (l1_table f) 0 4096 = slice image (blocks_l1indirect ino * 4096) 4096);
}.

Context (Hgeo : geometry).

Lemma block_lba_eq b : 0 <= b -> (b + 1) * 4096 <= Z.of_nat (length image) -> block_lba context b = b * 8.
Proof.
  intros Hb Hl. pose proof (geo_image Hgeo). unfold block_lba. rewrite (geo_block Hgeo), (geo_sector Hgeo).
  rewrite u32_id by lia. replace (b * 4096) with (b * 8 * 512) by lia. by rewrite Z.div_mul.
Qed.

Lemma sectors_eq : sectors_per_block context = 8.
Proof. unfold sectors_per_block. by rewrite (geo_block Hgeo), (geo_sector Hgeo). Qed.

(** Reading a whole block of the image. *)
Lemma read_block_run d b :
  good d -> 0 <= b -> (b + 1) * 4096 <= Z.of_nat (length image) ->
  exists d', disk_read (disk_ops context) (block_lba context b) (sectors_per_block context) d
    = Ok ((true, slice image (b * 4096) 4096), d') /\ good d'.
Proof.
  intros Hd Hb Hl. rewrite block_lba_eq, sectors_eq by done.
  destruct (geo_disk Hgeo d (b * 8) 8) as (d' & Hr & Hd'); [done|lia..|].
  exists d'. split; [|done]. rewrite Hr. by replace (b * 8 * 512) with (b * 4096) by lia.
Qed.

Lemma length_block b : 0 <= b -> (b + 1) * 4096 <= Z.of_nat (length image) -> length (slice image (b * 4096) 4096) = 4096%nat.
Proof. intros. rewrite length_slice by lia. done. Qed.

(** A block read into the front of the buffer becomes the cached block. *)
Lemma read_into_buf_run ino f d i :
  good d -> file_ok ino f -> 0 <= i -> i * 4096 < size ino ->
  0 <= file_block image ino i -> (file_block image ino i + 1) * 4096 <= Z.of_nat (length image) ->
  exists f' d', read_into_buf context f (block_lba context (file_block image ino i)) 0 i d = Ok ((None, f'), d') /\
    good d' /\ file_ok ino f' /\ cached_block f' = i /\ position f' = position f /\ bufsize f' = bufsize f.
Proof.
  intros Hd Hf Hi Hsz Hb Hl. destruct (read_block_run d _ Hd Hb Hl) as (d' & Hr & Hd').
  unfold read_into_buf. rewrite (bind_run _ _ _ _ _ Hr).
  destruct (buf_write_Ok (buf f) 0 (slice image (file_block image ino i * 4096) 4096)) as (b' & Hw & Hlen & Hsl).
  { lia. } { rewrite length_block by done. pose proof (fo_buf ino f Hf). lia. }
  rewrite length_block in Hsl by done. change (Z.of_nat 4096) with 4096 in Hsl.
  rewrite (bind_run (lift _) _ d' b' d') by (unfold lift; by rewrite Hw).
  eexists _, d'. split; [reflexivity|]. split; [done|]. split; [|done].
  destruct Hf. split; cbn [with_buf f_inode buf bufsize l1_table position cached_block cached_l1]; try done.
  - by rewrite Hlen.
  - right. done.
Qed.

Lemma load_l1_run ino f d :
  good d -> inode_on_disk ino -> file_ok ino f -> 10 * 4096 < size ino ->
  exists f' d', load_l1 context ino f d = Ok ((None, f'), d') /\ good d' /\ file_ok ino f' /\
    slice (l1_table f') 0 4096 = slice image (blocks_l1indirect ino * 4096) 4096 /\
    cached_block f' = cached_block f /\ position f' = position f /\ bufsize f' = bufsize f.
Proof.
  intros Hd Hino Hf Hbig. unfold load_l1. destruct (Z.eqb_spec (cached_l1 f) UINT32_MAX) as [Hc|Hc]; cbn [negb].
  - destruct (iod_l1 ino Hino Hbig) as (Hl1 & Hl1len).
    destruct (read_block_run d (blocks_l1indirect ino) Hd ltac:(lia) Hl1len) as (d' & Hr & Hd'). rewrite (bind_run _ _ _ _ _ Hr).
    destruct (buf_write_Ok (l1_table f) 0 (slice image (blocks_l1indirect ino * 4096) 4096)) as (t & Hw & Hlen & Hsl).
    { lia. } { rewrite length_block by lia. pose proof (fo_l1 ino f Hf). lia. }
    rewrite length_block in Hsl by lia. change (Z.of_nat 4096) with 4096 in Hsl.
    rewrite (bind_run (lift _) _ d' t d') by (unfold lift; by rewrite Hw).
    eexists _, d'. split; [reflexivity|]. split; [done|]. split; [|done].
    destruct Hf. split; cbn [with_l1 f_inode buf bufsize l1_table position cached_block cached_l1]; try done.
    + by rewrite Hlen.
    + right. done.
  - exists f, d. split; [done|]. split; [done|]. split; [done|].
    destruct (fo_cache_l1 ino f Hf) as [?|[_ Hs]]; done.
Qed.

(** An entry of the indirect table. *)
Lemma l1_entry ino (t : list Z) i :
  10 <= i < 10 + 1024 -> (4096 <= length t)%nat ->
  slice t 0 4096 = slice image (blocks_l1indirect ino * 4096) 4096 -> 0 <= blocks_l1indirect ino ->
  buf_read t ((i - BSFS_MAX_DIRECTBLOCKS) * 4) 4 = Ok (slice image (blocks_l1indirect ino * 4096 + (i - 10) * 4) 4).
Proof.
  intros Hi Hlen Hsl Hb. unfold BSFS_MAX_DIRECTBLOCKS. rewrite buf_read_Ok by lia. f_equal.
  assert (forall l a, 0 <= a -> slice (slice l a 4096) ((i - 10) * 4) 4 = slice l (a + (i - 10) * 4) 4) as Hss.
  { intros l a Ha. unfold slice. rewrite skipn_firstn_comm, take_take, drop_drop. f_equal; [lia|f_equal; lia]. }
  rewrite <- Hss, <- Hsl, Hss by lia. done.
Qed.

Lemma fread_block_run ino f d i :
  good d -> inode_on_disk ino -> file_ok ino f -> 0 <= i -> i * 4096 < size ino ->
  exists f' d', fread_block context ino f i 0 d = Ok ((None, f'), d') /\ good d' /\ file_ok ino f' /\
    cached_block f' = i /\ position f' = position f /\ bufsize f' = bufsize f.
Proof.
  intros Hd Hino Hf Hi Hsz. destruct (iod_block ino Hino i Hi Hsz) as (Hb & Hbl).
  pose proof (iod_size ino Hino) as Hmax. pose proof (geo_block Hgeo) as Hgb. unfold fread_block.
  destruct (Z.eqb_spec i (cached_block f)) as [->|Hne].
  { exists f, d. done. }
  change BSFS_MAX_DIRECTBLOCKS with 10. destruct (Z.ltb_spec i 10) as [Hlt|Hge].
  - destruct (rd_in_range (blocks_direct ino) i) as [b Hrd]; [rewrite (iod_direct ino Hino); lia|].
    rewrite (bind_run (lift _) _ d b d) by (unfold lift; by rewrite Hrd).
    apply rd_Ok in Hrd as [_ Hrd].
    assert (file_block image ino i = b) as Hfb.
    { unfold file_block. rewrite (proj2 (Z.ltb_lt i 10)) by done. by rewrite Hrd. }
    rewrite <- Hfb. by apply read_into_buf_run.
  - assert (l2_indirect_start context = 1034) as ->.
    { unfold l2_indirect_start, l1_capacity. by rewrite Hgb. }
    rewrite (proj2 (Z.ltb_lt i 1034)) by lia.
    destruct (load_l1_run ino f d Hd Hino Hf ltac:(lia)) as (f1 & d1 & Hrun & Hd1 & Hf1 & Hl1 & Hc1 & Hp1 & Hbs1).
    rewrite (bind_run _ _ _ _ _ Hrun).
    destruct (iod_l1 ino Hino ltac:(lia)) as (Hl1b & _).
    pose proof (l1_entry ino (l1_table f1) i ltac:(lia) (fo_l1 ino f1 Hf1) Hl1 ltac:(lia)) as He.
    change BSFS_MAX_DIRECTBLOCKS with 10 in He.
    rewrite (bind_run (lift _) _ d1 _ d1) by (unfold lift; rewrite He; reflexivity).
    assert (file_block image ino i = le_word (slice image (blocks_l1indirect ino * 4096 + (i - 10) * 4) 4)) as Hfb.
    { unfold file_block. by rewrite (proj2 (Z.ltb_ge i 10)). }
    rewrite <- Hfb. destruct (read_into_buf_run ino f1 d1 i Hd1 Hf1 Hi Hsz Hb Hbl)
      as (f2 & d2 & Hr2 & Hd2 & Hf2 & Hc2 & Hp2 & Hbs2).
    exists f2, d2. split; [done|]. split; [done|]. split; [done|]. split; [done|]. split; congruence.
Qed.

(** The bytes of the cached block are the file's. *)
Lemma cached_bytes ino f pos n :
  file_ok ino f -> inode_on_disk ino -> cached_block f = pos / 4096 -> 0 <= pos -> 0 <= n ->
  pos mod 4096 + n <= 4096 -> pos / 4096 * 4096 < size ino ->
  slice (buf f) (pos mod 4096) n = file_bytes image ino pos n.
Proof.
  intros Hf Hino Hc Hpos Hn Hfit Hsz. pose proof (Z.mod_pos_bound pos 4096 ltac:(lia)) as Hm.
  pose proof (Z.div_pos pos 4096 Hpos ltac:(lia)) as Hdiv.
  destruct (iod_block ino Hino (pos / 4096) Hdiv Hsz) as (Hb & Hbl).
  pose proof (fo_buf ino f Hf) as Hbuf. pose proof (iod_size ino Hino) as Hmax.
  destruct (fo_cache ino f Hf) as [E|(_ & _ & Hsl)]; [unfold UINT32_MAX in E; lia|]. rewrite Hc in Hsl.
  apply slice_fmap; [lia..|]. intros j Hj.
  assert (pos mod 4096 + j < 4096) as Hlt by lia.
  rewrite <- (Z.add_0_l (pos mod 4096 + j)), <- (slice_lookup _ 0 4096), Hsl by lia.
  rewrite slice_lookup by lia. unfold file_byte.
  assert ((pos + j) / 4096 = pos / 4096 /\ (pos + j) mod 4096 = pos mod 4096 + j) as [-> ->] by dlia.
  destruct (lookup_lt_is_Some_2 image (Z.to_nat (file_block image ino (pos / 4096) * 4096 + (pos mod 4096 + j)))) as [x Hx];
    [lia|]. by rewrite Hx.
Qed.

(** [bsfs_fread] of a range inside one block. *)
Lemma fread_run ino f d size_ count :
  good d -> inode_on_disk ino -> file_ok ino f ->
  0 <= size_ * count -> position f mod 4096 + size_ * count <= 4096 ->
  let total := Z.min (size_ * count) (size ino - position f) in
  exists f' d', bsfs_fread context size_ count f d =
      Ok ((total, file_bytes image ino (position f) total, f'), d') /\ good d' /\
    file_ok ino f' /\ position f' = position f + total /\ bufsize f' = bufsize f /\
    eof f' = (size ino <=? position f + total).
Proof.
  intros Hd Hino Hf Hn Hfit total. pose proof (fo_position ino f Hf) as Hpos.
  pose proof (iod_size ino Hino) as Hmax. pose proof (fo_bufsize ino f Hf) as Hbs.
  pose proof (Z.mod_pos_bound (position f) 4096 ltac:(lia)) as Hm.
  unfold bsfs_fread. rewrite (fo_inode ino f Hf), (geo_sector Hgeo), (geo_block Hgeo).
  rewrite (u32_id (position f)), (u32_id (size_ * count)), (u32_id (position f + _)) by lia.
  assert ((if size ino <? position f + size_ * count then u32 (size ino) else position f + size_ * count)
    = position f + total) as ->.
  { destruct (Z.ltb_spec (size ino) (position f + size_ * count)); [rewrite u32_id by lia|]; lia. }
  replace (position f + total - position f) with total by lia. rewrite (u32_id total) by lia.
  rewrite (proj2 (Z.ltb_ge (bufsize f) total)) by lia.
  replace (position f + total - position f) with total by lia. rewrite (u32_id total) by lia.
  change (DISK_READ_MAX_BLOCKS * 512) with 4096. rewrite (proj2 (Z.ltb_ge 4096 total)) by lia.
  rewrite (u32_id (position f + total + 4096 - 1)) by lia.
  assert (exists f1 d1, fread_blocks context (Z.to_nat ((position f + total + 4096 - 1) / 4096 - position f / 4096))
      ino f (position f / 4096) 0 d = Ok ((None, f1), d1) /\ good d1 /\ file_ok ino f1 /\
      position f1 = position f /\ bufsize f1 = bufsize f /\
      slice (buf f1) (position f mod 4096) total = file_bytes image ino (position f) total)
    as (f1 & d1 & Hrun & Hd1 & Hf1 & Hp1 & Hb1 & Hsl).
  { destruct (decide (position f + total = position f / 4096 * 4096)) as [E|E].
    - assert (total = 0) as Ht by dlia. rewrite Ht.
      replace (Z.to_nat _) with 0%nat by dlia. exists f, d. split_and!; try done.
    - replace (Z.to_nat _) with 1%nat by dlia. cbn [fread_blocks].
      assert (0 <= position f / 4096) by dlia. assert (position f / 4096 * 4096 < size ino) by dlia.
      destruct (fread_block_run ino f d (position f / 4096)) as (f1 & d1 & Hrun & Hd1 & Hf1 & Hc1 & Hp1 & Hb1); [done..|].
      exists f1, d1. rewrite (bind_run _ _ _ _ _ Hrun). split_and!; try done.
      apply cached_bytes; try done; lia. }
  rewrite (bind_run _ _ _ _ _ Hrun). pose proof (fo_buf ino f1 Hf1).
  rewrite (bind_run (lift _) _ d1 (slice (buf f1) (position f mod 4096) total) d1)
    by (unfold lift; rewrite buf_read_Ok by lia; done).
  rewrite Hsl. eexists _, d1. split; [reflexivity|]. split; [done|]. split; [|done].
  destruct Hf1. split; cbn [with_position f_inode buf bufsize l1_table position cached_block cached_l1]; try done.
  lia.
Qed.

Lemma file_bytes_app ino pos a b :
  0 <= a -> 0 <= b -> file_bytes image ino pos a ++ file_bytes image ino (pos + a) b = file_bytes image ino pos (a + b).
Proof. intros. unfold file_bytes. by rewrite <- fmap_app, <- seqZ_app. Qed.

(** One chunk of the checksum loop. *)
Lemma verify_chunk ino f d :
  good d -> inode_on_disk ino -> file_ok ino f -> position f mod 4096 = 0 ->
  let total := Z.min 4096 (size ino - position f) in
  exists f' d', bsfs_fread context 1 (u32 4096) f d =
      Ok ((total, file_bytes image ino (position f) total, f'), d') /\ good d' /\
    file_ok ino f' /\ position f' = position f + total /\ eof f' = (size ino <=? position f + total) /\
    s32 total = total /\ 0 <= total.
Proof.
  intros Hd Hino Hf Hal total. pose proof (fo_position ino f Hf) as Hpos.
  assert (1 * u32 4096 = 4096) as H4096 by done.
  destruct (fread_run ino f d 1 (u32 4096) Hd Hino Hf) as (f1 & d1 & Hrun & Hd1 & Hf1 & Hp1 & _ & Heof1).
  { rewrite H4096. lia. } { rewrite H4096. lia. }
  rewrite H4096 in *. exists f1, d1. split_and!; try done; [|lia].
  unfold s32. rewrite Z.mod_small by lia. lia.
Qed.

(** The whole-file checksum loop, block by block. *)
Lemma verify_loop_run ino n : forall fuel f d crc,
  good d -> inode_on_disk ino -> file_ok ino f -> position f mod 4096 = 0 -> eof f = false ->
  size ino - position f <= Z.of_nat n * 4096 -> (n < fuel)%nat ->
  exists f' d', verify_loop context fuel 4096 f crc d =
    Ok ((inr (crc32_update crc (file_bytes image ino (position f) (size ino - position f))), f'), d') /\
    good d' /\ file_ok ino f'.
Proof.
  induction n as [|n IH]; intros [|fuel] f d crc Hd Hino Hf Hal Heof Hsz Hfuel; try lia.
  all: cbn [verify_loop]; rewrite Heof; pose proof (fo_position ino f Hf) as Hpos.
  all: destruct (verify_chunk ino f d Hd Hino Hf Hal) as (f1 & d1 & Hrun & Hd1 & Hf1 & Hp1 & Heof1 & Hs & H0).
  all: rewrite (bind_run _ _ _ _ _ Hrun), Hs, (proj2 (Z.ltb_ge _ 0)) by lia.
  all: destruct (Z.leb_spec (size ino) (position f + Z.min 4096 (size ino - position f))) as [Hend|Hmore].
  all: try (replace (Z.min 4096 (size ino - position f)) with (size ino - position f) in * by lia;
    exists f1, d1; destruct fuel; cbn [verify_loop]; rewrite Heof1; (split; [done|]; split; [done|apply Hf1])).
  - lia.
  - replace (Z.min 4096 (size ino - position f)) with 4096 in * by lia.
    destruct (IH fuel f1 d1 (crc32_update crc (file_bytes image ino (position f) 4096))) as (f2 & d2 & Hr2 & Hd2 & Hi2);
      [done|done|done|rewrite Hp1; dlia|done|lia|lia|].
    exists f2, d2. split; [|done]. rewrite Hr2, Hp1. rewrite <- crc32_update_app.
    rewrite file_bytes_app by lia. by replace (4096 + (size ino - (position f + 4096))) with (size ino - position f) by lia.
Qed.
End reading.

(** The checksum of a file as [bsfs_verify_checksum] sees it. *)
Lemma verify_checksum_run {D : Type} (context : BsfsContext D) (image : list Z) (good : D -> Prop)
  (ino : BsfsInode) (f : BsfsFile) (d : D) (fuel : nat)
  (Hgeo : geometry context image good) (Hd : good d) (Hino : inode_on_disk image ino)
  (Hf : file_ok image ino f) (Hopen : position f = 0 /\ eof f = false)
  (Hfuel : size ino / 4096 + 1 < Z.of_nat fuel) :
  exists f' d', bsfs_verify_checksum context fuel f 4096 d =
    Ok ((if crc32 (file_content image ino) =? checksum ino then 1 else BSFS_CHECKSUM_FAILED, f'), d') /\ good d' /\ file_ok image ino f'.
Proof.
  destruct Hopen as [Hp He]. pose proof (iod_size image ino Hino) as Hsz.
  assert (0 <= size ino / 4096) by dlia.
  destruct (verify_loop_run context image good Hgeo ino (Z.to_nat (size ino / 4096 + 1)) fuel f d 0xFFFFFFFF)
    as (f' & d' & Hrun & Hd' & Hi); [done|done|done|by rewrite Hp|done|rewrite Hp, Z2Nat.id by dlia; dlia|lia|].
  exists f', d'. split; [|done]. unfold bsfs_verify_checksum. rewrite (bind_run _ _ _ _ _ Hrun), (fo_inode _ _ _ Hi), Hp, Z.sub_0_r. done.
Qed.

(** ** Properties *)

(** C26: [bsfs_fread] of a range inside one block returns exactly the bytes of the file
    at the position (fewer at the end of the file), advances the position, reports the
    end of file, and keeps the block cache consistent with the disk; direct and
    single-indirect blocks alike. *)
Theorem bsfs_fread_correct {D : Type} (context : BsfsContext D) (image : list Z) (good : D -> Prop)
  (ino : BsfsInode) (f : BsfsFile) (d : D) (size_ count : Z)
  (Hgeo : geometry context image good) (Hd : good d) (Hino : inode_on_disk image ino)
  (Hf : file_ok image ino f) (Hn : 0 <= size_ * count) (Hfit : position f mod 4096 + size_ * count <= 4096) :
  let total := Z.min (size_ * count) (size ino - position f) in
  exists f' d', bsfs_fread context size_ count f d =
      Ok ((total, file_bytes image ino (position f) total, f'), d') /\ good d' /\
    file_ok image ino f' /\ position f' = position f + total /\ bufsize f' = bufsize f /\
    eof f' = (size ino <=? position f + total).
Proof. by eapply fread_run. Qed.

(** C31: [bsfs_verify_checksum] on a freshly opened file terminates and accepts the file
    exactly when the CRC-32 of its contents is the checksum in its inode. *)
Theorem bsfs_verify_checksum_correct {D : Type} (context : BsfsContext D) (image : list Z) (good : D -> Prop)
  (ino : BsfsInode) (f : BsfsFile) (d : D) (fuel : nat)
  (Hgeo : geometry context image good) (Hd : good d) (Hino : inode_on_disk image ino)
  (Hf : file_ok image ino f) (Hopen : position f = 0 /\ eof f = false)
  (Hfuel : size ino / 4096 + 1 < Z.of_nat fuel) :
  exists f' d', bsfs_verify_checksum context fuel f 4096 d =
    Ok ((if crc32 (file_content image ino) =? checksum ino then 1 else BSFS_CHECKSUM_FAILED, f'), d').
Proof. destruct (verify_checksum_run context image good ino f d fuel) as (f' & d' & E & _); [done..|]. by exists f', d'. Qed.

(** *** A disk image in memory, for the witnesses *)

(** A device without state that serves reads from a list of bytes. *)
Definition image_ops (image : list Z) : DiskOpsVtable unit := {|
  disk_read lba n := fun d =>
    if (lba + n) * 512 <=? Z.of_nat (length image) then Ok ((true, slice image (lba * 512) (n * 512)), d)
    else Ok ((false, []), d);
  disk_write lba n bytes := fun d => Ok (false, d) |}.

Lemma image_ops_serves image : disk_serves (image_ops image) image (fun _ => True).
Proof.
  intros d lba n _ Hl Hn Hlen. cbn. rewrite (proj2 (Z.leb_le _ _)) by lia. by exists d.
Qed.

(** Three blocks: block 1 holds a five-byte file, block 2 more of it. *)
Definition read_image : list Z :=
  replicate 4096 0 ++ replicate 4096 65 ++ replicate 4096 66.

Definition read_inode : BsfsInode :=
  {| type := 1; permissions := 6; uid := 0; gid := 0; size := 5000; blocks := 2; created := 0; modified := 0;
     accessed := 0; link_count := 1; blocks_direct := 1 :: 2 :: replicate 8 0; blocks_l1indirect := 0;
     blocks_l2indirect := 0; blocks_l3indirect := 0; checksum := 0; inode_reserved := replicate 21 0 |}.

Definition read_file : BsfsFile :=
  {| f_inode := Some read_inode; buf := replicate 4096 0; bufsize := 4096; position := 0;
     cached_block := UINT32_MAX; l1_table := replicate 4096 0; cached_l1 := UINT32_MAX;
     cached_l2 := UINT32_MAX; cached_l3 := UINT32_MAX; eof := false |}.

Definition read_context : BsfsContext unit :=
  {| header := sample_header; disk_ops := image_ops read_image; phys_sector_size := 512;
     scratch_buf_capacity := 4096 |}.

Lemma read_image_length : Z.of_nat (length read_image) = 12288.
Proof. unfold read_image. rewrite !length_app, !length_replicate. lia. Qed.

Lemma read_geometry : geometry read_context read_image (fun _ => True).
Proof. split; [done|done|rewrite read_image_length; lia|apply image_ops_serves]. Qed.

Lemma read_inode_on_disk : inode_on_disk read_image read_inode.
Proof.
  split; [cbn; lia|done| |cbn; lia].
  intros i Hi Hs. cbn [size read_inode] in Hs. rewrite read_image_length. unfold file_block.
  assert (i = 0 \/ i = 1) as [-> | ->] by lia; split; vm_compute; discriminate.
Qed.

Lemma read_file_ok : file_ok read_image read_inode read_file.
Proof.
  split; [done|cbn [buf read_file]; rewrite length_replicate; lia|cbn; lia|
    cbn [l1_table read_file]; rewrite length_replicate; lia|cbn; lia|by left|by left].
Qed.

Lemma bsfs_fread_correct_witness :
  exists f' d', bsfs_fread read_context 1 4096 read_file tt =
      Ok ((4096, file_bytes read_image read_inode 0 4096, f'), d') /\ eof f' = false.
Proof.
  destruct (bsfs_fread_correct read_context read_image (fun _ => True) read_inode read_file tt 1 4096
    read_geometry I read_inode_on_disk read_file_ok ltac:(lia) ltac:(vm_compute; discriminate)) as (f' & d' & Hrun & _ & _ & _ & _ & He).
  exists f', d'. split; [exact Hrun|exact He].
Defined.

Lemma bsfs_verify_checksum_correct_witness :
  exists f' d', bsfs_verify_checksum read_context 4 read_file 4096 tt =
    Ok ((if crc32 (file_content read_image read_inode) =? 0 then 1 else BSFS_CHECKSUM_FAILED, f'), d').
Proof.
  apply (bsfs_verify_checksum_correct read_context read_image (fun _ => True) read_inode read_file tt 4
    read_geometry I read_inode_on_disk read_file_ok); [split; reflexivity|vm_compute; reflexivity].
Defined.

(** A read that crosses a block boundary writes the second block behind the first:
    with a buffer of exactly the size [fopen] accepts (one block), as the kernel
    allocates it, this is past the end of the buffer. *)
Theorem bsfs_fread_straddle_overflows :
  bsfs_fread read_context 1 200 (with_position read_file 4000 false) tt = Fault.
Proof. vm_compute. reflexivity. Qed.

(** With a buffer of two blocks, a read across a block boundary is right, but the
    next one returns stale bytes: block 1 of the file is all 66 ('B'), and the read at
    4200 yields 65 ('A') from block 0. *)
Theorem bsfs_fread_stale_after_straddle :
  exists f f' : BsfsFile,
    f_inode f = Some read_inode /\ length (buf f) = 8192%nat /\ bufsize f = 8192 /\
    bsfs_fread read_context 1 200 f tt = Ok ((200, replicate 96 65 ++ replicate 104 66, f'), tt) /\
    position f' = 4200 /\
    (exists f2, bsfs_fread read_context 1 4 f' tt = Ok ((4, [65; 65; 65; 65], f2), tt)) /\
    file_bytes read_image read_inode 4200 4 = [66; 66; 66; 66].
Proof.
  exists {| f_inode := Some read_inode; buf := replicate 8192 0; bufsize := 8192; position := 4000;
     cached_block := UINT32_MAX; l1_table := replicate 4096 0; cached_l1 := UINT32_MAX;
     cached_l2 := UINT32_MAX; cached_l3 := UINT32_MAX; eof := false |}.
  eexists. split; [reflexivity|]. split; [apply length_replicate|]. split; [reflexivity|].
  split; [vm_compute; reflexivity|]. split; [vm_compute; reflexivity|].
  split; [eexists|]; vm_compute; reflexivity.
Qed.
