(* ===== verification/Ata.v ===== *)
(** * The ATA PIO disk driver

    [drivers/storage/ata/atapio.c] and its stage 2 copy [stage2_ata_pio.c], over the
    port instructions.  What an ATA disk does on its ports is the class [AtaDisk], from
    the standard: registers that are written while the disk is idle, the commands
    READ SECTORS and IDENTIFY DEVICE, a busy phase that ends after a bounded number of
    status reads, and a data phase of 256 words per sector.  Against it the driver is
    proved to be the disk the BSFS reader is verified for ([disk_serves]); the polling
    loops terminate.  [drive] is a concrete disk that satisfies the class.

    The buffer a function fills is the list of the bytes it stored in it, in order.
    The [data] pointer of a read status, which nothing reads, is left out. *)
From Stdlib Require Import ZArith Lia.
From stdpp Require Import base tactics list numbers.
From S2P Require Import Prelude Memory CString Devices BsfsTypes BsfsFile BsfsRead.

Open Scope Z_scope.

Definition ATA_PIO_PORT_DATAREGISTER : Z := 0x1F0.
Definition ATA_PIO_PORT_FEATURES : Z := 0x1F1.
Definition ATA_PIO_PORT_SECTORCOUNT : Z := 0x1F2.
Definition ATA_PIO_PORT_LBALOW : Z := 0x1F3.
Definition ATA_PIO_PORT_LBAMID : Z := 0x1F4.
Definition ATA_PIO_PORT_LBAHIGH : Z := 0x1F5.
Definition ATA_PIO_PORT_DRIVEHEAD : Z := 0x1F6.
Definition ATA_PIO_PORT_COMMAND : Z := 0x1F7.
Definition ATA_PIO_DISK_MASTER : Z := 0xA0.
Definition ATA_PIO_CMD_READ : Z := 0x20.
Definition ATA_PIO_CMD_IDENTIFY : Z := 0xEC.

(** The bits of [AtaPioStatus]. *)
Definition err (status : Z) : bool := Z.testbit status 0.
Definition drq (status : Z) : bool := Z.testbit status 3.
Definition rdy (status : Z) : bool := Z.testbit status 6.
Definition bsy (status : Z) : bool := Z.testbit status 7.

Section driver.
Context {D : Type} `{PortIO D}.

Definition ata_pio_get_status : M D Z := io_inb ATA_PIO_PORT_COMMAND.

Definition ata_pio_delay : M D unit :=
  _ ← io_inb 0x3F6; _ ← io_inb 0x3F6; _ ← io_inb 0x3F6; _ ← io_inb 0x3F6; mret tt.

Definition ata_pio_set_disk (disk : Z) : M D unit :=
  _ ← io_outb ATA_PIO_PORT_DRIVEHEAD disk; ata_pio_delay.

Definition ata_pio_zero : M D unit :=
  _ ← io_outb ATA_PIO_PORT_SECTORCOUNT 0x00;
  _ ← io_outb ATA_PIO_PORT_LBALOW 0x00;
  _ ← io_outb ATA_PIO_PORT_LBAMID 0x00;
  io_outb ATA_PIO_PORT_LBAHIGH 0x00.

Definition ata_pio_read_dataport : M D Z := io_inw ATA_PIO_PORT_DATAREGISTER.

(** [n] words of the data port. *)
Fixpoint read_words (n : nat) : M D (list Z) :=
  match n with
  | O => mret []
  | S n' => w ← ata_pio_read_dataport; ws ← read_words n'; mret (w :: ws)
  end.

(** [while ((status = ata_pio_get_status()).flags.bsy)], left early on an error. *)
Fixpoint identify_wait (fuel : nat) : M D (bool * Z) :=
  match fuel with
  | O => fun _ => OutOfFuel
  | S fuel' =>
      status ← ata_pio_get_status;
      if bsy status then (if err status then mret (true, status) else identify_wait fuel')
      else mret (false, status)
  end.

(** [while (!(status = ata_pio_get_status()).flags.drq);] *)
Fixpoint drq_wait (fuel : nat) : M D Z :=
  match fuel with
  | O => fun _ => OutOfFuel
  | S fuel' => status ← ata_pio_get_status; if drq status then mret status else drq_wait fuel'
  end.

(** [lba_high] is read only when [lba_mid] is zero, as [||] does. *)
Definition not_plain_ata : M D bool :=
  mid ← io_inb ATA_PIO_PORT_LBAMID;
  if negb (mid =? 0) then mret true else
  high ← io_inb ATA_PIO_PORT_LBAHIGH;
  mret (negb (high =? 0)).

(** The status and the contents of [_ata_buffer_identify] afterwards. *)
Definition ata_pio_identify (fuel : nat) (buffer : list Z) : M D (Z * list Z) :=
  _ ← io_outb ATA_PIO_PORT_COMMAND ATA_PIO_CMD_IDENTIFY;
  status ← ata_pio_get_status;
  if status =? 0 then mret (status, buffer) else
  '(failed, status) ← identify_wait fuel;
  if failed : bool then mret (status, buffer) else
  other ← not_plain_ata;
  if other : bool then mret (0, buffer) else
  status ← drq_wait fuel;
  words ← read_words 256;
  mret (status, words).

Definition ata_pio_drive_ready : M D Z :=
  status ← ata_pio_get_status;
  mret (Z.b2z (negb (bsy status) && rdy status)).

(** [do { status = ata_pio_get_status(); if (err) break; } while (bsy || !drq);] *)
Fixpoint read_wait (fuel : nat) : M D Z :=
  match fuel with
  | O => fun _ => OutOfFuel
  | S fuel' =>
      status ← ata_pio_get_status;
      if err status then mret status
      else if bsy status || negb (drq status) then read_wait fuel'
      else mret status
  end.

(** The bytes of words, as the code stores them through [buf16]. *)
Definition word_bytes (words : list Z) : list Z := words ≫= le_bytes 2.

(** The writes to the registers that select the sectors and issue the command. *)
Definition start_read (lba sectors : Z) : M D unit :=
  _ ← io_outb ATA_PIO_PORT_DRIVEHEAD (Z.lor 0xE0 (Z.land (Z.shiftr lba 24) 0x0F));
  _ ← ata_pio_delay;
  _ ← io_outb ATA_PIO_PORT_FEATURES 0x00;
  _ ← io_outb ATA_PIO_PORT_SECTORCOUNT sectors;
  _ ← io_outb ATA_PIO_PORT_LBALOW (Z.land (Z.shiftr lba 0) 0xFF);
  _ ← io_outb ATA_PIO_PORT_LBAMID (Z.land (Z.shiftr lba 8) 0xFF);
  _ ← io_outb ATA_PIO_PORT_LBAHIGH (Z.land (Z.shiftr lba 16) 0xFF);
  _ ← io_outb ATA_PIO_PORT_COMMAND ATA_PIO_CMD_READ;
  ata_pio_delay.

(** The status and the bytes stored. *)
Definition ata_pio_readsector (fuel : nat) (lba : Z) : M D (Z * list Z) :=
  _ ← start_read lba 0x01;
  _ ← ata_pio_get_status;
  status ← read_wait fuel;
  if err status then mret (0, []) else
  words ← read_words 256;
  mret (status, word_bytes words).

(** The kernel checks the status before each word and panics when it is lost. *)
Fixpoint read_words_checked (n : nat) (status : Z) : M D (Z * list Z) :=
  match n with
  | O => mret (status, [])
  | S n' =>
      status ← ata_pio_get_status;
      if negb (drq status) || err status then panic else
      w ← ata_pio_read_dataport;
      '(status, ws) ← read_words_checked n' status;
      mret (status, w :: ws)
  end.

(** The sector loop of the kernel: the last status and the bytes stored. *)
Fixpoint read_sectors (n : nat) (fuel : nat) (status : Z) : M D (Z * list Z) :=
  match n with
  | O => mret (status, [])
  | S n' =>
      _ ← ata_pio_get_status;
      status ← read_wait fuel;
      if err status then mret (0, []) else
      '(status, words) ← read_words_checked 256 status;
      '(status, rest) ← read_sectors n' fuel status;
      mret (status, word_bytes words ++ rest)
  end.

(** [stack] is what the uninitialised status holds. *)
Definition ata_pio_readsectors (fuel : nat) (stack lba sectors_to_read : Z) : M D (Z * list Z) :=
  if DISK_READ_MAX_BLOCKS <? sectors_to_read then mret (stack, []) else
  _ ← start_read lba sectors_to_read;
  read_sectors (Z.to_nat sectors_to_read) fuel stack.

Definition ata_pio_disk_ops_read (fuel : nat) (stack lba sector_count : Z) : M D (bool * list Z) :=
  '(status, bytes) ← ata_pio_readsectors fuel stack lba (u8 sector_count);
  mret (negb (status =? 0), bytes).



(** *** Stage 2 *)






Definition stage2_ata_pio_get_status : M D Z := ata_pio_get_status.
Definition stage2_ata_pio_delay : M D unit := ata_pio_delay.
Definition stage2_ata_pio_set_disk (disk : Z) : M D unit := ata_pio_set_disk disk.
Definition stage2_ata_pio_zero : M D unit := ata_pio_zero.
Definition stage2_ata_pio_read_dataport : M D Z := ata_pio_read_dataport.
Definition stage2_ata_pio_identify (fuel : nat) (buffer : list Z) : M D (Z * list Z) := ata_pio_identify fuel buffer.
Definition stage2_ata_pio_drive_ready : M D Z := ata_pio_drive_ready.
Definition stage2_ata_pio_readsector (fuel : nat) (lba : Z) : M D (Z * list Z) := ata_pio_readsector fuel lba.
End driver.

(** ** What the identification holds *)

Definition identify_word (buffer : list Z) (i : Z) : Z := default 0 (buffer !! Z.to_nat i).

(** [n] words from [from] on, the high byte of each first, and the terminator. *)
Definition identify_string (buffer : list Z) (from n : Z) : list Z :=
  (seqZ from n ≫= fun i =>
    [Z.land (Z.shiftr (identify_word buffer i) 8) 0xFF; Z.land (identify_word buffer i) 0xFF]) ++ [0].

Definition ata_pio_get_serial_number (buffer : list Z) : list Z := identify_string buffer 10 10.
Definition ata_pio_get_model_number (buffer : list Z) : list Z := identify_string buffer 27 20.

Definition ata_pio_get_max_sectors (buffer : list Z) : Z :=
  Z.lor (u32 (Z.shiftl (identify_word buffer 61) 16)) (identify_word buffer 60).

Definition stage2_ata_pio_get_serial_number (buffer : list Z) : list Z := ata_pio_get_serial_number buffer.
Definition stage2_ata_pio_get_model_number (buffer : list Z) : list Z := ata_pio_get_model_number buffer.
Definition stage2_ata_pio_get_max_sectors (buffer : list Z) : Z := ata_pio_get_max_sectors buffer.

(** ** The disk *)

(** Idle with its registers (by port); busy, with at most [k] more status reads that
    say so, before it hands out [sectors]; handing out [words] and then [sectors]. *)
Inductive ata_state :=
| AtaIdle (regs : Z -> Z)
| AtaBusy (regs : Z -> Z) (sectors : list (list Z)) (k : nat)
| AtaData (regs : Z -> Z) (words : list Z) (sectors : list (list Z)).

(** The sector number in the registers. *)
Definition regs_lba (r : Z -> Z) : Z :=
  r ATA_PIO_PORT_LBALOW + 2 ^ 8 * r ATA_PIO_PORT_LBAMID + 2 ^ 16 * r ATA_PIO_PORT_LBAHIGH +
  2 ^ 24 * (r ATA_PIO_PORT_DRIVEHEAD mod 16).

(** The words of a sector and the sectors of a request. *)
Definition sector_words (image : list Z) (lba : Z) : list Z :=
  (fun i => le_word (slice image (lba * 512 + i * 2) 2)) <$> seqZ 0 256.
Definition request (image : list Z) (lba n : Z) : list (list Z) :=
  sector_words image <$> seqZ lba n.

Definition busy_status (s : Z) : Prop := bsy s = true /\ err s = false.
Definition data_status (s : Z) : Prop := bsy s = false /\ drq s = true /\ err s = false.

(** After a word: the rest of the sector, the next sector, or idle. *)
Definition after_word (latency : nat) (r r' : Z -> Z) (ws : list Z) (sectors : list (list Z)) : ata_state :=
  match ws, sectors with
  | _ :: _, _ => AtaData r ws sectors
  | [], [] => AtaIdle r'
  | [], _ => AtaBusy r' sectors latency
  end.

(** The ATA commands the drivers use, on any implementation of the ports.  A device that
    is busy reports so at most [ata_latency] times.  While it is busy its error bit is
    taken to be clear ([busy_status]): the standard leaves the other bits undefined then,
    and the drivers test the error bit before the busy bit, so that on a device that sets
    it a read would be given up early. *)
Class AtaDisk (D : Type) `{PortIO D} (image : list Z) := {
  ata_rep : D -> ata_state -> Prop;
  ata_latency : nat;
  ata_identity : list Z;
  ata_identity_length : length ata_identity = 256%nat;
  ata_alternate : forall d s, ata_rep d s -> exists v d', io_inb 0x3F6 d = Ok (v, d') /\ ata_rep d' s;
  ata_write : forall d r p v, ata_rep d (AtaIdle r) -> ATA_PIO_PORT_FEATURES <= p <= ATA_PIO_PORT_DRIVEHEAD ->
    exists d', io_outb p v d = Ok (tt, d') /\ ata_rep d' (AtaIdle (upd r p v));
  ata_read : forall d r, ata_rep d (AtaIdle r) -> r ATA_PIO_PORT_DRIVEHEAD / 16 = 0xE ->
    0 < r ATA_PIO_PORT_SECTORCOUNT < 256 ->
    (regs_lba r + r ATA_PIO_PORT_SECTORCOUNT) * 512 <= Z.of_nat (length image) ->
    exists d', io_outb ATA_PIO_PORT_COMMAND ATA_PIO_CMD_READ d = Ok (tt, d') /\
      ata_rep d' (AtaBusy r (request image (regs_lba r) (r ATA_PIO_PORT_SECTORCOUNT)) ata_latency);
  ata_identify : forall d r, ata_rep d (AtaIdle r) ->
    exists d', io_outb ATA_PIO_PORT_COMMAND ATA_PIO_CMD_IDENTIFY d = Ok (tt, d') /\
      ata_rep d' (AtaBusy r [ata_identity] ata_latency);
  ata_poll_busy : forall d r ws sectors k, ata_rep d (AtaBusy r (ws :: sectors) k) ->
    exists s d', io_inb ATA_PIO_PORT_COMMAND d = Ok (s, d') /\
      ((busy_status s /\ exists k', k = S k' /\ ata_rep d' (AtaBusy r (ws :: sectors) k')) \/
       (data_status s /\ ata_rep d' (AtaData r ws sectors)));
  ata_poll_data : forall d r ws sectors, ata_rep d (AtaData r ws sectors) ->
    exists s d', io_inb ATA_PIO_PORT_COMMAND d = Ok (s, d') /\ data_status s /\ ata_rep d' (AtaData r ws sectors);
  ata_register : forall d r ws sectors p, ata_rep d (AtaData r ws sectors) ->
    p = ATA_PIO_PORT_LBAMID \/ p = ATA_PIO_PORT_LBAHIGH ->
    exists d', io_inb p d = Ok (r p, d') /\ ata_rep d' (AtaData r ws sectors);
  ata_word : forall d r w ws sectors, ata_rep d (AtaData r (w :: ws) sectors) ->
    exists r' d', io_inw ATA_PIO_PORT_DATAREGISTER d = Ok (w, d') /\
      ata_rep d' (after_word ata_latency r r' ws sectors);
}.

Section proofs.
Context {D : Type} `{PortIO D} {image : list Z} `{!AtaDisk D image}.

Definition ata_ready (d : D) : Prop := exists r, ata_rep d (AtaIdle r).

(** ** Commands *)

Lemma delay_run d s : ata_rep d s -> exists d', ata_pio_delay d = Ok (tt, d') /\ ata_rep d' s.
Proof.
  intros Hd. unfold ata_pio_delay. do 4 (match goal with Hr : ata_rep ?x s |- context [_ ?x] =>
    destruct (ata_alternate x s Hr) as (? & ? & Hrun & ?); rewrite (bind_run _ _ _ _ _ Hrun); clear Hr Hrun end).
  eauto.
Qed.


Ltac write_step := match goal with Hr : ata_rep ?x (AtaIdle ?r) |- context [mbind _ (io_outb ?p ?v) ?x] =>
  let Hrun := fresh in destruct (ata_write x r p v Hr) as (? & Hrun & ?); [done|]; rewrite (bind_run _ _ _ _ _ Hrun); clear Hr Hrun end.


(** ** Waiting *)

(** Before and after the disk has been seen to be ready. *)
Definition awaiting (d : D) (r : Z -> Z) (ws : list Z) (sectors : list (list Z)) (k : nat) : Prop :=
  ata_rep d (AtaData r ws sectors) \/ exists k', (k' <= k)%nat /\ ata_rep d (AtaBusy r (ws :: sectors) k').

Lemma poll_run d r ws sectors k : awaiting d r ws sectors k ->
  exists s d', ata_pio_get_status d = Ok (s, d') /\ awaiting d' r ws sectors k /\
    ((busy_status s /\ exists k', k = S k' /\ awaiting d' r ws sectors k') \/ (data_status s /\ ata_rep d' (AtaData r ws sectors))).
Proof.
  intros [Hd|(k1 & Hk & Hd)].
  - destruct (ata_poll_data _ _ _ _ Hd) as (s & d' & E & Hs & Hd'). exists s, d'. split; [done|]. split; [by left|]. by right.
  - destruct (ata_poll_busy _ _ _ _ _ Hd) as (s & d' & E & [[Hs (k2 & -> & Hd')]|[Hs Hd']]); exists s, d'; (split; [done|]).
    + split; [right; exists k2; split; [lia|done]|]. left. split; [done|]. destruct k as [|k]; [lia|]. exists k.
      split; [done|]. right. exists k2. split; [lia|done].
    + split; [by left|]. by right.
Qed.


Lemma identify_wait_run fuel : forall d r ws sectors k, awaiting d r ws sectors k -> (k < fuel)%nat ->
  exists s d', identify_wait fuel d = Ok ((false, s), d') /\ ata_rep d' (AtaData r ws sectors).
Proof.
  induction fuel as [|fuel IH]; intros d r ws sectors k Hd Hk; [lia|]. cbn [identify_wait].
  destruct (poll_run _ _ _ _ _ Hd) as (s & d' & E & _ & [[[Hb He] (k' & -> & Hd')]|[(Hb & Hq & He) Hd']]);
    rewrite (bind_run _ _ _ _ _ E), Hb, ?He.
  - apply (IH _ _ _ _ k'); [done|lia].
  - by exists s, d'.
Qed.

(** ** Data *)

Lemma read_words_run ws : ws <> [] -> forall d r sectors, ata_rep d (AtaData r ws sectors) ->
  exists r' d', read_words (length ws) d = Ok (ws, d') /\ ata_rep d' (after_word ata_latency r r' [] sectors).
Proof.
  induction ws as [|w ws IH]; [done|]. intros _ d r sectors Hd. cbn [length read_words].
  destruct (ata_word _ _ _ _ _ Hd) as (r' & d' & E & Hd'). unfold ata_pio_read_dataport. rewrite (bind_run _ _ _ _ _ E).
  destruct ws as [|w' ws]; [by exists r', d'|].
  destruct (IH ltac:(done) d' r sectors Hd') as (r2 & d2 & E2 & Hd2). exists r2, d2. by rewrite (bind_run _ _ _ _ _ E2).
Qed.


(** Some status that does not say failure. *)
Lemma data_status_nonzero s : data_status s -> (s =? 0) = false.
Proof. intros (_ & Hq & _). apply Z.eqb_neq. intros ->. done. Qed.





(** ** The bytes are those of the image *)

Context (Hbytes : bytes_ok image).






(** ** Identification *)

Lemma drq_wait_run fuel d r ws sectors : ata_rep d (AtaData r ws sectors) -> (0 < fuel)%nat ->
  exists s d', drq_wait fuel d = Ok (s, d') /\ data_status s /\ ata_rep d' (AtaData r ws sectors).
Proof.
  intros Hd Hf. destruct fuel as [|fuel]; [lia|]. cbn [drq_wait].
  destruct (ata_poll_data _ _ _ _ Hd) as (s & d' & E & Hs & Hd'). pose proof Hs as (_ & Hq & _). exists s, d'.
  unfold ata_pio_get_status. by rewrite (bind_run _ _ _ _ _ E), Hq.
Qed.

(** Selecting the disk and clearing the registers, as both boot stages do first. *)
Lemma select_run d : ata_ready d ->
  exists r d', (_ ← ata_pio_set_disk ATA_PIO_DISK_MASTER; ata_pio_zero) d = Ok (tt, d') /\ ata_rep d' (AtaIdle r) /\
    r ATA_PIO_PORT_LBAMID = 0 /\ r ATA_PIO_PORT_LBAHIGH = 0.
Proof.
  intros (r & Hd). unfold ata_pio_set_disk, ata_pio_zero. destruct (ata_write d r ATA_PIO_PORT_DRIVEHEAD ATA_PIO_DISK_MASTER Hd) as (d1 & E1 & H1); [done|].
  destruct (delay_run _ _ H1) as (d2 & E2 & H2). clear Hd H1. rewrite (bind_run _ _ d _ d2 (eq_trans (bind_run _ _ _ _ _ E1) E2)).
  do 3 write_step. match goal with Hr : ata_rep ?x (AtaIdle ?r1) |- context [io_outb ?p ?v] =>
    destruct (ata_write x r1 p v Hr) as (d3 & E3 & H3); [done|] end.
  eexists _, d3. split; [exact E3|]. split; [exact H3|]. done.
Qed.

Lemma identify_run fuel buffer d r : (ata_latency < fuel)%nat -> ata_rep d (AtaIdle r) ->
  r ATA_PIO_PORT_LBAMID = 0 -> r ATA_PIO_PORT_LBAHIGH = 0 ->
  exists s d', ata_pio_identify fuel buffer d = Ok ((s, ata_identity), d') /\ data_status s /\ ata_ready d'.
Proof.
  intros Hfuel Hd Hmid Hhigh. unfold ata_pio_identify.
  destruct (ata_identify d r Hd) as (d1 & E1 & H1). rewrite (bind_run _ _ _ _ _ E1).
  assert (awaiting d1 r ata_identity [] ata_latency) as Ha by (right; by exists ata_latency).
  destruct (poll_run _ _ _ _ _ Ha) as (s1 & d2 & E2 & Ha2 & Hs). rewrite (bind_run _ _ _ _ _ E2).
  assert ((s1 =? 0) = false) as ->.
  { apply Z.eqb_neq. intros ->. destruct Hs as [[[Hb _] _]|[(_ & Hq & _) _]]; done. }
  destruct (identify_wait_run fuel _ _ _ _ _ Ha2 Hfuel) as (s3 & d3 & E3 & H3). rewrite (bind_run _ _ _ _ _ E3).
  destruct (ata_register d3 r _ _ ATA_PIO_PORT_LBAMID H3) as (d4 & E4 & H4); [by left|].
  destruct (ata_register d4 r _ _ ATA_PIO_PORT_LBAHIGH H4) as (d5 & E5 & H5); [by right|].
  assert (not_plain_ata d3 = Ok (false, d5)) as E6.
  { unfold not_plain_ata. rewrite (bind_run _ _ _ _ _ E4), Hmid. cbn [negb Z.eqb]. by rewrite (bind_run _ _ _ _ _ E5), Hhigh. }
  rewrite (bind_run _ _ _ _ _ E6). destruct (drq_wait_run fuel d5 r _ _ H5) as (s7 & d7 & E7 & Hs7 & H7); [lia|].
  rewrite (bind_run _ _ _ _ _ E7). pose proof ata_identity_length as Hl.
  destruct (read_words_run ata_identity ltac:(intros E; by rewrite E in Hl) d7 r [] H7) as (r' & d8 & E8 & H8).
  rewrite Hl in E8. rewrite (bind_run _ _ _ _ _ E8). exists s7, d8. split; [done|]. split; [done|]. by exists r'.
Qed.
End proofs.

(** ** A concrete disk *)

(** The image, how often it says busy before each sector, what it says of itself. *)
Section drive.
Context (image : list Z) (latency : nat) (identity : list Z).

Definition drive := ata_state.

Definition drive_inb (port : Z) : M drive Z := fun s =>
  if port =? ATA_PIO_PORT_COMMAND then
    match s with
    | AtaIdle r => Ok (0x50, s)
    | AtaBusy r sectors (S k) => Ok (0x80, AtaBusy r sectors k)
    | AtaBusy r (ws :: sectors) O => Ok (0x58, AtaData r ws sectors)
    | AtaBusy r [] O => Ok (0x50, AtaIdle r)
    | AtaData r ws sectors => Ok (0x58, s)
    end
  else
    match s with
    | AtaIdle r | AtaBusy r _ _ | AtaData r _ _ => Ok (r port, s)
    end.

Definition drive_inw (port : Z) : M drive Z := fun s =>
  match s with
  | AtaData r (w :: ws) sectors => Ok (w, after_word latency r r ws sectors)
  | _ => Ok (0, s)
  end.

Definition drive_outb (port v : Z) : M drive unit := fun s =>
  match s with
  | AtaIdle r =>
      if port =? ATA_PIO_PORT_COMMAND then
        if v =? ATA_PIO_CMD_READ then Ok (tt, AtaBusy r (request image (regs_lba r) (r ATA_PIO_PORT_SECTORCOUNT)) latency)
        else if v =? ATA_PIO_CMD_IDENTIFY then Ok (tt, AtaBusy r [identity] latency)
        else Ok (tt, s)
      else Ok (tt, AtaIdle (upd r port v))
  | _ => Ok (tt, s)
  end.

#[local] Instance drive_ports : PortIO drive := {| io_inb := drive_inb; io_inw := drive_inw; io_outb := drive_outb |}.

Context (Hid : length identity = 256%nat).

#[local] Instance drive_disk : AtaDisk drive image.
Proof.
  refine (Build_AtaDisk drive _ image (fun d s => d = s) latency identity Hid _ _ _ _ _ _ _ _).
  - intros d s ->. destruct s; by eexists _, _.
  - intros d r p v -> [H1 H2]. cbn [io_outb drive_ports drive_outb].
    rewrite (proj2 (Z.eqb_neq p ATA_PIO_PORT_COMMAND)) by (unfold ATA_PIO_PORT_DRIVEHEAD, ATA_PIO_PORT_COMMAND in *; lia). eauto.
  - intros d r -> _ _ _. by eexists.
  - intros d r ->. by eexists.
  - intros d r ws sectors [|k] ->; eexists _, _; (split; [reflexivity|]); [by right|left; split; [done|by exists k]].
  - intros d r ws sectors ->. by eexists _, _.
  - intros d r ws sectors p -> [-> | ->]; by eexists.
  - intros d r w ws sectors ->. by exists r, (after_word latency r r ws sectors).
Defined.
End drive.

(** ** Properties *)


(** Identifying a selected disk terminates and leaves its identification in the
    buffer, with a status that is not the one for "no disk". *)
Theorem ata_pio_identify_correct {D : Type} `{PortIO D} (image : list Z) `{!AtaDisk D image} (fuel : nat)
  (buffer : list Z) (d : D) (Hready : ata_ready d) (Hfuel : (ata_latency < fuel)%nat) :
  exists s d', (_ ← ata_pio_set_disk ATA_PIO_DISK_MASTER; _ ← ata_pio_zero; ata_pio_identify fuel buffer) d =
      Ok ((s, ata_identity), d') /\ s <> 0 /\ ata_ready d'.
Proof.
  destruct (select_run d Hready) as (r & d1 & E1 & H1 & Hm & Hh).
  destruct (identify_run fuel buffer d1 r Hfuel H1 Hm Hh) as (s & d2 & E2 & Hs & H2).
  exists s, d2. split; [|split; [by apply Z.eqb_neq, data_status_nonzero|done]].
  apply bind_Ok in E1 as ([] & d0 & E0 & E1). rewrite (bind_run _ _ _ _ _ E0). by rewrite (bind_run _ _ _ _ _ E1).
Qed.

(** A request for more than eight sectors is answered from an uninitialised status: the
    caller is told that it succeeded, unless that byte happens to be zero, and the
    disk has not been asked. *)
Theorem ata_readsectors_too_many {D : Type} `{PortIO D} (fuel : nat) (stack lba : Z) (d : D) :
  ata_pio_disk_ops_read fuel stack lba 9 d = Ok ((negb (stack =? 0), []), d).
Proof. reflexivity. Qed.


(** *** Witnesses: the image of [BsfsRead] on a disk that is busy three times per sector *)

Definition sample_identity : list Z := replicate 60 0x4142 ++ [0x8000; 0x0001] ++ replicate 194 0.
Lemma sample_identity_length : length sample_identity = 256%nat.
Proof. reflexivity. Qed.

#[local] Instance sample_ports : PortIO drive := drive_ports read_image 3 sample_identity.
#[local] Instance sample_disk : AtaDisk drive read_image := drive_disk read_image 3 sample_identity sample_identity_length.



(** The largest sector number and the serial number come from the identification. *)
Lemma ata_pio_identify_correct_witness :
  exists s d', (_ ← ata_pio_set_disk ATA_PIO_DISK_MASTER; _ ← ata_pio_zero; ata_pio_identify 4 []) (AtaIdle (fun _ => 7)) =
      Ok ((s, sample_identity), d') /\ s <> 0 /\
    ata_pio_get_max_sectors sample_identity = 0x18000 /\
    ata_pio_get_serial_number sample_identity = concat (replicate 10 [0x41; 0x42]) ++ [0].
Proof.
  destruct (ata_pio_identify_correct read_image 4 [] (AtaIdle (fun _ => 7))) as (s & d' & E & Hs & _);
    [by exists (fun _ => 7)|cbn; lia|].
  exists s, d'. split; [exact E|]. split; [exact Hs|]. split; vm_compute; reflexivity.
Defined.

