(* ===== verification/BsfsTools.v ===== *)
(** * BSFS: allocation and image creation

    [tools/bsfs/bsfs.c] (bitmaps, block, inode and directory-entry allocation) and
    [tools/bsfs/mkfs.bsfs.c].  The tools are built with [BSFS_DEBUG] but without
    [DBSFS_STDLIB_EXISTS], the macro the header tests, so [BSFS_PANIC] expands to
    nothing and the code runs on past it; the definitions do the same.  An image file
    is the list of its bytes. *)
From Stdlib Require Import ZArith Lia String Ascii.
From stdpp Require Import base tactics list numbers.
From S2P Require Import Prelude Bitmap Crc32 CString BsfsTypes BsfsFile.

Open Scope Z_scope.

(** ** State of a tool *)

(** The image, the header and bitmaps in memory, and the inode table. *)
Record tool_state := {
  t_image : list Z;
  t_header : BsfsHeader;
  t_block_bitmap : list Z;
  t_megablock_bitmap : list Z;
  t_inode_bitmap : list Z;
  t_inode_table : list BsfsInode;
}.

Definition set_image (t : tool_state) (image : list Z) : tool_state :=
  {| t_image := image; t_header := t_header t; t_block_bitmap := t_block_bitmap t;
     t_megablock_bitmap := t_megablock_bitmap t; t_inode_bitmap := t_inode_bitmap t;
     t_inode_table := t_inode_table t |}.

Definition set_inode_table (t : tool_state) (table : list BsfsInode) : tool_state :=
  {| t_image := t_image t; t_header := t_header t; t_block_bitmap := t_block_bitmap t;
     t_megablock_bitmap := t_megablock_bitmap t; t_inode_bitmap := t_inode_bitmap t;
     t_inode_table := table |}.

(** The fields of the header that the tools change. *)
Definition with_counts (h : BsfsHeader) (fb fi ri : Z) : BsfsHeader :=
  {| bootjmp := bootjmp h; magic := magic h; version := version h; block_size := block_size h;
     total_blocks := total_blocks h; inode_count := inode_count h; free_blocks := fb; free_inodes := fi;
     block_bitmap_start := block_bitmap_start h; block_bitmap_blocks := block_bitmap_blocks h;
     megablock_bitmap_start := megablock_bitmap_start h; megablock_bitmap_blocks := megablock_bitmap_blocks h;
     megablock_bitmap_size := megablock_bitmap_size h; inode_bitmap_start := inode_bitmap_start h;
     inode_bitmap_blocks := inode_bitmap_blocks h; inode_table_start := inode_table_start h;
     inode_table_blocks := inode_table_blocks h; data_start := data_start h; root_inode := ri;
     partition_lba := partition_lba h; label := label h; bootcode := bootcode h;
     bootcode_magic := bootcode_magic h |}.

(** [fseeko(image, pos, SEEK_SET); fwrite(bytes, 1, n, image)]: writing behind the end
    of the file extends it, with zeros in between. *)
Definition fwrite_at (image : list Z) (pos : Z) (bytes : list Z) : list Z :=
  let p := Z.to_nat pos in
  take p image ++ replicate (p - length image) 0 ++ bytes ++ drop (p + length bytes) image.

(** An offset that is negative as an [off_t] makes [fseeko] fail, and the bytes go
    wherever the file position happens to be: a [Fault]. *)
Definition write_image (pos : Z) (bytes : list Z) : M tool_state unit :=
  if 2 ^ 63 <=? pos then fault else modify (fun t => set_image t (fwrite_at (t_image t) pos bytes)).

(** ** Bitmaps ([tools/bsfs/bsfs.c]) *)

Definition bsfs_bitmap_test (bitmap : list Z) (index : Z) : outcome Z := bitmap_test bitmap index.

(** The debug check only reads the bit. *)
Definition bsfs_bitmap_set (bitmap : list Z) (index : Z) : outcome (list Z) :=
  _ ← bsfs_bitmap_test bitmap index;
  bitmap_set bitmap index.

Definition bsfs_bitmap_clear (bitmap : list Z) (index : Z) : outcome (list Z) :=
  _ ← bsfs_bitmap_test bitmap index;
  bitmap_clear bitmap index.

Definition bsfs_bitmap_find (bitmap : list Z) (bit_count : Z) : outcome Z := bitmap_find bitmap bit_count.

(** [for (i = 0; i < n; i++) if (slice[i] != UINT8_MAX) ...]. *)
Fixpoint slice_full (bitmap : list Z) (off : Z) (n : nat) : outcome bool :=
  match n with
  | O => Ok true
  | S n' =>
      b ← rd bitmap off;
      if negb (b =? UINT8_MAX) then Ok false else slice_full bitmap (off + 1) n'
  end.

(** ** Allocation *)

Definition bsfs_alloc_block : M tool_state Z :=
  t ← get;
  let h := t_header t in
  free_megablock ← lift (bsfs_bitmap_find (t_megablock_bitmap t) (u32 (megablock_bitmap_size h * 8)));
  let off := u32 (free_megablock * block_size h) in
  let base_block := u32 (off * 8) in
  free_block ← lift (bsfs_bitmap_find (drop (Z.to_nat off) (t_block_bitmap t)) (u32 (block_size h * 8)));
  if free_block =? UINT32_MAX then mret UINT32_MAX else
  let free_block := u32 (free_block + base_block) in
  block_bitmap ← lift (bsfs_bitmap_set (t_block_bitmap t) free_block);
  full ← lift (slice_full block_bitmap off (Z.to_nat (block_size h)));
  megablock_bitmap ← (if full : bool then lift (bsfs_bitmap_set (t_megablock_bitmap t) free_megablock)
                      else mret (t_megablock_bitmap t));
  put {| t_image := t_image t;
         t_header := with_counts h (u32 (free_blocks h - 1)) (free_inodes h) (root_inode h);
         t_block_bitmap := block_bitmap; t_megablock_bitmap := megablock_bitmap;
         t_inode_bitmap := t_inode_bitmap t; t_inode_table := t_inode_table t |} ;;
  mret free_block.

Definition bsfs_alloc_inode : M tool_state Z :=
  t ← get;
  let h := t_header t in
  free_inode ← lift (bsfs_bitmap_find (t_inode_bitmap t) (inode_count h));
  if free_inode =? UINT32_MAX then mret UINT32_MAX else
  inode_bitmap ← lift (bsfs_bitmap_set (t_inode_bitmap t) free_inode);
  put {| t_image := t_image t;
         t_header := with_counts h (free_blocks h) (u32 (free_inodes h - 1)) (root_inode h);
         t_block_bitmap := t_block_bitmap t; t_megablock_bitmap := t_megablock_bitmap t;
         t_inode_bitmap := inode_bitmap; t_inode_table := t_inode_table t |} ;;
  mret free_inode.

(** The inode at a slot of the table in memory, and a store to it. *)
Definition get_inode (idx : Z) : M tool_state BsfsInode := t ← get; lift (rd (t_inode_table t) idx).

Definition put_inode (idx : Z) (ino : BsfsInode) : M tool_state unit :=
  t ← get;
  table ← lift (wr (t_inode_table t) idx ino);
  put (set_inode_table t table).

(** The fields of an inode that the tools change. *)
Definition with_blocks (i : BsfsInode) (sz bl : Z) (direct : list Z) (l1 : Z) : BsfsInode :=
  {| type := type i; permissions := permissions i; uid := uid i; gid := gid i; size := sz; blocks := bl;
     created := created i; modified := modified i; accessed := accessed i; link_count := link_count i;
     blocks_direct := direct; blocks_l1indirect := l1; blocks_l2indirect := blocks_l2indirect i;
     blocks_l3indirect := blocks_l3indirect i; checksum := checksum i; inode_reserved := inode_reserved i |}.

Definition with_checksum (i : BsfsInode) (c : Z) : BsfsInode :=
  {| type := type i; permissions := permissions i; uid := uid i; gid := gid i; size := size i;
     blocks := blocks i; created := created i; modified := modified i; accessed := accessed i;
     link_count := link_count i; blocks_direct := blocks_direct i; blocks_l1indirect := blocks_l1indirect i;
     blocks_l2indirect := blocks_l2indirect i; blocks_l3indirect := blocks_l3indirect i; checksum := c;
     inode_reserved := inode_reserved i |}.

(** The byte offset of the next entry of the directory in slot [idx]. *)
Definition bsfs_alloc_dirent (idx : Z) : M tool_state Z :=
  ino ← get_inode idx;
  t ← get;
  let h := t_header t in
  if negb (type ino =? BSFS_INODE_TYPE_DIRECTORY) then mret UINT64_MAX else
  let new_dirent_local_block := u32 (size ino / block_size h) in
  if BSFS_MAX_DIRECTBLOCKS <=? new_dirent_local_block then mret UINT64_MAX else
  b ← lift (rd (blocks_direct ino) new_dirent_local_block);
  b ← (if b =? 0 then
         nb ← bsfs_alloc_block;
         direct ← lift (wr (blocks_direct ino) new_dirent_local_block nb);
         put_inode idx (with_blocks ino (size ino) (u32 (blocks ino + 1)) direct (blocks_l1indirect ino)) ;;
         mret nb
       else mret b);
  let new_dirent_offset := u32 (size ino mod block_size h) in
  mret (u32 (u32 (block_size h * b) + new_dirent_offset)).

(** ** mkfs.bsfs *)

(** The characters of a string literal. *)
Definition chars (s : string) : list Z := (fun c => Z.of_nat (nat_of_ascii c)) <$> list_ascii_of_string s.

Definition same_string (a b : list Z) : bool := bool_decide (a = b).

Definition is_space (c : Z) : bool := (c =? 32) || ((9 <=? c) && (c <=? 13)).

Fixpoint skip_spaces (s : list Z) : list Z :=
  match s with
  | c :: s' => if is_space c then skip_spaces s' else s
  | [] => []
  end.

(** The decimal digits at the front, and the characters behind them. *)
Fixpoint scan_digits (s : list Z) (acc : Z) (any : bool) : Z * bool * list Z :=
  match s with
  | c :: s' =>
      if (48 <=? c) && (c <=? 57) then scan_digits s' (acc * 10 + (c - 48)) true else (acc, any, s)
  | [] => (acc, any, [])
  end.

(** [strtol(s, &end, 10)] on a 64-bit host: [None] when no digit was found
    ([end == s]), else the value (clamped), whether [errno] is [ERANGE], and [end]. *)
Definition strtol10 (s : list Z) : option (Z * bool * list Z) :=
  let s := skip_spaces s in
  let '(neg, s) := match s with
                   | 45 :: s' => (true, s')
                   | 43 :: s' => (false, s')
                   | _ => (false, s)
                   end in
  let '(v, any, rest) := scan_digits s 0 false in
  if any : bool then
    let v := if neg : bool then - v else v in
    if v <? - 2 ^ 63 then Some (- 2 ^ 63, true, rest) else
    if 2 ^ 63 - 1 <? v then Some (2 ^ 63 - 1, true, rest) else
    Some (v, false, rest)
  else None.

(** The numeric argument of an option: [None] when the tool prints an error. *)
Definition number_option (arg : list Z) (lo hi : Z) : option Z :=
  match strtol10 arg with
  | None => None
  | Some (value, erange, rest) =>
      match rest with
      | [] => if erange || (value <? lo) || (hi <? value) then None else Some value
      | _ => None
      end
  end.

Record tool_options := {
  final_offset : Z;
  final_blocksize : Z;
  final_label : list Z;
  final_force : bool;
}.

Definition default_options : tool_options :=
  {| final_offset := 0; final_blocksize := 4096; final_label := chars "mkfs.bsfs"; final_force := false |}.

Definition with_offset (o : tool_options) (v : Z) : tool_options :=
  {| final_offset := v; final_blocksize := final_blocksize o; final_label := final_label o;
     final_force := final_force o |}.
Definition with_blocksize (o : tool_options) (v : Z) : tool_options :=
  {| final_offset := final_offset o; final_blocksize := v; final_label := final_label o;
     final_force := final_force o |}.
Definition with_label (o : tool_options) (l : list Z) : tool_options :=
  {| final_offset := final_offset o; final_blocksize := final_blocksize o; final_label := l;
     final_force := final_force o |}.
Definition with_force (o : tool_options) : tool_options :=
  {| final_offset := final_offset o; final_blocksize := final_blocksize o; final_label := final_label o;
     final_force := true |}.

(** The option loop of mkfs.bsfs; [None] is an exit with status 1. *)
Fixpoint mkfs_options (argv : list (list Z)) (o : tool_options) : option tool_options :=
  match argv with
  | [] => Some o
  | a :: argv' =>
      if same_string a (chars "--offset") then
        match argv' with
        | [] => None
        | v :: argv'' =>
            match number_option v 0 1024 with
            | Some n => mkfs_options argv'' (with_offset o n)
            | None => None
            end
        end
      else if same_string a (chars "--block-size") then
        match argv' with
        | [] => None
        | v :: argv'' =>
            match number_option v 1024 16384 with
            | Some n => mkfs_options argv'' (with_blocksize o n)
            | None => None
            end
        end
      else if same_string a (chars "--label") then
        match argv' with
        | [] => None
        | v :: argv'' =>
            if 32 <=? Z.of_nat (length v) then None else mkfs_options argv'' (with_label o v)
        end
      else None
  end.

Definition div_ceil (a b : Z) : Z := u64 (a + b - 1) / b.

(** The header mkfs.bsfs writes for an image of [imagesize] bytes. *)
Definition mkfs_header (imagesize blocksize offset : Z) (lab : list Z) : BsfsHeader :=
  let total := u32 (imagesize / blocksize) in
  let total_megablocks := u32 (div_ceil total (blocksize * 8)) in
  let inodes := total / 4 in
  let block_bitmap_bytes := u32 (total + 7) / 8 in
  let bb_blocks := u32 (div_ceil block_bitmap_bytes blocksize) in
  let megablock_bitmap_bytes := u32 (total_megablocks + 7) / 8 in
  let mb_blocks := u32 (div_ceil megablock_bitmap_bytes blocksize) in
  let inode_bitmap_bytes := u32 (inodes + 7) / 8 in
  let ib_blocks := u32 (div_ceil inode_bitmap_bytes blocksize) in
  let inode_table_bytes := u32 (inodes * sizeof_BsfsInode) in
  let it_blocks := u32 (div_ceil inode_table_bytes blocksize) in
  let reserved_blocks := u32 (offset + 1) in
  let mb_start := u32 (reserved_blocks + bb_blocks) in
  let ib_start := u32 (mb_start + mb_blocks) in
  let it_start := u32 (ib_start + ib_blocks) in
  let d_start := u32 (it_start + it_blocks) in
  let metadata_blocks := u32 (reserved_blocks + bb_blocks + mb_blocks + ib_blocks + it_blocks) in
  {| bootjmp := [0xEB; 115 - 2; 0x90]; magic := BSFS_MAGIC; version := BSFS_VERSION;
     block_size := u32 blocksize; total_blocks := total; inode_count := inodes;
     free_blocks := u32 (total - metadata_blocks); free_inodes := inodes;
     block_bitmap_start := reserved_blocks; block_bitmap_blocks := bb_blocks;
     megablock_bitmap_start := mb_start; megablock_bitmap_blocks := mb_blocks;
     megablock_bitmap_size := megablock_bitmap_bytes; inode_bitmap_start := ib_start;
     inode_bitmap_blocks := ib_blocks; inode_table_start := it_start; inode_table_blocks := it_blocks;
     data_start := d_start; root_inode := 0; partition_lba := offset;
     label := lab ++ replicate (32 - length lab) 0; bootcode := replicate 395 0;
     bootcode_magic := [0x55; 0xAA] |}.

(** A run of zeroed blocks. *)
Definition zero_blocks (image : list Z) (blocksize start count : Z) : list Z :=
  fwrite_at image (u64 (blocksize * start)) (replicate (Z.to_nat (count * blocksize)) 0).

(** The exit status and the image. *)
Definition mkfs_write (image : list Z) (o : tool_options) : Z * list Z :=
  let bs := final_blocksize o in
  let bsfs_base := u64 (bs * final_offset o) in
  let imagesize := Z.of_nat (length image) in
  if negb (imagesize mod bs =? 0) then (1, image) else
  let h := mkfs_header imagesize bs (final_offset o) (final_label o) in
  let image := fwrite_at image bsfs_base (header_bytes h ++ replicate (Z.to_nat (bs - sizeof_BsfsHeader)) 0) in
  let image := zero_blocks image bs (block_bitmap_start h) (block_bitmap_blocks h) in
  let image := zero_blocks image bs (megablock_bitmap_start h) (megablock_bitmap_blocks h) in
  let image := zero_blocks image bs (inode_bitmap_start h) (inode_bitmap_blocks h) in
  (0, zero_blocks image bs (inode_table_start h) (inode_table_blocks h)).

(** [main]; [argv] without the program name, [open_image] the file named first, if it
    can be opened. *)
Definition mkfs_main (argv : list (list Z)) (open_image : option (list Z)) : Z * option (list Z) :=
  match argv with
  | [] => (1, open_image)
  | _ :: args =>
      match mkfs_options args default_options, open_image with
      | Some o, Some image => let '(status, image) := mkfs_write image o in (status, Some image)
      | _, _ => (1, open_image)
      end
  end.

(** ** Lemmas on written images *)

Lemma length_fwrite_at image pos bytes :
  0 <= pos -> pos + Z.of_nat (length bytes) <= Z.of_nat (length image) ->
  length (fwrite_at image pos bytes) = length image.
Proof. intros. unfold fwrite_at. rewrite !length_app, length_take, length_replicate, length_drop. lia. Qed.

Lemma fwrite_at_in image pos bytes j :
  0 <= pos -> 0 <= j < Z.of_nat (length bytes) ->
  fwrite_at image pos bytes !! Z.to_nat (pos + j) = bytes !! Z.to_nat j.
Proof.
  intros Hp Hj. unfold fwrite_at. rewrite app_assoc.
  rewrite lookup_app_r by (rewrite length_app, length_take, length_replicate; lia).
  rewrite lookup_app_l by (rewrite length_app, length_take, length_replicate; lia).
  f_equal. rewrite length_app, length_take, length_replicate. lia.
Qed.

Lemma fwrite_at_out image pos bytes k :
  0 <= pos <= Z.of_nat (length image) -> 0 <= k -> k < pos \/ pos + Z.of_nat (length bytes) <= k ->
  fwrite_at image pos bytes !! Z.to_nat k = image !! Z.to_nat k.
Proof.
  intros Hp Hk Hout. unfold fwrite_at. replace (Z.to_nat pos - length image)%nat with 0%nat by lia.
  cbn [replicate app]. destruct Hout as [Hlt|Hge].
  - rewrite lookup_app_l by (rewrite length_take; lia). by rewrite lookup_take_lt by lia.
  - rewrite lookup_app_r by (rewrite length_take; lia).
    rewrite lookup_app_r by (rewrite length_take; lia). rewrite lookup_drop. f_equal. rewrite length_take. lia.
Qed.

Lemma slice_eq a b off n :
  0 <= off -> (forall j, off <= j < off + n -> a !! Z.to_nat j = b !! Z.to_nat j) ->
  slice a off n = slice b off n.
Proof.
  intros Ho Hab. unfold slice. apply list_eq. intros i.
  destruct (decide (i < Z.to_nat n)%nat) as [Hi|Hi].
  - rewrite !lookup_take_lt, !lookup_drop by done. specialize (Hab (off + Z.of_nat i)).
    replace (Z.to_nat (off + Z.of_nat i)) with (Z.to_nat off + i)%nat in Hab by lia. apply Hab. lia.
  - by rewrite !lookup_take_ge by lia.
Qed.

(** A slice outside the written range, and one that is the start of the written bytes. *)
Lemma slice_fwrite_out image pos bytes off n :
  0 <= pos <= Z.of_nat (length image) -> 0 <= off ->
  off + n <= pos \/ pos + Z.of_nat (length bytes) <= off ->
  slice (fwrite_at image pos bytes) off n = slice image off n.
Proof. intros Hp Ho Hout. apply slice_eq; [done|]. intros j Hj. apply fwrite_at_out; lia. Qed.

Lemma slice_fwrite_in image pos bytes n :
  0 <= pos -> 0 <= n <= Z.of_nat (length bytes) ->
  slice (fwrite_at image pos bytes) pos n = take (Z.to_nat n) bytes.
Proof.
  intros Hp Hn. unfold slice. apply list_eq. intros i.
  destruct (decide (i < Z.to_nat n)%nat) as [Hi|Hi]; [|by rewrite !lookup_take_ge by lia].
  rewrite !lookup_take_lt, lookup_drop by done.
  replace (Z.to_nat pos + i)%nat with (Z.to_nat (pos + Z.of_nat i)) by lia.
  rewrite fwrite_at_in by lia. f_equal. lia.
Qed.

(** Reduces the fields of a header that is written out. *)
Ltac hfields := cbn [bootjmp magic version block_size total_blocks inode_count free_blocks free_inodes
  block_bitmap_start block_bitmap_blocks megablock_bitmap_start megablock_bitmap_blocks megablock_bitmap_size
  inode_bitmap_start inode_bitmap_blocks inode_table_start inode_table_blocks data_start root_inode
  partition_lba label bootcode bootcode_magic].

(** ** Properties of mkfs.bsfs *)

Lemma div_ceil_eq a b : 0 < b -> 0 <= a -> a + b <= 2 ^ 64 -> div_ceil a b = (a + b - 1) / b.
Proof. intros. unfold div_ceil. by unwrap. Qed.

Lemma div_ceil_covers a b : 0 < b -> 0 <= a -> a <= b * ((a + b - 1) / b) < a + b.
Proof. intros. pose proof (Z.div_mod (a + b - 1) b). pose proof (Z.mod_pos_bound (a + b - 1) b). lia. Qed.

(** The regions of a fresh file system: each starts where the one before ends, and
    holds what it is for. *)
Record layout_ok (h : BsfsHeader) (offset : Z) : Prop := LayoutOk {
  lo_header : header_ok h;
  lo_bb : block_bitmap_start h = offset + 1;
  lo_mb : megablock_bitmap_start h = block_bitmap_start h + block_bitmap_blocks h;
  lo_ib : inode_bitmap_start h = megablock_bitmap_start h + megablock_bitmap_blocks h;
  lo_it : inode_table_start h = inode_bitmap_start h + inode_bitmap_blocks h;
  lo_data : data_start h = inode_table_start h + inode_table_blocks h;
  lo_bb_size : total_blocks h <= 8 * (block_size h * block_bitmap_blocks h) < total_blocks h + 8 * block_size h + 7;
  lo_mb_size : total_blocks h <= 8 * block_size h * (8 * megablock_bitmap_size h) /\
    megablock_bitmap_size h <= block_size h * megablock_bitmap_blocks h;
  lo_ib_size : inode_count h <= 8 * (block_size h * inode_bitmap_blocks h);
  lo_it_size : inode_count h * sizeof_BsfsInode <= block_size h * inode_table_blocks h;
  lo_free : data_start h <= total_blocks h -> free_blocks h = total_blocks h - data_start h;
}.

Lemma mkfs_header_layout (total bs offset : Z) (lab : list Z) :
  1024 <= bs <= 16384 -> 0 <= offset <= 1024 -> 0 <= total < 2 ^ 27 -> (length lab < 32)%nat ->
  layout_ok (mkfs_header (total * bs) bs offset lab) offset.
Proof.
  intros Hbs Hoff Ht Hlab. unfold mkfs_header. rewrite Z.div_mul by lia. unfold sizeof_BsfsInode.
  rewrite (u32_id total) by lia.
  assert (forall a, 0 <= a < 2 ^ 33 -> 0 <= (a + bs - 1) / bs <= a / 1024 + 1) as Hq.
  { intros a Ha. split; [apply Z.div_pos; lia|].
    apply Z.lt_succ_r, Z.div_lt_upper_bound; [lia|].
    assert (0 <= a / 1024 /\ a < 1024 * (a / 1024) + 1024) as [Hq0 Hq1] by dlia.
    pose proof (Z.mul_le_mono_nonneg_r 1024 bs (a / 1024) Hq0 ltac:(lia)). nia. }
  assert (0 <= (total + bs * 8 - 1) / (bs * 8) <= total) as Hmg.
  { split; [apply Z.div_pos; lia|]. apply Z.lt_succ_r, Z.div_lt_upper_bound; nia. }
  pose proof (div_ceil_covers total (bs * 8)) as Cm.
  rewrite (div_ceil_eq total), (u32_id ((total + bs * 8 - 1) / (bs * 8))) by lia.
  specialize (Cm ltac:(lia) ltac:(lia)). set (mg := (total + bs * 8 - 1) / (bs * 8)) in *. clearbody mg.
  rewrite (u32_id (total + 7)), (u32_id (mg + 7)), (u32_id (total / 4 + 7)), (u32_id (total / 4 * 128)) by dlia.
  assert (0 <= (total + 7) / 8 < 2 ^ 25) as B1 by dlia. assert (0 <= (mg + 7) / 8 < 2 ^ 25) as B2 by dlia.
  assert (0 <= (total / 4 + 7) / 8 < 2 ^ 25) as B3 by dlia. assert (0 <= total / 4 * 128 < 2 ^ 33) as B4 by dlia.
  assert (total <= 8 * ((total + 7) / 8) < total + 8) as A1 by dlia. assert (mg <= 8 * ((mg + 7) / 8)) as A2 by dlia.
  assert (total / 4 <= 8 * ((total / 4 + 7) / 8)) as A3 by dlia. assert (0 <= total / 4 < 2 ^ 25) as A4 by dlia.
  set (bb := (total + 7) / 8) in *. set (mb := (mg + 7) / 8) in *. set (ib := (total / 4 + 7) / 8) in *.
  set (ic := total / 4) in *. clearbody bb mb ib ic.
  rewrite !(div_ceil_eq _ bs) by lia.
  pose proof (Hq bb ltac:(lia)). pose proof (Hq mb ltac:(lia)). pose proof (Hq ib ltac:(lia)).
  pose proof (Hq (ic * 128) ltac:(lia)).
  assert (bb / 1024 < 2 ^ 15 /\ mb / 1024 < 2 ^ 15 /\ ib / 1024 < 2 ^ 15 /\ ic * 128 / 1024 < 2 ^ 23) by dlia.
  pose proof (div_ceil_covers bb bs ltac:(lia) ltac:(lia)). pose proof (div_ceil_covers mb bs ltac:(lia) ltac:(lia)).
  pose proof (div_ceil_covers ib bs ltac:(lia) ltac:(lia)). pose proof (div_ceil_covers (ic * 128) bs ltac:(lia) ltac:(lia)).
  rewrite (u32_id ((bb + bs - 1) / bs)), (u32_id ((mb + bs - 1) / bs)), (u32_id ((ib + bs - 1) / bs)),
    (u32_id ((ic * 128 + bs - 1) / bs)) by lia.
  set (bbn := (bb + bs - 1) / bs) in *. set (mbn := (mb + bs - 1) / bs) in *. set (ibn := (ib + bs - 1) / bs) in *.
  set (itn := (ic * 128 + bs - 1) / bs) in *. clearbody bbn mbn ibn itn.
  rewrite (u32_id (offset + 1)), (u32_id (offset + 1 + bbn)), (u32_id (offset + 1 + bbn + mbn)),
    (u32_id (offset + 1 + bbn + mbn + ibn)), (u32_id (offset + 1 + bbn + mbn + ibn + itn)), (u32_id bs) by lia.
  split; hfields; try lia.
  - unfold header_ok. hfields. split; [done|]. split; [rewrite length_app, length_replicate; lia|]. split; [apply length_replicate|].
    split; [done|]. split; [lia|]. pose proof (u32_range (total - (offset + 1 + bbn + mbn + ibn + itn))).
    unfold BSFS_MAGIC, BSFS_VERSION. repeat constructor; lia.
  - split; nia.
  - unfold sizeof_BsfsInode. lia.
  - intros. by unwrap.
Qed.

(** Zeroing a region of the image: the size stays, the region is zero, and the bytes
    before it are as they were. *)
Definition zeros (image : list Z) (from to : Z) : Prop :=
  forall k, from <= k < to -> image !! Z.to_nat k = Some 0.

Lemma zero_blocks_spec image bs total start count first :
  0 < bs < 2 ^ 15 -> Z.of_nat (length image) = total * bs -> 0 <= first <= start -> start < 2 ^ 32 -> 0 <= count ->
  start + count <= total -> zeros image (first * bs) (start * bs) ->
  let image' := zero_blocks image bs start count in
  Z.of_nat (length image') = total * bs /\ zeros image' (first * bs) ((start + count) * bs) /\
  (forall off n, 0 <= off -> off + n <= first * bs -> slice image' off n = slice image off n).
Proof.
  intros Hbs Hl Hf Hs Hc Ht Hz image'. unfold image', zero_blocks.
  assert (0 <= bs * start < 2 ^ 64 /\ 0 <= count * bs /\ bs * start + count * bs <= total * bs /\
          first * bs <= bs * start) as (B1 & B2 & B3 & B4) by nia.
  rewrite u64_id by lia. split; [|split].
  - rewrite <- Hl. f_equal. apply length_fwrite_at; [lia|]. rewrite length_replicate. lia.
  - intros k Hk. destruct (decide (k < start * bs)) as [Hlt|Hge].
    + rewrite fwrite_at_out by lia. apply Hz. lia.
    + replace k with (bs * start + (k - start * bs)) by lia.
      rewrite fwrite_at_in by (rewrite ?length_replicate; lia). apply lookup_replicate_2. lia.
  - intros off n Ho Hn. apply slice_fwrite_out; lia.
Qed.

Lemma slice_zeros image from to : 0 <= from -> from <= to -> zeros image from to ->
  slice image from (to - from) = replicate (Z.to_nat (to - from)) 0.
Proof.
  intros Hf Ht Hz. unfold slice. apply list_eq. intros i.
  destruct (decide (i < Z.to_nat (to - from))%nat) as [Hi|Hi].
  - rewrite lookup_take_lt, lookup_drop, lookup_replicate_2 by done.
    replace (Z.to_nat from + i)%nat with (Z.to_nat (from + Z.of_nat i)) by lia. apply Hz. lia.
  - rewrite lookup_take_ge by lia. symmetry. apply lookup_ge_None_2. rewrite length_replicate. lia.
Qed.

(** Mkfs.bsfs, with options in the ranges it accepts, on an image of whole blocks
    that the metadata fits in: it succeeds, the image keeps its size, the header read
    back at the offset has a layout of adjacent regions that are large enough, and all
    bitmaps and the inode table are zero. *)
Theorem mkfs_correct (image : list Z) (o : tool_options) (total : Z)
  (Hbs : 1024 <= final_blocksize o <= 16384) (Hoff : 0 <= final_offset o <= 1024)
  (Hlab : (length (final_label o) < 32)%nat) (Hlen : Z.of_nat (length image) = total * final_blocksize o)
  (Hmax : total < 2 ^ 27)
  (Hfit : data_start (mkfs_header (total * final_blocksize o) (final_blocksize o) (final_offset o) (final_label o)) <= total) :
  exists image', mkfs_write image o = (0, image') /\ length image' = length image /\
    let h := parse_header (slice image' (final_offset o * final_blocksize o) sizeof_BsfsHeader) in
    layout_ok h (final_offset o) /\ block_size h = final_blocksize o /\ total_blocks h = total /\
    magic h = BSFS_MAGIC /\ version h = BSFS_VERSION /\ inode_count h = total / 4 /\
    slice image' (block_bitmap_start h * block_size h) ((data_start h - block_bitmap_start h) * block_size h)
      = replicate (Z.to_nat ((data_start h - block_bitmap_start h) * block_size h)) 0.
Proof.
  destruct o as [offset bs lab force]. cbn [final_offset final_blocksize final_label] in *.
  pose proof (mkfs_header_layout total bs offset lab Hbs Hoff ltac:(nia) Hlab) as HL.
  unfold mkfs_write. cbn [final_offset final_blocksize final_label]. rewrite Hlen, Z.mod_mul by lia. cbn [negb Z.eqb].
  assert (block_size (mkfs_header (total * bs) bs offset lab) = bs) as Hb by (cbn; unwrap; done).
  assert (total_blocks (mkfs_header (total * bs) bs offset lab) = total) as Ht
    by (unfold mkfs_header; hfields; rewrite Z.div_mul by lia; apply u32_id; nia).
  assert (inode_count (mkfs_header (total * bs) bs offset lab) = total / 4) as Hi
    by (unfold mkfs_header; hfields; rewrite Z.div_mul by lia; by rewrite u32_id by nia).
  assert (magic (mkfs_header (total * bs) bs offset lab) = BSFS_MAGIC /\
          version (mkfs_header (total * bs) bs offset lab) = BSFS_VERSION) as [Hmg Hvs] by done.
  set (h := mkfs_header (total * bs) bs offset lab) in *. clearbody h.
  destruct HL as [Hok E1 E2 E3 E4 E5 S1 S2 S3 S4 Hfr]. pose proof Hok as (_ & _ & _ & _ & _ & Hw).
  rewrite !list.Forall_cons in Hw. destruct_and! Hw.
  assert (offset + 1 <= total) as Hot by lia.
  assert (0 <= bs * offset < 2 ^ 64 /\ bs * offset + bs <= total * bs) as [N1 N2] by (clear - Hbs Hoff Hot; nia).
  rewrite (u64_id (bs * offset)) by lia.
  set (hb := header_bytes h ++ replicate (Z.to_nat (bs - sizeof_BsfsHeader)) 0).
  assert (Z.of_nat (length hb) = bs) as Hhb
    by (unfold hb; rewrite length_app, length_header_bytes, length_replicate by done; unfold sizeof_BsfsHeader; lia).
  assert (length (fwrite_at image (bs * offset) hb) = length image) as L0 by (apply length_fwrite_at; lia).
  assert (slice (fwrite_at image (bs * offset) hb) (bs * offset) sizeof_BsfsHeader = header_bytes h) as Hh0.
  { rewrite slice_fwrite_in by (unfold sizeof_BsfsHeader; lia). unfold hb.
    apply take_app_length'. by rewrite length_header_bytes. }
  set (i0 := fwrite_at image (bs * offset) hb) in *. clearbody i0.
  destruct (zero_blocks_spec i0 bs total (block_bitmap_start h) (block_bitmap_blocks h) (block_bitmap_start h))
    as (L1 & Z1 & O1); [lia|lia|lia|lia|lia|lia|intros k; lia|].
  set (i1 := zero_blocks i0 _ _ _) in *. clearbody i1.
  destruct (zero_blocks_spec i1 bs total (megablock_bitmap_start h) (megablock_bitmap_blocks h) (block_bitmap_start h))
    as (L2 & Z2 & O2); [lia|lia|lia|lia|lia|lia|by rewrite E2|].
  set (i2 := zero_blocks i1 _ _ _) in *. clearbody i2.
  destruct (zero_blocks_spec i2 bs total (inode_bitmap_start h) (inode_bitmap_blocks h) (block_bitmap_start h))
    as (L3 & Z3 & O3); [lia|lia|lia|lia|lia|lia|by rewrite E3|].
  set (i3 := zero_blocks i2 _ _ _) in *. clearbody i3.
  destruct (zero_blocks_spec i3 bs total (inode_table_start h) (inode_table_blocks h) (block_bitmap_start h))
    as (L4 & Z4 & O4); [lia|lia|lia|lia|lia|lia|by rewrite E4|].
  set (i4 := zero_blocks i3 _ _ _) in *. clearbody i4.
  exists i4. split; [done|]. split; [lia|].
  assert (slice i4 (offset * bs) sizeof_BsfsHeader = header_bytes h) as ->.
  { rewrite O4, O3, O2, O1, Z.mul_comm by (unfold sizeof_BsfsHeader; lia). done. }
  rewrite <- (app_nil_r (header_bytes h)), parse_header_bytes by done.
  do 6 (split; [done || by split|]). rewrite Hb, Z.mul_sub_distr_r. apply slice_zeros; [clear - Hbs Hoff E1; nia|apply Z.mul_le_mono_nonneg_r; lia|]. by rewrite E5.
Qed.

(** An image of 64 blocks of 1 KiB. *)
Definition small_options : tool_options :=
  {| final_offset := 0; final_blocksize := 1024; final_label := chars "root"; final_force := false |}.

Lemma mkfs_correct_witness :
  exists image', mkfs_write (replicate (Z.to_nat 65536) 0) small_options = (0, image') /\
    total_blocks (parse_header (slice image' 0 512)) = 64.
Proof.
  destruct (mkfs_correct (replicate (Z.to_nat 65536) 0) small_options 64) as (image' & Hrun & _ & _ & _ & Ht & _).
  - cbn; lia.
  - cbn; lia.
  - cbn; lia.
  - rewrite length_replicate. cbn [final_blocksize small_options]. lia.
  - lia.
  - vm_compute. discriminate.
  - exists image'. split; [exact Hrun|exact Ht].
Defined.

(** The size of the inode table is computed in 32 bits: on an image of 2^27 blocks
    (an eighth of [BSFS_MAX_BLOCKS]) the product [inode_count * sizeof(BsfsInode)] is 0
    and mkfs.bsfs reserves no block at all for 2^25 inodes. *)
Theorem mkfs_inode_table_wraps :
  let h := mkfs_header (2 ^ 27 * 4096) 4096 0 (chars "big") in
  inode_count h = 2 ^ 25 /\ inode_table_blocks h = 0 /\ data_start h = inode_table_start h.
Proof. vm_compute. done. Qed.
