(* ===== verification/BsfsPopulate.v ===== *)
(** * BSFS: filling and extracting images

    [tools/bsfs/bsfs-populate.c] and [tools/bsfs/bsfs-extract.c].  The host's files are
    a tree, in the order the host lists them, and are readable; [time(NULL)] is the
    parameter [now].  What the tools print is left out. *)
From Stdlib Require Import ZArith Lia String.
From stdpp Require Import base tactics list numbers.
From S2P Require Import Prelude Bitmap Crc32 CString BsfsTypes BsfsFile BsfsTools.

Open Scope Z_scope.

(** ** Host files *)

(** Entries of other types ([DT_UNKNOWN], links, devices) make the tool close the
    directory it is reading, panic into nothing and read on: undefined. *)
Inductive host_node :=
| HostFile (d_name : list Z) (data : list Z)
| HostDir (d_name : list Z) (entries : list host_node)
| HostOther (d_name : list Z).

Definition d_name (n : host_node) : list Z :=
  match n with HostFile nm _ => nm | HostDir nm _ => nm | HostOther nm => nm end.

(** ["."] and [".."]. *)
Definition is_dot_name (nm : list Z) : bool := same_string nm [46] || same_string nm [46; 46].

(** ** bsfs-populate *)

Definition BSFS_INODE_PERM_WRITE : Z := 0x02.
Definition BSFS_INODE_PERM_READ : Z := 0x04.

(** [snprintf(dirent.name, BSFS_MAX_DIRENTNAME, ...)] into a zeroed structure. *)
Definition dirent_name (nm : list Z) : list Z :=
  let nm := take (Z.to_nat (BSFS_MAX_DIRENTNAME - 1)) nm in
  nm ++ replicate (Z.to_nat BSFS_MAX_DIRENTNAME - length nm) 0.

Definition make_dirent (nm : list Z) (idx : Z) : BsfsDirent := {| inode := idx; name := dirent_name nm |}.

(** Successive [fread(bytes, 1, n, f)] of a regular file until 0 is returned. *)
Fixpoint chunks (fuel n : nat) (data : list Z) : list (list Z) :=
  match fuel, data with
  | _, [] => []
  | O, _ => []
  | S fuel', _ => take n data :: chunks fuel' n (drop n data)
  end.

Definition file_chunks (n : nat) (data : list Z) : list (list Z) := chunks (length data) n data.

(** The inode of a new file or directory: the fields the tool sets, over the old ones. *)
Definition fresh_inode (i : BsfsInode) (ty bl now : Z) : BsfsInode :=
  {| type := ty; permissions := Z.lor BSFS_INODE_PERM_READ BSFS_INODE_PERM_WRITE; uid := 0; gid := 0;
     size := 0; blocks := bl; created := now; modified := now; accessed := now; link_count := 0;
     blocks_direct := blocks_direct i; blocks_l1indirect := blocks_l1indirect i;
     blocks_l2indirect := blocks_l2indirect i; blocks_l3indirect := blocks_l3indirect i;
     checksum := checksum i; inode_reserved := inode_reserved i |}.

(** [current_guest_inode->size += sizeof(BsfsDirent)]. *)
Definition grow_dir (idx : Z) : M tool_state unit :=
  ino ← get_inode idx;
  put_inode idx (with_blocks ino (u64 (size ino + sizeof_BsfsDirent)) (blocks ino) (blocks_direct ino)
    (blocks_l1indirect ino)).

(** The locals of the write loop: the number of the block, the checksum, and the
    indirect table with its block. *)
Record write_locals := {
  guest_file_current_block : Z;
  wl_crc : Z;
  l1indirect : option (Z * list Z);
}.

(** One turn of [while ((read = fread(...)))] on the [read] bytes. *)
Definition write_block (idx : Z) (bytes : list Z) (w : write_locals) : M tool_state write_locals :=
  let k := guest_file_current_block w in
  guest_file_block_idx ← bsfs_alloc_block;
  t ← get;
  let bs := block_size (t_header t) in
  let l1_capacity := bs / 4 in
  let l2indirect_start := u32 (BSFS_MAX_DIRECTBLOCKS + l1_capacity) in
  l1 ← (if k <? BSFS_MAX_DIRECTBLOCKS then
          ino ← get_inode idx;
          direct ← lift (wr (blocks_direct ino) k guest_file_block_idx);
          put_inode idx (with_blocks ino (size ino) (blocks ino) direct (blocks_l1indirect ino)) ;;
          mret (l1indirect w)
        else if k <? l2indirect_start then
          let l1slot := u32 (k - BSFS_MAX_DIRECTBLOCKS) in
          l1 ← (if l1slot =? 0 then
                  l1indirect_table_idx ← bsfs_alloc_block;
                  ino ← get_inode idx;
                  put_inode idx (with_blocks ino (size ino) (blocks ino) (blocks_direct ino) l1indirect_table_idx) ;;
                  mret (Some (l1indirect_table_idx, replicate (Z.to_nat l1_capacity) 0))
                else mret (l1indirect w));
          match l1 with
          | None => fault
          | Some (ti, table) =>
              table ← lift (wr table l1slot guest_file_block_idx);
              mret (Some (ti, table))
          end
        else fault);
  write_image (u32 (bs * guest_file_block_idx)) bytes ;;
  ino ← get_inode idx;
  put_inode idx (with_blocks ino (u64 (size ino + Z.of_nat (length bytes))) (u32 (blocks ino + 1))
    (blocks_direct ino) (blocks_l1indirect ino)) ;;
  mret {| guest_file_current_block := u32 (k + 1);
          wl_crc := populate_crc32_update (wl_crc w) bytes;
          l1indirect := l1 |}.

Fixpoint write_blocks (idx : Z) (parts : list (list Z)) (w : write_locals) : M tool_state write_locals :=
  match parts with
  | [] => mret w
  | p :: parts' => w ← write_block idx p w; write_blocks idx parts' w
  end.

(** The contents and inode of a regular file. *)
Definition populate_file (idx : Z) (now : Z) (data : list Z) : M tool_state unit :=
  ino ← get_inode idx;
  put_inode idx (fresh_inode ino BSFS_INODE_TYPE_FILE (blocks ino) now) ;;
  t ← get;
  let bs := block_size (t_header t) in
  w ← write_blocks idx (file_chunks (Z.to_nat bs) data)
        {| guest_file_current_block := 0; wl_crc := 0xFFFFFFFF; l1indirect := None |};
  match l1indirect w with
  | Some (ti, table) => write_image (u32 (bs * ti)) (words_bytes table)
  | None => mret tt
  end ;;
  ino ← get_inode idx;
  put_inode idx (with_checksum ino (populate_crc32_finalize (wl_crc w))).

(** The start of [bsfs_populate_dir]: the inode and the entries ["."] and [".."]. *)
Definition populate_dir_start (idx parent : Z) (now : Z) : M tool_state unit :=
  ino ← get_inode idx;
  put_inode idx (fresh_inode ino BSFS_INODE_TYPE_DIRECTORY 0 now) ;;
  offset ← bsfs_alloc_dirent idx;
  write_image offset (dirent_bytes (make_dirent [46] idx)) ;;
  grow_dir idx ;;
  offset ← bsfs_alloc_dirent idx;
  write_image offset (dirent_bytes (make_dirent [46; 46] parent)) ;;
  grow_dir idx.

(** One turn of the [readdir] loop of the directory in slot [current]; a subdirectory
    is the recursive call. *)
Fixpoint populate_node (current : Z) (now : Z) (n : host_node) : M tool_state unit :=
  if is_dot_name (d_name n) then mret tt else
  match n with
  | HostDir nm entries =>
      dirent_offset ← bsfs_alloc_dirent current;
      idx ← bsfs_alloc_inode;
      grow_dir current ;;
      write_image dirent_offset (dirent_bytes (make_dirent nm idx)) ;;
      populate_dir_start idx current now ;;
      (fix go (es : list host_node) : M tool_state unit :=
         match es with
         | [] => mret tt
         | e :: es' => populate_node idx now e ;; go es'
         end) entries
  | HostFile nm data =>
      dirent_offset ← bsfs_alloc_dirent current;
      idx ← bsfs_alloc_inode;
      grow_dir current ;;
      populate_file idx now data ;;
      write_image dirent_offset (dirent_bytes (make_dirent nm idx))
  | HostOther _ => fault
  end.

Fixpoint populate_nodes (current : Z) (now : Z) (es : list host_node) : M tool_state unit :=
  match es with
  | [] => mret tt
  | e :: es' => populate_node current now e ;; populate_nodes current now es'
  end.

Definition bsfs_populate_dir (idx parent : Z) (now : Z) (entries : list host_node) : M tool_state unit :=
  populate_dir_start idx parent now ;; populate_nodes idx now entries.

(** The option loop: unlike mkfs.bsfs it skips what it does not know. *)
Fixpoint populate_options (argv : list (list Z)) (o : tool_options) : option tool_options :=
  match argv with
  | [] => Some o
  | a :: argv' =>
      if same_string a (chars "--offset") then
        match argv' with
        | [] => None
        | v :: argv'' =>
            match number_option v 0 1024 with
            | Some n => populate_options argv'' (with_offset o n)
            | None => None
            end
        end
      else if same_string a (chars "--block-size") then
        match argv' with
        | [] => None
        | v :: argv'' =>
            match number_option v 1024 16384 with
            | Some n => populate_options argv'' (with_blocksize o n)
            | None => None
            end
        end
      else if same_string a (chars "--force") then
        if final_force o then None else populate_options argv' (with_force o)
      else populate_options argv' o
  end.

(** Reading and checking the header, as both tools do; [None] is an exit with status 1. *)
Definition read_header (image : list Z) (o : tool_options) : option BsfsHeader :=
  let bsfs_header_idx := u32 (final_offset o * final_blocksize o) in
  if Z.of_nat (length image) <? bsfs_header_idx + sizeof_BsfsHeader then None else
  let h := parse_header (slice image bsfs_header_idx sizeof_BsfsHeader) in
  if negb (magic h =? BSFS_MAGIC) then None else
  if negb (version h =? BSFS_VERSION) && negb (final_force o) then None else
  if negb (block_size h =? final_blocksize o) then None else
  Some h.

Definition zero_inode : BsfsInode :=
  {| type := 0; permissions := 0; uid := 0; gid := 0; size := 0; blocks := 0; created := 0; modified := 0;
     accessed := 0; link_count := 0; blocks_direct := replicate 10 0; blocks_l1indirect := 0;
     blocks_l2indirect := 0; blocks_l3indirect := 0; checksum := 0; inode_reserved := replicate 21 0 |}.

(** [for (i = 0; i < n; i++) bsfs_bitmap_set(bitmap, i)]. *)
Fixpoint reserve_blocks (bitmap : list Z) (i : Z) (n : nat) : outcome (list Z) :=
  match n with
  | O => Ok bitmap
  | S n' => bitmap ← bsfs_bitmap_set bitmap i; reserve_blocks bitmap (i + 1) n'
  end.

(** The loop that marks the full megablocks. *)
Fixpoint mark_megablocks (blocks_ mega : list Z) (bs : Z) (mb : Z) (n : nat) : outcome (list Z) :=
  match n with
  | O => Ok mega
  | S n' =>
      full ← slice_full blocks_ (u64 (mb * bs)) (Z.to_nat bs);
      mega ← (if full : bool then bsfs_bitmap_set mega mb else Ok mega);
      mark_megablocks blocks_ mega bs (mb + 1) n'
  end.

(** [fwrite(buf, 1, n, image)]: reading past the buffer is a fault. *)
Definition write_buffer (pos : Z) (buf : list Z) (n : Z) : M tool_state unit :=
  bytes ← lift (buf_read buf 0 n);
  write_image pos bytes.

(** The state after the header is read: fresh bitmaps with the metadata reserved.
    [heap] is what the process's heap holds behind the megablock bitmap (which the
    tool reads past) and behind the inode table. *)
Definition populate_start (image : list Z) (h : BsfsHeader) (o : tool_options) (heap : list Z)
  : outcome tool_state :=
  let bs := final_blocksize o in
  let total_megablocks := u32 (div_ceil (total_blocks h) (bs * 8)) in
  let total_block_count := Z.of_nat (length image) / bs in
  let reserved_blocks := u32 (final_offset o + 1) in
  let metadata_blocks := u32 (reserved_blocks + block_bitmap_blocks h + megablock_bitmap_blocks h
                              + inode_bitmap_blocks h + inode_table_blocks h) in
  let h := with_counts h (u32 (total_block_count - metadata_blocks)) (u32 (total_block_count / 4)) (root_inode h) in
  let block_bitmap := replicate (Z.to_nat (u64 (block_bitmap_blocks h * bs))) 0 in
  let megablock_bitmap := replicate (Z.to_nat (megablock_bitmap_size h)) 0 ++ heap in
  let inode_bitmap := replicate (Z.to_nat (u64 (inode_bitmap_blocks h * bs))) 0 in
  block_bitmap ← reserve_blocks block_bitmap 0 (Z.to_nat metadata_blocks);
  megablock_bitmap ← mark_megablocks block_bitmap megablock_bitmap bs 0 (Z.to_nat total_megablocks);
  Ok {| t_image := image; t_header := h; t_block_bitmap := block_bitmap; t_megablock_bitmap := megablock_bitmap;
        t_inode_bitmap := inode_bitmap;
        t_inode_table := replicate (Z.to_nat (inode_count h)) zero_inode |}.

(** The sentinel and root inodes, the tree, and the metadata written back. *)
Definition populate_tree (o : tool_options) (now : Z) (heap : list Z) (root : list host_node) : M tool_state unit :=
  sentinel_inode_idx ← bsfs_alloc_inode;
  root_inode_idx ← bsfs_alloc_inode;
  t ← get;
  put {| t_image := t_image t;
         t_header := with_counts (t_header t) (free_blocks (t_header t)) (free_inodes (t_header t)) root_inode_idx;
         t_block_bitmap := t_block_bitmap t; t_megablock_bitmap := t_megablock_bitmap t;
         t_inode_bitmap := t_inode_bitmap t; t_inode_table := t_inode_table t |} ;;
  bsfs_populate_dir root_inode_idx root_inode_idx now root ;;
  t ← get;
  let h := t_header t in
  let bs := block_size h in
  write_buffer (u32 (block_bitmap_start h * bs)) (t_block_bitmap t) (u32 (block_bitmap_blocks h * bs)) ;;
  write_buffer (u32 (megablock_bitmap_start h * bs)) (t_megablock_bitmap t) (u32 (megablock_bitmap_blocks h * bs)) ;;
  write_buffer (u32 (inode_bitmap_start h * bs)) (t_inode_bitmap t) (u32 (inode_bitmap_blocks h * bs)) ;;
  write_buffer (u32 (inode_table_start h * bs)) ((t_inode_table t ≫= inode_bytes) ++ heap)
    (u32 (inode_table_blocks h * bs)) ;;
  write_image (u32 (final_offset o * final_blocksize o)) (header_bytes h).

(** [main] behind the options: the exit status and the image. *)
Definition populate_image (image : list Z) (o : tool_options) (now : Z) (heap : list Z) (root : list host_node)
  : outcome (Z * list Z) :=
  match read_header image o with
  | None => Ok (1, image)
  | Some h =>
      t ← populate_start image h o heap;
      '(_, t) ← populate_tree o now heap root t;
      Ok (0, t_image t)
  end.

Definition populate_main (argv : list (list Z)) (open_image : option (list Z)) (now : Z) (heap : list Z)
    (root : list host_node) : outcome (Z * option (list Z)) :=
  match argv with
  | _ :: _ :: args =>
      match populate_options args default_options, open_image with
      | Some o, Some image => '(status, image) ← populate_image image o now heap root; Ok (status, Some image)
      | _, _ => Ok (1, open_image)
      end
  | _ => Ok (0, open_image)
  end.

(** ** bsfs-extract *)

(** [fread(data, 1, n, image)] at an offset: fewer bytes at the end of the image. *)
Definition fread_at (image : list Z) (pos n : Z) : list Z := slice image pos n.

(** The loop over the blocks of a file: the bytes written to the host file, what
    remains, and whether a short read ended the file.  [stop_at_zero] is the condition
    [remaining > 0] of the loop over the indirect table. *)
Fixpoint extract_blocks (image : list Z) (bs : Z) (stop_at_zero : bool) (bl : list Z) (remaining : Z)
  : outcome (list Z * Z * bool) :=
  match bl with
  | [] => Ok ([], remaining, false)
  | b :: bl' =>
      if stop_at_zero && (remaining <=? 0) then Ok ([], remaining, false) else
      if b =? 0 then extract_blocks image bs stop_at_zero bl' remaining else
      let data := fread_at image (u32 (bs * b)) bs in
      if Z.of_nat (length data) <? bs then Ok (data, remaining, true) else
      let writecnt := u32 (if remaining <? bs then remaining else bs) in
      if bs <? writecnt then Fault else
      '(rest, remaining, file_end) ← extract_blocks image bs stop_at_zero bl' (remaining - bs);
      Ok (take (Z.to_nat writecnt) data ++ rest, remaining, file_end)
  end.

(** The contents written to the host file. *)
Definition bsfs_write_inode_to_file (image : list Z) (h : BsfsHeader) (ino : BsfsInode) : outcome (list Z) :=
  let bs := block_size h in
  '(direct, remaining, file_end) ← extract_blocks image bs false (blocks_direct ino) (s64 (size ino));
  if file_end : bool then Ok direct else
  if blocks_l1indirect ino =? 0 then Ok direct else
  let table := fread_at image (u32 (bs * blocks_l1indirect ino)) (bs / 4 * 4) in
  if Z.of_nat (length table) <? bs / 4 * 4 then Fault else
  '(rest, _, _) ← extract_blocks image bs true (parse_words (Z.to_nat (bs / 4)) table).1 remaining;
  Ok (direct ++ rest).

(** What the tool does on the host. *)
Inductive host_op :=
| MkDir (path : list Z)
| WriteFile (path : list Z) (data : list Z).

(** [snprintf(subpath, PATH_MAX, "%s/%s", path, name)]; the name ends at its NUL. *)
Definition PATH_MAX : Z := 4096.
Fixpoint until_nul (bs : list Z) : list Z :=
  match bs with
  | [] => []
  | c :: bs' => if c =? 0 then [] else c :: until_nul bs'
  end.
Definition sub_path (path nm : list Z) : list Z := take (Z.to_nat (PATH_MAX - 1)) (path ++ [47] ++ nm).

(** The entries of a block of a directory. *)
Fixpoint block_dirents (n : nat) (block : list Z) : list BsfsDirent :=
  match n with
  | O => []
  | S n' => parse_dirent (take 128 block) :: block_dirents n' (drop 128 block)
  end.

(** Runs an action on each element and joins what they do on the host. *)
Fixpoint gather {A} (f : A -> outcome (list host_op)) (l : list A) : outcome (list host_op) :=
  match l with
  | [] => Ok []
  | a :: l' => ops ← f a; rest ← gather f l'; Ok (ops ++ rest)
  end.

(** [bsfs_extract_dir]; the depth of the directory tree is bounded by [fuel].  An inode
    that is no directory is reported by [BSFS_PANIC], which is empty, and then read as
    one. *)
Fixpoint bsfs_extract_dir (fuel : nat) (image : list Z) (h : BsfsHeader) (inode_table : list BsfsInode)
    (path : list Z) (ino : BsfsInode) : outcome (list host_op) :=
  match fuel with
  | O => OutOfFuel
  | S fuel' =>
      let bs := block_size h in
      gather (fun current_block =>
        if current_block =? 0 then Ok [] else
        let block := fread_at image (u32 (bs * current_block)) (bs / 128 * 128) in
        if Z.of_nat (length block) <? bs / 128 * 128 then Fault else
        gather (fun dirent =>
          let nm := until_nul (name dirent) in
          let subpath := sub_path path nm in
          if inode dirent =? BSFS_INODE_TYPE_FREE then Ok [] else
          if is_dot_name nm then Ok [] else
          subinode ← rd inode_table (inode dirent);
          if type subinode =? BSFS_INODE_TYPE_FREE then Ok [] else
          if type subinode =? BSFS_INODE_TYPE_FILE then
            data ← bsfs_write_inode_to_file image h subinode;
            Ok [WriteFile subpath data]
          else if type subinode =? BSFS_INODE_TYPE_DIRECTORY then
            ops ← bsfs_extract_dir fuel' image h inode_table subpath subinode;
            Ok (MkDir subpath :: ops)
          else Ok [])
        (block_dirents (Z.to_nat (bs / 128)) block))
      (blocks_direct ino)
  end.

Fixpoint parse_inodes (n : nat) (bs : list Z) : list BsfsInode :=
  match n with
  | O => []
  | S n' => parse_inode (take 128 bs) :: parse_inodes n' (drop 128 bs)
  end.

Definition extract_options := populate_options.

(** [main] behind the options: the exit status and what happens on the host. *)
Definition extract_image (fuel : nat) (image : list Z) (o : tool_options) (root_path : list Z)
  : outcome (Z * list host_op) :=
  match read_header image o with
  | None => Ok (1, [])
  | Some h =>
      let table_bytes := fread_at image (u32 (inode_table_start h * block_size h)) (inode_count h * 128) in
      if Z.of_nat (length table_bytes) <? inode_count h * 128 then Fault else
      let inode_table := parse_inodes (Z.to_nat (inode_count h)) table_bytes in
      root ← rd inode_table (root_inode h);
      ops ← bsfs_extract_dir fuel image h inode_table root_path root;
      Ok (0, MkDir root_path :: ops)
  end.

Definition extract_main (fuel : nat) (argv : list (list Z)) (open_image : option (list Z))
  : outcome (Z * list host_op) :=
  match argv with
  | _ :: root_path :: args =>
      match extract_options args default_options, open_image with
      | Some o, Some image => extract_image fuel image o root_path
      | _, _ => Ok (1, [])
      end
  | _ => Ok (0, [])
  end.

(** ** A whole image, end to end

    mkfs.bsfs, bsfs-populate and bsfs-extract on an image of 64 KiB with 1 KiB blocks
    give back the tree, and the kernel's reader finds the file. *)
Definition sample_tree : list host_node :=
  [ HostFile (chars "a.txt") (chars "hello");
    HostDir (chars "sub") [ HostFile (chars "b") (replicate 1500 66) ];
    HostFile (chars "empty") [] ].

Definition sample_argv : list (list Z) := [chars "img"; chars "--block-size"; chars "1024"; chars "--offset"; chars "1"].
Definition sample_tool_argv : list (list Z) :=
  [chars "img"; chars "out"; chars "--block-size"; chars "1024"; chars "--offset"; chars "1"].

Definition sample_populated : list Z :=
  let '(_, image) := mkfs_main sample_argv (Some (replicate (Z.to_nat 65536) 0)) in
  match populate_main sample_tool_argv image 7 (replicate 4096 0) sample_tree with
  | Ok (_, Some image) => image
  | _ => []
  end.

Definition sample_extracted := extract_main 8 sample_tool_argv (Some sample_populated).

Example tools_end_to_end : sample_extracted =
  Ok (0, [ MkDir (chars "out"); WriteFile (chars "out/a.txt") (chars "hello"); MkDir (chars "out/sub");
           WriteFile (chars "out/sub/b") (replicate 1500 66); WriteFile (chars "out/empty") [] ]).
Proof. vm_compute. reflexivity. Qed.
