(* ===== verification/BsfsImage.v ===== *)
(** * BSFS: correctness of the tools

    The allocator of the tools against its two bitmaps, files written by bsfs-populate
    against the contents that the reader and bsfs-extract see. *)
From Stdlib Require Import ZArith Lia String.
From stdpp Require Import base tactics list numbers.
From S2P Require Import Prelude Bitmap Pmm Crc32 CString BsfsTypes BsfsFile BsfsRead BsfsTools BsfsPopulate.

Open Scope Z_scope.

(** ** Full slices of a bitmap *)

Lemma byte_full b : is_byte b -> b = 255 <-> forall k, 0 <= k < 8 -> Z.testbit b k = true.
Proof.
  intros Hb. split.
  - intros -> k Hk. change 255 with (Z.ones 8). apply Z.ones_spec_low. lia.
  - intros Hk. apply Z.bits_inj'. intros n Hn. change 255 with (Z.ones 8).
    destruct (decide (n < 8)).
    + rewrite Hk, Z.ones_spec_low by lia. done.
    + rewrite Z.ones_spec_high by lia. unfold is_byte in Hb.
      rewrite <- (Z.mod_small b (2 ^ 8)) by lia. apply Z.mod_pow2_bits_high. lia.
Qed.

Lemma bit_drop bm off i : 0 <= off -> 0 <= i -> bit (drop (Z.to_nat off) bm) i = bit bm (8 * off + i).
Proof.
  intros Ho Hi. unfold bit. rewrite lookup_drop.
  replace ((8 * off + i) / 8) with (off + i / 8) by dlia.
  replace ((8 * off + i) mod 8) with (i mod 8) by dlia.
  replace (Z.to_nat off + Z.to_nat (i / 8))%nat with (Z.to_nat (off + i / 8)) by dlia. done.
Qed.

Lemma slice_full_spec bm n : forall off,
  bytes_ok bm -> 0 <= off -> off + Z.of_nat n <= Z.of_nat (length bm) ->
  exists full, slice_full bm off n = Ok full /\
    (full = true <-> forall i, 8 * off <= i < 8 * (off + Z.of_nat n) -> bit bm i = true).
Proof.
  induction n as [|n IH]; intros off Hok Ho Hl; cbn [slice_full].
  { exists true. split; [done|]. split; [intros _ i; lia|done]. }
  destruct (rd_in_range bm off) as [b Hb]; [lia|]. rewrite Hb. munfold.
  pose proof (byte_rd _ _ _ Hok Hb) as Hbyte. apply rd_Ok in Hb as [_ Hb].
  assert (forall k, 0 <= k < 8 -> bit bm (8 * off + k) = Z.testbit b k) as Hbits.
  { intros k Hk. unfold bit. replace ((8 * off + k) / 8) with off by dlia.
    replace ((8 * off + k) mod 8) with k by dlia. by rewrite Hb. }
  change UINT8_MAX with 255. destruct (Z.eqb_spec b 255) as [E|E]; cbn [negb].
  - destruct (IH (off + 1) Hok) as (full & Hrun & Hfull); [lia|lia|]. exists full. split; [done|].
    rewrite Hfull. rewrite (byte_full b Hbyte) in E. split; intros Hall i Hi.
    + destruct (decide (i < 8 * (off + 1))); [|apply Hall; lia].
      replace i with (8 * off + (i - 8 * off)) by lia. rewrite Hbits by lia. apply E. lia.
    + apply Hall. lia.
  - exists false. split; [done|]. split; [done|]. intros Hall. exfalso. apply E, (byte_full b Hbyte).
    intros k Hk. rewrite <- Hbits by done. apply Hall. lia.
Qed.

Lemma count_free_pos bm n : forall i, 0 < count_free bm n i ->
  exists k, i <= k < i + Z.of_nat n /\ bit bm k = false.
Proof.
  induction n as [|n IH]; intros i; cbn [count_free]; [lia|]. destruct (bit bm i) eqn:E.
  - intros (k & Hk & Hb)%IH. exists k. split; [lia|done].
  - intros _. exists i. split; [lia|done].
Qed.

(** ** The block allocator *)

Definition megablocks (t : tool_state) : Z := block_bitmap_blocks (t_header t).

(** The megablock bitmap has a bit set exactly when all blocks of that megablock are
    in use; the bitmaps and the image have the sizes the header tells. *)
Record alloc_wf (t : tool_state) : Prop := AllocWf {
  aw_bs : block_size (t_header t) = 4096;
  aw_bb : bytes_ok (t_block_bitmap t);
  aw_mb : bytes_ok (t_megablock_bitmap t);
  aw_len : Z.of_nat (length (t_block_bitmap t)) = 4096 * megablocks t;
  aw_max : megablocks t <= 32;
  aw_msize : megablocks t <= megablock_bitmap_size (t_header t) * 8 < 2 ^ 32;
  aw_mlen : 8 * ((megablock_bitmap_size (t_header t) * 8 + 63) / 64) <= Z.of_nat (length (t_megablock_bitmap t));
  aw_full : forall j, 0 <= j < megablocks t -> bit (t_megablock_bitmap t) j = true <->
    forall i, 32768 * j <= i < 32768 * (j + 1) -> bit (t_block_bitmap t) i = true;
  aw_total : 0 <= total_blocks (t_header t) <= 32768 * megablocks t;
  aw_image : Z.of_nat (length (t_image t)) = total_blocks (t_header t) * 4096;
}.

Definition free_count (t : tool_state) : Z :=
  count_free (t_block_bitmap t) (Z.to_nat (total_blocks (t_header t))) 0.

Definition block_used (t : tool_state) (b : Z) : bool := bit (t_block_bitmap t) b.

(** The state after an allocation. *)
Definition allocated (t : tool_state) (bb mb : list Z) : tool_state :=
  {| t_image := t_image t;
     t_header := with_counts (t_header t) (u32 (free_blocks (t_header t) - 1)) (free_inodes (t_header t))
                   (root_inode (t_header t));
     t_block_bitmap := bb; t_megablock_bitmap := mb; t_inode_bitmap := t_inode_bitmap t;
     t_inode_table := t_inode_table t |}.

Lemma bsfs_bitmap_set_flips bm i : in_bitmap bm i -> bytes_ok bm ->
  exists bm', bsfs_bitmap_set bm i = Ok bm' /\ flips bm bm' i true.
Proof.
  intros Hin Hok. unfold bsfs_bitmap_set, bsfs_bitmap_test.
  destruct (bitmap_test_bit bm i Hin) as (v & -> & _). munfold. by apply bitmap_set_flips.
Qed.

(** The lowest free block, and where the search finds it. *)
Lemma lowest_free bm n : 0 < count_free bm n 0 ->
  exists b, 0 <= b < Z.of_nat n /\ bit bm b = false /\ forall j, 0 <= j < b -> bit bm j = true.
Proof.
  intros (k & Hk & Hb)%count_free_pos. destruct (first_clear bm n 0) as [b|] eqn:E.
  - apply first_clear_Some in E as (? & ? & ?). by exists b.
  - rewrite (first_clear_None _ _ _ E) in Hb by lia. done.
Qed.

Lemma find_at bm n r : bytes_ok bm -> 0 <= n < 2 ^ 32 -> 8 * ((n + 63) / 64) <= Z.of_nat (length bm) ->
  0 <= r < n -> bit bm r = false -> (forall j, 0 <= j < r -> bit bm j = true) ->
  bsfs_bitmap_find bm n = Ok r.
Proof.
  intros Hok Hn Hl Hr Hb Hj. unfold bsfs_bitmap_find. rewrite bitmap_find_first_clear by done.
  by rewrite (first_clear_hit bm (Z.to_nat n) 0 r) by (lia || done).
Qed.

(** [bsfs_alloc_block] takes the lowest free block of the image. *)
Lemma alloc_block_run t : alloc_wf t -> 0 < free_count t ->
  exists b bb mb, bsfs_alloc_block t = Ok (b, allocated t bb mb) /\
    0 <= b < total_blocks (t_header t) /\ block_used t b = false /\
    (forall j, 0 <= j < b -> block_used t j = true) /\
    flips (t_block_bitmap t) bb b true /\ alloc_wf (allocated t bb mb) /\
    free_count (allocated t bb mb) = free_count t - 1.
Proof.
  intros Hwf Hfree. destruct (lowest_free _ _ Hfree) as (b & Hb & Hclear & Hlow).
  destruct Hwf as [Hbs Hbb Hmb Hlen Hmax Hms Hml Hfull Htot Himg]. unfold block_used.
  set (j := b / 32768). assert (0 <= j < megablocks t /\ 32768 * j <= b < 32768 * (j + 1)) as [Hj Hbj] by (unfold j; dlia).
  clearbody j. assert (bit (t_megablock_bitmap t) j = false) as Hmj.
  { destruct (bit (t_megablock_bitmap t) j) eqn:E; [|done]. rewrite (proj1 (Hfull j Hj) E) in Hclear; done. }
  assert (bsfs_bitmap_find (t_megablock_bitmap t) (u32 (megablock_bitmap_size (t_header t) * 8)) = Ok j) as Hf1.
  { rewrite u32_id by lia. apply find_at; [done|lia|lia|lia|done|]. intros j' Hj'.
    apply Hfull; [lia|]. intros i Hi. apply Hlow. lia. }
  assert (bsfs_bitmap_find (drop (Z.to_nat (4096 * j)) (t_block_bitmap t)) 32768 = Ok (b - 32768 * j)) as Hf2.
  { apply find_at; [by apply Forall_drop|lia|rewrite length_drop; change ((32768 + 63) / 64) with 512; lia|lia| |].
    - rewrite bit_drop by lia. by replace (8 * (4096 * j) + (b - 32768 * j)) with b by lia.
    - intros i Hi. rewrite bit_drop by lia. apply Hlow. lia. }
  destruct (bsfs_bitmap_set_flips (t_block_bitmap t) b) as (bb & Hset & Hfl); [split; lia|done|].
  pose proof Hfl as (Hlbb & Hokbb & Hbits).
  destruct (slice_full_spec bb 4096 (4096 * j)) as (full & Hsf & Hfull'); [done|lia|lia|].
  assert (forall mb, flips (t_megablock_bitmap t) mb j full \/ (full = false /\ mb = t_megablock_bitmap t) ->
    alloc_wf (allocated t bb mb)) as Hwf'.
  { intros mb Hcase. assert (bytes_ok mb /\ length mb = length (t_megablock_bitmap t) /\ (forall i, 0 <= i ->
      bit mb i = if decide (i = j) then full else bit (t_megablock_bitmap t) i)) as (Hm1 & Hm2 & Hm3).
    { destruct Hcase as [(?&?&?)|[-> ->]]; [done|]. split; [done|]. split; [done|]. intros i Hi. by case_decide; subst. }
    split; change (megablocks (allocated t bb mb)) with (megablocks t); cbn; rewrite ?Hlbb, ?Hm2; try done. intros i Hi. rewrite Hm3 by lia. case_decide as Hij.
    - subst i. rewrite Hfull'. split; intros Hall k Hk; apply Hall; lia.
    - rewrite Hfull by done. split; intros Hall k Hk; specialize (Hall k Hk); rewrite ?Hbits in * by lia;
        by rewrite decide_False in * by lia. }
  assert (exists mb, (if full then lift (bsfs_bitmap_set (t_megablock_bitmap t) j) else mret (t_megablock_bitmap t)) t
    = Ok (mb, t) /\ (flips (t_megablock_bitmap t) mb j full \/ (full = false /\ mb = t_megablock_bitmap t)))
    as (mb & Hmbrun & Hmb').
  { destruct full; [|exists (t_megablock_bitmap t); by auto].
    destruct (bsfs_bitmap_set_flips (t_megablock_bitmap t) j) as (mb & Hs & Hm); [split; dlia|done|].
    exists mb. split; [|by left]. unfold lift. by rewrite Hs. }
  exists b, bb, mb. split; [|split; [lia|split; [done|split; [done|split; [done|split; [by apply Hwf'|]]]]]].
  - unfold bsfs_alloc_block. unfold get. munfold. rewrite Hf1, Hbs.
    rewrite (u32_id (j * 4096)), (u32_id (j * 4096 * 8)), (u32_id (4096 * 8)) by lia.
    replace (j * 4096) with (4096 * j) by lia. change (4096 * 8) with 32768. rewrite Hf2.
    assert (b - 32768 * j =? UINT32_MAX = false) as -> by (apply Z.eqb_neq; unfold UINT32_MAX; lia).
    rewrite (u32_id (b - 32768 * j + _)) by lia. replace (b - 32768 * j + 4096 * j * 8) with b by lia.
    rewrite Hset. change (Z.to_nat 4096) with 4096%nat. rewrite Hsf.
    unfold mret, M_ret, lift in Hmbrun. destruct full.
    + destruct (bsfs_bitmap_set (t_megablock_bitmap t) j); cbn in Hmbrun; simplify_eq. done.
    + simplify_eq. done.
  - unfold free_count. cbn. apply count_free_flip with b; [lia|done|by rewrite Hbits, decide_True by lia|].
    intros i Hi Hne. by rewrite Hbits, decide_False by lia.
Qed.

(** ** Writing a file *)

Section writing.
Context (t0 : tool_state) (idx : Z).
Hypothesis Hidx : 0 <= idx.

(** A block taken since [t0]. *)
Definition taken (t : tool_state) (b : Z) : Prop :=
  0 <= b < total_blocks (t_header t0) /\ block_used t0 b = false /\ block_used t b = true.

(** The inode and the indirect table in memory list the blocks written so far. *)
Definition links (t : tool_state) (blks : list Z) (l1 : option (Z * list Z)) (ino : BsfsInode) : Prop :=
  type ino = BSFS_INODE_TYPE_FILE /\ length (blocks_direct ino) = 10%nat /\
  (forall j, (j < 10)%nat -> (j < length blks)%nat -> blocks_direct ino !! j = blks !! j) /\
  (forall j, (length blks <= j)%nat -> (j < 10)%nat -> blocks_direct ino !! j = Some 0) /\
  match l1 with
  | None => (length blks <= 10)%nat /\ blocks_l1indirect ino = 0
  | Some (ti, table) =>
      (10 < length blks)%nat /\ blocks_l1indirect ino = ti /\ taken t ti /\ ti ∉ blks /\
      length table = 1024%nat /\
      (forall j, (10 <= j)%nat -> (j < length blks)%nat -> table !! (j - 10)%nat = blks !! j) /\
      Forall (fun e => 0 <= e < 2 ^ 32) table
  end.

(** The state of the write loop: [n] blocks taken, [parts] written to [blks]. *)
Record writing (n : Z) (parts : list (list Z)) (blks : list Z) (l1 : option (Z * list Z)) (t : tool_state) : Prop := Writing {
  wr_wf : alloc_wf t;
  wr_total : total_blocks (t_header t) = total_blocks (t_header t0);
  wr_slots : length (t_inode_table t) = length (t_inode_table t0) /\
    forall i, i <> Z.to_nat idx -> t_inode_table t !! i = t_inode_table t0 !! i;
  wr_free : free_count t = free_count t0 - n;
  wr_parts : length parts = length blks;
  wr_ino : exists ino, t_inode_table t !! Z.to_nat idx = Some ino /\ links t blks l1 ino /\
    size ino = Z.of_nat (length (concat parts));
  wr_nodup : NoDup blks;
  wr_taken : forall b, b ∈ blks -> taken t b;
  wr_content : forall j b p, blks !! j = Some b -> parts !! j = Some p ->
    slice (t_image t) (b * 4096) (Z.of_nat (length p)) = p /\ (length p <= 4096)%nat;
  wr_used : forall b, 0 <= b -> block_used t0 b = true -> block_used t b = true /\
    slice (t_image t) (b * 4096) 4096 = slice (t_image t0) (b * 4096) 4096;
}.

Lemma taken_mono t t' b : (forall i, 0 <= i -> block_used t i = true -> block_used t' i = true) ->
  taken t b -> taken t' b.
Proof. intros Hm (? & ? & ?). repeat split; try lia; [done|apply Hm; lia || done]. Qed.

Lemma links_mono t t' blks l1 ino : (forall i, 0 <= i -> block_used t i = true -> block_used t' i = true) ->
  links t blks l1 ino -> links t' blks l1 ino.
Proof.
  intros Hm (? & ? & ? & ? & Hl). do 4 (split; [done|]). destruct l1 as [[ti table]|]; [|done].
  destruct Hl as (? & ? & ? & ?). do 2 (split; [done|]). split; [by eapply taken_mono|done].
Qed.

(** An allocation in the loop: the block is new. *)
Lemma alloc_writing n parts blks l1 t :
  writing n parts blks l1 t -> n < free_count t0 ->
  exists b t', bsfs_alloc_block t = Ok (b, t') /\ writing (n + 1) parts blks l1 t' /\
    t_inode_table t' = t_inode_table t /\ t_image t' = t_image t /\ block_size (t_header t') = 4096 /\
    taken t' b /\ block_used t b = false /\ b ∉ blks /\
    (forall i, 0 <= i -> block_used t i = true -> block_used t' i = true).
Proof.
  intros [Hwf Ht Hs Hf Hp (ino & Hi & Hl & Hsz) Hnd Htk Hc Hu] Hn.
  destruct (alloc_block_run t Hwf) as (b & bb & mb & Hrun & Hb & Hfree & _ & (_ & _ & Hbits) & Hwf' & Hfc); [lia|].
  assert (forall i, 0 <= i -> block_used t i = true -> block_used (allocated t bb mb) i = true) as Hm.
  { intros i Hi0 Hui. unfold block_used. cbn. rewrite Hbits by done. by case_decide. }
  assert (block_used t0 b = false) as Hb0.
  { destruct (block_used t0 b) eqn:E; [|done]. destruct (Hu b ltac:(lia) E) as [? _]. congruence. }
  exists b, (allocated t bb mb). split; [done|]. split.
  { split; cbn; try done; [lia|exists ino; split; [done|split; [by eapply links_mono|done]]|
      intros b' Hb'; eapply taken_mono; [exact Hm|by apply Htk]|].
    intros b' Hb' Hub'. destruct (Hu b' Hb' Hub') as [? ?]. split; [by apply Hm|done]. }
  split; [done|]. split; [done|]. split; [apply (aw_bs _ Hwf)|]. split.
  { split; [lia|]. split; [done|]. unfold block_used. cbn. by rewrite Hbits, decide_True by lia. }
  split; [done|]. split; [|done]. intros Hin. destruct (Htk b Hin) as (_ & _ & Hub). congruence.
Qed.

(** The state with a new inode in the slot and a new image. *)
Definition stored (t : tool_state) (ino : BsfsInode) (image : list Z) : tool_state :=
  {| t_image := image; t_header := t_header t; t_block_bitmap := t_block_bitmap t;
     t_megablock_bitmap := t_megablock_bitmap t; t_inode_bitmap := t_inode_bitmap t;
     t_inode_table := <[Z.to_nat idx := ino]> (t_inode_table t) |}.

Lemma alloc_wf_stored t ino image : alloc_wf t -> length image = length (t_image t) -> alloc_wf (stored t ino image).
Proof. intros [] Hl. split; try done. cbn. by rewrite Hl. Qed.

(** Blocks of an image do not overlap. *)
Lemma block_write image b p b' n :
  0 <= b -> 0 <= b' -> b <> b' -> (length p <= 4096)%nat -> n <= 4096 -> (b + 1) * 4096 <= Z.of_nat (length image) ->
  slice (fwrite_at image (b * 4096) p) (b' * 4096) n = slice image (b' * 4096) n.
Proof. intros. apply slice_fwrite_out; lia. Qed.

(** One more block written. *)
Lemma push_writing n parts blks l1 t b p l1' ino' :
  writing n parts blks l1 t -> taken t b -> b ∉ blks -> (length p <= 4096)%nat ->
  links t (blks ++ [b]) l1' ino' -> size ino' = Z.of_nat (length (concat (parts ++ [p]))) ->
  writing n (parts ++ [p]) (blks ++ [b]) l1' (stored t ino' (fwrite_at (t_image t) (b * 4096) p)).
Proof.
  intros [Hwf Ht [Hs1 Hs2] Hf Hp (ino & Hi & Hl & Hsz) Hnd Htk Hc Hu] Hb Hnb Hlp Hl' Hsz'.
  pose proof Hb as (Hbr & Hb0 & Hb1). pose proof (aw_image _ Hwf) as Himg. rewrite Ht in Himg.
  assert (length (fwrite_at (t_image t) (b * 4096) p) = length (t_image t)) as Hlen by (apply length_fwrite_at; lia).
  split; cbn.
  - by apply alloc_wf_stored.
  - done.
  - rewrite length_insert. split; [done|]. intros i Hi'. rewrite list_lookup_insert_ne by done. by apply Hs2.
  - done.
  - rewrite !length_app. cbn. lia.
  - exists ino'. split; [|done]. apply list_lookup_insert_eq. by eapply lookup_lt_Some.
  - apply list.NoDup_app. split; [done|]. split; [|apply list.NoDup_singleton]. intros x Hx Hxb%list_elem_of_singleton. by subst x.
  - intros x [Hx|Hx%list_elem_of_singleton]%elem_of_app; [by apply Htk|by subst x].
  - intros j b' p' Hj Hp'. destruct (decide (j < length blks)%nat) as [Hlt|Hge].
    + rewrite lookup_app_l in Hj by lia. rewrite lookup_app_l in Hp' by lia. destruct (Hc j b' p' Hj Hp') as [Hc1 Hc2]. split; [|done].
      assert (b' ∈ blks) as Hin by (by eapply list_elem_of_lookup_2).
      destruct (Htk b' Hin) as (Hb'r & _). rewrite block_write; [done|lia|lia| |done|lia|lia].
      intros ->. done.
    + assert (j = length blks) as -> by (apply lookup_lt_Some in Hj; rewrite length_app in Hj; cbn in Hj; lia).
      rewrite list_lookup_middle in Hj by done. rewrite list_lookup_middle in Hp' by done.
      injection Hj as <-. injection Hp' as <-. split; [|done].
      rewrite slice_fwrite_in, Nat2Z.id by lia. by apply take_ge.
  - intros b' Hb' Hub'. destruct (Hu b' Hb' Hub') as [Hu1 Hu2]. split; [done|]. rewrite <- Hu2.
    apply block_write; try lia. intros ->. congruence.
Qed.

(** *** Running the loop *)

Lemma get_inode_run t ino : t_inode_table t !! Z.to_nat idx = Some ino -> get_inode idx t = Ok (ino, t).
Proof. intros Hi. unfold get_inode, get. munfold. by rewrite (proj2 (rd_Ok _ _ _) (conj Hidx Hi)). Qed.

Lemma put_inode_run t old ino : t_inode_table t !! Z.to_nat idx = Some old ->
  put_inode idx ino t = Ok (tt, stored t ino (t_image t)).
Proof.
  intros Hi%lookup_lt_Some. unfold put_inode, get. munfold. by rewrite wr_in_range by lia.
Qed.

Lemma stored_lookup t old ino image : t_inode_table t !! Z.to_nat idx = Some old ->
  t_inode_table (stored t ino image) !! Z.to_nat idx = Some ino.
Proof. intros Hi%lookup_lt_Some. by apply list_lookup_insert_eq. Qed.

Lemma stored_stored t i1 i2 m1 m2 : stored (stored t i1 m1) i2 m2 = stored t i2 m2.
Proof. unfold stored. cbn. by rewrite list_insert_insert_eq. Qed.

Lemma with_blocks_twice i a b c d a' b' c' d' :
  with_blocks (with_blocks i a b c d) a' b' c' d' = with_blocks i a' b' c' d'.
Proof. done. Qed.

Lemma stored_image t ino m : t_image (stored t ino m) = m.
Proof. done. Qed.

(** The end of a turn: the block is written and the inode counts it. *)
Lemma finish_block {A} t ino b p (a : A) :
  t_inode_table t !! Z.to_nat idx = Some ino -> 0 <= b < 2 ^ 20 ->
  (write_image (u32 (4096 * b)) p ;;
   ino ← get_inode idx;
   put_inode idx (with_blocks ino (u64 (size ino + Z.of_nat (length p))) (u32 (blocks ino + 1))
     (blocks_direct ino) (blocks_l1indirect ino)) ;;
   mret a) t =
  Ok (a, stored t (with_blocks ino (u64 (size ino + Z.of_nat (length p))) (u32 (blocks ino + 1))
            (blocks_direct ino) (blocks_l1indirect ino)) (fwrite_at (t_image t) (b * 4096) p)).
Proof.
  intros Hi Hb. rewrite u32_id by lia. replace (4096 * b) with (b * 4096) by lia.
  assert (write_image (b * 4096) p t = Ok (tt, set_image t (fwrite_at (t_image t) (b * 4096) p))) as Hw.
  { unfold write_image. by rewrite (proj2 (Z.leb_gt _ _)) by lia. }
  rewrite (bind_run _ _ _ _ _ Hw).
  assert (t_inode_table (set_image t (fwrite_at (t_image t) (b * 4096) p)) !! Z.to_nat idx = Some ino) as Hi' by done.
  rewrite (bind_run _ _ _ _ _ (get_inode_run _ _ Hi')), (bind_run _ _ _ _ _ (put_inode_run _ _ _ Hi')). done.
Qed.

(** The link to a direct block, and to one in the indirect table, as the inode sees them. *)
Lemma links_direct t blks l1 ino b sz bl :
  links t blks l1 ino -> (length blks < 10)%nat ->
  links t (blks ++ [b]) l1 (with_blocks ino sz bl (<[length blks := b]> (blocks_direct ino)) (blocks_l1indirect ino)).
Proof.
  intros (Hty & Hd & Hj & Hz & Hl) Hlen. split; [done|]. split; [cbn; by rewrite length_insert|]. split; [|split].
  - cbn. intros j Hj10 Hjl. rewrite length_app in Hjl. cbn in Hjl. destruct (decide (j = length blks)) as [->|Hne].
    + rewrite list_lookup_insert_eq, list_lookup_middle by lia. done.
    + rewrite list_lookup_insert_ne, lookup_app_l by lia. apply Hj; lia.
  - cbn. intros j Hjl Hj10. rewrite length_app in Hjl. cbn in Hjl. rewrite list_lookup_insert_ne by lia. apply Hz; lia.
  - destruct l1 as [[ti table]|]; [lia|]. rewrite length_app. cbn. destruct Hl. split; [lia|done].
Qed.

Lemma links_indirect t blks ino b sz bl ti table :
  links t blks None ino /\ length blks = 10%nat /\ taken t ti /\ ti ∉ blks /\ table = replicate 1024 0 \/
  links t blks (Some (ti, table)) ino ->
  (length blks < 1034)%nat -> ti <> b -> 0 <= b < 2 ^ 32 ->
  links t (blks ++ [b]) (Some (ti, <[(length blks - 10)%nat := b]> table))
    (with_blocks ino sz bl (blocks_direct ino) ti).
Proof.
  intros Hcase Hlen Hne Hb.
  assert (type ino = BSFS_INODE_TYPE_FILE /\ length (blocks_direct ino) = 10%nat /\
    (forall j, (j < 10)%nat -> (j < length blks)%nat -> blocks_direct ino !! j = blks !! j) /\
    (10 <= length blks)%nat /\ taken t ti /\ ti ∉ blks /\ length table = 1024%nat /\
    (forall j, (10 <= j)%nat -> (j < length blks)%nat -> table !! (j - 10)%nat = blks !! j) /\
    Forall (fun e => 0 <= e < 2 ^ 32) table) as (H1 & H2 & H3 & H4 & H5 & H6 & H7 & H8 & H9).
  { destruct Hcase as [((? & ? & ? & ? & ?) & Hl & ? & ? & ->)|(? & ? & ? & ? & ? & ? & ? & ? & ? & ? & ?)].
    - do 3 (split; [done|]). split; [lia|]. do 2 (split; [done|]). split; [apply length_replicate|].
      split; [intros; lia|]. apply Forall_replicate. lia.
    - do 3 (split; [done|]). split; [lia|]. done. }
  split; [done|]. split; [done|]. split.
  { cbn. intros j Hj10 Hjl. rewrite lookup_app_l by lia. apply H3; lia. }
  rewrite length_app. cbn. split; [lia|]. split; [lia|]. split; [done|]. split; [done|]. split.
  { rewrite elem_of_app, list_elem_of_singleton. naive_solver. }
  split; [by rewrite length_insert|]. split; [|by apply Forall_insert].
  intros j Hj Hjl. destruct (decide (j = length blks)) as [->|Hnej].
  - rewrite list_lookup_insert_eq, list_lookup_middle by lia. done.
  - rewrite list_lookup_insert_ne, lookup_app_l by lia. apply H8; lia.
Qed.

(** Blocks taken by [k] data blocks: the indirect table takes one more. *)
Definition blocks_taken (k : nat) : Z := Z.of_nat k + if (10 <? k)%nat then 1 else 0.

Lemma blocks_taken_S k : blocks_taken (S k) = blocks_taken k + if (k =? 10)%nat then 2 else 1.
Proof.
  unfold blocks_taken. destruct (Nat.ltb_spec 10 (S k)), (Nat.ltb_spec 10 k), (Nat.eqb_spec k 10); lia.
Qed.

Lemma concat_snoc_length (parts : list (list Z)) p :
  length (concat (parts ++ [p])) = (length (concat parts) + length p)%nat.
Proof. rewrite concat_app, length_app. cbn. by rewrite app_nil_r. Qed.

Lemma write_block_run parts blks w t p :
  writing (blocks_taken (length blks)) parts blks (l1indirect w) t ->
  guest_file_current_block w = Z.of_nat (length blks) -> (length blks < 1034)%nat -> (length p <= 4096)%nat ->
  Z.of_nat (length (concat parts)) < 2 ^ 60 -> blocks_taken (S (length blks)) <= free_count t0 ->
  exists w' t' b, write_block idx p w t = Ok (w', t') /\
    writing (blocks_taken (length (blks ++ [b]))) (parts ++ [p]) (blks ++ [b]) (l1indirect w') t' /\
    guest_file_current_block w' = Z.of_nat (length (blks ++ [b])) /\
    wl_crc w' = crc32_update (wl_crc w) p.
Proof.
  intros HW Hk Hlen Hp Hsz Hfree. rewrite blocks_taken_S in Hfree.
  destruct (alloc_writing _ _ _ _ _ HW) as (b & t1 & Hrun & HW1 & Htab & Himg & Hbs & Htk & Hbf & Hnb & Hmono);
    [destruct (length blks =? 10)%nat; lia|].
  pose proof Htk as (Hbr & _). pose proof (aw_total _ (wr_wf _ _ _ _ _ HW1)) as Htot.
  pose proof (aw_max _ (wr_wf _ _ _ _ _ HW1)) as Hmax. rewrite (wr_total _ _ _ _ _ HW1) in Htot.
  assert (0 <= b < 2 ^ 20) as Hb by lia.
  destruct (wr_ino _ _ _ _ _ HW1) as (ino & Hi & Hlinks & Hisz).
  unfold write_block. rewrite (bind_run _ _ _ _ _ Hrun). unfold get at 1. rewrite (bind_run _ _ t1 t1 t1 eq_refl), Hbs, Hk.
  change (u32 (BSFS_MAX_DIRECTBLOCKS + 4096 / 4)) with 1034. change BSFS_MAX_DIRECTBLOCKS with 10.
  change (Z.to_nat (4096 / 4)) with 1024%nat.
  rewrite (u32_id (Z.of_nat (length blks) + 1)) by lia.
  assert (length (blks ++ [b]) = S (length blks)) as Hlb by (rewrite length_app; cbn; lia).
  destruct (Z.ltb_spec (Z.of_nat (length blks)) 10) as [Hlt|Hge].
  - (* a direct block *)
    assert (l1indirect w = None) as Hnone.
    { destruct Hlinks as (_ & _ & _ & _ & Hl). destruct (l1indirect w) as [[]|]; [lia|done]. }
    rewrite (bind_run _ _ _ (l1indirect w) (stored t1 (with_blocks ino (size ino) (blocks ino)
      (<[length blks := b]> (blocks_direct ino)) (blocks_l1indirect ino)) (t_image t1))).
    2:{ rewrite (bind_run _ _ _ _ _ (get_inode_run _ _ Hi)). destruct Hlinks as (_ & Hd & _).
        munfold. rewrite wr_in_range, Nat2Z.id by lia. by rewrite (put_inode_run _ _ _ Hi). }
    rewrite (finish_block _ _ b p _ (stored_lookup _ _ _ _ Hi) Hb), stored_stored, stored_image. eexists _, _, b. rewrite Hlb, blocks_taken_S.
    split; [done|]. cbn [l1indirect guest_file_current_block wl_crc with_blocks size blocks blocks_direct blocks_l1indirect].
    rewrite (proj2 (Nat.eqb_neq _ _)) by lia.
    split; [|split; [lia|done]]. eapply push_writing; [exact HW1|done|done|done| |].
    + rewrite with_blocks_twice. by apply links_direct; [|lia].
    + cbn [size with_blocks]. rewrite concat_snoc_length, u64_id by lia. lia.
  - (* a block in the indirect table *)
    rewrite (proj2 (Z.ltb_lt (Z.of_nat (length blks)) 1034)) by lia.
    rewrite (u32_id (Z.of_nat (length blks) - 10)) by lia.
    assert (exists ti table t2, (if Z.of_nat (length blks) - 10 =? 0 then
          l1indirect_table_idx ← bsfs_alloc_block;
          ino ← get_inode idx;
          put_inode idx (with_blocks ino (size ino) (blocks ino) (blocks_direct ino) l1indirect_table_idx) ;;
          mret (Some (l1indirect_table_idx, replicate 1024 0))
        else mret (l1indirect w)) t1 = Ok (Some (ti, table), stored t2 (with_blocks ino (size ino) (blocks ino)
          (blocks_direct ino) ti) (t_image t2)) /\
      writing (blocks_taken (length blks) + if (length blks =? 10)%nat then 2 else 1) parts blks (l1indirect w) t2 /\
      t_inode_table t2 !! Z.to_nat idx = Some ino /\ taken t2 b /\ ti <> b /\
      (links t2 blks None ino /\ length blks = 10%nat /\ taken t2 ti /\ ti ∉ blks /\ table = replicate 1024 0 \/
       links t2 blks (Some (ti, table)) ino) /\ length table = 1024%nat)
      as (ti & table & t2 & Hl1 & HW2 & Hi2 & Htk2 & Hne & Hcase & Htl).
    { destruct (Nat.eqb_spec (length blks) 10) as [E|E].
      - rewrite E. change (Z.of_nat 10 - 10 =? 0) with true. cbv iota.
        destruct (alloc_writing _ _ _ _ _ HW1) as (ti & t2 & Hrun2 & HW2 & Htab2 & Himg2 & _ & Htk2 & Htf & Hnt & Hm2);
          [rewrite E in *; cbn in *; lia|].
        rewrite <- Htab2 in Hi. exists ti, (replicate 1024 0), t2.
        rewrite (bind_run _ _ _ _ _ Hrun2), (bind_run _ _ _ _ _ (get_inode_run _ _ Hi)),
          (bind_run _ _ _ _ _ (put_inode_run _ _ _ Hi)).
        split; [done|]. rewrite E in HW2. split; [exact HW2|]. split; [done|]. split; [by eapply taken_mono|].
        split; [intros ->; destruct Htk as (_ & _ & ?); congruence|]. split; [|apply length_replicate].
        left. split; [|done]. destruct (l1indirect w) as [[]|] eqn:El1.
        + destruct Hlinks as (_ & _ & _ & _ & Hl). lia.
        + by eapply links_mono.
      - rewrite (proj2 (Z.eqb_neq _ 0)) by lia. pose proof Hlinks as (_ & _ & _ & _ & Hl).
        destruct (l1indirect w) as [[ti table]|] eqn:El1; [|lia]. destruct Hl as (_ & Hti & (_ & _ & Hu) & Hnt & Htl & _).
        exists ti, table, t1. split.
        { f_equal. f_equal. subst ti. unfold stored. destruct t1, ino; cbn in *. by rewrite list_insert_id. }
        split; [done|]. split; [done|]. split; [done|]. split; [|split; [by right|done]].
        intros ->. destruct (wr_ino _ _ _ _ _ HW) as (ino' & Hi' & (_ & _ & _ & _ & Hl') & _).
        destruct Hl' as (_ & _ & (_ & _ & ?) & _). congruence. }
    erewrite bind_run.
    2:{ rewrite (bind_run _ _ _ _ _ Hl1). munfold. rewrite wr_in_range by lia. reflexivity. }
    rewrite (finish_block _ _ b p _ (stored_lookup _ _ _ _ Hi2) Hb), stored_stored, stored_image. eexists _, _, b. rewrite Hlb, blocks_taken_S.
    split; [done|]. cbn [l1indirect guest_file_current_block wl_crc with_blocks size blocks blocks_direct blocks_l1indirect].
    split; [|split; [lia|done]]. eapply push_writing; [exact HW2|done|done|done| |].
    + replace (Z.to_nat (Z.of_nat (length blks) - 10)) with (length blks - 10)%nat by lia. rewrite with_blocks_twice.
      by apply links_indirect; [|lia| |lia].
    + cbn [size with_blocks]. rewrite concat_snoc_length, u64_id by lia. lia.
Qed.

Lemma write_blocks_run rest : forall parts blks w t,
  writing (blocks_taken (length blks)) parts blks (l1indirect w) t ->
  guest_file_current_block w = Z.of_nat (length blks) -> (length blks + length rest <= 1034)%nat ->
  Forall (fun p => (length p <= 4096)%nat) rest -> Z.of_nat (length (concat (parts ++ rest))) < 2 ^ 60 ->
  blocks_taken (length blks + length rest) <= free_count t0 ->
  exists w' t' blks', write_blocks idx rest w t = Ok (w', t') /\
    length blks' = (length blks + length rest)%nat /\
    writing (blocks_taken (length blks')) (parts ++ rest) blks' (l1indirect w') t' /\
    wl_crc w' = crc32_update (wl_crc w) (concat rest).
Proof.
  induction rest as [|p rest IH]; intros parts blks w t HW Hk Hn Hps Hsz Hfree; cbn [write_blocks].
  { exists w, t, blks. rewrite app_nil_r. split; [done|]. split; [cbn; lia|]. done. }
  apply list.Forall_cons in Hps as [Hp Hps]. cbn [length] in Hn, Hfree.
  assert (forall a b, (a <= b)%nat -> blocks_taken a <= blocks_taken b) as Hmono.
  { intros a b Hab. unfold blocks_taken. destruct (Nat.ltb_spec 10 a), (Nat.ltb_spec 10 b); lia. }
  replace (parts ++ p :: rest) with ((parts ++ [p]) ++ rest) in * by (by rewrite <- app_assoc).
  destruct (write_block_run parts blks w t p HW Hk) as (w1 & t1 & b & Hrun & HW1 & Hk1 & Hc1); [lia|done| | |].
  { rewrite !concat_app, !length_app in Hsz. lia. }
  { etransitivity; [|exact Hfree]. apply Hmono. lia. }
  destruct (IH _ _ _ _ HW1 Hk1) as (w2 & t2 & blks2 & Hrun2 & Hl2 & HW2 & Hc2);
    [rewrite length_app; cbn; lia|done|done|rewrite length_app; cbn; by replace (length blks + 1 + length rest)%nat
      with (length blks + S (length rest))%nat by lia|].
  exists w2, t2, blks2. rewrite (bind_run _ _ _ _ _ Hrun). split; [done|].
  split; [rewrite Hl2, length_app; cbn; lia|]. split; [done|].
  rewrite Hc2, Hc1. symmetry. apply crc32_update_app.
Qed.
End writing.
