(* ===== verification/BsfsTheorems.v ===== *)
(** * BSFS: files written by the tools are the files that are read

    A file written by bsfs-populate has exactly the host file's contents and checksum,
    whether it is read by [bsfs_fread] (through [file_content]), checked by
    [bsfs_verify_checksum], or extracted by bsfs-extract. *)
From Stdlib Require Import ZArith Lia String.
From stdpp Require Import base tactics list numbers.
From S2P Require Import Prelude Bitmap Pmm Crc32 CString BsfsTypes BsfsFile BsfsRead BsfsTools BsfsPopulate BsfsImage.

Open Scope Z_scope.

(** ** The chunks of a file *)

Lemma chunks_lookup n data : (0 < n)%nat -> forall fuel i, (length data <= fuel)%nat ->
  chunks fuel n data !! i = if (i * n <? length data)%nat then Some (take n (drop (i * n) data)) else None.
Proof.
  intros Hn fuel. revert data. induction fuel as [|fuel IH]; intros data i Hf.
  { destruct data; [|cbn in Hf; lia]. destruct i; done. }
  destruct data as [|x data]; [by destruct i|]. cbn [chunks].
  destruct i as [|i]; [done|]. cbn [lookup list_lookup]. change (list_lookup i) with (lookup (M := list (list Z)) i).
  rewrite IH by (rewrite length_drop; cbn in *; lia). rewrite length_drop, drop_drop.
  replace (n + i * n)%nat with (S i * n)%nat by lia.
  destruct (Nat.ltb_spec (i * n) (length (x :: data) - n)), (Nat.ltb_spec (S i * n) (length (x :: data))); done || lia.
Qed.

Lemma concat_chunks n data : (0 < n)%nat -> forall fuel, (length data <= fuel)%nat -> concat (chunks fuel n data) = data.
Proof.
  intros Hn fuel. revert data. induction fuel as [|fuel IH]; intros data Hf.
  { by destruct data; [|cbn in Hf; lia]. }
  destruct data as [|x data]; [done|]. cbn [chunks concat]. rewrite IH by (rewrite length_drop; cbn in *; lia).
  apply take_drop.
Qed.

Lemma chunks_sizes n data fuel : Forall (fun p => (length p <= n)%nat) (chunks fuel n data).
Proof.
  revert data. induction fuel as [|fuel IH]; intros data; destruct data as [|x data]; cbn [chunks]; constructor; [|done].
  rewrite length_take. lia.
Qed.

Lemma file_chunks_length data k : (length data <= k * 4096)%nat -> (length (file_chunks 4096 data) <= k)%nat.
Proof.
  intros Hk. destruct (decide (length (file_chunks 4096 data) <= k)%nat) as [|Hgt]; [done|]. exfalso.
  destruct (lookup_lt_is_Some_2 (file_chunks 4096 data) k) as [p Hp]; [lia|]. unfold file_chunks in Hp.
  rewrite chunks_lookup in Hp by lia. destruct (Nat.ltb_spec (k * 4096) (length data)); [lia|done].
Qed.

(** ** Slices of slices and of words *)

Lemma slice_slice l a n o m : 0 <= a -> 0 <= o -> 0 <= m -> o + m <= n -> slice (slice l a n) o m = slice l (a + o) m.
Proof.
  intros. unfold slice. rewrite skipn_firstn_comm, take_take, drop_drop. f_equal; [lia|f_equal; lia].
Qed.

Lemma words_bytes_slice ws j w : ws !! j = Some w -> slice (words_bytes ws) (4 * Z.of_nat j) 4 = le_bytes 4 w.
Proof.
  revert j. induction ws as [|v ws IH]; intros j Hj; [done|].
  change (words_bytes (v :: ws)) with (le_bytes 4 v ++ words_bytes ws). destruct j as [|j].
  - injection Hj as ->. unfold slice. cbn [Z.of_nat Z.mul Z.to_nat drop]. by apply take_app_length'; rewrite length_le_bytes.
  - unfold slice. rewrite drop_app_ge by (rewrite length_le_bytes; lia). rewrite length_le_bytes.
    specialize (IH j Hj). unfold slice in IH. rewrite <- IH. do 2 f_equal. lia.
Qed.

(** ** The contents of a file from its blocks *)

Lemma content_of_blocks image ino data (blk : Z -> Z) :
  size ino = Z.of_nat (length data) ->
  (forall i, 0 <= i -> i * 4096 < size ino -> file_block image ino i = blk i) ->
  (forall i, 0 <= i -> i * 4096 < size ino -> 0 <= blk i) ->
  (forall i, 0 <= i -> i * 4096 < size ino ->
     slice image (blk i * 4096) (Z.min 4096 (size ino - i * 4096)) = slice data (i * 4096) (Z.min 4096 (size ino - i * 4096))) ->
  file_content image ino = data.
Proof.
  intros Hsz Hblk Hpos Hsl. unfold file_content, file_bytes. apply list_eq_same_length with (length data); [done| |].
  { rewrite length_fmap, length_seqZ. lia. }
  intros k x y Hk Hx Hy. apply list_lookup_fmap_Some in Hx as (z & -> & Hz). apply lookup_seqZ in Hz as [-> Hz].
  unfold file_byte. rewrite Z.add_0_l. set (q := Z.of_nat k) in *. assert (0 <= q < size ino) as Hq by lia.
  assert (0 <= q / 4096 /\ q / 4096 * 4096 <= q < q / 4096 * 4096 + 4096) as [Hq1 Hq2] by dlia.
  assert (q mod 4096 = q - q / 4096 * 4096) as Hm by dlia.
  rewrite Hblk by lia. specialize (Hsl (q / 4096) Hq1 ltac:(lia)). specialize (Hpos (q / 4096) Hq1 ltac:(lia)).
  assert (slice image (blk (q / 4096) * 4096) (Z.min 4096 (size ino - q / 4096 * 4096)) !! Z.to_nat (q mod 4096)
    = Some y) as Hlk.
  { rewrite Hsl, slice_lookup by lia. rewrite <- Hy. f_equal. lia. }
  rewrite slice_lookup in Hlk by lia. by rewrite Hlk.
Qed.

(** ** Writing the indirect table *)

(** The image once the indirect table, if there is one, is written. *)
Definition with_table (image : list Z) (l1 : option (Z * list Z)) : list Z :=
  match l1 with
  | Some (ti, table) => fwrite_at image (ti * 4096) (words_bytes table)
  | None => image
  end.

Lemma table_written t0 idx n parts blks l1 t :
  writing t0 idx n parts blks l1 t ->
  let m := with_table (t_image t) l1 in
  length m = length (t_image t) /\
  (forall j b p, blks !! j = Some b -> parts !! j = Some p -> slice m (b * 4096) (Z.of_nat (length p)) = p) /\
  (forall b, 0 <= b -> block_used t0 b = true -> slice m (b * 4096) 4096 = slice (t_image t0) (b * 4096) 4096) /\
  match l1 with Some (ti, table) => slice m (ti * 4096) 4096 = words_bytes table | None => True end.
Proof.
  intros [Hwf Ht [Hs1 Hs2] Hf Hp (ino & Hi & (_ & _ & _ & _ & Hl) & Hsz) Hnd Htk Hc Hu] m.
  destruct l1 as [[ti table]|].
  2:{ split; [done|]. split; [intros j b p Hj Hpj; by apply (Hc j b p)|]. split; [intros b Hb Hub; by apply Hu|done]. }
  destruct Hl as (_ & _ & Hti & Hnt & Htl & _). pose proof Hti as (Htr & Ht0 & Ht1).
  pose proof (aw_image _ Hwf) as Himg. rewrite Ht in Himg.
  assert (length (words_bytes table) = 4096%nat) as Hwl by (rewrite length_words_bytes; lia).
  unfold m, with_table. split; [apply length_fwrite_at; lia|]. split; [|split].
  - intros j b p Hj Hpj. destruct (Hc j b p Hj Hpj) as [Hc1 Hc2].
    assert (b ∈ blks) as Hb by (by eapply list_elem_of_lookup_2). destruct (Htk b Hb) as (Hbr & _).
    rewrite block_write by (lia || (intros ->; done)). done.
  - intros b Hb Hub. destruct (Hu b Hb Hub) as [_ <-]. apply block_write; try lia. intros ->. congruence.
  - rewrite slice_fwrite_in by lia. apply take_ge. lia.
Qed.

(** ** The file that bsfs-populate leaves on the image *)

(** No block of the file is block 0, the unused direct links are 0, and there is an
    indirect table exactly when it is needed: what bsfs-extract relies on. *)
Definition extractable (image : list Z) (ino : BsfsInode) : Prop :=
  (forall i, 0 <= i -> i * 4096 < size ino -> file_block image ino i <> 0) /\
  (forall i, 0 <= i < 10 -> size ino <= i * 4096 -> file_block image ino i = 0) /\
  (blocks_l1indirect ino <> 0 <-> 10 * 4096 < size ino).

(** From state [t] to [t'], slot [idx] now holds a file with contents [data], and no
    other file changed. *)
Record file_written (t : tool_state) (idx : Z) (data : list Z) (t' : tool_state) (ino : BsfsInode) : Prop := FileWritten {
  fw_wf : alloc_wf t';
  fw_slot : t_inode_table t' !! Z.to_nat idx = Some ino;
  fw_type : type ino = BSFS_INODE_TYPE_FILE;
  fw_size : size ino = Z.of_nat (length data);
  fw_checksum : checksum ino = crc32 data;
  fw_on_disk : inode_on_disk (t_image t') ino;
  fw_content : file_content (t_image t') ino = data;
  fw_extract : block_used t 0 = true -> extractable (t_image t') ino;
  fw_others : forall i, i <> Z.to_nat idx -> t_inode_table t' !! i = t_inode_table t !! i;
  fw_used : forall b, 0 <= b -> block_used t b = true -> block_used t' b = true /\
    slice (t_image t') (b * 4096) 4096 = slice (t_image t) (b * 4096) 4096;
  fw_free : free_count t' = free_count t - blocks_taken (length (file_chunks 4096 data));
}.

Lemma writing_start t idx ino :
  alloc_wf t -> (exists old, t_inode_table t !! Z.to_nat idx = Some old) -> type ino = BSFS_INODE_TYPE_FILE ->
  blocks_direct ino = replicate 10 0 -> blocks_l1indirect ino = 0 -> size ino = 0 ->
  writing (stored idx t ino (t_image t)) idx 0 [] [] None (stored idx t ino (t_image t)).
Proof.
  intros Hwf [old Hold] Hty Hd Hl1 Hsz. split; try done; try lia.
  - by apply alloc_wf_stored.
  - exists ino. split; [by eapply stored_lookup|]. split; [|done]. split; [done|]. rewrite Hd. split; [done|].
    split; [cbn; lia|]. split; [intros j _ Hj; by apply lookup_replicate_2|]. cbn. split; [lia|done].
  - constructor.
  - intros b Hb. by apply elem_of_nil in Hb.
Qed.

(** Block [i] of a linked file, and the part of the file in it. *)
Lemma linked_block t0 idx n data blks l1 t ino i :
  writing t0 idx n (file_chunks 4096 data) blks l1 t -> t_inode_table t !! Z.to_nat idx = Some ino ->
  0 <= i -> i * 4096 < Z.of_nat (length data) ->
  exists b, blks !! Z.to_nat i = Some b /\ taken t0 t b /\ file_block (with_table (t_image t) l1) ino i = b /\
    slice (with_table (t_image t) l1) (b * 4096) (Z.min 4096 (Z.of_nat (length data) - i * 4096)) =
      slice data (i * 4096) (Z.min 4096 (Z.of_nat (length data) - i * 4096)).
Proof.
  intros HW Hino Hi Hlt. pose proof (table_written _ _ _ _ _ _ _ HW) as (_ & Hc & _ & Htab).
  destruct HW as [Hwf Ht _ _ Hp (ino' & Hi' & (_ & _ & Hd & _ & Hl) & _) _ Htk _ _].
  assert (ino' = ino) as -> by congruence.
  assert (file_chunks 4096 data !! Z.to_nat i = Some (slice data (i * 4096) (Z.min 4096 (Z.of_nat (length data) - i * 4096)))) as Hpi.
  { unfold file_chunks. rewrite chunks_lookup by lia. rewrite (proj2 (Nat.ltb_lt _ _)) by lia. f_equal. unfold slice.
    replace (Z.to_nat (i * 4096)) with (Z.to_nat i * 4096)%nat by lia. apply list_eq. intros k.
    destruct (decide (k < Z.to_nat (Z.min 4096 (Z.of_nat (length data) - i * 4096)))%nat) as [Hk|Hk].
    - by rewrite !lookup_take_lt by lia.
    - rewrite (lookup_take_ge _ (Z.to_nat _)) by lia. destruct (decide (k < 4096)%nat).
      + rewrite lookup_take_lt, lookup_drop by lia. apply lookup_ge_None_2. lia.
      + by rewrite lookup_take_ge by lia. }
  pose proof (lookup_lt_Some _ _ _ Hpi) as Hil. rewrite Hp in Hil.
  destruct (lookup_lt_is_Some_2 blks (Z.to_nat i) Hil) as [b Hb]. exists b. split; [done|].
  assert (taken t0 t b) as Htb by (apply Htk; by eapply list_elem_of_lookup_2). split; [done|]. split.
  - unfold file_block. destruct (Z.ltb_spec i 10).
    + rewrite Hd by lia. by rewrite Hb.
    + destruct l1 as [[ti table]|]; [|lia]. destruct Hl as (_ & Hl1 & (Htr & _) & _ & Htl & Hent & Hw). rewrite Hl1.
      replace ((i - 10) * 4) with (4 * Z.of_nat (Z.to_nat i - 10)) by lia.
      assert (table !! (Z.to_nat i - 10)%nat = Some b) as Hte by (rewrite Hent by lia; done).
      pose proof (lookup_lt_Some _ _ _ Hte).
      rewrite <- (slice_slice _ _ 4096), Htab, (words_bytes_slice _ _ _ Hte) by lia.
      rewrite le_word_bytes. apply Z.mod_small. exact (Forall_lookup_1 _ _ _ _ Hw Hte).
  - specialize (Hc _ _ _ Hb Hpi). rewrite length_slice in Hc by lia. by rewrite Z2Nat.id in Hc by lia.
Qed.

(** The file at the end of the loop, from the invariant. *)
Lemma file_written_intro t idx data ino blks l1 t1 ino1 crc :
  let t0 := stored idx t ino (t_image t) in
  alloc_wf t -> writing t0 idx (blocks_taken (length blks)) (file_chunks 4096 data) blks l1 t1 ->
  (exists old, t_inode_table t !! Z.to_nat idx = Some old) ->
  (length data <= 1034 * 4096)%nat -> t_inode_table t1 !! Z.to_nat idx = Some ino1 -> crc = crc32 data ->
  file_written t idx data (stored idx t1 (with_checksum ino1 crc) (with_table (t_image t1) l1)) (with_checksum ino1 crc).
Proof.
  intros t0 Hwf HW [old Hold] Hlen Hi1 ->. pose proof HW as [Hwf1 Ht [_ Hs2] Hf Hp (ino' & Hi' & Hlk & Hsz) _ _ _ Hu].
  assert (ino' = ino1) as -> by congruence. destruct Hlk as (Hty & Hd10 & Hd & Hz & Hl).
  pose proof (table_written _ _ _ _ _ _ _ HW) as (Hml & _ & Hmu & _).
  unfold file_chunks in Hsz. rewrite concat_chunks in Hsz by lia.
  pose proof (fun i => linked_block _ _ _ _ _ _ _ ino1 i HW Hi1) as Hblk. set (m := with_table (t_image t1) l1) in *.
  pose proof (aw_image _ Hwf1) as Himg. rewrite Ht in Himg. pose proof (aw_total _ Hwf1) as Htot.
  pose proof (aw_max _ Hwf1). assert (total_blocks (t_header t0) <= 2 ^ 20) by (rewrite <- Ht; lia).
  split; cbn [t_image t_inode_table stored type size checksum with_checksum].
  - by apply alloc_wf_stored.
  - exact (stored_lookup idx t1 _ _ [] Hi1).
  - done.
  - done.
  - done.
  - split; cbn [size blocks_direct blocks_l1indirect with_checksum].
    + lia.
    + done.
    + intros i Hi Hlt. destruct (Hblk i Hi ltac:(lia)) as (b & _ & (Hb & _) & Hfb & _).
      change (file_block m (with_checksum ino1 (crc32 data)) i) with (file_block m ino1 i). rewrite Hfb, Hml. lia.
    + intros Hbig. destruct l1 as [[ti table]|].
      * destruct Hl as (_ & -> & (Htr & _) & _). rewrite Hml. unfold UINT32_MAX. lia.
      * destruct Hl as [Hle _]. exfalso. destruct (Hblk 10 ltac:(lia) ltac:(lia)) as (b & Hb & _).
        apply lookup_lt_Some in Hb. lia.
  - apply content_of_blocks with (blk := file_block m ino1); cbn [size with_checksum].
    + done.
    + done.
    + intros i Hi Hlt. destruct (Hblk i Hi ltac:(lia)) as (b & _ & (Hb & _) & Hfb & _). lia.
    + intros i Hi Hlt. destruct (Hblk i Hi ltac:(lia)) as (b & _ & _ & -> & Hsl). by rewrite Hsz.
  - intros Hb00. split; [|split]; cbn [size blocks_l1indirect with_checksum].
    + intros i Hi Hlt. destruct (Hblk i Hi ltac:(lia)) as (b & _ & (_ & Hb0 & _) & Hfb & _).
      change (file_block m (with_checksum ino1 (crc32 data)) i) with (file_block m ino1 i). rewrite Hfb.
      intros ->. unfold block_used in *. cbn in Hb0. congruence.
    + intros i Hi Hge. unfold file_block. cbn [blocks_direct with_checksum].
      rewrite (proj2 (Z.ltb_lt i 10)) by lia. rewrite Hz; [done| |lia].
      rewrite <- Hp. transitivity (Z.to_nat i); [|done]. apply file_chunks_length. lia.
    + destruct l1 as [[ti table]|].
      * destruct Hl as (Hl10 & -> & (_ & Ht0 & _) & _). split; [|intros _ ->; unfold block_used in *; cbn in Ht0; congruence].
        intros _. rewrite Hsz. destruct (decide (10 * 4096 < Z.of_nat (length data))); [done|].
        exfalso. pose proof (file_chunks_length data 10 ltac:(lia)). lia.
      * destruct Hl as [Hl10 ->]. split; [done|]. intros Hbig. exfalso.
        destruct (Hblk 10 ltac:(lia) ltac:(lia)) as (b & Hb & _). apply lookup_lt_Some in Hb. lia.
  - intros i Hi. rewrite list_lookup_insert_ne by done. rewrite Hs2 by done. cbn. by rewrite list_lookup_insert_ne by done.
  - intros b Hb Hub. destruct (Hu b Hb Hub) as [Hu1 _]. split; [done|]. by apply (Hmu b Hb).
  - change (free_count t1 = free_count t - blocks_taken (length (file_chunks 4096 data))). rewrite Hf, Hp. done.
Qed.

Lemma populate_file_run t idx now data ino0 :
  0 <= idx -> alloc_wf t -> t_inode_table t !! Z.to_nat idx = Some ino0 ->
  blocks_direct ino0 = replicate 10 0 -> blocks_l1indirect ino0 = 0 -> (length data <= 1034 * 4096)%nat ->
  blocks_taken (length (file_chunks 4096 data)) <= free_count t ->
  exists t' ino, populate_file idx now data t = Ok (tt, t') /\ file_written t idx data t' ino.
Proof.
  intros Hidx Hwf Hino0 Hd Hl1 Hlen Hfree. unfold populate_file.
  rewrite (bind_run _ _ _ _ _ (get_inode_run _ Hidx _ _ Hino0)), (bind_run _ _ _ _ _ (put_inode_run _ Hidx _ _ _ Hino0)).
  set (ino := fresh_inode ino0 BSFS_INODE_TYPE_FILE (blocks ino0) now). set (t0 := stored idx t ino (t_image t)).
  unfold get at 1. rewrite (bind_run _ _ t0 t0 t0 eq_refl).
  change (block_size (t_header t0)) with (block_size (t_header t)). rewrite (aw_bs _ Hwf).
  change (Z.to_nat 4096) with 4096%nat.
  pose proof (file_chunks_length data 1034 Hlen) as Hcl.
  destruct (write_blocks_run t0 idx Hidx (file_chunks 4096 data) [] []
    {| guest_file_current_block := 0; wl_crc := 0xFFFFFFFF; l1indirect := None |} t0)
    as (w & t1 & blks & Hrun & Hbl & HW & Hcrc).
  - apply writing_start; [done|by exists ino0|done..].
  - done.
  - cbn. lia.
  - apply chunks_sizes.
  - cbn [app]. unfold file_chunks. rewrite concat_chunks by lia. lia.
  - done.
  - cbn [app] in HW. rewrite (bind_run _ _ _ _ _ Hrun). pose proof HW as [Hwf1 Ht _ _ _ (ino1 & Hi1 & (_ & _ & _ & _ & Hl) & _) _ _ _ _].
    pose proof (aw_total _ Hwf1) as Htot. pose proof (aw_max _ Hwf1).
    assert (Hmid : (match l1indirect w with
      | Some (ti, table) => write_image (u32 (4096 * ti)) (words_bytes table)
      | None => mret tt end) t1 = Ok (tt, set_image t1 (with_table (t_image t1) (l1indirect w)))).
    { destruct (l1indirect w) as [[ti table]|]; [|by destruct t1]. destruct Hl as (_ & _ & (Htr & _) & _).
      rewrite Ht in Htot. rewrite u32_id, Z.mul_comm by lia. unfold write_image. by rewrite (proj2 (Z.leb_gt _ _)) by lia. }
    rewrite (bind_run _ _ _ _ _ Hmid).
    set (t2 := set_image t1 (with_table (t_image t1) (l1indirect w))).
    assert (t_inode_table t2 !! Z.to_nat idx = Some ino1) as Hi2 by done.
    rewrite (bind_run _ _ _ _ _ (get_inode_run _ Hidx _ _ Hi2)), (put_inode_run _ Hidx _ _ _ Hi2).
    eexists _, _. split; [reflexivity|].
    change (stored idx t2 (with_checksum ino1 (populate_crc32_finalize (wl_crc w))) (t_image t2))
      with (stored idx t1 (with_checksum ino1 (populate_crc32_finalize (wl_crc w))) (with_table (t_image t1) (l1indirect w))).
    eapply file_written_intro; [done|exact HW|by exists ino0|done|done|].
    rewrite Hcrc. cbn [wl_crc]. unfold file_chunks. rewrite concat_chunks by lia. done.
Qed.

(** ** Extraction *)

Lemma slice_app_split l a b : 0 <= a -> 0 <= b -> slice l 0 (a + b) = slice l 0 a ++ slice l a b.
Proof. intros. unfold slice. rewrite !drop_0, Z2Nat.inj_add by lia. by rewrite take_take_drop. Qed.

Lemma slice_drop l a o n : 0 <= a -> 0 <= o -> slice (drop (Z.to_nat a) l) o n = slice l (a + o) n.
Proof. intros. unfold slice. rewrite drop_drop. do 2 f_equal. lia. Qed.

(** A run of blocks that hold the front of [data]. *)
Lemma extract_blocks_run image stop tail out : forall bl rem data,
  (forall j b, bl !! j = Some b -> b <> 0 /\ 0 <= b < 2 ^ 20 /\ (b + 1) * 4096 <= Z.of_nat (length image) /\
     Z.of_nat j * 4096 < rem /\ slice image (b * 4096) (Z.min 4096 (rem - Z.of_nat j * 4096)) =
       slice data (Z.of_nat j * 4096) (Z.min 4096 (rem - Z.of_nat j * 4096))) ->
  extract_blocks image 4096 stop tail (rem - 4096 * Z.of_nat (length bl)) = Ok out ->
  extract_blocks image 4096 stop (bl ++ tail) rem =
    Ok (slice data 0 (Z.min rem (4096 * Z.of_nat (length bl))) ++ out.1.1, out.1.2, out.2).
Proof.
  induction bl as [|b bl IH]; intros rem data Hbl Htail; cbn [app extract_blocks length] in *.
  { replace (rem - 4096 * Z.of_nat 0) with rem in Htail by lia. rewrite Htail. destruct out as [[rest r] e].
    cbn [fst snd]. unfold slice at 1. by replace (Z.to_nat (Z.min rem (4096 * Z.of_nat 0))) with 0%nat by lia. }
  destruct (Hbl 0%nat b eq_refl) as (Hb0 & Hbr & Him & Hrem & Hsl). rewrite Z.mul_0_l, Z.sub_0_r in Hsl.
  rewrite (proj2 (Z.leb_gt rem 0)), andb_false_r by lia. rewrite (proj2 (Z.eqb_neq b 0)) by done.
  unfold fread_at. rewrite (u32_id (4096 * b)), (Z.mul_comm 4096 b), length_slice by lia.
  rewrite (proj2 (Z.ltb_ge _ 4096)) by lia.
  replace (u32 (if rem <? 4096 then rem else 4096)) with (Z.min 4096 rem)
    by (destruct (Z.ltb_spec rem 4096); rewrite u32_id by lia; lia).
  rewrite (proj2 (Z.ltb_ge 4096 _)) by lia.
  rewrite (IH (rem - 4096) (drop (Z.to_nat 4096) data)).
  - munfold. do 3 f_equal. rewrite app_assoc. f_equal. unfold slice at 1. rewrite take_take.
    replace (Z.to_nat (Z.min 4096 rem) `min` Z.to_nat 4096)%nat with (Z.to_nat (Z.min 4096 rem)) by lia.
    fold (slice image (b * 4096) (Z.min 4096 rem)). rewrite Hsl, slice_drop by lia.
    destruct (decide (rem < 4096)) as [Hlt|Hge].
    + assert (length bl = 0%nat) as ->.
      { destruct bl as [|b' bl]; [done|]. destruct (Hbl 1%nat b' eq_refl) as (_ & _ & _ & ? & _). lia. }
      replace (slice data (4096 + 0) (Z.min (rem - 4096) (4096 * Z.of_nat 0))) with (@nil Z)
        by (unfold slice; by replace (Z.to_nat _) with 0%nat by lia).
      rewrite app_nil_r. f_equal. lia.
    + replace (Z.min 4096 rem) with 4096 by lia. rewrite Z.add_0_r, <- slice_app_split by lia. f_equal. lia.
  - intros j b' Hj. destruct (Hbl (S j) b' Hj) as (? & ? & ? & ? & Hs). do 3 (split; [done|]). split; [lia|].
    rewrite slice_drop by lia. replace (4096 + Z.of_nat j * 4096) with (Z.of_nat (S j) * 4096) by lia.
    by replace (rem - 4096 - Z.of_nat j * 4096) with (rem - Z.of_nat (S j) * 4096) by lia.
  - rewrite <- Htail. f_equal. lia.
Qed.

Lemma extract_zeros image bl rem : Forall (fun b => b = 0) bl -> extract_blocks image 4096 false bl rem = Ok ([], rem, false).
Proof. induction 1 as [|b bl -> _ IH]; cbn; done. Qed.

Lemma extract_done image bl rem : rem <= 0 -> extract_blocks image 4096 true bl rem = Ok ([], rem, false).
Proof. intros. destruct bl as [|b bl]; cbn; [done|]. by rewrite (proj2 (Z.leb_le rem 0)). Qed.

Lemma parse_words_lookup k : forall bs j, (j < k)%nat ->
  (parse_words k bs).1 !! j = Some (le_word (slice bs (4 * Z.of_nat j) 4)).
Proof.
  induction k as [|k IH]; intros bs j Hj; [lia|]. cbn [parse_words]. unfold parse_le.
  destruct (parse_words k (drop 4 bs)) as [ws rest] eqn:E. cbn [fst]. destruct j as [|j]; [done|]. cbn [lookup list_lookup].
  change (ws !! j = Some (le_word (slice bs (4 * Z.of_nat (S j)) 4))).
  specialize (IH (drop 4 bs) j ltac:(lia)). rewrite E in IH. cbn [fst] in IH. rewrite IH. do 2 f_equal.
  transitivity (slice bs (4 + 4 * Z.of_nat j) 4); [exact (slice_drop bs 4 (4 * Z.of_nat j) 4 ltac:(lia) ltac:(lia))|f_equal; lia].
Qed.

Lemma length_parse_words k bs : length (parse_words k bs).1 = k.
Proof.
  revert bs. induction k as [|k IH]; intros bs; [done|]. cbn [parse_words]. unfold parse_le.
  destruct (parse_words k (drop 4 bs)) as [ws rest] eqn:E. cbn. specialize (IH (drop 4 bs)). rewrite E in IH. by rewrite <- IH.
Qed.

(** The part of a file in its block [i]. *)
Lemma content_slice image ino i n :
  inode_on_disk image ino -> 0 <= i -> 0 < n <= 4096 -> i * 4096 + n <= size ino ->
  slice image (file_block image ino i * 4096) n = slice (file_content image ino) (i * 4096) n.
Proof.
  intros Hino Hi Hn Hsz. destruct (iod_block _ _ Hino i Hi ltac:(lia)) as [Hb Himg].
  rewrite (slice_fmap image _ n (file_byte image ino) (i * 4096)).
  - symmetry. apply slice_fmap; [lia|lia|unfold file_content, file_bytes; rewrite length_fmap, length_seqZ; lia|].
    intros j Hj. unfold file_content, file_bytes. rewrite list_lookup_fmap.
    rewrite (proj2 (lookup_seqZ 0 (size ino) _ (i * 4096 + j))) by lia. done.
  - lia.
  - lia.
  - lia.
  - intros j Hj. unfold file_byte. replace ((i * 4096 + j) / 4096) with i by dlia.
    replace ((i * 4096 + j) mod 4096) with j by dlia.
    destruct (lookup_lt_is_Some_2 image (Z.to_nat (file_block image ino i * 4096 + j))) as [x ->]; [lia|done].
Qed.

(** bsfs-extract writes exactly the contents of the file. *)
Lemma extract_file_run image h ino :
  block_size h = 4096 -> Z.of_nat (length image) <= 2 ^ 32 -> inode_on_disk image ino -> extractable image ino ->
  bsfs_write_inode_to_file image h ino = Ok (file_content image ino).
Proof.
  intros Hbs Hmax Hino (Hnz & Hz & Hl1). unfold bsfs_write_inode_to_file. rewrite Hbs.
  change (4096 / 4 * 4) with 4096. change (Z.to_nat (4096 / 4)) with 1024%nat.
  pose proof (iod_size _ _ Hino) as Hsz. pose proof (iod_direct _ _ Hino) as Hd.
  assert (s64 (size ino) = size ino) as -> by (unfold s64; rewrite Z.mod_small by lia; lia).
  set (data := file_content image ino).
  assert (Z.of_nat (length data) = size ino) as Hlen
    by (unfold data, file_content, file_bytes; rewrite length_fmap, length_seqZ; lia).
  assert (forall i, 0 <= i -> i * 4096 < size ino ->
    0 <= file_block image ino i < 2 ^ 20 /\ (file_block image ino i + 1) * 4096 <= Z.of_nat (length image)) as Hblk.
  { intros i Hi Hlt. destruct (iod_block _ _ Hino i Hi Hlt). lia. }
  assert (forall j b, blocks_direct ino !! j = Some b -> file_block image ino (Z.of_nat j) = b) as Hdir.
  { intros j b Hj. pose proof (lookup_lt_Some _ _ _ Hj). unfold file_block.
    rewrite (proj2 (Z.ltb_lt _ 10)), Nat2Z.id, Hj by lia. done. }
  assert (forall j, (j * 4096 < size ino) -> 0 <= j ->
    slice image (file_block image ino j * 4096) (Z.min 4096 (size ino - j * 4096)) =
    slice data (j * 4096) (Z.min 4096 (size ino - j * 4096))) as Hsl.
  { intros j Hlt Hj. apply content_slice; [done|lia|lia|lia]. }
  set (k := Z.to_nat ((size ino + 4095) / 4096)).
  assert (forall j : nat, (j < k)%nat <-> Z.of_nat j * 4096 < size ino) as Hk by (intros; unfold k; dlia).
  destruct (decide (size ino <= 10 * 4096)) as [Hsmall|Hbig].
  - assert (k <= 10)%nat by (unfold k; dlia).
    rewrite <- (take_drop k (blocks_direct ino)).
    rewrite (extract_blocks_run image false (drop k (blocks_direct ino))
      ([], size ino - 4096 * Z.of_nat (length (take k (blocks_direct ino))), false) _ _ data).
    + munfold. cbn [fst snd]. rewrite (proj2 (Z.eqb_eq (blocks_l1indirect ino) 0)).
      2:{ destruct (decide (blocks_l1indirect ino = 0)) as [|Hn]; [done|]. apply Hl1 in Hn. lia. }
      rewrite app_nil_r, length_take, Hd. f_equal. unfold slice. rewrite drop_0. apply take_ge. lia || (unfold k; dlia).
    + intros j b Hj. apply lookup_take_Some in Hj as [Hj Hjk]. rewrite Hk in Hjk. specialize (Hdir j b Hj). subst b.
      split; [apply Hnz; lia|]. split; [apply Hblk; lia|]. split; [apply Hblk; lia|]. split; [done|]. apply Hsl; lia.
    + apply extract_zeros, list.Forall_forall. intros b Hb.
      apply list_elem_of_lookup_1 in Hb as [j Hj]. rewrite lookup_drop in Hj. pose proof (lookup_lt_Some _ _ _ Hj).
      rewrite <- (Hdir _ _ Hj). apply Hz; [lia|]. pose proof (Hk (k + j)%nat). lia.
  - destruct (iod_l1 _ _ Hino ltac:(lia)) as [Hl1r Hl1i].
    rewrite <- (app_nil_r (blocks_direct ino)).
    rewrite (extract_blocks_run image false [] ([], size ino - 4096 * Z.of_nat (length (blocks_direct ino)), false) _ _ data).
    + munfold. cbn [fst snd]. rewrite Hd, (proj2 (Z.eqb_neq (blocks_l1indirect ino) 0)) by (apply Hl1; lia).
      unfold fread_at. rewrite u32_id, (Z.mul_comm 4096 (blocks_l1indirect ino)), length_slice by lia.
      rewrite (proj2 (Z.ltb_ge _ 4096)) by lia.
      set (table := slice image (blocks_l1indirect ino * 4096) 4096).
      rewrite <- (take_drop (k - 10) (parse_words 1024 table).1).
      assert (10 <= k <= 1034)%nat by (unfold k; dlia).
      assert (length (take (k - 10) (parse_words 1024 table).1) = (k - 10)%nat) as Htl
        by (rewrite length_take, length_parse_words; lia).
      rewrite (extract_blocks_run image true (drop (k - 10) (parse_words 1024 table).1)
        ([], size ino - 4096 * Z.of_nat 10 - 4096 * Z.of_nat (k - 10), false) _ _ (drop (Z.to_nat (10 * 4096)) data)).
      * cbn [fst snd]. rewrite Htl, !app_nil_r, slice_drop by lia. f_equal.
        replace (Z.min (size ino) (4096 * Z.of_nat 10)) with (10 * 4096) by lia.
        rewrite Z.add_0_r, <- slice_app_split by (unfold k; dlia). unfold slice. rewrite drop_0. apply take_ge. unfold k. dlia.
      * intros j b Hj. apply lookup_take_Some in Hj as [Hj Hjk]. rewrite parse_words_lookup in Hj by lia.
        injection Hj as <-. assert (Z.of_nat (10 + j) * 4096 < size ino) as Hlt by (apply Hk; lia).
        assert (le_word (slice table (4 * Z.of_nat j) 4) = file_block image ino (Z.of_nat (10 + j))) as ->.
        { unfold file_block, table. rewrite (proj2 (Z.ltb_ge _ 10)), slice_slice by lia. do 2 f_equal. lia. }
        specialize (Hsl (Z.of_nat (10 + j)) ltac:(lia) ltac:(lia)).
        split; [apply Hnz; lia|]. split; [apply Hblk; lia|]. split; [apply Hblk; lia|]. split; [lia|].
        rewrite slice_drop by lia. replace (10 * 4096 + Z.of_nat j * 4096) with (Z.of_nat (10 + j) * 4096) by lia.
        by replace (size ino - 4096 * Z.of_nat 10 - Z.of_nat j * 4096) with (size ino - Z.of_nat (10 + j) * 4096) by lia.
      * rewrite Htl. apply extract_done. unfold k. dlia.
    + intros j b Hj. pose proof (lookup_lt_Some _ _ _ Hj). specialize (Hdir j b Hj). subst b.
      split; [apply Hnz; lia|]. split; [apply Hblk; lia|]. split; [apply Hblk; lia|]. split; [lia|]. apply Hsl; lia.
    + done.
Qed.

(** ** Properties *)

(** C39: on an image with consistent bitmaps (blocks of 4096 bytes, at most 32 megablocks)
    and a free block, [bsfs_alloc_block] takes the lowest free block of the image, changes
    the bit of no other block, keeps the megablock bitmap exact (a bit is set exactly when
    the whole megablock is in use) and lowers the free counts by one. *)
Theorem bsfs_alloc_block_correct (t : tool_state) (Hwf : alloc_wf t) (Hfree : 0 < free_count t) :
  exists b t', bsfs_alloc_block t = Ok (b, t') /\ 0 <= b < total_blocks (t_header t) /\
    block_used t b = false /\ (forall j, 0 <= j < b -> block_used t j = true) /\
    (forall j, 0 <= j -> block_used t' j = if decide (j = b) then true else block_used t j) /\
    alloc_wf t' /\ free_count t' = free_count t - 1 /\
    free_blocks (t_header t') = u32 (free_blocks (t_header t) - 1) /\ t_image t' = t_image t.
Proof.
  destruct (alloc_block_run t Hwf Hfree) as (b & bb & mb & Hrun & Hb & Hu & Hlow & (_ & _ & Hbits) & Hwf' & Hfc).
  exists b, (allocated t bb mb). do 4 (split; [done|]). split; [exact Hbits|]. done.
Qed.

(** C33: bsfs-populate writes a file of up to 1034 blocks (direct and single-indirect)
    so that the inode describes exactly the host file's bytes with their length and
    CRC-32; every block that was in use keeps its contents and every other inode is
    unchanged. *)
Theorem populate_file_correct (t : tool_state) (idx now : Z) (data : list Z) (ino0 : BsfsInode)
  (Hidx : 0 <= idx) (Hwf : alloc_wf t) (Hslot : t_inode_table t !! Z.to_nat idx = Some ino0)
  (Hdirect : blocks_direct ino0 = replicate 10 0) (Hl1 : blocks_l1indirect ino0 = 0)
  (Hsize : (length data <= 1034 * 4096)%nat)
  (Hfree : blocks_taken (length (file_chunks 4096 data)) <= free_count t) :
  exists t' ino, populate_file idx now data t = Ok (tt, t') /\ file_written t idx data t' ino.
Proof. by eapply populate_file_run. Qed.

(** C32: what bsfs-populate wrote is what is read: bsfs-extract recovers the host file
    byte for byte, and the kernel's [bsfs_verify_checksum] accepts the file from any
    disk that serves the image. *)
Theorem populated_file_reads_back (t : tool_state) (idx now : Z) (data : list Z) (ino0 : BsfsInode)
  (Hidx : 0 <= idx) (Hwf : alloc_wf t) (Hslot : t_inode_table t !! Z.to_nat idx = Some ino0)
  (Hdirect : blocks_direct ino0 = replicate 10 0) (Hl1 : blocks_l1indirect ino0 = 0)
  (Hsize : (length data <= 1034 * 4096)%nat) (Hzero : block_used t 0 = true)
  (Hfree : blocks_taken (length (file_chunks 4096 data)) <= free_count t) :
  exists t' ino, populate_file idx now data t = Ok (tt, t') /\ t_inode_table t' !! Z.to_nat idx = Some ino /\
    bsfs_write_inode_to_file (t_image t') (t_header t') ino = Ok data /\
    (forall (D : Type) (context : BsfsContext D) (good : D -> Prop) (f : BsfsFile) (d : D) (fuel : nat),
       geometry context (t_image t') good -> good d -> file_ok (t_image t') ino f ->
       position f = 0 /\ eof f = false -> size ino / 4096 + 1 < Z.of_nat fuel ->
       exists f' d', bsfs_verify_checksum context fuel f 4096 d = Ok ((1, f'), d')).
Proof.
  destruct (populate_file_run t idx now data ino0) as (t' & ino & Hrun & Hfw); [done..|].
  exists t', ino. split; [done|]. destruct Hfw as [Hwf' Hs Hty Hsz Hck Hod Hc Hex _ _ _]. split; [done|]. split.
  - rewrite <- Hc. apply extract_file_run; [apply Hwf'| |done|by apply Hex].
    pose proof (aw_image _ Hwf'). pose proof (aw_total _ Hwf'). pose proof (aw_max _ Hwf'). lia.
  - intros D context good f d fuel Hgeo Hd Hf Hopen Hfuel.
    destruct (verify_checksum_run context (t_image t') good ino f d fuel) as (f' & d' & Hv & _); [done..|].
    exists f', d'. by rewrite Hv, Hc, Hck, Z.eqb_refl.
Qed.

(** *** Witnesses: an image of sixteen blocks, five of them metadata *)

Definition sample_tool : tool_state :=
  {| t_image := replicate (Z.to_nat 65536) 0; t_header := mkfs_header 65536 4096 0 (chars "root");
     t_block_bitmap := 31 :: replicate 4095 0; t_megablock_bitmap := replicate 8 0;
     t_inode_bitmap := 3 :: replicate 4095 0; t_inode_table := replicate 4 zero_inode |}.

Lemma sample_tool_wf : alloc_wf sample_tool.
Proof.
  split; try (apply (bool_decide_unpack _); vm_compute; exact I).
  - intros j Hj. assert (megablocks sample_tool = 1) as E by (vm_compute; reflexivity).
    assert (j = 0) as -> by lia. split; [vm_compute; discriminate|].
    intros H. specialize (H 5 ltac:(lia)). vm_compute in H. discriminate.
Qed.

Lemma sample_tool_free : free_count sample_tool = 11.
Proof. vm_compute. reflexivity. Qed.

Lemma bsfs_alloc_block_correct_witness :
  exists b t', bsfs_alloc_block sample_tool = Ok (b, t') /\ free_count t' = 10.
Proof.
  destruct (bsfs_alloc_block_correct sample_tool sample_tool_wf) as (b & t' & Hrun & _ & _ & _ & _ & _ & Hf & _).
  - rewrite sample_tool_free. lia.
  - exists b, t'. split; [exact Hrun|]. rewrite Hf, sample_tool_free. reflexivity.
Defined.

Lemma populate_file_correct_witness :
  exists t' ino, populate_file 1 7 (chars "hello") sample_tool = Ok (tt, t') /\
    file_content (t_image t') ino = chars "hello".
Proof.
  destruct (populate_file_correct sample_tool 1 7 (chars "hello") zero_inode) as (t' & ino & Hrun & Hfw).
  - lia.
  - exact sample_tool_wf.
  - reflexivity.
  - reflexivity.
  - reflexivity.
  - apply (bool_decide_unpack _). vm_compute. exact I.
  - rewrite sample_tool_free. vm_compute. discriminate.
  - exists t', ino. split; [exact Hrun|exact (fw_content _ _ _ _ _ Hfw)].
Defined.

Lemma populated_file_reads_back_witness :
  exists t' ino, populate_file 1 7 (chars "hello") sample_tool = Ok (tt, t') /\
    bsfs_write_inode_to_file (t_image t') (t_header t') ino = Ok (chars "hello").
Proof.
  destruct (populated_file_reads_back sample_tool 1 7 (chars "hello") zero_inode) as (t' & ino & Hrun & _ & Hx & _).
  - lia.
  - exact sample_tool_wf.
  - reflexivity.
  - reflexivity.
  - reflexivity.
  - apply (bool_decide_unpack _). vm_compute. exact I.
  - reflexivity.
  - rewrite sample_tool_free. vm_compute. discriminate.
  - exists t', ino. split; [exact Hrun|exact Hx].
Defined.
