(* ===== verification/BsfsPath.v ===== *)
(** * Path resolution of the file system

    [bsfs_resolve_path] and [bsfs_fopen] ([kernel/common/bsfs/bsfs.c]) against a
    reference: the components of a path looked up one after the other in the directories
    of the image, seen as lists of entries. *)
From S2P Require Import Prelude CString BsfsTypes BsfsFile BsfsRead BsfsPopulate BsfsTheorems.
From Stdlib Require Import ZArith Lia String Ascii.
From stdpp Require Import base tactics list numbers.

Open Scope Z_scope.

(** ** The reference *)

(** The inode of an index, and the entries of a directory, in order. *)
Definition inode_at (image : list Z) (h : BsfsHeader) (idx : Z) : BsfsInode :=
  parse_inode (slice image (inode_table_start h * 4096 + 128 * idx) 128).
Definition block_entries (image : list Z) (b : Z) : list BsfsDirent :=
  (fun d => parse_dirent (slice image (b * 4096 + d * 128) 128)) <$> seqZ 0 32.
Definition dir_entries (image : list Z) (blks : list Z) : list BsfsDirent :=
  blks ≫= fun b => if b =? 0 then [] else block_entries image b.

(** The inode of the first entry with the name.  The code compares names only, so that
    an entry of inode 0, a free slot by BSFS.md, counts as well. *)
Fixpoint find_name (nm : list Z) (l : list BsfsDirent) : option Z :=
  match l with
  | [] => None
  | d :: l' => if decide (until_nul (name d) = nm) then Some (inode d) else find_name nm l'
  end.

Fixpoint lookup_path (image : list Z) (h : BsfsHeader) (idx : Z) (cs : list (list Z)) : option Z :=
  match cs with
  | [] => Some idx
  | c :: cs' =>
      match find_name c (dir_entries image (blocks_direct (inode_at image h idx))) with
      | Some i => lookup_path image h i cs'
      | None => None
      end
  end.

(** A path from its components, and the components a name can be. *)
Definition join_path (cs : list (list Z)) : list Z := cs ≫= fun c => 47 :: c.
Definition component_ok (c : list Z) : Prop := c <> [] /\ (length c <= 123)%nat /\ Forall (fun ch => ch <> 47 /\ ch <> 0) c.

(** The inode lies in a table on the image; a directory has its blocks on the image, and
    its names end. *)
Definition inode_in_image (image : list Z) (h : BsfsHeader) (idx : Z) : Prop :=
  0 <= inode_table_start h /\ 0 <= idx /\ (inode_table_start h * 4096 + 128 * idx) / 512 * 512 + 512 <= Z.of_nat (length image).
Definition dir_ok (image : list Z) (blks : list Z) : Prop :=
  Forall (fun b => 0 <= b /\ (b = 0 \/ (b + 1) * 4096 <= Z.of_nat (length image))) blks /\ Forall (fun d => 0 ∈ name d) (dir_entries image blks).

(** The directories a path leads through. *)
Fixpoint dirs_on_path (image : list Z) (h : BsfsHeader) (idx : Z) (cs : list (list Z)) : Prop :=
  match cs with
  | [] => True
  | c :: cs' =>
      inode_in_image image h idx /\ dir_ok image (blocks_direct (inode_at image h idx)) /\
      forall i, find_name c (dir_entries image (blocks_direct (inode_at image h idx))) = Some i -> dirs_on_path image h i cs'
  end.

(** ** Lemmas *)

Lemma until_nul_cstr nm : 0 ∈ nm -> cstr (until_nul nm) nm.
Proof.
  induction nm as [|c nm IH]; [by rewrite elem_of_nil|]. rewrite elem_of_cons. cbn [until_nul].
  destruct (Z.eqb_spec c 0) as [->|Hc].
  - intros _. split; [constructor|]. by exists nm.
  - intros [<-|Hin]; [done|]. destruct (IH Hin) as [Hall [rest E]]. split; [by constructor|]. exists rest. by rewrite E at 1.
Qed.

Lemma component_cstr c : component_ok c -> cstr c (c ++ [0]).
Proof. intros (_ & _ & Hc). split; [|by exists []]. eapply list.Forall_impl; [exact Hc|]. cbn. tauto. Qed.

(** The first component of a path, with the rest behind its separator. *)
Lemma path_component_run c : forall rest (len : nat), Forall (fun ch => ch <> 47 /\ ch <> 0) c -> (len + length c <= 123)%nat ->
  path_component (c ++ 47 :: rest) len = Some (c, rest) /\ path_component c len = Some (c, []).
Proof.
  induction c as [|ch c IH]; intros rest len Hc Hlen; cbn [app path_component]; [done|].
  apply list.Forall_cons in Hc as [[Hch _] Hc]. cbn [length] in Hlen. destruct (Z.eqb_spec ch 47); [done|].
  change (Z.to_nat (BSFS_MAX_DIRENTNAME - 1)) with 123%nat. rewrite (proj2 (Nat.leb_gt 123 len)) by lia.
  destruct (IH rest (S len) Hc ltac:(lia)) as [-> ->]. done.
Qed.

Section resolving.
Context {D : Type} (context : BsfsContext D) (image : list Z) (good : D -> Prop).
Context (Hgeo : geometry context image good) (Hscratch : 4096 <= scratch_buf_capacity context).
Let h := header context.

Lemma read_scratch_run d lba n : good d -> 0 <= lba -> 0 < n <= 8 -> (lba + n) * 512 <= Z.of_nat (length image) ->
  exists d', read_scratch context lba n d = Ok (Some (slice image (lba * 512) (n * 512)), d') /\ good d'.
Proof using Hgeo Hscratch.
  intros Hd Hl Hn Hlen. destruct (geo_disk _ _ _ Hgeo d lba n Hd Hl Hn Hlen) as (d' & E & Hd'). exists d'. split; [|done].
  unfold read_scratch. rewrite (bind_run _ _ _ _ _ E). rewrite length_slice by lia. by rewrite (proj2 (Z.ltb_ge _ _)) by lia.
Qed.

Lemma read_inode_run d idx : good d -> inode_in_image image h idx ->
  exists d', bsfs_read_inode context idx d = Ok ((0, Some (inode_at image h idx)), d') /\ good d'.
Proof using Hgeo Hscratch.
  intros Hd (Hs & Hi & Hlen). pose proof (geo_image _ _ _ Hgeo) as Him. unfold bsfs_read_inode. fold h.
  change sizeof_BsfsInode with 128. rewrite (geo_block _ _ _ Hgeo : block_size h = 4096), (geo_sector _ _ _ Hgeo).
  set (start := inode_table_start h) in *. set (off := start * 4096 + 128 * idx) in *.
  assert (off < 2 ^ 32) as Hoff by (clear - Hlen Him; dlia).
  rewrite (u32_id (start * 4096)), (u32_id (start * 4096 + 128 * idx)) by lia. fold off.
  destruct (read_scratch_run d (off / 512) 1 Hd) as (d' & E & Hd'); [clear - Hs Hi off; dlia|lia|lia|].
  exists d'. split; [|done]. rewrite (bind_run _ _ _ _ _ E). change (1 * 512) with 512.
  assert (off mod 512 / 128 * 128 = off mod 512) as Hal.
  { unfold off. replace (start * 4096 + 128 * idx) with (128 * (idx + start * 32)) by lia. clear. dlia. }
  unfold lift. munfold. rewrite buf_read_Ok; [|rewrite Hal; clear; dlia|lia|rewrite Hal, length_slice by (clear - Hs Hi Hlen off; dlia); clear - Hal; dlia].
  unfold inode_at. fold start. fold off. rewrite Hal, slice_slice by (clear - Hs Hi off Hal; dlia).
  by replace (off / 512 * 512 + off mod 512) with off by (clear; dlia).
Qed.

(** The search through the entries of one block. *)
Lemma find_dirent_run b nm n : forall d, component_ok nm -> 0 <= d -> d + Z.of_nat n <= 32 -> 0 <= b -> (b + 1) * 4096 <= Z.of_nat (length image) ->
  Forall (fun e => 0 ∈ name e) ((fun d => parse_dirent (slice image (b * 4096 + d * 128) 128)) <$> seqZ d (Z.of_nat n)) ->
  find_dirent n (slice image (b * 4096) 4096) d (nm ++ [0]) =
    Ok (find_name nm ((fun d => parse_dirent (slice image (b * 4096 + d * 128) 128)) <$> seqZ d (Z.of_nat n))).
Proof using Type.
  induction n as [|n IH]; intros d Hnm Hd Hn Hb Hlen Hnul; [done|]. rewrite seqZ_cons in Hnul |- * by lia.
  replace (Z.pred (Z.of_nat (S n))) with (Z.of_nat n) in Hnul |- * by lia. rewrite fmap_cons in Hnul |- *. apply list.Forall_cons in Hnul as [H0 Hnul].
  cbn [find_dirent]. change sizeof_BsfsDirent with 128.
  rewrite buf_read_Ok by (rewrite ?length_slice; lia). rewrite slice_slice by lia. cbv [mbind outcome_bind].
  destruct (strcmp_cstr _ _ _ _ (until_nul_cstr _ H0) (component_cstr nm Hnm)) as (v & -> & Hv). cbn [find_name].
  destruct (decide (until_nul _ = nm)) as [E|E].
  - by rewrite (proj2 Hv E).
  - destruct (Z.eqb_spec v 0) as [->|_]; [exfalso; apply E; by apply Hv|]. replace (Z.succ d) with (d + 1) in Hnul |- * by lia. apply IH; done || lia.
Qed.

Lemma find_name_app nm l l' : find_name nm (l ++ l') = match find_name nm l with Some i => Some i | None => find_name nm l' end.
Proof using Type. induction l as [|d l IH]; [done|]. cbn [app find_name]. by case_decide. Qed.

Lemma find_in_blocks_run nm blks : forall d, good d -> component_ok nm -> dir_ok image blks ->
  exists d', find_in_blocks context blks (nm ++ [0]) d = Ok (Some (find_name nm (dir_entries image blks)), d') /\ good d'.
Proof using Hgeo Hscratch.
  induction blks as [|b blks IH]; intros d Hd Hnm [Hb Hnul]; cbn [find_in_blocks]; [by exists d|].
  apply list.Forall_cons in Hb as [[Hb0 Hb] Hbs]. unfold dir_entries in Hnul |- *. rewrite bind_cons in Hnul |- *.
  fold (dir_entries image blks) in Hnul |- *. apply list.Forall_app in Hnul as [Hnul Hnuls].
  destruct (Z.eqb_spec b 0) as [->|Hbz]; [by apply IH|]. destruct Hb as [?|Hb]; [done|]. pose proof (geo_image _ _ _ Hgeo) as Him.
  rewrite (geo_block _ _ _ Hgeo), (geo_sector _ _ _ Hgeo), u32_id by lia. replace (b * 4096 / 512) with (b * 8) by (clear; dlia).
  change (4096 / 512) with 8. destruct (read_scratch_run d (b * 8) 8 Hd) as (d1 & E1 & Hd1); [lia|lia|lia|].
  rewrite (bind_run _ _ _ _ _ E1). change (8 * 512) with 4096. replace (b * 8 * 512) with (b * 4096) by lia.
  change (Z.to_nat (4096 / sizeof_BsfsDirent)) with 32%nat. change (block_entries image b) with ((fun d => parse_dirent (slice image (b * 4096 + d * 128) 128)) <$> seqZ 0 (Z.of_nat 32)) in *.
  unfold lift. munfold. rewrite find_dirent_run by (done || lia). rewrite find_name_app.
  destruct (find_name nm (_ <$> _)) as [i|]; [by exists d1|]. apply IH; done.
Qed.

(** What is left of a path behind a separator. *)
Definition path_tail (cs : list (list Z)) : list Z := match cs with [] => [] | c :: cs' => c ++ join_path cs' end.

Lemma resolve_loop_run cs : forall idx fuel d, good d -> Forall component_ok cs -> dirs_on_path image h idx cs -> (length (path_tail cs) <= fuel)%nat ->
  exists d', resolve_loop context fuel (path_tail cs) idx d = Ok (default UINT32_MAX (lookup_path image h idx cs), d') /\ good d'.
Proof using Hgeo Hscratch.
  induction cs as [|c cs IH]; intros idx fuel d Hd Hcs Hdirs Hfuel.
  { exists d. destruct fuel; done. }
  apply list.Forall_cons in Hcs as [Hc Hcs]. destruct Hdirs as (Hin & Hdir & Hnext). pose proof Hc as (Hne & Hlen & Hch).
  assert (path_component (path_tail (c :: cs)) 0 = Some (c, path_tail cs)) as Hcomp.
  { destruct (path_component_run c (path_tail cs) 0 Hch ltac:(lia)) as [H1 H2]. destruct cs as [|c' cs]; [|exact H1].
    cbn [path_tail join_path]. unfold join_path. cbn. by rewrite app_nil_r. }
  assert (S (length (path_tail cs)) <= length (path_tail (c :: cs)))%nat as Hshort.
  { cbn [path_tail]. rewrite length_app. destruct c as [|ch c]; [done|]. destruct cs as [|c' cs]; [cbn; lia|]. unfold join_path. rewrite bind_cons. cbn [path_tail length app]. fold (join_path cs). rewrite length_app. lia. }
  destruct fuel as [|fuel]; [lia|]. cbn [lookup_path]. cbn [resolve_loop]. rewrite Hcomp.
  destruct (path_tail (c :: cs)) as [|x l] eqn:Ex; [cbn in Hshort; lia|].
  destruct (read_inode_run d idx Hd Hin) as (d1 & E1 & Hd1). rewrite (bind_run _ _ _ _ _ E1).
  destruct (find_in_blocks_run c _ d1 Hd1 Hc Hdir) as (d2 & E2 & Hd2). rewrite (bind_run _ _ _ _ _ E2).
  destruct (find_name c _) as [i|] eqn:Ef; [|by exists d2]. apply IH; [done..|by apply Hnext|lia].
Qed.

Lemma resolve_path_run cs d : good d -> cs <> [] -> Forall component_ok cs -> dirs_on_path image h (root_inode h) cs ->
  exists d', bsfs_resolve_path context (join_path cs) d = Ok (default UINT32_MAX (lookup_path image h (root_inode h) cs), d') /\ good d'.
Proof using Hgeo Hscratch.
  intros Hd Hne Hcs Hdirs. destruct cs as [|c cs]; [done|]. unfold bsfs_resolve_path, join_path. rewrite bind_cons. cbn [app].
  change (c ++ (cs ≫= λ c0, 47 :: c0)) with (path_tail (c :: cs)). cbn [Z.eqb negb]. by apply resolve_loop_run.
Qed.
End resolving.

(** ** Theorems *)

(** The record [bsfs_fopen] leaves for a file. *)
Definition opened (f : BsfsFile) (ino : BsfsInode) : BsfsFile :=
  {| f_inode := Some ino; buf := buf f; bufsize := bufsize f; position := 0; cached_block := UINT32_MAX;
     l1_table := l1_table f; cached_l1 := UINT32_MAX; cached_l2 := UINT32_MAX; cached_l3 := UINT32_MAX; eof := false |}.

(** The code of [bsfs_fopen] for an inode and the size of the buffer. *)
Definition fopen_code (ino : BsfsInode) (size_ : Z) : Z :=
  if negb (type ino =? BSFS_INODE_TYPE_FILE) then BSFS_FOPEN_NOT_A_FILE else
  if size_ <? 4096 then BSFS_FOPEN_BUF_TOO_SMALL else
  if negb (size_ mod 4096 =? 0) then BSFS_FOPEN_BUF_UNALIGNED else 0.

Lemma fopen_run {D} (context : BsfsContext D) image (good : D -> Prop) cs f d :
  geometry context image good -> 4096 <= scratch_buf_capacity context -> good d -> cs <> [] -> Forall component_ok cs ->
  dirs_on_path image (header context) (root_inode (header context)) cs ->
  (forall idx, lookup_path image (header context) (root_inode (header context)) cs = Some idx -> idx <> UINT32_MAX /\ inode_in_image image (header context) idx) ->
  exists code f' d', bsfs_fopen context (join_path cs) f d = Ok ((code, f'), d') /\ good d' /\
    match lookup_path image (header context) (root_inode (header context)) cs with
    | None => code = BSFS_FOPEN_NOT_A_FILE /\ f' = f
    | Some idx => code = fopen_code (inode_at image (header context) idx) (bufsize f) /\
        (code = 0 -> f' = opened f (inode_at image (header context) idx))
    end.
Proof.
  intros Hgeo Hscr Hd Hne Hcs Hdirs Hidx. destruct (resolve_path_run context image good Hgeo Hscr cs d Hd Hne Hcs Hdirs) as (d1 & E1 & Hd1).
  unfold bsfs_fopen. rewrite (bind_run _ _ _ _ _ E1). destruct (lookup_path _ _ _ cs) as [idx|].
  2: { exists BSFS_FOPEN_NOT_A_FILE, f, d1. done. }
  destruct (Hidx idx eq_refl) as [Hmax Hin]. change (default UINT32_MAX (Some idx)) with idx. cbv beta. rewrite (proj2 (Z.eqb_neq idx UINT32_MAX)) by done.
  destruct (read_inode_run context image good Hgeo Hscr d1 idx Hd1 Hin) as (d2 & E2 & Hd2). rewrite (bind_run _ _ _ _ _ E2).
  set (ino := inode_at image (header context) idx). rewrite (geo_block _ _ _ Hgeo). unfold fopen_code.
  destruct (negb (type ino =? BSFS_INODE_TYPE_FILE)); [by eexists _, _, d2|].
  destruct (bufsize f <? 4096); [by eexists _, _, d2|]. destruct (negb (bufsize f mod 4096 =? 0)); [by eexists _, _, d2|].
  by exists 0, (opened f ino), d2.
Qed.

(** The buffers of the record: one block for the data, one for the table. *)
Definition buffers_ok (f : BsfsFile) : Prop :=
  (4096 <= length (buf f))%nat /\ bufsize f = 4096 /\ (4096 <= length (l1_table f))%nat.

Lemma opened_ok image ino f : inode_on_disk image ino -> buffers_ok f -> file_ok image ino (opened f ino).
Proof.
  intros Hino (Hb & Hs & Hl). pose proof (iod_size _ _ Hino). split; cbn [opened f_inode buf bufsize position l1_table cached_block cached_l1]; try done;
    [rewrite Hs; lia|lia|by left|by left].
Qed.

(** C17: resolving a path equals looking its components up one after the other, from the
    root directory, in the lists of entries of the directories on the disk: the result is
    the inode of the last component, or UINT32_MAX when an entry is missing.  An entry of
    inode 0, which BSFS.md calls a free slot, is found like any other.  It holds for every
    disk that serves the image and every path of names of 1 to 123 characters whose
    directories are intact; the search always ends. *)
Theorem bsfs_resolve_path_correct {D : Type} (context : BsfsContext D) (image : list Z) (good : D -> Prop) (cs : list (list Z)) (d : D)
  (Hgeo : geometry context image good) (Hscratch : 4096 <= scratch_buf_capacity context) (Hd : good d)
  (Hne : cs <> []) (Hnames : Forall component_ok cs) (Hdirs : dirs_on_path image (header context) (root_inode (header context)) cs) :
  exists d', bsfs_resolve_path context (join_path cs) d =
    Ok (default UINT32_MAX (lookup_path image (header context) (root_inode (header context)) cs), d') /\ good d'.
Proof. by apply resolve_path_run. Qed.

(** C18: opening a file by its path, under the conditions of its resolution: a missing entry and an inode that is no file give
    BSFS_FOPEN_NOT_A_FILE (the code for a missing file, BSFS_FOPEN_FILE_NOTFOUND, is never
    returned), a buffer smaller than a block or not a multiple of it its own
    code; otherwise the code is 0 and the record holds the inode the path leads to, at
    position 0 with empty caches. *)
Theorem bsfs_fopen_correct {D : Type} (context : BsfsContext D) (image : list Z) (good : D -> Prop) (cs : list (list Z)) (f : BsfsFile) (d : D)
  (Hgeo : geometry context image good) (Hscratch : 4096 <= scratch_buf_capacity context) (Hd : good d)
  (Hne : cs <> []) (Hnames : Forall component_ok cs) (Hdirs : dirs_on_path image (header context) (root_inode (header context)) cs)
  (Htarget : forall idx, lookup_path image (header context) (root_inode (header context)) cs = Some idx ->
     idx <> UINT32_MAX /\ inode_in_image image (header context) idx) :
  exists code f' d', bsfs_fopen context (join_path cs) f d = Ok ((code, f'), d') /\ good d' /\
    match lookup_path image (header context) (root_inode (header context)) cs with
    | None => code = BSFS_FOPEN_NOT_A_FILE /\ f' = f
    | Some idx => code = fopen_code (inode_at image (header context) idx) (bufsize f) /\
        (code = 0 -> f' = opened f (inode_at image (header context) idx))
    end.
Proof. by apply fopen_run. Qed.

(** ** Witnesses: an image of four blocks

    Block 1 is the inode table: inode 1 is the root directory, in block 2, and inode 2 a
    file, in block 3.  The root has one entry, "a", for the file; the file happens to
    hold the bytes of a directory entry, "b", for inode 7. *)
Definition dir_inode (ty b : Z) : BsfsInode :=
  {| type := ty; permissions := 6; uid := 0; gid := 0; BsfsTypes.size := 128; blocks := 1; created := 0; modified := 0;
     accessed := 0; link_count := 1; blocks_direct := b :: replicate 9 0; blocks_l1indirect := 0;
     blocks_l2indirect := 0; blocks_l3indirect := 0; checksum := 0; inode_reserved := replicate 21 0 |}.

Definition one_entry (c idx : Z) : list Z :=
  dirent_bytes {| inode := idx; name := c :: replicate 123 0 |} ++ replicate (31 * 128) 0.

(** A directory block of one entry with a longer name. *)
Definition named_entry (nm : list Z) (idx : Z) : list Z :=
  dirent_bytes {| inode := idx; name := nm ++ replicate (124 - length nm) 0 |} ++ replicate (31 * 128) 0.

Definition path_image : list Z :=
  replicate 4096 0 ++
  (replicate 128 0 ++ inode_bytes (dir_inode BSFS_INODE_TYPE_DIRECTORY 2) ++ inode_bytes (dir_inode BSFS_INODE_TYPE_FILE 3) ++ replicate (29 * 128) 0) ++
  one_entry 97 2 ++ one_entry 98 7.

Definition path_header : BsfsHeader :=
  {| bootjmp := [0xEB; 0x3C; 0x90]; magic := BSFS_MAGIC; version := BSFS_VERSION; block_size := 4096;
     total_blocks := 4; inode_count := 32; free_blocks := 0; free_inodes := 29; block_bitmap_start := 0;
     block_bitmap_blocks := 0; megablock_bitmap_start := 0; megablock_bitmap_blocks := 0;
     megablock_bitmap_size := 0; inode_bitmap_start := 0; inode_bitmap_blocks := 0;
     inode_table_start := 1; inode_table_blocks := 1; data_start := 2; root_inode := 1;
     partition_lba := 0; label := replicate 32 0; bootcode := replicate 395 0; bootcode_magic := [0x55; 0xAA] |}.

Definition path_context : BsfsContext unit :=
  {| header := path_header; disk_ops := image_ops path_image; phys_sector_size := 512; scratch_buf_capacity := 4096 |}.

Lemma path_image_length : Z.of_nat (length path_image) = 16384.
Proof. vm_compute. reflexivity. Qed.

Lemma path_geometry : geometry path_context path_image (fun _ => True).
Proof. split; [done|done|rewrite path_image_length; lia|apply image_ops_serves]. Qed.

Lemma path_dirs : dirs_on_path path_image path_header 1 [[97]] /\ Forall component_ok [[97]].
Proof.
  split.
  - split; [unfold inode_in_image; rewrite path_image_length; vm_compute; intuition congruence|]. split; [|done]. split.
    + apply (bool_decide_unpack _). vm_compute. exact I.
    + apply (bool_decide_unpack _). vm_compute. exact I.
  - constructor; [|constructor]. split; [done|]. split; [cbn; lia|]. constructor; [lia|constructor].
Qed.

Lemma bsfs_resolve_path_correct_witness : exists d', bsfs_resolve_path path_context [47; 97] tt = Ok (2, d').
Proof.
  destruct (bsfs_resolve_path_correct path_context path_image (fun _ => True) [[97]] tt path_geometry ltac:(cbn; lia) I ltac:(done)
    (proj2 path_dirs) (proj1 path_dirs)) as (d' & E & _).
  exists d'. assert (lookup_path path_image path_header 1 [[97]] = Some 2) as El by (vm_compute; reflexivity).
  change (join_path [[97]]) with [47; 97] in E. change (header path_context) with path_header in E. change (root_inode path_header) with 1 in E.
  rewrite El in E. exact E.
Defined.

Lemma bsfs_fopen_correct_witness : exists f' d', bsfs_fopen path_context [47; 97] read_file tt = Ok ((0, f'), d').
Proof.
  assert (lookup_path path_image path_header 1 [[97]] = Some 2) as El by (vm_compute; reflexivity).
  destruct (bsfs_fopen_correct path_context path_image (fun _ => True) [[97]] read_file tt path_geometry ltac:(cbn; lia) I ltac:(done)
    (proj2 path_dirs) (proj1 path_dirs)) as (code & f' & d' & E & _ & Hcode).
  - change (header path_context) with path_header. change (root_inode path_header) with 1. intros idx Hidx. rewrite El in Hidx. injection Hidx as <-.
    split; [done|]. unfold inode_in_image. rewrite path_image_length. vm_compute. intuition congruence.
  - change (header path_context) with path_header in Hcode. change (root_inode path_header) with 1 in Hcode. rewrite El in Hcode. destruct Hcode as [Hc _].
    assert (fopen_code (inode_at path_image path_header 2) (bufsize read_file) = 0) as E0 by (vm_compute; reflexivity). rewrite E0 in Hc. subst code.
    exists f', d'. exact E.
Defined.

(** The type of the inodes on the way is not checked: a path through a regular file is
    resolved by reading the bytes of the file as directory entries. *)
Theorem resolve_through_file : bsfs_resolve_path path_context [47; 97; 47; 98] tt = Ok (7, tt) /\
  type (inode_at path_image path_header 2) = BSFS_INODE_TYPE_FILE.
Proof. vm_compute. split; reflexivity. Qed.

(** A component may be empty; it matches the first unused entry of the directory, so a
    doubled separator leads to the inode with index 0. *)
Theorem resolve_empty_component : bsfs_resolve_path path_context [47; 47] tt = Ok (0, tt).
Proof. vm_compute. reflexivity. Qed.
