(* ===== verification/Elf.v ===== *)
(** * ELF loader

    [kernel/kernel/elf.c] and [include/common/elf.h]: the headers, the checks and
    [elf64_load_executable], over a disk (through the BSFS reader) and the memory of
    the process that is loaded (the [KernelMemory] interface: [pmm_alloc], [vmm_map]
    into its page map, stores to the frames through the direct map).  The header
    buffer of the caller and the local program header are the bytes they hold before
    they are read into, since a short read fills only a part of them. *)
From Stdlib Require Import ZArith Lia.
From stdpp Require Import base tactics list numbers gmap.
From S2P Require Import Prelude Common Memory Interfaces Vmm KernelMemory CString BsfsTypes BsfsFile.

Open Scope Z_scope.

Definition PT_LOAD : Z := 0x01.

Definition ELF_LOAD_READ_ERROR : Z := -1.
Definition ELF_LOAD_SEEK_ERROR : Z := -2.
Definition ELF_LOAD_INVALID_ELF_MAGIC : Z := -3.
Definition ELF_LOAD_NOT_ELF64 : Z := -4.
Definition ELF_LOAD_NOT_LITTLE_ENDIAN : Z := -5.
Definition ELF_LOAD_NOT_EXECUTABLE : Z := -6.
Definition ELF_LOAD_MALFORMED : Z := -7.
Definition ELF_LOAD_FILESZ_EXCEEDS_MEMSZ : Z := -8.
Definition ELF_LOAD_PHENTSIZE_MISMATCH : Z := -9.

(** The messages of [elf64_strerror], as an enumeration. *)
Inductive elf_message :=
| elf_unable_to_read | elf_unable_to_seek | elf_invalid_magic | elf_not_elf64 | elf_not_little_endian
| elf_not_executable | elf_malformed | elf_filesz_exceeds_memsz | elf_phentsize_mismatch | elf_unknown_error.

Definition elf64_strerror (err : Z) : elf_message :=
  if err =? ELF_LOAD_READ_ERROR then elf_unable_to_read else
  if err =? ELF_LOAD_SEEK_ERROR then elf_unable_to_seek else
  if err =? ELF_LOAD_INVALID_ELF_MAGIC then elf_invalid_magic else
  if err =? ELF_LOAD_NOT_ELF64 then elf_not_elf64 else
  if err =? ELF_LOAD_NOT_LITTLE_ENDIAN then elf_not_little_endian else
  if err =? ELF_LOAD_NOT_EXECUTABLE then elf_not_executable else
  if err =? ELF_LOAD_MALFORMED then elf_malformed else
  if err =? ELF_LOAD_FILESZ_EXCEEDS_MEMSZ then elf_filesz_exceeds_memsz else
  if err =? ELF_LOAD_PHENTSIZE_MISMATCH then elf_phentsize_mismatch else
  elf_unknown_error.

Record Elf64Ehdr := {
  e_ident : list Z;
  e_type : Z;
  e_machine : Z;
  e_version : Z;
  e_entry : Z;
  e_phoff : Z;
  e_shoff : Z;
  e_flags : Z;
  e_ehsize : Z;
  e_phentsize : Z;
  e_phnum : Z;
  e_shentsize : Z;
  e_shnum : Z;
  e_shstrndx : Z;
}.

Record Elf64Phdr := {
  p_type : Z;
  p_flags : Z;
  p_offset : Z;
  p_vaddr : Z;
  p_paddr : Z;
  p_filesz : Z;
  p_memsz : Z;
  p_align : Z;
}.

Definition sizeof_Elf64Ehdr : Z := 64.
Definition sizeof_Elf64Phdr : Z := 56.

(** The packed structures read from their bytes. *)
Definition word_at (bs : list Z) (off n : Z) : Z := le_word (slice bs off n).

Definition parse_ehdr (bs : list Z) : Elf64Ehdr :=
  {| e_ident := slice bs 0 16; e_type := word_at bs 16 2; e_machine := word_at bs 18 2;
     e_version := word_at bs 20 4; e_entry := word_at bs 24 8; e_phoff := word_at bs 32 8;
     e_shoff := word_at bs 40 8; e_flags := word_at bs 48 4; e_ehsize := word_at bs 52 2;
     e_phentsize := word_at bs 54 2; e_phnum := word_at bs 56 2; e_shentsize := word_at bs 58 2;
     e_shnum := word_at bs 60 2; e_shstrndx := word_at bs 62 2 |}.

Definition parse_phdr (bs : list Z) : Elf64Phdr :=
  {| p_type := word_at bs 0 4; p_flags := word_at bs 4 4; p_offset := word_at bs 8 8;
     p_vaddr := word_at bs 16 8; p_paddr := word_at bs 24 8; p_filesz := word_at bs 32 8;
     p_memsz := word_at bs 40 8; p_align := word_at bs 48 8 |}.

Definition ident (hdr : Elf64Ehdr) (i : nat) : Z := default 0 (e_ident hdr !! i).

Definition elf64_check_magic (hdr : Elf64Ehdr) : bool :=
  (ident hdr 0 =? 0x7F) && (ident hdr 1 =? 0x45) && (ident hdr 2 =? 0x4C) && (ident hdr 3 =? 0x46).

Record Elf64LoadResult := LoadResult {
  result : Z;
  top : Z;
}.

(** The checks on the header, in the order of the code. *)
Definition check_ehdr (hdr : Elf64Ehdr) : option Z :=
  if negb (elf64_check_magic hdr) then Some ELF_LOAD_INVALID_ELF_MAGIC else
  if negb (ident hdr 4 =? 0x02) then Some ELF_LOAD_NOT_ELF64 else
  if negb (ident hdr 5 =? 0x01) then Some ELF_LOAD_NOT_LITTLE_ENDIAN else
  if negb (e_type hdr =? 0x02) then Some ELF_LOAD_NOT_EXECUTABLE else
  if negb (e_phentsize hdr =? sizeof_Elf64Phdr) then Some ELF_LOAD_PHENTSIZE_MISMATCH else
  None.

Section loader.
Context {D H : Type} {lo hi : Z} `{KernelMemory lo hi H} (context : BsfsContext D).

(** The disk and the memory. *)
Abbreviation machine := (D * H)%type.

Definition on_disk {A} (m : M D A) : M machine A := fun '(d, h) =>
  match m d with
  | Ok (a, d') => Ok (a, (d', h))
  | Panic => Panic
  | Fault => Fault
  | OutOfFuel => OutOfFuel
  end.

Definition on_memory {A} (m : M H A) : M machine A := fun '(d, h) =>
  match m h with
  | Ok (a, h') => Ok (a, (d, h'))
  | Panic => Panic
  | Fault => Fault
  | OutOfFuel => OutOfFuel
  end.

(** The bytes of a buffer after a read stored [bytes] at its front. *)
Definition filled (buffer bytes : list Z) : list Z := bytes ++ drop (length bytes) buffer.

(** One turn of the page loop: an error code, or the bytes that remain. *)
Definition load_page (phdr : Elf64Phdr) (virt_start addr remaining : Z) (file : BsfsFile)
    : M machine (sum Z Z * BsfsFile) :=
  let offset := if addr =? virt_start then p_vaddr phdr mod VMM_DEFAULT_PAGE_SIZE else 0 in
  phys_page ← on_memory km_alloc;
  _ ← on_memory (km_map phys_page addr VMM_FLAGS_USER_CODE);
  let virt_page := phys_to_virt phys_page in
  _ ← on_memory (km_poke (virt_to_phys virt_page) (replicate (Z.to_nat VMM_DEFAULT_PAGE_SIZE) 0));
  if 0 <? remaining then
    let count := if remaining <? VMM_DEFAULT_PAGE_SIZE then remaining - offset else VMM_DEFAULT_PAGE_SIZE - offset in
    '(read, bytes, file) ← on_disk (bsfs_fread context 1 (u32 count) file);
    _ ← on_memory (km_poke (virt_to_phys (u64 (virt_page + offset))) bytes);
    if s32 read <? 0 then mret (inl ELF_LOAD_READ_ERROR, file) else
    mret (inr (s64 (remaining - s32 read)), file)
  else mret (inr remaining, file).

(** [n] pages from [addr] on. *)
Fixpoint load_pages (n : nat) (phdr : Elf64Phdr) (virt_start addr remaining : Z) (file : BsfsFile)
    : M machine (option Z * BsfsFile) :=
  match n with
  | O => mret (None, file)
  | S n' =>
      '(r, file) ← load_page phdr virt_start addr remaining file;
      match r with
      | inl err => mret (Some err, file)
      | inr remaining => load_pages n' phdr virt_start (addr + VMM_DEFAULT_PAGE_SIZE) remaining file
      end
  end.

(** A program header that is loaded: an error code, or the new [top]. *)
Definition load_segment (phdr : Elf64Phdr) (top_ : Z) (file : BsfsFile) : M machine (sum Z Z * BsfsFile) :=
  let virt_start := ALIGN_DOWN (p_vaddr phdr) VMM_DEFAULT_PAGE_SIZE in
  let virt_end := ALIGN_UP (u64 (p_vaddr phdr + p_memsz phdr)) VMM_DEFAULT_PAGE_SIZE in
  let top_ := if top_ <? virt_end then virt_end else top_ in
  let remaining := s64 (p_filesz phdr) in
  '(r, file) ← lift (bsfs_fseeko file (p_offset phdr) BSFS_FSEEKO_SET);
  if r <? 0 then mret (inl ELF_LOAD_SEEK_ERROR, file) else
  '(e, file) ← load_pages (for_count virt_start virt_end VMM_DEFAULT_PAGE_SIZE) phdr virt_start virt_start remaining file;
  match e with
  | Some err => mret (inl err, file)
  | None => mret (inr top_, file)
  end.

(** [n] program headers from number [ph] on; [stack ph] is what the local variable
    holds before it is read. *)
Fixpoint load_phdrs (n : nat) (hdr : Elf64Ehdr) (stack : Z -> list Z) (ph top_ : Z) (file : BsfsFile)
    : M machine (Elf64LoadResult * BsfsFile) :=
  match n with
  | O => mret (LoadResult 1 top_, file)
  | S n' =>
      let ph_offset := u64 (e_phoff hdr + u64 (ph * e_phentsize hdr)) in
      '(r, file) ← lift (bsfs_fseeko file ph_offset BSFS_FSEEKO_SET);
      if negb (r =? 0) then mret (LoadResult ELF_LOAD_SEEK_ERROR 0, file) else
      '(read, bytes, file) ← on_disk (bsfs_fread context sizeof_Elf64Phdr 1 file);
      if s32 read <? 0 then mret (LoadResult ELF_LOAD_READ_ERROR 0, file) else
      let phdr := parse_phdr (filled (stack ph) bytes) in
      if p_memsz phdr <? p_filesz phdr then mret (LoadResult ELF_LOAD_FILESZ_EXCEEDS_MEMSZ 0, file) else
      if p_type phdr =? PT_LOAD then
        '(r, file) ← load_segment phdr top_ file;
        match r with
        | inl err => mret (LoadResult err 0, file)
        | inr top_ => load_phdrs n' hdr stack (ph + 1) top_ file
        end
      else load_phdrs n' hdr stack (ph + 1) top_ file
  end.

(** The result, the header the caller gets, and the file. *)
Definition elf64_load_executable (file : BsfsFile) (out_header : list Z) (stack : Z -> list Z)
    : M machine (Elf64LoadResult * list Z * BsfsFile) :=
  '(read, bytes, file) ← on_disk (bsfs_fread context sizeof_Elf64Ehdr 1 file);
  let out_header := filled out_header bytes in
  if s32 read <? 0 then mret (LoadResult ELF_LOAD_READ_ERROR 0, out_header, file) else
  let hdr := parse_ehdr out_header in
  match check_ehdr hdr with
  | Some err => mret (LoadResult err 0, out_header, file)
  | None =>
      '(r, file) ← lift (bsfs_fseeko file (e_phoff hdr) BSFS_FSEEKO_SET);
      if r <? 0 then mret (LoadResult ELF_LOAD_MALFORMED 0, out_header, file) else
      '(res, file) ← load_phdrs (Z.to_nat (e_phnum hdr)) hdr stack 0 0 file;
      mret (res, out_header, file)
  end.
End loader.
