(* ===== verification/ElfTheorems.v ===== *)
(** * Correctness of the ELF loader

    Loading an executable whose segments are page aligned: afterwards the process
    sees every byte of every segment, the file's bytes followed by zeros, and nothing
    that was mapped before has changed.  The result covers the BSFS reader, the page
    allocator and the page tables the loader goes through. *)
From Stdlib Require Import ZArith Lia.
From stdpp Require Import base tactics list numbers gmap.
From S2P Require Import Prelude Common Memory Interfaces Bitmap Pmm Vmm PageTables VmmProofs VmmTheorems KernelMemory CString BsfsTypes BsfsFile BsfsRead Elf.

Open Scope Z_scope.

Section loading.
Context {D H : Type} {lo hi : Z} `{KernelMemory lo hi H} (context : BsfsContext D).
Context (image : list Z) (good : D -> Prop) (ino : BsfsInode).
Context (Hgeo : geometry context image good) (Hino : inode_on_disk image ino) (Hbytes : bytes_ok image).
Implicit Types (f : BsfsFile) (w : window) (d : D) (h : H).

(** ** Reading the file *)

Lemma seek_run f off : file_ok image ino f -> 0 <= off <= size ino ->
  exists f', bsfs_fseeko f off BSFS_FSEEKO_SET = Ok (0, f') /\ file_ok image ino f' /\ position f' = off.
Proof.
  intros Hf Ho. unfold bsfs_fseeko. rewrite (fo_inode _ _ _ Hf). eexists. split; [done|].
  assert (forall p e, 0 <= p <= size ino -> file_ok image ino (with_position f p e)) as Hw.
  { intros p e Hp. destruct Hf as [H1 H2 H3 H4 H5 H6 H7]. by split. }
  destruct (Z.leb_spec (size ino) off); (split; [by apply Hw; lia|cbn; lia]).
Qed.

Lemma length_file_bytes pos n : 0 <= n -> Z.of_nat (length (file_bytes image ino pos n)) = n.
Proof. intros. unfold file_bytes. rewrite length_fmap, length_seqZ. lia. Qed.

Lemma file_byte_ok k : is_byte (file_byte image ino k).
Proof.
  unfold file_byte. destruct (image !! _) as [b|] eqn:E; cbn; [by eapply (Forall_lookup_1 is_byte)|by unfold is_byte].
Qed.

Lemma file_bytes_ok pos n : bytes_ok (file_bytes image ino pos n).
Proof. unfold file_bytes. apply Forall_fmap, Forall_true. intros k. apply file_byte_ok. Qed.

Lemma file_bytes_lookup pos n i : 0 <= i < n -> file_bytes image ino pos n !! Z.to_nat i = Some (file_byte image ino (pos + i)).
Proof.
  intros Hi. unfold file_bytes. rewrite list_lookup_fmap, lookup_seqZ_lt by lia. cbn. do 2 f_equal. lia.
Qed.

Lemma s32_id x : 0 <= x < 2 ^ 31 -> s32 x = x.
Proof. intros. unfold s32. rewrite Z.mod_small by lia. lia. Qed.
Lemma s64_id x : 0 <= x < 2 ^ 63 -> s64 x = x.
Proof. intros. unfold s64. rewrite Z.mod_small by lia. lia. Qed.

(** A read inside one block and inside the file. *)
Lemma read_run f d size_ count : good d -> file_ok image ino f -> 0 <= size_ * count ->
  position f mod 4096 + size_ * count <= 4096 -> position f + size_ * count <= size ino ->
  exists f' d', bsfs_fread context size_ count f d = Ok ((size_ * count, file_bytes image ino (position f) (size_ * count), f'), d') /\
    good d' /\ file_ok image ino f' /\ position f' = position f + size_ * count.
Proof.
  intros Hd Hf Hn Hfit Hsz. destruct (fread_run context image good Hgeo ino f d size_ count Hd Hino Hf Hn Hfit)
    as (f' & d' & Hrun & Hd' & Hf' & Hp & _). rewrite Z.min_l in Hrun, Hp by lia. eauto 10.
Qed.

Lemma on_disk_run {A} (m : M D A) d h a d' : m d = Ok (a, d') -> on_disk m (d, h) = Ok (a, (d', h)).
Proof. intros E. unfold on_disk. by rewrite E. Qed.
Lemma on_memory_run {A} (m : M H A) d h a h' : m h = Ok (a, h') -> on_memory m (d, h) = Ok (a, (d, h')).
Proof. intros E. unfold on_memory. by rewrite E. Qed.

(** ** One page *)

Lemma load_page_run phdr vs addr remaining f d h w :
  km_rep h w -> settled w -> (4 <= w_budget w)%nat -> in_region lo hi addr -> addr mod 4096 = 0 ->
  w_pages w !! addr = None -> p_vaddr phdr mod 4096 = 0 -> 0 <= remaining < 2 ^ 63 ->
  good d -> file_ok image ino f ->
  (0 < remaining -> position f mod 4096 = 0 /\ position f + remaining <= size ino) ->
  let n := Z.min remaining 4096 in
  exists f' d' h' w' p, load_page context phdr vs addr remaining f (d, h) = Ok ((inr (remaining - n), f'), (d', h')) /\
    good d' /\ file_ok image ino f' /\ position f' = position f + n /\ km_rep h' w' /\ settled w' /\
    w_pages w' = <[addr := p]> (w_pages w) /\ w_budget w' = (w_budget w - 4)%nat /\
    (forall x, page_of x <> addr -> w_view w' x = w_view w x) /\
    (forall i, 0 <= i < 4096 -> w_view w' (addr + i) = if i <? n then file_byte image ino (position f + i) else 0).
Proof.
  intros Hr Hset Hbud Hreg Hal Hnone Hva Hrem Hd Hf Hpos n. unfold load_page. change VMM_DEFAULT_PAGE_SIZE with 4096. rewrite Hva.
  assert ((if addr =? vs then 0 else 0) = 0) as -> by (by destruct (addr =? vs)).
  destruct (km_alloc_ok h w Hr Hset) as (p & h1 & E1 & Hpp & Hpo & Hr1); [lia|].
  rewrite (bind_run _ _ _ _ _ (on_memory_run _ d h p h1 E1)).
  set (w1 := Window (w_pages w) ({[p]} ∪ w_owned w) (w_view w) (w_budget w - 1)) in *.
  destruct (km_map_ok h1 w1 p addr VMM_FLAGS_USER_CODE Hr1) as (h2 & m0 & E2 & Hm0 & Hr2);
    [intros v q Hq; apply elem_of_union_r; by eapply Hset|cbn; set_solver|vm_compute; intuition congruence| |done|done|done|cbn; lia|].
  { intros v' Hv'. destruct Hpo. by eapply Hset. }
  rewrite (bind_run _ _ _ _ _ (on_memory_run _ d h1 tt h2 E2)). cbn [w_pages w_owned w_view w_budget w1] in Hm0, Hr2.
  set (w2 := Window _ _ m0 _) in *. pose proof Hpp as [Hp47 _]. rewrite virt_phys_roundtrip by lia.
  assert (w_pages w2 !! addr = Some p /\ p ∈ w_owned w2) as [Hp2 Ho2] by (cbn; rewrite lookup_insert_eq; split; [done|set_solver]).
  destruct (km_poke_ok h2 w2 addr p 0 (replicate (Z.to_nat 4096) 0) Hr2 Hp2 Ho2) as (h3 & E3 & Hr3);
    [lia|rewrite length_replicate; lia|apply Forall_replicate; by unfold is_byte|]. rewrite Z.add_0_r in E3, Hr3.
  rewrite (bind_run _ _ _ _ _ (on_memory_run _ d h2 tt h3 E3)). set (m1 := store m0 addr (replicate (Z.to_nat 4096) 0)) in *.
  assert (settled w2) as Hset2.
  { intros v q. cbn [w_pages w2]. intros [[<- <-]|[_ Hq]]%lookup_insert_Some; [set_solver|]. apply elem_of_union_r. by eapply Hset. }
  assert (forall x, page_of x <> addr -> x < addr \/ addr + 4096 <= x) as Hfar by (intros x Hx; unfold page_of in Hx; dlia).
  assert (forall x, page_of x <> addr -> m1 x = w_view w x) as Hm1.
  { intros x Hx. unfold m1. rewrite store_out by (rewrite length_replicate; specialize (Hfar x Hx); lia). by apply Hm0. }
  assert (forall i, 0 <= i < 4096 -> m1 (addr + i) = 0) as Hz.
  { intros i Hi. unfold m1. replace i with (Z.of_nat (Z.to_nat i)) by lia. apply store_in. apply lookup_replicate_2. lia. }
  destruct (Z.ltb_spec 0 remaining) as [Hlt|Hge].
  - destruct (Hpos Hlt) as [Hpm Hps]. assert ((if remaining <? 4096 then remaining - 0 else 4096 - 0) = n) as -> by (unfold n; destruct (Z.ltb_spec remaining 4096); lia).
    rewrite (u32_id n) by lia. destruct (read_run f d 1 n Hd Hf) as (f' & d' & Er & Hd' & Hf' & Hp'); [lia..|].
    rewrite Z.mul_1_l in Er, Hp'. rewrite (bind_run _ _ _ _ _ (on_disk_run _ d h3 _ d' Er)).
    rewrite Z.add_0_r, (u64_id (phys_to_virt p)) by apply u64_range. rewrite virt_phys_roundtrip by lia.
    destruct (km_poke_ok h3 _ addr p 0 (file_bytes image ino (position f) n) Hr3 Hp2 Ho2) as (h4 & E4 & Hr4);
      [lia|rewrite length_file_bytes; lia|apply file_bytes_ok|]. rewrite Z.add_0_r in E4, Hr4.
    rewrite (bind_run _ _ _ _ _ (on_memory_run _ d' h3 tt h4 E4)). rewrite (s32_id n) by lia. rewrite (proj2 (Z.ltb_ge n 0)) by lia.
    rewrite s64_id by lia. exists f', d', h4. eexists _, p. split; [done|]. split; [done|]. split; [done|]. split; [done|].
    split; [exact Hr4|]. split; [done|]. split; [done|]. split; [cbn; lia|]. cbn [w_view set_view]. split.
    + intros x Hx. rewrite store_out; [by apply Hm1|]. rewrite length_file_bytes by lia. specialize (Hfar x Hx). lia.
    + intros i Hi. destruct (Z.ltb_spec i n).
      * replace i with (Z.of_nat (Z.to_nat i)) at 1 by lia. apply store_in. rewrite file_bytes_lookup by lia. done.
      * rewrite store_out; [by apply Hz|]. rewrite length_file_bytes by lia. lia.
  - assert (n = 0) as -> by lia. assert (remaining = 0) as -> by lia. exists f, d, h3. eexists _, p. split; [done|]. split; [done|].
    split; [done|]. split; [lia|]. split; [exact Hr3|]. split; [done|]. split; [done|]. split; [cbn; lia|].
    cbn [w_view set_view]. split; [done|]. intros i Hi. rewrite (proj2 (Z.ltb_ge i 0)) by lia. by apply Hz.
Qed.

(** ** One segment *)

(** What loading the pages from [addr] on, [n] of them, does. *)
Record pages_loaded (n : Z) (addr remaining pos : Z) w w' : Prop := PagesLoaded {
  pl_settled : settled w';
  pl_budget : (w_budget w <= w_budget w' + 4 * Z.to_nat n)%nat;
  pl_pages : forall v, is_Some (w_pages w' !! v) <-> is_Some (w_pages w !! v) \/ (v mod 4096 = 0 /\ addr <= v < addr + 4096 * n);
  pl_old : forall x, x < addr \/ addr + 4096 * n <= x -> w_view w' x = w_view w x;
  pl_new : forall i, 0 <= i < 4096 * n -> w_view w' (addr + i) = if i <? remaining then file_byte image ino (pos + i) else 0;
}.

Lemma load_pages_run phdr vs n : forall addr remaining f d h w,
  km_rep h w -> settled w -> (4 * n <= w_budget w)%nat -> lo <= addr -> addr + 4096 * Z.of_nat n <= hi -> addr mod 4096 = 0 ->
  (forall v, v mod 4096 = 0 -> addr <= v < addr + 4096 * Z.of_nat n -> w_pages w !! v = None) ->
  p_vaddr phdr mod 4096 = 0 -> 0 <= remaining < 2 ^ 63 -> good d -> file_ok image ino f ->
  (0 < remaining -> position f mod 4096 = 0 /\ position f + remaining <= size ino) ->
  exists f' d' h' w', load_pages context n phdr vs addr remaining f (d, h) = Ok ((None, f'), (d', h')) /\
    good d' /\ file_ok image ino f' /\ km_rep h' w' /\ pages_loaded (Z.of_nat n) addr remaining (position f) w w'.
Proof.
  induction n as [|n IH]; intros addr remaining f d h w Hr Hset Hbud Hlo Hhi Hal Hnone Hva Hrem Hd Hf Hpos; cbn [load_pages].
  { exists f, d, h, w. split; [done|]. split; [done|]. split; [done|]. split; [done|]. split; try done; try lia.
    intros v. split; [by left|]. intros [?|?]; [done|lia]. }
  destruct (load_page_run phdr vs addr remaining f d h w) as (f1 & d1 & h1 & w1 & p & E1 & Hd1 & Hf1 & Hp1 & Hr1 & Hset1 & Hpg1 & Hb1 & Hv1 & Hn1);
    [done|done|lia|unfold in_region; lia|done|apply Hnone; [done|lia]|done|done|done|done|done|]. set (k := Z.min remaining 4096) in *.
  rewrite (bind_run _ _ _ _ _ E1). change VMM_DEFAULT_PAGE_SIZE with 4096.
  assert (forall v, v mod 4096 = 0 -> page_of v = v) as Hself by (intros v Hv; unfold page_of; lia).
  destruct (IH (addr + 4096) (remaining - k) f1 d1 h1 w1) as (f2 & d2 & h2 & w2 & E2 & Hd2 & Hf2 & Hr2 & [Hset2 Hb2 Hpg2 Ho2 Hn2]); try done;
    [lia|lia|lia|dlia| |unfold k; lia| |].
  { intros v Hv Hvr. rewrite Hpg1, lookup_insert_ne by lia. apply Hnone; [done|lia]. }
  { intros Hlt. destruct Hpos as [Hpm Hps]; [unfold k in Hlt; lia|]. assert (k = 4096) as Hk by (unfold k in *; lia). rewrite Hp1, Hk. split; [dlia|lia]. }
  exists f2, d2, h2, w2. split; [done|]. split; [done|]. split; [done|]. split; [done|]. split.
  - done.
  - lia.
  - intros v. rewrite Hpg2, Hpg1, lookup_insert_is_Some'. split.
    + intros [[->|?]|?]; [right; lia|by left|right; lia].
    + intros [?|[Hv Hvr]]; [by left; right|]. destruct (decide (v = addr)) as [->|Hne]; [by left; left|]. right. split; [done|]. dlia.
  - intros x Hx. rewrite Ho2 by lia. apply Hv1. unfold page_of. dlia.
  - intros i Hi. destruct (decide (i < 4096)) as [Hlt|Hge].
    + rewrite Ho2 by lia. rewrite Hn1 by lia. unfold k. destruct (Z.ltb_spec i (Z.min remaining 4096)), (Z.ltb_spec i remaining); lia || done.
    + replace (addr + i) with (addr + 4096 + (i - 4096)) by lia. rewrite Hn2 by lia.
      destruct (Z.ltb_spec (i - 4096) (remaining - k)), (Z.ltb_spec i remaining); try (unfold k in *; lia).
      assert (k = 4096) as Hk by (unfold k in *; lia). rewrite Hp1, Hk. f_equal. lia.
Qed.

(** A segment the loader handles: page aligned in memory and in the file, inside the
    file and inside the address range of the process. *)
Record segment_ok (ph : Elf64Phdr) : Prop := SegmentOk {
  sg_vaddr : p_vaddr ph mod 4096 = 0 /\ lo <= p_vaddr ph;
  sg_offset : p_offset ph mod 4096 = 0 /\ 0 <= p_offset ph;
  sg_filesz : 0 <= p_filesz ph <= p_memsz ph /\ p_offset ph + p_filesz ph <= size ino;
  sg_memsz : p_vaddr ph + p_memsz ph <= hi;
}.

(** Its pages, and what each of its bytes should be. *)
Definition seg_pages (ph : Elf64Phdr) : Z := (p_memsz ph + 4095) / 4096.
Definition in_segment (ph : Elf64Phdr) (x : Z) : Prop := p_vaddr ph <= x < p_vaddr ph + 4096 * seg_pages ph.
Definition seg_byte (ph : Elf64Phdr) (i : Z) : Z :=
  if i <? p_filesz ph then file_byte image ino (p_offset ph + i) else 0.

Context (Hregion : page_region lo hi /\ hi <= 2 ^ 47).

Lemma segment_range ph : segment_ok ph ->
  0 <= p_vaddr ph /\ 0 <= seg_pages ph /\ p_memsz ph <= 4096 * seg_pages ph < p_memsz ph + 4096 /\
  p_vaddr ph + 4096 * seg_pages ph <= hi /\
  ALIGN_DOWN (p_vaddr ph) 4096 = p_vaddr ph /\
  ALIGN_UP (u64 (p_vaddr ph + p_memsz ph)) 4096 = p_vaddr ph + 4096 * seg_pages ph.
Proof.
  intros [[Hva Hlo] _ [Hfs _] Hms]. destruct Hregion as [(Hlo0 & _ & _ & _ & Hhi) Hhi47]. unfold seg_pages.
  assert (0 <= (p_memsz ph + 4095) / 4096 /\ p_memsz ph <= 4096 * ((p_memsz ph + 4095) / 4096) < p_memsz ph + 4096) as [Hq0 Hq] by dlia.
  split; [lia|]. split; [done|]. split; [done|]. split; [dlia|]. split.
  - change 4096 with (2 ^ 12). rewrite ALIGN_DOWN_pow2 by lia. change (2 ^ 12) with 4096. dlia.
  - rewrite u64_id by lia. change 4096 with (2 ^ 12) at 1. rewrite ALIGN_UP_pow2 by lia. change (2 ^ 12) with 4096. dlia.
Qed.

Lemma load_segment_run ph t f d h w :
  segment_ok ph -> km_rep h w -> settled w -> (4 * Z.to_nat (seg_pages ph) <= w_budget w)%nat ->
  (forall v, in_segment ph v -> w_pages w !! v = None) -> good d -> file_ok image ino f ->
  exists f' d' h' w', load_segment context ph t f (d, h) =
      Ok ((inr (Z.max t (p_vaddr ph + 4096 * seg_pages ph)), f'), (d', h')) /\
    good d' /\ file_ok image ino f' /\ km_rep h' w' /\
    pages_loaded (seg_pages ph) (p_vaddr ph) (p_filesz ph) (p_offset ph) w w'.
Proof.
  intros Hseg Hr Hset Hbud Hnone Hd Hf. destruct (segment_range ph Hseg) as (Hv0 & Hq0 & Hq & Hqhi & Hdown & Hup).
  pose proof Hseg as [[Hva Hlo] [Hom Ho0] [Hfs Hfz] Hms]. pose proof (iod_size _ _ Hino) as Hsz.
  unfold load_segment. change VMM_DEFAULT_PAGE_SIZE with 4096. rewrite Hdown, Hup, s64_id by lia.
  destruct (seek_run f (p_offset ph) Hf) as (f1 & E1 & Hf1 & Hp1); [lia|].
  rewrite (bind_run (lift _) _ _ (0, f1) (d, h)) by (by rewrite E1). change (0 <? 0) with false. cbv iota.
  assert (for_count (p_vaddr ph) (p_vaddr ph + 4096 * seg_pages ph) 4096 = Z.to_nat (seg_pages ph)) as ->.
  { unfold for_count. f_equal. dlia. }
  destruct (load_pages_run ph (p_vaddr ph) (Z.to_nat (seg_pages ph)) (p_vaddr ph) (p_filesz ph) f1 d h w) as (f2 & d2 & h2 & w2 & E2 & Hd2 & Hf2 & Hr2 & Hl);
    try done; [rewrite Z2Nat.id; lia| |lia|rewrite Hp1; auto with lia|].
  { intros v _ Hv. apply Hnone. rewrite Z2Nat.id in Hv by done. exact Hv. }
  rewrite (bind_run _ _ _ _ _ E2). rewrite Z2Nat.id, Hp1 in Hl by done. exists f2, d2, h2, w2.
  split; [|done].
  destruct (Z.ltb_spec t (p_vaddr ph + 4096 * seg_pages ph)); [rewrite Z.max_r by lia|rewrite Z.max_l by lia]; done.
Qed.

(** ** All program headers *)

(** The [n] program headers from number [k] on, as the file holds them. *)
Definition nth_phdr (hdr : Elf64Ehdr) (k : Z) : Elf64Phdr :=
  parse_phdr (file_bytes image ino (e_phoff hdr + k * 56) 56).

Definition loadable (hdr : Elf64Ehdr) (k : Z) : Prop := p_type (nth_phdr hdr k) = PT_LOAD.

(** Pages they need, and where the highest segment ends. *)
Fixpoint pages_needed (hdr : Elf64Ehdr) (n : nat) (k : Z) : nat :=
  match n with
  | O => O
  | S n => ((if (p_type (nth_phdr hdr k) =? PT_LOAD)%Z then Z.to_nat (seg_pages (nth_phdr hdr k)) else 0)
      + pages_needed hdr n (k + 1)%Z)%nat
  end.

Fixpoint top_of (hdr : Elf64Ehdr) (n : nat) (k t : Z) : Z :=
  match n with
  | O => t
  | S n =>
      let ph := nth_phdr hdr k in
      top_of hdr n (k + 1) (if p_type ph =? PT_LOAD then Z.max t (p_vaddr ph + 4096 * seg_pages ph) else t)
  end.

(** Program headers the loader handles: each inside one block of the file, with
    sizes that fit, loadable ones as in [segment_ok] and on pages of their own. *)
Record phdrs_ok (hdr : Elf64Ehdr) (k n : Z) : Prop := PhdrsOk {
  po_inside : forall j, k <= j < k + n -> 0 <= e_phoff hdr + j * 56 < 2 ^ 63 /\ e_phoff hdr + j * 56 + 56 <= size ino /\
    (e_phoff hdr + j * 56) mod 4096 + 56 <= 4096;
  po_sizes : forall j, k <= j < k + n -> p_filesz (nth_phdr hdr j) <= p_memsz (nth_phdr hdr j);
  po_segments : forall j, k <= j < k + n -> loadable hdr j -> segment_ok (nth_phdr hdr j);
  po_apart : forall i j x, k <= i < k + n -> k <= j < k + n -> loadable hdr i -> loadable hdr j -> i <> j ->
    in_segment (nth_phdr hdr i) x -> ~ in_segment (nth_phdr hdr j) x;
}.

(** The segments are in place, and what was mapped is unchanged. *)
Record segments_loaded (hdr : Elf64Ehdr) (k n : Z) w w' : Prop := SegmentsLoaded {
  sl_bytes : forall j i, k <= j < k + n -> loadable hdr j -> 0 <= i < p_memsz (nth_phdr hdr j) ->
    mapped w' (p_vaddr (nth_phdr hdr j) + i) /\
    w_view w' (p_vaddr (nth_phdr hdr j) + i) = seg_byte (nth_phdr hdr j) i;
  sl_pages : forall v, is_Some (w_pages w' !! v) <-> is_Some (w_pages w !! v) \/
    exists j, k <= j < k + n /\ loadable hdr j /\ v mod 4096 = 0 /\ in_segment (nth_phdr hdr j) v;
  sl_kept : forall x, is_Some (w_pages w !! page_of x) -> w_view w' x = w_view w x;
}.

Lemma in_segment_page ph x : segment_ok ph -> in_segment ph x <-> in_segment ph (page_of x).
Proof. intros [[Hva _] _ _ _]. unfold in_segment, page_of. dlia. Qed.

Lemma read_phdr_run hdr k f d : good d -> file_ok image ino f -> e_phentsize hdr = 56 ->
  0 <= k < 2 ^ 16 -> 0 <= e_phoff hdr < 2 ^ 64 -> 0 <= e_phoff hdr + k * 56 < 2 ^ 63 ->
  e_phoff hdr + k * 56 + 56 <= size ino -> (e_phoff hdr + k * 56) mod 4096 + 56 <= 4096 ->
  exists f1 f2 d2, bsfs_fseeko f (u64 (e_phoff hdr + u64 (k * e_phentsize hdr))) BSFS_FSEEKO_SET = Ok (0, f1) /\
    bsfs_fread context sizeof_Elf64Phdr 1 f1 d = Ok ((56, file_bytes image ino (e_phoff hdr + k * 56) 56, f2), d2) /\
    good d2 /\ file_ok image ino f2.
Proof.
  intros Hd Hf He Hk Hoff Hp1 Hp2 Hp3. rewrite He, (u64_id (k * 56)), u64_id by lia.
  destruct (seek_run f (e_phoff hdr + k * 56) Hf) as (f1 & E1 & Hf1 & Hpos1); [lia|].
  destruct (read_run f1 d sizeof_Elf64Phdr 1 Hd Hf1) as (f2 & d2 & E2 & Hd2 & Hf2 & _); rewrite ?Hpos1; unfold sizeof_Elf64Phdr; [lia..|].
  exists f1, f2, d2. split; [done|]. unfold sizeof_Elf64Phdr in E2. rewrite Hpos1 in E2. done.
Qed.

Lemma slice_app_l (a b : list Z) off n : 0 <= off -> 0 <= n -> off + n <= Z.of_nat (length a) -> slice (a ++ b) off n = slice a off n.
Proof.
  intros. unfold slice. rewrite drop_app_le by lia. rewrite take_app_le by (rewrite length_drop; lia). done.
Qed.

Lemma parse_phdr_filled buffer bs : length bs = 56%nat -> parse_phdr (filled buffer bs) = parse_phdr bs.
Proof. intros Hl. unfold parse_phdr, filled, word_at. by rewrite !slice_app_l by lia. Qed.

Lemma parse_ehdr_filled buffer bs : length bs = 64%nat -> parse_ehdr (filled buffer bs) = parse_ehdr bs.
Proof. intros Hl. unfold parse_ehdr, filled, word_at. by rewrite !slice_app_l by lia. Qed.

(** Loading one more segment in front of those behind it. *)
Lemma segments_loaded_cons hdr k n w w1 w2 : 0 <= n ->
  phdrs_ok hdr k (n + 1) -> settled w2 ->
  (if p_type (nth_phdr hdr k) =? PT_LOAD
   then pages_loaded (seg_pages (nth_phdr hdr k)) (p_vaddr (nth_phdr hdr k)) (p_filesz (nth_phdr hdr k)) (p_offset (nth_phdr hdr k)) w w1
   else w1 = w) ->
  (forall j v, k <= j < k + (n + 1) -> loadable hdr j -> in_segment (nth_phdr hdr j) v -> w_pages w !! v = None) ->
  segments_loaded hdr (k + 1) n w1 w2 -> segments_loaded hdr k (n + 1) w w2.
Proof.
  intros Hn Hok Hset2 H1 Hnone [Hb2 Hp2 Hk2]. set (ph := nth_phdr hdr k) in *.
  assert (forall v, is_Some (w_pages w1 !! v) <-> is_Some (w_pages w !! v) \/ (loadable hdr k /\ v mod 4096 = 0 /\ in_segment ph v)) as Hp1.
  { intros v. unfold loadable. fold ph. destruct (Z.eqb_spec (p_type ph) PT_LOAD) as [E|Hne]; [|subst w1; tauto].
    rewrite (pl_pages _ _ _ _ _ _ H1). unfold in_segment. tauto. }
  assert (forall x, is_Some (w_pages w !! page_of x) -> w_view w1 x = w_view w x) as Hk1.
  { intros x Hx. destruct (Z.eqb_spec (p_type ph) PT_LOAD) as [E|Hne]; [|by subst w1]. apply (pl_old _ _ _ _ _ _ H1).
    destruct (decide (in_segment ph x)) as [Hin|Hout]; [|unfold in_segment in Hout; lia].
    apply (in_segment_page ph) in Hin; [|apply (po_segments _ _ _ Hok k); [lia|done]].
    rewrite (Hnone k (page_of x)) in Hx; [by destruct Hx|lia|done|done]. }
  split.
  - intros j i Hj Hl Hi. destruct (decide (j = k)) as [->|Hne]; [|by apply Hb2; [lia|..]]. fold ph in Hi |- *.
    pose proof (po_segments _ _ _ Hok k ltac:(lia) Hl) as Hseg. destruct (segment_range _ Hseg) as (_ & _ & Hq & _). fold ph in Hq, Hseg.
    assert (is_Some (w_pages w1 !! page_of (p_vaddr ph + i))) as Hm1.
    { apply Hp1. right. split; [done|]. split; [apply page_of_mod|]. apply (proj1 (in_segment_page ph _ Hseg)). unfold in_segment. lia. }
    split.
    + assert (is_Some (w_pages w2 !! page_of (p_vaddr ph + i))) as [p Hp] by (apply Hp2; by left). exists p. split; [done|]. by eapply Hset2.
    + rewrite Hk2 by done. unfold loadable in Hl. fold ph in Hl. rewrite Hl, Z.eqb_refl in H1.
      rewrite (pl_new _ _ _ _ _ _ H1) by lia. done.
  - intros v. rewrite Hp2, Hp1. split.
    + intros [[?|(Hl & Hv & Hin)]|(j & Hj & Hl & Hv & Hin)]; [by left|right; exists k; split; [lia|done]|right; exists j; split; [lia|done]].
    + intros [?|(j & Hj & Hl & Hv & Hin)]; [by left; left|]. destruct (decide (j = k)) as [->|]; [by left; right|].
      right. exists j. split; [lia|done].
  - intros x Hx. rewrite Hk2; [by apply Hk1|]. apply Hp1. by left.
Qed.

Lemma load_phdrs_run hdr stack n : e_phentsize hdr = 56 -> 0 <= e_phoff hdr < 2 ^ 64 -> forall k t f d h w,
  0 <= k -> k + Z.of_nat n <= 2 ^ 16 -> phdrs_ok hdr k (Z.of_nat n) -> km_rep h w -> settled w ->
  (4 * pages_needed hdr n k <= w_budget w)%nat ->
  (forall j v, k <= j < k + Z.of_nat n -> loadable hdr j -> in_segment (nth_phdr hdr j) v -> w_pages w !! v = None) ->
  good d -> file_ok image ino f ->
  exists f' d' h' w', load_phdrs context n hdr stack k t f (d, h) = Ok ((LoadResult 1 (top_of hdr n k t), f'), (d', h')) /\
    good d' /\ km_rep h' w' /\ settled w' /\ (w_budget w <= w_budget w' + 4 * pages_needed hdr n k)%nat /\ segments_loaded hdr k (Z.of_nat n) w w'.
Proof.
  intros He Hoff. induction n as [|n IH]; intros k t f d h w Hk0 Hk Hok Hr Hset Hbud Hnone Hd Hf.
  { exists f, d, h, w. do 4 (split; [done|]). split; [lia|]. split; try done; [intros; lia|].
    intros v. split; [by left|]. intros [?|(j & Hj & _)]; [done|lia]. }
  rewrite Nat2Z.inj_succ in Hk, Hok, Hnone |- *. unfold Z.succ in *. cbn [load_phdrs pages_needed top_of] in *.
  destruct (po_inside _ _ _ Hok k ltac:(lia)) as (Hi1 & Hi2 & Hi3).
  destruct (read_phdr_run hdr k f d) as (f1 & f2 & d2 & E1 & E2 & Hd2 & Hf2); [done..|lia|done|done|done|done|].
  rewrite (bind_run (lift _) _ _ (0, f1) (d, h)) by (by rewrite E1). change (negb (0 =? 0)) with false. cbv iota.
  rewrite (bind_run _ _ _ _ _ (on_disk_run _ d h _ d2 E2)). change (s32 56 <? 0) with false. cbv iota zeta.
  rewrite parse_phdr_filled by (apply Nat2Z.inj; rewrite length_file_bytes; lia). fold (nth_phdr hdr k).
  set (ph := nth_phdr hdr k) in *. pose proof (po_sizes _ _ _ Hok k ltac:(lia)) as Hsz. fold ph in Hsz.
  rewrite (proj2 (Z.ltb_ge (p_memsz ph) (p_filesz ph))) by lia.
  assert (phdrs_ok hdr (k + 1) (Z.of_nat n)) as Hok'.
  { destruct Hok as [P1 P2 P3 P4]. split; [intros; apply P1; lia|intros; apply P2; lia|intros; apply P3; [lia|done]|].
    intros i j x Hi Hj. apply P4; lia. }
  destruct (Z.eqb_spec (p_type ph) PT_LOAD) as [El|Hnl].
  - assert (loadable hdr k) as Hl by done. pose proof (po_segments _ _ _ Hok k ltac:(lia) Hl) as Hseg. fold ph in Hseg.
    destruct (load_segment_run ph t f2 d2 h w Hseg Hr Hset) as (f3 & d3 & h3 & w3 & E3 & Hd3 & Hf3 & Hr3 & Hpl); [lia| |done|done|].
    { intros v Hv. apply (Hnone k); [lia|done|done]. }
    rewrite (bind_run _ _ _ _ _ E3).
    destruct (IH (k + 1) (Z.max t (p_vaddr ph + 4096 * seg_pages ph)) f3 d3 h3 w3) as (f4 & d4 & h4 & w4 & E4 & Hd4 & Hr4 & Hset4 & Hb4 & Hsl);
      [lia|lia|done|done|apply Hpl|pose proof (pl_budget _ _ _ _ _ _ Hpl); lia| |done|done|].
    { intros j v Hj Hlj Hv. assert (~ is_Some (w_pages w3 !! v)) as Hn; [|by destruct (w_pages w3 !! v); [destruct Hn|]].
      rewrite (pl_pages _ _ _ _ _ _ Hpl). intros [Hs|[_ Hin]].
      - rewrite (Hnone j v) in Hs; [by destruct Hs|lia|done|done].
      - eapply (po_apart _ _ _ Hok j k v); [lia|lia|done|done|lia|done|exact Hin]. }
    exists f4, d4, h4, w4. do 4 (split; [done|]). split; [pose proof (pl_budget _ _ _ _ _ _ Hpl); lia|]. eapply (segments_loaded_cons hdr k _ w w3); [lia|done|done| |done|done].
    fold ph. by rewrite El, Z.eqb_refl.
  - destruct (IH (k + 1) t f2 d2 h w) as (f4 & d4 & h4 & w4 & E4 & Hd4 & Hr4 & Hset4 & Hb4 & Hsl); [lia|lia|done|done|done|lia| |done|done|].
    { intros j v Hj. apply Hnone. lia. }
    exists f4, d4, h4, w4. do 4 (split; [done|]). split; [lia|]. eapply (segments_loaded_cons hdr k _ w w); [lia|done|done| |done|done].
    fold ph. by rewrite (proj2 (Z.eqb_neq _ _) Hnl).
Qed.

Lemma seek_any f off : file_ok image ino f -> 0 <= off ->
  exists f', bsfs_fseeko f off BSFS_FSEEKO_SET = Ok (0, f') /\ file_ok image ino f'.
Proof.
  intros Hf Ho. pose proof (iod_size _ _ Hino) as Hsz. destruct (decide (off <= size ino)).
  - destruct (seek_run f off Hf) as (f' & E & Hf' & _); [lia|]. eauto.
  - unfold bsfs_fseeko. rewrite (fo_inode _ _ _ Hf). rewrite (proj2 (Z.leb_le (size ino) off)) by lia. eexists. split; [done|].
    destruct Hf as [H1 H2 H3 H4 H5 H6 H7]. split; try done. cbn. lia.
Qed.

(** The header of the file. *)
Definition file_ehdr : Elf64Ehdr := parse_ehdr (file_bytes image ino 0 64).

Lemma le_word_slice_range (bs : list Z) off n : bytes_ok bs -> 0 <= le_word (slice bs off n) < 2 ^ (8 * Z.of_nat (length (slice bs off n))).
Proof. intros Hb. apply le_word_range. unfold slice. by apply Forall_take, Forall_drop. Qed.

Lemma file_ehdr_range : 0 <= e_phoff file_ehdr < 2 ^ 64 /\ 0 <= e_phnum file_ehdr < 2 ^ 16.
Proof.
  cbn [file_ehdr e_phoff e_phnum parse_ehdr]. unfold word_at.
  pose proof (le_word_slice_range (file_bytes image ino 0 64) 32 8 (file_bytes_ok _ _)) as H1.
  pose proof (le_word_slice_range (file_bytes image ino 0 64) 56 2 (file_bytes_ok _ _)) as H2.
  rewrite length_slice in H1, H2 by (rewrite ?length_file_bytes; lia). done.
Qed.

(** The header is read and checked first. *)
Lemma load_header_run f out stack d h : good d -> file_ok image ino f -> position f = 0 -> 64 <= size ino ->
  exists f1 d1, good d1 /\ file_ok image ino f1 /\
    elf64_load_executable context f out stack (d, h) =
      match check_ehdr file_ehdr with
      | Some err => Ok ((LoadResult err 0, filled out (file_bytes image ino 0 64), f1), (d1, h))
      | None => ('(r, file) ← lift (bsfs_fseeko f1 (e_phoff file_ehdr) BSFS_FSEEKO_SET);
          if r <? 0 then mret (LoadResult ELF_LOAD_MALFORMED 0, filled out (file_bytes image ino 0 64), file) else
          '(res, file) ← load_phdrs context (Z.to_nat (e_phnum file_ehdr)) file_ehdr stack 0 0 file;
          mret (res, filled out (file_bytes image ino 0 64), file)) (d1, h)
      end.
Proof.
  intros Hd Hf Hp Hsz. destruct (read_run f d sizeof_Elf64Ehdr 1 Hd Hf) as (f1 & d1 & E1 & Hd1 & Hf1 & _);
    rewrite ?Hp; unfold sizeof_Elf64Ehdr; [lia|change (0 mod 4096) with 0; lia|lia|]. rewrite Hp in E1. change (sizeof_Elf64Ehdr * 1) with 64 in E1.
  exists f1, d1. split; [done|]. split; [done|]. unfold elf64_load_executable.
  rewrite (bind_run _ _ _ _ _ (on_disk_run _ d h _ d1 E1)). change (s32 64 <? 0) with false. cbv iota zeta.
  rewrite parse_ehdr_filled by (apply Nat2Z.inj; rewrite length_file_bytes; lia). fold file_ehdr.
  by destruct (check_ehdr file_ehdr).
Qed.

(** The whole load. *)
Lemma elf64_load_run f out stack d h w : good d -> file_ok image ino f -> position f = 0 -> 64 <= size ino -> check_ehdr file_ehdr = None ->
  phdrs_ok file_ehdr 0 (e_phnum file_ehdr) -> km_rep h w -> settled w ->
  (4 * pages_needed file_ehdr (Z.to_nat (e_phnum file_ehdr)) 0 <= w_budget w)%nat ->
  (forall j v, 0 <= j < e_phnum file_ehdr -> loadable file_ehdr j -> in_segment (nth_phdr file_ehdr j) v -> w_pages w !! v = None) ->
  exists f' d' h' w', elf64_load_executable context f out stack (d, h) =
      Ok ((LoadResult 1 (top_of file_ehdr (Z.to_nat (e_phnum file_ehdr)) 0 0), filled out (file_bytes image ino 0 64), f'), (d', h')) /\
    good d' /\ km_rep h' w' /\ settled w' /\ (w_budget w <= w_budget w' + 4 * pages_needed file_ehdr (Z.to_nat (e_phnum file_ehdr)) 0)%nat /\
    segments_loaded file_ehdr 0 (e_phnum file_ehdr) w w'.
Proof.
  intros Hd Hf Hopen Hsize Hhdr Hphdrs Hr Hset Hbudget Hnone.
  destruct (load_header_run f out stack d h Hd Hf Hopen Hsize) as (f1 & d1 & Hd1 & Hf1 & ->).
  rewrite Hhdr. destruct file_ehdr_range as [Hoff Hnum].
  assert (e_phentsize file_ehdr = 56) as Hent.
  { unfold check_ehdr in Hhdr. repeat match type of Hhdr with (if negb ?c then _ else _) = _ => destruct c eqn:?; [cbn [negb] in Hhdr|done] end.
    by match goal with Hs : (e_phentsize _ =? _) = true |- _ => apply Z.eqb_eq in Hs end. }
  destruct (seek_any f1 (e_phoff file_ehdr) Hf1) as (f2 & E2 & Hf2); [lia|].
  rewrite (bind_run (lift _) _ _ (0, f2) (d1, h)) by (by rewrite E2). change (0 <? 0) with false. cbv iota.
  destruct (load_phdrs_run file_ehdr stack (Z.to_nat (e_phnum file_ehdr))
    Hent Hoff 0 0 f2 d1 h w) as (f3 & d3 & h3 & w3 & E3 & Hd3 & Hr3 & Hset3 & Hb3 & Hsl); rewrite ?Z2Nat.id by lia; try done; [lia|].
  rewrite Z2Nat.id in Hsl by lia. rewrite (bind_run _ _ _ _ _ E3). by exists f3, d3, h3, w3.
Qed.
End loading.

(** ** Properties *)

(** C15: [elf64_load_executable] of a valid executable with page-aligned segments
    inside the file, on pages of their own and with enough free pages: it reports
    success and the end of the highest segment; every byte of every segment is mapped
    and holds the file's byte, or zero behind the file's part; exactly the pages of
    the segments were added and everything mapped before is unchanged. *)
Theorem elf64_load_correct {D H : Type} {lo hi : Z} `{KernelMemory lo hi H} (context : BsfsContext D)
  (image : list Z) (good : D -> Prop) (ino : BsfsInode) (f : BsfsFile) (out : list Z) (stack : Z -> list Z)
  (d : D) (h : H) (w : window)
  (Hgeo : geometry context image good) (Hino : inode_on_disk image ino) (Hbytes : bytes_ok image)
  (Hregion : page_region lo hi /\ hi <= 2 ^ 47) (Hd : good d) (Hf : file_ok image ino f) (Hopen : position f = 0)
  (Hsize : 64 <= size ino) (Hhdr : check_ehdr (file_ehdr image ino) = None)
  (Hphdrs : phdrs_ok (lo := lo) (hi := hi) image ino (file_ehdr image ino) 0 (e_phnum (file_ehdr image ino)))
  (Hr : km_rep h w) (Hset : settled w)
  (Hbudget : (4 * pages_needed image ino (file_ehdr image ino) (Z.to_nat (e_phnum (file_ehdr image ino))) 0 <= w_budget w)%nat)
  (Hnone : forall j v, 0 <= j < e_phnum (file_ehdr image ino) -> loadable image ino (file_ehdr image ino) j ->
     in_segment (nth_phdr image ino (file_ehdr image ino) j) v -> w_pages w !! v = None) :
  exists f' d' h' w', elf64_load_executable context f out stack (d, h) =
      Ok ((LoadResult 1 (top_of image ino (file_ehdr image ino) (Z.to_nat (e_phnum (file_ehdr image ino))) 0 0),
           filled out (file_bytes image ino 0 64), f'), (d', h')) /\
    good d' /\ km_rep h' w' /\
    segments_loaded image ino (file_ehdr image ino) 0 (e_phnum (file_ehdr image ino)) w w'.
Proof.
  destruct (elf64_load_run context image good ino Hgeo Hino Hbytes Hregion f out stack d h w) as (f' & d' & h' & w' & E & Hd' & Hr' & _ & _ & Hsl); [done..|].
  by exists f', d', h', w'.
Qed.

(** What the first 64 bytes of an executable must hold, in the order of the checks,
    with the error for each. *)
Definition elf_requirements (image : list Z) (ino : BsfsInode) : list (bool * Z) :=
  [(bool_decide (file_bytes image ino 0 4 = [0x7F; 0x45; 0x4C; 0x46]), ELF_LOAD_INVALID_ELF_MAGIC);
   (file_byte image ino 4 =? 2, ELF_LOAD_NOT_ELF64);
   (file_byte image ino 5 =? 1, ELF_LOAD_NOT_LITTLE_ENDIAN);
   (le_word (file_bytes image ino 16 2) =? 2, ELF_LOAD_NOT_EXECUTABLE);
   (le_word (file_bytes image ino 54 2) =? 56, ELF_LOAD_PHENTSIZE_MISMATCH)].

Lemma check_magic_bytes image ino : elf64_check_magic (file_ehdr image ino) = bool_decide (file_bytes image ino 0 4 = [0x7F; 0x45; 0x4C; 0x46]).
Proof.
  unfold elf64_check_magic. change (file_bytes image ino 0 4) with [file_byte image ino 0; file_byte image ino 1; file_byte image ino 2; file_byte image ino 3].
  change (ident (file_ehdr image ino) 0) with (file_byte image ino 0). change (ident (file_ehdr image ino) 1) with (file_byte image ino 1).
  change (ident (file_ehdr image ino) 2) with (file_byte image ino 2). change (ident (file_ehdr image ino) 3) with (file_byte image ino 3).
  apply eq_true_iff_eq. rewrite !andb_true_iff, !Z.eqb_eq, bool_decide_eq_true. split; [by intros [[[-> ->] ->] ->]|by intros [= -> -> -> ->]].
Qed.

Lemma check_ehdr_first image ino k err : elf_requirements image ino !! k = Some (false, err) ->
  Forall (fun r => r.1 = true) (take k (elf_requirements image ino)) -> check_ehdr (file_ehdr image ino) = Some err.
Proof.
  intros Hk Hpre. unfold check_ehdr. rewrite check_magic_bytes. change (ident (file_ehdr image ino) 4) with (file_byte image ino 4).
  change (ident (file_ehdr image ino) 5) with (file_byte image ino 5). change (e_type (file_ehdr image ino)) with (le_word (file_bytes image ino 16 2)).
  change (e_phentsize (file_ehdr image ino)) with (le_word (file_bytes image ino 54 2)). change sizeof_Elf64Phdr with 56.
  unfold elf_requirements in *. revert Hk Hpre.
  generalize (bool_decide (file_bytes image ino 0 4 = [0x7F; 0x45; 0x4C; 0x46])), (file_byte image ino 4 =? 2), (file_byte image ino 5 =? 1),
    (le_word (file_bytes image ino 16 2) =? 2), (le_word (file_bytes image ino 54 2) =? 56). intros c0 c1 c2 c3 c4 Hk Hpre.
  destruct k as [|[|[|[|[|k]]]]]; [injection Hk as -> ->..|discriminate Hk];
    cbn [take] in Hpre; repeat (apply list.Forall_cons in Hpre as [Ht Hpre]; cbn [fst] in Ht; subst); done.
Qed.

(** C16: a file whose header fails a check is rejected with the code of the first check
    that fails, in the order: the four magic bytes, the 64-bit class, little endian,
    the type "executable", the size of a program header; no memory is allocated or
    mapped. *)
Theorem elf64_load_rejects {D H : Type} {lo hi : Z} `{KernelMemory lo hi H} (context : BsfsContext D)
  (image : list Z) (good : D -> Prop) (ino : BsfsInode) (f : BsfsFile) (out : list Z) (stack : Z -> list Z)
  (d : D) (h : H) (k : nat) (err : Z)
  (Hgeo : geometry context image good) (Hino : inode_on_disk image ino)
  (Hd : good d) (Hf : file_ok image ino f) (Hopen : position f = 0) (Hsize : 64 <= size ino)
  (Hfails : elf_requirements image ino !! k = Some (false, err))
  (Hbefore : Forall (fun r => r.1 = true) (take k (elf_requirements image ino))) :
  exists out' f' d', elf64_load_executable context f out stack (d, h) = Ok ((LoadResult err 0, out', f'), (d', h)).
Proof.
  destruct (load_header_run context image good ino Hgeo Hino f out stack d h Hd Hf Hopen Hsize) as (f1 & d1 & _ & _ & ->).
  rewrite (check_ehdr_first image ino k err Hfails Hbefore). eauto.
Qed.

(** *** Witnesses: a one-segment executable on a three-block image *)

Lemma user_region : page_region 0 (2 ^ 47).
Proof. vm_compute. intuition congruence. Qed.

#[local] Instance user_memory : KernelMemory 0 (2 ^ 47) (vmm_state pmm_state) := sample_memory 0 (2 ^ 47) user_region.

(** The header, one program header behind it, and the segment in the next block:
    100 bytes of the file, 5000 in memory. *)
Definition elf_header (magic : Z) : list Z :=
  [magic; 0x45; 0x4C; 0x46; 2; 1; 1; 0] ++ replicate 8 0 ++ le_bytes 2 2 ++ le_bytes 2 62 ++ le_bytes 4 1 ++
  le_bytes 8 0x400000 ++ le_bytes 8 64 ++ le_bytes 8 0 ++ le_bytes 4 0 ++ le_bytes 2 64 ++ le_bytes 2 56 ++
  le_bytes 2 1 ++ le_bytes 2 0 ++ le_bytes 2 0 ++ le_bytes 2 0.
Definition elf_phdr (vaddr : Z) : list Z :=
  le_bytes 4 1 ++ le_bytes 4 5 ++ le_bytes 8 4096 ++ le_bytes 8 vaddr ++ le_bytes 8 vaddr ++
  le_bytes 8 100 ++ le_bytes 8 5000 ++ le_bytes 8 4096.
Definition elf_image (magic vaddr : Z) : list Z :=
  replicate 4096 0 ++ elf_header magic ++ elf_phdr vaddr ++ replicate 3976 0 ++ replicate 100 7 ++ replicate 3996 9.

(** An executable of one block whose one segment starts with its headers. *)
Definition small_executable : list Z :=
  elf_header 0x7F ++ le_bytes 4 1 ++ le_bytes 4 5 ++ le_bytes 8 0 ++ le_bytes 8 0x400000 ++ le_bytes 8 0x400000 ++
  le_bytes 8 220 ++ le_bytes 8 5000 ++ le_bytes 8 4096 ++ replicate 100 7.

Definition elf_inode : BsfsInode :=
  {| type := 1; permissions := 6; uid := 0; gid := 0; size := 4196; blocks := 2; created := 0; modified := 0;
     accessed := 0; link_count := 1; blocks_direct := 1 :: 2 :: replicate 8 0; blocks_l1indirect := 0;
     blocks_l2indirect := 0; blocks_l3indirect := 0; checksum := 0; inode_reserved := replicate 21 0 |}.
Definition elf_file : BsfsFile :=
  {| f_inode := Some elf_inode; buf := replicate 4096 0; bufsize := 4096; position := 0;
     cached_block := UINT32_MAX; l1_table := replicate 4096 0; cached_l1 := UINT32_MAX;
     cached_l2 := UINT32_MAX; cached_l3 := UINT32_MAX; eof := false |}.
Definition elf_context (magic vaddr : Z) : BsfsContext unit :=
  {| header := sample_header; disk_ops := image_ops (elf_image magic vaddr); phys_sector_size := 512;
     scratch_buf_capacity := 4096 |}.

Lemma elf_image_length magic vaddr : Z.of_nat (length (elf_image magic vaddr)) = 12288.
Proof. vm_compute. reflexivity. Qed.

Lemma elf_geometry magic vaddr : geometry (elf_context magic vaddr) (elf_image magic vaddr) (fun _ => True).
Proof. split; [done|done|rewrite elf_image_length; lia|apply image_ops_serves]. Qed.

Lemma elf_inode_on_disk magic vaddr : inode_on_disk (elf_image magic vaddr) elf_inode.
Proof.
  split; [cbn; lia|done| |cbn; lia].
  intros i Hi Hs. cbn [size elf_inode] in Hs. rewrite elf_image_length. unfold file_block.
  assert (i = 0 \/ i = 1) as [-> | ->] by lia; split; vm_compute; discriminate.
Qed.

Lemma elf_file_ok magic vaddr : file_ok (elf_image magic vaddr) elf_inode elf_file.
Proof.
  split; [done|cbn [buf elf_file]; rewrite length_replicate; lia|cbn; lia|
    cbn [l1_table elf_file]; rewrite length_replicate; lia|cbn; lia|by left|by left].
Qed.

Lemma elf_image_bytes : bytes_ok (elf_image 0x7F 0x400000).
Proof. apply (bool_decide_unpack _). vm_compute. exact I. Qed.

Lemma elf_phnum : e_phnum (file_ehdr (elf_image 0x7F 0x400000) elf_inode) = 1.
Proof. vm_compute. reflexivity. Qed.

Lemma elf_nth_phdr : nth_phdr (elf_image 0x7F 0x400000) elf_inode (file_ehdr (elf_image 0x7F 0x400000) elf_inode) 0 =
  {| p_type := 1; p_flags := 5; p_offset := 4096; p_vaddr := 0x400000; p_paddr := 0x400000; p_filesz := 100;
     p_memsz := 5000; p_align := 4096 |}.
Proof. vm_compute. reflexivity. Qed.

Lemma elf_phdrs_ok : phdrs_ok (lo := 0) (hi := 2 ^ 47) (elf_image 0x7F 0x400000) elf_inode
  (file_ehdr (elf_image 0x7F 0x400000) elf_inode) 0 1.
Proof.
  assert (e_phoff (file_ehdr (elf_image 0x7F 0x400000) elf_inode) = 64) as Hoff by (vm_compute; reflexivity).
  assert (forall j, 0 <= j < 0 + 1 -> j = 0) as H0 by lia.
  split; [intros j ->%H0|intros j ->%H0|intros j ->%H0|intros i j x Hi%H0 Hj%H0].
  - rewrite Hoff. vm_compute. intuition congruence.
  - rewrite elf_nth_phdr. cbn. lia.
  - intros _. rewrite elf_nth_phdr. split; vm_compute; intuition congruence.
  - lia.
Qed.

(** The loaded process sees the 100 bytes of the file and zeros behind them. *)
Lemma elf64_load_correct_witness : exists out f' d' h' w',
  elf64_load_executable (elf_context 0x7F 0x400000) elf_file (replicate 64 0) (fun _ => replicate 56 0) (tt, sample_state) =
    Ok ((LoadResult 1 0x402000, out, f'), (d', h')) /\ km_rep h' w' /\
  w_view w' 0x400063 = 7 /\ w_view w' 0x400064 = 0.
Proof.
  destruct (elf64_load_correct (elf_context 0x7F 0x400000) (elf_image 0x7F 0x400000) (fun _ => True) elf_inode elf_file
    (replicate 64 0) (fun _ => replicate 56 0) tt sample_state (Window ∅ ∅ (fun _ => 0) 8)
    (elf_geometry _ _) (elf_inode_on_disk _ _) elf_image_bytes (conj user_region (Z.le_refl _)) I (elf_file_ok _ _) eq_refl
    ltac:(vm_compute; discriminate) ltac:(vm_compute; reflexivity) ltac:(rewrite elf_phnum; exact elf_phdrs_ok)
    (sample_boot _ _ user_region) ltac:(intros v p Hv; inversion Hv) ltac:(apply Nat.leb_le; vm_compute; reflexivity)
    ltac:(intros; apply lookup_empty)) as (f' & d' & h' & w' & E & _ & Hr & Hl).
  rewrite elf_phnum in Hl.
  assert (forall i, 0 <= i < 5000 -> w_view w' (0x400000 + i) =
    seg_byte (elf_image 0x7F 0x400000) elf_inode (nth_phdr (elf_image 0x7F 0x400000) elf_inode (file_ehdr (elf_image 0x7F 0x400000) elf_inode) 0) i) as Hb.
  { intros i Hi. destruct Hl as [Hb _ _]. specialize (Hb 0 i ltac:(lia)). unfold loadable in Hb. rewrite elf_nth_phdr in Hb |- *.
    apply Hb; [done|exact Hi]. }
  assert (top_of (elf_image 0x7F 0x400000) elf_inode (file_ehdr (elf_image 0x7F 0x400000) elf_inode)
    (Z.to_nat (e_phnum (file_ehdr (elf_image 0x7F 0x400000) elf_inode))) 0 0 = 0x402000) as Ht by (vm_compute; reflexivity).
  rewrite Ht in E. eexists _, f', d', h', w'. split; [exact E|]. split; [exact Hr|].
  split; [refine (eq_trans (Hb 99 _) _)|refine (eq_trans (Hb 100 _) _)]; try lia; vm_compute; reflexivity.
Defined.

Lemma elf64_load_rejects_witness : exists out' f' d',
  elf64_load_executable (elf_context 0x7E 0x400000) elf_file (replicate 64 0) (fun _ => replicate 56 0) (tt, sample_state) =
    Ok ((LoadResult ELF_LOAD_INVALID_ELF_MAGIC 0, out', f'), (d', sample_state)).
Proof.
  apply (elf64_load_rejects (elf_context 0x7E 0x400000) (elf_image 0x7E 0x400000) (fun _ => True) elf_inode elf_file
    (replicate 64 0) (fun _ => replicate 56 0) tt sample_state 0 _ (elf_geometry _ _) (elf_inode_on_disk _ _) I (elf_file_ok _ _) eq_refl
    ltac:(vm_compute; discriminate)); [vm_compute; reflexivity|constructor].
Defined.

(** The 16 bytes at the start of a segment of 100 bytes whose address is 16 bytes into
    a page are loaded, but the last 16 are lost: [remaining - offset] is taken for the
    number of bytes of the file that belong into the first page.  The loader reports
    success. *)
Theorem elf_load_unaligned_loses_bytes :
  match elf64_load_executable (elf_context 0x7F 0x400010) elf_file (replicate 64 0) (fun _ => replicate 56 0) (tt, sample_state) with
  | Ok ((r, _, _), (_, h)) =>
      r = LoadResult 1 0x402000 /\
      (fun a => vs_ram h <$> translate (vs_ram h) sample_root a) <$> [0x400010; 0x400063; 0x400064; 0x400073] =
        [Some 7; Some 7; Some 0; Some 0]
  | _ => False
  end /\
  (fun a => file_byte (elf_image 0x7F 0x400010) elf_inode (4096 + (a - 0x400010))) <$> [0x400010; 0x400063; 0x400064; 0x400073] =
    [7; 7; 7; 7].
Proof. vm_compute. done. Qed.
