(* ===== verification/Stage2.v ===== *)
(** * The second boot stage

    [boot/stage2/stage2.c], [stage2_paging.c] and their headers: finding the file
    system, verifying and loading the kernel, the page tables and the descriptor table
    the kernel starts on, and the boot information it is handed.  The machine is the
    disk and the physical memory; stage 2 runs without paging, so that pointers are
    32-bit physical addresses.  [PANIC] halts.  The memory of stage 2 itself (its
    stack and buffers) is separate from the memory it loads into; the messages it
    prints, the interrupt gates (in [Descriptors]) and the disk identification (in
    [Ata]) are not part of this file. *)
From Stdlib Require Import ZArith Lia.
From stdpp Require Import base tactics list numbers gmap.
From S2P Require Import Prelude Common Memory Interfaces Vmm PageTables KernelMemory CString Crc32 Descriptors BsfsTypes BsfsFile Elf.

Open Scope Z_scope.

Definition STAGE2_MEMORY_BITMAP_START : Z := 0x100000.
Definition STAGE2_MEMORY_BITMAP_SIZE : Z := 0x0C0000.
Definition STAGE2_MEMORY_BITMAP_END : Z := STAGE2_MEMORY_BITMAP_START + STAGE2_MEMORY_BITMAP_SIZE.
Definition STAGE2_PML4_ADDRESS : Z := STAGE2_MEMORY_BITMAP_END.
Definition STAGE2_PML4_TABLE_COUNT : Z := 1.
Definition STAGE2_PDPT_ADDRESS : Z := STAGE2_PML4_ADDRESS + 0x1000 * STAGE2_PML4_TABLE_COUNT.
Definition STAGE2_PDPT_TABLE_COUNT : Z := 3.
Definition STAGE2_PD_ADDRESS : Z := STAGE2_PDPT_ADDRESS + 0x1000 * STAGE2_PDPT_TABLE_COUNT.
Definition STAGE2_PD_TABLE_COUNT : Z := 2.
Definition STAGE2_PT_ADDRESS : Z := STAGE2_PD_ADDRESS + 0x1000 * STAGE2_PD_TABLE_COUNT.
Definition STAGE2_PT_TABLE_COUNT : Z := 2.
Definition STAGE2_GDT_ADDRESS : Z := 0x7300.
Definition STAGE2_GDT_MAX_ENTRIES : Z := 0x0100 / 8.
Definition STAGE2_MEMMAP_ADDR : Z := 0x6000 + 2.

Definition PAGE_DEFAULT_SIZE : Z := 4096.
Definition PAGE_LARGE_SIZE : Z := 0x200000.
Definition PAGE_HUGE_SIZE : Z := 0x40000000.
Definition PAGING_PT_DEFAULT_FLAGS : Z := 0x03.
Definition PAGING_PD_DEFAULT_FLAGS : Z := 0x03.
Definition PAGING_PD_LARGE_FLAGS : Z := 0x83.
Definition PAGING_PDPT_DEFAULT_FLAGS : Z := 0x03.
Definition PAGING_PDPT_HUGE_FLAGS : Z := 0x83.
Definition PAGING_PML4_DEFAULT_FLAGS : Z := 0x03.

Definition PRISTINE_BSFS_OFFSET : Z := 16.
Definition PRISTINE_BSFS_BLOCKSIZE : Z := 4096.

(** ** The page tables *)

Definition __pg_pml4 : Z := STAGE2_PML4_ADDRESS + 0 * PAGE_DEFAULT_SIZE.
Definition __pg_pdpt_kernel : Z := STAGE2_PDPT_ADDRESS + 0 * PAGE_DEFAULT_SIZE.
Definition __pg_pdpt_higher_half : Z := STAGE2_PDPT_ADDRESS + 1 * PAGE_DEFAULT_SIZE.
Definition __pg_pdpt_ident : Z := STAGE2_PDPT_ADDRESS + 2 * PAGE_DEFAULT_SIZE.
Definition __pg_pd_kernel : Z := STAGE2_PD_ADDRESS + 0 * PAGE_DEFAULT_SIZE.
Definition __pg_pd_ident : Z := STAGE2_PD_ADDRESS + 1 * PAGE_DEFAULT_SIZE.
Definition __pg_pt_ident0 : Z := STAGE2_PT_ADDRESS + 0 * PAGE_DEFAULT_SIZE.
Definition __pg_pt_ident1 : Z := STAGE2_PT_ADDRESS + 1 * PAGE_DEFAULT_SIZE.

(** [table[i] = v] and the loop that fills entries [0 .. n-1]. *)
Definition set_entry (table i v : Z) (m : mem) : mem := store64 m (table + 8 * i) v.
Definition set_entries (table : Z) (f : Z -> Z) (n : Z) (m : mem) : mem :=
  foldl (fun m i => set_entry table i (f i) m) m (seqZ 0 n).

(** Four of the eight tables are cleared; of the others, the two page tables are written in full. *)
Definition clear_tables (m : mem) : mem :=
  let m := fill m __pg_pml4 PAGE_DEFAULT_SIZE 0 in
  let m := fill m __pg_pdpt_kernel PAGE_DEFAULT_SIZE 0 in
  let m := fill m __pg_pdpt_higher_half PAGE_DEFAULT_SIZE 0 in
  fill m __pg_pd_kernel PAGE_DEFAULT_SIZE 0.

Definition link_tables (m : mem) : mem :=
  let m := set_entry __pg_pml4 0 (Z.lor __pg_pdpt_ident PAGING_PML4_DEFAULT_FLAGS) m in
  let m := set_entry __pg_pml4 256 (Z.lor __pg_pdpt_higher_half PAGING_PML4_DEFAULT_FLAGS) m in
  let m := set_entry __pg_pml4 511 (Z.lor __pg_pdpt_kernel PAGING_PML4_DEFAULT_FLAGS) m in
  let m := set_entry __pg_pdpt_kernel 510 (Z.lor __pg_pd_kernel PAGING_PDPT_DEFAULT_FLAGS) m in
  let m := set_entry __pg_pdpt_ident 0 (Z.lor __pg_pd_ident PAGING_PDPT_DEFAULT_FLAGS) m in
  let m := set_entry __pg_pd_ident 0 (Z.lor __pg_pt_ident0 PAGING_PD_DEFAULT_FLAGS) m in
  set_entry __pg_pd_ident 1 (Z.lor __pg_pt_ident1 PAGING_PD_DEFAULT_FLAGS) m.

Definition ident_entries (m : mem) : mem :=
  foldl (fun m i =>
    let m := set_entry __pg_pt_ident0 i (Z.lor (i * PAGE_DEFAULT_SIZE) PAGING_PT_DEFAULT_FLAGS) m in
    set_entry __pg_pt_ident1 i (Z.lor (i * PAGE_DEFAULT_SIZE + 0x200000) PAGING_PT_DEFAULT_FLAGS) m)
    m (seqZ 0 512).

(** [i * PAGE_HUGE_SIZE] is a 32-bit product of [size_t] and [int]. *)
Definition stage2_page_tables (m : mem) : mem :=
  let m := link_tables (clear_tables m) in
  let m := set_entries __pg_pd_kernel (fun i => Z.lor (u32 (i * PAGE_LARGE_SIZE)) PAGING_PD_LARGE_FLAGS) 4 m in
  let m := set_entries __pg_pdpt_higher_half (fun i => Z.lor (u32 (i * PAGE_HUGE_SIZE)) PAGING_PDPT_HUGE_FLAGS) 512 m in
  ident_entries m.

(** ** What the processor makes of the tables *)

Section tables.
Implicit Types m : mem.

Lemma set_entry_same m t i v : 0 <= v < 2 ^ 64 -> entry (set_entry t i v m) t i = v.
Proof. apply entry_store_same. Qed.

Lemma set_entry_other m t i v q j : is_page t -> is_page q -> 0 <= i < 512 -> 0 <= j < 512 -> (q, j) <> (t, i) ->
  entry (set_entry t i v m) q j = entry m q j.
Proof. apply entry_store_other. Qed.

(** A loop that sets entries of one table. *)
Lemma fold_entries (step : mem -> Z -> mem) t f n : is_page t -> Z.of_nat n <= 512 ->
  (forall m i, 0 <= i < 512 -> entry (step m i) t i = f i) ->
  (forall m i j, 0 <= i < 512 -> 0 <= j < 512 -> i <> j -> entry (step m i) t j = entry m t j) ->
  forall m j, 0 <= j < 512 -> entry (foldl step m (seqZ 0 (Z.of_nat n))) t j = if j <? Z.of_nat n then f j else entry m t j.
Proof.
  intros Ht Hn Hsame Hother. induction n as [|n IH]; intros m j Hj; [by rewrite (proj2 (Z.ltb_ge _ _)) by lia|].
  rewrite seqZ_S, foldl_app. cbn [foldl]. rewrite Z.add_0_l, Nat2Z.inj_succ. destruct (decide (j = Z.of_nat n)) as [->|Hne].
  - rewrite Hsame by lia. by rewrite (proj2 (Z.ltb_lt _ _)) by lia.
  - rewrite Hother by lia. rewrite IH by lia. destruct (Z.ltb_spec j (Z.of_nat n)), (Z.ltb_spec j (Z.succ (Z.of_nat n))); lia || done.
Qed.

Lemma fold_entries_other (step : mem -> Z -> mem) q n : Z.of_nat n <= 512 ->
  (forall m i j, 0 <= i < 512 -> 0 <= j < 512 -> entry (step m i) q j = entry m q j) ->
  forall m j, 0 <= j < 512 -> entry (foldl step m (seqZ 0 (Z.of_nat n))) q j = entry m q j.
Proof.
  intros Hn Hother. induction n as [|n IH]; intros m j Hj; [done|].
  rewrite seqZ_S, foldl_app. cbn [foldl]. rewrite Hother by lia. apply IH; lia.
Qed.

Lemma set_entries_same m t f n j : is_page t -> 0 <= n <= 512 -> 0 <= j < 512 -> (forall i, 0 <= i < 512 -> 0 <= f i < 2 ^ 64) ->
  entry (set_entries t f n m) t j = if j <? n then f j else entry m t j.
Proof.
  intros Ht Hn Hj Hf. unfold set_entries. rewrite <- (Z2Nat.id n) by lia. apply fold_entries; try done; [lia|..].
  - intros. apply set_entry_same. by apply Hf.
  - intros. apply set_entry_other; try done. congruence.
Qed.

Lemma set_entries_other m t f n q j : is_page t -> is_page q -> q <> t -> 0 <= n <= 512 -> 0 <= j < 512 ->
  entry (set_entries t f n m) q j = entry m q j.
Proof.
  intros Ht Hq Hne Hn Hj. unfold set_entries. rewrite <- (Z2Nat.id n) by lia. apply fold_entries_other; [lia| |done].
  intros. apply set_entry_other; try done. congruence.
Qed.

Lemma table_pages : is_page __pg_pml4 /\ is_page __pg_pdpt_kernel /\ is_page __pg_pdpt_higher_half /\ is_page __pg_pdpt_ident /\
  is_page __pg_pd_kernel /\ is_page __pg_pd_ident /\ is_page __pg_pt_ident0 /\ is_page __pg_pt_ident1.
Proof. vm_compute. intuition congruence. Qed.

Ltac table_side := first [done | apply table_pages | vm_compute; congruence | lia].

Lemma ident_entries_other m q j : is_page q -> q <> __pg_pt_ident0 -> q <> __pg_pt_ident1 -> 0 <= j < 512 ->
  entry (ident_entries m) q j = entry m q j.
Proof.
  intros Hq H0 H1 Hj. apply (fold_entries_other _ q 512); [lia| |done]. intros m' i j' Hi Hj'. cbv zeta.
  by rewrite !set_entry_other by (table_side || congruence).
Qed.

Lemma small_lor a f : 0 <= a < 2 ^ 44 -> 0 <= f < 2 ^ 12 -> 0 <= Z.lor a f < 2 ^ 64.
Proof.
  intros Ha Hf. split; [apply Z.lor_nonneg; lia|]. destruct (decide (Z.lor a f = 0)) as [->|Hne]; [lia|].
  assert (0 <= Z.lor a f) by (apply Z.lor_nonneg; lia). apply Z.log2_lt_pow2; [lia|]. rewrite Z.log2_lor by lia.
  assert (forall x, 0 <= x < 2 ^ 44 -> Z.log2 x < 64) as Hl.
  { intros x Hx. apply (Z.le_lt_trans _ 43); [|lia]. change 43 with (Z.log2 (2 ^ 44 - 1)). apply Z.log2_le_mono. lia. }
  apply Z.max_lub_lt; apply Hl; lia.
Qed.

Lemma ident_entries_0 m j : 0 <= j < 512 -> entry (ident_entries m) __pg_pt_ident0 j = Z.lor (j * 4096) 3.
Proof.
  intros Hj. unfold ident_entries. rewrite (fold_entries _ __pg_pt_ident0 (fun i => Z.lor (i * 4096) 3) 512); [|table_side|lia|..|done].
  - by rewrite (proj2 (Z.ltb_lt j (Z.of_nat 512))) by lia.
  - intros m' i Hi. cbv zeta. rewrite set_entry_other by table_side. apply set_entry_same, small_lor; unfold PAGE_DEFAULT_SIZE, PAGING_PT_DEFAULT_FLAGS; lia.
  - intros m' i j' Hi Hj' Hne. cbv zeta. rewrite !set_entry_other by (table_side || congruence). done.
Qed.

Lemma ident_entries_1 m j : 0 <= j < 512 -> entry (ident_entries m) __pg_pt_ident1 j = Z.lor (j * 4096 + 0x200000) 3.
Proof.
  intros Hj. unfold ident_entries. rewrite (fold_entries _ __pg_pt_ident1 (fun i => Z.lor (i * 4096 + 0x200000) 3) 512); [|table_side|lia|..|done].
  - by rewrite (proj2 (Z.ltb_lt j (Z.of_nat 512))) by lia.
  - intros m' i Hi. cbv zeta. apply set_entry_same, small_lor; unfold PAGE_DEFAULT_SIZE, PAGING_PT_DEFAULT_FLAGS; lia.
  - intros m' i j' Hi Hj' Hne. cbv zeta. rewrite !set_entry_other by (table_side || congruence). done.
Qed.

Lemma fill_other m t q j : is_page t -> is_page q -> q <> t -> 0 <= j < 512 -> entry (fill m t PAGE_DEFAULT_SIZE 0) q j = entry m q j.
Proof. intros. by apply entry_fill_other. Qed.

Lemma fill_same m t j : 0 <= j < 512 -> entry (fill m t PAGE_DEFAULT_SIZE 0) t j = 0.
Proof. apply entry_fill_in. Qed.

(** Every entry the processor can reach. *)
Ltac through := repeat first
  [ rewrite ident_entries_other by table_side
  | rewrite set_entries_other by table_side
  | rewrite set_entry_same by (vm_compute; intuition congruence)
  | rewrite set_entry_other by table_side
  | rewrite fill_same by lia
  | rewrite fill_other by table_side ].

Lemma boot_links m : let m' := stage2_page_tables m in
  entry m' __pg_pml4 0 = Z.lor __pg_pdpt_ident 3 /\ entry m' __pg_pml4 256 = Z.lor __pg_pdpt_higher_half 3 /\
  entry m' __pg_pml4 511 = Z.lor __pg_pdpt_kernel 3 /\ entry m' __pg_pdpt_kernel 510 = Z.lor __pg_pd_kernel 3 /\
  entry m' __pg_pdpt_ident 0 = Z.lor __pg_pd_ident 3 /\ entry m' __pg_pd_ident 0 = Z.lor __pg_pt_ident0 3 /\
  entry m' __pg_pd_ident 1 = Z.lor __pg_pt_ident1 3.
Proof. cbv zeta. unfold stage2_page_tables, link_tables, clear_tables. cbv zeta. repeat split; through; reflexivity. Qed.

Lemma boot_pd_kernel m i : 0 <= i < 4 -> entry (stage2_page_tables m) __pg_pd_kernel i = Z.lor (i * PAGE_LARGE_SIZE) 0x83.
Proof.
  intros Hi. unfold stage2_page_tables. cbv zeta. rewrite ident_entries_other, set_entries_other by table_side.
  rewrite set_entries_same; [|table_side|lia|lia|].
  - rewrite (proj2 (Z.ltb_lt i 4)), u32_id by (unfold PAGE_LARGE_SIZE; lia). done.
  - intros j Hj. apply small_lor; [|done]. unfold PAGE_LARGE_SIZE. pose proof (u32_range (j * 0x200000)). lia.
Qed.

Lemma boot_pdpt_higher m i : 0 <= i < 512 ->
  entry (stage2_page_tables m) __pg_pdpt_higher_half i = Z.lor (i mod 4 * PAGE_HUGE_SIZE) 0x83.
Proof.
  intros Hi. unfold stage2_page_tables. cbv zeta. rewrite ident_entries_other by table_side.
  rewrite set_entries_same; [|table_side|lia|lia|].
  - rewrite (proj2 (Z.ltb_lt i 512)) by lia. f_equal. unfold u32, PAGE_HUGE_SIZE. dlia.
  - intros j Hj. apply small_lor; [|done]. pose proof (u32_range (j * PAGE_HUGE_SIZE)). lia.
Qed.

Lemma walk_link m n p v q : is_page q -> entry m p (level_idx (S (S n)) v) = Z.lor q 3 ->
  walk m (S (S n)) p v = walk m (S n) q v.
Proof.
  intros Hq He. cbn [walk]. rewrite He. unfold present, is_leaf, page_size_bit. rewrite !Z.lor_spec, (page_low_bits q 0), (page_low_bits q 7) by (apply Hq || lia).
  change (Z.testbit 3 0) with true. change (Z.testbit 3 7) with false. rewrite andb_false_r. cbn [negb orb].
  rewrite bool_decide_false by lia. destruct Hq as [Hq Hm]. rewrite entry_addr_lor; [done|lia|done|done].
Qed.

Lemma walk_leaf m n p v q f : is_page q -> (n = 0%nat \/ Z.testbit f 7 = true) -> (n < 3)%nat -> Z.testbit f 0 = true ->
  entry m p (level_idx (S n) v) = Z.lor q f -> walk m (S n) p v = Some (S n, Z.lor q f).
Proof.
  intros Hq Hf Hn Hpr He. cbn [walk]. rewrite He. unfold present, is_leaf, page_size_bit. rewrite !Z.lor_spec, Hpr, orb_true_r. cbn [negb].
  destruct Hf as [->|Hf]; [done|]. rewrite Hf, orb_true_r, andb_true_r. rewrite (bool_decide_true (S n < 4)%nat) by lia. by rewrite orb_true_r.
Qed.

(** The address a page entry translates to. *)
Lemma translate_leaf m root v n q f : walk m 4 root v = Some (n, Z.lor q f) -> is_page q -> Z.land f VMM_PTE_ADDR_MASK = 0 ->
  q mod 2 ^ level_shift n = 0 -> (1 <= n)%nat -> translate m root v = Some (q + v mod 2 ^ level_shift n).
Proof.
  intros Hw [Hq Hm] Hf Hal Hn. unfold translate. rewrite Hw. cbv [mbind option_bind]. rewrite entry_addr_lor by (done || lia).
  f_equal. assert (0 < 2 ^ level_shift n) by (apply Z.pow_pos_nonneg; unfold level_shift; lia).
  pose proof (Z.div_mod q (2 ^ level_shift n)). lia.
Qed.

(** Table indices in the three regions. *)
Lemma idx_ident a : 0 <= a < 0x400000 -> level_idx 4 a = 0 /\ level_idx 3 a = 0 /\ level_idx 2 a = a / 0x200000 /\
  level_idx 1 a = a / 4096 mod 512.
Proof.
  intros Ha. rewrite !level_idx_div by lia. change (2 ^ level_shift 4) with 0x8000000000. change (2 ^ level_shift 3) with 0x40000000.
  change (2 ^ level_shift 2) with 0x200000. change (2 ^ level_shift 1) with 4096. repeat split; dlia.
Qed.

Lemma idx_kernel a : 0 <= a < 0x800000 -> level_idx 4 (KERNEL_BASE_OFFSET + a) = 511 /\
  level_idx 3 (KERNEL_BASE_OFFSET + a) = 510 /\ level_idx 2 (KERNEL_BASE_OFFSET + a) = a / 0x200000.
Proof.
  intros Ha. unfold KERNEL_BASE_OFFSET. rewrite !level_idx_div by lia. change (2 ^ level_shift 4) with 0x8000000000.
  change (2 ^ level_shift 3) with 0x40000000. change (2 ^ level_shift 2) with 0x200000. repeat split; dlia.
Qed.

Lemma idx_direct a : 0 <= a < 2 ^ 39 -> level_idx 4 (PMM_HHDM_START + a) = 256 /\ level_idx 3 (PMM_HHDM_START + a) = a / 0x40000000.
Proof.
  intros Ha. unfold PMM_HHDM_START. rewrite !level_idx_div by lia. change (2 ^ level_shift 4) with 0x8000000000.
  change (2 ^ level_shift 3) with 0x40000000. split; dlia.
Qed.

(** A page entry for the frame of number [k] and size [2 ^ level_shift n]. *)
Lemma translate_frame m root v n p k f : walk m 4 root v = walk m (S n) p v -> (n < 3)%nat ->
  0 <= k * 2 ^ level_shift (S n) < 2 ^ 44 -> (n = 0%nat \/ Z.testbit f 7 = true) -> Z.testbit f 0 = true ->
  Z.land f VMM_PTE_ADDR_MASK = 0 -> entry m p (level_idx (S n) v) = Z.lor (k * 2 ^ level_shift (S n)) f ->
  translate m root v = Some (k * 2 ^ level_shift (S n) + v mod 2 ^ level_shift (S n)).
Proof.
  intros Hw Hn Hk Hf Hpr Hmask He.
  assert (is_page (k * 2 ^ level_shift (S n))) as Hp.
  { split; [done|]. unfold PAGE_SIZE, level_shift. replace (12 + 9 * (Z.of_nat (S n) - 1)) with (12 + 9 * Z.of_nat n) by lia.
    rewrite Z.pow_add_r by lia. change (2 ^ 12) with 4096. replace (k * (4096 * 2 ^ (9 * Z.of_nat n))) with (k * 2 ^ (9 * Z.of_nat n) * 4096) by lia.
    by apply Z.mod_mul. }
  rewrite (walk_leaf m n p v _ f) in Hw by done. apply (translate_leaf _ _ _ _ _ _ Hw); [done|done| |lia].
  apply Z.mod_mul, Z.pow_nonzero; unfold level_shift; lia.
Qed.

Lemma boot_ident m a : 0 <= a < 0x400000 -> translate (stage2_page_tables m) __pg_pml4 a = Some a.
Proof.
  intros Ha. destruct (boot_links m) as (L1 & _ & _ & _ & L5 & L6 & L7). destruct (idx_ident a Ha) as (I4 & I3 & I2 & I1).
  assert (0 <= a / 4096 mod 512 < 512) as Hr by (clear - Ha; dlia).
  assert (a / 0x200000 = 0 /\ a / 4096 mod 512 * 4096 = a / 4096 * 4096 \/
    a / 0x200000 = 1 /\ a / 4096 mod 512 * 4096 + 0x200000 = a / 4096 * 4096) as Hcase by (clear - Ha; dlia).
  assert (entry (stage2_page_tables m) __pg_pt_ident0 (a / 4096 mod 512) = Z.lor (a / 4096 mod 512 * 4096) 3) as E0
    by (unfold stage2_page_tables; cbv zeta; by apply ident_entries_0).
  assert (entry (stage2_page_tables m) __pg_pt_ident1 (a / 4096 mod 512) = Z.lor (a / 4096 mod 512 * 4096 + 0x200000) 3) as E1
    by (unfold stage2_page_tables; cbv zeta; by apply ident_entries_1).
  generalize dependent (stage2_page_tables m). intros m' L1 L5 L6 L7 E0 E1.
  assert (exists t, walk m' 4 __pg_pml4 a = walk m' 1 t a /\ entry m' t (a / 4096 mod 512) = Z.lor (a / 4096 * 4096) 3) as (t & Hw & He).
  { rewrite (walk_link m' 2 _ a __pg_pdpt_ident); [|apply table_pages|by rewrite I4].
    rewrite (walk_link m' 1 _ a __pg_pd_ident); [|apply table_pages|by rewrite I3].
    destruct Hcase as [[E Ea]|[E Ea]]; rewrite E in I2; rewrite <- Ea; [exists __pg_pt_ident0|exists __pg_pt_ident1]; (split; [|done]);
      apply walk_link; (apply table_pages || by rewrite I2). }
  rewrite (translate_frame _ _ _ 0 t (a / 4096) 3 Hw); [|lia| |by left|done|done|]; change (2 ^ level_shift 1) with 4096.
  - f_equal. clear - Ha. dlia.
  - clear - Ha. dlia.
  - by rewrite I1.
Qed.

Lemma boot_kernel m a : 0 <= a < 0x800000 -> translate (stage2_page_tables m) __pg_pml4 (KERNEL_BASE_OFFSET + a) = Some a.
Proof.
  intros Ha. destruct (boot_links m) as (_ & _ & L3 & L4 & _). destruct (idx_kernel a Ha) as (I4 & I3 & I2).
  assert (0 <= a / 0x200000 < 4) as Hr by (clear - Ha; dlia). pose proof (boot_pd_kernel m _ Hr) as L.
  generalize dependent (stage2_page_tables m). intros m' L3 L4 L.
  rewrite (translate_frame _ _ (KERNEL_BASE_OFFSET + a) 1 __pg_pd_kernel (a / 0x200000) 0x83); [| |lia| |by right|done|done|];
    change (2 ^ level_shift 2) with 0x200000.
  - f_equal. unfold KERNEL_BASE_OFFSET. clear - Ha. dlia.
  - rewrite (walk_link m' 2 _ _ __pg_pdpt_kernel); [|apply table_pages|by rewrite I4].
    apply walk_link; [apply table_pages|by rewrite I3].
  - lia.
  - by rewrite I2.
Qed.

Lemma boot_direct m a : 0 <= a < 2 ^ 39 -> translate (stage2_page_tables m) __pg_pml4 (PMM_HHDM_START + a) = Some (a mod 2 ^ 32).
Proof.
  intros Ha. destruct (boot_links m) as (_ & L2 & _). destruct (idx_direct a Ha) as (I4 & I3).
  assert (0 <= a / 0x40000000 < 512) as Hr by (clear - Ha; dlia). pose proof (boot_pdpt_higher m _ Hr) as L.
  generalize dependent (stage2_page_tables m). intros m' L2 L.
  rewrite (translate_frame _ _ (PMM_HHDM_START + a) 2 __pg_pdpt_higher_half (a / 0x40000000 mod 4) 0x83); [| |lia| |by right|done|done|];
    change (2 ^ level_shift 3) with 0x40000000.
  - f_equal. unfold PMM_HHDM_START. clear - Ha. dlia.
  - apply walk_link; [apply table_pages|by rewrite I4].
  - clear - Ha. dlia.
  - by rewrite I3.
Qed.
End tables.

(** C22: whatever the memory held before, the tables of stage 2 translate the first
    4 MiB to themselves, the kernel window to the first 8 MiB, and the direct map to
    physical memory; the direct map repeats after 4 GiB, because the product that
    fills it is taken at 32 bits. *)
Theorem stage2_page_tables_correct (m : mem) :
  let m' := stage2_page_tables m in
  (forall a, 0 <= a < 0x400000 -> translate m' STAGE2_PML4_ADDRESS a = Some a) /\
  (forall a, 0 <= a < 0x800000 -> translate m' STAGE2_PML4_ADDRESS (KERNEL_BASE_OFFSET + a) = Some a) /\
  (forall a, 0 <= a < 2 ^ 39 -> translate m' STAGE2_PML4_ADDRESS (PMM_HHDM_START + a) = Some (a mod 2 ^ 32)).
Proof. split; [apply boot_ident|]. split; [apply boot_kernel|apply boot_direct]. Qed.
