(* ===== verification/Stage2Load.v ===== *)
(** * Stage 2: loading the kernel

    [stage2_boot] of [boot/stage2/stage2.c] from the file system header to the last
    program header: opening [/kernel.elf], checking its checksum, checking the ELF
    header and copying the segments to their physical addresses.  The memory is what
    the segments are copied to; the buffers of the file, in the arena, are part of the
    record of the file.  The theorems: a kernel that is missing, whose checksum is wrong
    or whose header is not accepted is never started, and a valid one is copied byte
    for byte, with the rest of its segments zeroed and no other byte of memory
    touched.  A kernel file that is shorter than its headers say is not rejected: the
    copy loop never ends. *)
From Stdlib Require Import ZArith Lia.
From stdpp Require Import base tactics list numbers gmap.
From S2P Require Import Prelude Common Memory Interfaces Vmm PageTables KernelMemory CString Crc32 Descriptors BsfsTypes BsfsFile BsfsRead BsfsPath Elf ElfTheorems Stage2.

Open Scope Z_scope.

Section load.
Context {D : Type} (context : BsfsContext D).

Abbreviation machine := (D * mem)%type.

(** [while (remaining > 0)]: the address after the last byte. *)
Fixpoint copy_segment (fuel : nat) (phaddr remaining : Z) (file : BsfsFile) : M machine (Z * BsfsFile) :=
  if negb (0 <? remaining) then mret (phaddr, file) else
  match fuel with
  | O => fun _ => OutOfFuel
  | S fuel' =>
      let count := if remaining <? block_size (header context) then remaining else block_size (header context) in
      '(read, bytes, file) ← on_disk (stage2_bsfs_fread context 1 (u32 count) file);
      _ ← on_memory (modify (fun m => store m phaddr bytes));
      let fread_count := s32 read in
      if fread_count <? 0 then panic else
      copy_segment fuel' (u32 (phaddr + fread_count)) (s64 (remaining - fread_count)) file
  end.

Definition stage2_load_segment (fuel : nat) (phdr : Elf64Phdr) (file : BsfsFile) : M machine BsfsFile :=
  '(r, file) ← lift (stage2_bsfs_fseeko file (p_offset phdr) BSFS_FSEEKO_SET);
  if r <? 0 then panic else
  '(phaddr, file) ← copy_segment fuel (u32 (p_paddr phdr)) (s64 (p_filesz phdr)) file;
  _ ← on_memory (modify (fun m => fill m phaddr (u32 (p_memsz phdr - p_filesz phdr)) 0));
  mret file.

(** [n] program headers from number [ph] on; [stack ph] is what the local variable
    holds before it is read. *)
Fixpoint stage2_load_phdrs (fuel n : nat) (hdr : Elf64Ehdr) (stack : Z -> list Z) (ph : Z) (file : BsfsFile)
    : M machine BsfsFile :=
  match n with
  | O => mret file
  | S n' =>
      let ph_offset := u64 (e_phoff hdr + u32 (ph * e_phentsize hdr)) in
      '(r, file) ← lift (stage2_bsfs_fseeko file ph_offset BSFS_FSEEKO_SET);
      if r <? 0 then panic else
      '(read, bytes, file) ← on_disk (stage2_bsfs_fread context (e_phentsize hdr) 1 file);
      if s32 read <? 0 then panic else
      let phdr := parse_phdr (filled (stack ph) bytes) in
      if p_memsz phdr <? p_filesz phdr then panic else
      if p_type phdr =? PT_LOAD then
        file ← stage2_load_segment fuel phdr file;
        stage2_load_phdrs fuel n' hdr stack (ph + 1) file
      else stage2_load_phdrs fuel n' hdr stack (ph + 1) file
  end.

(** The checks of the header before the seek to the program headers. *)
Definition stage2_ident_ok (hdr : Elf64Ehdr) : bool :=
  negb (negb (ident hdr 0 =? 0x7F) || negb (ident hdr 1 =? 0x45) || negb (ident hdr 2 =? 0x4C) || negb (ident hdr 3 =? 0x46))
  && (ident hdr 4 =? 0x02) && (ident hdr 5 =? 0x01) && (e_type hdr =? 0x02).

(** The comparison of [fread_count] with [sizeof(Elf64Ehdr)] is unsigned, so that an
    error code passes it. *)
Definition stage2_load_elf (fuel : nat) (stack0 : list Z) (stack : Z -> list Z) (file : BsfsFile)
    : M machine (Elf64Ehdr * BsfsFile) :=
  '(_, file) ← lift (stage2_bsfs_fseeko file 0 BSFS_FSEEKO_SET);
  '(read, bytes, file) ← on_disk (stage2_bsfs_fread context sizeof_Elf64Ehdr 1 file);
  if u32 read <? sizeof_Elf64Ehdr then panic else
  let hdr := parse_ehdr (filled stack0 bytes) in
  if negb (stage2_ident_ok hdr) then panic else
  '(r, file) ← lift (stage2_bsfs_fseeko file (e_phoff hdr) BSFS_FSEEKO_SET);
  if r <? 0 then panic else
  if negb (e_phentsize hdr =? sizeof_Elf64Phdr) then panic else
  file ← stage2_load_phdrs fuel (Z.to_nat (e_phnum hdr)) hdr stack 0 file;
  mret (hdr, file).

(** [while (!kernel_file.eof)]: the running checksum. *)
Fixpoint stage2_checksum_loop (fuel : nat) (file : BsfsFile) (checksum : Z) : M machine (Z * BsfsFile) :=
  if eof file then mret (checksum, file) else
  match fuel with
  | O => fun _ => OutOfFuel
  | S fuel' =>
      '(read, bytes, file) ← on_disk (stage2_bsfs_fread context 1 4096 file);
      if s32 read <? 0 then panic else
      stage2_checksum_loop fuel' file (stage2_crc32_update checksum bytes)
  end.

(** The checksum loop and the comparison with the inode. *)
Definition stage2_verify (fuel : nat) (file : BsfsFile) : M machine BsfsFile :=
  '(checksum_, file) ← stage2_checksum_loop fuel file 0xFFFFFFFF;
  match f_inode file with
  | None => fault
  | Some ino => if negb (crc32_finalize checksum_ =? checksum ino) then panic else mret file
  end.

(** [/kernel.elf] *)
Definition kernel_path : list Z := [47; 107; 101; 114; 110; 101; 108; 46; 101; 108; 102].

(** From opening the file to its last segment.  The context has no scratch buffer: what
    opening the file reads last is left at address 0, [scratch]. *)
Definition stage2_load_kernel (fuel : nat) (kernel_file : BsfsFile) (scratch stack0 : list Z) (stack : Z -> list Z)
    : M machine (Elf64Ehdr * BsfsFile) :=
  '(r, file) ← on_disk (stage2_bsfs_fopen context kernel_path kernel_file);
  _ ← on_memory (modify (fun m => store m 0 scratch));
  if r <? 0 then panic else
  file ← stage2_verify fuel file;
  stage2_load_elf fuel stack0 stack file.
End load.

(** The header of the file system, and the context for the file; a read error is not
    noticed.  No scratch buffer is set: directory blocks are read to address 0, the page
    of the real-mode vectors, which stage 2 no longer uses. *)
Definition stage2_context {D : Type} (disk_ops_ : DiskOpsVtable D) (disk_buf : list Z) : M D (BsfsContext D) :=
  let bsfs_offset := PRISTINE_BSFS_OFFSET * PRISTINE_BSFS_BLOCKSIZE in
  '(_, bytes) ← disk_read disk_ops_ (bsfs_offset / 512) 1;
  let hdr := parse_header (filled disk_buf bytes) in
  if negb (block_size hdr =? PRISTINE_BSFS_BLOCKSIZE) then panic else
  mret {| header := hdr; disk_ops := disk_ops_; phys_sector_size := 512; scratch_buf_capacity := 4096 |}.

(** What the kernel is told. *)
Record RawBootInfo := {
  memory_map_addr : Z;
  memory_map_count : Z;
  vesa_vbe_info_addr : Z;
  vesa_vbe_mode_info_addr : Z;
  memory_bitmap_address : Z;
  memory_bitmap_size : Z;
  pml4_address : Z;
  page_table_count : Z;
  gdt_address : Z;
  gdt_entries : Z;
}.

Definition stage2_bootinfo (memmap_count vesa_vbe_info vesa_vbe_mode_info : Z) : RawBootInfo :=
  {| memory_map_addr := STAGE2_MEMMAP_ADDR; memory_map_count := memmap_count;
     vesa_vbe_info_addr := vesa_vbe_info; vesa_vbe_mode_info_addr := vesa_vbe_mode_info;
     memory_bitmap_address := STAGE2_MEMORY_BITMAP_START; memory_bitmap_size := STAGE2_MEMORY_BITMAP_SIZE;
     pml4_address := STAGE2_PML4_ADDRESS;
     page_table_count := STAGE2_PML4_TABLE_COUNT + STAGE2_PDPT_TABLE_COUNT + STAGE2_PDPT_TABLE_COUNT + STAGE2_PT_TABLE_COUNT;
     gdt_address := STAGE2_GDT_ADDRESS; gdt_entries := 3 |}.

(** The descriptor table of the handoff. *)
Definition stage2_gdt (gdt : list Z) : outcome (list Z) :=
  gdt ← stage2_gdt_set_entry gdt 0 0 0 0 0;
  gdt ← stage2_gdt_set_entry gdt 1 0 0xFFFFF 0x9A 0xA;
  stage2_gdt_set_entry gdt 2 0 0xFFFFF 0x92 0xC.

(** ** Proofs *)
Section proofs.
Context {D : Type} (context : BsfsContext D).
Context (image : list Z) (good : D -> Prop) (ino : BsfsInode).
Context (Hgeo : geometry context image good) (Hino : inode_on_disk image ino) (Hbytes : bytes_ok image).
Implicit Types (f : BsfsFile) (d : D) (m : mem).

(** The copy of [n] bytes of the file from [pos] on to [a]. *)
Definition copied (a n pos : Z) m m' : Prop :=
  forall x, m' x = if (a <=? x) && (x <? a + n) then file_byte image ino (pos + (x - a)) else m x.

Lemma copy_segment_run fuel : forall a n f d m,
  0 <= n < 2 ^ 63 -> n < Z.of_nat fuel * 4096 \/ n = 0 -> 0 <= a -> a + n < 2 ^ 32 -> good d -> file_ok image ino f ->
  (0 < n -> position f mod 4096 = 0 /\ position f + n <= size ino) ->
  exists f' d' m', copy_segment context fuel a n f (d, m) = Ok ((a + n, f'), (d', m')) /\ good d' /\ file_ok image ino f' /\
    copied a n (position f) m m'.
Proof.
  induction fuel as [|fuel IH]; intros a n f d m Hn Hfuel Ha Han Hd Hf Hpos; cbn [copy_segment].
  { assert (n = 0) as -> by lia. exists f, d, m. rewrite Z.add_0_r. split; [done|]. split; [done|]. split; [done|].
    intros x. by rewrite (proj2 (andb_false_iff _ _)) by (destruct (Z.leb_spec a x), (Z.ltb_spec x (a + 0)); auto with lia). }
  destruct (Z.ltb_spec 0 n) as [Hlt|Hge]; cbn [negb].
  - destruct (Hpos Hlt) as [Hpm Hps]. rewrite (geo_block _ _ _ Hgeo). set (k := if n <? 4096 then n else 4096).
    assert (k = Z.min n 4096) as Hk by (unfold k; destruct (Z.ltb_spec n 4096); lia). clearbody k. rewrite u32_id by lia.
    destruct (read_run context image good ino Hgeo Hino f d 1 k Hd Hf) as (f1 & d1 & E1 & Hd1 & Hf1 & Hp1); [lia..|].
    rewrite Z.mul_1_l in E1, Hp1. rewrite (bind_run _ _ _ _ _ (on_disk_run _ d m _ d1 E1)).
    set (m1 := store m a (file_bytes image ino (position f) k)).
    rewrite (bind_run (on_memory _) _ _ tt (d1, m1)) by done. cbv zeta. rewrite s32_id by lia. rewrite (proj2 (Z.ltb_ge k 0)) by lia.
    rewrite u32_id, s64_id by lia.
    destruct (IH (a + k) (n - k) f1 d1 m1) as (f2 & d2 & m2 & E2 & Hd2 & Hf2 & Hc); [lia|lia|lia|lia|done|done| |].
    { intros Hlt'. assert (k = 4096) by lia. rewrite Hp1. split; [dlia|lia]. }
    exists f2, d2, m2. replace (a + k + (n - k)) with (a + n) in E2 by lia. split; [done|]. split; [done|]. split; [done|].
    intros x. rewrite Hc, Hp1.
    destruct (Z.leb_spec (a + k) x), (Z.ltb_spec x (a + k + (n - k))), (Z.leb_spec a x), (Z.ltb_spec x (a + n)); cbn [andb]; try lia.
    + f_equal. lia.
    + apply store_out. rewrite length_file_bytes by lia. lia.
    + replace x with (a + Z.of_nat (Z.to_nat (x - a))) at 1 by lia. apply store_in. rewrite file_bytes_lookup by lia. done.
    + apply store_out. rewrite length_file_bytes by lia. lia.
  - assert (n = 0) as -> by lia. exists f, d, m. rewrite Z.add_0_r. split; [done|]. split; [done|]. split; [done|].
    intros x. by rewrite (proj2 (andb_false_iff _ _)) by (destruct (Z.leb_spec a x), (Z.ltb_spec x (a + 0)); auto with lia).
Qed.

(** A segment stage 2 can load: block aligned in the file, inside the file, below 4 GiB. *)
Record kernel_segment (ph : Elf64Phdr) : Prop := KernelSegment {
  ks_offset : p_offset ph mod 4096 = 0 /\ 0 <= p_offset ph;
  ks_filesz : 0 <= p_filesz ph <= p_memsz ph /\ p_offset ph + p_filesz ph <= size ino;
  ks_paddr : 0 <= p_paddr ph /\ p_paddr ph + p_memsz ph < 2 ^ 32;
}.

(** Where it is loaded. *)
Definition in_load (ph : Elf64Phdr) (x : Z) : bool := (p_paddr ph <=? x) && (x <? p_paddr ph + p_memsz ph).

Lemma stage2_load_segment_run fuel ph f d m : kernel_segment ph -> p_filesz ph < Z.of_nat fuel * 4096 \/ p_filesz ph = 0 ->
  good d -> file_ok image ino f ->
  exists f' d' m', stage2_load_segment context fuel ph f (d, m) = Ok (f', (d', m')) /\ good d' /\ file_ok image ino f' /\
    forall x, m' x = if in_load ph x then seg_byte image ino ph (x - p_paddr ph) else m x.
Proof.
  intros [[Hom Ho] [Hfs Hfz] [Hp Hpm]] Hfuel Hd Hf. unfold stage2_load_segment. pose proof (iod_size _ _ Hino) as Hsz.
  destruct (seek_run image ino f (p_offset ph) Hf) as (f1 & E1 & Hf1 & Hp1); [lia|].
  rewrite (bind_run (lift _) _ _ (0, f1) (d, m)) by (unfold stage2_bsfs_fseeko; by rewrite E1). change (0 <? 0) with false. cbv iota.
  rewrite (u32_id (p_paddr ph)), s64_id by lia.
  destruct (copy_segment_run fuel (p_paddr ph) (p_filesz ph) f1 d m) as (f2 & d2 & m2 & E2 & Hd2 & Hf2 & Hc);
    [lia|done|lia|lia|done|done|rewrite Hp1; auto with lia|].
  rewrite (bind_run _ _ _ _ _ E2). rewrite (u32_id (p_memsz ph - p_filesz ph)) by lia. eexists f2, d2, _. split; [done|]. split; [done|]. split; [done|].
  intros x. unfold fill. rewrite Hc, Hp1. unfold in_load, seg_byte.
  destruct (Z.leb_spec (p_paddr ph + p_filesz ph) x), (Z.ltb_spec x (p_paddr ph + p_filesz ph + (p_memsz ph - p_filesz ph))),
    (Z.leb_spec (p_paddr ph) x), (Z.ltb_spec x (p_paddr ph + p_memsz ph)), (Z.ltb_spec (x - p_paddr ph) (p_filesz ph)),
    (Z.ltb_spec x (p_paddr ph + p_filesz ph)); cbn [andb]; lia || done.
Qed.

(** Program headers stage 2 can load: each inside one block of the file, the loadable
    ones as above and apart from each other. *)
Record kernel_phdrs (hdr : Elf64Ehdr) (k n : Z) : Prop := KernelPhdrs {
  kp_inside : forall j, k <= j < k + n -> 0 <= e_phoff hdr + j * 56 < 2 ^ 63 /\ e_phoff hdr + j * 56 + 56 <= size ino /\
    (e_phoff hdr + j * 56) mod 4096 + 56 <= 4096;
  kp_sizes : forall j, k <= j < k + n -> p_filesz (nth_phdr image ino hdr j) <= p_memsz (nth_phdr image ino hdr j);
  kp_segments : forall j, k <= j < k + n -> loadable image ino hdr j -> kernel_segment (nth_phdr image ino hdr j);
  kp_apart : forall i j x, k <= i < k + n -> k <= j < k + n -> loadable image ino hdr i -> loadable image ino hdr j -> i <> j ->
    in_load (nth_phdr image ino hdr i) x = true -> in_load (nth_phdr image ino hdr j) x = false;
}.

(** Every loadable segment is in place and the rest of the memory is as before. *)
Record kernel_loaded (hdr : Elf64Ehdr) (k n : Z) m m' : Prop := KernelLoaded {
  kl_bytes : forall j x, k <= j < k + n -> loadable image ino hdr j -> in_load (nth_phdr image ino hdr j) x = true ->
    m' x = seg_byte image ino (nth_phdr image ino hdr j) (x - p_paddr (nth_phdr image ino hdr j));
  kl_rest : forall x, (forall j, k <= j < k + n -> loadable image ino hdr j -> in_load (nth_phdr image ino hdr j) x = false) ->
    m' x = m x;
}.

Lemma kernel_phdrs_tail hdr k n : kernel_phdrs hdr k (n + 1) -> kernel_phdrs hdr (k + 1) n.
Proof.
  intros [P1 P2 P3 P4]. split; [intros; apply P1; lia|intros; apply P2; lia|intros; apply P3; [lia|done]|].
  intros i j x Hi Hj. apply P4; lia.
Qed.

Lemma kernel_loaded_cons hdr k n m m1 m2 : 0 <= n -> kernel_phdrs hdr k (n + 1) ->
  (forall x, m1 x = if (p_type (nth_phdr image ino hdr k) =? PT_LOAD) && in_load (nth_phdr image ino hdr k) x
     then seg_byte image ino (nth_phdr image ino hdr k) (x - p_paddr (nth_phdr image ino hdr k)) else m x) ->
  kernel_loaded hdr (k + 1) n m1 m2 -> kernel_loaded hdr k (n + 1) m m2.
Proof.
  intros Hn Hok H1 [Hb Hr]. split.
  - intros j x Hj Hl Hx. destruct (decide (j = k)) as [->|Hne]; [|apply Hb; [lia|done|done]].
    rewrite Hr; [rewrite H1, (proj2 (Z.eqb_eq _ _) Hl), Hx; done|].
    intros i Hi Hli. apply (kp_apart _ _ _ Hok k i x); [lia|lia|done|done|lia|done].
  - intros x Hx. rewrite Hr by (intros j Hj; apply Hx; lia). rewrite H1.
    destruct (Z.eqb_spec (p_type (nth_phdr image ino hdr k)) PT_LOAD) as [E|]; [|done]. rewrite Hx; [done|lia|done].
Qed.

Lemma stage2_load_phdrs_run fuel hdr stack n : (1035 <= fuel)%nat -> e_phentsize hdr = 56 -> 0 <= e_phoff hdr < 2 ^ 64 -> forall k f d m,
  0 <= k -> k + Z.of_nat n <= 2 ^ 16 -> kernel_phdrs hdr k (Z.of_nat n) -> good d -> file_ok image ino f ->
  exists f' d' m', stage2_load_phdrs context fuel n hdr stack k f (d, m) = Ok (f', (d', m')) /\ good d' /\ file_ok image ino f' /\
    kernel_loaded hdr k (Z.of_nat n) m m'.
Proof.
  intros Hfuel He Hoff. pose proof (iod_size _ _ Hino) as Hsize. induction n as [|n IH]; intros k f d m Hk0 Hk Hok Hd Hf.
  { exists f, d, m. do 3 (split; [done|]). split; [intros; lia|done]. }
  rewrite Nat2Z.inj_succ in Hk, Hok |- *. unfold Z.succ in *. cbn [stage2_load_phdrs].
  destruct (kp_inside _ _ _ Hok k ltac:(lia)) as (Hi1 & Hi2 & Hi3).
  destruct (read_phdr_run context image good ino Hgeo Hino hdr k f d) as (f1 & f2 & d2 & E1 & E2 & Hd2 & Hf2); [done..|lia|done|done|done|done|].
  assert (u32 (k * e_phentsize hdr) = u64 (k * e_phentsize hdr)) as -> by (rewrite He, u32_id, u64_id by lia; done).
  rewrite (bind_run (lift _) _ _ (0, f1) (d, m)) by (unfold stage2_bsfs_fseeko; by rewrite E1). change (0 <? 0) with false. cbv iota.
  change sizeof_Elf64Phdr with 56 in E2. rewrite He. rewrite (bind_run _ _ _ _ _ (on_disk_run _ d m _ d2 E2)).
  change (s32 56 <? 0) with false. cbv iota zeta.
  rewrite parse_phdr_filled by (apply Nat2Z.inj; rewrite length_file_bytes; lia). fold (nth_phdr image ino hdr k).
  set (ph := nth_phdr image ino hdr k) in *. pose proof (kp_sizes _ _ _ Hok k ltac:(lia)) as Hsz. fold ph in Hsz.
  rewrite (proj2 (Z.ltb_ge (p_memsz ph) (p_filesz ph))) by lia.
  destruct (Z.eqb_spec (p_type ph) PT_LOAD) as [El|Hnl].
  - pose proof (kp_segments _ _ _ Hok k ltac:(lia) El) as Hseg. fold ph in Hseg.
    destruct (stage2_load_segment_run fuel ph f2 d2 m Hseg) as (f3 & d3 & m3 & E3 & Hd3 & Hf3 & Hm3); [destruct Hseg; lia|done|done|].
    rewrite (bind_run _ _ _ _ _ E3).
    destruct (IH (k + 1) f3 d3 m3) as (f4 & d4 & m4 & E4 & Hd4 & Hf4 & Hl4); [lia|lia|by apply kernel_phdrs_tail|done|done|].
    exists f4, d4, m4. do 3 (split; [done|]). apply (kernel_loaded_cons hdr k _ m m3); [lia|done| |done].
    intros x. fold ph. by rewrite El, Z.eqb_refl.
  - destruct (IH (k + 1) f2 d2 m) as (f4 & d4 & m4 & E4 & Hd4 & Hf4 & Hl4); [lia|lia|by apply kernel_phdrs_tail|done|done|].
    exists f4, d4, m4. do 3 (split; [done|]). apply (kernel_loaded_cons hdr k _ m m); [lia|done| |done].
    intros x. fold ph. by rewrite (proj2 (Z.eqb_neq _ _) Hnl).
Qed.

(** The header is read and checked; then the program headers are loaded. *)
Lemma stage2_load_elf_header fuel stack0 stack f d m : good d -> file_ok image ino f -> 64 <= size ino ->
  let hdr := file_ehdr image ino in
  exists f' d', good d' /\ file_ok image ino f' /\ stage2_load_elf context fuel stack0 stack f (d, m) =
    if negb (stage2_ident_ok hdr) || negb (e_phentsize hdr =? 56) then Panic else
    (file ← stage2_load_phdrs context fuel (Z.to_nat (e_phnum hdr)) hdr stack 0 f'; mret (hdr, file)) (d', m).
Proof.
  intros Hd Hf Hsz hdr. destruct (file_ehdr_range image ino Hbytes) as [Hoff Hnum]. fold hdr in Hoff, Hnum.
  unfold stage2_load_elf. destruct (seek_run image ino f 0 Hf) as (f1 & E1 & Hf1 & Hp1); [lia|].
  rewrite (bind_run (lift _) _ _ (0, f1) (d, m)) by (unfold stage2_bsfs_fseeko; by rewrite E1).
  destruct (read_run context image good ino Hgeo Hino f1 d sizeof_Elf64Ehdr 1 Hd Hf1) as (f2 & d2 & E2 & Hd2 & Hf2 & _);
    rewrite ?Hp1; unfold sizeof_Elf64Ehdr; [lia|change (0 mod 4096) with 0; lia|lia|]. rewrite Hp1 in E2. change (sizeof_Elf64Ehdr * 1) with 64 in E2.
  rewrite (bind_run _ _ _ _ _ (on_disk_run _ d m _ d2 E2)). change (u32 64 <? 64) with false. cbv iota zeta.
  rewrite parse_ehdr_filled by (apply Nat2Z.inj; rewrite length_file_bytes; lia). fold (file_ehdr image ino). fold hdr.
  destruct (seek_any image ino Hino f2 (e_phoff hdr) Hf2) as (f3 & E3 & Hf3); [lia|]. exists f3, d2. do 2 (split; [done|]).
  destruct (stage2_ident_ok hdr); cbn [negb orb]; [|done].
  rewrite (bind_run (lift _) _ _ (0, f3) (d2, m)) by (unfold stage2_bsfs_fseeko; by rewrite E3). change (0 <? 0) with false. cbv iota.
  change sizeof_Elf64Phdr with 56. by destruct (e_phentsize hdr =? 56).
Qed.

Lemma stage2_load_elf_run fuel stack0 stack f d m : (1035 <= fuel)%nat -> good d -> file_ok image ino f -> 64 <= size ino ->
  let hdr := file_ehdr image ino in
  stage2_ident_ok hdr = true -> e_phentsize hdr = 56 -> kernel_phdrs hdr 0 (e_phnum hdr) ->
  exists f' d' m', stage2_load_elf context fuel stack0 stack f (d, m) = Ok ((hdr, f'), (d', m')) /\ good d' /\
    kernel_loaded hdr 0 (e_phnum hdr) m m'.
Proof.
  intros Hfuel Hd Hf Hsz hdr Hid Hent Hok. destruct (file_ehdr_range image ino Hbytes) as [Hoff Hnum]. fold hdr in Hoff, Hnum.
  destruct (stage2_load_elf_header fuel stack0 stack f d m Hd Hf Hsz) as (f3 & d3 & Hd3 & Hf3 & ->). fold hdr.
  rewrite Hid, Hent. change (negb true || negb (56 =? 56)) with false. cbv iota.
  destruct (stage2_load_phdrs_run fuel hdr stack (Z.to_nat (e_phnum hdr)) Hfuel Hent Hoff 0 f3 d3 m) as (f4 & d4 & m4 & E4 & Hd4 & _ & Hl);
    rewrite ?Z2Nat.id by lia; try done; [lia|].
  rewrite (bind_run _ _ _ _ _ E4). rewrite Z2Nat.id in Hl by lia. by exists f4, d4, m4.
Qed.

(** A header that fails a check halts stage 2 before anything is loaded. *)
Lemma stage2_load_elf_rejects fuel stack0 stack f d m : good d -> file_ok image ino f -> 64 <= size ino ->
  let hdr := file_ehdr image ino in
  stage2_ident_ok hdr = false \/ e_phentsize hdr <> 56 -> stage2_load_elf context fuel stack0 stack f (d, m) = Panic.
Proof.
  intros Hd Hf Hsz hdr Hbad. destruct (stage2_load_elf_header fuel stack0 stack f d m Hd Hf Hsz) as (f3 & d3 & _ & _ & ->). fold hdr.
  destruct Hbad as [-> | Hent]; [done|]. rewrite (proj2 (Z.eqb_neq _ _) Hent). by rewrite orb_true_r.
Qed.

(** The loop computes what the loop of the kernel's [bsfs_verify_checksum] does. *)
Lemma stage2_checksum_loop_run fuel : forall f d m crc c f' d',
  verify_loop context fuel 4096 f crc d = Ok ((inr c, f'), d') ->
  stage2_checksum_loop context fuel f crc (d, m) = Ok ((c, f'), (d', m)).
Proof.
  induction fuel as [|fuel IH]; intros f d m crc c f' d'; cbn [verify_loop stage2_checksum_loop]; destruct (eof f);
    try (by intros [= <- <- <-]).
  unfold stage2_bsfs_fread. cbv [mbind M_bind on_disk]. change (u32 4096) with 4096.
  destruct (bsfs_fread context 1 4096 f d) as [[[[read bytes] f1] d1]| | |]; try done.
  destruct (s32 read <? 0); [done|]. rewrite stage2_crc32_update_fold, <- crc32_update_fold. apply IH.
Qed.

(** The checksum decides, and nothing has been loaded before. *)
Lemma stage2_verify_run fuel f d m : good d -> file_ok image ino f -> position f = 0 -> eof f = false ->
  size ino / 4096 + 1 < Z.of_nat fuel ->
  if crc32 (file_content image ino) =? checksum ino
  then exists f' d', stage2_verify context fuel f (d, m) = Ok (f', (d', m)) /\ good d' /\ file_ok image ino f'
  else stage2_verify context fuel f (d, m) = Panic.
Proof.
  intros Hd Hf Hp He Hfuel. pose proof (iod_size image ino Hino) as Hsz. assert (0 <= size ino / 4096) by dlia.
  destruct (verify_loop_run context image good Hgeo ino (Z.to_nat (size ino / 4096 + 1)) fuel f d 0xFFFFFFFF)
    as (f' & d' & Hrun & Hd' & Hf'); [done|done|done|by rewrite Hp|done|rewrite Hp, Z2Nat.id by dlia; dlia|lia|].
  unfold stage2_verify. rewrite (bind_run _ _ _ _ _ (stage2_checksum_loop_run _ _ _ m _ _ _ _ Hrun)), (fo_inode _ _ _ Hf'), Hp, Z.sub_0_r.
  change 0xFFFFFFFF with CRC_INIT. rewrite crc32_update_finalize. fold (file_content image ino).
  destruct (crc32 (file_content image ino) =? checksum ino); cbn [negb]; [|done]. by exists f', d'.
Qed.

(** *** Opening the file *)

(** The one component of [/kernel.elf]. *)
Definition kernel_name : list (list Z) := [drop 1 kernel_path].

Lemma kernel_names : Forall component_ok kernel_name.
Proof using Type. repeat constructor; try lia; discriminate. Qed.

Lemma stage2_fopen_run f d : 4096 <= scratch_buf_capacity context -> good d -> buffers_ok f ->
  dirs_on_path image (header context) (root_inode (header context)) kernel_name ->
  (forall idx, lookup_path image (header context) (root_inode (header context)) kernel_name = Some idx ->
     idx <> UINT32_MAX /\ inode_in_image image (header context) idx) ->
  exists code f' d', stage2_bsfs_fopen context kernel_path f d = Ok ((code, f'), d') /\ good d' /\
    match lookup_path image (header context) (root_inode (header context)) kernel_name with
    | Some idx => let ino := inode_at image (header context) idx in
        if type ino =? BSFS_INODE_TYPE_FILE then code = 0 /\ f' = opened f ino else code < 0
    | None => code < 0
    end.
Proof using Hgeo.
  intros Hscr Hd (_ & Hs & _) Hdirs Hidx.
  destruct (fopen_run context image good kernel_name f d Hgeo Hscr Hd ltac:(discriminate) kernel_names Hdirs Hidx) as (code & f' & d' & E & Hd' & Hm).
  change (join_path kernel_name) with kernel_path in E. exists code, f', d'. split; [exact E|]. split; [done|].
  destruct (lookup_path _ _ _ kernel_name) as [idx|]; [|by destruct Hm as [-> _]].
  destruct Hm as [-> Hf]. unfold fopen_code in *. rewrite Hs in *. cbv zeta.
  destruct (type _ =? BSFS_INODE_TYPE_FILE); cbn [negb] in *; [|done]. split; [done|]. by apply Hf.
Qed.
End proofs.

(** ** Properties *)

(** C19: stage 2 loads [/kernel.elf] or halts, on every disk that serves an image whose
    root directory is intact; the file, when there is one, has up to 1034 blocks, which
    lie on the image.  It halts when the path leads to no entry or
    to an inode that is no file, when the CRC-32 of the contents is not the checksum of the
    inode, whatever the contents are, and when the ELF header of a file of 64 bytes or more
    fails one of its checks.  When the header passes and the segments are block aligned in
    the file, inside it, apart and below 4 GiB, all of it is loaded: every byte of every
    segment is the file's or zero behind the file's part, and no other byte of memory
    changes but the ones opening the file leaves at address 0. *)
Theorem stage2_loads_kernel {D : Type} (context : BsfsContext D) (image : list Z) (good : D -> Prop)
  (f : BsfsFile) (d : D) (m : mem) (fuel : nat) (scratch stack0 : list Z) (stack : Z -> list Z)
  (Hgeo : geometry context image good) (Hscratch : 4096 <= scratch_buf_capacity context) (Hbytes : bytes_ok image)
  (Hd : good d) (Hbuf : buffers_ok f) (Hfuel : (1036 <= fuel)%nat)
  (Hdirs : dirs_on_path image (header context) (root_inode (header context)) kernel_name)
  (Htarget : forall idx, lookup_path image (header context) (root_inode (header context)) kernel_name = Some idx ->
     idx <> UINT32_MAX /\ inode_in_image image (header context) idx) :
  let run := stage2_load_kernel context fuel f scratch stack0 stack (d, m) in
  match lookup_path image (header context) (root_inode (header context)) kernel_name with
  | None => run = Panic
  | Some idx =>
      let ino := inode_at image (header context) idx in
      let hdr := file_ehdr image ino in
      (type ino <> BSFS_INODE_TYPE_FILE -> run = Panic) /\
      (type ino = BSFS_INODE_TYPE_FILE -> inode_on_disk image ino ->
        (crc32 (file_content image ino) <> checksum ino -> run = Panic) /\
        (64 <= size ino -> stage2_ident_ok hdr = false \/ e_phentsize hdr <> 56 -> run = Panic) /\
        (crc32 (file_content image ino) = checksum ino -> 64 <= size ino -> stage2_ident_ok hdr = true ->
         e_phentsize hdr = 56 -> kernel_phdrs image ino hdr 0 (e_phnum hdr) ->
         exists f' d' m', run = Ok ((hdr, f'), (d', m')) /\
           kernel_loaded image ino hdr 0 (e_phnum hdr) (store m 0 scratch) m'))
  end.
Proof.
  intros run. destruct (stage2_fopen_run context image good Hgeo f d Hscratch Hd Hbuf Hdirs Htarget) as (code & f1 & d1 & E1 & Hd1 & Hm).
  assert (forall P : outcome (Elf64Ehdr * BsfsFile * (D * mem)) -> Prop,
    (code < 0 -> P Panic) ->
    (code = 0 -> P ((file ← stage2_verify context fuel f1; stage2_load_elf context fuel stack0 stack file) (d1, store m 0 scratch))) ->
    code <= 0 -> P run) as Hrun.
  { intros P Hneg Hpos Hle. unfold run, stage2_load_kernel. rewrite (bind_run _ _ _ _ _ (on_disk_run _ d m _ d1 E1)).
    rewrite (bind_run (on_memory _) _ _ tt (d1, store m 0 scratch)) by done.
    destruct (Z.ltb_spec code 0); [by apply Hneg|]. apply Hpos. lia. }
  destruct (lookup_path _ _ _ kernel_name) as [idx|]; [|apply Hrun; by auto with lia]. cbv zeta in *.
  set (ino := inode_at image (header context) idx) in *.
  destruct (Z.eqb_spec (type ino) BSFS_INODE_TYPE_FILE) as [Hty|Hty]; [|split; [intros _; apply Hrun; by auto with lia|done]].
  destruct Hm as [-> ->]. split; [done|]. intros _ Hino. pose proof (iod_size image ino Hino) as Hsz.
  pose proof (stage2_verify_run context image good ino Hgeo Hino fuel (opened f ino) d1 (store m 0 scratch) Hd1
    (opened_ok image ino f Hino Hbuf) eq_refl eq_refl ltac:(clear - Hsz Hfuel; dlia)) as Hv.
  set (m1 := store m 0 scratch) in *.
  destruct (Z.eqb_spec (crc32 (file_content image ino)) (checksum ino)) as [Hc|Hc].
  - destruct Hv as (f2 & d2 & E2 & Hd2 & Hf2). split; [done|]. split.
    + intros H64 Hbad. apply Hrun; [done| |done]. intros _. rewrite (bind_run _ _ _ _ _ E2).
      by apply (stage2_load_elf_rejects context image good ino Hgeo Hino Hbytes).
    + intros _ H64 Hid Hent Hphdrs. apply Hrun; [done| |done]. intros _. rewrite (bind_run _ _ _ _ _ E2).
      destruct (stage2_load_elf_run context image good ino Hgeo Hino Hbytes fuel stack0 stack f2 d2 m1) as (f3 & d3 & m3 & E3 & _ & Hl); try done; [lia|].
      by exists f3, d3, m3.
  - assert (run = Panic) as Hp by (apply Hrun; [done| |done]; intros _; cbv [mbind M_bind]; by rewrite Hv). done.
Qed.

(** At the end of a file of whole blocks the copy loop reads nothing, again and again. *)
Lemma copy_at_end_hangs {D : Type} (context : BsfsContext D) (image : list Z) (good : D -> Prop) (ino : BsfsInode)
  (Hgeo : geometry context image good) (Hino : inode_on_disk image ino) (Hblocks : size ino mod 4096 = 0) fuel : forall a n f d (m : mem),
  0 < n < 2 ^ 63 -> 0 <= a < 2 ^ 32 -> good d -> file_ok image ino f -> position f = size ino ->
  copy_segment context fuel a n f (d, m) = OutOfFuel.
Proof.
  induction fuel as [|fuel IH]; intros a n f d m Hn Ha Hd Hf Hp; cbn [copy_segment]; rewrite (proj2 (Z.ltb_lt 0 n)) by lia; [done|]. cbn [negb].
  rewrite (geo_block _ _ _ Hgeo). set (k := if n <? 4096 then n else 4096).
  assert (0 < k <= 4096) as Hk by (unfold k; destruct (Z.ltb_spec n 4096); lia). clearbody k. rewrite u32_id by lia.
  destruct (fread_run context image good Hgeo ino f d 1 k Hd Hino Hf) as (f' & d' & Hrun & Hd' & Hf' & Hp' & _); [lia|rewrite Hp, Hblocks; lia|].
  rewrite Hp, Z.sub_diag, Z.min_r in Hrun, Hp' by lia. rewrite Z.add_0_r in Hp'.
  rewrite (bind_run _ _ _ _ _ (on_disk_run _ d m _ d' Hrun)).
  rewrite (bind_run (on_memory _) _ _ tt (d', store m a (file_bytes image ino (size ino) 0))) by done.
  cbv zeta. change (s32 0) with 0. change (0 <? 0) with false. cbv iota. rewrite Z.add_0_r, Z.sub_0_r, u32_id, s64_id by lia.
  by apply IH.
Qed.

(** A kernel file of whole blocks that ends before one of its segments: loading that
    segment never returns, however long it runs, instead of reporting a malformed file. *)
Theorem stage2_short_kernel_hangs {D : Type} (context : BsfsContext D) (image : list Z) (good : D -> Prop) (ino : BsfsInode)
  (ph : Elf64Phdr) (f : BsfsFile) (d : D) (m : mem) (fuel : nat)
  (Hgeo : geometry context image good) (Hino : inode_on_disk image ino) (Hblocks : size ino mod 4096 = 0)
  (Hd : good d) (Hf : file_ok image ino f) (Hoff : size ino <= p_offset ph) (Hsz : 0 < p_filesz ph < 2 ^ 63) :
  stage2_load_segment context fuel ph f (d, m) = OutOfFuel.
Proof.
  unfold stage2_load_segment, stage2_bsfs_fseeko, bsfs_fseeko. rewrite (fo_inode _ _ _ Hf), (proj2 (Z.leb_le _ _) Hoff).
  rewrite (bind_run (lift _) _ _ (0, with_position f (size ino) true) (d, m)) by done. change (0 <? 0) with false. cbv iota.
  cbv [mbind M_bind]. rewrite (copy_at_end_hangs context image good ino); try done.
  - by rewrite s64_id by lia.
  - apply u32_range.
  - pose proof (iod_size _ _ Hino). destruct Hf as [H1 H2 H3 H4 H5 H6 H7]. split; try done. cbn. lia.
Qed.

(** *** Witness: a disk of four blocks

    Block 1 is the inode table: inode 1 is the root directory (block 2), inode 2 is
    "kernel.elf" (block 3), with its checksum. *)
Definition kernel_checksum : Z := Eval vm_compute in crc32 small_executable.

Definition kernel_inode : BsfsInode :=
  {| type := BSFS_INODE_TYPE_FILE; permissions := 6; uid := 0; gid := 0; size := 220; blocks := 1; created := 0; modified := 0;
     accessed := 0; link_count := 1; blocks_direct := 3 :: replicate 9 0; blocks_l1indirect := 0;
     blocks_l2indirect := 0; blocks_l3indirect := 0; checksum := kernel_checksum; inode_reserved := replicate 21 0 |}.

Definition kernel_image : list Z :=
  replicate 4096 0 ++
  (replicate 128 0 ++ inode_bytes (dir_inode BSFS_INODE_TYPE_DIRECTORY 2) ++ inode_bytes kernel_inode ++ replicate (29 * 128) 0) ++
  named_entry [107; 101; 114; 110; 101; 108; 46; 101; 108; 102] 2 ++ small_executable ++ replicate 3876 9.

Definition kernel_context : BsfsContext unit :=
  {| header := path_header; disk_ops := image_ops kernel_image; phys_sector_size := 512; scratch_buf_capacity := 4096 |}.

Definition kernel_file : BsfsFile :=
  {| f_inode := None; buf := replicate 4096 0; bufsize := 4096; position := 0;
     cached_block := 0; l1_table := replicate 4096 0; cached_l1 := 0; cached_l2 := 0; cached_l3 := 0; eof := false |}.

Lemma kernel_image_length : Z.of_nat (length kernel_image) = 16384.
Proof. vm_compute. reflexivity. Qed.

Lemma kernel_image_bytes : bytes_ok kernel_image.
Proof. apply (bool_decide_unpack _). vm_compute. exact I. Qed.

Lemma kernel_geometry : geometry kernel_context kernel_image (fun _ => True).
Proof. split; [done|done|rewrite kernel_image_length; lia|apply image_ops_serves]. Qed.

Lemma kernel_inode_at : inode_at kernel_image path_header 2 = kernel_inode.
Proof. vm_compute. reflexivity. Qed.

Lemma kernel_found : lookup_path kernel_image path_header 1 kernel_name = Some 2.
Proof. vm_compute. reflexivity. Qed.

Lemma kernel_inode_on_disk : inode_on_disk kernel_image kernel_inode.
Proof.
  split; [cbn [size kernel_inode]; lia|done| |cbn [size kernel_inode]; lia].
  intros i Hi Hs. cbn [size kernel_inode] in Hs. rewrite kernel_image_length. unfold file_block.
  assert (i = 0) as -> by lia; split; vm_compute; discriminate.
Qed.

Lemma kernel_dirs : dirs_on_path kernel_image path_header 1 kernel_name.
Proof.
  unfold kernel_name. cbn [dirs_on_path].
  assert (blocks_direct (inode_at kernel_image path_header 1) = 2 :: replicate 9 0) as -> by (vm_compute; reflexivity).
  split; [unfold inode_in_image; rewrite kernel_image_length; vm_compute; intuition congruence|].
  split; [split; apply (bool_decide_unpack _); vm_compute; exact I|]. intros; exact I.
Qed.

Lemma kernel_phnum : e_phnum (file_ehdr kernel_image kernel_inode) = 1.
Proof. vm_compute. reflexivity. Qed.

Lemma kernel_nth_phdr : nth_phdr kernel_image kernel_inode (file_ehdr kernel_image kernel_inode) 0 =
  {| p_type := 1; p_flags := 5; p_offset := 0; p_vaddr := 0x400000; p_paddr := 0x400000; p_filesz := 220;
     p_memsz := 5000; p_align := 4096 |}.
Proof. vm_compute. reflexivity. Qed.

Lemma kernel_phdrs_ok : kernel_phdrs kernel_image kernel_inode (file_ehdr kernel_image kernel_inode) 0 1.
Proof.
  assert (e_phoff (file_ehdr kernel_image kernel_inode) = 64) as Hoff by (vm_compute; reflexivity).
  assert (forall j, 0 <= j < 0 + 1 -> j = 0) as H0 by lia.
  split; [intros j ->%H0|intros j ->%H0|intros j ->%H0|intros i j x Hi%H0 Hj%H0].
  - rewrite Hoff. vm_compute. intuition congruence.
  - rewrite kernel_nth_phdr. cbn. lia.
  - intros _. rewrite kernel_nth_phdr. split; vm_compute; intuition congruence.
  - lia.
Qed.

Lemma stage2_loads_kernel_witness : exists f' d' m',
  stage2_load_kernel kernel_context 1036 kernel_file (replicate 512 0) (replicate 64 0) (fun _ => replicate 56 0) (tt, fun _ => 9) =
    Ok ((file_ehdr kernel_image kernel_inode, f'), (d', m')) /\
  m' 0x4000DB = 7 /\ m' 0x4000DC = 0 /\ m' 0x401388 = 9.
Proof.
  assert (forall idx, lookup_path kernel_image path_header 1 kernel_name = Some idx ->
    idx <> UINT32_MAX /\ inode_in_image kernel_image path_header idx) as Hidx.
  { intros idx Hi. rewrite kernel_found in Hi. injection Hi as <-. split; [discriminate|].
    unfold inode_in_image. rewrite kernel_image_length. vm_compute. intuition congruence. }
  pose proof (stage2_loads_kernel kernel_context kernel_image (fun _ => True) kernel_file tt
    (fun _ => 9) 1036 (replicate 512 0) (replicate 64 0) (fun _ => replicate 56 0) kernel_geometry (Z.le_refl 4096) kernel_image_bytes I
    ltac:(split; [|split]; vm_compute; lia) ltac:(lia) kernel_dirs Hidx) as Hrun.
  change (header kernel_context) with path_header in Hrun. change (root_inode path_header) with 1 in Hrun.
  rewrite kernel_found in Hrun. cbv zeta in Hrun. rewrite kernel_inode_at in Hrun. destruct Hrun as [_ Hrun].
  destruct (Hrun eq_refl kernel_inode_on_disk) as (_ & _ & Hload).
  destruct Hload as (f' & d' & m' & E & [Hb Hr]); [vm_compute; reflexivity|vm_compute; discriminate|vm_compute; reflexivity|vm_compute; reflexivity|
    rewrite kernel_phnum; exact kernel_phdrs_ok|]. exists f', d', m'. split; [exact E|].
  rewrite kernel_phnum in Hb, Hr. specialize (Hb 0). rewrite kernel_nth_phdr in Hb.
  split; [|split].
  - rewrite (Hb 0x4000DB); [vm_compute; reflexivity|lia|unfold loadable; by rewrite kernel_nth_phdr|reflexivity].
  - rewrite (Hb 0x4000DC); [vm_compute; reflexivity|lia|unfold loadable; by rewrite kernel_nth_phdr|reflexivity].
  - rewrite Hr; [rewrite store_out; [reflexivity|right; vm_compute; discriminate]|].
    intros j Hj _. assert (j = 0) as -> by lia. rewrite kernel_nth_phdr. reflexivity.
Defined.
