(* ===== verification/KernelBoot.v ===== *)
(** * Kernel start: boot information and the page bitmap

    [bootinfo_copy] of [kernel/common/bootinfo.c] and the part of [kmain]
    ([kernel/kernel.c]) that turns the memory map of the firmware into the bitmap of
    the page allocator: which pages are free when the kernel starts to allocate.
    The bitmap lies in memory that no other object of the model uses. *)
From Stdlib Require Import ZArith Lia.
From stdpp Require Import base tactics list numbers gmap.
From S2P Require Import Prelude Common Memory Interfaces Bitmap Pmm Memmap Vmm Stage2 Stage2Load.

Open Scope Z_scope.

Definition MEMMAP_MAX_ITEMS : Z := 48.
Definition sizeof_MemmapEntry : Z := 20.
Definition sizeof_VesaVbeInfo : Z := 256.
Definition sizeof_VesaVbeModeInfo : Z := 255.

Definition load32 (m : mem) (a : Z) : Z := le_word (load m a 4).

(** The packed entry at an address. *)
Definition memmap_entry_at (m : mem) (a : Z) : MemmapEntry :=
  {| BaseAddrLow := load32 m a; BaseAddrHigh := load32 m (a + 4); LengthLow := load32 m (a + 8);
     LengthHigh := load32 m (a + 12); Type_ := load32 m (a + 16) |}.

(** [BootInfo]; the two VESA structures as their bytes. *)
Record BootInfo := {
  raw : RawBootInfo;
  memory_map : list MemmapEntry;
  bi_memory_map_count : Z;
  memory_bitmap : Z;
  bi_memory_bitmap_size : Z;
  bi_pml4 : Z;
  bi_page_table_count : Z;
  bi_gdt : Z;
  bi_gdt_entries : Z;
  vesa_vbe_info : list Z;
  vesa_vbe_mode_info : list Z;
}.

(** The loop that copies the entries: [n] from number [i] on, into the array. *)
Fixpoint copy_memmap (m : mem) (addr : Z) (n : nat) (i : Z) (map : list MemmapEntry) : outcome (list MemmapEntry) :=
  match n with
  | O => Ok map
  | S n' => map ← wr map i (memmap_entry_at m (addr + i * sizeof_MemmapEntry)); copy_memmap m addr n' (i + 1) map
  end.

(** Reading memory through the direct map: [m] is physical memory.  [map0] is what the
    local array holds before. *)
Definition bootinfo_copy (m : mem) (map0 : list MemmapEntry) (ptr : RawBootInfo) : outcome BootInfo :=
  map ← copy_memmap m (memory_map_addr ptr) (Z.to_nat (memory_map_count ptr)) 0 map0;
  Ok {| raw := ptr; memory_map := map; bi_memory_map_count := memory_map_count ptr;
        memory_bitmap := u64 (memory_bitmap_address ptr + PMM_HHDM_START); bi_memory_bitmap_size := memory_bitmap_size ptr;
        bi_pml4 := u64 (pml4_address ptr + PMM_HHDM_START); bi_page_table_count := page_table_count ptr;
        bi_gdt := u64 (gdt_address ptr + PMM_HHDM_START); bi_gdt_entries := gdt_entries ptr;
        vesa_vbe_info := load m (vesa_vbe_info_addr ptr) (Z.to_nat sizeof_VesaVbeInfo);
        vesa_vbe_mode_info := load m (vesa_vbe_mode_info_addr ptr) (Z.to_nat sizeof_VesaVbeModeInfo) |}.

(** The structure stage 2 left at a physical address, with its padding after the
    16-bit count. *)
Definition raw_bootinfo_at (m : mem) (a : Z) : RawBootInfo :=
  {| memory_map_addr := load32 m a; memory_map_count := le_word (load m (a + 4) 2);
     vesa_vbe_info_addr := load32 m (a + 8); vesa_vbe_mode_info_addr := load32 m (a + 12);
     memory_bitmap_address := load32 m (a + 16); memory_bitmap_size := load32 m (a + 20);
     pml4_address := load32 m (a + 24); page_table_count := load32 m (a + 28);
     gdt_address := load32 m (a + 32); gdt_entries := load32 m (a + 36) |}.

Definition bootinfo_init (m : mem) (map0 : list MemmapEntry) (bootinfo_addr : Z) : outcome BootInfo :=
  bootinfo_copy m map0 (raw_bootinfo_at m bootinfo_addr).

(** [for (i = from; i < to; i += PAGE) bitmap_set(memory_bitmap, i / PAGE)] *)
Definition mark_used (from to : Z) : M pmm_state unit :=
  st ← get;
  bm ← lift (mark_pages bitmap_set (for_count from to VMM_DEFAULT_PAGE_SIZE) from (pmm_bitmap st));
  put (PmmState bm (pmm_bitmap_size st)).

(** The pages of the bitmap itself. *)
Definition bitmap_start_phys (bi : BootInfo) : Z := u64 (memory_bitmap bi - PMM_HHDM_START).
Definition bitmap_end_phys (bi : BootInfo) : Z := u64 (bitmap_start_phys bi + bi_memory_bitmap_size bi).

(** From [pmm_init] to the end of the reserved regions; [bitmap] is what the bitmap
    memory holds, the result is [system_memory]. *)
Definition kernel_memory_init (bi : BootInfo) (bitmap : list Z) : M pmm_state Z :=
  _ ← pmm_init bitmap (bi_memory_bitmap_size bi);
  bitmap ← lift (bitmap_clear_all bitmap (bi_memory_bitmap_size bi));
  if MEMMAP_MAX_ITEMS <? bi_memory_map_count bi then panic else
  '(memmap_result, bitmap) ← lift (memmap_bitmap_init (take (Z.to_nat (bi_memory_map_count bi)) (memory_map bi)) bitmap);
  st ← get;
  _ ← put (PmmState bitmap (pmm_bitmap_size st));
  _ ← pmm_set_bitmap_size (memory_usable_top memmap_result / 8 / VMM_DEFAULT_PAGE_SIZE);
  _ ← mark_used (ALIGN_UP (bitmap_start_phys bi) VMM_DEFAULT_PAGE_SIZE) (ALIGN_DOWN (bitmap_end_phys bi) VMM_DEFAULT_PAGE_SIZE);
  _ ← mark_used KERNEL_BASE_PHYS KERNEL_END_PHYS;
  _ ← mark_used 0 0x100000;
  mret (memory_usable memmap_result).

(** The pages for the descriptor table and the task state segment. *)
Definition kernel_alloc_gdt_tss (debug : bool) : M pmm_state (Z * Z) :=
  gdt ← pmm_alloc debug;
  tss ← pmm_alloc debug;
  mret (phys_to_virt gdt, phys_to_virt tss).

(** The page tables of the boot loader, marked after those pages were taken. *)
Definition kernel_reserve_tables (bi : BootInfo) : M pmm_state unit :=
  mark_used (pml4_address (raw bi)) (u64 (pml4_address (raw bi) + u32 (page_table_count (raw bi) * VMM_DEFAULT_PAGE_SIZE))).

(** ** Proofs *)

Definition in_pages (lo hi p : Z) : bool := (lo <=? p * PAGE_SIZE) && (p * PAGE_SIZE <? hi).

(** Marking a range of whole pages. *)
Lemma mark_used_run (st : pmm_state) i j : bytes_ok (pmm_bitmap st) -> 0 <= i <= j -> j <= 8 * Z.of_nat (length (pmm_bitmap st)) -> j <= 2 ^ 32 ->
  exists bm, mark_used (i * PAGE_SIZE) (j * PAGE_SIZE) st = Ok (tt, PmmState bm (pmm_bitmap_size st)) /\
    length bm = length (pmm_bitmap st) /\ bytes_ok bm /\
    forall p, 0 <= p -> bit bm p = in_pages (i * PAGE_SIZE) (j * PAGE_SIZE) p || bit (pmm_bitmap st) p.
Proof.
  intros Hok Hij Hlen Hmax. unfold mark_used. munfold.
  assert (for_count (i * PAGE_SIZE) (j * PAGE_SIZE) VMM_DEFAULT_PAGE_SIZE = Z.to_nat (j - i)) as ->.
  { unfold for_count, PAGE_SIZE, VMM_DEFAULT_PAGE_SIZE. f_equal. dlia. }
  destruct (mark_pages_spec bitmap_set true (Z.to_nat (j - i)) i (pmm_bitmap st)) as (bm & -> & Hl & Hok' & Hb);
    [by intros; apply bitmap_set_flips|done|lia|lia|lia|].
  exists bm. split; [done|]. split; [done|]. split; [done|]. intros p Hp. rewrite Hb by done. unfold in_pages, PAGE_SIZE.
  case_decide; destruct (Z.leb_spec (i * 4096) (p * 4096)), (Z.ltb_spec (p * 4096) (j * 4096)); cbn [andb orb]; lia || done.
Qed.

(** The boot information the theorems are about: the bitmap is whole pages in memory
    it covers itself, a multiple of eight bytes long, and the map lies inside it. *)
Record boot_ok (bi : BootInfo) (bitmap : list Z) (b n : Z) : Prop := BootOk {
  bo_bytes : bytes_ok bitmap;
  bo_length : Z.of_nat (length bitmap) = n * PAGE_SIZE;
  bo_size : bi_memory_bitmap_size bi = n * PAGE_SIZE;
  bo_start : memory_bitmap bi = phys_to_virt (b * PAGE_SIZE);
  bo_range : 0 <= b /\ 1 <= n < 2 ^ 17 /\ b + n <= 8 * (n * PAGE_SIZE);
  bo_count : 0 <= bi_memory_map_count bi <= MEMMAP_MAX_ITEMS;
  bo_entries : Forall (entry_ok (n * PAGE_SIZE * 8)) (take (Z.to_nat (bi_memory_map_count bi)) (memory_map bi));
}.

(** The entries that count. *)
Definition used_map (bi : BootInfo) : list MemmapEntry := take (Z.to_nat (bi_memory_map_count bi)) (memory_map bi).

(** Pages the kernel sets aside. *)
Definition set_aside (b n p : Z) : bool :=
  (p <? 256) || in_pages KERNEL_BASE_PHYS KERNEL_END_PHYS p || in_pages (b * PAGE_SIZE) ((b + n) * PAGE_SIZE) p.

(** The end of the highest usable entry. *)
Fixpoint usable_top (entries : list MemmapEntry) (t : Z) : Z :=
  match entries with
  | [] => t
  | e :: entries' => usable_top entries' (if Type_ e =? 1 then Z.max t (range_end e) else t)
  end.

Lemma memmap_loop_top entries : forall mt ut tu bm mt' ut' tu' bm',
  memmap_loop (mt, ut, tu) entries bm = Ok (mt', ut', tu', bm') -> ut' = usable_top entries ut.
Proof.
  induction entries as [|e entries IH]; intros mt ut tu bm mt' ut' tu' bm' Hrun; cbn [memmap_loop usable_top] in *; [by simplify_eq|].
  apply obind_Ok in Hrun as ([[[mt1 ut1] tu1] bm1] & H1 & Hrun). cbn [fst snd] in Hrun. apply IH in Hrun as ->. f_equal.
  unfold memmap_entry_step in H1. destruct (Type_ e =? 1); apply obind_Ok in H1 as (bm2 & _ & [= _ <- _ _]); [|done].
  destruct (Z.ltb_spec ut (range_end e)); lia.
Qed.

Lemma usable_top_range entries B : Forall (entry_ok B) entries -> forall t, 0 <= t <= B * PAGE_SIZE -> 0 <= usable_top entries t <= B * PAGE_SIZE.
Proof.
  induction 1 as [|e entries He _ IH]; intros t Ht; cbn [usable_top]; [done|]. apply IH.
  destruct (range_ok _ _ He) as (i & n & Hi & Hn & _ & Hend & Hin & _). destruct He as (_ & _ & _ & Hr).
  destruct (Type_ e =? 1); lia.
Qed.

Lemma bit_zeros k p : bit (replicate k 0) p = false.
Proof.
  unfold bit. destruct (replicate k 0 !! Z.to_nat (p / 8)) as [x|] eqn:E; [|done].
  apply lookup_replicate in E as [-> _]. by rewrite Z.testbit_0_l.
Qed.

Section init.
Context (bi : BootInfo) (bitmap : list Z) (b n : Z) (Hbi : boot_ok bi bitmap b n).

Lemma bitmap_region : ALIGN_UP (bitmap_start_phys bi) VMM_DEFAULT_PAGE_SIZE = b * PAGE_SIZE /\
  ALIGN_DOWN (bitmap_end_phys bi) VMM_DEFAULT_PAGE_SIZE = (b + n) * PAGE_SIZE.
Proof.
  destruct Hbi as [_ _ Hsz Hst (Hb & Hn & Hbn) _ _]. unfold PAGE_SIZE in *.
  assert (bitmap_start_phys bi = b * 4096) as Hs.
  { unfold bitmap_start_phys. rewrite Hst. apply virt_phys_roundtrip. lia. }
  unfold bitmap_end_phys. rewrite Hs, Hsz, u64_id by lia. unfold VMM_DEFAULT_PAGE_SIZE.
  pose proof (ALIGN_UP_pow2 (b * 4096) 12) as Hu. pose proof (ALIGN_DOWN_pow2 (b * 4096 + n * 4096) 12) as Hd.
  change (2 ^ 12) with 4096 in Hu, Hd. rewrite Hu, Hd by lia. split; dlia.
Qed.

(** The whole set-up. *)
Lemma kernel_memory_init_run (st : pmm_state) : exists sys st', kernel_memory_init bi bitmap st = Ok (sys, st') /\ pmm_wf st' /\
  pmm_bitmap_size st' = usable_top (used_map bi) 0 / 8 / 4096 /\
  forall p, 0 <= p -> bit (pmm_bitmap st') p = set_aside b n p || page_used (used_map bi) p false.
Proof.
  pose proof bitmap_region as [Hup Hdown]. destruct Hbi as [Hok Hlen Hsz Hst (Hb & Hn & Hbn) Hcnt Hes]. fold (used_map bi) in Hes.
  unfold kernel_memory_init. fold (used_map bi). rewrite (bind_run (pmm_init _ _) _ _ _ _ eq_refl).
  unfold bitmap_clear_all. rewrite Hsz, (proj2 (Z.leb_le 0 _)), (proj2 (Z.leb_le _ (Z.of_nat _))) by (unfold PAGE_SIZE in *; lia).
  cbn [andb]. rewrite (bind_run (lift (Ok _)) _ _ _ _ eq_refl). rewrite (proj2 (Z.ltb_ge MEMMAP_MAX_ITEMS _)) by lia.
  rewrite (drop_ge bitmap), app_nil_r by lia. set (zs := replicate (Z.to_nat (n * PAGE_SIZE)) 0).
  assert (bytes_ok zs) as Hz by (apply Forall_replicate; by unfold is_byte).
  assert (Z.of_nat (length zs) = n * PAGE_SIZE) as Hzl by (unfold zs, PAGE_SIZE in *; rewrite length_replicate; lia).
  destruct (memmap_loop_spec (used_map bi) (0, 0, 0) zs) as ([[mt ut] tu] & bm & Hrun & Hl1 & Hok1 & Hb1);
    [done|unfold PAGE_SIZE in *; lia|by rewrite Hzl|].
  pose proof (memmap_loop_top _ _ _ _ _ _ _ _ _ Hrun) as Hut. pose proof (usable_top_range _ _ Hes 0) as Hutr.
  assert (memmap_bitmap_init (used_map bi) zs = Ok ({| memory_usable := tu; memory_usable_top := ut; memory_top := mt |}, bm)) as ->
    by (unfold memmap_bitmap_init; by rewrite Hrun).
  rewrite (bind_run (lift (Ok _)) _ _ _ _ eq_refl).
  rewrite (bind_run get _ _ _ _ eq_refl). rewrite (bind_run (put _) _ _ _ _ eq_refl).
  rewrite (bind_run (pmm_set_bitmap_size _) _ _ _ _ eq_refl). cbn [pmm_bitmap memory_usable_top memory_usable].
  assert (0 <= ut <= n * PAGE_SIZE * 8 * PAGE_SIZE) as Hur by (rewrite Hut; apply Hutr; unfold PAGE_SIZE; lia).
  assert (0 <= ut / 8 / VMM_DEFAULT_PAGE_SIZE <= n * PAGE_SIZE) as Hsize by (unfold VMM_DEFAULT_PAGE_SIZE, PAGE_SIZE in *; clear - Hur; dlia).
  rewrite u32_id by (unfold PAGE_SIZE in *; lia). set (s := ut / 8 / VMM_DEFAULT_PAGE_SIZE) in *. rewrite Hup, Hdown.
  destruct (mark_used_run (PmmState bm s) b (b + n)) as (bm2 & E2 & Hl2 & Hok2 & Hb2); cbn [pmm_bitmap pmm_bitmap_size] in *; [done|lia|unfold PAGE_SIZE in *; lia|unfold PAGE_SIZE in *; lia|].
  rewrite (bind_run _ _ _ _ _ E2). clear E2.
  destruct (mark_used_run (PmmState bm2 s) 0x400 0x600) as (bm3 & E3 & Hl3 & Hok3 & Hb3); cbn [pmm_bitmap pmm_bitmap_size] in *; [done|lia|unfold PAGE_SIZE in *; lia|lia|].
  change (0x400 * PAGE_SIZE) with KERNEL_BASE_PHYS in E3, Hb3. change (0x600 * PAGE_SIZE) with KERNEL_END_PHYS in E3, Hb3.
  rewrite (bind_run _ _ _ _ _ E3). clear E3.
  destruct (mark_used_run (PmmState bm3 s) 0 0x100) as (bm4 & E4 & Hl4 & Hok4 & Hb4); cbn [pmm_bitmap pmm_bitmap_size] in *; [done|lia|unfold PAGE_SIZE in *; lia|lia|].
  change (0 * PAGE_SIZE) with 0 in E4, Hb4. change (0x100 * PAGE_SIZE) with 0x100000 in E4, Hb4.
  rewrite (bind_run _ _ _ _ _ E4). clear E4. exists tu, (PmmState bm4 s). split; [done|]. split; [|split].
  - unfold pmm_wf, pmm_pages. cbn [pmm_bitmap pmm_bitmap_size]. split; [done|]. split; [lia|].
    assert (Z.of_nat (length bm4) = n * 4096) as Hlen4 by (unfold PAGE_SIZE in Hzl; lia). rewrite Hlen4.
    unfold PAGE_SIZE in Hsize. clear - Hsize Hn. dlia.
  - cbn [pmm_bitmap_size]. unfold s. by rewrite Hut.
  - intros p Hp. cbn [pmm_bitmap]. rewrite Hb4, Hb3, Hb2, Hb1 by done. unfold zs. rewrite bit_zeros. unfold set_aside.
    rewrite <- !orb_assoc. f_equal. unfold in_pages, PAGE_SIZE.
    destruct (Z.leb_spec 0 (p * 4096)), (Z.ltb_spec (p * 4096) 0x100000), (Z.ltb_spec p 256); cbn [andb]; lia || done.
Qed.
End init.

(** ** Properties *)

(** C21: on a memory map inside the bitmap, the set-up succeeds, the allocator invariant
    holds, and a page is free exactly when it lies below the top of usable memory, rounded
    down to a multiple of eight pages (the bits of one byte of the bitmap), the last map
    entry that covers it is usable (or none covers it), and it is neither in the first
    megabyte, nor in the kernel, nor in the bitmap itself. *)
Theorem kernel_memory_init_correct (bi : BootInfo) (bitmap : list Z) (b n : Z) (st : pmm_state)
  (Hboot : boot_ok bi bitmap b n) :
  exists sys st', kernel_memory_init bi bitmap st = Ok (sys, st') /\ pmm_wf st' /\
    forall p, pmm_is_free st' p <-> exists i, p = i * PAGE_SIZE /\ 0 <= i < usable_top (used_map bi) 0 / 8 / 4096 * 8 /\
      set_aside b n i = false /\ page_used (used_map bi) i false = false.
Proof.
  destruct (kernel_memory_init_run bi bitmap b n Hboot st) as (sys & st' & Hrun & Hwf & Hsz & Hbit).
  exists sys, st'. split; [done|]. split; [done|]. intros p. unfold pmm_is_free, pmm_pages. rewrite Hsz.
  split; [intros (i & Hi & -> & Hb)|intros (i & -> & Hi & Ha & Hu)]; exists i.
  - rewrite Hbit in Hb by lia. apply orb_false_iff in Hb as [Ha Hu]. done.
  - split; [done|]. split; [done|]. rewrite Hbit by lia. by rewrite Ha, Hu.
Qed.

(** The lowest free page is what an allocation returns. *)
Lemma pmm_alloc_lowest debug st i : pmm_wf st -> 0 <= i < pmm_pages st -> bit (pmm_bitmap st) i = false ->
  (forall j, 0 <= j < i -> bit (pmm_bitmap st) j = true) ->
  exists bm, pmm_alloc debug st = Ok (i * PAGE_SIZE, PmmState bm (pmm_bitmap_size st)) /\ flips (pmm_bitmap st) bm i true.
Proof.
  intros Hwf Hi Hb Hlow. apply pmm_alloc_hit; [done|]. apply first_clear_hit; [lia|done|]. intros j Hj. apply Hlow. lia.
Qed.

(** C23: the descriptor table and the task state segment are allocated before the page
    tables of the boot loader are marked as used.  With the memory layout of stage 2,
    on every machine whose map says that the pages behind the bitmap are usable, they
    are given the page of the active PML4 and of the kernel's PDPT. *)
Theorem kernel_gdt_overlays_page_tables (debug : bool) (bi : BootInfo) (bitmap : list Z) (st : pmm_state)
  (Hboot : boot_ok bi bitmap (STAGE2_MEMORY_BITMAP_START / 4096) (STAGE2_MEMORY_BITMAP_SIZE / 4096))
  (Hpml4 : page_used (used_map bi) (STAGE2_PML4_ADDRESS / 4096) false = false)
  (Hpdpt : page_used (used_map bi) (__pg_pdpt_kernel / 4096) false = false)
  (Htop : 0x200000 <= usable_top (used_map bi) 0) :
  exists st', (_ ← kernel_memory_init bi bitmap; kernel_alloc_gdt_tss debug) st =
    Ok ((phys_to_virt STAGE2_PML4_ADDRESS, phys_to_virt __pg_pdpt_kernel), st').
Proof.
  destruct (kernel_memory_init_run bi bitmap _ _ Hboot st) as (sys & st1 & Hrun & Hwf & Hsz & Hbit).
  change (STAGE2_MEMORY_BITMAP_START / 4096) with 0x100 in Hbit. change (STAGE2_MEMORY_BITMAP_SIZE / 4096) with 0xC0 in Hbit.
  change (STAGE2_PML4_ADDRESS / 4096) with 0x1C0 in Hpml4. change (__pg_pdpt_kernel / 4096) with 0x1C1 in Hpdpt.
  assert (0x200 <= pmm_pages st1) as Hpages by (unfold pmm_pages; rewrite Hsz; clear - Htop; dlia).
  assert (forall j, 0 <= j < 0x1C0 -> set_aside 0x100 0xC0 j = true) as Haside.
  { intros j Hj. unfold set_aside, in_pages, PAGE_SIZE. destruct (Z.ltb_spec j 256); [done|].
    rewrite (proj2 (Z.leb_le (0x100 * 4096) (j * 4096))), (proj2 (Z.ltb_lt (j * 4096) ((0x100 + 0xC0) * 4096))) by lia. by rewrite orb_true_r. }
  destruct (pmm_alloc_lowest debug st1 0x1C0) as (bm2 & E2 & Hfl); [done|lia|rewrite Hbit by lia; by rewrite Hpml4|
    intros j Hj; rewrite Hbit by lia; by rewrite Haside|].
  set (st2 := PmmState bm2 (pmm_bitmap_size st1)) in *. assert (pmm_wf st2) as Hwf2 by (by eapply pmm_wf_flips).
  destruct Hfl as (_ & _ & Hb2).
  destruct (pmm_alloc_lowest debug st2 0x1C1) as (bm3 & E3 & _); [done|unfold pmm_pages in *; cbn; lia| | |].
  - cbn [pmm_bitmap st2]. rewrite Hb2 by lia. rewrite decide_False by lia. rewrite Hbit by lia. by rewrite Hpdpt.
  - intros j Hj. cbn [pmm_bitmap st2]. rewrite Hb2 by lia. destruct (decide (j = 0x1C0)) as [->|]; [done|].
    rewrite Hbit by lia. by rewrite Haside by lia.
  - eexists. rewrite (bind_run _ _ _ _ _ Hrun). unfold kernel_alloc_gdt_tss.
    rewrite (bind_run _ _ _ _ _ E2). fold st2. rewrite (bind_run _ _ _ _ _ E3). done.
Qed.

(** The memory map is copied into an array of 48 entries before its length is checked:
    a longer map overruns the array. *)
Lemma copy_memmap_overruns m addr k : forall i map, 0 <= i <= Z.of_nat (length map) -> Z.of_nat (length map) < i + Z.of_nat k ->
  copy_memmap m addr k i map = Fault.
Proof.
  induction k as [|k IH]; intros i map Hi Hk; [lia|]. cbn [copy_memmap].
  destruct (decide (i < Z.of_nat (length map))) as [Hlt|Hge].
  - rewrite wr_in_range by lia. munfold. apply IH; rewrite length_insert; lia.
  - unfold wr. rewrite (proj2 (Z.ltb_ge i _)), andb_false_r by lia. done.
Qed.

Theorem bootinfo_copy_overruns (m : mem) (map0 : list MemmapEntry) (ptr : RawBootInfo)
  (Harray : Z.of_nat (length map0) = MEMMAP_MAX_ITEMS) (Hcount : MEMMAP_MAX_ITEMS < memory_map_count ptr) :
  bootinfo_copy m map0 ptr = Fault.
Proof. unfold bootinfo_copy. rewrite copy_memmap_overruns; [done|lia|lia]. Qed.

(** *** Witnesses: a machine with 16 MiB, as stage 2 hands it over *)

Definition sample_bootinfo : BootInfo :=
  {| raw := stage2_bootinfo 2 0x9000 0x9100;
     memory_map := [{| BaseAddrLow := 0; BaseAddrHigh := 0; LengthLow := 0x1000000; LengthHigh := 0; Type_ := 1 |};
                    {| BaseAddrLow := 0xA0000; BaseAddrHigh := 0; LengthLow := 0x60000; LengthHigh := 0; Type_ := 2 |}];
     bi_memory_map_count := 2; memory_bitmap := phys_to_virt STAGE2_MEMORY_BITMAP_START;
     bi_memory_bitmap_size := STAGE2_MEMORY_BITMAP_SIZE; bi_pml4 := phys_to_virt STAGE2_PML4_ADDRESS; bi_page_table_count := 9;
     bi_gdt := phys_to_virt STAGE2_GDT_ADDRESS; bi_gdt_entries := 3; vesa_vbe_info := []; vesa_vbe_mode_info := [] |}.

Definition sample_bitmap : list Z := replicate (Z.to_nat STAGE2_MEMORY_BITMAP_SIZE) 0.

Lemma sample_boot_ok : boot_ok sample_bootinfo sample_bitmap 0x100 0xC0.
Proof.
  split.
  - apply Forall_replicate. by unfold is_byte.
  - unfold sample_bitmap. rewrite length_replicate. unfold STAGE2_MEMORY_BITMAP_SIZE, PAGE_SIZE. lia.
  - reflexivity.
  - reflexivity.
  - vm_compute. intuition congruence.
  - vm_compute. intuition congruence.
  - repeat (apply Forall_cons_2; [vm_compute; intuition congruence|]). constructor.
Qed.

Lemma kernel_memory_init_correct_witness :
  exists sys st', kernel_memory_init sample_bootinfo sample_bitmap (PmmState [] 0) = Ok (sys, st') /\
    pmm_is_free st' 0x600000 /\ ~ pmm_is_free st' 0x400000.
Proof.
  destruct (kernel_memory_init_correct sample_bootinfo sample_bitmap 0x100 0xC0 (PmmState [] 0) sample_boot_ok)
    as (sys & st' & Hrun & _ & Hfree).
  exists sys, st'. split; [exact Hrun|]. split.
  - apply Hfree. exists 0x600. vm_compute. intuition congruence.
  - intros (i & Hi & _ & Ha & _)%Hfree. assert (i = 0x400) as -> by (unfold PAGE_SIZE in Hi; lia). discriminate Ha.
Defined.

Lemma kernel_gdt_overlays_page_tables_witness :
  exists st', (_ ← kernel_memory_init sample_bootinfo sample_bitmap; kernel_alloc_gdt_tss true) (PmmState [] 0) =
    Ok ((phys_to_virt 0x1C0000, phys_to_virt 0x1C1000), st').
Proof.
  apply (kernel_gdt_overlays_page_tables true sample_bootinfo sample_bitmap (PmmState [] 0) sample_boot_ok);
    [reflexivity|reflexivity|vm_compute; discriminate].
Defined.
