(* ===== verification/KernelPaging.v ===== *)
(** * Kernel start: the address space

    The paging part of [kmain] ([kernel/kernel.c]): the page map the kernel runs on,
    built with the functions of the virtual memory manager: the direct map of physical
    memory, the kernel window, the stacks without execute permission and the guard
    pages.  The addresses that the linker script fixes are parameters. *)
From Stdlib Require Import ZArith Lia.
From stdpp Require Import base tactics list numbers gmap.
From S2P Require Import Prelude Common Memory Interfaces Bitmap Pmm Vmm PageTables VmmProofs VmmTheorems KernelMemory AddressSpace Stage2 KernelBoot.

Open Scope Z_scope.

Definition KERNEL_STACK_SIZE : Z := 0x1000 * 4.
Definition KERNEL_RSP0_SIZE : Z := 0x1000 * 1.
Definition KERNEL_IST1_SIZE : Z := 0x1000 * 1.
Definition KERNEL_IST2_SIZE : Z := 0x1000 * 1.
Definition KERNEL_IST3_SIZE : Z := 0x1000 * 1.

(** The symbols of the linker script. *)
Record kernel_layout := {
  __kernel_stack_top : Z;
  __kernel_rsp0_top : Z;
  __kernel_ist1_top : Z;
  __kernel_ist2_top : Z;
  __kernel_ist3_top : Z;
  __kernel_bss_guard_base : Z;
  __kernel_stack_guard : Z;
  __kernel_rsp0_guard : Z;
  __kernel_ist1_guard : Z;
  __kernel_ist2_guard : Z;
  __kernel_ist3_guard : Z;
}.

(** The layout of [linker_kernel.ld], when the stacks start at [base] in [.bss]. *)
Definition linker_layout (base : Z) : kernel_layout := {|
  __kernel_ist1_guard := base;
  __kernel_ist1_top := base + 0x2000;
  __kernel_ist2_guard := base + 0x2000;
  __kernel_ist2_top := base + 0x4000;
  __kernel_ist3_guard := base + 0x4000;
  __kernel_ist3_top := base + 0x6000;
  __kernel_rsp0_guard := base + 0x6000;
  __kernel_rsp0_top := base + 0x8000;
  __kernel_stack_guard := base + 0x8000;
  __kernel_stack_top := base + 0xD000;
  __kernel_bss_guard_base := base + 0xD000;
|}.

Section paging.
Context {S : Type} `{PageAllocator S} (debug : bool).

Definition map_direct (pml4 : Z) : M (vmm_state S) unit :=
  for_range 0 512 1 (fun i =>
    vmm_map_huge debug pml4 (i * VMM_HUGE_PAGE_SIZE) (u64 (PMM_HHDM_START + i * VMM_HUGE_PAGE_SIZE)) VMM_FLAGS_KERNEL_CODE).

Definition map_kernel (pml4 : Z) : M (vmm_state S) unit :=
  for_range 0 0x200000 VMM_DEFAULT_PAGE_SIZE (fun off =>
    vmm_map debug pml4 (KERNEL_BASE_PHYS + off) (u64 (KERNEL_BASE_VIRT + off)) VMM_FLAGS_KERNEL_CODE).

Definition remap_stack (pml4 top size : Z) : M (vmm_state S) unit :=
  for_range 0 size VMM_DEFAULT_PAGE_SIZE (fun i =>
    let addr := u64 (top - size + i) in
    _ ← vmm_unmap debug pml4 addr;
    vmm_map debug pml4 (kernel_virt_to_phys addr) addr VMM_FLAGS_KERNEL_DATA).

Definition map_stacks (pml4 : Z) (L : kernel_layout) : M (vmm_state S) unit :=
  _ ← remap_stack pml4 (__kernel_stack_top L) KERNEL_STACK_SIZE;
  _ ← remap_stack pml4 (__kernel_rsp0_top L) KERNEL_RSP0_SIZE;
  _ ← remap_stack pml4 (__kernel_ist1_top L) KERNEL_IST1_SIZE;
  _ ← remap_stack pml4 (__kernel_ist2_top L) KERNEL_IST2_SIZE;
  remap_stack pml4 (__kernel_ist3_top L) KERNEL_IST3_SIZE.

Definition unmap_guards (pml4 : Z) (L : kernel_layout) : M (vmm_state S) unit :=
  _ ← vmm_unmap debug pml4 (__kernel_bss_guard_base L);
  _ ← vmm_unmap debug pml4 (__kernel_stack_guard L);
  _ ← vmm_unmap debug pml4 (__kernel_rsp0_guard L);
  _ ← vmm_unmap debug pml4 (__kernel_ist1_guard L);
  _ ← vmm_unmap debug pml4 (__kernel_ist2_guard L);
  vmm_unmap debug pml4 (__kernel_ist3_guard L).

(** From [vmm_init] to the switch: the page map. *)
Definition kernel_paging_init (L : kernel_layout) : M (vmm_state S) Z :=
  pml4 ← vmm_init;
  _ ← map_direct pml4;
  _ ← map_kernel pml4;
  _ ← map_stacks pml4 L;
  _ ← unmap_guards pml4 L;
  mret pml4.

(** ** Proofs *)

Implicit Types (W : Z -> option (nat * Z)) (st : vmm_state S).

(** *** The direct map *)

(** The first [n] gigabytes. *)
Definition direct_view (n : Z) : Z -> option (nat * Z) := fun v =>
  if (0x20000 <=? vpn 3 v) && (vpn 3 v <? 0x20000 + n)
  then Some (3%nat, Z.lor ((vpn 3 v - 0x20000) * VMM_HUGE_PAGE_SIZE) 0x83) else None.

Lemma vpn_direct i : 0 <= i < 512 -> vpn 3 (PMM_HHDM_START + i * VMM_HUGE_PAGE_SIZE) = 0x20000 + i.
Proof. intros Hi. unfold vpn, PMM_HHDM_START, VMM_HUGE_PAGE_SIZE. change (level_shift 3) with 30. cbn [Z.of_nat]. dlia. Qed.

Lemma map_direct_space root st b : space 3 root (fun _ => None) b st -> (512 <= b)%nat ->
  exists st', map_direct (phys_to_virt root) st = Ok (tt, st') /\ space 3 root (direct_view 512) (b - 512) st'.
Proof.
  intros Hs Hb. unfold map_direct, for_range. change (for_count 0 512 1) with 512%nat.
  destruct (iter_for_inv (fun i st => 0 <= i /\ space 3 root (direct_view i) (b - Z.to_nat i) st) 1
    (fun i => vmm_map_huge debug (phys_to_virt root) (i * VMM_HUGE_PAGE_SIZE) (u64 (PMM_HHDM_START + i * VMM_HUGE_PAGE_SIZE)) VMM_FLAGS_KERNEL_CODE)
    512 0 st) as (st' & Hrun & _ & Hs').
  - split; [lia|]. apply (space_lower 3 3 root _ b); [lia|lia|]. eapply space_ext; [|exact Hs]. intros v. unfold direct_view.
    destruct (Z.leb_spec 0x20000 (vpn 3 v)), (Z.ltb_spec (vpn 3 v) (0x20000 + 0)); cbn [andb]; lia || done.
  - intros i st1 (j & Hj & ->) [Hi Hs1]. set (i := 0 + Z.of_nat j * 1) in *. assert (0 <= i < 512) as Hir by lia.
    pose proof (vpn_direct i Hir) as Hv. rewrite u64_id by (unfold PMM_HHDM_START, VMM_HUGE_PAGE_SIZE; lia).
    destruct (map_huge_space debug root _ _ st1 (i * VMM_HUGE_PAGE_SIZE) (PMM_HHDM_START + i * VMM_HUGE_PAGE_SIZE) VMM_FLAGS_KERNEL_CODE Hs1)
      as (st2 & Hrun & Hs2).
    + split; [unfold VMM_HUGE_PAGE_SIZE; lia|]. change (2 ^ level_shift 3) with VMM_HUGE_PAGE_SIZE. by apply Z.mod_mul.
    + vm_compute. intuition congruence.
    + unfold PMM_HHDM_START, VMM_HUGE_PAGE_SIZE. clear - Hir. dlia.
    + unfold direct_view. rewrite Hv, (proj2 (Z.ltb_ge (0x20000 + i) _)), andb_false_r by lia. done.
    + lia.
    + exists st2. split; [done|]. split; [lia|].
      replace (b - Z.to_nat (i + 1))%nat with (b - Z.to_nat i - 1)%nat by lia. eapply space_ext; [|exact Hs2].
      intros v. unfold set_page, direct_view. rewrite Hv. case_decide as E.
      * rewrite E, (proj2 (Z.leb_le _ _)), (proj2 (Z.ltb_lt _ _)) by lia. cbn [andb]. by replace (0x20000 + i - 0x20000) with i by lia.
      * destruct (Z.leb_spec 0x20000 (vpn 3 v)), (Z.ltb_spec (vpn 3 v) (0x20000 + i)), (Z.ltb_spec (vpn 3 v) (0x20000 + (i + 1))); cbn [andb]; lia || done.
  - exists st'. split; [done|]. exact Hs'.
Qed.

(** *** The kernel window *)

Definition kernel_page : Z := 0xFFFF80400.

(** Its first [n] pages. *)
Definition kernel_view (n : Z) : Z -> option (nat * Z) := fun v =>
  if (kernel_page <=? vpn 1 v) && (vpn 1 v <? kernel_page + n)
  then Some (1%nat, Z.lor (KERNEL_BASE_PHYS + (vpn 1 v - kernel_page) * 4096) 3) else direct_view 512 v.

Lemma vpn_kernel k : 0 <= k < 512 -> vpn 1 (KERNEL_BASE_VIRT + k * 4096) = kernel_page + k.
Proof.
  intros Hk. unfold vpn, KERNEL_BASE_VIRT, KERNEL_BASE_OFFSET, KERNEL_BASE_PHYS, kernel_page. change (level_shift 1) with 12. cbn [Z.of_nat]. dlia.
Qed.

Lemma direct_kernel v k : 0 <= k < 512 -> vpn 1 v = kernel_page + k -> direct_view 512 v = None.
Proof.
  intros Hk Hv. unfold direct_view. assert (vpn 3 v = 0x3FFFE) as ->; [|done].
  unfold vpn in *. change (level_shift 1) with 12 in Hv. change (level_shift 3) with 30. cbn [Z.of_nat] in *. unfold kernel_page in Hv.
  clear - Hk Hv. dlia.
Qed.

Lemma map_kernel_space root st b : space 1 root (direct_view 512) b st -> (3 * 512 <= b)%nat ->
  exists st', map_kernel (phys_to_virt root) st = Ok (tt, st') /\ space 1 root (kernel_view 512) (b - 3 * 512) st'.
Proof.
  intros Hs Hb. unfold map_kernel, for_range. change (for_count 0 0x200000 VMM_DEFAULT_PAGE_SIZE) with 512%nat.
  destruct (iter_for_inv (fun off st => exists k, off = k * 4096 /\ 0 <= k /\ space 1 root (kernel_view k) (b - 3 * Z.to_nat k) st)
    VMM_DEFAULT_PAGE_SIZE (fun off => vmm_map debug (phys_to_virt root) (KERNEL_BASE_PHYS + off) (u64 (KERNEL_BASE_VIRT + off)) VMM_FLAGS_KERNEL_CODE)
    512 0 st) as (st' & Hrun & k & Ek & _ & Hs').
  - exists 0. split; [done|]. split; [lia|]. apply (space_lower 1 1 root _ b); [lia|lia|]. eapply space_ext; [|exact Hs]. intros v.
    unfold kernel_view. destruct (Z.leb_spec kernel_page (vpn 1 v)), (Z.ltb_spec (vpn 1 v) (kernel_page + 0)); cbn [andb]; lia || done.
  - intros off st1 (j & Hj & Hoff) (k & Ek & Hk0 & Hs1). unfold VMM_DEFAULT_PAGE_SIZE in Hoff. assert (0 <= k < 512) as Hk by lia. subst off.
    pose proof (vpn_kernel k Hk) as Hv.
    rewrite Ek, u64_id by (unfold KERNEL_BASE_VIRT, KERNEL_BASE_OFFSET, KERNEL_BASE_PHYS; lia).
    destruct (map_page_space debug root _ _ st1 (KERNEL_BASE_PHYS + k * 4096) (KERNEL_BASE_VIRT + k * 4096) VMM_FLAGS_KERNEL_CODE Hs1) as (st2 & Hrun & Hs2).
    + split; [unfold KERNEL_BASE_PHYS; lia|]. change (2 ^ level_shift 1) with 4096. unfold KERNEL_BASE_PHYS. clear. dlia.
    + vm_compute. intuition congruence.
    + unfold KERNEL_BASE_VIRT, KERNEL_BASE_OFFSET, KERNEL_BASE_PHYS. clear. dlia.
    + unfold kernel_view. rewrite Hv, (proj2 (Z.ltb_ge (kernel_page + k) _)), andb_false_r by lia. by apply (direct_kernel _ k).
    + lia.
    + exists st2. split; [done|]. exists (k + 1). split; [unfold VMM_DEFAULT_PAGE_SIZE; lia|]. split; [lia|].
      replace (b - 3 * Z.to_nat (k + 1))%nat with (b - 3 * Z.to_nat k - 3)%nat by lia. eapply space_ext; [|exact Hs2].
      intros v. unfold set_page, kernel_view. rewrite Hv. case_decide as E.
      * rewrite E, (proj2 (Z.leb_le _ _)), (proj2 (Z.ltb_lt _ _)) by lia. cbn [andb]. by replace (kernel_page + k - kernel_page) with k by lia.
      * destruct (Z.leb_spec kernel_page (vpn 1 v)), (Z.ltb_spec (vpn 1 v) (kernel_page + k)), (Z.ltb_spec (vpn 1 v) (kernel_page + (k + 1)));
          cbn [andb]; lia || done.
  - exists st'. split; [done|]. assert (k = 512) as -> by (unfold VMM_DEFAULT_PAGE_SIZE in Ek; lia). exact Hs'.
Qed.

(** *** Stacks and guard pages *)

(** A page of the kernel window. *)
Definition in_window (a : Z) : Prop := a mod 4096 = 0 /\ KERNEL_BASE_VIRT <= a < KERNEL_BASE_VIRT + 0x200000.

Lemma window_index a : in_window a -> exists k, 0 <= k < 512 /\ a = KERNEL_BASE_VIRT + k * 4096.
Proof.
  intros [Hm Hr]. exists ((a - KERNEL_BASE_VIRT) / 4096). unfold KERNEL_BASE_VIRT, KERNEL_BASE_OFFSET, KERNEL_BASE_PHYS in *. clear - Hm Hr. dlia.
Qed.

(** Every page of the window is mapped, except those in [G]. *)
Definition window_mapped (G : list Z) W : Prop := forall a, in_window a -> a ∉ G -> exists e, W a = Some (1%nat, e).

Definition data_entry (a : Z) : Z := Z.lor (a - KERNEL_BASE_OFFSET) VMM_FLAGS_KERNEL_DATA.
Definition stack_view (A : list Z) W : Z -> option (nat * Z) := foldl (fun W a => set_page 1 a (Some (1%nat, data_entry a)) W) W A.

Lemma stack_view_mapped A : forall W, window_mapped [] W -> window_mapped [] (stack_view A W).
Proof.
  induction A as [|a A IH]; intros W HW; [done|]. apply IH. intros a' Ha Hn. unfold set_page. case_decide; [by eexists|by apply HW].
Qed.

(** The pages of [remap_stack]. *)
Definition pages_from (a : Z) (n : nat) : list Z := (fun i => a + Z.of_nat i * 4096) <$> seq 0 n.

Lemma pages_from_S a n : pages_from a (Datatypes.S n) = a :: pages_from (a + 4096) n.
Proof.
  unfold pages_from. cbn [seq fmap list_fmap]. f_equal; [lia|]. rewrite <- fmap_S_seq, <- list_fmap_compose. apply list_fmap_ext.
  intros i x _. cbn. lia.
Qed.

Lemma remap_space root n : forall W b st i base, space 1 root W b st -> window_mapped [] W -> (3 * n <= b)%nat ->
  Forall in_window (pages_from (base + i) n) ->
  exists st', iter_for n i VMM_DEFAULT_PAGE_SIZE (fun i =>
      let addr := u64 (base + i) in
      _ ← vmm_unmap debug (phys_to_virt root) addr;
      vmm_map debug (phys_to_virt root) (kernel_virt_to_phys addr) addr VMM_FLAGS_KERNEL_DATA) st = Ok (tt, st') /\
    space 1 root (stack_view (pages_from (base + i) n) W) (b - 3 * n) st'.
Proof.
  induction n as [|n IH]; intros W b st i base Hs HW Hb Hall; cbn [iter_for].
  { exists st. split; [done|]. by rewrite Nat.sub_0_r. }
  rewrite pages_from_S in Hall |- *. apply list.Forall_cons in Hall as [Ha Hall]. destruct (window_index _ Ha) as (k & Hk & Ek).
  assert (0x400000 <= base + i - KERNEL_BASE_OFFSET < 0x600000 /\ (base + i) mod 4096 = 0 /\ 0 <= base + i < 2 ^ 64) as (Hphys & Hal & Hr64).
  { rewrite Ek. unfold KERNEL_BASE_VIRT, KERNEL_BASE_OFFSET, KERNEL_BASE_PHYS. clear - Hk. dlia. }
  cbv zeta. rewrite (u64_id (base + i)) by lia. unfold kernel_virt_to_phys. rewrite u64_id by lia.
  destruct (HW (base + i) Ha) as [e He]; [by apply not_elem_of_nil|].
  destruct (unmap_page_space debug root W b st (base + i) e Hs Hal He) as (st1 & E1 & Hs1).
  destruct (map_page_space debug root _ b st1 (base + i - KERNEL_BASE_OFFSET) (base + i) VMM_FLAGS_KERNEL_DATA Hs1) as (st2 & E2 & Hs2).
  { split; [lia|]. change (2 ^ level_shift 1) with 4096. unfold KERNEL_BASE_OFFSET in *. clear - Hal. dlia. }
  { vm_compute. intuition congruence. }
  { done. }
  { unfold set_page. by rewrite decide_True. }
  { lia. }
  destruct (IH (set_page 1 (base + i) (Some (1%nat, data_entry (base + i))) W) (b - 3)%nat st2 (i + VMM_DEFAULT_PAGE_SIZE) base) as (st3 & E3 & Hs3).
  - eapply space_ext; [|exact Hs2]. intros v. unfold set_page. by case_decide.
  - intros a' Ha' Hn. unfold set_page. case_decide; [by eexists|by apply HW].
  - lia.
  - by rewrite Z.add_assoc.
  - exists st3. rewrite (bind_run _ _ st tt st2) by (by rewrite (bind_run _ _ _ _ _ E1)). split; [done|].
    replace (b - 3 * Datatypes.S n)%nat with (b - 3 - 3 * n)%nat by lia. rewrite <- Z.add_assoc. exact Hs3.
Qed.

Lemma remap_stack_space root W b st top size n : space 1 root W b st -> window_mapped [] W -> size = Z.of_nat n * 4096 ->
  (3 * n <= b)%nat -> Forall in_window (pages_from (top - size) n) ->
  exists st', remap_stack (phys_to_virt root) top size st = Ok (tt, st') /\
    space 1 root (stack_view (pages_from (top - size) n) W) (b - 3 * n) st' /\
    window_mapped [] (stack_view (pages_from (top - size) n) W).
Proof.
  intros Hs HW Hsz Hb Hall. unfold remap_stack, for_range.
  assert (for_count 0 size VMM_DEFAULT_PAGE_SIZE = n) as ->.
  { unfold for_count, VMM_DEFAULT_PAGE_SIZE. clear - Hsz. dlia. }
  destruct (remap_space root n W b st 0 (top - size)) as (st' & E & Hs'); rewrite ?Z.add_0_r; try done.
  rewrite Z.add_0_r in Hs'. exists st'. split; [done|]. split; [done|]. by apply stack_view_mapped.
Qed.

Definition guard_view (G : list Z) W : Z -> option (nat * Z) := foldl (fun W g => set_page 1 g None W) W G.

Lemma vpn_window_inj a a' : in_window a -> in_window a' -> vpn 1 a = vpn 1 a' -> a = a'.
Proof.
  intros (k & Hk & ->)%window_index (k' & Hk' & ->)%window_index. rewrite !vpn_kernel by done. intros. assert (k = k') as -> by lia. done.
Qed.

Lemma unmap_guard_space root G g W b st : space 1 root (guard_view G W) b st -> window_mapped G (guard_view G W) -> in_window g -> g ∉ G ->
  Forall in_window G ->
  exists st', vmm_unmap debug (phys_to_virt root) g st = Ok (tt, st') /\ space 1 root (guard_view (G ++ [g]) W) b st' /\
    window_mapped (G ++ [g]) (guard_view (G ++ [g]) W).
Proof.
  intros Hs Hm Hg Hn HG. destruct (Hm g Hg Hn) as [e He].
  destruct (unmap_page_space debug root _ b st g e Hs) as (st' & E & Hs'); [apply Hg|done|].
  exists st'. split; [done|]. unfold guard_view in *. rewrite foldl_app. cbn [foldl]. split; [done|].
  intros a Ha Hna. apply not_elem_of_app in Hna as [Hna Hne]. unfold set_page. rewrite decide_False; [by apply Hm|].
  intros Ev%vpn_window_inj; [|done..]. subst a. by apply Hne, list_elem_of_singleton.
Qed.

Definition guards (L : kernel_layout) : list Z :=
  [__kernel_bss_guard_base L; __kernel_stack_guard L; __kernel_rsp0_guard L; __kernel_ist1_guard L; __kernel_ist2_guard L; __kernel_ist3_guard L].

Definition stack_pages (L : kernel_layout) : list Z :=
  pages_from (__kernel_stack_top L - KERNEL_STACK_SIZE) 4 ++ pages_from (__kernel_rsp0_top L - KERNEL_RSP0_SIZE) 1 ++
  pages_from (__kernel_ist1_top L - KERNEL_IST1_SIZE) 1 ++ pages_from (__kernel_ist2_top L - KERNEL_IST2_SIZE) 1 ++
  pages_from (__kernel_ist3_top L - KERNEL_IST3_SIZE) 1.

(** What the linker script provides: stacks and guard pages inside the kernel. *)
Record layout_ok (L : kernel_layout) : Prop := LayoutOk {
  lo_stacks : Forall in_window (stack_pages L);
  lo_guards : Forall in_window (guards L);
  lo_distinct : NoDup (guards L);
}.

Lemma map_stacks_space root L W b st : layout_ok L -> space 1 root W b st -> window_mapped [] W -> (24 <= b)%nat ->
  exists st', map_stacks (phys_to_virt root) L st = Ok (tt, st') /\ space 1 root (stack_view (stack_pages L) W) (b - 24) st'.
Proof.
  intros [Hst _ _] Hs HW Hb. unfold stack_pages in Hst. rewrite !list.Forall_app in Hst. destruct Hst as (F1 & F2 & F3 & F4 & F5).
  unfold map_stacks, stack_pages. unfold stack_view at 1. rewrite !foldl_app.
  destruct (remap_stack_space root W b st (__kernel_stack_top L) KERNEL_STACK_SIZE 4) as (s1 & E1 & S1 & W1); try done; [lia|].
  rewrite (bind_run _ _ _ _ _ E1).
  destruct (remap_stack_space root _ _ s1 (__kernel_rsp0_top L) KERNEL_RSP0_SIZE 1 S1 W1) as (s2 & E2 & S2 & W2); try done; [lia|].
  rewrite (bind_run _ _ _ _ _ E2).
  destruct (remap_stack_space root _ _ s2 (__kernel_ist1_top L) KERNEL_IST1_SIZE 1 S2 W2) as (s3 & E3 & S3 & W3); try done; [lia|].
  rewrite (bind_run _ _ _ _ _ E3).
  destruct (remap_stack_space root _ _ s3 (__kernel_ist2_top L) KERNEL_IST2_SIZE 1 S3 W3) as (s4 & E4 & S4 & W4); try done; [lia|].
  rewrite (bind_run _ _ _ _ _ E4).
  destruct (remap_stack_space root _ _ s4 (__kernel_ist3_top L) KERNEL_IST3_SIZE 1 S4 W4) as (s5 & E5 & S5 & _); try done; [lia|].
  exists s5. split; [done|]. eapply space_lower; [| |exact S5]; lia.
Qed.

Lemma unmap_guards_space root L W b st : layout_ok L -> space 1 root W b st -> window_mapped [] W ->
  exists st', unmap_guards (phys_to_virt root) L st = Ok (tt, st') /\ space 1 root (guard_view (guards L) W) b st'.
Proof.
  intros [_ HG Hnd] Hs HW. unfold guards in *. repeat (apply list.Forall_cons in HG as [? HG]). clear HG.
  repeat (apply list.NoDup_cons in Hnd as [? Hnd]). clear Hnd. rewrite !not_elem_of_cons in *. destruct_and!. unfold unmap_guards.
  change W with (guard_view [] W) in Hs. change W with (guard_view [] W) in HW.
  destruct (unmap_guard_space root [] (__kernel_bss_guard_base L) W b st) as (s1 & E1 & S1 & M1); [done|done|done|apply not_elem_of_nil|by constructor|]. rewrite (bind_run _ _ _ _ _ E1).
  destruct (unmap_guard_space root _ (__kernel_stack_guard L) W b s1 S1 M1) as (s2 & E2 & S2 & M2);
    [done|cbn [app]; rewrite !not_elem_of_cons; intuition congruence|cbn [app]; by repeat apply Forall_cons_2|]. rewrite (bind_run _ _ _ _ _ E2).
  destruct (unmap_guard_space root _ (__kernel_rsp0_guard L) W b s2 S2 M2) as (s3 & E3 & S3 & M3);
    [done|cbn [app]; rewrite !not_elem_of_cons; intuition congruence|cbn [app]; by repeat apply Forall_cons_2|]. rewrite (bind_run _ _ _ _ _ E3).
  destruct (unmap_guard_space root _ (__kernel_ist1_guard L) W b s3 S3 M3) as (s4 & E4 & S4 & M4);
    [done|cbn [app]; rewrite !not_elem_of_cons; intuition congruence|cbn [app]; by repeat apply Forall_cons_2|]. rewrite (bind_run _ _ _ _ _ E4).
  destruct (unmap_guard_space root _ (__kernel_ist2_guard L) W b s4 S4 M4) as (s5 & E5 & S5 & M5);
    [done|cbn [app]; rewrite !not_elem_of_cons; intuition congruence|cbn [app]; by repeat apply Forall_cons_2|]. rewrite (bind_run _ _ _ _ _ E5).
  destruct (unmap_guard_space root _ (__kernel_ist3_guard L) W b s5 S5 M5) as (s6 & E6 & S6 & _);
    [done|cbn [app]; rewrite !not_elem_of_cons; intuition congruence|cbn [app]; by repeat apply Forall_cons_2|]. by exists s6.
Qed.

(** *** The finished address space *)

Lemma stack_view_lookup A : forall W v,
  (exists a, a ∈ A /\ vpn 1 v = vpn 1 a /\ stack_view A W v = Some (1%nat, data_entry a)) \/
  ((forall a, a ∈ A -> vpn 1 v <> vpn 1 a) /\ stack_view A W v = W v).
Proof.
  induction A as [|a A IH]; intros W v; [right; split; [|done]; by intros a ?%not_elem_of_nil|].
  destruct (IH (set_page 1 a (Some (1%nat, data_entry a)) W) v) as [(a' & Ha' & Hv & E)|[Hn E]].
  { left. exists a'. rewrite elem_of_cons. auto. }
  cbn [stack_view foldl] in *. unfold stack_view in E. rewrite E. unfold set_page. case_decide as D.
  - left. exists a. rewrite elem_of_cons. auto.
  - right. split; [|done]. intros a' [->|Ha']%elem_of_cons; [done|by apply Hn].
Qed.

Lemma guard_view_lookup G : forall W v,
  ((exists g, g ∈ G /\ vpn 1 v = vpn 1 g) -> guard_view G W v = None) /\
  ((forall g, g ∈ G -> vpn 1 v <> vpn 1 g) -> guard_view G W v = W v).
Proof.
  induction G as [|g G IH]; intros W v.
  { split; [|done]. by intros (g & ?%not_elem_of_nil & _). }
  cbn [guard_view foldl]. destruct (IH (set_page 1 g None W) v) as [IH1 IH2]. unfold guard_view in IH1, IH2. split.
  - intros (g' & Hg' & Hv). destruct (decide (vpn 1 v ∈ vpn 1 <$> G)) as [(g0 & E0 & H0)%list_elem_of_fmap|D]; [apply IH1; eauto|].
    rewrite list_elem_of_fmap in D. rewrite IH2 by (intros g0 H0 E0; apply D; eauto).
    apply elem_of_cons in Hg' as [->|Hg']; [|destruct D; eauto].
    unfold set_page. by rewrite decide_True.
  - intros Hn. rewrite IH2 by (intros g' Hg'; apply Hn; rewrite elem_of_cons; auto). unfold set_page.
    rewrite decide_False; [done|]. apply Hn. rewrite elem_of_cons. auto.
Qed.

Lemma vpn_offset a o : in_window a -> 0 <= o < 4096 -> vpn 1 (a + o) = vpn 1 a.
Proof. intros [Hm _] Ho. unfold vpn. change (2 ^ level_shift 1) with 4096. f_equal. clear - Hm Ho. dlia. Qed.

Lemma kernel_view_mapped : window_mapped [] (kernel_view 512).
Proof.
  intros a (k & Hk & ->)%window_index _. unfold kernel_view. rewrite vpn_kernel, (proj2 (Z.leb_le _ _)), (proj2 (Z.ltb_lt _ _)) by lia. by eexists.
Qed.

(** What the processor finds after [kernel_paging_init]. *)
Definition final_view (L : kernel_layout) : Z -> option (nat * Z) := guard_view (guards L) (stack_view (stack_pages L) (kernel_view 512)).

Lemma kernel_paging_init_space L st : pa_wf (vs_alloc st) -> mem_ok (vs_ram st) -> free_at_least 2073 st -> layout_ok L ->
  exists root st', kernel_paging_init L st = Ok (phys_to_virt root, st') /\ is_page root /\ space 1 root (final_view L) 0 st'.
Proof.
  intros Hal Hm Hb HL. destruct (vmm_init_space 2072 st Hal Hm Hb) as (root & s1 & E1 & Hroot & S1). exists root. unfold kernel_paging_init.
  rewrite (bind_run _ _ _ _ _ E1).
  destruct (map_direct_space root s1 2072 S1) as (s2 & E2 & S2); [lia|]. rewrite (bind_run _ _ _ _ _ E2).
  apply (space_lower 3 1 root _ _ 1560) in S2; [|lia|lia].
  destruct (map_kernel_space root s2 1560 S2) as (s3 & E3 & S3); [lia|]. rewrite (bind_run _ _ _ _ _ E3).
  destruct (map_stacks_space root L _ _ s3 HL S3 kernel_view_mapped) as (s4 & E4 & S4); [lia|]. rewrite (bind_run _ _ _ _ _ E4).
  destruct (unmap_guards_space root L _ _ s4 HL S4 (stack_view_mapped _ _ kernel_view_mapped)) as (s5 & E5 & S5). rewrite (bind_run _ _ _ _ _ E5).
  exists s5. split; [reflexivity|]. split; [exact Hroot|exact S5].
Qed.

Lemma vpn_window a : in_window a -> kernel_page <= vpn 1 a < kernel_page + 512.
Proof. intros (k & Hk & ->)%window_index. rewrite vpn_kernel by done. lia. Qed.

Lemma final_outside L v : layout_ok L -> ~ kernel_page <= vpn 1 v < kernel_page + 512 -> final_view L v = direct_view 512 v.
Proof.
  intros [Hs Hg _] Hv. rewrite list.Forall_forall in Hs, Hg. unfold final_view.
  rewrite (proj2 (guard_view_lookup _ _ v)) by (intros g H'%Hg%vpn_window E; by rewrite E in Hv).
  destruct (stack_view_lookup (stack_pages L) (kernel_view 512) v) as [(a & Ha%Hs%vpn_window & E & _)|[_ ->]]; [by rewrite E in Hv|].
  unfold kernel_view. destruct (Z.leb_spec kernel_page (vpn 1 v)), (Z.ltb_spec (vpn 1 v) (kernel_page + 512)); cbn [andb]; lia || done.
Qed.

Lemma final_guard L g o : layout_ok L -> g ∈ guards L -> 0 <= o < 4096 -> final_view L (g + o) = None.
Proof.
  intros [_ Hg _] Hin Ho. rewrite list.Forall_forall in Hg. apply guard_view_lookup. exists g. split; [done|]. apply vpn_offset; [by apply Hg|done].
Qed.

Lemma final_window L a o : layout_ok L -> in_window a -> a ∉ guards L -> 0 <= o < 4096 ->
  exists f, final_view L (a + o) = Some (1%nat, Z.lor (a - KERNEL_BASE_OFFSET) f) /\ flags_ok f /\ (a ∈ stack_pages L -> Z.testbit f 63 = true).
Proof.
  intros [Hs Hg _] Ha Hn Ho. rewrite list.Forall_forall in Hs, Hg. unfold final_view.
  rewrite (proj2 (guard_view_lookup _ _ (a + o))).
  2: { intros g Hin. rewrite vpn_offset by done. intros ->%vpn_window_inj; [done|done|by apply Hg]. }
  destruct (stack_view_lookup (stack_pages L) (kernel_view 512) (a + o)) as [(a' & Ha' & E & ->)|[Hns ->]].
  - rewrite vpn_offset in E by done. apply vpn_window_inj in E; [|done|by apply Hs]. subst a'. exists VMM_FLAGS_KERNEL_DATA.
    split; [done|]. split; [vm_compute; intuition congruence|done].
  - exists 3. pose proof (vpn_window a Ha) as Hr. unfold kernel_view. rewrite vpn_offset by done.
    rewrite (proj2 (Z.leb_le _ _)), (proj2 (Z.ltb_lt _ _)) by lia. cbn [andb]. split.
    + do 3 f_equal. destruct (window_index a Ha) as (k & Hk & ->). rewrite vpn_kernel by done. unfold KERNEL_BASE_VIRT. lia.
    + split; [vm_compute; intuition congruence|]. intros H'%Hns. by rewrite vpn_offset in H'.
Qed.

Lemma direct_lookup L a : layout_ok L -> 0 <= a < 2 ^ 39 ->
  final_view L (PMM_HHDM_START + a) = Some (3%nat, Z.lor (a / 2 ^ 30 * 2 ^ 30) 0x83).
Proof.
  intros HL Ha. assert (vpn 3 (PMM_HHDM_START + a) = 0x20000 + a / 2 ^ 30 /\ vpn 1 (PMM_HHDM_START + a) = 0x800000000 + a / 4096 /\ a / 2 ^ 30 < 512 /\ 0 <= a / 2 ^ 30)
    as (E3 & E1 & Hlt & Hge).
  { unfold vpn, PMM_HHDM_START. change (2 ^ level_shift 3) with (2 ^ 30). change (2 ^ level_shift 1) with 4096. cbn [Z.of_nat]. clear - Ha. dlia. }
  rewrite final_outside; [|done|rewrite E1; unfold kernel_page; clear - Ha; dlia].
  unfold direct_view. rewrite E3, (proj2 (Z.leb_le _ _)), (proj2 (Z.ltb_lt _ _)) by lia. cbn [andb].
  by replace (0x20000 + a / 2 ^ 30 - 0x20000) with (a / 2 ^ 30) by lia.
Qed.

Lemma user_lookup L v : layout_ok L -> 0 <= v < 2 ^ 47 -> final_view L v = None.
Proof.
  intros HL Hv. assert (vpn 3 v < 0x20000 /\ vpn 1 v < 0x800000000) as [H3 H1].
  { unfold vpn. change (2 ^ level_shift 3) with (2 ^ 30). change (2 ^ level_shift 1) with 4096. cbn [Z.of_nat]. clear - Hv. dlia. }
  rewrite final_outside; [|done|unfold kernel_page; lia]. unfold direct_view. by rewrite (proj2 (Z.leb_gt _ _)) by lia.
Qed.

Lemma direct_translate L root b st a : layout_ok L -> space 1 root (final_view L) b st -> 0 <= a < 2 ^ 39 ->
  translate (vs_ram st) root (PMM_HHDM_START + a) = Some a.
Proof.
  intros HL Hs Ha. rewrite (space_translate root _ b st _ 3 (a / 2 ^ 30 * 2 ^ 30) 0x83 Hs); [|lia|by apply direct_lookup| | |done].
  - f_equal. change (2 ^ level_shift 3) with (2 ^ 30). unfold PMM_HHDM_START. clear. dlia.
  - split; [clear - Ha; dlia|]. change (2 ^ level_shift 3) with (2 ^ 30). by apply Z.mod_mul.
  - vm_compute. intuition congruence.
Qed.

Lemma window_translate L root b st a o : layout_ok L -> space 1 root (final_view L) b st -> in_window a -> a ∉ guards L -> 0 <= o < 4096 ->
  translate (vs_ram st) root (a + o) = Some (a + o - KERNEL_BASE_OFFSET).
Proof.
  intros HL Hs Hw Hg Ho. destruct (final_window L a o HL Hw Hg Ho) as (f & E & Hfl & _).
  rewrite (space_translate root _ b st _ 1 (a - KERNEL_BASE_OFFSET) f Hs); [|lia|exact E| |done|lia].
  - f_equal. change (2 ^ level_shift 1) with 4096. destruct Hw as [Hm _]. clear - Hm Ho. dlia.
  - destruct Hw as [Hm Hr]. split; [unfold KERNEL_BASE_VIRT, KERNEL_BASE_PHYS in Hr; lia|]. change (2 ^ level_shift 1) with 4096.
    unfold KERNEL_BASE_OFFSET in *. clear - Hm. dlia.
Qed.

(** The layout of the linker script. *)
Lemma linker_in_window base k : base mod 4096 = 0 -> KERNEL_BASE_VIRT <= base <= KERNEL_BASE_VIRT + 0x1F2000 -> 0 <= k < 14 -> in_window (base + k * 4096).
Proof. intros Hm Hb Hk. split; [clear - Hm; dlia|lia]. Qed.

Lemma linker_guards base : guards (linker_layout base) = (fun k => base + k * 4096) <$> [13; 8; 6; 0; 2; 4].
Proof. unfold guards. cbn [linker_layout fmap list_fmap __kernel_bss_guard_base __kernel_stack_guard __kernel_rsp0_guard __kernel_ist1_guard __kernel_ist2_guard __kernel_ist3_guard]. repeat f_equal; lia. Qed.

Lemma linker_stacks base : stack_pages (linker_layout base) = (fun k => base + k * 4096) <$> [9; 10; 11; 12; 7; 1; 3; 5].
Proof.
  unfold stack_pages, pages_from. cbn [linker_layout fmap list_fmap seq app __kernel_stack_top __kernel_rsp0_top __kernel_ist1_top __kernel_ist2_top __kernel_ist3_top].
  unfold KERNEL_STACK_SIZE, KERNEL_RSP0_SIZE, KERNEL_IST1_SIZE, KERNEL_IST2_SIZE, KERNEL_IST3_SIZE. repeat (apply (f_equal2 cons); [lia|]). done.
Qed.

Lemma linker_layout_ok base : base mod 4096 = 0 -> KERNEL_BASE_VIRT <= base <= KERNEL_BASE_VIRT + 0x1F2000 -> layout_ok (linker_layout base).
Proof.
  intros Hm Hb. split.
  - rewrite linker_stacks. apply list.Forall_forall. intros a (k & -> & Hk)%list_elem_of_fmap. rewrite !elem_of_cons, elem_of_nil in Hk.
    apply linker_in_window; done || lia.
  - rewrite linker_guards. apply list.Forall_forall. intros a (k & -> & Hk)%list_elem_of_fmap. rewrite !elem_of_cons, elem_of_nil in Hk.
    apply linker_in_window; done || lia.
  - rewrite linker_guards. apply list.NoDup_fmap_2; [intros k k' E; lia|]. by apply (bool_decide_unpack _).
Qed.

Lemma linker_stack_guard base a : a ∈ stack_pages (linker_layout base) -> a ∉ guards (linker_layout base).
Proof.
  rewrite linker_stacks, linker_guards. intros (k & -> & Hk)%list_elem_of_fmap (k' & E & Hk')%list_elem_of_fmap.
  assert (k = k') as -> by lia. set_unfold. lia.
Qed.

(** C5: The page map that [kmain] builds and switches to is the kernel's address space,
    for any page allocator with 2073 free pages, in debug and release builds, wherever
    [linker_kernel.ld] puts the stacks in the kernel's 2 MiB window: the first 512 GiB of
    physical memory are mapped at [PMM_HHDM_START], every address of the kernel window is
    mapped to where the kernel was loaded, except the six guard pages, which are not
    mapped; the pages of the stacks are not executable (bit 63); and no address of the
    user half is mapped. *)
Theorem kernel_paging_init_correct (base : Z) (st : vmm_state S)
  (Halloc : pa_wf (vs_alloc st)) (Hram : mem_ok (vs_ram st)) (Hfree : free_at_least 2073 st)
  (Hal : base mod 4096 = 0) (Hbase : KERNEL_BASE_VIRT <= base <= KERNEL_BASE_VIRT + 0x1F2000) :
  let L := linker_layout base in
  exists root st', kernel_paging_init L st = Ok (phys_to_virt root, st') /\
    (forall a, 0 <= a < 2 ^ 39 -> translate (vs_ram st') root (PMM_HHDM_START + a) = Some a) /\
    (forall a o, in_window a -> 0 <= o < 4096 ->
       (a ∈ guards L -> translate (vs_ram st') root (a + o) = None) /\
       (a ∉ guards L -> translate (vs_ram st') root (a + o) = Some (a + o - KERNEL_BASE_OFFSET)) /\
       (a ∈ stack_pages L -> a ∉ guards L /\ exists e, walk (vs_ram st') 4 root (a + o) = Some (1%nat, e) /\ Z.testbit e 63 = true)) /\
    (forall v, 0 <= v < 2 ^ 47 -> translate (vs_ram st') root v = None).
Proof.
  intros L. assert (layout_ok L) as HL by (by apply linker_layout_ok).
  destruct (kernel_paging_init_space L st Halloc Hram Hfree HL) as (root & st' & Hrun & _ & Hs).
  exists root, st'. split; [exact Hrun|]. clear Hrun. split; [|split].
  - intros a Ha. by apply (direct_translate L root 0 st').
  - intros a o Hw Ho. split; [|split].
    + intros Hg. by apply (unmapped_translate root (final_view L) 0 st' _ Hs), final_guard.
    + intros Hg. by apply (window_translate L root 0 st').
    + intros Hst. pose proof (linker_stack_guard base a Hst) as Hg. split; [done|].
      destruct (final_window L a o HL Hw Hg Ho) as (f & E & Hfl & Hnx). exists (Z.lor (a - KERNEL_BASE_OFFSET) f).
      rewrite (sp_walk _ _ _ _ _ Hs). split; [exact E|]. by rewrite Z.lor_spec, (Hnx Hst), orb_true_r.
  - intros v Hv. by apply (unmapped_translate root (final_view L) 0 st' _ Hs), user_lookup.
Qed.
End paging.

(** ** A machine with 16 MiB of free memory *)

Definition boot_pmm : pmm_state := PmmState (replicate 512 0) 512.
Definition boot_state : vmm_state pmm_state := VmmState boot_pmm (fun _ => 0).

Lemma boot_pmm_wf : pmm_wf boot_pmm.
Proof. split; [apply (bool_decide_unpack _); vm_compute; exact I|]. vm_compute. intuition congruence. Qed.

Lemma boot_free (n : nat) : (n <= 4096)%nat -> free_at_least (H := pmm_page_allocator true) n boot_state.
Proof.
  intros Hn. exists ((fun i => i * 4096) <$> seqZ 0 (Z.of_nat n)). split; [|split].
  - apply list.NoDup_fmap_2; [intros i j E; lia|]. apply NoDup_seqZ.
  - rewrite length_fmap, length_seqZ. lia.
  - apply list.Forall_forall. intros p (i & -> & Hi%elem_of_seqZ)%list_elem_of_fmap. exists i.
    split; [unfold pmm_pages; cbn [boot_state vs_alloc boot_pmm pmm_bitmap_size]; lia|]. split; [done|]. apply bit_zeros.
Qed.

Lemma kernel_paging_init_correct_witness :
  exists root st', kernel_paging_init (H := pmm_page_allocator true) true (linker_layout 0xFFFFFFFF80450000) boot_state = Ok (phys_to_virt root, st') /\
    translate (vs_ram st') root 0xFFFF800000100008 = Some 0x100008 /\
    translate (vs_ram st') root 0xFFFFFFFF80400010 = Some 0x400010 /\
    translate (vs_ram st') root 0xFFFFFFFF80450010 = None /\
    translate (vs_ram st') root 0x400000 = None.
Proof.
  destruct (kernel_paging_init_correct (H := pmm_page_allocator true) true 0xFFFFFFFF80450000 boot_state) as (root & st' & Hrun & Hd & Hw & Hu).
  - apply boot_pmm_wf.
  - intros a. vm_compute. intuition congruence.
  - apply boot_free. lia.
  - reflexivity.
  - vm_compute. intuition congruence.
  - exists root, st'. split; [exact Hrun|]. split; [|split; [|split]].
    + apply (Hd 0x100008). lia.
    + apply (Hw 0xFFFFFFFF80400000 0x10); [vm_compute; intuition congruence|lia|]. apply (bool_decide_unpack _). vm_compute. exact I.
    + apply (Hw 0xFFFFFFFF80450000 0x10); [vm_compute; intuition congruence|lia|]. apply (bool_decide_unpack _). vm_compute. exact I.
    + apply Hu. lia.
Defined.
