(* ===== verification/Video.v ===== *)
(** * Frame buffer

    [drivers/video/video.c] and the phase of [kmain] that maps the frame buffer: the
    display mode as the firmware describes it (the bytes of [VesaVbeModeInfo]), clearing
    and scrolling.  Sizes are 32-bit products, as in the code. *)
From Stdlib Require Import ZArith Lia.
From stdpp Require Import base tactics list numbers gmap.
From S2P Require Import Prelude Common Memory Interfaces Vmm CString BsfsTypes.

Open Scope Z_scope.

Definition VIDEO_VIRT_START : Z := 0xFFFF920040000000.
Definition VMM_PS_PAT_PA4 : Z := 0x1000.

Record Video := {
  phys : Z;
  data : Z;
  width : Z;
  height : Z;
  bpp : Z;
  bytes_per_scanline : Z;
  bytes_per_pixel : Z;
  row : Z;
  column : Z;
  color : Z;
}.

(** The fields of the packed structure. *)
Definition mode_field (mode_info : list Z) (offset n : nat) : Z := le_word (take n (drop offset mode_info)).
Definition BytesPerScanLine (m : list Z) : Z := mode_field m 16 2.
Definition XResolution (m : list Z) : Z := mode_field m 18 2.
Definition YResolution (m : list Z) : Z := mode_field m 20 2.
Definition BitsPerPixel (m : list Z) : Z := mode_field m 25 1.
Definition PhysBasePtr (m : list Z) : Z := mode_field m 40 4.

Definition video_init (video : Video) (mode_info : list Z) : Video :=
  {| phys := PhysBasePtr mode_info; data := data video; width := XResolution mode_info; height := YResolution mode_info;
     bpp := BitsPerPixel mode_info; bytes_per_scanline := BytesPerScanLine mode_info; bytes_per_pixel := BitsPerPixel mode_info / 8;
     row := 0; column := 0; color := color video |}.

Definition video_clear (m : mem) (video : Video) : mem :=
  (memset m (data video) 0 (u32 (bytes_per_scanline video * height video))).2.

Definition with_row (video : Video) (r : Z) : Video :=
  {| phys := phys video; data := data video; width := width video; height := height video; bpp := bpp video;
     bytes_per_scanline := bytes_per_scanline video; bytes_per_pixel := bytes_per_pixel video; row := r; column := column video; color := color video |}.

Definition video_scroll (m : mem) (video : Video) (lines : Z) : Video * mem :=
  let line_bytes := u32 (bytes_per_scanline video * lines) in
  let m := (memcpy m (data video) (u64 (data video + line_bytes)) (u64 (u32 (height video * bytes_per_scanline video) - line_bytes))).2 in
  let video := with_row video (u32 (height video - lines)) in
  let start := u32 (row video * bytes_per_scanline video) in
  (video, (memset m (u64 (data video + start)) 0 (u32 (u32 (height video * bytes_per_scanline video) - start))).2).

(** [_ptr_video_default] *)
Definition video_set_default (video : Z) : M Z unit := put video.
Definition video_get_default : M Z Z := get.

Section mapping.
Context {S : Type} `{PageAllocator S} (debug : bool).

Definition map_video (pml4 : Z) (video : Video) : M (vmm_state S) unit :=
  let video_pages_count := u32 (u32 (height video * bytes_per_scanline video) + VMM_LARGE_PAGE_SIZE - 1) / VMM_LARGE_PAGE_SIZE in
  for_range 0 video_pages_count 1 (fun i =>
    let virt := u64 (VIDEO_VIRT_START + i * VMM_LARGE_PAGE_SIZE) in
    vmm_map_large debug pml4 (u64 (phys video + i * VMM_LARGE_PAGE_SIZE)) virt (Z.lor VMM_FLAGS_KERNEL_DATA VMM_PS_PAT_PA4)).
End mapping.

(** ** Proofs *)

(** A frame buffer whose size fits the 32-bit arithmetic of the driver. *)
Record video_ok (video : Video) : Prop := VideoOk {
  fo_data : 0 <= data video < 2 ^ 63;
  fo_size : 0 <= height video /\ 0 <= bytes_per_scanline video /\ height video * bytes_per_scanline video < 2 ^ 32;
}.

(** The byte [x] of line [y]. *)
Definition pixel_byte (video : Video) (m : mem) (y x : Z) : Z := m (data video + y * bytes_per_scanline video + x).

Definition in_frame (video : Video) (a : Z) : Prop := data video <= a < data video + height video * bytes_per_scanline video.

#[export] Instance in_frame_dec video a : Decision (in_frame video a).
Proof. unfold in_frame. apply _. Defined.

Lemma scroll_memory m video lines a : video_ok video -> 0 <= lines <= height video ->
  (video_scroll m video lines).2 a =
    if decide (data video <= a < data video + (height video - lines) * bytes_per_scanline video) then m (a + lines * bytes_per_scanline video)
    else if decide (in_frame video a) then 0 else m a.
Proof.
  intros [Hd (Hh & Hb & Hsz)] Hl. unfold video_scroll, in_frame. cbn [with_row data row height bytes_per_scanline snd].
  set (B := bytes_per_scanline video) in *. set (H := height video) in *. set (dt := data video) in *.
  assert (0 <= lines * B <= H * B) as HL by nia. assert ((H - lines) * B = H * B - lines * B) as HR by lia.
  rewrite (Z.mul_comm B lines), (u32_id (lines * B)), (u32_id (H * B)) by lia.
  assert (u32 (u32 (H - lines) * B) = H * B - lines * B) as Estart.
  { destruct (decide (B = 0)) as [EB|HB]; [rewrite EB, !Z.mul_0_r; done|]. rewrite (u32_id (H - lines)) by nia. rewrite HR. apply u32_id. lia. }
  rewrite Estart, (u32_id (H * B - (H * B - lines * B))), (u64_id (dt + lines * B)), (u64_id (H * B - lines * B)), (u64_id (dt + (H * B - lines * B))) by lia.
  unfold memset, memcpy. cbn [snd]. rewrite stosb_spec, Z2Nat.id by lia.
  rewrite (movsb_up_copied (Z.to_nat (H * B - lines * B)) m dt (dt + lines * B)), Z2Nat.id by lia. rewrite HR. change (u8 0) with 0.
  destruct (decide (dt <= a < dt + (H * B - lines * B))).
  - rewrite decide_False by lia. f_equal. lia.
  - destruct (decide (dt <= a < dt + H * B)); [by rewrite decide_True by lia|]. by rewrite decide_False by lia.
Qed.

(** Scrolling by [lines] moves every line of the frame buffer up by [lines], clears
    the lines that become free at the bottom, puts the cursor on the first of them and
    changes no memory outside the frame buffer; clearing sets every byte of it to 0. *)
Theorem video_scroll_correct (m : mem) (video : Video) (lines : Z) (Hok : video_ok video) (Hlines : 0 <= lines <= height video) :
  let '(video', m') := video_scroll m video lines in
  (forall y x, 0 <= y -> 0 <= x < bytes_per_scanline video -> y < height video ->
     pixel_byte video m' y x = if decide (y < height video - lines) then pixel_byte video m (y + lines) x else 0) /\
  (forall a, ~ in_frame video a -> m' a = m a /\ video_clear m video a = m a) /\
  (height video < 2 ^ 32 -> row video' = height video - lines) /\
  (forall a, in_frame video a -> video_clear m video a = 0).
Proof.
  destruct (video_scroll m video lines) as [video' m'] eqn:E.
  assert (forall a, m' a = (video_scroll m video lines).2 a) as Hm by (by rewrite E).
  assert (row video' = u32 (height video - lines)) as Hrow by (unfold video_scroll in E; injection E as <- _; done).
  pose proof Hok as [Hd (Hh & Hb & Hsz)].
  assert (forall a, video_clear m video a = if decide (in_frame video a) then 0 else m a) as Hclear.
  { intros a. unfold video_clear, memset, in_frame. cbn [snd]. rewrite stosb_spec, (Z.mul_comm (bytes_per_scanline video)), u32_id, Z2Nat.id by lia. done. }
  split; [|split; [|split]].
  - intros y x Hy Hx Hlt. unfold pixel_byte. rewrite Hm, scroll_memory by done. unfold in_frame.
    destruct (decide (y < height video - lines)) as [Hc|Hc].
    + rewrite decide_True by nia. f_equal. lia.
    + rewrite decide_False, decide_True by nia. done.
  - intros a Ha. rewrite Hm, Hclear, scroll_memory by done. rewrite !(decide_False (P := in_frame video a)) by done.
    split; [|done]. apply decide_False. unfold in_frame in Ha. nia.
  - intros Hh32. rewrite Hrow. apply u32_id. lia.
  - intros a Ha. by rewrite Hclear, decide_True.
Qed.

(** *** Witness: four lines of three bytes *)
Lemma video_scroll_correct_witness :
  let video := {| phys := 0; data := 100; width := 1; height := 4; bpp := 24; bytes_per_scanline := 3; bytes_per_pixel := 3; row := 0; column := 0; color := 0 |} in
  pixel_byte video (video_scroll (fun a => a) video 1).2 1 2 = 108 /\ pixel_byte video (video_scroll (fun a => a) video 1).2 3 0 = 0.
Proof.
  intros video. pose proof (video_scroll_correct (fun a => a) video 1) as Hs. destruct (video_scroll (fun a => a) video 1) as [video' m'].
  destruct Hs as (Hs & _); [split; vm_compute; intuition congruence|vm_compute; intuition congruence|].
  cbn [snd]. split; [rewrite (Hs 1 2)|rewrite (Hs 3 0)]; vm_compute; intuition congruence.
Defined.
