(* ===== verification/KernelSetup.v ===== *)
(** * Kernel start: segments, model-specific registers, page attributes

    The phases of [kmain] ([kernel/kernel.c]) that program the processor: the page
    attribute table, the descriptor table with the user segments and the task state
    segment, and the registers behind the [syscall] instruction; [kernel/kernel/msr.c].
    What [syscall] and [sysret] load into the segment registers is the processor's
    definition ([syscall_cs] and the like).  The register file is a function from
    register numbers to 64-bit values. *)
From Stdlib Require Import ZArith Lia.
From stdpp Require Import base tactics list numbers.
From S2P Require Import Prelude Common Descriptors Process Stage2Load.

Open Scope Z_scope.

Definition MSR_REG_STAR : Z := 0xC0000081.
Definition MSR_REG_LSTAR : Z := 0xC0000082.
Definition MSR_REG_SFMASK : Z := 0xC0000084.
Definition MSR_REG_GSBASE : Z := 0xC0000101.
Definition MSR_REG_KERNELGSBASE : Z := 0xC0000102.
Definition MSR_REG_LAPIC_BASE : Z := 0x1B.
Definition MSR_REG_PAT : Z := 0x277.

Definition msrs : Type := Z -> Z.

(** The instruction delivers the halves in [edx] and [eax]. *)
Definition rdmsr (r : msrs) (msr : Z) : Z :=
  let low := r msr mod 2 ^ 32 in
  let high := r msr / 2 ^ 32 in
  Z.lor (u64 (Z.shiftl high 32)) low.

Definition wrmsr (r : msrs) (msr value : Z) : msrs :=
  let low := Z.land value 0xFFFFFFFF in
  let high := Z.shiftr value 32 in
  fun x => if x =? msr then high * 2 ^ 32 + low else r x.

(** ** Page attributes *)

Definition pat_field (msr_pat k : Z) : Z := Z.land (Z.shiftr msr_pat (8 * k)) 0xFF.

Definition pat_init (r : msrs) : msrs :=
  let msr_pat := rdmsr r MSR_REG_PAT in
  let msr_pat_pa4 := 1 in
  let msr_pat_pa5 := 5 in
  let msr_pat :=
    Z.lor (Z.lor (Z.lor (Z.lor (Z.lor (Z.lor (Z.lor
      (Z.shiftl (pat_field msr_pat 0) 0)
      (Z.shiftl (pat_field msr_pat 1) 8))
      (Z.shiftl (pat_field msr_pat 2) 16))
      (Z.shiftl (pat_field msr_pat 3) 24))
      (Z.shiftl msr_pat_pa4 32))
      (Z.shiftl msr_pat_pa5 40))
      (Z.shiftl (pat_field msr_pat 6) 48))
      (Z.shiftl (pat_field msr_pat 7) 56) in
  wrmsr r MSR_REG_PAT msr_pat.

(** ** Segments *)

Definition sizeof_TSSEntry : Z := 104.

(** The table in its new page: [page] is what the page held, [boot] the table of the
    boot loader, of which [count] entries are copied. *)
Definition kernel_gdt (page boot : list Z) (count tss : Z) : outcome (list Z) :=
  let gdt := take (Z.to_nat count) boot ++ drop (Z.to_nat count) page in
  gdt ← gdt_set_entry gdt 3 0 UINT32_MAX 0xF2 0xA;
  gdt ← gdt_set_entry gdt 4 0 UINT32_MAX 0xFA 0xA;
  gdt_set_tss_entry gdt 5 tss 0x89 0 (sizeof_TSSEntry - 1).

(** ** The [syscall] instruction *)

Definition syscall_msrs (syscall_stub cpu_state : Z) (r : msrs) : msrs :=
  let msr_star := Z.land (Z.lor (Z.shiftl 0x10 48) (Z.shiftl 0x08 32)) 0xFFFFFFFF00000000 in
  let msr_sfmask := Z.lor (Z.lor (Z.shiftl 1 8) (Z.shiftl 1 9)) (Z.shiftl 1 10) in
  let r := wrmsr r MSR_REG_STAR msr_star in
  let r := wrmsr r MSR_REG_LSTAR syscall_stub in
  let r := wrmsr r MSR_REG_SFMASK msr_sfmask in
  let r := wrmsr r MSR_REG_GSBASE cpu_state in
  wrmsr r MSR_REG_KERNELGSBASE 0.

(** The operand of [gdt_load_tss]. *)
Definition kernel_tss_selector : Z := 0x28.

(** What the processor loads: on [syscall] from bits 32-47 of STAR, on [sysret] to
    64-bit code from bits 48-63, with privilege level 3. *)
Definition syscall_cs (star : Z) : Z := Z.land (star / 2 ^ 32 mod 2 ^ 16) 0xFFFC.
Definition syscall_ss (star : Z) : Z := star / 2 ^ 32 mod 2 ^ 16 + 8.
Definition sysret_cs (star : Z) : Z := Z.lor (star / 2 ^ 48 mod 2 ^ 16 + 16) 3.
Definition sysret_ss (star : Z) : Z := Z.lor (star / 2 ^ 48 mod 2 ^ 16 + 8) 3.

(** ** Proofs *)

(** A selector: index into the table and requested privilege level. *)
Definition sel_index (sel : Z) : Z := sel / 8.
Definition sel_rpl (sel : Z) : Z := sel mod 4.

(** Descriptors: present code or data segments at privilege level [dpl]; 64-bit code. *)
Definition is_code64 (dpl d : Z) : Prop := desc_access d = 0x9A + dpl * 0x20 /\ Z.testbit (desc_flags d) 1 = true /\ Z.testbit (desc_flags d) 2 = false.
Definition is_data (dpl d : Z) : Prop := desc_access d = 0x92 + dpl * 0x20.

Lemma rdmsr_value r msr : 0 <= r msr < 2 ^ 64 -> rdmsr r msr = r msr.
Proof.
  intros Hr. unfold rdmsr. rewrite Z.shiftl_mul_pow2 by lia. rewrite u64_id by (clear - Hr; dlia).
  rewrite Z.lor_comm, lor_field by (lia || (clear; dlia)). clear. dlia.
Qed.

Lemma wrmsr_same r msr v : 0 <= v < 2 ^ 64 -> wrmsr r msr v msr = v.
Proof.
  intros Hv. unfold wrmsr. rewrite Z.eqb_refl. change 0xFFFFFFFF with (2 ^ 32 - 1). rewrite land_ones_mod, Z.shiftr_div_pow2 by lia. clear. dlia.
Qed.

Lemma wrmsr_other r msr v x : x <> msr -> wrmsr r msr v x = r x.
Proof. intros Hx. unfold wrmsr. by rewrite (proj2 (Z.eqb_neq x msr)). Qed.

(** The fields of a word built from bytes. *)
Lemma pat_fields (b0 b1 b2 b3 b4 b5 b6 b7 : Z) : Forall (fun b => 0 <= b < 2 ^ 8) [b0; b1; b2; b3; b4; b5; b6; b7] ->
  let w := Z.lor (Z.lor (Z.lor (Z.lor (Z.lor (Z.lor (Z.lor (Z.shiftl b0 0) (Z.shiftl b1 8)) (Z.shiftl b2 16)) (Z.shiftl b3 24)) (Z.shiftl b4 32))
    (Z.shiftl b5 40)) (Z.shiftl b6 48)) (Z.shiftl b7 56) in
  0 <= w < 2 ^ 64 /\ pat_field w <$> [0; 1; 2; 3; 4; 5; 6; 7] = [b0; b1; b2; b3; b4; b5; b6; b7].
Proof.
  intros HF w. repeat (apply list.Forall_cons in HF as [? HF]). clear HF.
  assert (w = b0 + b1 * 2 ^ 8 + b2 * 2 ^ 16 + b3 * 2 ^ 24 + b4 * 2 ^ 32 + b5 * 2 ^ 40 + b6 * 2 ^ 48 + b7 * 2 ^ 56) as ->.
  { unfold w. rewrite !Z.shiftl_mul_pow2 by lia. rewrite Z.mul_1_r.
    rewrite (lor_field b0 b1 8), (lor_field _ b2 16), (lor_field _ b3 24), (lor_field _ b4 32), (lor_field _ b5 40), (lor_field _ b6 48), (lor_field _ b7 56) by lia.
    lia. }
  split; [lia|]. unfold pat_field. cbn [fmap list_fmap]. change 0xFF with (2 ^ 8 - 1). rewrite !land_ones_mod, !Z.shiftr_div_pow2 by lia.
  repeat (apply (f_equal2 cons); [change (8 * 0) with 0; dlia|]). done.
Qed.

(** The attribute table is changed in entries 4 (write combining) and 5 (write
    protected), which the firmware leaves as copies of 0 and 1, and nowhere else. *)
Theorem pat_init_correct (r : msrs) (Hpat : 0 <= r MSR_REG_PAT < 2 ^ 64) :
  (pat_field (pat_init r MSR_REG_PAT) <$> [0; 1; 2; 3; 4; 5; 6; 7]) =
    (fun k => if k =? 4 then 1 else if k =? 5 then 5 else pat_field (r MSR_REG_PAT) k) <$> [0; 1; 2; 3; 4; 5; 6; 7] /\
  forall x, x <> MSR_REG_PAT -> pat_init r x = r x.
Proof.
  unfold pat_init. rewrite rdmsr_value by done. set (v := r MSR_REG_PAT) in *.
  assert (forall k, 0 <= pat_field v k < 2 ^ 8) as Hb.
  { intros k. unfold pat_field. change 0xFF with (2 ^ 8 - 1). rewrite land_ones_mod by lia. by apply Z.mod_pos_bound. }
  destruct (pat_fields (pat_field v 0) (pat_field v 1) (pat_field v 2) (pat_field v 3) 1 5 (pat_field v 6) (pat_field v 7)) as [Hw Hf].
  { repeat apply Forall_cons_2; try apply Hb; try lia. apply Forall_nil_2. }
  split; [|intros x Hx; by apply wrmsr_other]. rewrite wrmsr_same by exact Hw. exact Hf.
Qed.

Lemma syscall_msrs_star stub cpu r : syscall_msrs stub cpu r MSR_REG_STAR = 0x10000800000000.
Proof. reflexivity. Qed.

(** The table of the boot loader. *)
Lemma stage2_gdt_segments boot0 boot : stage2_gdt boot0 = Ok boot ->
  exists b1 b2, take 3 boot = [0; b1; b2] /\ is_code64 0 b1 /\ is_data 0 b2.
Proof.
  unfold stage2_gdt, stage2_gdt_set_entry. intros (g1 & E1 & (g2 & E2 & E3)%obind_Ok)%obind_Ok.
  apply wr_Ok in E1 as [H1 ->]. apply wr_Ok in E2 as [H2 ->]. apply wr_Ok in E3 as [H3 ->]. rewrite !length_insert in *.
  destruct boot0 as [|x0 [|x1 [|x2 rest]]]; cbn [length] in H3; try lia.
  eexists _, _. split; [reflexivity|]. split; by vm_compute.
Qed.

(** The table of the kernel. *)
Lemma kernel_gdt_run b0 b1 b2 x3 x4 x5 x6 rest page boot tss : take 3 boot = [b0; b1; b2] -> drop 3 page = x3 :: x4 :: x5 :: x6 :: rest ->
  kernel_gdt page boot 3 tss = Ok ([b0; b1; b2; gdt_entry 0 UINT32_MAX 0xF2 0xA; gdt_entry 0 UINT32_MAX 0xFA 0xA; gdt_entry tss (sizeof_TSSEntry - 1) 0x89 0;
    Z.land (Z.shiftr tss 32) 0xFFFFFFFF] ++ rest).
Proof.
  intros Eb Ep. unfold kernel_gdt. change (Z.to_nat 3) with 3%nat. rewrite Eb, Ep. unfold gdt_set_entry, gdt_set_tss_entry. munfold.
  rewrite wr_in_range by (rewrite ?length_insert; cbn [app length]; lia). munfold. rewrite wr_in_range by (rewrite ?length_insert; cbn [app length]; lia). munfold. rewrite wr_in_range by (rewrite ?length_insert; cbn [app length]; lia). munfold.
  rewrite wr_in_range by (rewrite ?length_insert; cbn [app length]; lia). reflexivity.
Qed.

Lemma kernel_tss_descriptor tss : 0 <= tss < 2 ^ 64 ->
  let d := gdt_entry tss (sizeof_TSSEntry - 1) 0x89 0 in
  desc_access d = 0x89 /\ desc_limit d = sizeof_TSSEntry - 1 /\ desc_base d + Z.land (Z.shiftr tss 32) 0xFFFFFFFF * 2 ^ 32 = tss.
Proof.
  intros Ht d. destruct (gdt_entry_fields tss (sizeof_TSSEntry - 1) 0x89 0) as (Hb & Hl & Ha & _); [lia|vm_compute; intuition congruence|lia..|].
  split; [exact Ha|]. split; [exact Hl|]. unfold d. rewrite Hb. change 0xFFFFFFFF with (2 ^ 32 - 1). rewrite land_ones_mod, Z.shiftr_div_pow2 by lia. clear - Ht. dlia.
Qed.

(** A code and a data selector of a privilege level: they request that level, and what
    they select in the table is a 64-bit code and a data segment of that level. *)
Definition segments_of (gdt : list Z) (dpl code_sel data_sel : Z) : Prop :=
  exists code data, rd gdt (sel_index code_sel) = Ok code /\ rd gdt (sel_index data_sel) = Ok data /\
    is_code64 dpl code /\ is_data dpl data /\ sel_rpl code_sel = dpl /\ sel_rpl data_sel = dpl.

(** The table of the kernel on top of the one the boot loader hands over. *)
Lemma kernel_gdt_segments page boot0 boot tss : stage2_gdt boot0 = Ok boot -> length page = 512%nat -> 0 <= tss < 2 ^ 64 ->
  exists gdt tlo thi, kernel_gdt page boot 3 tss = Ok gdt /\ segments_of gdt 0 0x08 0x10 /\ segments_of gdt 3 0x23 0x1B /\
    rd gdt (sel_index kernel_tss_selector) = Ok tlo /\ rd gdt (sel_index kernel_tss_selector + 1) = Ok thi /\
    desc_access tlo = 0x89 /\ desc_limit tlo = sizeof_TSSEntry - 1 /\ desc_base tlo + thi * 2 ^ 32 = tss.
Proof.
  intros Hboot Hpage Htss. destruct (stage2_gdt_segments boot0 boot Hboot) as (b1 & b2 & Eb & H1 & H2).
  assert (exists x3 x4 x5 x6 rest, drop 3 page = x3 :: x4 :: x5 :: x6 :: rest) as (x3 & x4 & x5 & x6 & rest & Ep).
  { assert (length (drop 3 page) = 509%nat) as Hl by (rewrite length_drop; lia). destruct (drop 3 page) as [|x3 [|x4 [|x5 [|x6 rest]]]]; try discriminate Hl. eauto 10. }
  eexists _, _, _. split; [exact (kernel_gdt_run _ _ _ _ _ _ _ _ page boot tss Eb Ep)|].
  split; [exists b1, b2; do 2 (split; [reflexivity|]); by do 2 (split; [done|])|].
  split; [eexists _, _; do 2 (split; [reflexivity|]); split; [by vm_compute|]; split; by vm_compute|].
  do 2 (split; [reflexivity|]). by apply kernel_tss_descriptor.
Qed.

Lemma pat_init_correct_witness : pat_field (pat_init (fun _ => 0x0007040600070406) MSR_REG_PAT) <$> [0; 1; 2; 3; 4; 5; 6; 7] = [6; 4; 7; 0; 1; 5; 7; 0].
Proof. destruct (pat_init_correct (fun _ => 0x0007040600070406)) as [E _]; [lia|]. rewrite E. reflexivity. Defined.
