(* ===== verification/Lapic.v ===== *)
(** * The local interrupt controller and its timer

    [kernel/kernel/lapic.c], [include/kernel/lapic.h] and [include/kernel/mmio.h]: the
    registers of the local APIC, a page of device memory, and the calibration of its
    timer against the interval timer, which interrupts every 10 ms.  Accesses to device
    memory are the interface [DeviceMemory]; that the counter runs down while time
    passes is the class [LapicTimer], from the processor manual. *)
From Stdlib Require Import ZArith Lia.
From stdpp Require Import base tactics list numbers gmap.
From S2P Require Import Prelude Common Memory Interfaces Vmm KernelSetup.

Open Scope Z_scope.

Definition MMIO_VIRT_START : Z := 0xFFFF910000000000.
Definition MMIO_VIRT_LAPIC_START : Z := MMIO_VIRT_START.

Definition LAPIC_REG_EOI_OFFSET : Z := 0x0B0.
Definition LAPIC_REG_SPURIOUS_INT_VEC_OFFSET : Z := 0x0F0.
Definition LAPIC_REG_LVT_TIMER_OFFSET : Z := 0x320.
Definition LAPIC_REG_INITIAL_COUNT_OFFSET : Z := 0x380.
Definition LAPIC_REG_CURRENT_COUNT_OFFSET : Z := 0x390.
Definition LAPIC_REG_DIVIDE_CONFIG_OFFSET : Z := 0x3E0.
Definition LAPIC_TIMER_MODE_ONESHOT : Z := 0x00.
Definition LAPIC_TIMER_MODE_PERIODIC : Z := 0x01.
Definition LAPIC_TIMER_DIV_16 : Z := 3.
Definition LAPIC_TIMER_CALIBRATION_SAMPLES : Z := 10.

(** The fields of [CpuState] for the timer. *)
Record LapicState := {
  lapic : Z;
  lapic_calibrated : bool;
  lapic_timer_speed : Z;
  lapic_samples : Z;
}.

(** ** Set-up: the registers are mapped uncached, one page per processor *)
Section init.
Context {S : Type} `{PageAllocator S} (debug : bool).

Definition lapic_init (pml4 id : Z) (r : msrs) : M (vmm_state S) LapicState :=
  let lapic_cpu_offset := u64 (id * VMM_DEFAULT_PAGE_SIZE) in
  let lapic_msr := rdmsr r MSR_REG_LAPIC_BASE in
  let lapic_phys := Z.land lapic_msr 0xFFFFFFFF000 in
  _ ← vmm_map debug pml4 lapic_phys (u64 (MMIO_VIRT_LAPIC_START + lapic_cpu_offset)) (Z.lor VMM_FLAGS_KERNEL_DATA VMM_FLAGS_NO_CACHE);
  mret {| lapic := u64 (MMIO_VIRT_LAPIC_START + lapic_cpu_offset); lapic_calibrated := false; lapic_timer_speed := 0; lapic_samples := 0 |}.
End init.

(** ** Registers *)
Class DeviceMemory (D : Type) := {
  dev_read32 : Z -> M D Z;
  dev_write32 : Z -> Z -> M D unit;
}.

Section registers.
Context {D : Type} `{DeviceMemory D}.

Definition lapic_read_register (lapic offset : Z) : M D Z := dev_read32 (u64 (lapic + offset)).
Definition lapic_write_register (lapic offset value : Z) : M D unit := dev_write32 (u64 (lapic + offset)) value.

Definition lapic_eoi (lapic : Z) : M D unit := lapic_write_register lapic LAPIC_REG_EOI_OFFSET 0.

Definition lapic_enable_svr (lapic vector : Z) : M D unit :=
  lapic_write_register lapic LAPIC_REG_SPURIOUS_INT_VEC_OFFSET (Z.lor vector (Z.shiftl 1 8)).

Definition lapic_disable_svr (lapic : Z) : M D unit :=
  v ← lapic_read_register lapic LAPIC_REG_SPURIOUS_INT_VEC_OFFSET;
  lapic_write_register lapic LAPIC_REG_SPURIOUS_INT_VEC_OFFSET (Z.land v 0xFF).

Definition lapic_timer_set_counter (lapic counter : Z) : M D unit :=
  lapic_write_register lapic LAPIC_REG_INITIAL_COUNT_OFFSET counter.

Definition lapic_timer_init (lapic vector : Z) (masked : bool) (mode divisor : Z) : M D unit :=
  _ ← lapic_write_register lapic LAPIC_REG_DIVIDE_CONFIG_OFFSET divisor;
  lapic_write_register lapic LAPIC_REG_LVT_TIMER_OFFSET (Z.lor (Z.lor vector (Z.shiftl (Z.b2z masked) 16)) (u32 (Z.shiftl mode 17))).

Definition lapic_get_timer_counter (lapic : Z) : M D Z := lapic_read_register lapic LAPIC_REG_CURRENT_COUNT_OFFSET.

(** The handler of the interval timer during calibration. *)
Definition lapic_timer_calibrate (cpu : LapicState) : M D LapicState :=
  if lapic_samples cpu =? 0 then
    _ ← lapic_timer_set_counter (lapic cpu) UINT32_MAX;
    mret {| lapic := lapic cpu; lapic_calibrated := lapic_calibrated cpu; lapic_timer_speed := lapic_timer_speed cpu; lapic_samples := u32 (lapic_samples cpu + 1) |}
  else
  let samples := u32 (lapic_samples cpu + 1) in
  if LAPIC_TIMER_CALIBRATION_SAMPLES <=? samples then
    current_count ← lapic_read_register (lapic cpu) LAPIC_REG_CURRENT_COUNT_OFFSET;
    _ ← lapic_eoi (lapic cpu);
    mret {| lapic := lapic cpu; lapic_calibrated := true;
            lapic_timer_speed := u32 (UINT32_MAX - current_count) / (LAPIC_TIMER_CALIBRATION_SAMPLES - 1); lapic_samples := samples |}
  else mret {| lapic := lapic cpu; lapic_calibrated := lapic_calibrated cpu; lapic_timer_speed := lapic_timer_speed cpu; lapic_samples := samples |}.
End registers.

(** ** The timer *)

(** The timer of the controller at [base], in one-shot mode: [lt_elapse n] is the device
    after a time in which it counts [n] down. *)
Class LapicTimer (D : Type) `{DeviceMemory D} (base : Z) := {
  lt_ok : D -> Prop;
  lt_count : D -> Z;
  lt_elapse : Z -> D -> D;
  lt_start : forall d v, lt_ok d -> 0 <= v <= UINT32_MAX ->
    exists d', dev_write32 (base + LAPIC_REG_INITIAL_COUNT_OFFSET) v d = Ok (tt, d') /\ lt_ok d' /\ lt_count d' = v;
  lt_read : forall d, lt_ok d -> exists d', dev_read32 (base + LAPIC_REG_CURRENT_COUNT_OFFSET) d = Ok (lt_count d, d') /\ lt_ok d' /\ lt_count d' = lt_count d;
  lt_eoi : forall d, lt_ok d -> exists d', dev_write32 (base + LAPIC_REG_EOI_OFFSET) 0 d = Ok (tt, d') /\ lt_ok d';
  lt_runs : forall d n, lt_ok d -> 0 <= n -> lt_ok (lt_elapse n d) /\ lt_count (lt_elapse n d) = Z.max 0 (lt_count d - n);
}.

Section calibration.
Context {D : Type} `{DeviceMemory D} (base : Z) `{!LapicTimer D base} (Hbase : 0 <= base < 2 ^ 64 - 4096).

(** The interrupts of the interval timer, with the counts that pass before each. *)
Fixpoint calibration_ticks (periods : list Z) (cpu : LapicState) : M D LapicState :=
  match periods with
  | [] => mret cpu
  | c :: periods =>
      _ ← modify (lt_elapse (base := base) c);
      cpu ← lapic_timer_calibrate cpu;
      calibration_ticks periods cpu
  end.

Definition total (l : list Z) : Z := foldr Z.add 0 l.

Lemma total_nonneg l : Forall (fun c => 0 <= c) l -> 0 <= total l.
Proof. unfold total. induction 1; cbn; lia. Qed.

(** One interrupt that is neither the first nor the last. *)
Lemma calibrate_middle cpu d : 1 <= lapic_samples cpu < 9 ->
  lapic_timer_calibrate cpu d = Ok ({| lapic := lapic cpu; lapic_calibrated := lapic_calibrated cpu; lapic_timer_speed := lapic_timer_speed cpu;
    lapic_samples := lapic_samples cpu + 1 |}, d).
Proof.
  intros Hs. unfold lapic_timer_calibrate. rewrite (proj2 (Z.eqb_neq _ 0)), u32_id by lia. cbv zeta.
  rewrite (proj2 (Z.leb_gt _ _)) by (unfold LAPIC_TIMER_CALIBRATION_SAMPLES; lia). done.
Qed.

(** The last one. *)
Lemma calibrate_last cpu d acc : lapic cpu = base -> lapic_samples cpu = 9 -> lt_ok (base := base) d -> lt_count (base := base) d = UINT32_MAX - acc -> 0 <= acc <= UINT32_MAX ->
  exists d', lapic_timer_calibrate cpu d = Ok ({| lapic := base; lapic_calibrated := true; lapic_timer_speed := acc / 9; lapic_samples := 10 |}, d').
Proof.
  intros Hl Hs Hok Hc Hacc. unfold lapic_timer_calibrate. rewrite Hs, Hl. cbn [Z.eqb]. change (u32 (9 + 1)) with 10. cbv zeta. change (LAPIC_TIMER_CALIBRATION_SAMPLES <=? 10) with true. cbv iota.
  unfold lapic_read_register, lapic_eoi, lapic_write_register.
  rewrite (u64_id (base + LAPIC_REG_CURRENT_COUNT_OFFSET)), (u64_id (base + LAPIC_REG_EOI_OFFSET)) by (unfold LAPIC_REG_CURRENT_COUNT_OFFSET, LAPIC_REG_EOI_OFFSET; lia).
  destruct (lt_read d Hok) as (d1 & E1 & Hok1 & _). destruct (lt_eoi d1 Hok1) as (d2 & E2 & _).
  rewrite (bind_run _ _ _ _ _ E1), (bind_run _ _ _ _ _ E2). exists d2. rewrite Hc. replace (UINT32_MAX - (UINT32_MAX - acc)) with acc by lia.
  rewrite u32_id by (unfold UINT32_MAX in Hacc; lia). done.
Qed.

Lemma calibrate_tail l : forall cpu d acc, l <> [] -> lapic cpu = base -> 1 <= lapic_samples cpu -> lapic_samples cpu + Z.of_nat (length l) = 10 ->
  lt_ok (base := base) d -> lt_count (base := base) d = UINT32_MAX - acc -> 0 <= acc -> Forall (fun c => 0 <= c) l -> acc + total l <= UINT32_MAX ->
  exists d', calibration_ticks l cpu d = Ok ({| lapic := base; lapic_calibrated := true; lapic_timer_speed := (acc + total l) / 9; lapic_samples := 10 |}, d').
Proof.
  induction l as [|c l IH]; intros cpu d acc Hne Hl Hj Hlen Hok Hc Hacc Hpos Hsum; [done|]. apply list.Forall_cons in Hpos as [Hc0 Hpos].
  pose proof (total_nonneg l Hpos). unfold total in Hsum. cbn [foldr] in Hsum. fold (total l) in Hsum.
  destruct (lt_runs d c Hok Hc0) as [Hok1 Hc1]. rewrite Hc in Hc1. cbn [length] in Hlen.
  cbn [calibration_ticks]. rewrite (bind_run (modify _) _ _ tt (lt_elapse (base := base) c d) eq_refl). set (d1 := lt_elapse (base := base) c d) in *.
  destruct l as [|c' l'].
  - cbn [length] in Hlen. destruct (calibrate_last cpu d1 (acc + c)) as (d2 & E); [done|lia|done|lia|cbn in *; lia|].
    exists d2. rewrite (bind_run _ _ _ _ _ E). cbn [calibration_ticks total foldr]. by rewrite Z.add_0_r.
  - cbn [length] in Hlen. rewrite (bind_run _ _ _ _ _ (calibrate_middle cpu d1 ltac:(lia))).
    destruct (IH {| lapic := lapic cpu; lapic_calibrated := lapic_calibrated cpu; lapic_timer_speed := lapic_timer_speed cpu; lapic_samples := lapic_samples cpu + 1 |}
      d1 (acc + c)) as (d2 & E); cbn [lapic lapic_samples length]; try done; try lia.
    exists d2. rewrite E. replace (acc + total (c :: c' :: l')) with (acc + c + total (c' :: l')) by (unfold total; cbn [foldr]; lia). done.
Qed.

Lemma calibrate_waits l : forall cpu d, Forall (fun c => 0 <= c) l -> 1 <= lapic_samples cpu -> lapic_samples cpu + Z.of_nat (length l) < 10 ->
  exists cpu' d', calibration_ticks l cpu d = Ok (cpu', d') /\ lapic_calibrated cpu' = lapic_calibrated cpu.
Proof.
  induction l as [|c l IH]; intros cpu d Hpos Hj Hlen; [by exists cpu, d|]. apply list.Forall_cons in Hpos as [Hc0 Hpos]. cbn [length] in Hlen.
  cbn [calibration_ticks]. rewrite (bind_run (modify _) _ _ tt (lt_elapse (base := base) c d) eq_refl).
  rewrite (bind_run _ _ _ _ _ (calibrate_middle cpu _ ltac:(lia))).
  destruct (IH {| lapic := lapic cpu; lapic_calibrated := lapic_calibrated cpu; lapic_timer_speed := lapic_timer_speed cpu; lapic_samples := lapic_samples cpu + 1 |}
    (lt_elapse (base := base) c d)) as (cpu' & d' & E & Hcal); cbn [lapic_samples]; try done; try lia. exists cpu', d'. done.
Qed.

(** The first one starts the counter. *)
Lemma calibrate_first cpu d : lapic cpu = base -> lapic_samples cpu = 0 -> lt_ok (base := base) d ->
  exists d', lapic_timer_calibrate cpu d = Ok ({| lapic := base; lapic_calibrated := lapic_calibrated cpu; lapic_timer_speed := lapic_timer_speed cpu; lapic_samples := 1 |}, d') /\
    lt_ok (base := base) d' /\ lt_count (base := base) d' = UINT32_MAX.
Proof.
  intros Hl Hs Hok. unfold lapic_timer_calibrate. rewrite Hs, Hl. cbn [Z.eqb]. unfold lapic_timer_set_counter, lapic_write_register.
  rewrite (u64_id (base + LAPIC_REG_INITIAL_COUNT_OFFSET)) by (unfold LAPIC_REG_INITIAL_COUNT_OFFSET; lia).
  destruct (lt_start d UINT32_MAX Hok ltac:(unfold UINT32_MAX; lia)) as (d1 & E1 & Hok1 & Hc1). rewrite (bind_run _ _ _ _ _ E1). by exists d1.
Qed.

(** C25: the calibration ends with the tenth interrupt of the interval timer and not
    before, so that the loop of [kmain] that waits for it ends, and the speed it
    reports is the mean of the counts of the nine full periods between the interrupts,
    rounded down, when together they fit into the 32-bit counter. *)
Theorem lapic_calibration_correct (cpu : LapicState) (d : D) (c0 : Z) (periods : list Z)
  (Hlapic : lapic cpu = base) (Hnew : lapic_samples cpu = 0 /\ lapic_calibrated cpu = false)
  (Hok : lt_ok (base := base) d) (Hpos : 0 <= c0 /\ Forall (fun c => 0 <= c) periods)
  (Hnine : length periods = 9%nat) (Hfits : total periods <= UINT32_MAX) :
  (exists cpu' d', calibration_ticks (c0 :: periods) cpu d = Ok (cpu', d') /\ lapic_calibrated cpu' = true /\ lapic_timer_speed cpu' = total periods / 9) /\
  (forall n, (n < 9)%nat -> exists cpu' d', calibration_ticks (c0 :: take n periods) cpu d = Ok (cpu', d') /\ lapic_calibrated cpu' = false).
Proof.
  destruct Hpos as [Hc0 Hpos], Hnew as [Hs Hcal]. destruct (lt_runs d c0 Hok Hc0) as [Hok1 _].
  destruct (calibrate_first cpu _ Hlapic Hs Hok1) as (d1 & E1 & Hok2 & Hcnt).
  assert (forall l, calibration_ticks (c0 :: l) cpu d = calibration_ticks l {| lapic := base; lapic_calibrated := lapic_calibrated cpu;
    lapic_timer_speed := lapic_timer_speed cpu; lapic_samples := 1 |} d1) as Ehead.
  { intros l. cbn [calibration_ticks]. rewrite (bind_run (modify _) _ _ tt (lt_elapse (base := base) c0 d) eq_refl). by rewrite (bind_run _ _ _ _ _ E1). }
  split.
  - rewrite Ehead. destruct (calibrate_tail periods {| lapic := base; lapic_calibrated := lapic_calibrated cpu; lapic_timer_speed := lapic_timer_speed cpu;
      lapic_samples := 1 |} d1 0) as (d2 & E2); cbn [lapic lapic_samples]; try done; try lia; [by intros ->|].
    rewrite E2. eexists _, d2. split; [reflexivity|]. split; [reflexivity|]. by rewrite Z.add_0_l.
  - intros n Hn. rewrite Ehead. destruct (calibrate_waits (take n periods) {| lapic := base; lapic_calibrated := lapic_calibrated cpu;
      lapic_timer_speed := lapic_timer_speed cpu; lapic_samples := 1 |} d1) as (cpu' & d' & E & Hc); cbn [lapic_samples lapic_calibrated] in *; try done.
    + by apply Forall_take.
    + rewrite length_take. lia.
    + exists cpu', d'. split; [done|]. by rewrite Hc.
Qed.
End calibration.

(** ** A concrete timer *)

Record timer := Timer { t_count : Z; t_log : list (Z * Z) }.

#[export] Instance timer_memory : DeviceMemory timer := {|
  dev_read32 a := fun t => Ok (t_count t, t);
  dev_write32 a v := fun t => Ok (tt, if a =? MMIO_VIRT_LAPIC_START + LAPIC_REG_INITIAL_COUNT_OFFSET then Timer v ((a, v) :: t_log t) else Timer (t_count t) ((a, v) :: t_log t));
|}.

#[export] Program Instance timer_lapic : LapicTimer timer MMIO_VIRT_LAPIC_START := {|
  lt_ok _ := True;
  lt_count := t_count;
  lt_elapse n t := Timer (Z.max 0 (t_count t - n)) (t_log t);
|}.
Next Obligation. intros t v _ Hv. eexists. split; [reflexivity|]. done. Qed.
Next Obligation. intros t _. exists t. done. Qed.
Next Obligation. intros t _. eexists. split; [reflexivity|]. done. Qed.
Next Obligation. done. Qed.

Lemma lapic_calibration_correct_witness :
  exists cpu' d', calibration_ticks MMIO_VIRT_LAPIC_START (7 :: replicate 9 62500)
    {| lapic := MMIO_VIRT_LAPIC_START; lapic_calibrated := false; lapic_timer_speed := 0; lapic_samples := 0 |} (Timer 0 []) = Ok (cpu', d') /\
  lapic_timer_speed cpu' = 62500.
Proof.
  destruct (lapic_calibration_correct MMIO_VIRT_LAPIC_START ltac:(vm_compute; intuition congruence)
    {| lapic := MMIO_VIRT_LAPIC_START; lapic_calibrated := false; lapic_timer_speed := 0; lapic_samples := 0 |} (Timer 0 []) 7 (replicate 9 62500)) as [(cpu' & d' & E & _ & Hs) _].
  - reflexivity.
  - split; reflexivity.
  - exact I.
  - split; [lia|]. apply Forall_replicate. lia.
  - reflexivity.
  - vm_compute. congruence.
  - exists cpu', d'. split; [exact E|]. rewrite Hs. reflexivity.
Defined.
