(* ===== verification/KernelLaunch.v ===== *)
(** * Kernel start: the file system and the first processes

    The last phases of [kmain] ([kernel/kernel.c]): the header of the file system, the
    two processes of the kernel itself, and the first program, "/bin/hello.elf", from its
    path to a process the scheduler can run.  The composition goes through the file
    system, the checksum, the ELF loader, the page tables and [process_create].

    The records come from [kmalloc] and the buffers from the arena; both are arguments
    here, with the contents they happen to have.  Opening the file touches the disk only,
    so the memory these phases start from is the one [kmalloc] left. *)
From S2P Require Import Prelude Common Memory Interfaces Bitmap Pmm Vmm Crc32 CString BsfsTypes BsfsFile BsfsRead BsfsPopulate BsfsTheorems BsfsPath Process.
From Stdlib Require Import ZArith Lia.
From stdpp Require Import base tactics list numbers gmap.
From S2P Require Import PageTables VmmProofs VmmTheorems KernelMemory Isolation AddressSpace ProcessSpace Elf ElfTheorems Stage2.

Open Scope Z_scope.

(** ** The code *)

Lemma program_region : page_region 0 (2 ^ 47).
Proof. vm_compute. intuition congruence. Qed.

Definition hello_name : list (list Z) := [[98; 105; 110]; [104; 101; 108; 108; 111; 46; 101; 108; 102]].
Definition hello_path : list Z := [47; 98; 105; 110; 47; 104; 101; 108; 108; 111; 46; 101; 108; 102].

Section code.
Context {D S : Type} `{PageAllocator S} (debug : bool).
Abbreviation machine := (D * vmm_state S)%type.

(** The header is read through a buffer of one sector, [tmp_diskbuf]. *)
Definition kernel_bsfs_init (ops : DiskOpsVtable D) (tmp_diskbuf : list Z) : M machine (BsfsContext D) :=
  let bsfs_offset := u32 (PRISTINE_BSFS_OFFSET * 4096) in
  '(ok, bytes) ← on_disk (disk_read ops (bsfs_offset / 512) 1);
  if negb ok then panic else
  let hdr := parse_header (filled tmp_diskbuf bytes) in
  if negb (block_size hdr =? PRISTINE_BSFS_BLOCKSIZE) then panic else
  _ ← on_memory (with_alloc pa_alloc);
  mret {| header := hdr; disk_ops := ops; phys_sector_size := 512; scratch_buf_capacity := 4096 |}.

(** A process of the kernel: the idle loop, the reaper. *)
Definition kmain_kernel_process (process : Process) (pid' entry' kernel_pml4 : Z) : M (vmm_state S) Process :=
  process_pml4_phys ← with_alloc pa_alloc;
  let process_pml4 := phys_to_virt process_pml4_phys in
  _ ← tbl_zero process_pml4;
  process_create debug process pid' entry' 0x08 0x10 0x200 0 0
    PROCESS_VIRT_KERNEL_STACK_TOP PROCESS_DEFAULT_KERNEL_STACK_SIZE process_pml4 process_pml4_phys kernel_pml4.

(** [kernel_idle] and [reaper_run] are the addresses of the functions. *)
Definition kmain_idle_process (process : Process) (kernel_idle kernel_pml4 : Z) : M (vmm_state S) Process :=
  kmain_kernel_process process 0 kernel_idle kernel_pml4.

Definition kmain_reaper_process (process : Process) (reaper_run kernel_pml4 : Z) : M (vmm_state S) Process :=
  kmain_kernel_process process 1 reaper_run kernel_pml4.

(** The file, checked and rewound.  [fuel] bounds the blocks of the checksum loop. *)
Definition kmain_open_program (bsfs : BsfsContext D) (fuel : nat) (file : BsfsFile) : M D BsfsFile :=
  '(bsfs_result, file) ← bsfs_fopen bsfs hello_path file;
  if bsfs_result <? 0 then panic else
  '(bsfs_result, file) ← bsfs_verify_checksum bsfs fuel file VMM_DEFAULT_PAGE_SIZE;
  if bsfs_result <? 0 then panic else
  '(_, file) ← lift (bsfs_fseeko file 0 BSFS_FSEEKO_SET);
  mret file.

(** The page map of the program with its segments, the end of the highest one, and the
    header of the file. *)
Definition kmain_load_program (bsfs : BsfsContext D) (file : BsfsFile) (hello_ehdr : list Z) (stack : Z -> list Z)
    : M machine (Z * Z * Elf64Ehdr) :=
  hello_pml4_phys ← on_memory (with_alloc pa_alloc);
  _ ← on_memory (tbl_zero (phys_to_virt hello_pml4_phys));
  '(elf_load_result, hello_ehdr, _) ←
    elf64_load_executable (H0 := vmm_kernel_memory debug hello_pml4_phys 0 (2 ^ 47) program_region) bsfs file hello_ehdr stack;
  if result elf_load_result <? 0 then panic else
  mret (hello_pml4_phys, top elf_load_result, parse_ehdr hello_ehdr).

(** The page behind the program stays unmapped; the heap starts after it. *)
Definition with_heap (process : Process) (start : Z) : Process :=
  {| pml4 := pml4 process; pml4_phys := pml4_phys process; pid := pid process; Process.entry := Process.entry process;
     stack_top := stack_top process; kernel_stack_top := kernel_stack_top process; stack_size := stack_size process;
     kernel_stack_size := kernel_stack_size process; brk_start := start; brk := start; exit_code := exit_code process;
     context := context process; state := state process |}.

Definition kmain_create_program (process : Process) (hello_pml4_phys top_ entry' kernel_pml4 : Z) : M (vmm_state S) Process :=
  process_create debug (with_heap process (u64 (top_ + 0x1000))) 100 entry' 0x23 0x1B 0x200
    PROCESS_VIRT_STACK_TOP PROCESS_DEFAULT_STACK_SIZE PROCESS_VIRT_KERNEL_STACK_TOP PROCESS_DEFAULT_KERNEL_STACK_SIZE
    (phys_to_virt hello_pml4_phys) hello_pml4_phys kernel_pml4.

Definition kmain_launch (bsfs : BsfsContext D) (fuel : nat) (file : BsfsFile) (hello_ehdr : list Z) (stack : Z -> list Z)
    (process : Process) (kernel_pml4 : Z) : M machine Process :=
  file ← on_disk (kmain_open_program bsfs fuel file);
  '(hello_pml4_phys, top_, hello_ehdr) ← kmain_load_program bsfs file hello_ehdr stack;
  on_memory (kmain_create_program process hello_pml4_phys top_ (e_entry hello_ehdr) kernel_pml4).
End code.

(** ** Lemmas *)

(** The header is read from the first 512 bytes. *)
Lemma parse_header_front bs rest : (512 <= length bs)%nat -> parse_header (bs ++ rest) = parse_header bs.
Proof.
  intros Hl. unfold parse_header, parse_le, parse_bytes. rewrite !drop_drop. cbn [Nat.add].
  rewrite !drop_app_le by lia. rewrite !take_app_le by (rewrite ?length_drop; lia). reflexivity.
Qed.

(** The set-up of the file system gives the context that the launch needs, and panics on a
    header with another block size. *)
Lemma bsfs_init_run {D S : Type} `{PageAllocator S} (ops : DiskOpsVtable D) (image : list Z) (good : D -> Prop) (tmp : list Z) (d : D) (st : vmm_state S) p st' :
  disk_serves ops image good -> good d -> 66048 <= Z.of_nat (length image) <= 2 ^ 32 -> with_alloc pa_alloc st = Ok (p, st') ->
  let hdr := parse_header (slice image 65536 512) in
  exists d', good d' /\
    if block_size hdr =? 4096
    then exists bsfs, kernel_bsfs_init ops tmp (d, st) = Ok (bsfs, (d', st')) /\ header bsfs = hdr /\ geometry bsfs image good /\ 4096 <= scratch_buf_capacity bsfs
    else kernel_bsfs_init ops tmp (d, st) = Panic.
Proof.
  intros Hs Hd Hlen Ha hdr. destruct (Hs d 128 1 Hd) as (d' & E & Hd'); [lia..|]. exists d'. split; [done|].
  change (128 * 512) with 65536 in E. change (1 * 512) with 512 in E.
  assert (parse_header (filled tmp (slice image 65536 512)) = hdr) as Eh.
  { unfold filled, hdr. assert (length (slice image 65536 512) = 512%nat) as Hl by (unfold slice; rewrite length_take, length_drop; lia).
    revert Hl. generalize (slice image 65536 512). intros bs Hl. apply parse_header_front. rewrite Hl. lia. }
  unfold kernel_bsfs_init. change (u32 (PRISTINE_BSFS_OFFSET * 4096) / 512) with 128. rewrite (bind_run _ _ _ _ _ (on_disk_run _ d st _ d' E)). cbn [negb]. cbv iota zeta.
  rewrite Eh. change PRISTINE_BSFS_BLOCKSIZE with 4096. destruct (Z.eqb_spec (block_size hdr) 4096) as [Hb|Hb]; cbn [negb]; [|done].
  rewrite (bind_run _ _ _ _ _ (on_memory_run _ d' st p st' Ha)). eexists. split; [reflexivity|]. split; [reflexivity|]. split; [|cbn; lia]. split; try done. cbn. lia.
Qed.

Section opening.
Context {D : Type} (bsfs : BsfsContext D) (image : list Z) (good : D -> Prop).
Context (Hgeo : geometry bsfs image good) (Hscratch : 4096 <= scratch_buf_capacity bsfs).

(** The program on the disk: its directories are intact, its path leads to a regular file
    on the image, and its checksum is right. *)
Record program_at (idx : Z) : Prop := ProgramAt {
  pr_dirs : dirs_on_path image (header bsfs) (root_inode (header bsfs)) hello_name;
  pr_found : lookup_path image (header bsfs) (root_inode (header bsfs)) hello_name = Some idx;
  pr_index : idx <> UINT32_MAX /\ inode_in_image image (header bsfs) idx;
  pr_type : type (inode_at image (header bsfs) idx) = BSFS_INODE_TYPE_FILE;
  pr_blocks : inode_on_disk image (inode_at image (header bsfs) idx);
}.

Lemma hello_names : Forall component_ok hello_name.
Proof using Type.
  repeat constructor; try lia; discriminate.
Qed.

Lemma fopen_hello idx f d : program_at idx -> buffers_ok f -> good d ->
  exists d', bsfs_fopen bsfs hello_path f d = Ok ((0, opened f (inode_at image (header bsfs) idx)), d') /\ good d'.
Proof using Hgeo Hscratch.
  intros [Hdirs Hl Hidx Hty _] (_ & Hs & _) Hd.
  destruct (fopen_run bsfs image good hello_name f d Hgeo Hscratch Hd) as (code & f' & d' & E & Hd' & Hm); [done|apply hello_names|done| |].
  { intros i Hi. rewrite Hl in Hi. by injection Hi as <-. }
  rewrite Hl in Hm. destruct Hm as [-> Hf]. unfold fopen_code in *. rewrite Hty, Hs in *. exists d'. split; [|done].
  change hello_path with (join_path hello_name). rewrite E. by rewrite <- (Hf eq_refl).
Qed.

Lemma open_program_run idx fuel f d : program_at idx -> buffers_ok f -> good d ->
  let ino := inode_at image (header bsfs) idx in
  BsfsTypes.size ino / 4096 + 1 < Z.of_nat fuel ->
  if crc32 (file_content image ino) =? checksum ino
  then exists f' d', kmain_open_program bsfs fuel f d = Ok (f', d') /\ good d' /\ file_ok image ino f' /\ position f' = 0
  else kmain_open_program bsfs fuel f d = Panic.
Proof using Hgeo Hscratch.
  intros Hpr Hb Hd ino Hfuel. pose proof (pr_blocks _ Hpr) as Hino. fold ino in Hino. unfold kmain_open_program.
  destruct (fopen_hello idx f d Hpr Hb Hd) as (d1 & E1 & Hd1). fold ino in E1. rewrite (bind_run _ _ _ _ _ E1). change (0 <? 0) with false. cbv iota.
  destruct (verify_checksum_run bsfs image good ino (opened f ino) d1 fuel) as (f2 & d2 & E2 & Hd2 & Hf2); [done|done|done|by apply (opened_ok image)|done|done|].
  change VMM_DEFAULT_PAGE_SIZE with 4096. rewrite (bind_run _ _ _ _ _ E2).
  destruct (crc32 (file_content image ino) =? checksum ino); [|done]. change (1 <? 0) with false. cbv iota.
  pose proof (iod_size _ _ Hino). destruct (seek_run image ino f2 0 Hf2) as (f3 & E3 & Hf3 & Hp3); [lia|]. exists f3, d2.
  rewrite (bind_run (lift _) _ _ (0, f3) d2) by (by rewrite E3). done.
Qed.
End opening.

Section loading.
Context {S : Type} `{PageAllocator S} (debug : bool).
Implicit Types (T Tk : gmap Z nat) (st : vmm_state S).

(** A page map whose tables still hold what they held. *)
Lemma as_wf_kept Tk st st' kroot : as_wf Tk st kroot -> pa_wf (vs_alloc st') -> mem_ok (vs_ram st') ->
  (forall p n, Tk !! p = Some n -> ~ pa_is_free (vs_alloc st') p /\ forall o, 0 <= o < 4096 -> vs_ram st' (p + o) = vs_ram st (p + o)) ->
  as_wf Tk st' kroot /\ (forall p n j, Tk !! p = Some n -> 0 <= j < 512 -> PageTables.entry (vs_ram st') p j = PageTables.entry (vs_ram st) p j).
Proof using Type.
  intros [_ _ Hroot Ht Hen Hin] Hal Hm Hk.
  assert (forall p n j, Tk !! p = Some n -> 0 <= j < 512 -> PageTables.entry (vs_ram st') p j = PageTables.entry (vs_ram st) p j) as He.
  { intros p n j Hp Hj. apply load64_ext. intros x Hx. replace x with (p + (x - p)) by lia. apply (Hk p n Hp). lia. }
  split; [|done]. split; try done.
  - intros p n Hp. destruct (Ht p n Hp) as (? & _ & ?). split; [done|]. split; [by eapply Hk|done].
  - intros p n i Hp Hi. rewrite (He p n i Hp Hi). by apply Hen.
  - intros p n i p' n' i' Hp Hp' Hn Hn' Hi Hi'. rewrite (He p n i), (He p' n' i') by done. by apply Hin.
Qed.

Lemma walk_kept Tk st st' kroot v : as_wf Tk st kroot ->
  (forall p n j, Tk !! p = Some n -> 0 <= j < 512 -> PageTables.entry (vs_ram st') p j = PageTables.entry (vs_ram st) p j) ->
  walk (vs_ram st') 4 kroot v = walk (vs_ram st) 4 kroot v.
Proof using Type.
  intros Hwf He. cbn [walk]. rewrite (He kroot 4%nat) by (apply Hwf || apply level_idx_range).
  destruct (present _) eqn:Epr; [|done]. cbn [negb]. destruct (is_leaf _ _) eqn:El; [done|].
  apply (walk_below Tk st kroot (vs_ram st') v Hwf (fun p n j Hp _ => He p n j Hp) 3); [lia|]. apply (link_target Tk st kroot kroot 4); [done|apply Hwf|apply level_idx_range|].
  unfold is_link. by rewrite Epr, El.
Qed.

(** An empty page map in a fresh page. *)
Lemma fresh_map b st : pa_wf (vs_alloc st) -> mem_ok (vs_ram st) -> free_at_least b st -> (1 <= b)%nat ->
  exists root st0 st1, with_alloc pa_alloc st = Ok (root, st0) /\ tbl_zero (phys_to_virt root) st0 = Ok (tt, st1) /\
    is_page root /\ pa_is_free (vs_alloc st) root /\ vrep root 0 (2 ^ 47) {[root := 4%nat]} st1 (Window ∅ ∅ (fun _ => 0) (b - 1)) /\
    guard (fun g => is_page g /\ ~ pa_is_free (vs_alloc st) g) st {[root := 4%nat]} st1 (Window ∅ ∅ (fun _ => 0) (b - 1)).
Proof using Type.
  intros Hal Hm Hb Hb1. destruct (pa_alloc_spec (vs_alloc st) Hal) as [(p & al & Hrun & Hal' & Hp & Hfr & Hmg)|[_ Hno]].
  2: { destruct Hb as ([|q l] & _ & Hl & Hl'); cbn in Hl; [lia|]. apply list.Forall_cons in Hl' as [Hq _]. by destruct (Hno q). }
  assert (is_page p) as Hpg by (apply (pa_managed_page _ p Hal), (pa_free_managed _ p Hal), Hp).
  exists p, (VmmState al (vs_ram st)), (VmmState al (fill (vs_ram st) p 4096 0)). split; [unfold with_alloc; by rewrite Hrun|].
  split; [by rewrite tbl_zero_run|]. split; [done|]. split; [done|]. split; split; cbn [w_pages w_owned w_view w_budget vs_alloc vs_ram].
  - apply fresh_wf; try done. rewrite Hfr. tauto.
  - intros v q Hq. by rewrite lookup_empty in Hq.
  - intros v _ _ _. apply walk_fresh.
  - intros q Hq. by apply not_elem_of_empty in Hq.
  - intros v v' q Hq. by rewrite lookup_empty in Hq.
  - intros a q Hq. by rewrite lookup_empty in Hq.
  - apply (free_shrink st _ b 1 {[p]}); [done|by rewrite size_singleton|]. cbn [vs_alloc]. intros q Hq Hne. apply Hfr. set_solver.
  - intros g [Hg Hnf]. split; [done|]. split; [rewrite Hfr; tauto|]. split; [|apply not_elem_of_empty].
    apply lookup_singleton_None. by intros ->.
  - intros g o [Hg Hnf] Ho. assert (g <> p) as Hne by (by intros ->). pose proof (page_apart g p (g + o) Hg Hpg Hne ltac:(lia)).
    apply fill_out. lia.
Qed.

(** A map built without touching what was in use, beside the kernel's. *)
Lemma guard_separate before root T st w Tk kroot : vrep root 0 (2 ^ 47) T st w ->
  guard (fun g => is_page g /\ ~ pa_is_free (vs_alloc before) g) before T st w -> as_wf Tk before kroot ->
  separate T Tk st root kroot /\ (forall p n j, Tk !! p = Some n -> 0 <= j < 512 -> PageTables.entry (vs_ram st) p j = PageTables.entry (vs_ram before) p j).
Proof using Type.
  intros Hr [Hgp Hgr] Hk. pose proof (vr_wf _ _ _ _ _ _ Hr) as Hwf.
  assert (forall p n, Tk !! p = Some n -> is_page p /\ ~ pa_is_free (vs_alloc before) p) as HG by (intros p n Hp; by apply (wf_table _ _ _ Hk) in Hp as (? & ? & _)).
  destruct (as_wf_kept Tk before st kroot Hk) as [Hk' He]; [apply Hwf|apply Hwf| |].
  { intros p n Hp%HG. split; [by apply Hgp|]. intros o Ho. by apply Hgr. }
  split; [|done]. split; [done|done|]. apply map_disjoint_spec. intros p n n' HT Hp%HG. destruct (Hgp p Hp) as (_ & _ & E & _). congruence.
Qed.

(** A process of the kernel runs on its own kernel stack and sees the kernel's half. *)
Lemma kernel_process_run Tk kroot st b process pid' entry' : as_wf Tk st kroot ->
  (forall j, 0 <= j < 256 \/ j = 510 -> PageTables.entry (vs_ram st) kroot j = 0) -> free_at_least b st -> (17 <= b)%nat ->
  exists p' root st', kmain_kernel_process debug process pid' entry' (phys_to_virt kroot) st = Ok (p', st') /\
    pml4 p' = phys_to_virt root /\ rip (context p') = entry' /\ rsp (context p') = PROCESS_VIRT_KERNEL_STACK_TOP /\ state p' = PROCESS_READY /\
    (forall v, level_idx 4 v < 256 -> walk (vs_ram st') 4 root v = None) /\
    (forall v, 256 <= level_idx 4 v -> level_idx 4 v <> 510 -> walk (vs_ram st') 4 root v = walk (vs_ram st) 4 kroot v) /\
    (forall v, walk (vs_ram st') 4 kroot v = walk (vs_ram st) 4 kroot v).
Proof using Type.
  intros Hk Hempty Hb Hb17. destruct (fresh_map b st (wf_alloc _ _ _ Hk) (wf_ram _ _ _ Hk) Hb ltac:(lia)) as (root & st0 & st1 & E0 & E1 & Hpg & _ & Hr & Hg).
  destruct (guard_separate st root _ st1 _ Tk kroot Hr Hg Hk) as [Hsep He].
  assert (forall j, 0 <= j < 256 \/ j = 510 -> PageTables.entry (vs_ram st1) kroot j = 0) as Hempty1.
  { intros j Hj. rewrite (He kroot 4%nat j) by (apply Hk || lia). by apply Hempty. }
  assert (stack_ok st1 root 0 0) as Hst by (by left).
  destruct (process_create_run debug _ Tk root kroot st1 (b - 1) process pid' entry' 0x08 0x10 0x200 0 0 root Hsep (Hempty1 510 ltac:(lia)) Hst
    (vr_budget _ _ _ _ _ _ Hr)) as (p' & m' & U & K & st' & E2 & HU & HK & Hcp & HB & Hp'); [change (stack_count 0) with 0%nat; lia|].
  exists p', root, st'. split; [|split; [apply Hp'|split; [apply Hp'|split; [apply Hp'|split; [apply Hp'|split; [|split]]]]]].
  - unfold kmain_kernel_process. rewrite (bind_run _ _ _ _ _ E0), (bind_run _ _ _ _ _ E1). exact E2.
  - intros v Hv. rewrite (bd_walk _ _ _ _ _ _ _ HB), created_user; [|done..|by rewrite HU; change (stack_count 0) with 0%nat; lia].
    unfold tbl_zero in E1. injection E1 as <-. rewrite virt_phys_roundtrip by (destruct Hpg; lia). apply walk_fresh.
  - intros v Hup Hne. rewrite (bd_walk _ _ _ _ _ _ _ HB), created_kernel by done. by apply (walk_kept Tk).
  - intros v. rewrite (created_kernel_walk _ Tk root kroot _ _ st1 m' U K _ st' Hsep Hcp HB v Hempty1 Hst HU HK). by apply (walk_kept Tk).
Qed.
End loading.

Section launching.
Context {D S : Type} `{PageAllocator S} (debug : bool) (bsfs : BsfsContext D) (image : list Z) (good : D -> Prop).
Context (Hgeo : geometry bsfs image good) (Hbytes : bytes_ok image).
Context (ino : BsfsInode) (Hino : inode_on_disk image ino).
Implicit Types (T Tk : gmap Z nat) (st : vmm_state S).

(** The header of the file, and the pages and addresses its segments take. *)
Let hdr := file_ehdr image ino.
Definition program_pages : nat := pages_needed image ino hdr (Z.to_nat (e_phnum hdr)) 0.
Definition program_top : Z := top_of image ino hdr (Z.to_nat (e_phnum hdr)) 0 0.

(** A valid executable, clear of the stack. *)
Record executable : Prop := Executable {
  ex_size : 64 <= BsfsTypes.size ino;
  ex_header : check_ehdr hdr = None;
  ex_phdrs : phdrs_ok (lo := 0) (hi := 2 ^ 47) image ino hdr 0 (e_phnum hdr);
  ex_stack : forall j v, 0 <= j < e_phnum hdr -> loadable image ino hdr j -> in_segment (nth_phdr image ino hdr j) v ->
    ~ PROCESS_VIRT_STACK_TOP - PROCESS_DEFAULT_STACK_SIZE <= v < PROCESS_VIRT_STACK_TOP;
}.

(** The page map of the program before its process exists. *)
Record program_loaded (before : vmm_state S) (b : nat) (root : Z) T st (w : window) : Prop := ProgramLoaded {
  ld_rep : vrep root 0 (2 ^ 47) T st w;
  ld_settled : settled w;
  ld_guard : guard (fun g => is_page g /\ ~ pa_is_free (vs_alloc before) g) before T st w;
  ld_root : pa_is_free (vs_alloc before) root;
  ld_segments : segments_loaded image ino hdr 0 (e_phnum hdr) (Window ∅ ∅ (fun _ => 0) (b - 1)) w;
  ld_budget : (b <= w_budget w + 1 + 4 * program_pages)%nat;
}.

Lemma load_program_run f out stack d st b : executable -> good d -> file_ok image ino f -> position f = 0 ->
  pa_wf (vs_alloc st) -> mem_ok (vs_ram st) -> free_at_least b st -> (1 + 4 * program_pages <= b)%nat ->
  exists root d' T st' w, kmain_load_program debug bsfs f out stack (d, st) = Ok ((root, program_top, hdr), (d', st')) /\ good d' /\
    program_loaded st b root T st' w.
Proof using Hgeo Hbytes Hino.
  intros [Hsz Hhdr Hph _] Hd Hf Hpos Hal Hm Hb Hbud. destruct (fresh_map b st Hal Hm Hb ltac:(lia)) as (root & st0 & st1 & E0 & E1 & Hpg & Hfree & Hrep & Hg).
  set (G := fun g => is_page g /\ ~ pa_is_free (vs_alloc st) g) in *. set (w := Window ∅ ∅ (fun _ => 0) (b - 1)) in *.
  destruct (elf64_load_run (H0 := guarded_memory debug root 0 (2 ^ 47) program_region G st) bsfs image good ino Hgeo Hino Hbytes
    (conj program_region (Z.le_refl _)) f out stack d st1 w) as (f' & d' & st2 & w' & E2 & Hd' & (T & Hr' & Hg') & Hset & Hbud' & Hsl).
  { done. } { done. } { done. } { done. } { exact Hhdr. } { exact Hph. } { by exists {[root := 4%nat]}. }
  { intros v p Hv. cbn [w_pages w] in Hv; by rewrite lookup_empty in Hv. } { change (w_budget w) with (b - 1)%nat. fold hdr program_pages. lia. } { intros. apply lookup_empty. }
  exists root, d', T, st2, w'. split; [|split; [done|]].
  - unfold kmain_load_program. rewrite (bind_run _ _ _ _ _ (on_memory_run _ d st root st0 E0)), (bind_run _ _ _ _ _ (on_memory_run _ d st0 tt st1 E1)).
    rewrite (bind_run _ _ (d, st1) _ (d', st2) E2). cbn [result]. change (1 <? 0) with false. cbv iota. cbn [top].
    rewrite parse_ehdr_filled by (apply Nat2Z.inj; rewrite length_file_bytes; lia). done.
  - split; try done. change (w_budget w) with (b - 1)%nat in Hbud'. unfold program_pages. fold hdr in Hbud'. lia.
Qed.

(** The end of the highest segment. *)
Lemma top_of_bounds n : forall k t, 0 <= t <= 2 ^ 47 ->
  (forall j, k <= j < k + Z.of_nat n -> loadable image ino hdr j -> p_vaddr (nth_phdr image ino hdr j) + 4096 * seg_pages (nth_phdr image ino hdr j) <= 2 ^ 47) ->
  t <= top_of image ino hdr n k t <= 2 ^ 47 /\
  (forall j x, k <= j < k + Z.of_nat n -> loadable image ino hdr j -> in_segment (nth_phdr image ino hdr j) x -> x < top_of image ino hdr n k t).
Proof using Type.
  induction n as [|n IH]; intros k t Ht Hseg; cbn [top_of]; [split; [lia|intros; lia]|].
  set (t' := if p_type (nth_phdr image ino hdr k) =? PT_LOAD then _ else t).
  assert (t <= t' <= 2 ^ 47 /\ (loadable image ino hdr k -> forall x, in_segment (nth_phdr image ino hdr k) x -> x < t')) as [Ht' Hk].
  { unfold t', loadable, in_segment. specialize (Hseg k ltac:(lia)). unfold loadable in Hseg. destruct (Z.eqb_spec (p_type (nth_phdr image ino hdr k)) PT_LOAD).
    - specialize (Hseg ltac:(done)). split; [lia|]. intros _ x Hx. lia.
    - split; [lia|done]. }
  destruct (IH (k + 1) t') as [Hle Hlt]; [lia|intros j Hj; apply Hseg; lia|]. split; [lia|]. intros j x Hj Hl Hx.
  destruct (decide (j = k)) as [->|]; [specialize (Hk Hl x Hx); lia|]. apply (Hlt j x); [lia|done..].
Qed.

Lemma heap_above j x : executable -> 0 <= j < e_phnum hdr -> loadable image ino hdr j -> in_segment (nth_phdr image ino hdr j) x ->
  x + 0x1000 < u64 (program_top + 0x1000).
Proof using Hino.
  intros Hex Hj Hl Hx. destruct (top_of_bounds (Z.to_nat (e_phnum hdr)) 0 0 ltac:(lia)) as [Hle Hlt].
  { intros i Hi Hli. rewrite Z2Nat.id in Hi by lia. apply (segment_range (lo := 0) (hi := 2 ^ 47) ino (conj program_region (Z.le_refl _))). apply (po_segments _ _ _ _ _ (ex_phdrs Hex)); [lia|done]. }
  specialize (Hlt j x ltac:(lia) Hl Hx). unfold program_top. rewrite u64_id by lia. lia.
Qed.

(** The program and the kernel have separate tables, and the kernel's are as before. *)
Lemma loaded_separate before b root T st w Tk kroot : program_loaded before b root T st w -> as_wf Tk before kroot ->
  separate T Tk st root kroot /\ (forall p n j, Tk !! p = Some n -> 0 <= j < 512 -> PageTables.entry (vs_ram st) p j = PageTables.entry (vs_ram before) p j).
Proof using Type. intros [Hr _ Hg _ _ _] Hk. by apply (guard_separate before root T st w). Qed.

Lemma loaded_stack before b root T st w : executable -> program_loaded before b root T st w ->
  stack_ok st root PROCESS_VIRT_STACK_TOP PROCESS_DEFAULT_STACK_SIZE.
Proof using Type.
  intros Hex [Hr _ _ _ Hsl _]. right. do 3 (split; [vm_compute; intuition congruence|]). split; [vm_compute; discriminate|].
  change (PROCESS_DEFAULT_STACK_SIZE / 4096) with 512. change (PROCESS_VIRT_STACK_TOP - PROCESS_DEFAULT_STACK_SIZE) with 0x7FFFFFDFA000. intros k Hk.
  apply (vr_unmapped _ _ _ _ _ _ Hr); [unfold in_region; lia|dlia|].
  destruct (w_pages w !! _) as [p|] eqn:E; [|done]. exfalso.
  destruct (proj1 (sl_pages _ _ _ _ _ _ _ Hsl _) (ex_intro _ p E)) as [[q Hq]|(j & Hj & Hl & _ & Hx)]; [cbn [w_pages] in Hq; by rewrite lookup_empty in Hq|].
  apply (ex_stack Hex j _ Hj Hl Hx). change PROCESS_VIRT_STACK_TOP with 0x7FFFFFFFA000. change PROCESS_DEFAULT_STACK_SIZE with 0x200000. lia.
Qed.

(** The byte a process with page map [root] sees at an address. *)
Definition seen (m : mem) (root v : Z) : option Z := m <$> translate m root v.
End launching.

(** ** Theorems *)

Section theorems.
Context {D S : Type} `{PageAllocator S} (debug : bool) (bsfs : BsfsContext D) (image : list Z) (good : D -> Prop).
Implicit Types (Tk : gmap Z nat) (st : vmm_state S).

(** The bytes of the segments, in the final memory. *)
Lemma loaded_byte ino before b root T st w m' top size U K b' st' Tk kroot j i :
  program_loaded image ino before b root T st w -> executable image ino -> as_wf Tk before kroot ->
  top = PROCESS_VIRT_STACK_TOP -> size = PROCESS_DEFAULT_STACK_SIZE -> length U = stack_count size -> length K = 4%nat ->
  copied_half root kroot st m' ->
  building (shared_tables T Tk kroot) (VmmState (vs_alloc st) m') root (created_view root kroot top size U K st) (U ++ K) b' st' ->
  0 <= j < e_phnum (file_ehdr image ino) -> loadable image ino (file_ehdr image ino) j ->
  let ph := nth_phdr image ino (file_ehdr image ino) j in 0 <= i < p_memsz ph ->
  seen (vs_ram st') root (p_vaddr ph + i) = Some (seg_byte image ino ph i).
Proof using Type.
  intros Hld Hex Hk -> -> HU HK Hcp HB Hj Hl ph Hi. pose proof (loaded_stack image ino before b root T st w Hex Hld) as Hst.
  destruct (loaded_separate image ino before b root T st w Tk kroot Hld Hk) as [Hsep _]. pose proof Hld as [Hr _ [Hgp _] _ Hsl _].
  destruct (sl_bytes _ _ _ _ _ _ _ Hsl j i) as [Hmap Hv]; [lia|done|done|]. fold ph in Hmap, Hv.
  destruct (mapped_phys root 0 (2 ^ 47) program_region T st w _ Hr Hmap) as (Et & Em & p & Hown & Hpg & _ & Ep).
  destruct (segment_range (lo := 0) (hi := 2 ^ 47) ino (conj program_region (Z.le_refl _)) ph) as (H0 & _ & Hms & Hhi & _).
  { by apply (po_segments _ _ _ _ _ (ex_phdrs _ _ Hex)). }
  set (v := p_vaddr ph + i) in *. assert (0 <= v < 2 ^ 47) as Hv47 by lia. rewrite u64_id in Et by lia.
  assert (walk (vs_ram st') 4 root v = walk (vs_ram st) 4 root v) as Hw.
  { rewrite (bd_walk _ _ _ _ _ _ _ HB). apply (created_user root kroot _ _ U K st Hst HU HK); [by apply idx4_user|].
    intros k Hk' E. apply (ex_stack _ _ Hex j v Hj Hl); [fold ph; unfold in_segment; lia|]. rewrite HU in Hk'. change (stack_count PROCESS_DEFAULT_STACK_SIZE) with 512%nat in Hk'.
    apply (region_vpn 0 (2 ^ 47)) in E; [|apply program_region|done|change (PROCESS_VIRT_STACK_TOP - PROCESS_DEFAULT_STACK_SIZE) with 0x7FFFFFDFA000; unfold in_region; lia].
    revert E. change (PROCESS_VIRT_STACK_TOP - PROCESS_DEFAULT_STACK_SIZE) with 0x7FFFFFDFA000. change PROCESS_VIRT_STACK_TOP with 0x7FFFFFFFA000. unfold page_of. clear - Hk'. dlia. }
  unfold seen. assert (translate (vs_ram st') root v = translate (vs_ram st) root v) as -> by (unfold translate; by rewrite Hw). rewrite Et. cbn [fmap option_fmap option_map].
  rewrite <- Hv, <- Em, Ep. f_equal. destruct (vr_owned _ _ _ _ _ _ Hr p Hown) as (_ & Hnf & HT).
  apply (created_memory T Tk root kroot _ _ st m' U K b' st' Hsep Hcp HB); try done; [by apply Z.mod_pos_bound|].
  destruct (Tk !! p) as [n|] eqn:E; [|done]. apply (wf_table _ _ _ Hk) in E as (Hp1 & Hp2 & _). by destruct (Hgp p (conj Hp1 Hp2)) as (_ & _ & _ & ?).
Qed.

(** The pages of the stack. *)
Lemma loaded_stack_page st root kroot m' T Tk U K b' st' v : stack_ok st root PROCESS_VIRT_STACK_TOP PROCESS_DEFAULT_STACK_SIZE ->
  length U = stack_count PROCESS_DEFAULT_STACK_SIZE -> length K = 4%nat ->
  building (shared_tables T Tk kroot) (VmmState (vs_alloc st) m') root
    (created_view root kroot PROCESS_VIRT_STACK_TOP PROCESS_DEFAULT_STACK_SIZE U K st) (U ++ K) b' st' ->
  PROCESS_VIRT_STACK_TOP - PROCESS_DEFAULT_STACK_SIZE <= v < PROCESS_VIRT_STACK_TOP ->
  exists p, pa_is_free (vs_alloc st) p /\ ~ pa_is_free (vs_alloc st') p /\ walk (vs_ram st') 4 root v = Some (1%nat, Z.lor p VMM_FLAGS_USER_DATA).
Proof using Type.
  intros Hst HU HK HB Hv. set (k := Z.to_nat ((v - (PROCESS_VIRT_STACK_TOP - PROCESS_DEFAULT_STACK_SIZE)) / 4096)).
  assert (Z.of_nat k = (v - 0x7FFFFFDFA000) / 4096 /\ (k < 512)%nat /\ 0x7FFFFFDFA000 <= v) as (Ek & Hk & Hlo).
  { unfold k. revert Hv. change (PROCESS_VIRT_STACK_TOP - PROCESS_DEFAULT_STACK_SIZE) with 0x7FFFFFDFA000. change PROCESS_VIRT_STACK_TOP with 0x7FFFFFFFA000.
    clear. intros Hv. dlia. }
  destruct (lookup_lt_is_Some_2 U k) as [p Hp]; [by rewrite HU|]. exists p.
  destruct (bd_frames _ _ _ _ _ _ _ HB) as [_ Hfr]. rewrite list.Forall_forall in Hfr.
  destruct (Hfr p) as [Hp1 Hp2]; [apply elem_of_app; left; by eapply list_elem_of_lookup_2|]. split; [exact Hp1|]. split; [exact Hp2|].
  rewrite (bd_walk _ _ _ _ _ _ _ HB). apply (created_stack root kroot _ _ U K st Hst HU HK v k p Hp).
  change (PROCESS_VIRT_STACK_TOP - PROCESS_DEFAULT_STACK_SIZE) with 0x7FFFFFDFA000. rewrite Ek.
  unfold vpn. change (2 ^ level_shift 1) with 4096. f_equal. clear - Hlo. dlia.
Qed.

(** C2: the kernel's launch of the first program, from its path to a process, for every
    disk, page allocator and kernel page map: when "/bin/hello.elf" leads to a valid
    executable with the right checksum and the pages it needs are free, the launch
    succeeds.  The process starts at the entry point of the file, at privilege level 3
    on top of its stack; every byte of every segment that it sees is the file's byte, or
    zero behind the file's part; its whole stack is mapped to
    pages that were not in use; its heap starts at least a
    page above every segment; it shares the kernel's half except its own kernel stack;
    and neither the kernel's address space nor any page that was in use and is no table of
    the kernel has changed. *)
Theorem kmain_launch_correct (fuel : nat) (f : BsfsFile) (out : list Z) (stack : Z -> list Z) (process : Process)
  (idx : Z) Tk (kroot : Z) (d : D) st (b : nat)
  (Hgeo : geometry bsfs image good) (Hscratch : 4096 <= scratch_buf_capacity bsfs) (Hbytes : bytes_ok image) (Hd : good d)
  (Hprogram : program_at bsfs image idx) (Hbuf : buffers_ok f) :
  let ino := inode_at image (header bsfs) idx in
  let hdr := file_ehdr image ino in
  forall (Hcrc : crc32 (file_content image ino) = checksum ino) (Hfuel : BsfsTypes.size ino / 4096 + 1 < Z.of_nat fuel)
  (Hex : executable image ino) (Hk : as_wf Tk st kroot)
  (Hempty : forall j, 0 <= j < 256 \/ j = 510 -> PageTables.entry (vs_ram st) kroot j = 0)
  (Hfree : free_at_least b st) (Hbudget : (1 + 4 * program_pages image ino + 4 * 512 + 16 <= b)%nat),
  exists p' root d' st', kmain_launch debug bsfs fuel f out stack process (phys_to_virt kroot) (d, st) = Ok (p', (d', st')) /\
    (pml4 p' = phys_to_virt root /\ pml4_phys p' = root /\ state p' = PROCESS_READY /\ rip (context p') = e_entry hdr /\
     rsp (context p') = PROCESS_VIRT_STACK_TOP /\ cs (context p') = 0x23 /\ ss (context p') = 0x1B /\ rflags (context p') = 0x200) /\
    (forall j i, 0 <= j < e_phnum hdr -> loadable image ino hdr j -> 0 <= i < p_memsz (nth_phdr image ino hdr j) ->
       seen (vs_ram st') root (p_vaddr (nth_phdr image ino hdr j) + i) = Some (seg_byte image ino (nth_phdr image ino hdr j) i)) /\
    (forall v, PROCESS_VIRT_STACK_TOP - PROCESS_DEFAULT_STACK_SIZE <= v < PROCESS_VIRT_STACK_TOP ->
       exists p, (forall q, is_page q -> ~ pa_is_free (vs_alloc st) q -> q <> p) /\ ~ pa_is_free (vs_alloc st') p /\
         walk (vs_ram st') 4 root v = Some (1%nat, Z.lor p VMM_FLAGS_USER_DATA)) /\
    (forall j x, 0 <= j < e_phnum hdr -> loadable image ino hdr j -> in_segment (nth_phdr image ino hdr j) x ->
       x + 0x1000 < brk_start p' /\ brk p' = brk_start p') /\
    (forall v, 256 <= level_idx 4 v -> level_idx 4 v <> 510 -> walk (vs_ram st') 4 root v = walk (vs_ram st) 4 kroot v) /\
    (forall v, walk (vs_ram st') 4 kroot v = walk (vs_ram st) 4 kroot v) /\
    (forall p o, is_page p -> 0 <= o < 4096 -> ~ pa_is_free (vs_alloc st) p -> Tk !! p = None -> vs_ram st' (p + o) = vs_ram st (p + o)).
Proof.
  intros ino hdr Hcrc Hfuel Hex Hk Hempty Hfree Hbudget. pose proof (pr_blocks _ _ _ Hprogram) as Hino. fold ino in Hino.
  pose proof (open_program_run bsfs image good Hgeo Hscratch idx fuel f d Hprogram Hbuf Hd Hfuel) as Hopen. cbv zeta in Hopen. fold ino in Hopen.
  rewrite Hcrc, Z.eqb_refl in Hopen. destruct Hopen as (f1 & d1 & E1 & Hd1 & Hf1 & Hp1).
  destruct (load_program_run debug bsfs image good Hgeo Hbytes ino Hino f1 out stack d1 st b Hex Hd1 Hf1 Hp1 (wf_alloc _ _ _ Hk) (wf_ram _ _ _ Hk) Hfree)
    as (root & d2 & T & st2 & w & E2 & Hd2 & Hld); [lia|]. fold hdr in E2.
  destruct (loaded_separate image ino st b root T st2 w Tk kroot Hld Hk) as [Hsep He].
  pose proof (loaded_stack image ino st b root T st2 w Hex Hld) as Hst. pose proof Hld as [Hr _ [Hgp Hgr] _ _ Hbud].
  assert (forall j, 0 <= j < 256 \/ j = 510 -> PageTables.entry (vs_ram st2) kroot j = 0) as Hempty2.
  { intros j Hj. rewrite (He kroot 4%nat j) by (apply Hk || lia). by apply Hempty. }
  destruct (process_create_run debug T Tk root kroot st2 (w_budget w) (with_heap process (u64 (program_top image ino + 0x1000))) 100 (e_entry hdr) 0x23 0x1B 0x200
    PROCESS_VIRT_STACK_TOP PROCESS_DEFAULT_STACK_SIZE root) as (p' & m' & U & K & st' & E3 & HU & HK & Hcp & HB & Hp');
    [done|by apply Hempty2; right|done|apply Hr|change (stack_count PROCESS_DEFAULT_STACK_SIZE) with 512%nat; lia|].
  exists p', root, d2, st'. set (b' := (w_budget w - _ - 16)%nat) in HB. split; [|split; [|split; [|split; [|split; [|split; [|split]]]]]].
  - unfold kmain_launch. rewrite (bind_run _ _ _ _ _ (on_disk_run _ d st _ d1 E1)), (bind_run _ _ _ _ _ E2). apply on_memory_run. unfold kmain_create_program. exact E3.
  - destruct Hp' as (H1 & H2 & H3 & H4 & H5 & H6 & H7 & H8 & _). auto 10.
  - intros j i Hj Hl Hi. by apply (loaded_byte ino st b root T st2 w m' _ _ U K b' st' Tk kroot j i Hld Hex Hk eq_refl eq_refl HU HK Hcp HB).
  - intros v Hv. destruct (loaded_stack_page st2 root kroot m' T Tk U K b' st' v Hst HU HK HB Hv) as (p & Hfp & Hup & Hw). exists p.
    split; [|exact (conj Hup Hw)]. intros q Hq Hnf ->. destruct (Hgp p (conj Hq Hnf)) as (_ & Hx & _). exact (Hx Hfp).
  - intros j x Hj Hl Hx. destruct Hp' as (_ & _ & _ & _ & _ & _ & _ & _ & _ & _ & -> & ->). split; [|done]. by apply (heap_above image ino Hino j x).
  - intros v Hup Hne. rewrite (bd_walk _ _ _ _ _ _ _ HB). rewrite created_kernel by done. by apply (walk_kept Tk).
  - intros v. rewrite (created_kernel_walk T Tk root kroot _ _ st2 m' U K b' st' Hsep Hcp HB v Hempty2 Hst HU HK). by apply (walk_kept Tk).
  - intros p o Hp Ho Hnf HTk. destruct (Hgp p (conj Hp Hnf)) as (_ & Hnf2 & HT & _).
    rewrite (created_memory T Tk root kroot _ _ st2 m' U K b' st' Hsep Hcp HB p o Hp Ho Hnf2 HT HTk). exact (Hgr p o (conj Hp Hnf) Ho).
Qed.

Lemma check_ehdr_negative hdr err : check_ehdr hdr = Some err -> err < 0.
Proof using Type.
  unfold check_ehdr. intros E. repeat (match type of E with (if ?c then _ else _) = _ => destruct c end; [injection E as <-; reflexivity|]). done.
Qed.

Lemma load_program_invalid ino f out stack d st err : geometry bsfs image good -> inode_on_disk image ino -> good d -> file_ok image ino f -> position f = 0 ->
  64 <= BsfsTypes.size ino -> check_ehdr (file_ehdr image ino) = Some err -> pa_wf (vs_alloc st) ->
  kmain_load_program debug bsfs f out stack (d, st) = Panic.
Proof using Type.
  intros Hgeo Hino Hd Hf Hp Hsz Herr Hal. unfold kmain_load_program.
  destruct (pa_alloc_spec (vs_alloc st) Hal) as [(root & al & Hrun & _ & Hfree & _)|[Hrun _]].
  2: { munfold. cbn [on_memory]. unfold with_alloc. by rewrite Hrun. }
  assert (is_page root) as Hpg by (apply (pa_managed_page _ _ Hal), (pa_free_managed _ _ Hal), Hfree).
  assert (with_alloc pa_alloc st = Ok (root, VmmState al (vs_ram st))) as E0 by (unfold with_alloc; by rewrite Hrun).
  rewrite (bind_run _ _ _ _ _ (on_memory_run _ d st _ _ E0)), (bind_run _ _ _ _ _ (on_memory_run _ d _ _ _ (tbl_zero_run _ root Hpg))).
  destruct (load_header_run (H0 := vmm_kernel_memory debug root 0 (2 ^ 47) program_region) bsfs image good ino Hgeo Hino f out stack d
    (VmmState (vs_alloc (VmmState al (vs_ram st))) (fill (vs_ram (VmmState al (vs_ram st))) root 4096 0)) Hd Hf Hp Hsz) as (f1 & d1 & _ & _ & E).
  rewrite Herr in E. rewrite (bind_run _ _ _ _ _ E). cbn [result]. by rewrite (proj2 (Z.ltb_lt _ _) (check_ehdr_negative _ _ Herr)).
Qed.

(** C3: the kernel does not start a program it cannot trust: when "/bin/hello.elf" is
    missing, its checksum is wrong or its ELF header invalid, the launch panics (and
    never returns a process), whatever the state of the memory. *)
Theorem kmain_launch_rejects (fuel : nat) (f : BsfsFile) (out : list Z) (stack : Z -> list Z) (process : Process) (kernel_pml4 : Z) (d : D) st
  (Hgeo : geometry bsfs image good) (Hscratch : 4096 <= scratch_buf_capacity bsfs) (Hd : good d) (Hbuf : buffers_ok f) (Hal : pa_wf (vs_alloc st))
  (Hbad : (dirs_on_path image (header bsfs) (root_inode (header bsfs)) hello_name /\
      lookup_path image (header bsfs) (root_inode (header bsfs)) hello_name = None) \/
    exists idx, let ino := inode_at image (header bsfs) idx in
      program_at bsfs image idx /\ BsfsTypes.size ino / 4096 + 1 < Z.of_nat fuel /\
      (crc32 (file_content image ino) <> checksum ino \/ (64 <= BsfsTypes.size ino /\ check_ehdr (file_ehdr image ino) <> None))) :
  kmain_launch debug bsfs fuel f out stack process kernel_pml4 (d, st) = Panic.
Proof.
  destruct Hbad as [[Hdirs Hl]|(idx & Hpr & Hfuel & Hbad)].
  - destruct (fopen_run bsfs image good hello_name f d Hgeo Hscratch Hd) as (code & f' & d' & E & _ & Hm); [done|apply hello_names|done|by rewrite Hl|].
    rewrite Hl in Hm. destruct Hm as [-> ->]. change (join_path hello_name) with hello_path in E.
    unfold kmain_launch, kmain_open_program. munfold. cbn [on_disk]. by rewrite E.
  - set (ino := inode_at image (header bsfs) idx) in *. pose proof (open_program_run bsfs image good Hgeo Hscratch idx fuel f d Hpr Hbuf Hd Hfuel) as Hopen.
    cbv zeta in Hopen. fold ino in Hopen. destruct (Z.eqb_spec (crc32 (file_content image ino)) (checksum ino)) as [Hcrc|_].
    + destruct Hbad as [?|[Hsz Herr]]; [done|]. destruct (check_ehdr (file_ehdr image ino)) as [err|] eqn:Ee; [|done].
      destruct Hopen as (f1 & d1 & E1 & Hd1 & Hf1 & Hp1). unfold kmain_launch. rewrite (bind_run _ _ _ _ _ (on_disk_run _ d st _ d1 E1)).
      pose proof (load_program_invalid ino f1 out stack d1 st err Hgeo (pr_blocks _ _ _ Hpr) Hd1 Hf1 Hp1 Hsz Ee Hal) as E2.
      munfold. by rewrite E2.
    + unfold kmain_launch. munfold. cbn [on_disk]. by rewrite Hopen.
Qed.
End theorems.

(** ** Witnesses: a disk of five blocks

    Block 1 is the inode table: inode 1 is the root directory (block 2), inode 2 is "bin"
    (block 3), inode 3 is "hello.elf" (block 4), an executable of one segment that starts
    with its headers.  The machine has 4096 pages; pages 0 and 1 are in use, page 1 is the
    kernel's page map. *)
Definition hello_content : list Z := small_executable.

Definition hello_checksum : Z := Eval vm_compute in crc32 hello_content.

Definition hello_inode : BsfsInode :=
  {| type := BSFS_INODE_TYPE_FILE; permissions := 6; uid := 0; gid := 0; BsfsTypes.size := 220; blocks := 1; created := 0; modified := 0;
     accessed := 0; link_count := 1; blocks_direct := 4 :: replicate 9 0; blocks_l1indirect := 0;
     blocks_l2indirect := 0; blocks_l3indirect := 0; checksum := hello_checksum; inode_reserved := replicate 21 0 |}.

Definition hello_image : list Z :=
  replicate 4096 0 ++
  (replicate 128 0 ++ inode_bytes (dir_inode BSFS_INODE_TYPE_DIRECTORY 2) ++ inode_bytes (dir_inode BSFS_INODE_TYPE_DIRECTORY 3) ++
   inode_bytes hello_inode ++ replicate (28 * 128) 0) ++
  named_entry [98; 105; 110] 2 ++ named_entry [104; 101; 108; 108; 111; 46; 101; 108; 102] 3 ++ hello_content ++ replicate 3876 9.

Definition hello_context : BsfsContext unit :=
  {| header := path_header; disk_ops := image_ops hello_image; phys_sector_size := 512; scratch_buf_capacity := 4096 |}.

Definition big_pmm : pmm_state := PmmState (3 :: replicate 511 0) 512.
Definition big_machine : vmm_state pmm_state := VmmState big_pmm (fun _ => 0).

Lemma hello_image_length : Z.of_nat (length hello_image) = 20480.
Proof. vm_compute. reflexivity. Qed.

Lemma hello_geometry : geometry hello_context hello_image (fun _ => True).
Proof. split; [done|done|rewrite hello_image_length; lia|apply image_ops_serves]. Qed.

Lemma hello_inode_at : inode_at hello_image path_header 3 = hello_inode.
Proof. vm_compute. reflexivity. Qed.

Lemma hello_crc : crc32 (file_content hello_image hello_inode) = checksum hello_inode.
Proof. vm_compute. reflexivity. Qed.

Lemma hello_inode_on_disk : inode_on_disk hello_image hello_inode.
Proof.
  split; [cbn [BsfsTypes.size hello_inode]; lia|done| |cbn [BsfsTypes.size hello_inode]; lia].
  intros i Hi Hs. cbn [BsfsTypes.size hello_inode] in Hs. rewrite hello_image_length. unfold file_block.
  assert (i = 0) as -> by lia; split; vm_compute; discriminate.
Qed.

Lemma hello_directory (idx b : Z) : (idx = 1 /\ b = 2) \/ (idx = 2 /\ b = 3) ->
  inode_in_image hello_image path_header idx /\ blocks_direct (inode_at hello_image path_header idx) = b :: replicate 9 0 /\
  dir_ok hello_image (b :: replicate 9 0).
Proof.
  intros Hb. split; [unfold inode_in_image; rewrite hello_image_length; destruct Hb as [[-> ->]|[-> ->]]; vm_compute; intuition congruence|].
  split; [destruct Hb as [[-> ->]|[-> ->]]; vm_compute; reflexivity|].
  split; apply (bool_decide_unpack _); destruct Hb as [[-> ->]|[-> ->]]; vm_compute; exact I.
Qed.

Lemma hello_found : find_name [98; 105; 110] (dir_entries hello_image (2 :: replicate 9 0)) = Some 2 /\
  find_name [104; 101; 108; 108; 111; 46; 101; 108; 102] (dir_entries hello_image (3 :: replicate 9 0)) = Some 3.
Proof. vm_compute. split; reflexivity. Qed.

Lemma hello_program : program_at hello_context hello_image 3.
Proof.
  destruct (hello_directory 1 2) as (H1 & E1 & D1); [left; split; reflexivity|]. destruct (hello_directory 2 3) as (H2 & E2 & D2); [right; split; reflexivity|].
  destruct hello_found as [F1 F2]. split; change (header hello_context) with path_header; change (root_inode path_header) with 1; unfold hello_name.
  - cbn [dirs_on_path]. rewrite E1. split; [exact H1|]. split; [exact D1|]. rewrite F1. intros i [= <-]. rewrite E2. split; [exact H2|]. split; [exact D2|]. intros; exact I.
  - cbn [lookup_path]. rewrite E1, F1. cbv iota. rewrite E2, F2. reflexivity.
  - split; [discriminate|]. unfold inode_in_image. rewrite hello_image_length. vm_compute. intuition congruence.
  - rewrite hello_inode_at. reflexivity.
  - rewrite hello_inode_at. apply hello_inode_on_disk.
Qed.

Lemma hello_phnum : e_phnum (file_ehdr hello_image hello_inode) = 1.
Proof. vm_compute. reflexivity. Qed.

Lemma hello_phdr : nth_phdr hello_image hello_inode (file_ehdr hello_image hello_inode) 0 =
  {| p_type := 1; p_flags := 5; p_offset := 0; p_vaddr := 0x400000; p_paddr := 0x400000; p_filesz := 220;
     p_memsz := 5000; p_align := 4096 |}.
Proof. vm_compute. reflexivity. Qed.

Lemma hello_executable : executable hello_image hello_inode.
Proof.
  assert (e_phoff (file_ehdr hello_image hello_inode) = 64) as Hoff by (vm_compute; reflexivity).
  assert (forall j, 0 <= j < 0 + 1 -> j = 0) as H0 by lia.
  split; [vm_compute; discriminate|vm_compute; reflexivity|rewrite hello_phnum|rewrite hello_phnum].
  - split; [intros j ->%H0|intros j ->%H0|intros j ->%H0|intros i j x Hi%H0 Hj%H0].
    + rewrite Hoff. vm_compute. intuition congruence.
    + rewrite hello_phdr. cbn. lia.
    + intros _. rewrite hello_phdr. split; vm_compute; intuition congruence.
    + lia.
  - intros j v ->%H0 _. rewrite hello_phdr. unfold in_segment, seg_pages. cbn [p_vaddr p_memsz]. change ((5000 + 4095) / 4096) with 2.
    change (PROCESS_VIRT_STACK_TOP - PROCESS_DEFAULT_STACK_SIZE) with 0x7FFFFFDFA000. lia.
Qed.

Lemma big_machine_wf : as_wf (H := pmm_page_allocator true) {[0x1000 := 4%nat]} big_machine 0x1000.
Proof.
  assert (forall q i, PageTables.entry (fun _ => 0) q i = 0) as Hz by reflexivity. split; cbn [vs_alloc vs_ram big_machine].
  - split; [apply (bool_decide_unpack _); vm_compute; exact I|]. vm_compute. intuition congruence.
  - intros a. vm_compute. intuition congruence.
  - apply lookup_singleton_eq.
  - intros q n [<- <-]%lookup_singleton_Some. split; [vm_compute; intuition congruence|]. split; [|lia].
    intros (i & Hi & E & Hb). unfold PAGE_SIZE in E. assert (i = 1) as -> by lia. done.
  - intros q n i _ _. left. apply Hz.
  - intros q n i q' n' i' _ _ _ _ _ _ Hl. by rewrite Hz in Hl.
Qed.

Lemma big_machine_free : free_at_least (H := pmm_page_allocator true) 2400 big_machine.
Proof.
  exists ((fun i => i * 4096) <$> seqZ 8 2400). split; [|split; [by rewrite length_fmap, length_seqZ|]].
  - apply list.NoDup_fmap_2; [intros i j E; lia|]. apply NoDup_seqZ.
  - apply list.Forall_forall. intros p (i & -> & Hi%elem_of_seqZ)%list_elem_of_fmap. exists i.
    split; [change (pmm_pages (vs_alloc big_machine)) with 4096; lia|]. split; [done|]. 
    assert (exists k, Z.to_nat (i / 8) = Datatypes.S k /\ (k < 511)%nat) as (k & Ek & Hk) by (exists (Z.to_nat (i / 8 - 1)); dlia).
    assert ((3 :: replicate 511 0) !! Datatypes.S k = Some 0) as E by (apply (lookup_replicate_2 511 0); done).
    unfold bit. rewrite Ek. change (pmm_bitmap (vs_alloc big_machine)) with (3 :: replicate 511 0). rewrite E. apply Z.testbit_0_l.
Qed.

Lemma kmain_launch_correct_witness : exists p' root d' st',
  kmain_launch (H := pmm_page_allocator true) true hello_context 3 read_file [] (fun _ => []) sample_process (phys_to_virt 0x1000) (tt, big_machine) =
    Ok (p', (d', st')) /\
  seen (vs_ram st') root 0x4000DB = Some 7 /\ seen (vs_ram st') root 0x4000DC = Some 0.
Proof.
  pose proof (kmain_launch_correct (H := pmm_page_allocator true) true hello_context hello_image (fun _ => True) 3 read_file [] (fun _ => [])
    sample_process 3 {[0x1000 := 4%nat]} 0x1000 tt big_machine 2400 hello_geometry ltac:(cbn; lia) ltac:(apply (bool_decide_unpack _); vm_compute; exact I) I hello_program
    ltac:(vm_compute; lia)) as Hl.
  cbv zeta in Hl. change (header hello_context) with path_header in Hl. rewrite hello_inode_at in Hl.
  destruct Hl as (p' & root & d' & st' & E & _ & Hb & _).
  - exact hello_crc.
  - reflexivity.
  - exact hello_executable.
  - exact big_machine_wf.
  - reflexivity.
  - exact big_machine_free.
  - apply Nat.leb_le. vm_compute. reflexivity.
  - exists p', root, d', st'. split; [exact E|]. rewrite hello_phnum in Hb.
    assert (loadable hello_image hello_inode (file_ehdr hello_image hello_inode) 0) as Hload by (unfold loadable; by rewrite hello_phdr).
    specialize (Hb 0). rewrite hello_phdr in Hb. split; [refine (eq_trans (Hb 219 _ Hload _) _)|refine (eq_trans (Hb 220 _ Hload _) _)]; try (cbn [p_memsz]; lia); vm_compute; reflexivity.
Defined.

(** The disk of [BsfsPath] has no directory "bin". *)
Lemma kmain_launch_rejects_witness :
  kmain_launch (H := pmm_page_allocator true) true path_context 3 read_file [] (fun _ => []) sample_process (phys_to_virt 0x1000) (tt, big_machine) = Panic.
Proof.
  assert (find_name [98; 105; 110] (dir_entries path_image (blocks_direct (inode_at path_image path_header 1))) = None) as E by (vm_compute; reflexivity).
  apply (kmain_launch_rejects (H := pmm_page_allocator true) true path_context path_image (fun _ => True)); [apply path_geometry|cbn; lia|exact I|vm_compute; lia|apply big_machine_wf|].
  left. change (header path_context) with path_header. change (root_inode path_header) with 1. unfold hello_name. cbn [dirs_on_path lookup_path]. rewrite E. split; [|reflexivity].
  destruct (proj1 path_dirs) as (H1 & H2 & _). split; [exact H1|]. split; [exact H2|]. intros i Hi. discriminate Hi.
Defined.
