(* ===== verification/KernelSegments.v ===== *)
(** * Segments of the processes

    The descriptor table and the [syscall] registers ([KernelSetup]) together with the
    processes [kmain] creates ([KernelLaunch]): the selectors in the saved context of a
    process, as [process_create] leaves them, against the descriptors they select and
    against the selectors the processor loads on [syscall] and [sysret]. *)
From S2P Require Import Prelude Common Memory Interfaces Bitmap Pmm Vmm BsfsTypes BsfsFile BsfsRead BsfsPath Descriptors Process Stage2Load KernelSetup.
From Stdlib Require Import ZArith Lia.
From stdpp Require Import base tactics list numbers gmap.
From S2P Require Import PageTables AddressSpace ProcessSpace Elf KernelLaunch.

Open Scope Z_scope.

Section segments.
Context {D S : Type} `{PageAllocator S} (debug : bool).

(** The saved context has the selectors [process_create] is called with. *)
Lemma process_create_selectors process pid' entry' cs' ss' rflags' top size ktop ksize pml4' phys kernel_pml4 st p' st' :
  process_create debug process pid' entry' cs' ss' rflags' top size ktop ksize pml4' phys kernel_pml4 st = Ok (p', st') ->
  cs (context p') = cs' /\ ss (context p') = ss'.
Proof.
  unfold process_create. intros (u1 & st1 & _ & (u2 & st2 & _ & (u3 & st3 & _ & E)%bind_Ok)%bind_Ok)%bind_Ok.
  injection E as <- _. done.
Qed.

Lemma kernel_process_selectors process pid' entry' kernel_pml4 st p' st' :
  kmain_kernel_process debug process pid' entry' kernel_pml4 st = Ok (p', st') ->
  cs (context p') = 0x08 /\ ss (context p') = 0x10.
Proof.
  unfold kmain_kernel_process. intros (root & st1 & _ & (u & st2 & _ & E)%bind_Ok)%bind_Ok. by apply process_create_selectors in E.
Qed.

Lemma on_memory_Ok {A} (m : M (vmm_state S) A) (d : D) st a s' : on_memory m (d, st) = Ok (a, s') -> exists st', m st = Ok (a, st').
Proof. cbn [on_memory]. destruct (m st) as [[a' st']| | |]; [|discriminate..]. intros [= -> _]. by exists st'. Qed.

Lemma create_program_selectors process root top_ entry' kernel_pml4 st p' st' :
  kmain_create_program debug process root top_ entry' kernel_pml4 st = Ok (p', st') ->
  cs (context p') = 0x23 /\ ss (context p') = 0x1B.
Proof.
  unfold kmain_create_program. generalize (with_heap process (u64 (top_ + 0x1000))) (phys_to_virt root). intros pr rv.
  generalize PROCESS_VIRT_STACK_TOP PROCESS_DEFAULT_STACK_SIZE PROCESS_VIRT_KERNEL_STACK_TOP PROCESS_DEFAULT_KERNEL_STACK_SIZE.
  intros a b c d E.
  pose proof (process_create_selectors pr 100 entry' 0x23 0x1B 0x200 a b c d rv root kernel_pml4 st p' st') as Hs.
  exact (Hs E).
Qed.

Lemma launch_selectors (bsfs : BsfsContext D) fuel f out stack process kernel_pml4 s p' s' :
  kmain_launch debug bsfs fuel f out stack process kernel_pml4 s = Ok (p', s') ->
  cs (context p') = 0x23 /\ ss (context p') = 0x1B.
Proof.
  unfold kmain_launch. intros (f1 & s1 & _ & ([[root top_] hdr] & [d2 m2] & _ & E)%bind_Ok)%bind_Ok.
  apply on_memory_Ok in E as [st' E]. exact (create_program_selectors _ _ _ _ _ _ _ _ E).
Qed.
End segments.

(** C24: the segments the processor uses are the ones the kernel set up, with the table
    the boot loader hands over (three entries) and any contents of the new page.
    [syscall] enters on a 64-bit code and a data segment of privilege level 0, and these
    are the selectors in the context of every process [kmain] creates for the kernel;
    [sysret] returns to a 64-bit code and a data segment of privilege level 3 with
    requested level 3, and these are the selectors in the context of every program
    [kmain] launches.  The task register is loaded with the selector of the task state
    segment at its address, with its size as limit. *)
Theorem kernel_segments_correct {D S : Type} `{PageAllocator S} (page boot0 boot : list Z) (tss stub cpu : Z) (r : msrs)
  (Hboot : stage2_gdt boot0 = Ok boot) (Hpage : length page = 512%nat) (Htss : 0 <= tss < 2 ^ 64) :
  let star := syscall_msrs stub cpu r MSR_REG_STAR in
  exists gdt tlo thi, kernel_gdt page boot 3 tss = Ok gdt /\
    segments_of gdt 0 (syscall_cs star) (syscall_ss star) /\ segments_of gdt 3 (sysret_cs star) (sysret_ss star) /\
    (forall debug process pid' entry' kernel_pml4 (st : vmm_state S) p' st',
      kmain_kernel_process debug process pid' entry' kernel_pml4 st = Ok (p', st') ->
      cs (context p') = syscall_cs star /\ ss (context p') = syscall_ss star) /\
    (forall debug (bsfs : BsfsContext D) fuel f out stack process kernel_pml4 (s : D * vmm_state S) p' s',
      kmain_launch debug bsfs fuel f out stack process kernel_pml4 s = Ok (p', s') ->
      cs (context p') = sysret_cs star /\ ss (context p') = sysret_ss star) /\
    rd gdt (sel_index kernel_tss_selector) = Ok tlo /\ rd gdt (sel_index kernel_tss_selector + 1) = Ok thi /\
    desc_access tlo = 0x89 /\ desc_limit tlo = sizeof_TSSEntry - 1 /\ desc_base tlo + thi * 2 ^ 32 = tss.
Proof.
  intros star. subst star. rewrite syscall_msrs_star.
  destruct (kernel_gdt_segments page boot0 boot tss Hboot Hpage Htss) as (gdt & tlo & thi & E & Hk & Hu & Ht).
  exists gdt, tlo, thi. split; [exact E|]. split; [exact Hk|]. split; [exact Hu|]. split; [|split; [|exact Ht]].
  - intros debug process pid' entry' kp st p' st'. apply kernel_process_selectors.
  - intros debug bsfs fuel f out stack process kp s p' s'. apply launch_selectors.
Qed.

(** The reaper of a machine with 4096 pages, and the table with the task state segment at
    0x1C1000. *)
Lemma kernel_segments_correct_witness : exists gdt p' st',
  kernel_gdt (replicate 512 0) [0; 0xAF9A000000FFFF; 0xCF92000000FFFF; 0] 3 0x1C1000 = Ok gdt /\
  kmain_reaper_process (H := pmm_page_allocator true) true sample_process 0x200000 (phys_to_virt 0x1000) big_machine = Ok (p', st') /\
  segments_of gdt 0 (cs (context p')) (ss (context p')).
Proof.
  destruct (kernel_segments_correct (D := unit) (H := pmm_page_allocator true) (replicate 512 0) [0; 0; 0; 0] [0; 0xAF9A000000FFFF; 0xCF92000000FFFF; 0] 0x1C1000 0 0 (fun _ => 0))
    as (gdt & tlo & thi & E & Hk & _ & Hp & _); [reflexivity|reflexivity|lia|].
  destruct (kernel_process_run (H := pmm_page_allocator true) true _ 0x1000 big_machine 2400 sample_process 1 0x200000 big_machine_wf) as (p' & root & st' & Er & _);
    [reflexivity|exact big_machine_free|lia|].
  exists gdt, p', st'. split; [exact E|]. split; [exact Er|]. destruct (Hp _ _ _ _ _ _ _ _ Er) as [-> ->]. exact Hk.
Defined.
