(* ===== verification/Ppm.v ===== *)
(** * Conversion of images

    [tools/ppmtobin/ppmtoimg.c]: a PPM file becomes width, height and pixels in binary.
    A stream of the C library is the list of the bytes that are left; [fseek] by -1 puts
    the byte read last back.  [fscanf] with "%li" follows the C standard: white space, a
    sign, a number in the base its prefix names; a number that does not fit is undefined
    ([Fault]).  The result is the exit code with the bytes of the output file, which is
    taken to open. *)
From S2P Require Import Prelude Memory.
From Stdlib Require Import ZArith Lia.
From stdpp Require Import base tactics list numbers.

Open Scope Z_scope.

(** ** The C library *)

Definition li_space (c : Z) : bool := (c =? 32) || ((9 <=? c) && (c <=? 13)).

Fixpoint skip_space (l : list Z) : list Z :=
  match l with
  | c :: l' => if li_space c then skip_space l' else l
  | [] => []
  end.

Definition digit_of (base c : Z) : option Z :=
  let d := if (48 <=? c) && (c <=? 57) then c - 48
    else if (97 <=? c) && (c <=? 122) then c - 87
    else if (65 <=? c) && (c <=? 90) then c - 55
    else base in
  if d <? base then Some d else None.

Fixpoint li_digits (base acc : Z) (l : list Z) : Z * list Z :=
  match l with
  | c :: l' => match digit_of base c with Some d => li_digits base (acc * base + d) l' | None => (acc, l) end
  | [] => (acc, [])
  end.

(** The end of the input, no number, or a number with what follows it. *)
Inductive scanned := ScanEof | ScanFail | Scan (v : Z) (rest : list Z).

Definition scan_number (base : Z) (negative : bool) (l : list Z) : scanned :=
  match l with
  | c :: l' =>
      match digit_of base c with
      | Some d => let '(v, rest) := li_digits base d l' in Scan (if negative then - v else v) rest
      | None => ScanFail
      end
  | [] => ScanFail
  end.

Definition scan_li (l : list Z) : scanned :=
  match skip_space l with
  | [] => ScanEof
  | c :: r =>
      let '(negative, l) := if c =? 45 then (true, r) else if c =? 43 then (false, r) else (false, c :: r) in
      match l with
      | 48 :: x :: r' => if (x =? 120) || (x =? 88) then scan_number 16 negative r' else scan_number 8 negative l
      | 48 :: [] => scan_number 8 negative l
      | _ => scan_number 10 negative l
      end
  end.

(** [fscanf] with "%li" and white space behind it; [None] when it returns 0.  At the end
    of the input it returns EOF and the variable keeps its value. *)
Definition fscanf_li (old : Z) (l : list Z) : outcome (option (Z * list Z)) :=
  match scan_li l with
  | ScanEof => Ok (Some (old, []))
  | ScanFail => Ok None
  | Scan v rest => if (- 2 ^ 63 <=? v) && (v <? 2 ^ 63) then Ok (Some (v, skip_space rest)) else Fault
  end.

(** ** The program *)

(** The rest of a comment line: the byte read last, and what is left. *)
Fixpoint skip_comment (data0 : Z) (l : list Z) : Z * list Z :=
  match l with
  | [] => (data0, [])
  | c :: l' => if c =? 0x0A then (c, l') else skip_comment c l'
  end.

Fixpoint ppm_loop (fuel : nat) (w h c : Z) (l out : list Z) : outcome (Z * list Z) :=
  match l with
  | [] => Ok (0, out)
  | data0 :: l =>
      match fuel with
      | O => OutOfFuel
      | S fuel' =>
          let '(data0, l) := if data0 =? 35 then skip_comment data0 l else (data0, l) in
          if w =? 0 then
            r ← fscanf_li w (data0 :: l);
            match r with
            | None => Ok (1, out)
            | Some (w, l) => ppm_loop fuel' w h c l (out ++ le_bytes 4 (u32 w))
            end
          else if h =? 0 then
            r ← fscanf_li h (data0 :: l);
            match r with
            | None => Ok (1, out)
            | Some (h, l) => ppm_loop fuel' w h c l (out ++ le_bytes 4 (u32 h))
            end
          else if c =? 0 then
            r ← fscanf_li c (data0 :: l);
            match r with
            | None => Ok (1, out)
            | Some (c, l) => ppm_loop fuel' w h c l out
            end
          else ppm_loop fuel' w h c l (out ++ [data0])
      end
  end.

Definition ppmtoimg (input : list Z) : outcome (Z * list Z) :=
  match input with
  | d0 :: d1 :: _ :: l =>
      if negb (d0 =? 80) && negb (d1 =? 54) && negb (d1 =? 0x0A) then Ok (1, []) else
      ppm_loop (length l) 0 0 0 l []
  | _ => Ok (1, [])
  end.

(** ** Lemmas *)

Lemma skip_space_length l : (length (skip_space l) <= length l)%nat.
Proof. induction l as [|c l IH]; cbn [skip_space]; [done|]. destruct (li_space c); cbn [length]; lia. Qed.

Lemma li_digits_length base l : forall acc, (length (li_digits base acc l).2 <= length l)%nat.
Proof. induction l as [|c l IH]; intros acc; cbn [li_digits]; [done|]. destruct (digit_of base c) as [d|]; cbn [length snd]; [specialize (IH (acc * base + d))|]; lia. Qed.

Lemma scan_number_length base neg l v rest : scan_number base neg l = Scan v rest -> (length rest < length l)%nat.
Proof.
  destruct l as [|c l]; [done|]. cbn [scan_number]. destruct (digit_of base c) as [d|]; [|done]. pose proof (li_digits_length base l d) as Hl.
  destruct (li_digits base d l). intros [= _ <-]. cbn [length snd] in *. lia.
Qed.

Lemma scan_li_length l v rest : scan_li l = Scan v rest -> (length rest < length l)%nat.
Proof.
  unfold scan_li. pose proof (skip_space_length l) as Hs. destruct (skip_space l) as [|c r]; [done|]. cbn [length] in Hs.
  set (p := if c =? 45 then _ else _). assert (length p.2 <= length l)%nat as Hp by (unfold p; destruct (c =? 45), (c =? 43); cbn [snd length]; lia).
  destruct p as [neg l']. cbn [snd] in Hp. intros E.
  assert (exists base neg' l'', scan_number base neg' l'' = Scan v rest /\ (length l'' <= length l')%nat) as (base & neg' & l'' & E' & Hl).
  { repeat match type of E with
    | match ?x with _ => _ end = _ => is_var x; destruct x
    | (if ?b then _ else _) = _ => destruct b
    end; try (eexists _, _, _; split; [exact E|cbn [length]; lia]). }
  apply scan_number_length in E'. lia.
Qed.

Lemma fscanf_li_length old l r rest : fscanf_li old l = Ok (Some (r, rest)) -> l <> [] -> (length rest < length l)%nat.
Proof.
  unfold fscanf_li. destruct (scan_li l) as [| |v rest'] eqn:E; [|done|].
  - intros [= _ <-] Hl. destruct l; [done|cbn; lia].
  - destruct (_ && _); [|done]. intros [= _ <-] _. apply scan_li_length in E. pose proof (skip_space_length rest'). lia.
Qed.

Lemma skip_comment_length l : forall c, (length (skip_comment c l).2 <= length l - 1)%nat.
Proof. induction l as [|x l IH]; intros c; cbn [skip_comment]; [done|]. destruct (x =? 10); cbn [length snd]; [lia|]. specialize (IH x). lia. Qed.

Lemma ppm_loop_ends fuel : forall w h c l out, (length l <= fuel)%nat -> ppm_loop fuel w h c l out <> OutOfFuel.
Proof.
  induction fuel as [|fuel IH]; intros w h c [|x l] out Hl; cbn [ppm_loop length] in *; try done; [lia|].
  set (p := if x =? 35 then skip_comment x l else (x, l)). assert (length p.2 <= length l)%nat as Hp.
  { unfold p. destruct (x =? 35); [|done]. pose proof (skip_comment_length l x). lia. }
  destruct p as [data0 l2]. cbn [snd] in Hp.
  assert (forall old (k : Z * list Z -> outcome (Z * list Z)), (forall v rest, (length rest <= fuel)%nat -> k (v, rest) <> OutOfFuel) ->
    (r ← fscanf_li old (data0 :: l2); match r with None => Ok (1, out) | Some q => k q end) <> OutOfFuel) as Hscan.
  { intros old k Hk. munfold. destruct (fscanf_li old (data0 :: l2)) as [[[v rest]|]| | |] eqn:E; try done.
    - apply Hk. apply fscanf_li_length in E; [|done]. cbn [length] in E. lia.
    - revert E. unfold fscanf_li. by destruct (scan_li _) as [| |v rest]; try destruct (_ && _). }
  destruct (w =? 0); [apply (Hscan w (fun '(w, l) => ppm_loop fuel w h c l _)); intros; by apply IH|].
  destruct (h =? 0); [apply (Hscan h (fun '(h, l) => ppm_loop fuel w h c l _)); intros; by apply IH|].
  destruct (c =? 0); [apply (Hscan c (fun '(c, l) => ppm_loop fuel w h c l _)); intros; by apply IH|].
  apply IH. lia.
Qed.

(** A decimal number without leading zeros. *)
Definition decimal_digit (c : Z) : Prop := 48 <= c <= 57.
Definition decimal_value (acc : Z) (ds : list Z) : Z := foldl (fun acc c => acc * 10 + (c - 48)) acc ds.
Definition decimal (ds : list Z) : Prop := Forall decimal_digit ds /\ exists d ds', ds = d :: ds' /\ d <> 48.

Lemma digit_of_dec c : decimal_digit c -> digit_of 10 c = Some (c - 48).
Proof. intros Hc. unfold decimal_digit in Hc. unfold digit_of. rewrite (proj2 (Z.leb_le 48 c)), (proj2 (Z.leb_le c 57)) by lia. cbn [andb]. by rewrite (proj2 (Z.ltb_lt _ _)) by lia. Qed.

Lemma li_digits_dec ds : forall acc c rest, Forall decimal_digit ds -> li_space c = true ->
  li_digits 10 acc (ds ++ c :: rest) = (decimal_value acc ds, c :: rest).
Proof.
  induction ds as [|d ds IH]; intros acc c rest Hds Hc; cbn [app li_digits decimal_value foldl].
  - unfold li_space in Hc. assert (digit_of 10 c = None) as ->; [|done]. unfold digit_of.
    destruct (Z.leb_spec 48 c), (Z.leb_spec 97 c), (Z.leb_spec 65 c), (Z.eqb_spec c 32), (Z.leb_spec c 13); cbn [andb orb] in *; try lia; try done.
    all: destruct (9 <=? c); done.
  - apply list.Forall_cons in Hds as [Hd Hds]. rewrite digit_of_dec by done. by apply IH.
Qed.

Lemma scan_li_dec ds c rest : decimal ds -> li_space c = true -> scan_li (ds ++ c :: rest) = Scan (decimal_value 0 ds) (c :: rest).
Proof.
  intros [Hds (d & ds' & -> & Hd)] Hc. apply list.Forall_cons in Hds as [Hd' Hds]. unfold decimal_digit in Hd'.
  assert (scan_number 10 false (d :: ds' ++ c :: rest) = Scan (decimal_value 0 (d :: ds')) (c :: rest)) as E.
  { cbn [scan_number]. rewrite digit_of_dec by done. rewrite li_digits_dec by done. done. }
  rewrite <- E. cbn [app]. assert (d = 49 \/ d = 50 \/ d = 51 \/ d = 52 \/ d = 53 \/ d = 54 \/ d = 55 \/ d = 56 \/ d = 57) as Hcase by lia.
  destruct_or! Hcase; subst d; reflexivity.
Qed.

Lemma scan_li_space ds c rest : decimal ds -> li_space c = true -> scan_li (10 :: ds ++ c :: rest) = Scan (decimal_value 0 ds) (c :: rest).
Proof. intros Hds Hc. rewrite <- (scan_li_dec ds c rest) by done. reflexivity. Qed.

(** White space that ends in front of something else. *)
Definition no_space (l : list Z) : Prop := match l with [] => True | c :: _ => li_space c = false end.

Lemma skip_space_stop l : no_space l -> skip_space l = l.
Proof. destruct l as [|c l]; [done|]. cbn. by intros ->. Qed.

Lemma digit_no_space c : decimal_digit c -> li_space c = false.
Proof. unfold decimal_digit, li_space. intros Hc. destruct (Z.eqb_spec c 32), (Z.leb_spec 9 c), (Z.leb_spec c 13); done || lia. Qed.

Lemma decimal_no_space ds rest : decimal ds -> no_space (ds ++ rest).
Proof. intros [Hds (d & ds' & -> & _)]. apply list.Forall_cons in Hds as [Hd _]. by apply digit_no_space. Qed.

(** One number in the header of the file. *)
Lemma fscanf_dec old ds c rest : decimal ds -> decimal_value 0 ds < 2 ^ 31 -> li_space c = true -> no_space rest ->
  fscanf_li old (ds ++ c :: rest) = Ok (Some (decimal_value 0 ds, rest)) /\ fscanf_li old (10 :: ds ++ c :: rest) = Ok (Some (decimal_value 0 ds, rest)).
Proof.
  intros Hds Hv Hc Hr. assert (0 <= decimal_value 0 ds) as H0.
  { destruct Hds as [Hds _]. unfold decimal_value. assert (forall acc, 0 <= acc -> 0 <= foldl (fun acc c => acc * 10 + (c - 48)) acc ds) as H; [|by apply H].
    clear - Hds. induction Hds as [|d ds Hd _ IH]; intros acc Ha; [done|]. cbn [foldl]. apply IH. unfold decimal_digit in Hd. lia. }
  unfold fscanf_li. rewrite scan_li_dec, scan_li_space by done. rewrite (proj2 (Z.leb_le _ _)), (proj2 (Z.ltb_lt _ _)) by lia. cbn [andb skip_space]. rewrite Hc, skip_space_stop by done. done.
Qed.

(** The pixels are copied. *)
Lemma ppm_pixels w h c : w <> 0 -> h <> 0 -> c <> 0 -> forall pixels fuel out, Forall (fun x => x <> 35) pixels -> (length pixels <= fuel)%nat ->
  ppm_loop fuel w h c pixels out = Ok (0, out ++ pixels).
Proof.
  intros Hw Hh Hc. induction pixels as [|x pixels IH]; intros fuel out Hp Hf; [destruct fuel; cbn [ppm_loop]; by rewrite app_nil_r|].
  apply list.Forall_cons in Hp as [Hx Hp]. destruct fuel as [|fuel]; [cbn in Hf; lia|]. cbn [ppm_loop length] in *.
  rewrite (proj2 (Z.eqb_neq x 35)), (proj2 (Z.eqb_neq w 0)), (proj2 (Z.eqb_neq h 0)), (proj2 (Z.eqb_neq c 0)) by done.
  rewrite IH by (done || lia). by rewrite <- app_assoc.
Qed.

Lemma skip_comment_run t : forall x rest, Forall (fun c => c <> 10) t -> skip_comment x (t ++ 10 :: rest) = (10, rest).
Proof.
  induction t as [|c t IH]; intros x rest Ht; cbn [app skip_comment]; [done|]. apply list.Forall_cons in Ht as [Hc Ht].
  rewrite (proj2 (Z.eqb_neq c 10)) by done. by apply IH.
Qed.

Lemma decimal_positive ds : decimal ds -> 0 < decimal_value 0 ds.
Proof.
  intros [Hds (d & ds' & -> & Hd)]. apply list.Forall_cons in Hds as [Hd' Hds]. unfold decimal_value, decimal_digit in *. cbn [foldl].
  assert (forall acc, 0 < acc -> 0 < foldl (fun acc c => acc * 10 + (c - 48)) acc ds') as H; [|apply H; lia].
  clear - Hds. induction Hds as [|c ds Hc _ IH]; intros acc Ha; [done|]. cbn [foldl]. apply IH. unfold decimal_digit in Hc. lia.
Qed.

(** ** Properties *)

(** A file: the signature, at most one comment line, width, height, depth, the pixels. *)
Definition ppm_file (comment : option (list Z)) (ws hs cs pixels : list Z) : list Z :=
  80 :: 54 :: 10 :: match comment with Some t => 35 :: t ++ [10] | None => [] end ++ ws ++ 32 :: hs ++ 10 :: cs ++ 10 :: pixels.

(** The conversion of a PPM file with at most one comment line yields its width and
    height as 32-bit words and its pixels, byte for byte, when no byte of the pixels is a
    number sign and the first one is not white space. *)
Theorem ppmtoimg_correct (comment : option (list Z)) (ws hs cs pixels : list Z)
  (Hw : decimal ws /\ decimal_value 0 ws < 2 ^ 31) (Hh : decimal hs /\ decimal_value 0 hs < 2 ^ 31) (Hc : decimal cs /\ decimal_value 0 cs < 2 ^ 31)
  (Hcomment : match comment with Some t => Forall (fun c => c <> 10) t | None => True end)
  (Hpixels : Forall (fun c => c <> 35) pixels) (Hfirst : no_space pixels) :
  ppmtoimg (ppm_file comment ws hs cs pixels) = Ok (0, le_bytes 4 (decimal_value 0 ws) ++ le_bytes 4 (decimal_value 0 hs) ++ pixels).
Proof.
  destruct Hw as [Hw Hw31], Hh as [Hh Hh31], Hc as [Hc Hc31].
  pose proof (decimal_positive ws Hw). pose proof (decimal_positive hs Hh). pose proof (decimal_positive cs Hc).
  pose proof (u32_id (decimal_value 0 ws) ltac:(lia)) as Uw. pose proof (u32_id (decimal_value 0 hs) ltac:(lia)) as Uh.
  set (rest3 := cs ++ 10 :: pixels). set (rest2 := hs ++ 10 :: rest3). set (l := match comment with Some t => 35 :: t ++ [10] | None => [] end ++ ws ++ 32 :: rest2).
  assert (exists f, length l = S (S (S f)) /\ (length pixels <= f)%nat) as (f & Ef & Hf).
  { exists (length l - 3)%nat. assert (length pixels + 3 <= length l)%nat; [|lia]. unfold l, rest2, rest3. rewrite !length_app. cbn [length]. rewrite length_app. cbn [length]. rewrite length_app. cbn [length]. lia. }
  assert (forall ds, decimal ds -> exists d ds', ds = d :: ds' /\ d =? 35 = false) as Hhead.
  { intros ds [Hds (d & ds' & -> & _)]. apply list.Forall_cons in Hds as [Hd _]. unfold decimal_digit in Hd. exists d, ds'. split; [done|]. apply Z.eqb_neq. lia. }
  assert (ppm_loop (S (S (S f))) 0 0 0 l [] = ppm_loop (S (S f)) (decimal_value 0 ws) 0 0 rest2 (le_bytes 4 (decimal_value 0 ws))) as E1.
  { destruct (fscanf_dec 0 ws 32 rest2) as [F1 F2]; [done|done|done|by apply decimal_no_space|]. unfold l. destruct comment as [t|].
    - rewrite <- app_comm_cons, <- app_assoc. cbn [ppm_loop app]. change (35 =? 35) with true. cbv iota. rewrite skip_comment_run by done. change (0 =? 0) with true. cbv iota.
      munfold. rewrite F2. by rewrite Uw.
    - destruct (Hhead ws Hw) as (d & ds' & Ews & Hd). rewrite Ews in F1 |- *. cbn [ppm_loop app] in *. rewrite Hd. change (0 =? 0) with true. cbv iota. munfold. rewrite F1. rewrite <- Ews. by rewrite Uw. }
  assert (ppm_loop (S (S f)) (decimal_value 0 ws) 0 0 rest2 (le_bytes 4 (decimal_value 0 ws)) =
    ppm_loop (S f) (decimal_value 0 ws) (decimal_value 0 hs) 0 rest3 (le_bytes 4 (decimal_value 0 ws) ++ le_bytes 4 (decimal_value 0 hs))) as E2.
  { destruct (fscanf_dec 0 hs 10 rest3) as [F1 _]; [done|done|done|by apply decimal_no_space|]. unfold rest2. destruct (Hhead hs Hh) as (d & ds' & Ehs & Hd). rewrite Ehs in F1 |- *.
    cbn [ppm_loop app] in *. rewrite Hd, (proj2 (Z.eqb_neq (decimal_value 0 ws) 0)) by lia. change (0 =? 0) with true. cbv iota. munfold. rewrite F1. rewrite <- Ehs. by rewrite Uh. }
  assert (ppm_loop (S f) (decimal_value 0 ws) (decimal_value 0 hs) 0 rest3 (le_bytes 4 (decimal_value 0 ws) ++ le_bytes 4 (decimal_value 0 hs)) =
    ppm_loop f (decimal_value 0 ws) (decimal_value 0 hs) (decimal_value 0 cs) pixels (le_bytes 4 (decimal_value 0 ws) ++ le_bytes 4 (decimal_value 0 hs))) as E3.
  { destruct (fscanf_dec 0 cs 10 pixels) as [F1 _]; [done|done|done|done|]. unfold rest3. destruct (Hhead cs Hc) as (d & ds' & Ecs & Hd). rewrite Ecs in F1 |- *.
    cbn [ppm_loop app] in *. rewrite Hd, (proj2 (Z.eqb_neq (decimal_value 0 ws) 0)), (proj2 (Z.eqb_neq (decimal_value 0 hs) 0)) by lia. change (0 =? 0) with true. cbv iota. munfold. by rewrite F1, <- Ecs. }
  unfold ppm_file, ppmtoimg. change (negb (80 =? 80)) with false. cbn [andb]. fold rest3 rest2 l. rewrite Ef, E1, E2, E3, ppm_pixels by (done || lia). by rewrite app_assoc.
Qed.

(** The converter ends on every input: each turn of its loop takes at least one byte. *)
Theorem ppmtoimg_ends (input : list Z) : ppmtoimg input <> OutOfFuel.
Proof.
  unfold ppmtoimg. destruct input as [|d0 [|d1 [|d2 l]]]; try done. destruct (_ && _); [done|]. by apply ppm_loop_ends.
Qed.

Lemma ppmtoimg_correct_witness : ppmtoimg (ppm_file (Some [104; 105]) [50] [49] [50; 53; 53] [1; 2; 3; 4; 5; 6]) = Ok (0, [2; 0; 0; 0; 1; 0; 0; 0; 1; 2; 3; 4; 5; 6]).
Proof.
  apply (ppmtoimg_correct (Some [104; 105]) [50] [49] [50; 53; 53] [1; 2; 3; 4; 5; 6]).
  all: try (split; [split; [repeat constructor; unfold decimal_digit; lia|eexists _, _; split; [reflexivity|lia]]|reflexivity]).
  - repeat constructor; lia.
  - repeat constructor; lia.
  - reflexivity.
Defined.

(** A number sign among the pixels starts a comment: it is replaced, with all up to the
    next line feed, by that line feed. *)
Theorem ppmtoimg_drops_pixels : ppmtoimg (ppm_file None [50] [49] [50; 53; 53] [1; 35; 3; 10; 5; 6]) = Ok (0, [2; 0; 0; 0; 1; 0; 0; 0; 1; 10; 5; 6]).
Proof. vm_compute. reflexivity. Qed.

(** White space at the front of the pixels is taken for the end of the header. *)
Theorem ppmtoimg_skips_pixels : ppmtoimg (ppm_file None [50] [49] [50; 53; 53] [32; 9; 3; 4; 5; 6]) = Ok (0, [2; 0; 0; 0; 1; 0; 0; 0; 3; 4; 5; 6]).
Proof. vm_compute. reflexivity. Qed.

(** A second comment line is refused. *)
Theorem ppmtoimg_two_comments : ppmtoimg ([80; 54; 10; 35; 97; 10; 35; 98; 10] ++ [50; 32; 49; 10; 50; 53; 53; 10; 1; 2; 3; 4; 5; 6]) = Ok (1, []).
Proof. vm_compute. reflexivity. Qed.
